(* ===== verification/_CoqProject ===== *)
-Q . S2P
Prelude.v
Mctrl.v
Profiler.v
Tlb.v
Mmu.v
Cpu.v
Instr.v
Fpu.v
Exec.v
Words.v
Privilege.v
Windows.v
Irqmp.v
Gptimer.v
Uart.v
Ps2.v
Apb.v
DebugStop.v
DebugWait.v
Gdb.v
GdbProofs.v
AudioOut.v
Ac97.v
Ac97Proofs.v
Video.v
Grpci2.v
Grpci2Proofs.v
DeviceWords.v
Ac97Words.v
VideoWords.v
Board.v
VideoProofs.v
Smp.v
SmpProofs.v
Elf.v
ElfProofs.v
AmbaIds.v
Amba.v
AmbaDump.v
Debug.v
DebugProofs.v
Dis.v
DisProofs.v
Cmdline.v
Boot.v
BootProofs.v
BootRuns.v
Runelf.v
RunelfProofs.v
Options.v
Shutdown.v
Emulator.v
LockProfile.v
BusThread.v
LoopTimer.v
ProfilerReport.v
