(* ===== verification/Prelude.v ===== *)
(** * Verification of the SPARC V8 / LEON3 emulator

    The program (src/src) emulates a LEON3 system on chip: one or more SPARC V8
    processors with an SRMMU each, a memory controller with RAM and ROM banks,
    an APB bridge with interrupt controller, timer unit, UARTs, a PS/2 keyboard
    controller and a PCI bridge behind which sits an AC97 audio controller, and
    a debugger stub that speaks the GDB remote protocol.  A processor thread runs
    [CPU::run]: it polls the interrupt controller, enters interrupts and traps,
    fetches through its MMU, decodes through two function tables and executes
    one instruction.  Every memory access goes through [MMU::MemAccess], which
    uses host-pointer page caches, the TLB, the page walk and finally a bank of
    the memory controller; a bank can be the APB bridge, so that loads and
    stores reach the peripherals.  A second thread, the bus clock, advances the
    timer, polls the UART and ticks the audio controller, and raises interrupts;
    the display thread shows the frame buffer and delivers keys; the debugger
    stops and resumes all threads through the stop controller.  The main program
    builds the board, loads an image, patches the kernel's command line, creates
    the processors and starts the threads; a second program runs or disassembles
    an executable on a bare processor.

    ** Files and the sources they model

    - [Prelude]: machine integers, the state and error monad [M], record
      updates, the proof rules for [keeps] (an operation keeps an invariant
      however it ends), the hint databases [u32] and [keeps].
    - [Mctrl] (peripherals/MCTRL.h): memory banks, the bank list and its cache.
      Devices are the class [DeviceBus] over an abstract world.
    - [Tlb], [Mmu] (sparcv8/MMU.h, MMU.cpp): the TLB with its micro-cache, the
      table walk, permissions, page caches, fault registers, atomics.
    - [Cpu] (sparcv8/CPU.h, CPU.cpp, CPU_defines.h): processor state, windows,
      fetch, decode, write back, loads and stores, traps, reset, power down.
    - [Instr] (CPU_instructions.cpp and the two extension files): every integer
      instruction function.  [Fpu] (FPU_instructions.cpp): floating point.
    - [Exec] (CPU.cpp [run], CPU.h [excute_one]): dispatch, the TICC
      instruction with its nested execution at a breakpoint, the run loop.
    - [Words], [Privilege], [Windows]: theorems about the whole processor.
    - [Irqmp], [Gptimer], [Uart], [Ps2] (the headers and sources of the same
      name, console.h), [Apb] (APBCTRL.h, the loop of BusClock.cpp).
    - [DebugStop] (gdb/DebugStopController.hpp): the stop protocol as a step
      relation, one step per critical section or atomic access.  [DebugWait]
      ([wait_for_or_stop]): a worker that sleeps under it.
    - [Gdb], [GdbProofs] (gdb/gdb_stub.cpp, gdb_stub.hpp): the packet layer,
      the request handlers, memory and register access, breakpoints.
    - [Ac97], [Ac97Proofs] (ac97.cpp, ac97.hpp): the audio controller; what it
      pushes to the audio output is a list of samples.  [AudioOut] (class
      HostAudioOut of ac97.hpp): the output with its thread.
    - [Grpci2], [Grpci2Proofs] (GRPCI2.cpp, GRPCI2.hpp, pcidevice.hpp): the PCI
      bridge and its configuration area over the class [PciDevice].
    - [Video], [VideoProofs] (SVGA.h, Display.h, Display.cpp): the display
      controller, the render thread and the keyboard events.
    - [Board]: the devices behind the memory controller of a processor, as an
      instance of [DeviceBus], and the loop of the bus clock over them.
    - [Smp], [SmpProofs] (sparcv8_leon_smp.cpp [cpu_thread], [signal_handler];
      BusClock.cpp [run]; GRPCI2.hpp [tick]): the running system, a step
      relation over its threads.  [Shutdown]: what a signal does to it.
      [BusThread] (BusClock.cpp): start, stop and waiting for a tick.
    - [Elf], [ElfProofs] (readelf.cpp): the loader.  [AmbaIds], [Amba]
      (ambapp_ids.h, Amba.cpp and the attach calls of sparcv8_leon_smp.cpp): the
      plug and play tables.  [AmbaDump] (amba_pnp_dump.hpp, the macros of
      ambapp.h): their listing.
    - [Debug], [DebugProofs] (debug.cpp, [debug_list_banks] of MCTRL.h,
      [TLB::debug_dump], [CPU::dump_regs]) and [Dis], [DisProofs] (dis.cpp,
      dis.h): listings and the disassembler.  A printed line is a value.
    - [Cmdline] ([try_patch_cmdline_in_bank], [patch_cmdline]), [Boot],
      [BootProofs], [BootRuns] ([main] of sparcv8_leon_smp.cpp up to the start
      of the threads), [Runelf], [RunelfProofs] (sparcv8_runelf.cpp).
      [Options]: the command lines of both programs.  [Emulator]: [main] from
      its command line to the system of threads.
    - [Profiler], [ProfilerReport] (memaccessprofiler.hpp): the counters of
      memory accesses and their report.  [LockProfile] (mutexprofiler.hpp): the
      profiled lock with its shared counters.  [LoopTimer] (LoopTimer.h): the
      statistics of instruction times.

    The interfaces between the components are classes: [DeviceBus] with its
    laws [DeviceBusLaws] between memory controller and devices, [IntCtl] with
    [IntCtlLaws] between processor and interrupt controller, [ApbSlave] with
    [ApbSlaveLaws] and [PciDevice] with [PciDeviceLaws] for the slaves.  The
    processor's theorems are proved against the laws; [Board] discharges them
    for the concrete devices.

    A C++ object is a record with the same members; an operation is a Rocq
    function of the same name in the monad [M S A := S -> res A * S].  The
    result of an operation is a value, an exception with its type and text
    ([Exn]), or [Crash]: undefined behaviour of C++ (an index outside an array,
    an overflowing shift or division) or [std::terminate] (an exception that
    leaves a [noexcept] function).  The state is kept on every outcome.
    Integers are [Z] with the reduction modulo [2^w] written out.  Host pointers
    into a bank's buffer are a bank number and an offset.

    ** What the theorems show

    - Memory: the bank cache is transparent, attached banks stay disjoint, a
      write is read back and changes nothing else, unmapped accesses fail
      without effect ([Mctrl]).
    - Address translation: the TLB answers only with live entries and finds
      what was inserted ([Tlb]); a coherent TLB and the page caches do not
      change results, the permission checks agree with the architecture's
      table, a flush forces a walk, faults are described in the fault
      registers, and where the ROM lock fails ([Mmu]).
    - Instructions: add, subtract, logic, shift, multiply and divide against
      the architecture's arithmetic, the multiply-step sequence ([Instr]).
    - The processor: types and bounds are kept by any run ([Words]), user mode
      cannot change privileged state ([Privilege]), register windows, SAVE,
      RESTORE, trap entry, RETT and interrupt delivery ([Windows]); [run]
      terminates within its instruction count ([Exec]).
    - Devices: interrupt hints are exact and current and interrupts wake
      exactly the listening processors ([Irqmp]); the batch advance of the
      timer is the iterated tick ([Gptimer]); the UART refines a bounded queue
      ([Uart]); the PS/2 controller follows its protocol ([Ps2]).
    - Audio and PCI: a ring of buffers is played completely, in order and
      once, then halts; the ring indices and frame counts stay consistent in
      every reachable state; codec and configuration registers read back
      ([Ac97Proofs]); the samples reach the audio library in order, each once
      ([AudioOut]); the bridge's registers bit by bit and configuration
      cycles in the guest's byte order ([Grpci2Proofs]).
    - Display and keyboard: after a mode is set the window shows the guest's
      frame buffer pixel by pixel, key events reach a guest that decodes the
      keyboard's bytes, and only Ctrl+A followed by X quits ([VideoProofs]).
    - The board: a run on the concrete devices keeps every register of the
      processor and of the devices in its type; the bus clock's loop ends
      ([Board]); the guest finds its devices in the tables ([Amba]), and so does
      their listing ([AmbaDump]); the loader stores each segment at its address
      and nothing else ([ElfProofs]).
    - The system: every interleaving of the threads keeps every register, byte
      and counter in its type; an interrupt wakes a sleeping processor that
      listens to it whatever the other threads do; an iteration of the bus clock
      returns ([SmpProofs]).  The main program gets from its command line to
      its threads with the processors reset at the entry point and the image in
      memory ([BootRuns], [Emulator]); a configuration written as a command line
      is read back ([Options]); the kernel's command line is patched inside its
      buffer ([Cmdline]); the stand-alone program runs its file within its
      instruction count ([RunelfProofs]).  A signal stops the processors that
      are awake, and only those ([Shutdown]); the bus clock's thread can be
      stopped and its ticks are heard, but for one lost notification
      ([BusThread]).
    - Tools: the page table listing says of an address what the MMU does with it
      ([DebugProofs]); the disassembler's names and targets are the processor's
      ([DisProofs]); the profiler's counters account for every access
      ([Profiler]) and its report shows them ([ProfilerReport]); the lock
      profile is exact under every interleaving ([LockProfile]); the loop timer
      finds the extremes and the instructions that set them ([LoopTimer]).
      Where the first two are wrong is shown by examples.
    - Debugger: when all workers are reported stopped they are parked
      ([DebugStop]), with the two interleavings that break the protocol; a
      sleeping processor obeys the stop and hears its call ([DebugWait]);
      packets survive the wire, memory requests read and write exactly the
      bytes asked for, a removed breakpoint leaves no trace ([GdbProofs]).

    ** Bounds and fuel

    [run_loop] takes the number of iterations: for [run n] with [n > 0] the
    fuel [n] is enough ([run_bounded]); [n = 0] is the endless loop of the
    source and has no result but those of its prefixes.  [excute_one] takes the
    nesting depth of TICC at a breakpoint, whose replacement instruction may
    itself be such a TICC.  [bus_loop] takes one unit per due tick
    ([bus_clock_terminates]).  The loops of the ELF loader take the number of
    bytes of the file that are left, each iteration reads one, and at the end
    of the file the source exits as the model does; the zero fill takes the
    number of words.  [gdb_loop] takes the number of packets.  The searches of
    the command line take the size of the bank, [bus_iteration] the due ticks,
    [disassemble] the number of words of the first segment, the listings the
    number of banks and of table entries.

    ** Not modelled, and why

    Mutexes around single operations (operations are atomic steps), the layout
    of the output (its values are modelled), performance counters, the terminal,
    sockets and window system, the audio library (which blocks it is given is
    modelled), the host's clock (the frame credit of the audio engine, the due
    ticks of the bus clock, the milliseconds of the PCI bridge and the times of
    the profilers are arguments or part of the state), the loop statistics of the
    bus clock, the debugger's dump of the workers, the logging wrappers of
    cv_log.hpp, the generated device tables of the vendor, and the test drivers.
    [Options] models of getopt and strtol what the two programs use of them.

    In [Board] the display controller and the two windows of the audio
    controller are parameters: they refer back to the memory controller they are
    devices of.  [Video] and [Ac97] model them beside that controller; what the
    processors' theorems need of them is a law of their class.  In [Smp] a step
    is one instruction of a processor, one host iteration of the bus clock, one
    byte of the keyboard or one signal, and the debugger is not attached; races
    inside a step are not modelled, nor inside a pass of the render thread. *)
From stdpp Require Export base gmap list strings option numbers.
From Stdlib Require Export ZArith Lia Btauto.

#[global] Open Scope Z_scope.

(** ** Machine integers

    The sources use [u8], [u16], [u32] and [u64] (src/src/common.h).  A value of
    one of these types is a [Z] in range, and every operation that can leave the
    range is followed by the reduction written out here. *)

Definition u8 (x : Z) : Z := x mod 256.
Definition u16 (x : Z) : Z := x mod 65536.
Definition u32 (x : Z) : Z := x mod 4294967296.
Definition u64 (x : Z) : Z := x mod 18446744073709551616.

(** Two's complement reading of a 32-bit and of a 64-bit pattern: the C++ casts
    [(s32)x] and [(s64)x]. *)
Definition s32 (x : Z) : Z := if x <? 2147483648 then x else x - 4294967296.
Definition s64 (x : Z) : Z :=
  if x <? 9223372036854775808 then x else x - 18446744073709551616.

(** [~x] on a [u32] and on a [u8]. *)
Definition not32 (x : Z) : Z := Z.lxor x 0xffffffff.

(** [x << n] on a [u32]; the C++ operator is undefined for [n >= 32]. *)
Definition shl32 (x n : Z) : Z := u32 (Z.shiftl x n).

(** C truth value of an integer and integer value of a C comparison. *)
Definition truth (x : Z) : bool := negb (x =? 0).
Definition b2z (b : bool) : Z := if b then 1 else 0.

(** Bit [i] of [x] as C writes it: [(x >> i) & 1]. *)
Definition bit (x i : Z) : Z := Z.land (Z.shiftr x i) 1.

Definition is_u8 (x : Z) : Prop := 0 <= x < 256.
Definition is_u16 (x : Z) : Prop := 0 <= x < 65536.
Definition is_u32 (x : Z) : Prop := 0 <= x < 4294967296.

(** ** Outcomes of a computation *)

(** The C++ exceptions the sources throw, with their message. *)
Inductive exn :=
| runtime_error (msg : string)
| logic_error (msg : string)
| out_of_range (msg : string)
| invalid_argument (msg : string)
| not_implemented_leon_exception (msg : string)
| thrown_literal (msg : string).

(** [catch (const std::exception&)] takes all of them but a thrown string
    literal. *)
Definition is_std_exception (e : exn) : bool :=
  match e with thrown_literal _ => false | _ => true end.

(** Ways for the host program to stop making sense: undefined behaviour of the
    C++ abstract machine (an index outside an array, a shift by the width of the
    type, a division overflow), and [std::terminate], called when an exception
    leaves a [noexcept] function; [ProcessExit] is a call of [exit]. *)
Inductive crash := UndefinedBehaviour | StdTerminate | ProcessExit (status : Z).

(** [Blocked] is a thread parked on a condition variable whose predicate is
    false: it makes no further step until another thread changes the state. *)
Inductive res (A : Type) :=
| Val (a : A)
| Exn (e : exn)
| Crash (c : crash)
| Blocked.
Arguments Val {_} _.
Arguments Exn {_} _.
Arguments Crash {_} _.
Arguments Blocked {_}.

(** A computation over a state [S].  The state is returned on every path:
    what a C++ function assigned before it threw stays assigned. *)
Definition M (S A : Type) : Type := S -> res A * S.

Definition ret {S A} (a : A) : M S A := fun s => (Val a, s).
Definition bindM {S A B} (m : M S A) (k : A -> M S B) : M S B := fun s =>
  match m s with
  | (Val a, s') => k a s'
  | (Exn e, s') => (Exn e, s')
  | (Crash c, s') => (Crash c, s')
  | (Blocked, s') => (Blocked, s')
  end.

Declare Scope M_scope.
Delimit Scope M_scope with M.
Notation "x ← y ; z" := (bindM y (fun x => z))
  (at level 20, y at level 100, z at level 200) : M_scope.
Notation "' x ← y ; z" := (bindM y (fun x => z))
  (at level 20, x pattern, y at level 100, z at level 200) : M_scope.
Notation "y ;; z" := (bindM y (fun _ => z))
  (at level 100, z at level 200, right associativity) : M_scope.

Section monad.
Context {S : Type}.

Definition throw {A} (e : exn) : M S A := fun s => (Exn e, s).
Definition crash_with {A} (c : crash) : M S A := fun s => (Crash c, s).
Definition ub {A} : M S A := crash_with UndefinedBehaviour.
Definition block {A} : M S A := fun s => (Blocked, s).
Definition gets {A} (f : S -> A) : M S A := fun s => (Val (f s), s).
Definition modify (f : S -> S) : M S unit := fun s => (Val tt, f s).

(** An exception that leaves a [noexcept] function ends the program. *)
Definition noexcept {A} (m : M S A) : M S A := fun s =>
  match m s with
  | (Exn _, s') => (Crash StdTerminate, s')
  | r => r
  end.

(** [try { m } catch (const std::exception& e) { h }]. *)
Definition try_catch {A} (m : M S A) (h : exn -> M S A) : M S A := fun s =>
  match m s with
  | (Exn e, s') => if is_std_exception e then h e s' else (Exn e, s')
  | r => r
  end.

(** Value present, or undefined behaviour (a container access by index). *)
Definition or_ub {A} (o : option A) : M S A :=
  match o with Some a => ret a | None => ub end.

Definition when (b : bool) (m : M S unit) : M S unit :=
  if b then m else ret tt.

(** [for (x : l) body(x)]. *)
Fixpoint for_each {A} (l : list A) (body : A -> M S unit) : M S unit :=
  match l with
  | [] => ret tt
  | x :: l => (body x ;; for_each l body)%M
  end.
End monad.

(** Running a computation of a component inside a larger state. *)
Definition zoom {S T A} (get : S -> T) (put : T -> S -> S) (m : M T A) : M S A :=
  fun s => let '(r, t) := m (get s) in (r, put t s).

(** ** Functional record update

    [s <| f := v |>] is [s] with field [f] replaced.  A record gives its eta
    expansion once, and one [Setter] instance per field is derived from it. *)
Class Eta (R : Type) := eta : R -> R.
Class Setter {R T : Type} (proj : R -> T) := set_field_of : T -> R -> R.
Arguments set_field_of {R T} proj {_} _ _.

Ltac derive_setter :=
  match goal with
  | |- @Setter ?R ?T ?proj =>
      let e := eval cbv delta [eta] in (@eta R _) in
      let e := eval hnf in e in
      let p := eval pattern proj in e in
      match p with
      | ?f _ => let body := eval cbv beta in (fun (v : T) (r : R) => f (fun _ => v) r) in
                exact body
      end
  end.

Notation "s <| f := v |>" := (set_field_of f v s)
  (at level 12, left associativity, f at level 9, v at level 99,
   format "s  <| f  :=  v |>").

(** [a[i]] and [a[i] = v] on a C array; outside of it both are undefined. *)
Definition array_get {A} (a : list A) (i : Z) : option A :=
  if i <? 0 then None else a !! Z.to_nat i.
Definition array_set {A} (a : list A) (i : Z) (v : A) : option (list A) :=
  if (0 <=? i) && (i <? Z.of_nat (length a)) then Some (<[Z.to_nat i := v]> a) else None.

Lemma array_set_Some {A} (a : list A) i v a' :
  array_set a i v = Some a' -> a' = <[Z.to_nat i := v]> a /\ 0 <= i < Z.of_nat (length a).
Proof.
  unfold array_set. destruct (_ && _) eqn:E; [|done]. intros [= <-]. split; [done|lia].
Qed.

Lemma array_set_in {A} (a : list A) i v : 0 <= i < Z.of_nat (length a) -> array_set a i v = Some (<[Z.to_nat i := v]> a).
Proof. intros. unfold array_set. by rewrite (proj2 (Z.leb_le 0 i)), (proj2 (Z.ltb_lt i _)) by lia. Qed.

Lemma array_get_in {A} (a : list A) i : 0 <= i < Z.of_nat (length a) -> exists v, array_get a i = Some v.
Proof.
  intros Hi. unfold array_get. rewrite (proj2 (Z.ltb_ge i 0)) by lia.
  apply lookup_lt_is_Some. lia.
Qed.

(** ** Running a computation *)

Section run_lemmas.
Context {S : Type}.

Lemma bindM_val {A B} (m : M S A) (k : A -> M S B) s a s' :
  m s = (Val a, s') -> bindM m k s = k a s'.
Proof. unfold bindM. by intros ->. Qed.

Lemma bindM_exn {A B} (m : M S A) (k : A -> M S B) s e s' :
  m s = (Exn e, s') -> bindM m k s = (Exn e, s').
Proof. unfold bindM. by intros ->. Qed.

Lemma bindM_inv_val {A B} (m : M S A) (k : A -> M S B) s b s'' :
  bindM m k s = (Val b, s'') -> exists a s', m s = (Val a, s') /\ k a s' = (Val b, s'').
Proof. unfold bindM. destruct (m s) as [[a|e|c|] s'] eqn:E; naive_solver. Qed.

(** [m] keeps the invariant [I] on every path, and a value it returns
    satisfies [R]. *)
Definition keeps {A} (I : S -> Prop) (m : M S A) (R : A -> Prop) : Prop :=
  forall s, I s -> I (m s).2 /\ (forall a, (m s).1 = Val a -> R a).

Lemma keeps_bind {A B} (I : S -> Prop) (m : M S A) (k : A -> M S B) R Q :
  keeps I m R -> (forall a, R a -> keeps I (k a) Q) -> keeps I (bindM m k) Q.
Proof.
  intros Hm Hk s Hs. destruct (Hm s Hs) as [H1 H2]. unfold bindM.
  destruct (m s) as [[a|e|c|] s']; simpl in *; try (split; [done|discriminate]).
  by apply (Hk a (H2 a eq_refl)).
Qed.

Lemma keeps_ret {A} (I : S -> Prop) (a : A) (R : A -> Prop) : R a -> keeps I (ret a) R.
Proof. intros HR s Hs. split; [done|]. intros b [= <-]. done. Qed.

Lemma keeps_weaken {A} (I : S -> Prop) (m : M S A) (R Q : A -> Prop) :
  keeps I m R -> (forall a, R a -> Q a) -> keeps I m Q.
Proof. intros Hm HQ s Hs. destruct (Hm s Hs) as [? ?]. split; eauto. Qed.

Lemma keeps_stop {A} (I : S -> Prop) (r : res A) (R : A -> Prop) :
  (forall a, r <> Val a) -> keeps I (fun s => (r, s)) R.
Proof. intros Hr s Hs. split; [done|]. simpl. intros a ->. by destruct (Hr a). Qed.

Lemma keeps_noexcept {A} (I : S -> Prop) (m : M S A) (R : A -> Prop) :
  keeps I m R -> keeps I (noexcept m) R.
Proof.
  intros Hm s Hs. destruct (Hm s Hs) as [H1 H2]. unfold noexcept.
  destruct (m s) as [[a|e|c|] s']; simpl in *; split; naive_solver.
Qed.

Lemma keeps_when (I : S -> Prop) b (m : M S unit) R :
  (b = true -> keeps I m R) -> R tt -> keeps I (when b m) R.
Proof. intros Hm HR. destruct b; [by apply Hm|by apply keeps_ret]. Qed.

Lemma keeps_gets {A} (I : S -> Prop) (f : S -> A) (R : A -> Prop) :
  (forall s, I s -> R (f s)) -> keeps I (gets f) R.
Proof. intros Hf s Hs. split; [done|]. intros a [= <-]. by apply Hf. Qed.

Lemma keeps_gets_any {A} (I : S -> Prop) (f : S -> A) : keeps I (gets f) (fun _ => True).
Proof. by apply keeps_gets. Qed.

Lemma keeps_for_each {A} (I : S -> Prop) (l : list A) body :
  (forall x, keeps I (body x) (fun _ => True)) -> keeps I (for_each l body) (fun _ => True).
Proof.
  intros Hb. induction l as [|x l IH]; [by apply keeps_ret|]. cbn.
  eapply keeps_bind; [apply Hb|]. by intros.
Qed.

Lemma keeps_modify (I : S -> Prop) (f : S -> S) (R : unit -> Prop) :
  (forall s, I s -> I (f s)) -> R tt -> keeps I (modify f) R.
Proof. intros Hf HR s Hs. split; [by apply Hf|]. by intros []. Qed.
End run_lemmas.

(** ** Bits *)

Lemma mod_pow2_land x n : 0 <= n -> x mod 2 ^ n = Z.land x (Z.ones n).
Proof. intros Hn. by rewrite Z.land_ones. Qed.

Lemma u32_id x : is_u32 x -> u32 x = x.
Proof. intros ?. by apply Z.mod_small. Qed.

Lemma u32_range x : is_u32 (u32 x).
Proof. by apply Z.mod_pos_bound. Qed.

Lemma testbit_high x n i : 0 <= x < 2 ^ n -> 0 <= n <= i -> Z.testbit x i = false.
Proof.
  intros Hx Hi. destruct (decide (x = 0)) as [->|]; [by rewrite Z.bits_0|].
  apply Z.bits_above_log2; [lia|]. apply Z.log2_lt_pow2; [lia|].
  eapply Z.lt_le_trans; [apply Hx|]. apply Z.pow_le_mono_r; lia.
Qed.

(** A non-negative number all of whose bits from [n] on are clear. *)
Lemma small_by_bits x n :
  0 <= n -> (forall i, n <= i -> Z.testbit x i = false) -> 0 <= x < 2 ^ n.
Proof.
  intros Hn Hb.
  assert (x = x mod 2 ^ n) as ->.
  { apply Z.bits_inj'. intros i Hi. destruct (decide (i < n)).
    - by rewrite Z.mod_pow2_bits_low.
    - rewrite Z.mod_pow2_bits_high by lia. apply Hb. lia. }
  apply Z.mod_pos_bound. lia.
Qed.

Lemma land_range x y n : 0 <= n -> 0 <= y < 2 ^ n -> 0 <= Z.land x y < 2 ^ n.
Proof.
  intros Hn Hy. apply small_by_bits; [done|]. intros i Hi.
  by rewrite Z.land_spec, (testbit_high y n i), andb_false_r by lia.
Qed.

Lemma lor_range x y n : 0 <= n -> 0 <= x < 2 ^ n -> 0 <= y < 2 ^ n -> 0 <= Z.lor x y < 2 ^ n.
Proof.
  intros Hn Hx Hy. apply small_by_bits; [done|]. intros i Hi.
  by rewrite Z.lor_spec, (testbit_high x n i), (testbit_high y n i) by lia.
Qed.

Lemma lxor_range x y n : 0 <= n -> 0 <= x < 2 ^ n -> 0 <= y < 2 ^ n -> 0 <= Z.lxor x y < 2 ^ n.
Proof.
  intros Hn Hx Hy. apply small_by_bits; [done|]. intros i Hi.
  by rewrite Z.lxor_spec, (testbit_high x n i), (testbit_high y n i) by lia.
Qed.

Lemma not32_sub x : is_u32 x -> not32 x = 4294967295 - x.
Proof.
  intros Hx. unfold not32. replace 4294967295 with (Z.ones 32) by reflexivity.
  assert (Z.land x (Z.lxor x (Z.ones 32)) = 0) as Hd.
  { apply Z.bits_inj'. intros i Hi. rewrite Z.land_spec, Z.lxor_spec, Z.bits_0.
    destruct (decide (i < 32)).
    - rewrite Z.ones_spec_low by lia. by destruct (Z.testbit x i).
    - by rewrite (testbit_high x 32 i) by (unfold is_u32 in Hx; lia). }
  assert (Z.lxor x (Z.lxor x (Z.ones 32)) = Z.ones 32) as Hx2.
  { by rewrite <- Z.lxor_assoc, Z.lxor_nilpotent, Z.lxor_0_l. }
  rewrite <- Z.add_nocarry_lxor in Hx2 by done. lia.
Qed.

Lemma not32_range x : is_u32 x -> is_u32 (not32 x).
Proof. intros Hx. rewrite not32_sub by done. unfold is_u32 in *. lia. Qed.

Create HintDb u32 discriminated.
#[export] Hint Constants Opaque : u32.
#[export] Hint Resolve u32_range not32_range : u32.

(** Joining two bit ranges that do not meet is addition. *)
Lemma lor_add x y n : 0 <= n -> x mod 2 ^ n = 0 -> 0 <= y < 2 ^ n -> Z.lor x y = x + y.
Proof.
  intros Hn Hx Hy. symmetry. apply Z.add_nocarry_lor.
  apply Z.bits_inj'. intros i Hi. rewrite Z.land_spec, Z.bits_0.
  destruct (decide (i < n)).
  - assert (Z.testbit x i = false) as ->; [|done].
    by rewrite <- (Z.mod_pow2_bits_low x n i), Hx, Z.bits_0 by lia.
  - by rewrite (testbit_high y n i), andb_false_r by lia.
Qed.

(** ** Single bits *)

Lemma land1_testbit x : Z.land x 1 = b2z (Z.testbit x 0).
Proof. rewrite Z.bit0_odd. change 1 with (Z.ones 1). rewrite Z.land_ones by lia. apply Zmod_odd. Qed.

Lemma bit_testbit x i : 0 <= i -> bit x i = b2z (Z.testbit x i).
Proof. intros. unfold bit. by rewrite land1_testbit, Z.shiftr_spec, Z.add_0_l by lia. Qed.

Lemma truth_b2z b : truth (b2z b) = b.
Proof. by destruct b. Qed.

(** The C test [(x >> i) & 1]. *)
Lemma truth_shift_land x i : 0 <= i -> truth (Z.land (Z.shiftr x i) 1) = Z.testbit x i.
Proof. intros. fold (bit x i). by rewrite bit_testbit, truth_b2z. Qed.

Lemma truth_land1 x : truth (Z.land x 1) = Z.testbit x 0.
Proof. by rewrite land1_testbit, truth_b2z. Qed.

Lemma testbit_pow2 k i : 0 <= k -> Z.testbit (Z.shiftl 1 k) i = (k =? i).
Proof.
  intros Hk. rewrite Z.shiftl_1_l. destruct (k =? i) eqn:E.
  - apply Z.eqb_eq in E as <-. by apply Z.pow2_bits_true.
  - apply Z.eqb_neq in E. by apply Z.pow2_bits_false.
Qed.

(** The C tests [x & (1 << k)] and [(1 << k) & x]. *)
Lemma truth_land_pow2 x k : 0 <= k -> truth (Z.land x (Z.shiftl 1 k)) = Z.testbit x k.
Proof.
  intros Hk. unfold truth. destruct (Z.testbit x k) eqn:E.
  - apply negb_true_iff, Z.eqb_neq. intros H0. apply (f_equal (fun z => Z.testbit z k)) in H0.
    by rewrite Z.land_spec, E, testbit_pow2, Z.eqb_refl, Z.bits_0 in H0.
  - apply negb_false_iff, Z.eqb_eq, Z.bits_inj'. intros i Hi.
    rewrite Z.land_spec, testbit_pow2, Z.bits_0 by done.
    destruct (k =? i) eqn:Ek; [|by rewrite andb_false_r].
    apply Z.eqb_eq in Ek as <-. by rewrite E.
Qed.

Lemma truth_pow2_land x k : 0 <= k -> truth (Z.land (Z.shiftl 1 k) x) = Z.testbit x k.
Proof. intros. rewrite Z.land_comm. by apply truth_land_pow2. Qed.

Lemma shl32_1 k : 0 <= k < 32 -> shl32 1 k = Z.shiftl 1 k.
Proof.
  intros Hk. unfold shl32. apply u32_id. rewrite Z.shiftl_1_l. split; [lia|].
  change 4294967296 with (2 ^ 32). apply Z.pow_lt_mono_r; lia.
Qed.

(** ** Evaluation of closed integer subterms

    [ground] evaluates operations on integer literals in the goal and leaves
    operations on variables folded. *)
Ltac is_pconst p :=
  lazymatch p with
  | xH => idtac
  | xO ?q => is_pconst q
  | xI ?q => is_pconst q
  end.
Ltac is_zconst z :=
  lazymatch z with
  | Z0 => idtac
  | Zpos ?p => is_pconst p
  | Zneg ?p => is_pconst p
  end.
Ltac ground_binary f a b :=
  is_zconst a; is_zconst b;
  let t := constr:(f a b) in
  let v := eval vm_compute in t in
  change t with v.
Ltac ground :=
  repeat match goal with
  | |- context [Z.land ?a ?b] => ground_binary Z.land a b
  | |- context [Z.lor ?a ?b] => ground_binary Z.lor a b
  | |- context [Z.lxor ?a ?b] => ground_binary Z.lxor a b
  | |- context [Z.shiftl ?a ?b] => ground_binary Z.shiftl a b
  | |- context [Z.shiftr ?a ?b] => ground_binary Z.shiftr a b
  | |- context [Z.eqb ?a ?b] => ground_binary Z.eqb a b
  | |- context [Z.ltb ?a ?b] => ground_binary Z.ltb a b
  | |- context [Z.leb ?a ?b] => ground_binary Z.leb a b
  | |- context [Z.add ?a ?b] => ground_binary Z.add a b
  | |- context [Z.sub ?a ?b] => ground_binary Z.sub a b
  | |- context [Z.testbit ?a ?b] => ground_binary Z.testbit a b
  | |- context [not32 ?a] => is_zconst a; let v := eval vm_compute in (not32 a) in change (not32 a) with v
  | |- context [truth ?a] => is_zconst a; let v := eval vm_compute in (truth a) in change (truth a) with v
  end.

(** The top bit of a word. *)
Lemma top_bit x : is_u32 x -> Z.shiftr x 31 = if x <? 2147483648 then 0 else 1.
Proof.
  unfold is_u32. intros Hx. rewrite Z.shiftr_div_pow2 by lia. change (2 ^ 31) with 2147483648.
  destruct (x <? 2147483648) eqn:E; Z.div_mod_to_equations; lia.
Qed.

(** Assignment of one bit. *)
Lemma testbit_not_pow2 k j : 0 <= k -> 0 <= j < 32 -> Z.testbit (not32 (Z.shiftl 1 k)) j = negb (k =? j).
Proof.
  intros Hk Hj. unfold not32. change 0xffffffff with (Z.ones 32).
  by rewrite Z.lxor_spec, testbit_pow2, Z.ones_spec_low, xorb_true_r by lia.
Qed.

Lemma testbit_not32 x j : 0 <= j < 32 -> Z.testbit (not32 x) j = negb (Z.testbit x j).
Proof.
  intros Hj. unfold not32. change 0xffffffff with (Z.ones 32).
  by rewrite Z.lxor_spec, Z.ones_spec_low, xorb_true_r by lia.
Qed.

Lemma testbit_b2z_0 b : Z.testbit (b2z b) 0 = b.
Proof. by destruct b. Qed.

Lemma sign_bit x : is_u32 x -> Z.shiftr x 31 = b2z (2147483648 <=? x).
Proof.
  intros Hx. rewrite top_bit by done. destruct (x <? 2147483648) eqn:E.
  - by rewrite (proj2 (Z.leb_gt _ _)) by lia.
  - by rewrite (proj2 (Z.leb_le _ _)) by lia.
Qed.

Lemma sign_bit_testbit x : is_u32 x -> Z.testbit x 31 = (2147483648 <=? x).
Proof.
  intros Hx. rewrite <- (Z.add_0_l 31), <- Z.shiftr_spec, sign_bit by (done || lia).
  apply testbit_b2z_0.
Qed.

(** Run the first action of a goal, when it returns a value at once. *)
Ltac mstep := erewrite bindM_val by reflexivity; cbv beta.

(** ** Words closed under the bit operations *)

Lemma is_u32_pow x : is_u32 x <-> 0 <= x < 2 ^ 32.
Proof. done. Qed.

Lemma land_u32 x y : is_u32 y -> is_u32 (Z.land x y).
Proof. rewrite !is_u32_pow. by apply land_range. Qed.

Lemma land_u32_l x y : is_u32 x -> is_u32 (Z.land x y).
Proof. rewrite Z.land_comm. apply land_u32. Qed.

Lemma lor_u32 x y : is_u32 x -> is_u32 y -> is_u32 (Z.lor x y).
Proof. rewrite !is_u32_pow. by apply lor_range. Qed.

Lemma lxor_u32 x y : is_u32 x -> is_u32 y -> is_u32 (Z.lxor x y).
Proof. rewrite !is_u32_pow. by apply lxor_range. Qed.

Lemma shiftr_u32 x n : 0 <= n -> is_u32 x -> is_u32 (Z.shiftr x n).
Proof.
  unfold is_u32. intros Hn Hx. rewrite Z.shiftr_div_pow2 by done.
  split; [apply Z.div_pos; lia|]. apply (Z.le_lt_trans _ x); [|lia].
  apply Z.div_le_upper_bound; nia.
Qed.

Lemma shl32_u32 x n : is_u32 (shl32 x n).
Proof. apply u32_range. Qed.

Lemma bit_u32 x i : is_u32 (bit x i).
Proof. apply land_u32. unfold is_u32; lia. Qed.

Lemma is_u8_u32 x : is_u8 x -> is_u32 x.
Proof. unfold is_u8, is_u32. lia. Qed.

Lemma is_u16_u32 x : is_u16 x -> is_u32 x.
Proof. unfold is_u16, is_u32. lia. Qed.

#[export] Hint Resolve land_u32 land_u32_l lor_u32 lxor_u32 shl32_u32 bit_u32 : u32.
#[export] Hint Immediate is_u8_u32 is_u16_u32 : u32.
#[export] Hint Extern 1 (is_u32 (Zpos _)) => (unfold is_u32; lia) : u32.
#[export] Hint Extern 1 (is_u32 Z0) => (unfold is_u32; lia) : u32.
#[export] Hint Extern 2 (is_u32 (Z.shiftr _ _)) => 
  (apply shiftr_u32; [first [lia | apply Z.land_nonneg; right; by compute]|]) : u32.
#[export] Hint Extern 1 (is_u32 (if ?b then _ else _)) => destruct b : u32.

(** ** Invariants, by the shape of a computation *)

Section keeps_more.
Context {S : Type} (I : S -> Prop).

(** The strongest postconditions of the two ways to read the state. *)
Lemma keeps_gets_strong {A} (f : S -> A) : keeps I (gets f) (fun a => exists s, I s /\ a = f s).
Proof. apply keeps_gets. eauto. Qed.

Lemma keeps_or_ub {A} (o : option A) : keeps I (or_ub o) (fun a => o = Some a).
Proof. destruct o; [by apply keeps_ret|by apply keeps_stop]. Qed.

Lemma keeps_zoom {T A} (get : S -> T) put (J : T -> Prop) (m : M T A) R :
  keeps J m R -> (forall s, I s -> J (get s)) -> (forall s t, I s -> J t -> I (put t s)) ->
  keeps I (zoom get put m) R.
Proof.
  intros Hm Hg Hp s Hs. destruct (Hm (get s) (Hg s Hs)) as [H1 H2]. unfold zoom.
  destruct (m (get s)) as [r t]. split; [by apply Hp|done].
Qed.

Lemma keeps_any {A} (m : M S A) R : keeps I m R -> keeps I m (fun _ => True).
Proof. intros Hm. by apply (keeps_weaken _ _ _ _ Hm). Qed.
End keeps_more.

Create HintDb keeps discriminated.
#[export] Hint Constants Opaque : keeps.
#[export] Hint Resolve keeps_gets_strong keeps_or_ub : keeps.

(** One step of a proof of [keeps]: the head of the computation decides. *)
Ltac keeps_step :=
  lazymatch goal with
  | |- keeps _ (@bindM _ unit _ _ _) _ => apply (keeps_bind _ _ _ (fun _ => True)); [|intros ? _]
  | |- keeps _ (bindM _ _) _ => eapply keeps_bind; [|intros ? ?]
  | |- keeps _ (ret _) _ => apply keeps_ret
  | |- keeps _ (when _ _) _ => apply keeps_when; [intros ?|]
  | |- keeps _ (throw _) _ => by apply keeps_stop
  | |- keeps _ ub _ => by apply keeps_stop
  | |- keeps _ block _ => by apply keeps_stop
  | |- keeps _ (noexcept _) _ => apply keeps_noexcept
  | |- keeps _ (gets _) _ => first [apply keeps_gets_strong | eapply keeps_any; apply keeps_gets_strong]
  | |- keeps _ (or_ub _) _ => first [apply keeps_or_ub | eapply keeps_any; apply keeps_or_ub]
  | |- keeps _ (match ?x with _ => _ end) _ => destruct x eqn:?
  | |- keeps _ _ (fun _ => True) => first [solve [eauto 6 with keeps u32] | eapply keeps_any; solve [eauto 6 with keeps u32]]
  | |- keeps _ _ _ => solve [eauto 6 with keeps u32]
  end.
Ltac keeps_auto := repeat (keeps_step; try done).
