(* ===== verification/Mctrl.v ===== *)
(** * Memory controller and memory banks (src/src/peripherals/MCTRL.h)

    [IMemoryBank] with its RAM and ROM implementations, and [MCtrl]: the list of
    attached banks, the thread-local cache of the last bank used, the throwing
    and the [try_] access functions, and the atomic operations.  Banks that are
    peripherals are reached through the class [DeviceBus].  The model is the
    build with [NDEBUG] (the default and the documented build types define it),
    so the debug-only assertions are absent. *)
From S2P Require Import Prelude.

Inductive Endian := Little | Big.

Record AtomicResult := mkAtomicResult { ar_ok : bool; ar_old : Z }.

Inductive MemBusStatus := BusOk | NoDevice | DeviceError.

(** ** Host buffers

    A [std::vector<u8>] or [std::array<u8, N>] filled with zeroes: its length
    and the bytes that were assigned.  [operator[]] and pointer arithmetic are
    unchecked, so an index outside the length is [None], undefined behaviour. *)
Record bytes := mkBytes { b_len : Z; b_map : gmap Z Z }.

Definition in_buffer (d : bytes) (i : Z) : bool := (0 <=? i) && (i <? b_len d).

Definition bytes_get (d : bytes) (i : Z) : option Z :=
  if in_buffer d i then Some (default 0 (b_map d !! i)) else None.

Definition bytes_set (d : bytes) (i v : Z) : option bytes :=
  if in_buffer d i then Some (mkBytes (b_len d) (<[i := v]> (b_map d))) else None.

(** [(u32(b0) << 24) | (u32(b1) << 16) | (u32(b2) << 8) | u32(b3)], and the
    two-byte form. *)
Definition cat2 (b0 b1 : Z) : Z := Z.lor (Z.shiftl b0 8) b1.
Definition cat4 (b0 b1 b2 b3 : Z) : Z :=
  Z.lor (Z.lor (Z.lor (Z.shiftl b0 24) (Z.shiftl b1 16)) (Z.shiftl b2 8)) b3.

(** [(val >> s) & 0xff]. *)
Definition byte_at (v s : Z) : Z := Z.land (Z.shiftr v s) 0xff.

Definition peek16_be (d : bytes) (p : Z) : option Z :=
  b0 ← bytes_get d p; b1 ← bytes_get d (p + 1); Some (cat2 b0 b1).
Definition peek16_le (d : bytes) (p : Z) : option Z :=
  b0 ← bytes_get d p; b1 ← bytes_get d (p + 1); Some (cat2 b1 b0).
Definition peek32_be (d : bytes) (p : Z) : option Z :=
  b0 ← bytes_get d p; b1 ← bytes_get d (p + 1);
  b2 ← bytes_get d (p + 2); b3 ← bytes_get d (p + 3); Some (cat4 b0 b1 b2 b3).
Definition peek32_le (d : bytes) (p : Z) : option Z :=
  b0 ← bytes_get d p; b1 ← bytes_get d (p + 1);
  b2 ← bytes_get d (p + 2); b3 ← bytes_get d (p + 3); Some (cat4 b3 b2 b1 b0).

Definition poke16_be (d : bytes) (p v : Z) : option bytes :=
  d ← bytes_set d p (byte_at v 8); bytes_set d (p + 1) (byte_at v 0).
Definition poke16_le (d : bytes) (p v : Z) : option bytes :=
  d ← bytes_set d p (byte_at v 0); bytes_set d (p + 1) (byte_at v 8).
Definition poke32_be (d : bytes) (p v : Z) : option bytes :=
  d ← bytes_set d p (byte_at v 24); d ← bytes_set d (p + 1) (byte_at v 16);
  d ← bytes_set d (p + 2) (byte_at v 8); bytes_set d (p + 3) (byte_at v 0).
Definition poke32_le (d : bytes) (p v : Z) : option bytes :=
  d ← bytes_set d p (byte_at v 0); d ← bytes_set d (p + 1) (byte_at v 8);
  d ← bytes_set d (p + 2) (byte_at v 16); bytes_set d (p + 3) (byte_at v 24).

(** ** Banks *)

(** [DevBank] is a bank implemented by a peripheral; [null_ptr] says that its
    [get_ptr] returns [nullptr] (otherwise [get_ptr] throws). *)
Inductive bank :=
| RomBank (base : Z) (writeable : bool) (e : Endian) (data : bytes)
| RamBank (base : Z) (e : Endian) (data : bytes)
| DevBank (id : nat) (base size : Z) (e : Endian) (null_ptr : bool).

Definition get_base (b : bank) : Z :=
  match b with RomBank base _ _ _ | RamBank base _ _ | DevBank _ base _ _ _ => base end.

(** The [size_t] the bank was built with. *)
Definition bank_size (b : bank) : Z :=
  match b with
  | RomBank _ _ _ d | RamBank _ _ d => b_len d
  | DevBank _ _ size _ _ => size
  end.

Definition get_size (b : bank) : Z := u32 (bank_size b).

Definition get_end_exclusive (b : bank) : Z := u64 (get_base b + bank_size b).

Definition get_endian (b : bank) : Endian :=
  match b with RomBank _ _ e _ | RamBank _ e _ | DevBank _ _ _ e _ => e end.

Definition contains (b : bank) (addr : Z) : bool :=
  match b with
  | RomBank base _ _ d | RamBank base _ d => u64 (addr - base) <? b_len d
  | DevBank _ base size _ _ => (base <=? addr) && (addr <? base + size)
  end.

(** [lock()]: only ROM banks react. *)
Definition bank_lock (b : bank) : bank :=
  match b with RomBank base _ e d => RomBank base false e d | b => b end.

Definition set_data (b : bank) (d : bytes) : bank :=
  match b with
  | RomBank base w e _ => RomBank base w e d
  | RamBank base e _ => RamBank base e d
  | b => b
  end.

(** The [thread_local Cache c] of [find_bank_or_null]. *)
Record BankCache := mkBankCache {
  c_owner_id : Z; c_gen : Z; c_b : option nat; c_start : Z; c_size : Z }.

(** [MCtrl], with the calling thread's cache and the devices behind the banks. *)
Record mctrl (W : Type) := mkMctrl {
  banks : list bank; generation_ : Z; instance_id_ : Z; tl_cache : BankCache;
  world : W }.
Arguments mkMctrl {_} _ _ _ _ _.
Arguments banks {_} _.
Arguments generation_ {_} _.
Arguments instance_id_ {_} _.
Arguments tl_cache {_} _.
Arguments world {_} _.

#[export] Instance eta_mctrl W : Eta (mctrl W) :=
  fun m => mkMctrl (banks m) (generation_ m) (instance_id_ m) (tl_cache m) (world m).
#[export] Instance set_banks W : Setter (@banks W) := ltac:(derive_setter).
#[export] Instance set_generation W : Setter (@generation_ W) := ltac:(derive_setter).
#[export] Instance set_tl_cache W : Setter (@tl_cache W) := ltac:(derive_setter).
#[export] Instance set_world W : Setter (@world W) := ltac:(derive_setter).

(** What a peripheral promises to the memory controller: the virtual accessors
    of [IMemoryBank], by the identifier of the device bank. They run on the
    whole controller, since some peripherals access memory themselves. *)
Class DeviceBus (W : Type) := {
  dev_read8 : nat -> Z -> M (mctrl W) Z;
  dev_read16 : nat -> Z -> bool -> M (mctrl W) Z;
  dev_read32 : nat -> Z -> bool -> M (mctrl W) Z;
  dev_write8 : nat -> Z -> Z -> M (mctrl W) unit;
  dev_write16 : nat -> Z -> Z -> bool -> M (mctrl W) unit;
  dev_write32 : nat -> Z -> Z -> bool -> M (mctrl W) unit;
}.

(** A controller no bank of which is a peripheral. *)
Definition dead_bus {W} : DeviceBus W := {|
  dev_read8 _ _ := ub; dev_read16 _ _ _ := ub; dev_read32 _ _ _ := ub;
  dev_write8 _ _ _ := ub; dev_write16 _ _ _ _ := ub; dev_write32 _ _ _ _ := ub |}.

#[local] Open Scope M_scope.

Section defaults.
Context {S : Type} (read8 : Z -> M S Z) (write8 : Z -> Z -> M S unit) (e : Endian).

Definition default_read16 (addr : Z) : M S Z :=
  hi ← read8 addr; lo ← read8 (u32 (addr + 1));
  ret (match e with Big => cat2 hi lo | Little => cat2 lo hi end).

Definition default_write16 (addr val : Z) : M S unit :=
  match e with
  | Big => write8 addr (byte_at val 8) ;; write8 (u32 (addr + 1)) (byte_at val 0)
  | Little => write8 addr (byte_at val 0) ;; write8 (u32 (addr + 1)) (byte_at val 8)
  end.

Definition default_read32 (addr : Z) : M S Z :=
  b0 ← read8 addr; b1 ← read8 (u32 (addr + 1));
  b2 ← read8 (u32 (addr + 2)); b3 ← read8 (u32 (addr + 3));
  ret (match e with Big => cat4 b0 b1 b2 b3 | Little => cat4 b3 b2 b1 b0 end).

Definition default_write32 (addr val : Z) : M S unit :=
  match e with
  | Big =>
      write8 addr (byte_at val 24) ;; write8 (u32 (addr + 1)) (byte_at val 16) ;;
      write8 (u32 (addr + 2)) (byte_at val 8) ;; write8 (u32 (addr + 3)) (byte_at val 0)
  | Little =>
      write8 addr (byte_at val 0) ;; write8 (u32 (addr + 1)) (byte_at val 8) ;;
      write8 (u32 (addr + 2)) (byte_at val 16) ;; write8 (u32 (addr + 3)) (byte_at val 24)
  end.
End defaults.

Section defaults64.
Context {S : Type} (read32 : Z -> M S Z) (write32 : Z -> Z -> M S unit) (e : Endian).

Definition default_read64 (addr : Z) : M S Z :=
  w0 ← read32 addr; w1 ← read32 (u32 (addr + 4));
  ret (match e with
        | Big => Z.lor (Z.shiftl w0 32) w1
        | Little => Z.lor (Z.shiftl w1 32) w0
        end).

Definition default_write64 (addr val : Z) : M S unit :=
  let hi := u32 (Z.shiftr val 32) in
  let lo := Z.land val 0xffffffff in
  match e with
  | Big => write32 addr hi ;; write32 (u32 (addr + 4)) lo
  | Little => write32 addr lo ;; write32 (u32 (addr + 4)) hi
  end.
End defaults64.

(** ** The RAM accessors, on the buffer of the bank *)

Definition ram_read8 (base : Z) (d : bytes) (addr : Z) : option Z :=
  bytes_get d (u32 (addr - base)).
Definition ram_write8 (base : Z) (d : bytes) (addr val : Z) : option bytes :=
  bytes_set d (u32 (addr - base)) val.

Definition read16_be (base : Z) (d : bytes) (addr : Z) : option Z :=
  peek16_be d (u32 (addr - base)).
Definition write16_be (base : Z) (d : bytes) (addr val : Z) : option bytes :=
  poke16_be d (u32 (addr - base)) val.
Definition read32_be (base : Z) (d : bytes) (addr : Z) : option Z :=
  peek32_be d (u32 (addr - base)).
Definition write32_be (base : Z) (d : bytes) (addr val : Z) : option bytes :=
  poke32_be d (u32 (addr - base)) val.
Definition read16_le (base : Z) (d : bytes) (addr : Z) : option Z :=
  peek16_le d (u32 (addr - base)).
Definition write16_le (base : Z) (d : bytes) (addr val : Z) : option bytes :=
  poke16_le d (u32 (addr - base)) val.
Definition read32_le (base : Z) (d : bytes) (addr : Z) : option Z :=
  peek32_le d (u32 (addr - base)).
Definition write32_le (base : Z) (d : bytes) (addr val : Z) : option bytes :=
  poke32_le d (u32 (addr - base)) val.

(** The member function pointers chosen by the constructor. *)
Definition read16_fn (e : Endian) := match e with Big => read16_be | Little => read16_le end.
Definition read32_fn (e : Endian) := match e with Big => read32_be | Little => read32_le end.
Definition write16_fn (e : Endian) := match e with Big => write16_be | Little => write16_le end.
Definition write32_fn (e : Endian) := match e with Big => write32_be | Little => write32_le end.

(** The [_nolock] overrides of [RamBank]. *)
Definition ram_read8_nolock (base : Z) (d : bytes) (addr : Z) : option Z :=
  bytes_get d (u32 (addr - base)).
Definition ram_write8_nolock (base : Z) (d : bytes) (addr val : Z) : option bytes :=
  bytes_set d (u32 (addr - base)) val.
Definition ram_read32_nolock (base : Z) (e : Endian) (d : bytes) (addr : Z) : option Z :=
  let p := u32 (addr - base) in
  match e with Big => peek32_be d p | Little => peek32_le d p end.
Definition ram_write32_nolock (base : Z) (e : Endian) (d : bytes) (addr val : Z)
  : option bytes :=
  let p := u32 (addr - base) in
  match e with Big => poke32_be d p val | Little => poke32_le d p val end.

(** ** Bank accessors

    Virtual calls on the bank at position [i] of the controller's list; a
    pointer to a bank is its position. *)
Section bank_access.
Context {W : Type} `{DeviceBus W}.
Abbreviation MC := (M (mctrl W)).

Definition bank_at (i : nat) : MC bank := fun m => or_ub (banks m !! i) m.

Definition put_data (i : nat) (b : bank) (o : option bytes) : MC unit :=
  d ← or_ub o; modify (fun m => m <| banks := <[i := set_data b d]> (banks m) |>).

(** An operation of the devices alone. *)
Definition on_device {A} (op : M W A) : MC A := zoom world (fun w m => m <| world := w |>) op.

Definition bank_read8 (i : nat) (addr : Z) : MC Z :=
  b ← bank_at i;
  match b with
  | RomBank base _ _ d => or_ub (bytes_get d (u32 (addr - base)))
  | RamBank base _ d => or_ub (ram_read8 base d addr)
  | DevBank id _ _ _ _ => dev_read8 id addr
  end.

Definition bank_write8 (i : nat) (addr val : Z) : MC unit :=
  b ← bank_at i;
  match b with
  | RomBank base writeable _ d =>
      if writeable then put_data i b (bytes_set d (u32 (addr - base)) val)
      else throw (runtime_error "Write to read-only memory")
  | RamBank base _ d => put_data i b (ram_write8 base d addr val)
  | DevBank id _ _ _ _ => dev_write8 id addr val
  end.

Definition bank_read16 (i : nat) (addr : Z) (align : bool) : MC Z :=
  b ← bank_at i;
  match b with
  | RomBank _ _ e _ => default_read16 (bank_read8 i) e addr
  | RamBank base e d => or_ub (read16_fn e base d addr)
  | DevBank id _ _ _ _ => dev_read16 id addr align
  end.

Definition bank_write16 (i : nat) (addr val : Z) (align : bool) : MC unit :=
  b ← bank_at i;
  match b with
  | RomBank _ _ e _ => default_write16 (bank_write8 i) e addr val
  | RamBank base e d => put_data i b (write16_fn e base d addr val)
  | DevBank id _ _ _ _ => dev_write16 id addr val align
  end.

Definition bank_read32 (i : nat) (addr : Z) (align : bool) : MC Z :=
  b ← bank_at i;
  match b with
  | RomBank _ _ e _ => default_read32 (bank_read8 i) e addr
  | RamBank base e d => or_ub (read32_fn e base d addr)
  | DevBank id _ _ _ _ => dev_read32 id addr align
  end.

Definition bank_write32 (i : nat) (addr val : Z) (align : bool) : MC unit :=
  b ← bank_at i;
  match b with
  | RomBank _ _ e _ => default_write32 (bank_write8 i) e addr val
  | RamBank base e d => put_data i b (write32_fn e base d addr val)
  | DevBank id _ _ _ _ => dev_write32 id addr val align
  end.

(** No bank overrides the 64-bit accessors. *)
Definition bank_read64 (i : nat) (addr : Z) : MC Z :=
  b ← bank_at i; default_read64 (fun a => bank_read32 i a true) (get_endian b) addr.

Definition bank_write64 (i : nat) (addr val : Z) : MC unit :=
  b ← bank_at i; default_write64 (fun a v => bank_write32 i a v true) (get_endian b) addr val.

(** The [_nolock] family is [noexcept]; [RamBank] overrides the 8- and 32-bit
    forms, every other bank inherits the calls to the plain accessors. *)
Definition read8_nolock (i : nat) (addr : Z) : MC Z :=
  noexcept (b ← bank_at i;
            match b with
            | RamBank base _ d => or_ub (ram_read8_nolock base d addr)
            | _ => bank_read8 i addr
            end).

Definition write8_nolock (i : nat) (addr val : Z) : MC unit :=
  noexcept (b ← bank_at i;
            match b with
            | RamBank base _ d => put_data i b (ram_write8_nolock base d addr val)
            | _ => bank_write8 i addr val
            end).

Definition read16_nolock (i : nat) (addr : Z) (align : bool) : MC Z :=
  noexcept (bank_read16 i addr align).

Definition write16_nolock (i : nat) (addr val : Z) (align : bool) : MC unit :=
  noexcept (bank_write16 i addr val align).

Definition read32_nolock (i : nat) (addr : Z) (align : bool) : MC Z :=
  noexcept (b ← bank_at i;
            match b with
            | RamBank base e d => or_ub (ram_read32_nolock base e d addr)
            | _ => bank_read32 i addr align
            end).

Definition write32_nolock (i : nat) (addr val : Z) (align : bool) : MC unit :=
  noexcept (b ← bank_at i;
            match b with
            | RamBank base e d => put_data i b (ram_write32_nolock base e d addr val)
            | _ => bank_write32 i addr val align
            end).

(** [get_ptr()]: the host buffer of the bank, by the position of the bank;
    [None] is [nullptr]. *)
Definition get_ptr (i : nat) : MC (option nat) :=
  b ← bank_at i;
  match b with
  | RomBank _ _ _ _ | RamBank _ _ _ => ret (Some i)
  | DevBank _ _ _ _ true => ret None
  | DevBank _ _ _ _ false => throw (runtime_error "Cannot use get_ptr on pci cfg/io.")
  end.

(** The two atomic operations of a bank; only RAM supports them. *)
Definition bank_atomic_ldstub8 (i : nat) (paddr : Z) : MC AtomicResult :=
  b ← bank_at i;
  match b with
  | RamBank _ _ _ =>
      old ← read8_nolock i paddr;
      write8_nolock i paddr 0xff ;;
      ret (mkAtomicResult true old)
  | _ => throw (runtime_error "LDSTUB on nonram bank")
  end.

Definition bank_atomic_swap32 (i : nat) (paddr newv : Z) : MC AtomicResult :=
  b ← bank_at i;
  match b with
  | RamBank _ _ _ =>
      old ← read32_nolock i paddr true;
      write32_nolock i paddr newv true ;;
      ret (mkAtomicResult true old)
  | _ => throw (runtime_error "SWAP on nonram bank")
  end.

(** ** [MCtrl] *)

(** The scan over [banks] when the cache misses. *)
Fixpoint scan_banks (bs : list bank) (i : nat) (addr : Z) : option (nat * bank) :=
  match bs with
  | [] => None
  | b :: bs => if contains b addr then Some (i, b) else scan_banks bs (S i) addr
  end.

Definition rescan (c : BankCache) (addr : Z) : MC (option nat) := fun m =>
  match scan_banks (banks m) 0 addr with
  | Some (j, b) =>
      (Val (Some j),
       m <| tl_cache :=
         mkBankCache (c_owner_id c) (c_gen c) (Some j) (get_base b) (get_size b) |>)
  | None =>
      (Val None, m <| tl_cache := mkBankCache (c_owner_id c) (c_gen c) None 0 0 |>)
  end.

Definition find_bank_or_null (addr : Z) : MC (option nat) := fun m =>
  let c := tl_cache m in
  let c :=
    if negb (c_owner_id c =? instance_id_ m) || negb (c_gen c =? generation_ m)
    then mkBankCache (instance_id_ m) (generation_ m) None 0 0
    else c in
  match c_b c with
  | Some i =>
      if (c_start c <=? addr) && (addr - c_start c <? c_size c)
      then (Val (Some i), m <| tl_cache := c |>)
      else rescan c addr m
  | None => rescan c addr m
  end.

Definition find_bank (addr : Z) : MC nat :=
  o ← find_bank_or_null addr;
  match o with Some i => ret i | None => throw (out_of_range "No bank for addr") end.

Definition get_bank (paddr : Z) : MC (option nat) := find_bank_or_null paddr.

Definition ranges_overlap_u64 (a_start a_end b_start b_end : Z) : bool :=
  (a_start <? b_end) && (b_start <? a_end).

Definition attach_bank (b : bank) : MC nat := fun m =>
  if existsb (fun x => ranges_overlap_u64 (get_base b) (get_end_exclusive b)
                         (get_base x) (get_end_exclusive x)) (banks m)
  then (Exn (runtime_error "Bank region overlaps with existing memory"), m)
  else (Val (length (banks m)),
        m <| banks := banks m ++ [b] |> <| generation_ := u64 (generation_ m + 1) |>).

Definition clear_banks : MC unit :=
  modify (fun m => m <| banks := [] |> <| generation_ := u64 (generation_ m + 1) |>).

Definition bank_or_throw (addr : Z) : MC nat :=
  o ← find_bank_or_null addr;
  match o with Some i => ret i | None => throw (out_of_range "[MCTRL] Out of range") end.

Definition mc_read8 (addr : Z) : MC Z := i ← bank_or_throw addr; bank_read8 i addr.
Definition mc_read16 (addr : Z) (align : bool) : MC Z :=
  i ← bank_or_throw addr; bank_read16 i addr align.
Definition mc_read32 (addr : Z) (align : bool) : MC Z :=
  i ← bank_or_throw addr; bank_read32 i addr align.
Definition mc_read64 (addr : Z) : MC Z := i ← bank_or_throw addr; bank_read64 i addr.
Definition mc_write8 (addr val : Z) : MC unit :=
  i ← bank_or_throw addr; bank_write8 i addr val.
Definition mc_write16 (addr val : Z) (align : bool) : MC unit :=
  i ← bank_or_throw addr; bank_write16 i addr val align.
Definition mc_write32 (addr val : Z) (align : bool) : MC unit :=
  i ← bank_or_throw addr; bank_write32 i addr val align.
Definition mc_write64 (addr val : Z) : MC unit :=
  i ← bank_or_throw addr; bank_write64 i addr val.

(** The [try_] family: [noexcept], a status instead of an exception.  The
    output parameter is [None] when it is left as it was; [try_read64]
    narrows the result to the [u32] output, and [try_write64] takes a [u32]. *)
Definition try_read8 (addr : Z) : MC (MemBusStatus * option Z) :=
  noexcept (o ← find_bank_or_null addr;
            match o with
            | None => ret (NoDevice, None)
            | Some i => v ← bank_read8 i addr; ret (BusOk, Some v)
            end).
Definition try_read16 (addr : Z) (align : bool) : MC (MemBusStatus * option Z) :=
  noexcept (o ← find_bank_or_null addr;
            match o with
            | None => ret (NoDevice, None)
            | Some i => v ← bank_read16 i addr align; ret (BusOk, Some v)
            end).
Definition try_read32 (addr : Z) (align : bool) : MC (MemBusStatus * option Z) :=
  noexcept (o ← find_bank_or_null addr;
            match o with
            | None => ret (NoDevice, None)
            | Some i => v ← bank_read32 i addr align; ret (BusOk, Some v)
            end).
Definition try_read64 (addr : Z) : MC (MemBusStatus * option Z) :=
  noexcept (o ← find_bank_or_null addr;
            match o with
            | None => ret (NoDevice, None)
            | Some i => v ← bank_read64 i addr; ret (BusOk, Some (u32 v))
            end).
Definition try_write8 (addr value : Z) : MC MemBusStatus :=
  noexcept (o ← find_bank_or_null addr;
            match o with
            | None => ret NoDevice
            | Some i => bank_write8 i addr (u8 value) ;; ret BusOk
            end).
Definition try_write16 (addr value : Z) (align : bool) : MC MemBusStatus :=
  noexcept (o ← find_bank_or_null addr;
            match o with
            | None => ret NoDevice
            | Some i => bank_write16 i addr (u16 value) align ;; ret BusOk
            end).
Definition try_write32 (addr value : Z) (align : bool) : MC MemBusStatus :=
  noexcept (o ← find_bank_or_null addr;
            match o with
            | None => ret NoDevice
            | Some i => bank_write32 i addr value align ;; ret BusOk
            end).
Definition try_write64 (addr value : Z) : MC MemBusStatus :=
  noexcept (o ← find_bank_or_null addr;
            match o with
            | None => ret NoDevice
            | Some i => bank_write64 i addr value ;; ret BusOk
            end).

(** Both atomics of the controller are [noexcept]. *)
Definition mc_atomic_ldstub8 (paddr : Z) : MC AtomicResult :=
  noexcept (o ← find_bank_or_null paddr;
            match o with
            | None => ret (mkAtomicResult false 0)
            | Some i => bank_atomic_ldstub8 i paddr
            end).
Definition mc_atomic_swap32 (paddr newv : Z) : MC AtomicResult :=
  noexcept (o ← find_bank_or_null paddr;
            match o with
            | None => ret (mkAtomicResult false 0)
            | Some i => bank_atomic_swap32 i paddr newv
            end).
End bank_access.

(** ** Host buffers: round trips and frame *)

Lemma byte_at_mod v s : 0 <= s -> byte_at v s = v / 2 ^ s mod 256.
Proof.
  intros. unfold byte_at. change 0xff with (Z.ones 8).
  by rewrite Z.land_ones, Z.shiftr_div_pow2 by lia.
Qed.

Lemma byte_at_range v s : 0 <= s -> is_u8 (byte_at v s).
Proof. intros. rewrite byte_at_mod by done. by apply Z.mod_pos_bound. Qed.

Lemma cat2_sum b0 b1 : is_u8 b0 -> is_u8 b1 -> cat2 b0 b1 = b0 * 256 + b1.
Proof.
  unfold is_u8, cat2. intros. rewrite Z.shiftl_mul_pow2 by lia.
  apply (lor_add _ _ 8); try lia. apply Z.mod_mul. lia.
Qed.

Lemma cat4_sum b0 b1 b2 b3 :
  is_u8 b0 -> is_u8 b1 -> is_u8 b2 -> is_u8 b3 ->
  cat4 b0 b1 b2 b3 = b0 * 16777216 + b1 * 65536 + b2 * 256 + b3.
Proof.
  unfold is_u8, cat4. intros. rewrite !Z.shiftl_mul_pow2 by lia.
  rewrite (lor_add (b0 * 2 ^ 24) _ 24) by (try apply Z.mod_mul; lia).
  rewrite (lor_add (b0 * 2 ^ 24 + _) _ 16);
    [|lia|replace (b0 * 2 ^ 24 + b1 * 2 ^ 16) with ((b0 * 256 + b1) * 2 ^ 16) by lia;
          apply Z.mod_mul; lia|lia].
  apply (lor_add _ _ 8); [lia| |lia].
  replace (b0 * 2 ^ 24 + b1 * 2 ^ 16 + b2 * 2 ^ 8) with ((b0 * 65536 + b1 * 256 + b2) * 2 ^ 8)
    by lia.
  apply Z.mod_mul. lia.
Qed.

Lemma cat2_byte_at v : is_u16 v -> cat2 (byte_at v 8) (byte_at v 0) = v.
Proof.
  unfold is_u16. intros. rewrite cat2_sum by (apply byte_at_range; lia).
  rewrite !byte_at_mod by lia. change (2 ^ 8) with 256. change (2 ^ 0) with 1.
  Z.div_mod_to_equations. lia.
Qed.

Lemma cat4_byte_at v :
  is_u32 v -> cat4 (byte_at v 24) (byte_at v 16) (byte_at v 8) (byte_at v 0) = v.
Proof.
  unfold is_u32. intros. rewrite cat4_sum by (apply byte_at_range; lia).
  rewrite !byte_at_mod by lia.
  change (2 ^ 24) with 16777216. change (2 ^ 16) with 65536.
  change (2 ^ 8) with 256. change (2 ^ 0) with 1.
  Z.div_mod_to_equations. lia.
Qed.

Lemma bytes_set_in d i v :
  0 <= i < b_len d -> bytes_set d i v = Some (mkBytes (b_len d) (<[i := v]> (b_map d))).
Proof.
  intros. unfold bytes_set, in_buffer.
  by rewrite (proj2 (Z.leb_le 0 i)), (proj2 (Z.ltb_lt i (b_len d))) by lia.
Qed.

Lemma bytes_get_in d p : 0 <= p < b_len d -> exists b, bytes_get d p = Some b.
Proof.
  intros Hp. unfold bytes_get, in_buffer.
  rewrite (proj2 (andb_true_iff _ _)) by (rewrite Z.leb_le, Z.ltb_lt; lia). by eexists.
Qed.

Lemma bytes_get_set d i v d' j :
  bytes_set d i v = Some d' ->
  bytes_get d' j = if decide (j = i) then Some v else bytes_get d j.
Proof.
  unfold bytes_set, bytes_get. destruct (in_buffer d i) eqn:E; [|done]. intros [= <-].
  unfold in_buffer in *; simpl. case_decide as Hj; [subst j|].
  - rewrite E. simpl. by rewrite lookup_insert_eq.
  - by rewrite lookup_insert_ne.
Qed.

Lemma bytes_set_len d i v d' : bytes_set d i v = Some d' -> b_len d' = b_len d.
Proof. unfold bytes_set. destruct (in_buffer d i); [|done]. by intros [= <-]. Qed.

(** A run of bytes stored at [p], and the bytes read from there. *)
Fixpoint pokes (d : bytes) (p : Z) (bs : list Z) : option bytes :=
  match bs with
  | [] => Some d
  | b :: bs => (d' ← bytes_set d p b; pokes d' (p + 1) bs)%stdpp
  end.

(** [d'] is [d] except for [w] bytes at [p]. *)
Definition stored (w : Z) (d : bytes) (p : Z) (d' : bytes) : Prop :=
  b_len d' = b_len d /\ forall j, j < p \/ p + w <= j -> bytes_get d' j = bytes_get d j.

Lemma pokes_spec bs d p :
  0 <= p -> p + Z.of_nat (length bs) <= b_len d ->
  exists d', pokes d p bs = Some d' /\ stored (Z.of_nat (length bs)) d p d' /\
    forall k b, bs !! k = Some b -> bytes_get d' (p + Z.of_nat k) = Some b.
Proof.
  revert d p. induction bs as [|b bs IH]; intros d p Hp Hl; cbn [length] in *.
  - exists d. split; [done|]. split; [by split|]. by intros [].
  - destruct (bytes_set d p b) as [d1|] eqn:E; [|by rewrite bytes_set_in in E by lia].
    pose proof (bytes_set_len _ _ _ _ E) as L1.
    destruct (IH d1 (p + 1)) as (d' & H1 & [H2 H3] & H4); [lia..|].
    exists d'. split; [cbn; rewrite E; done|]. split; [split; [congruence|]|].
    + intros j Hj. rewrite H3, (bytes_get_set _ _ _ _ _ E), decide_False by lia. done.
    + intros [|k] x Hk; cbn in Hk; simplify_eq.
      * rewrite H3, (bytes_get_set _ _ _ _ _ E), decide_True by lia. done.
      * rewrite <- (H4 k x Hk). f_equal. lia.
Qed.

Section pokes.
Context (d : bytes) (p v : Z).

Lemma poke16_be_pokes : poke16_be d p v = pokes d p [byte_at v 8; byte_at v 0].
Proof. unfold poke16_be; cbn. destruct (bytes_set d p _); cbn; [|done]. by destruct (bytes_set _ _ _). Qed.
Lemma poke16_le_pokes : poke16_le d p v = pokes d p [byte_at v 0; byte_at v 8].
Proof. unfold poke16_le; cbn. destruct (bytes_set d p _); cbn; [|done]. by destruct (bytes_set _ _ _). Qed.

Lemma poke32_pokes e :
  (match e with Big => poke32_be d p v | Little => poke32_le d p v end) =
  pokes d p (match e with
             | Big => [byte_at v 24; byte_at v 16; byte_at v 8; byte_at v 0]
             | Little => [byte_at v 0; byte_at v 8; byte_at v 16; byte_at v 24] end).
Proof.
  destruct e; unfold poke32_be, poke32_le; cbn;
    (destruct (bytes_set d p _) as [d1|]; cbn; [|done];
     destruct (bytes_set d1 _ _) as [d2|]; cbn; [|done];
     replace (p + 1 + 1) with (p + 2) by lia;
     destruct (bytes_set d2 _ _) as [d3|]; cbn; [|done];
     replace (p + 2 + 1) with (p + 3) by lia; by destruct (bytes_set d3 _ _)).
Qed.

End pokes.

Lemma pokes_len bs : forall d p d', pokes d p bs = Some d' -> b_len d' = b_len d.
Proof.
  induction bs as [|x bs IH]; intros d p d'; cbn; [by intros [= ->]|].
  destruct (bytes_set d p x) as [d1|] eqn:E; [|done]. intros E'. rewrite (IH _ _ _ E'). by eapply bytes_set_len.
Qed.

Lemma poke32_len e d p v d' :
  (match e with Big => poke32_be d p v | Little => poke32_le d p v end) = Some d' -> b_len d' = b_len d.
Proof. rewrite poke32_pokes. apply pokes_len. Qed.

Lemma peek32_in d p e :
  0 <= p -> p + 4 <= b_len d ->
  exists v, (match e with Big => peek32_be d p | Little => peek32_le d p end) = Some v.
Proof.
  intros H1 H2. destruct (bytes_get_in d p) as [b0 E0], (bytes_get_in d (p + 1)) as [b1 E1],
    (bytes_get_in d (p + 2)) as [b2 E2], (bytes_get_in d (p + 3)) as [b3 E3]; try lia.
  unfold peek32_be, peek32_le. rewrite E0, E1, E2, E3. destruct e; by eexists.
Qed.

Lemma poke32_spec e d p v :
  0 <= p -> p + 4 <= b_len d -> is_u32 v ->
  exists d', (match e with Big => poke32_be d p v | Little => poke32_le d p v end) = Some d' /\
    (match e with Big => peek32_be d' p | Little => peek32_le d' p end) = Some v /\ stored 4 d p d'.
Proof.
  intros Hp Hl Hv. rewrite poke32_pokes.
  destruct (pokes_spec (match e with
    | Big => [byte_at v 24; byte_at v 16; byte_at v 8; byte_at v 0]
    | Little => [byte_at v 0; byte_at v 8; byte_at v 16; byte_at v 24] end) d p)
    as (d' & H1 & H2 & H3); [done|by destruct e|].
  exists d'. split; [done|]. split; [|by destruct e].
  destruct e; unfold peek32_be, peek32_le;
    (pose proof (H3 0%nat _ eq_refl) as B0; pose proof (H3 1%nat _ eq_refl) as B1;
     pose proof (H3 2%nat _ eq_refl) as B2; pose proof (H3 3%nat _ eq_refl) as B3;
     change (Z.of_nat 0) with 0 in B0; change (Z.of_nat 1) with 1 in B1;
     change (Z.of_nat 2) with 2 in B2; change (Z.of_nat 3) with 3 in B3; rewrite Z.add_0_r in B0; rewrite B0, B1, B2, B3; cbn;
     by rewrite cat4_byte_at).
Qed.

(** ** Bank lookup *)

(** A bank that lies inside the 32-bit address space, and the addresses of it. *)
Definition bank_wf (b : bank) : Prop :=
  0 <= get_base b /\ 0 < bank_size b /\ get_base b + bank_size b <= 4294967296.
Definition holds (b : bank) (addr : Z) : Prop :=
  get_base b <= addr < get_base b + bank_size b.

(** The banks of a controller: well formed, and no address in two of them. *)
Definition banks_ok (bs : list bank) : Prop :=
  Forall bank_wf bs /\
  forall i j bi bj addr,
    bs !! i = Some bi -> bs !! j = Some bj -> holds bi addr -> holds bj addr -> i = j.

(** The thread-local cache names a bank of the current generation, or is stale. *)
Definition cache_ok {W} (m : mctrl W) : Prop :=
  c_owner_id (tl_cache m) = instance_id_ m ->
  c_gen (tl_cache m) <= generation_ m /\
  (c_gen (tl_cache m) = generation_ m -> forall i, c_b (tl_cache m) = Some i ->
   exists b, banks m !! i = Some b /\ c_start (tl_cache m) = get_base b /\
             c_size (tl_cache m) = get_size b).

Definition mc_ok {W} (m : mctrl W) : Prop :=
  banks_ok (banks m) /\ cache_ok m /\ 0 <= generation_ m < 18446744073709551616.

Lemma contains_iff b addr :
  bank_wf b -> is_u32 addr -> contains b addr = true <-> holds b addr.
Proof.
  unfold bank_wf, holds, is_u32, contains. intros (? & ? & ?) ?.
  destruct b as [base w e d|base e d|id base sz e np]; simpl in *;
    try (unfold u64; destruct (decide (base <= addr));
         [rewrite Z.mod_small by lia
         |rewrite <- (Z.mod_unique_pos (addr - base) 18446744073709551616 (-1)
                        (addr - base + 18446744073709551616)) by lia];
         rewrite Z.ltb_lt; lia).
  rewrite andb_true_iff, Z.leb_le, Z.ltb_lt. lia.
Qed.

Lemma scan_banks_Some bs k addr j b :
  scan_banks bs k addr = Some (j, b) ->
  exists i, j = (k + i)%nat /\ bs !! i = Some b /\ contains b addr = true.
Proof.
  revert k. induction bs as [|b0 bs IH]; intros k; simpl; [done|].
  destruct (contains b0 addr) eqn:E.
  - intros [= <- <-]. exists O. by rewrite Nat.add_0_r.
  - intros H. destruct (IH _ H) as (i & -> & ? & ?). exists (S i). split; [lia|done].
Qed.

Lemma scan_banks_None bs k addr i b :
  scan_banks bs k addr = None -> bs !! i = Some b -> contains b addr = false.
Proof.
  revert k i. induction bs as [|b0 bs IH]; intros k i; simpl; [done|].
  destruct (contains b0 addr) eqn:E; [done|]. intros H. destruct i; simpl; [naive_solver|].
  by apply (IH (S k)).
Qed.

(** With disjoint banks the scan finds the one bank that holds the address. *)
Lemma scan_banks_unique bs i b addr :
  banks_ok bs -> is_u32 addr -> bs !! i = Some b -> holds b addr ->
  scan_banks bs 0 addr = Some (i, b).
Proof.
  intros [Hwf Hdis] Ha Hi Hb.
  assert (forall j c, bs !! j = Some c -> bank_wf c) as Hw.
  { intros j c Hj. rewrite Forall_lookup in Hwf. eauto. }
  destruct (scan_banks bs 0 addr) as [[j c]|] eqn:E.
  - destruct (scan_banks_Some _ _ _ _ _ E) as (k & -> & Hk & Hc).
    apply (contains_iff c) in Hc; eauto. assert (k = i) as -> by eauto.
    simplify_eq. by rewrite Nat.add_0_l.
  - apply (scan_banks_None _ _ _ i b) in E; [|done].
    apply (contains_iff b) in Hb; eauto. congruence.
Qed.

Lemma get_size_le b : bank_wf b -> 0 <= get_size b <= bank_size b.
Proof.
  intros (H1 & H2 & H3). unfold get_size, u32. split.
  - apply Z.mod_pos_bound. lia.
  - apply Z.mod_le; lia.
Qed.

Section lookup.
Context {W : Type} `{DeviceBus W}.
Implicit Types m : mctrl W.

Lemma rescan_ok m c addr :
  mc_ok m -> c_owner_id c = instance_id_ m -> c_gen c = generation_ m ->
  exists c', rescan c addr m = (Val (fst <$> scan_banks (banks m) 0 addr), m <| tl_cache := c' |>)
    /\ mc_ok (m <| tl_cache := c' |>).
Proof.
  intros (Hb & Hc & Hg) Ho Hgen. unfold rescan.
  destruct (scan_banks (banks m) 0 addr) as [[j b]|] eqn:E; simpl;
    (eexists; split; [reflexivity|]; split; [done|]; split; [|done]);
    intros _; simpl; rewrite Hgen; (split; [lia|]); intros _ i; [|done].
  intros [= <-]. destruct (scan_banks_Some _ _ _ _ _ E) as (k & -> & ? & ?). eauto.
Qed.

(** The cached lookup returns what the scan over the banks returns, and only
    the cache changes. *)
Lemma find_bank_or_null_scan m addr :
  mc_ok m -> is_u32 addr ->
  exists c, find_bank_or_null addr m =
              (Val (fst <$> scan_banks (banks m) 0 addr), m <| tl_cache := c |>)
            /\ mc_ok (m <| tl_cache := c |>).
Proof.
  intros Hm Ha. pose proof Hm as (Hb & Hc & Hg). unfold find_bank_or_null.
  destruct (c_owner_id (tl_cache m) =? instance_id_ m) eqn:Eo; simpl;
    [destruct (c_gen (tl_cache m) =? generation_ m) eqn:Eg; simpl|];
    try (by apply rescan_ok).
  apply Z.eqb_eq in Eo, Eg. destruct (c_b (tl_cache m)) as [i|] eqn:Ei; [|by apply rescan_ok].
  destruct (_ && _) eqn:Eh; [|by apply rescan_ok].
  destruct (Hc Eo) as [_ Hc']. destruct (Hc' Eg i Ei) as (b & Hi & Hs & Hz).
  rewrite Hs, Hz in Eh. apply andb_true_iff in Eh as [E1%Z.leb_le E2%Z.ltb_lt].
  assert (bank_wf b) as Hwf by (destruct Hb as [Hf _]; rewrite Forall_lookup in Hf; eauto).
  pose proof (get_size_le b Hwf) as Hle.
  rewrite (scan_banks_unique (banks m) i b addr) by (done || unfold holds; lia).
  exists (tl_cache m). split; [done|]. by destruct m.
Qed.
End lookup.

(** ** Attaching banks *)

Lemma get_end_wf b : bank_wf b -> get_end_exclusive b = get_base b + bank_size b.
Proof. intros (? & ? & ?). unfold get_end_exclusive, u64. apply Z.mod_small. lia. Qed.

(** The overlap test of [attach_bank] against one attached bank. *)
Definition clashes (b x : bank) : bool :=
  ranges_overlap_u64 (get_base b) (get_end_exclusive b) (get_base x) (get_end_exclusive x).

Lemma clashes_iff b x :
  bank_wf b -> bank_wf x -> clashes b x = true <-> exists addr, holds b addr /\ holds x addr.
Proof.
  intros Hb Hx. unfold clashes, ranges_overlap_u64, holds. rewrite !get_end_wf by done.
  destruct Hb as (? & ? & ?), Hx as (? & ? & ?).
  rewrite andb_true_iff, !Z.ltb_lt. split.
  - intros [??]. exists (Z.max (get_base b) (get_base x)). lia.
  - intros (a & ? & ?). lia.
Qed.

Lemma banks_ok_snoc bs b :
  banks_ok bs -> bank_wf b -> existsb (clashes b) bs = false -> banks_ok (bs ++ [b]).
Proof.
  intros [Hf Hd] Hb Hn. split; [by apply Forall_app; split; [|constructor]|].
  assert (forall i bi addr, bs !! i = Some bi -> holds bi addr -> holds b addr -> False) as Hno.
  { intros i bi addr Hi Ha Hba. assert (clashes b bi = true).
    { apply clashes_iff; [done| |by exists addr]. rewrite Forall_lookup in Hf. eauto. }
    apply not_true_iff_false in Hn. apply Hn, existsb_exists.
    exists bi. split; [by eapply list_elem_of_In, list_elem_of_lookup_2|done]. }
  intros i j bi bj addr Hi Hj Hbi Hbj.
  apply lookup_app_Some in Hi as [Hi|[Hli Hi]]; apply lookup_app_Some in Hj as [Hj|[Hlj Hj]];
    try (apply list_lookup_singleton_Some in Hi as [? <-]);
    try (apply list_lookup_singleton_Some in Hj as [? <-]); eauto with lia; by destruct (Hno _ _ _ Hi Hbi) || by destruct (Hno _ _ _ Hj Hbj) || lia.
Qed.

Section attach.
Context {W : Type} `{DeviceBus W}.
Implicit Types m : mctrl W.

Lemma mc_ok_attach m b :
  mc_ok m -> bank_wf b -> generation_ m < 18446744073709551615 -> mc_ok (attach_bank b m).2.
Proof.
  intros (Hb & Hc & Hg) Hwf Hgen. unfold attach_bank. fold (clashes b).
  destruct (existsb _ (banks m)) eqn:E; [done|].
  split; [by apply banks_ok_snoc|]. cbn. unfold u64. rewrite Z.mod_small by lia.
  split; [|lia]. intros Ho. destruct (Hc Ho) as [Hle _]. cbn in *. split; [lia|]. lia.
Qed.

Lemma mc_ok_clear m :
  mc_ok m -> generation_ m < 18446744073709551615 -> mc_ok (clear_banks m).2.
Proof.
  intros (Hb & Hc & Hg) Hgen. split; [by split; [constructor|intros []]|].
  cbn. unfold u64. rewrite Z.mod_small by lia. split; [|lia].
  intros Ho. destruct (Hc Ho) as [Hle _]. cbn in *. split; lia.
Qed.

(** The states of a controller under the operations that change its banks and
    its lookup cache; each is attached or cleared fewer than [2^64] times. *)
Inductive mc_reachable : mctrl W -> Prop :=
| mcr_new id c w :
    c_owner_id c <> id -> mc_reachable (mkMctrl [] 1 id c w)
| mcr_attach m b :
    mc_reachable m -> bank_wf b -> generation_ m < 18446744073709551615 ->
    mc_reachable (attach_bank b m).2
| mcr_clear m :
    mc_reachable m -> generation_ m < 18446744073709551615 -> mc_reachable (clear_banks m).2
| mcr_find m addr :
    mc_reachable m -> is_u32 addr -> mc_reachable (find_bank_or_null addr m).2.

Lemma mc_reachable_ok m : mc_reachable m -> mc_ok m.
Proof.
  induction 1.
  - split; [by split; [constructor|intros []]|]. split; [|cbn; lia]. by intros Ho.
  - by apply mc_ok_attach.
  - by apply mc_ok_clear.
  - destruct (find_bank_or_null_scan m addr) as (c & -> & ?); done.
Qed.

(** The bank cache is transparent: in every state reached by attaching
    and clearing banks and by earlier lookups, [find_bank_or_null] returns
    exactly the bank a scan of the list returns, and changes nothing but the
    cache. *)
Theorem bank_cache_transparent m addr :
  mc_reachable m -> is_u32 addr ->
  (find_bank_or_null addr m).1 = Val (fst <$> scan_banks (banks m) 0 addr) /\
  banks (find_bank_or_null addr m).2 = banks m /\
  world (find_bank_or_null addr m).2 = world m.
Proof.
  intros Hr Ha. destruct (find_bank_or_null_scan m addr) as (c & -> & _); try done.
  by apply mc_reachable_ok.
Qed.

(** [attach_bank] on a controller with disjoint banks refuses exactly the
    banks that share an address with an attached one, leaving the controller
    as it was, and otherwise appends the bank and keeps the banks disjoint. *)
Theorem attach_bank_disjoint m b :
  mc_ok m -> bank_wf b -> generation_ m < 18446744073709551615 ->
  ((exists x addr, x ∈ banks m /\ holds x addr /\ holds b addr) /\
   attach_bank b m = (Exn (runtime_error "Bank region overlaps with existing memory"), m))
  \/ ((forall x addr, x ∈ banks m -> holds x addr -> ~ holds b addr) /\
      exists m', attach_bank b m = (Val (length (banks m)), m') /\
                 banks m' = banks m ++ [b] /\ mc_ok m').
Proof.
  intros Hm Hwf Hgen. pose proof (mc_ok_attach m b Hm Hwf Hgen) as Hok.
  destruct Hm as ([Hf _] & _). rewrite list.Forall_forall in Hf.
  unfold attach_bank in *. fold (clashes b) in *.
  destruct (existsb (clashes b) (banks m)) eqn:E; [left|right]; (split; [|by eauto]).
  - apply existsb_exists in E as (x & Hx%list_elem_of_In & Hc).
    destruct (proj1 (clashes_iff b x Hwf (Hf x Hx)) Hc) as (a & ? & ?). by exists x, a.
  - intros x addr Hx Hxa Hba. apply not_true_iff_false in E. apply E, existsb_exists.
    exists x. split; [by apply list_elem_of_In|]. apply clashes_iff; eauto.
Qed.
End attach.

(** ** The controller as a memory *)

(** The byte a controller holds at a physical address; [None] where no bank has
    a buffer. *)
Definition pa_byte (bs : list bank) (addr : Z) : option Z :=
  match scan_banks bs 0 addr with
  | Some (_, RomBank base _ _ d) | Some (_, RamBank base _ d) => bytes_get d (addr - base)
  | _ => None
  end.

(** Two banks that cover the same addresses. *)
Definition same_range (b b' : bank) : Prop :=
  get_base b' = get_base b /\ bank_size b' = bank_size b /\
  forall addr, contains b' addr = contains b addr.

Lemma set_data_range b d' :
  match b with RomBank _ _ _ d | RamBank _ _ d => b_len d' = b_len d | _ => True end ->
  same_range b (set_data b d').
Proof. destruct b; cbn; intros E; unfold same_range; cbn; rewrite ?E; done. Qed.

Lemma scan_banks_insert bs i b b' k addr :
  bs !! i = Some b -> same_range b b' ->
  scan_banks (<[i := b']> bs) k addr =
  (fun r => (r.1, if decide (r.1 = (k + i)%nat) then b' else r.2)) <$> scan_banks bs k addr.
Proof.
  intros Hi (_ & _ & Hc). revert k i Hi. induction bs as [|b0 bs IH]; intros k i Hi; [done|].
  destruct i; cbn in *.
  - simplify_eq. rewrite Hc. destruct (contains b addr); cbn.
    + by rewrite decide_True by lia.
    + destruct (scan_banks bs (S k) addr) as [[j c]|] eqn:E; [|done]. cbn.
      destruct (scan_banks_Some _ _ _ _ _ E) as (n & -> & _). by rewrite decide_False by lia.
  - destruct (contains b0 addr); cbn; [by rewrite decide_False by lia|].
    rewrite IH by done. by replace (k + S i)%nat with (S k + i)%nat by lia.
Qed.

Lemma banks_ok_insert bs i b b' :
  banks_ok bs -> bs !! i = Some b -> same_range b b' -> banks_ok (<[i := b']> bs).
Proof.
  intros [Hf Hd] Hi (Eb & Es & _).
  assert (forall j c, <[i := b']> bs !! j = Some c ->
            exists c0, bs !! j = Some c0 /\ get_base c = get_base c0 /\ bank_size c = bank_size c0)
    as Hold.
  { intros j c. destruct (decide (i = j)) as [<-|].
    - rewrite list_lookup_insert_eq by (by eapply lookup_lt_Some). intros [= <-]. eauto.
    - rewrite list_lookup_insert_ne by done. eauto. }
  split.
  - apply Forall_lookup. intros j c Hj. destruct (Hold _ _ Hj) as (c0 & H0 & E1 & E2).
    rewrite Forall_lookup in Hf. unfold bank_wf. rewrite E1, E2. by apply (Hf j).
  - intros j1 j2 c1 c2 addr H1 H2 Ha1 Ha2.
    destruct (Hold _ _ H1) as (d1 & ? & E1 & E2), (Hold _ _ H2) as (d2 & ? & E3 & E4).
    unfold holds in *. rewrite E1, E2 in Ha1. rewrite E3, E4 in Ha2. eauto.
Qed.

Section memory.
Context {W : Type} `{DeviceBus W}.
Implicit Types m : mctrl W.

Lemma mc_ok_insert m i b b' :
  mc_ok m -> banks m !! i = Some b -> same_range b b' ->
  mc_ok (m <| banks := <[i := b']> (banks m) |>).
Proof.
  intros (Hb & Hc & Hg) Hi Hr. split; [by eapply banks_ok_insert|]. split; [|done].
  intros Ho. destruct (Hc Ho) as [Hle Hcb]. split; [done|]. intros Hgen j Hj. cbn in *.
  destruct (Hcb Hgen j Hj) as (c & Hcj & E1 & E2).
  destruct (decide (i = j)) as [<-|].
  - simplify_eq. exists b'. rewrite list_lookup_insert_eq by (by eapply lookup_lt_Some).
    destruct Hr as (Eb & Es & _). unfold get_size. by rewrite Eb, Es.
  - exists c. by rewrite list_lookup_insert_ne.
Qed.

(** Looking up an address of an attached bank. *)
Lemma bank_or_throw_hit m i b addr :
  mc_ok m -> is_u32 addr -> banks m !! i = Some b -> holds b addr ->
  exists c, bank_or_throw addr m = (Val i, m <| tl_cache := c |>) /\ mc_ok (m <| tl_cache := c |>).
Proof.
  intros Hm Ha Hi Hb. destruct (find_bank_or_null_scan m addr) as (c & E & Hok); [done..|].
  rewrite (scan_banks_unique _ i b) in E by (done || apply Hm).
  exists c. split; [|done]. unfold bank_or_throw. by rewrite (bindM_val _ _ _ _ _ E).
Qed.

Lemma pa_byte_insert m i base e d d' addr :
  banks m !! i = Some (RamBank base e d) -> b_len d' = b_len d ->
  (forall b, scan_banks (banks m) 0 addr = Some (i, b) ->
             bytes_get d' (addr - base) = bytes_get d (addr - base)) ->
  pa_byte (<[i := RamBank base e d']> (banks m)) addr = pa_byte (banks m) addr.
Proof.
  intros Hi Hl Hsame. unfold pa_byte.
  rewrite (scan_banks_insert _ i (RamBank base e d)) by
    (done || apply (set_data_range (RamBank base e d) d'); done).
  destruct (scan_banks (banks m) 0 addr) as [[j b]|] eqn:E; [|done]. cbn.
  case_decide as Hj; [|done]. cbn in Hj. subst j.
  destruct (scan_banks_Some _ _ _ _ _ E) as (k & -> & Hk & _). cbn in *. simplify_eq.
  by apply (Hsame (RamBank base e d)).
Qed.

Lemma ram_wf m i base e d :
  mc_ok m -> banks m !! i = Some (RamBank base e d) -> 0 <= base /\ 0 < b_len d /\ base + b_len d <= 4294967296.
Proof. intros ([Hf _] & _) Hi. rewrite Forall_lookup in Hf. apply (Hf _ _ Hi). Qed.

(** A byte of a RAM bank. *)
Lemma pa_byte_at m i base e d a :
  mc_ok m -> banks m !! i = Some (RamBank base e d) -> base <= a < base + b_len d ->
  pa_byte (banks m) a = bytes_get d (a - base).
Proof.
  intros Hm Hi Ha. destruct (ram_wf _ _ _ _ _ Hm Hi) as (? & ? & ?). unfold pa_byte.
  rewrite (scan_banks_unique _ i _ a (proj1 Hm) ltac:(unfold is_u32; lia) Hi); [done|unfold holds; cbn; lia].
Qed.

(** A word read from a RAM bank. *)
Lemma mc_read32_ram m i base e d a al v :
  mc_ok m -> banks m !! i = Some (RamBank base e d) -> base <= a -> a + 4 <= base + b_len d ->
  match e with Big => peek32_be d (a - base) | Little => peek32_le d (a - base) end = Some v ->
  exists c, mc_read32 a al m = (Val v, m <| tl_cache := c |>) /\ mc_ok (m <| tl_cache := c |>).
Proof.
  intros Hm Hi Hlo Hhi Hv. destruct (ram_wf _ _ _ _ _ Hm Hi) as (? & ? & ?).
  assert (u32 (a - base) = a - base) as Eo by (apply u32_id; unfold is_u32; lia).
  destruct (bank_or_throw_hit m i (RamBank base e d) a Hm) as (c & Ef & Hok);
    [unfold is_u32; lia|exact Hi|unfold holds; cbn; lia|].
  exists c. split; [|done]. unfold mc_read32. rewrite (bindM_val _ _ _ _ _ Ef). unfold bank_read32, bank_at.
  rewrite (bindM_val _ _ _ (RamBank base e d) (m <| tl_cache := c |>)) by (cbn; by rewrite Hi).
  unfold read32_fn, read32_be, read32_le. destruct e; rewrite Eo, Hv; done.
Qed.

(** A word write into a RAM bank. *)
Lemma mc_write32_ram m i base e d a v al :
  mc_ok m -> is_u32 v -> banks m !! i = Some (RamBank base e d) -> base <= a -> a + 4 <= base + b_len d ->
  exists c d', mc_write32 a v al m =
      (Val tt, m <| tl_cache := c |> <| banks := <[i := RamBank base e d']> (banks m) |>) /\
    mc_ok (m <| tl_cache := c |> <| banks := <[i := RamBank base e d']> (banks m) |>) /\
    match e with Big => poke32_be d (a - base) v | Little => poke32_le d (a - base) v end = Some d' /\
    b_len d' = b_len d.
Proof.
  intros Hm Hv Hi Hlo Hhi.
  destruct (ram_wf _ _ _ _ _ Hm Hi) as (? & ? & ?). assert (is_u32 a) as Ha by (unfold is_u32; lia).
  assert (u32 (a - base) = a - base) as Eo by (apply u32_id; unfold is_u32; lia).
  destruct (bank_or_throw_hit m i _ a Hm Ha Hi) as (c & Ef & Hok); [unfold holds; cbn; lia|].
  destruct (poke32_spec e d (a - base) v) as (d' & Ew & Er & El & Eframe); [lia..|done|].
  exists c, d'. split; [|split; [|done]].
  - unfold mc_write32. rewrite (bindM_val _ _ _ _ _ Ef). unfold bank_write32, bank_at.
    rewrite (bindM_val _ _ _ (RamBank base e d) (m <| tl_cache := c |>)) by (cbn; by rewrite Hi).
    unfold put_data, write32_fn, write32_be, write32_le.
    destruct e; rewrite Eo, Ew; done.
  - refine (mc_ok_insert (m <| tl_cache := c |>) i (RamBank base e d) _ Hok Hi _).
    by apply (set_data_range (RamBank base e d) d').
Qed.

(** C20. Memory behaves as memory: a 32-bit write into a RAM bank of either
    endianness succeeds, a read of the same address returns the value written,
    every other byte of physical memory is unchanged, and the lookup
    invariant still holds. *)
Theorem ram_write32_read32 m i base e d a v al al' :
  mc_ok m -> is_u32 v -> banks m !! i = Some (RamBank base e d) ->
  base <= a -> a + 4 <= base + b_len d ->
  exists m', mc_write32 a v al m = (Val tt, m') /\ mc_ok m' /\
    (mc_read32 a al' m').1 = Val v /\ world m' = world m /\
    forall a', is_u32 a' -> a' < a \/ a + 4 <= a' ->
      pa_byte (banks m') a' = pa_byte (banks m) a'.
Proof.
  intros Hm Hv Hi Hlo Hhi. destruct (ram_wf _ _ _ _ _ Hm Hi) as (? & ? & ?).
  destruct (mc_write32_ram m i base e d a v al Hm Hv Hi Hlo Hhi) as (c & d' & Ew & Hok' & Ep & El).
  destruct (poke32_spec e d (a - base) v) as (d2 & Ep2 & Er & _ & Eframe); [lia..|done|].
  rewrite Ep in Ep2. injection Ep2 as <-.
  set (m' := m <| tl_cache := c |> <| banks := <[i := RamBank base e d']> (banks m) |>) in *.
  assert (banks m' !! i = Some (RamBank base e d')) as Hi'
    by (apply list_lookup_insert_eq; by eapply lookup_lt_Some).
  exists m'. split; [done|split; [done|split; [|split; [done|]]]].
  - destruct (mc_read32_ram m' i base e d' a al' v Hok' Hi') as (c' & -> & _); [lia|lia|done|done].
  - intros a' Ha' Hout. apply (pa_byte_insert m i base e d d'); [done..|].
    intros b _. apply Eframe. lia.
Qed.
End memory.

(** ** Errors *)

Section errors.
Context {W : Type} `{DeviceBus W}.
Implicit Types m : mctrl W.

Lemma find_miss m a :
  mc_ok m -> is_u32 a -> (forall b, b ∈ banks m -> ~ holds b a) ->
  exists c, find_bank_or_null a m = (Val None, m <| tl_cache := c |>).
Proof.
  intros Hm Ha Hno. destruct (find_bank_or_null_scan m a Hm Ha) as (c & E & _). exists c.
  destruct (scan_banks (banks m) 0 a) as [[j b]|] eqn:Es; [|done].
  destruct (scan_banks_Some _ _ _ _ _ Es) as (k & -> & Hk & Hc).
  destruct Hm as ([Hf _] & _). rewrite Forall_lookup in Hf.
  apply contains_iff in Hc; eauto. by apply list_elem_of_lookup_2, Hno in Hk.
Qed.

(** An access to an address no bank holds touches nothing: the throwing
    accessors raise [std::out_of_range], the [try_] accessors report
    [NoDevice] without writing their output, and an atomic reports failure. *)
Theorem unmapped_access m a v al :
  mc_ok m -> is_u32 a -> (forall b, b ∈ banks m -> ~ holds b a) ->
  let oor {A} (r : res A * mctrl W) :=
    r.1 = Exn (out_of_range "[MCTRL] Out of range") /\ banks r.2 = banks m /\ world r.2 = world m in
  let quiet {A} (x : A) (r : res A * mctrl W) :=
    r.1 = Val x /\ banks r.2 = banks m /\ world r.2 = world m in
  oor (mc_read8 a m) /\ oor (mc_read16 a al m) /\ oor (mc_read32 a al m) /\
  oor (mc_read64 a m) /\ oor (mc_write8 a v m) /\ oor (mc_write16 a v al m) /\
  oor (mc_write32 a v al m) /\ oor (mc_write64 a v m) /\
  quiet (NoDevice, None) (try_read32 a al m) /\ quiet NoDevice (try_write32 a v al m) /\
  quiet (mkAtomicResult false 0) (mc_atomic_ldstub8 a m) /\
  quiet (mkAtomicResult false 0) (mc_atomic_swap32 a v m).
Proof.
  intros Hm Ha Hno. destruct (find_miss m a Hm Ha Hno) as (c & E).
  unfold mc_read8, mc_read16, mc_read32, mc_read64, mc_write8, mc_write16, mc_write32,
    mc_write64, try_read32, try_write32, mc_atomic_ldstub8, mc_atomic_swap32,
    bank_or_throw, noexcept, bindM.
  rewrite E. cbn. repeat split.
Qed.
End errors.

(** ** A concrete controller *)

(** The interface with no device behind it: no identifier is ever used. *)
Definition no_devices : DeviceBus unit := dead_bus.

Definition demo_ram (base len : Z) : bank := RamBank base Big (mkBytes len ∅).

Definition demo_empty : mctrl unit := mkMctrl [] 1 7 (mkBankCache 0 0 None 0 0) tt.

(** Two RAM banks attached one after the other. *)
Definition demo_mc : mctrl unit :=
  (attach_bank (demo_ram 0x60000000 0x800) (attach_bank (demo_ram 0x40000000 0x1000) demo_empty).2).2.

Lemma demo_bank_wf base len :
  0 <= base -> 0 < len -> base + len <= 4294967296 -> bank_wf (demo_ram base len).
Proof. by unfold bank_wf. Qed.

Lemma demo_reachable : mc_reachable demo_mc.
Proof.
  apply mcr_attach; [apply mcr_attach; [by apply mcr_new| |]| |];
    try (by apply demo_bank_wf); done.
Qed.

Lemma bank_cache_transparent_witness :
  (@find_bank_or_null unit 0x60000010 demo_mc).1 = Val (Some 1%nat).
Proof.
  rewrite (proj1 (bank_cache_transparent demo_mc 0x60000010 demo_reachable ltac:(unfold is_u32; lia))).
  reflexivity.
Defined.

Lemma attach_bank_disjoint_witness :
  exists b, bank_wf b /\ (attach_bank b demo_mc).1 = Val 2%nat.
Proof.
  exists (demo_ram 0x60000800 0x100). split; [by apply demo_bank_wf|].
  destruct (attach_bank_disjoint demo_mc (demo_ram 0x60000800 0x100)
              (mc_reachable_ok _ demo_reachable) (demo_bank_wf 0x60000800 0x100 ltac:(lia) ltac:(lia) ltac:(lia))
              ltac:(vm_compute; reflexivity)) as [[_ Hx]|(_ & m' & -> & _)].
  - vm_compute in Hx. discriminate Hx.
  - reflexivity.
Defined.

Lemma ram_write32_read32_witness :
  exists m', @mc_write32 unit no_devices 0x40000ffc 0xdeadbeef true demo_mc = (Val tt, m') /\
    (@mc_read32 unit no_devices 0x40000ffc true m').1 = Val 0xdeadbeef.
Proof.
  destruct (@ram_write32_read32 unit no_devices demo_mc 0 0x40000000 Big (mkBytes 0x1000 ∅)
              0x40000ffc 0xdeadbeef true true) as (m' & H1 & _ & H2 & _).
  - apply mc_reachable_ok, demo_reachable.
  - unfold is_u32; lia.
  - reflexivity.
  - lia.
  - vm_compute. discriminate.
  - by exists m'.
Defined.

Lemma unmapped_access_witness :
  (@mc_read32 unit no_devices 0x50000000 true demo_mc).1 = Exn (out_of_range "[MCTRL] Out of range").
Proof.
  refine (proj1 (proj1 (proj2 (proj2
    (@unmapped_access unit no_devices demo_mc 0x50000000 0 true
      (mc_reachable_ok _ demo_reachable) _ _))))).
  - unfold is_u32; lia.
  - intros b Hb. change (banks demo_mc) with [demo_ram 0x40000000 0x1000; demo_ram 0x60000000 0x800] in Hb.
    apply elem_of_cons in Hb as [->|[->|[]%elem_of_nil]%elem_of_cons];
      unfold holds, demo_ram, get_base, bank_size, b_len; lia.
Defined.
