(* ===== verification/Profiler.v ===== *)
(** * The memory access profiler (src/src/memaccessprofiler.hpp)

    Counters of the accesses to memory, in total and for each page, and the
    ranking of the busiest pages and ranges of pages.  The report that prints
    them is in [ProfilerReport]. *)
From S2P Require Import Prelude.
From stdpp Require Import sorting.

#[local] Open Scope Z_scope.

Inductive Op := OpRead | OpWrite.

Record Totals := mkTotals {
  t_reads : Z; t_writes : Z; t_read_bytes : Z; t_write_bytes : Z; r_by_size : list Z; w_by_size : list Z }.

Record PageStat := mkPageStat { ps_reads : Z; ps_writes : Z; ps_read_bytes : Z; ps_write_bytes : Z }.
Definition PageStat0 : PageStat := mkPageStat 0 0 0 0.
Definition total_ops (s : PageStat) : Z := u64 (ps_reads s + ps_writes s).
Definition total_bytes (s : PageStat) : Z := u64 (ps_read_bytes s + ps_write_bytes s).

Record RangeStat := mkRangeStat { start_addr : Z; end_addr_inclusive : Z; agg : PageStat }.

Record profiler := mkProfiler {
  page_shift_ : Z; page_size_ : Z; page_mask_ : Z; totals_ : Totals; pages_ : gmap Z PageStat }.

Definition MemAccessProfiler_new (page_shift : Z) : profiler :=
  let size := shl32 1 page_shift in
  mkProfiler page_shift size (not32 (u32 (size - 1)))
    (mkTotals 0 0 0 0 (replicate 9 0) (replicate 9 0)) ∅.

Definition bump_size (arr : list Z) (sz : Z) : list Z :=
  alter (fun x => u64 (x + 1)) (if existsb (Z.eqb sz) [1; 2; 4; 8] then Z.to_nat sz else O) arr.

Definition record_totals (op : Op) (size : Z) (t : Totals) : Totals :=
  match op with
  | OpRead => mkTotals (u64 (t_reads t + 1)) (t_writes t) (u64 (t_read_bytes t + size)) (t_write_bytes t)
                (bump_size (r_by_size t) size) (w_by_size t)
  | OpWrite => mkTotals (t_reads t) (u64 (t_writes t + 1)) (t_read_bytes t) (u64 (t_write_bytes t + size))
                 (r_by_size t) (bump_size (w_by_size t) size)
  end.

Definition record_page (op : Op) (size : Z) (s : PageStat) : PageStat :=
  match op with
  | OpRead => mkPageStat (u64 (ps_reads s + 1)) (ps_writes s) (u64 (ps_read_bytes s + size)) (ps_write_bytes s)
  | OpWrite => mkPageStat (ps_reads s) (u64 (ps_writes s + 1)) (ps_read_bytes s) (u64 (ps_write_bytes s + size))
  end.

(** [pages_[page]] makes a new entry when there is none. *)
Definition record (op : Op) (addr size_bytes : Z) (p : profiler) : profiler :=
  let page := Z.shiftr addr (page_shift_ p) in
  mkProfiler (page_shift_ p) (page_size_ p) (page_mask_ p) (record_totals op size_bytes (totals_ p))
    (<[page := record_page op size_bytes (default PageStat0 (pages_ p !! page))]> (pages_ p)).

Definition add_into (a b : PageStat) : PageStat :=
  mkPageStat (u64 (ps_reads a + ps_reads b)) (u64 (ps_writes a + ps_writes b))
    (u64 (ps_read_bytes a + ps_read_bytes b)) (u64 (ps_write_bytes a + ps_write_bytes b)).

Definition key (by_bytes : bool) (s : PageStat) : Z := if by_bytes then total_bytes s else total_ops s.

(** [std::partial_sort] leaves the first elements in order; which of two equal
    elements comes first, and the order of the others, it leaves open.  Here the
    whole vector is sorted. *)
Definition busier {A} (by_bytes : bool) (stat : A -> PageStat) (a b : A) : Prop :=
  key by_bytes (stat b) <= key by_bytes (stat a).
#[export] Instance busier_dec {A} by_bytes (stat : A -> PageStat) : RelDecision (busier by_bytes stat).
Proof. intros a b. apply Z.le_dec. Defined.

Definition top_pages (n : nat) (by_bytes : bool) (p : profiler) : list (Z * PageStat) :=
  take n (merge_sort (busier by_bytes snd) (map_to_list (pages_ p))).

(** The merging loop, with [cur] the range that is being extended. *)
Definition addr_of_page (p : profiler) (page : Z) : Z := shl32 page (page_shift_ p).
Definition page_end (p : profiler) (page : Z) : Z := u32 (addr_of_page p page + u32 (page_size_ p - 1)).

Fixpoint merge_from (p : profiler) (cur : RangeStat) (page_keys : list Z) : list RangeStat :=
  match page_keys with
  | [] => [cur]
  | k :: page_keys =>
      let ps := default PageStat0 (pages_ p !! k) in
      if addr_of_page p k =? u32 (end_addr_inclusive cur + 1)
      then merge_from p (mkRangeStat (start_addr cur) (page_end p k) (add_into (agg cur) ps)) page_keys
      else cur :: merge_from p (mkRangeStat (addr_of_page p k) (page_end p k) ps) page_keys
  end.

Definition sorted_keys (p : profiler) : list Z := merge_sort Z.le (map_to_list (pages_ p)).*1.

Definition merged_ranges (p : profiler) : list RangeStat :=
  match sorted_keys p with
  | [] => []
  | k :: ks =>
      merge_from p (mkRangeStat (addr_of_page p k) (page_end p k) (default PageStat0 (pages_ p !! k))) ks
  end.

Definition top_ranges (n : nat) (by_bytes : bool) (p : profiler) : list RangeStat :=
  take n (merge_sort (busier by_bytes agg) (merged_ranges p)).

Definition top_pages_by_ops (n : nat) := top_pages n false.
Definition top_pages_by_bytes (n : nat) := top_pages n true.
Definition top_ranges_by_ops (n : nat) := top_ranges n false.
Definition top_ranges_by_bytes (n : nat) := top_ranges n true.

(** ** What was recorded *)

(** An access: the operation, the address and the size. *)
Abbreviation access := (Op * Z * Z)%type.
Definition record_all (l : list access) (p : profiler) : profiler :=
  fold_left (fun p '(op, a, sz) => record op a sz p) l p.

Definition accesses_in (shift page : Z) (l : list access) : list access :=
  List.filter (fun e => Z.shiftr e.1.2 shift =? page) l.

(** The reference: how many accesses of a kind there are, and of how many bytes. *)
Definition is_op (op : Op) (e : access) : bool :=
  match op, e.1.1 with OpRead, OpRead | OpWrite, OpWrite => true | _, _ => false end.
Definition ops (op : Op) (l : list access) : Z := Z.of_nat (length (List.filter (is_op op) l)).
Definition bytes_moved (op : Op) (l : list access) : Z := foldr (fun e n => e.2 + n) 0 (List.filter (is_op op) l).
Definition counted (l : list access) : PageStat :=
  mkPageStat (u64 (ops OpRead l)) (u64 (ops OpWrite l)) (u64 (bytes_moved OpRead l)) (u64 (bytes_moved OpWrite l)).

Lemma u64_add_l x y : u64 (u64 x + y) = u64 (x + y).
Proof. unfold u64. apply Zplus_mod_idemp_l. Qed.

Lemma filter_snoc {A} (f : A -> bool) l e : List.filter f (l ++ [e]) = List.filter f l ++ if f e then [e] else [].
Proof. rewrite List.filter_app. cbn. by destruct (f e). Qed.

Lemma ops_snoc op l e : ops op (l ++ [e]) = ops op l + if is_op op e then 1 else 0.
Proof. unfold ops. rewrite filter_snoc, length_app, Nat2Z.inj_add. by destruct (is_op op e). Qed.

Lemma bytes_snoc op l e : bytes_moved op (l ++ [e]) = bytes_moved op l + if is_op op e then e.2 else 0.
Proof.
  unfold bytes_moved. rewrite filter_snoc, foldr_app. generalize (List.filter (is_op op) l). intros k.
  destruct (is_op op e); cbn; [|by rewrite Z.add_0_r]. rewrite Z.add_0_r. induction k as [|x k IH]; cbn; lia.
Qed.

Lemma counted_snoc l e : counted (l ++ [e]) = record_page e.1.1 e.2 (counted l).
Proof.
  unfold counted, record_page. rewrite !ops_snoc, !bytes_snoc. unfold is_op.
  destruct (e.1.1); cbn; by rewrite ?Z.add_0_r, !u64_add_l.
Qed.

Definition totals_match (t : Totals) (s : PageStat) : Prop :=
  t_reads t = ps_reads s /\ t_writes t = ps_writes s /\ t_read_bytes t = ps_read_bytes s /\ t_write_bytes t = ps_write_bytes s.

Lemma record_match op sz t s : totals_match t s -> totals_match (record_totals op sz t) (record_page op sz s).
Proof. intros (E1 & E2 & E3 & E4). unfold totals_match. destruct op; cbn; rewrite ?E1, ?E2, ?E3, ?E4; done. Qed.

(** The counters after any sequence of accesses. *)
Lemma recorded shift l :
  let p := record_all l (MemAccessProfiler_new shift) in
  page_shift_ p = shift /\ totals_match (totals_ p) (counted l) /\
  forall k, pages_ p !! k = match accesses_in shift k l with [] => None | es => Some (counted es) end.
Proof.
  induction l as [|[[op a] sz] l IH] using rev_ind; [done|]. cbv zeta in *. unfold record_all in *. rewrite fold_left_app. cbn [fold_left].
  destruct IH as (Hs & Ht & Hp). set (p := fold_left _ l _) in *. split; [done|]. split.
  - cbn. rewrite counted_snoc. by apply record_match.
  - intros k. unfold record. cbn [pages_]. rewrite Hs. unfold accesses_in. rewrite filter_snoc. cbn [fst snd].
    fold (accesses_in shift k l). destruct (Z.shiftr a shift =? k) eqn:E.
    + apply Z.eqb_eq in E as <-. rewrite lookup_insert_eq, Hp.
      pose proof (counted_snoc (accesses_in shift (Z.shiftr a shift) l) (op, a, sz)) as Hc. cbn [fst snd] in Hc.
      by destruct (accesses_in shift (Z.shiftr a shift) l); cbn [app] in *; rewrite Hc.
    + apply Z.eqb_neq in E. rewrite lookup_insert_ne, Hp, app_nil_r by done. done.
Qed.

(** ** The ranges *)

Section ranges.
Context (p : profiler) (Hshift : 0 <= page_shift_ p < 32) (Hsize : page_size_ p = 2 ^ page_shift_ p).
Abbreviation S_ := (2 ^ page_shift_ p).
Abbreviation N_ := (2 ^ (32 - page_shift_ p)).

Lemma page_space : 0 < S_ /\ 0 < N_ /\ N_ * S_ = 4294967296.
Proof. rewrite <- Z.pow_add_r by lia. split_and!; [lia|lia|]. change 4294967296 with (2 ^ 32). f_equal. lia. Qed.

Lemma page_bounds k : 0 <= k < N_ -> addr_of_page p k = k * S_ /\ page_end p k = k * S_ + S_ - 1.
Proof.
  destruct page_space as (HS & HN & HM). intros Hk. unfold page_end, addr_of_page, shl32. rewrite Z.shiftl_mul_pow2, Hsize by lia.
  assert (0 <= k * S_) by nia. assert (k * S_ + S_ <= 4294967296) by nia.
  rewrite (u32_id (k * S_)), (u32_id (S_ - 1)), u32_id by (unfold is_u32; nia). lia.
Qed.

(** A range from page [a] to page [b]. *)
Definition spans (r : RangeStat) (a b : Z) : Prop :=
  start_addr r = a * S_ /\ end_addr_inclusive r = b * S_ + S_ - 1.
Definition in_range (x : Z) (r : RangeStat) : Prop := start_addr r <= x <= end_addr_inclusive r.
Definition in_some (x : Z) (l : list RangeStat) : Prop := exists r, r ∈ l /\ in_range x r.

Lemma in_spans x r a b : spans r a b -> in_range x r <-> a <= x / S_ <= b.
Proof.
  destruct page_space as (HS & _). intros [E1 E2]. unfold in_range. rewrite E1, E2. pose proof (Z.mul_div_le x S_ HS).
  pose proof (Z.mul_succ_div_gt x S_ HS). split; intros []; nia.
Qed.

Lemma in_some_cons x r l : in_some x (r :: l) <-> in_range x r \/ in_some x l.
Proof. unfold in_some. setoid_rewrite elem_of_cons. naive_solver. Qed.

(** Sums of counters, modulo their width. *)
Definition sum_stats (f : PageStat -> Z) (l : list PageStat) : Z := foldr (fun s n => f s + n) 0 l.
Definition stat_at (k : Z) : PageStat := default PageStat0 (pages_ p !! k).

Lemma merge_covers keys : forall cur a b, spans cur a b -> a <= b -> Forall (fun k => 0 <= k < N_) (b :: keys) ->
  StronglySorted Z.lt (b :: keys) ->
  (forall x, in_some x (merge_from p cur keys) <-> a <= x / S_ <= b \/ x / S_ ∈ keys) /\
  forall f, (forall s t, u64 (f (add_into s t)) = u64 (f s + f t)) ->
    u64 (sum_stats f (map agg (merge_from p cur keys))) = u64 (f (agg cur) + sum_stats f (map stat_at keys)).
Proof.
  destruct page_space as (HS & HN & HM). induction keys as [|k keys IH]; intros cur a b Hc Hab Hr Hs; cbn [merge_from].
  - split; [|done]. intros x. rewrite in_some_cons, (in_spans x cur a b Hc), elem_of_nil. unfold in_some. setoid_rewrite elem_of_nil. naive_solver.
  - apply Forall_cons_1 in Hr as [Hb Hr]. pose proof Hr as Hr'. apply Forall_cons_1 in Hr' as [Hk _].
    apply StronglySorted_inv in Hs as [Hs Hlt]. apply Forall_cons_1 in Hlt as [Hbk _].
    destruct (page_bounds k Hk) as [Ea Ee]. fold (stat_at k). rewrite Ea.
    assert ((k * S_ =? u32 (end_addr_inclusive cur + 1)) = (k =? b + 1)) as ->.
    { destruct Hc as [_ ->]. replace (b * S_ + S_ - 1 + 1) with ((b + 1) * S_) by lia. rewrite u32_id by (unfold is_u32; nia).
      destruct (k =? b + 1) eqn:E; [apply Z.eqb_eq in E as ->; apply Z.eqb_refl|]. apply Z.eqb_neq in E. apply Z.eqb_neq. nia. }
    destruct (k =? b + 1) eqn:E.
    + apply Z.eqb_eq in E as ->. destruct (IH (mkRangeStat (start_addr cur) (page_end p (b + 1)) (add_into (agg cur) (stat_at (b + 1)))) a (b + 1)) as [H1 H2];
        [destruct Hc as [-> _]; by split|lia|done|done|]. split.
      * intros x. rewrite H1, elem_of_cons. intuition lia.
      * intros f Hf. rewrite (H2 f Hf). cbn [agg map sum_stats foldr]. fold (sum_stats f (map stat_at keys)).
        rewrite <- u64_add_l, (Hf (agg cur)), u64_add_l. f_equal. lia.
    + apply Z.eqb_neq in E. destruct (IH (mkRangeStat (k * S_) (page_end p k) (stat_at k)) k k) as [H1 H2]; [by split; [|rewrite <- Ee]|lia|done|done|]. split.
      * intros x. rewrite in_some_cons, (in_spans x cur a b Hc), H1, elem_of_cons. intuition lia.
      * intros f Hf. cbn [map sum_stats foldr]. fold (sum_stats f (map stat_at keys)). rewrite Z.add_comm.
        fold (sum_stats f (map agg (merge_from p (mkRangeStat (k * S_) (page_end p k) (stat_at k)) keys))).
        rewrite <- u64_add_l, (H2 f Hf), u64_add_l. cbn [agg]. f_equal. lia.
Qed.
End ranges.

(** ** The keys *)

Lemma sorted_lt (l : list Z) : StronglySorted Z.le l -> NoDup l -> StronglySorted Z.lt l.
Proof.
  induction 1 as [|k l _ IH Hk]; intros Hn; [constructor|]. apply NoDup_cons in Hn as [Hni Hn]. constructor; [by apply IH|].
  apply Forall_forall. intros x Hx. rewrite Forall_forall in Hk. specialize (Hk x Hx).
  assert (x <> k) by (intros ->; by apply Hni, list_elem_of_In). lia.
Qed.

Lemma sorted_keys_spec p :
  StronglySorted Z.lt (sorted_keys p) /\ NoDup (sorted_keys p) /\ forall k, k ∈ sorted_keys p <-> is_Some (pages_ p !! k).
Proof.
  unfold sorted_keys. set (ks := (map_to_list (pages_ p)).*1).
  pose proof (merge_sort_Permutation Z.le ks) as Hp.
  assert (NoDup (merge_sort Z.le ks)) as Hn by (rewrite Hp; apply NoDup_fst_map_to_list).
  split_and!; [apply sorted_lt; [|done]; apply StronglySorted_merge_sort; [intros ???; lia|intros x y; destruct (Z.le_ge_cases x y); [left|right]; lia]|done|].
  intros k. rewrite Hp. unfold ks. rewrite list_elem_of_fmap. split.
  - intros ([k' s] & -> & Hin). apply elem_of_map_to_list in Hin. by exists s.
  - intros [s Hs]. exists (k, s). split; [done|]. by apply elem_of_map_to_list.
Qed.

(** ** Sums over the pages *)

Definition sum_over (f : Z -> Z) (ks : list Z) : Z := foldr (fun k n => f k + n) 0 ks.

Lemma sum_over_ext f g ks : (forall k, k ∈ ks -> f k = g k) -> sum_over f ks = sum_over g ks.
Proof.
  intros He. unfold sum_over. induction ks as [|k ks IH]; cbn; [done|]. rewrite He by set_solver. rewrite IH; [done|].
  intros. apply He. set_solver.
Qed.

Lemma sum_over_one f v k0 ks : NoDup ks -> k0 ∈ ks -> sum_over (fun k => f k + if k0 =? k then v else 0) ks = sum_over f ks + v.
Proof.
  intros Hn Hin. unfold sum_over. induction ks as [|k ks IH]; [by apply elem_of_nil in Hin|]. apply NoDup_cons in Hn as [Hni Hn]. cbn.
  destruct (k0 =? k) eqn:E.
  - apply Z.eqb_eq in E as <-. fold (sum_over (fun k => f k + if k0 =? k then v else 0) ks). fold (sum_over f ks).
    rewrite (sum_over_ext (fun k => f k + if k0 =? k then v else 0) f); [lia|].
    intros k Hk. rewrite (proj2 (Z.eqb_neq k0 k)); [lia|]. by intros ->.
  - apply Z.eqb_neq in E. apply elem_of_cons in Hin as [->|Hin]; [done|]. rewrite IH by done. lia.
Qed.

(** The accesses of the pages together are all the accesses. *)
Lemma pages_account (f : list access -> Z) (v : access -> Z) shift ks l :
  f [] = 0 -> (forall l e, f (l ++ [e]) = f l + v e) -> NoDup ks -> Forall (fun e => Z.shiftr e.1.2 shift ∈ ks) l ->
  sum_over (fun k => f (accesses_in shift k l)) ks = f l.
Proof.
  intros H0 Hs Hn. induction l as [|e l IH] using rev_ind; intros Hl.
  - cbn. rewrite H0. unfold sum_over. clear. induction ks; cbn; lia.
  - apply Forall_app in Hl as [Hl He]. apply Forall_cons_1 in He as [He _]. rewrite Hs, <- IH by done.
    rewrite <- (sum_over_one _ (v e) _ _ Hn He). apply sum_over_ext. intros k _. unfold accesses_in. rewrite filter_snoc.
    destruct (_ =? k); [apply Hs|]. by rewrite app_nil_r, Z.add_0_r.
Qed.

Lemma sum_u64 f ks : u64 (sum_over (fun k => u64 (f k)) ks) = u64 (sum_over f ks).
Proof.
  unfold sum_over. induction ks as [|k ks IH]; cbn; [done|]. rewrite u64_add_l, Z.add_comm, <- u64_add_l, IH, u64_add_l. f_equal. lia.
Qed.

(** A counter of the merged ranges, added up, is the counter of all accesses. *)
Section account.
Context (l : list access) (Hl : Forall (fun e => is_u32 e.1.2) l).
Abbreviation p := (record_all l (MemAccessProfiler_new 12)).

Lemma shift_range (e : access) : is_u32 e.1.2 -> 0 <= Z.shiftr e.1.2 12 < 1048576.
Proof. unfold is_u32. intros He. rewrite Z.shiftr_div_pow2 by lia. change (2 ^ 12) with 4096. Z.div_mod_to_equations. lia. Qed.

Lemma key_iff k : k ∈ sorted_keys p <-> exists e : access, e ∈ l /\ Z.shiftr e.1.2 12 = k.
Proof.
  destruct (recorded 12 l) as (_ & _ & Hp). destruct (sorted_keys_spec p) as (_ & _ & ->). rewrite Hp.
  assert ((exists e : access, e ∈ l /\ Z.shiftr e.1.2 12 = k) <-> exists e : access, e ∈ accesses_in 12 k l) as ->.
  { unfold accesses_in. setoid_rewrite list_elem_of_In. setoid_rewrite filter_In. setoid_rewrite Z.eqb_eq. done. }
  destruct (accesses_in 12 k l) as [|e es]; split.
  - intros [? [=]].
  - intros [e He]. by apply elem_of_nil in He.
  - intros _. exists e. set_solver.
  - by eexists.
Qed.

Lemma keys_in_range : Forall (fun k => 0 <= k < 1048576) (sorted_keys p).
Proof.
  apply Forall_forall. intros k Hk. apply key_iff in Hk as (e & He & <-). apply shift_range.
  rewrite Forall_forall in Hl. by apply Hl.
Qed.

Lemma recorded_size : forall l q, page_size_ q = 4096 -> page_size_ (record_all l q) = 4096.
Proof. induction l0 as [|[[]] l0 IH]; intros q Hq; [done|]. by apply IH. Qed.

Lemma merged_spec :
  (forall x, in_some x (merged_ranges p) <-> x / 4096 ∈ sorted_keys p) /\
  forall f, (forall s t, u64 (f (add_into s t)) = u64 (f s + f t)) ->
    u64 (sum_stats f (map agg (merged_ranges p))) = u64 (sum_stats f (map (stat_at p) (sorted_keys p))).
Proof.
  destruct (recorded 12 l) as (Hs & _). pose proof keys_in_range as Hr. destruct (sorted_keys_spec p) as (Hso & _).
  pose proof (recorded_size l (MemAccessProfiler_new 12) eq_refl) as Hz. unfold merged_ranges.
  destruct (sorted_keys p) as [|k ks] eqn:Ek.
  - split; [|done]. intros x. unfold in_some. setoid_rewrite elem_of_nil. naive_solver.
  - assert (page_size_ p = 2 ^ page_shift_ p) as Hsz by (by rewrite Hs).
    assert (0 <= page_shift_ p < 32) as Hsh by (rewrite Hs; lia).
    assert (0 <= k < 2 ^ (32 - page_shift_ p)) as Hk by (rewrite Hs; by apply Forall_cons_1 in Hr as [? _]).
    destruct (page_bounds p Hsh Hsz k Hk) as [Ea Ee].
    destruct (merge_covers p Hsh Hsz ks (mkRangeStat (addr_of_page p k) (page_end p k) (stat_at p k)) k k) as [H1 H2];
      [by split|lia|by rewrite Hs|done|]. split.
    + intros x. unfold stat_at in H1. rewrite H1, Hs, elem_of_cons. change (2 ^ 12) with 4096. intuition lia.
    + intros f Hf. unfold stat_at in H2 |- *. rewrite (H2 f Hf). done.
Qed.

(** One of the counters: [f] of a statistic, [g] of the accesses it counts. *)
Lemma counter_total (f : PageStat -> Z) (g : list access -> Z) v :
  (forall s t, u64 (f (add_into s t)) = u64 (f s + f t)) -> (forall es, f (counted es) = u64 (g es)) -> f PageStat0 = 0 ->
  g [] = 0 -> (forall es e, g (es ++ [e]) = g es + v e) ->
  u64 (sum_stats f (map agg (merged_ranges p))) = u64 (g l).
Proof.
  intros Hadd Hc Hz H0 Hs. destruct merged_spec as [_ Hm]. rewrite (Hm f Hadd). destruct (sorted_keys_spec p) as (_ & Hn & _).
  assert (sum_stats f (map (stat_at p) (sorted_keys p)) = sum_over (fun k => u64 (g (accesses_in 12 k l))) (sorted_keys p)) as ->.
  { destruct (recorded 12 l) as (_ & _ & Hp). unfold sum_stats, sum_over. clear Hm Hn. induction (sorted_keys p) as [|k ks IH]; cbn; [done|].
    rewrite IH. f_equal. unfold stat_at. rewrite Hp.
    destruct (accesses_in 12 k l) as [|e es]; cbn; [by rewrite Hz, H0|apply Hc]. }
  rewrite sum_u64, (pages_account g v 12); try done. apply Forall_forall. intros e He. apply key_iff. exists e. by split.
Qed.
End account.

(** The profiler accounts for every access: after any sequence of accesses
    its totals are the numbers of reads and writes and of the bytes they moved
    (modulo 2^64), each page has the counts of its own accesses, the merged
    ranges cover exactly the pages that were accessed, and the counters of the
    ranges add up to the totals. *)
Theorem profile_accounts l :
  Forall (fun e => is_u32 e.1.2) l ->
  let p := record_all l (MemAccessProfiler_new 12) in
  totals_match (totals_ p) (counted l) /\
  (forall k, pages_ p !! k = match accesses_in 12 k l with [] => None | es => Some (counted es) end) /\
  (forall x, is_u32 x -> in_some x (merged_ranges p) <-> exists e : access, e ∈ l /\ Z.shiftr e.1.2 12 = Z.shiftr x 12) /\
  Forall (fun f => u64 (sum_stats f (map agg (merged_ranges p))) = f (counted l)) [ps_reads; ps_writes; ps_read_bytes; ps_write_bytes].
Proof.
  intros Hl. cbv zeta. destruct (recorded 12 l) as (_ & Ht & Hp). split; [done|]. split; [done|]. split.
  - intros x Hx. destruct (merged_spec l Hl) as [-> _]. rewrite key_iff by done. rewrite (Z.shiftr_div_pow2 x) by lia. done.
  - assert (forall x, u64 (u64 x) = u64 x) as Hid by (intros; apply Z.mod_mod; lia).
    repeat constructor;
      [apply (counter_total l Hl ps_reads (ops OpRead) (fun e => if is_op OpRead e then 1 else 0))
      |apply (counter_total l Hl ps_writes (ops OpWrite) (fun e => if is_op OpWrite e then 1 else 0))
      |apply (counter_total l Hl ps_read_bytes (bytes_moved OpRead) (fun e => if is_op OpRead e then e.2 else 0))
      |apply (counter_total l Hl ps_write_bytes (bytes_moved OpWrite) (fun e => if is_op OpWrite e then e.2 else 0))];
      try done; intros; cbn; first [by rewrite Hid|apply ops_snoc|apply bytes_snoc].
Qed.

Lemma profile_accounts_witness :
  map (fun r => (start_addr r, end_addr_inclusive r, ps_reads (agg r)))
    (merged_ranges (record_all [(OpRead, 0x1ffe, 4); (OpWrite, 0x2000, 4); (OpRead, 0x40000000, 1)] (MemAccessProfiler_new 12))) =
    [(0x1000, 0x2fff, 1); (0x40000000, 0x40000fff, 1)] /\
  totals_match (totals_ (record_all [(OpRead, 0x1ffe, 4); (OpWrite, 0x2000, 4); (OpRead, 0x40000000, 1)] (MemAccessProfiler_new 12)))
    (mkPageStat 2 1 5 4).
Proof. split; [vm_compute; reflexivity|]. apply (profile_accounts [(OpRead, 0x1ffe, 4); (OpWrite, 0x2000, 4); (OpRead, 0x40000000, 1)]). by repeat constructor. Defined.
