(* ===== verification/Tlb.v ===== *)
(** * The translation lookaside buffer (class [TLB] of src/src/sparcv8/MMU.h and
      MMU.cpp)

    Sixteen entries replaced round-robin, and the one-entry micro-cache in front
    of them. *)
From S2P Require Import Prelude.

Definition TLB_ENTRIES : nat := 16.

Definition SRMMU_ET_PTD : Z := 0x1.
Definition SRMMU_ET_PTE : Z := 0x2.
Definition SRMMU_ET_MASK : Z := 0x3.

Record Entry := mkEntry {
  e_vaddr_tag : Z; e_mask : Z; e_pte : Z; e_context : Z; e_level : Z }.

(** [Entry{}]. *)
Definition Entry0 : Entry := mkEntry 0 0 0 0 0.

Record TLB := mkTLB {
  entries : list Entry;
  next_victim_ : Z;
  mc_context_ : Z; mc_vaddr_tag_ : Z; mc_mask_ : Z; mc_pte_ : Z; mc_level_ : Z }.

#[export] Instance eta_TLB : Eta TLB := fun t =>
  mkTLB (entries t) (next_victim_ t) (mc_context_ t) (mc_vaddr_tag_ t) (mc_mask_ t)
    (mc_pte_ t) (mc_level_ t).
#[export] Instance set_entries : Setter entries := ltac:(derive_setter).
#[export] Instance set_next_victim : Setter next_victim_ := ltac:(derive_setter).
#[export] Instance set_mc_context : Setter mc_context_ := ltac:(derive_setter).

(** A TLB as constructed. *)
Definition TLB_new : TLB := mkTLB (replicate TLB_ENTRIES Entry0) 0 0xffffffff 0 0 0 0.

Definition is_valid (pte : Z) : bool := Z.land pte 0x3 =? 0x2.

(** [MMU::get_addr_level_mask]; [None] is the [std::logic_error] it throws. *)
Definition get_addr_level_mask (level : Z) : option Z :=
  if level =? 3 then Some 0xfffff000
  else if level =? 2 then Some 0xfffc0000
  else if level =? 1 then Some 0xff000000
  else None.

(** The test of one entry in the scan loops. *)
Definition entry_matches (ctx va : Z) (e : Entry) : bool :=
  is_valid (e_pte e) && (e_context e =? ctx) && (Z.land va (e_mask e) =? e_vaddr_tag e).

Definition warm (t : TLB) (e : Entry) : TLB :=
  mkTLB (entries t) (next_victim_ t) (e_context e) (e_vaddr_tag e) (e_mask e) (e_pte e) (e_level e).

(** [lookup]: the pte and level found, and the TLB with its micro-cache warmed. *)
Definition tlb_lookup (ctx va : Z) (t : TLB) : option (Z * Z) * TLB :=
  if (mc_context_ t =? ctx) && (Z.land va (mc_mask_ t) =? mc_vaddr_tag_ t)
  then (Some (mc_pte_ t, mc_level_ t), t)
  else match List.find (entry_matches ctx va) (entries t) with
       | Some e => (Some (e_pte e, e_level e), warm t e)
       | None => (None, t)
       end.

(** [insert]; [None] is the exception of [get_addr_level_mask], thrown before
    any field is assigned. *)
Definition tlb_insert (ctx va lvl p : Z) (t : TLB) : option TLB :=
  if negb (is_valid p) then Some t
  else
    match get_addr_level_mask lvl with
    | None => None
    | Some m =>
        let e := mkEntry (Z.land va m) m p ctx lvl in
        let i := Z.to_nat (next_victim_ t) in
        Some (mkTLB (<[i := e]> (entries t))
                (Z.land (u16 (next_victim_ t + 1)) (Z.of_nat TLB_ENTRIES - 1))
                ctx (Z.land va m) m p lvl)
    end.

Definition tlb_invalidate_strict (ctx va : Z) (t : TLB) : TLB :=
  t <| entries :=
      map (fun e => if entry_matches ctx va e
                    then mkEntry (e_vaddr_tag e) (e_mask e) 0 (e_context e) (e_level e)
                    else e) (entries t) |>
    <| mc_context_ := 0xffffffff |>.

Definition tlb_flush (t : TLB) : TLB :=
  t <| entries := replicate TLB_ENTRIES Entry0 |>
    <| next_victim_ := 0 |> <| mc_context_ := 0xffffffff |>.

(** ** Invariant *)

(** Sixteen entries, a victim pointer among them, and a micro-cache that, unless
    it carries the invalid context, is the copy of a live entry. *)
Definition mc_entry (t : TLB) : Entry :=
  mkEntry (mc_vaddr_tag_ t) (mc_mask_ t) (mc_pte_ t) (mc_context_ t) (mc_level_ t).

Definition tlb_ok (t : TLB) : Prop :=
  length (entries t) = TLB_ENTRIES /\ 0 <= next_victim_ t < Z.of_nat TLB_ENTRIES /\
  (mc_context_ t <> 0xffffffff -> mc_entry t ∈ entries t /\ is_valid (mc_pte_ t) = true).

Lemma tlb_ok_flush t : tlb_ok (tlb_flush t).
Proof. split; [done|]. split; [by vm_compute|]. by intros []. Qed.

Lemma tlb_ok_new : tlb_ok TLB_new.
Proof. split; [done|]. split; [by vm_compute|]. by intros []. Qed.

Lemma tlb_ok_insert ctx va lvl p t t' :
  tlb_ok t -> tlb_insert ctx va lvl p t = Some t' -> tlb_ok t'.
Proof.
  intros Hok. pose proof Hok as (Hl & Hv & Hm). unfold tlb_insert.
  destruct (is_valid p) eqn:Ep; cbn; [|by intros [= <-]].
  destruct (get_addr_level_mask lvl) as [m|]; [|done]. intros [= <-].
  unfold tlb_ok; cbn. rewrite length_insert. split; [done|]. split.
  - apply (land_range _ _ 4); unfold TLB_ENTRIES; lia.
  - intros _. split; [|done]. apply list_elem_of_lookup. exists (Z.to_nat (next_victim_ t)).
    apply list_lookup_insert_eq. rewrite Hl. unfold TLB_ENTRIES in *. lia.
Qed.

Lemma tlb_ok_lookup ctx va t : tlb_ok t -> tlb_ok (tlb_lookup ctx va t).2.
Proof.
  intros (Hl & Hv & Hm). unfold tlb_lookup. destruct (_ && _); [done|].
  destruct (List.find _ _) as [e|] eqn:E; [|done]. apply List.find_some in E as [Hin He].
  unfold tlb_ok; cbn. split; [done|]. split; [done|]. intros _.
  unfold entry_matches in He. split; [|by destruct (is_valid (e_pte e))].
  apply list_elem_of_In. by destruct e.
Qed.

Lemma tlb_ok_invalidate ctx va t : tlb_ok t -> tlb_ok (tlb_invalidate_strict ctx va t).
Proof.
  intros (Hl & Hv & _). unfold tlb_ok; cbn. rewrite length_map. split; [done|].
  split; [done|]. by intros [].
Qed.

Lemma entry_matches_mc t va :
  is_valid (mc_pte_ t) = true -> (Z.land va (mc_mask_ t) =? mc_vaddr_tag_ t) = true ->
  entry_matches (mc_context_ t) va (mc_entry t) = true.
Proof. intros H1 H2. unfold entry_matches. cbn. by rewrite H1, H2, Z.eqb_refl. Qed.

(** A hit is a live entry that matches; a miss means that there is none. *)
Lemma tlb_lookup_sound ctx va t :
  tlb_ok t -> ctx <> 0xffffffff ->
  match (tlb_lookup ctx va t).1 with
  | Some (p, l) => exists e, e ∈ entries t /\ entry_matches ctx va e = true /\ p = e_pte e /\ l = e_level e
  | None => forall e, e ∈ entries t -> entry_matches ctx va e = false
  end.
Proof.
  intros (Hl & Hv & Hm) Hc. unfold tlb_lookup. destruct (_ && _) eqn:Eh; cbn.
  - apply andb_true_iff in Eh as [Ec%Z.eqb_eq Et].
    destruct Hm as [Hin Hval]; [congruence|]. exists (mc_entry t).
    split; [done|]. split; [|done]. rewrite <- Ec. by apply entry_matches_mc.
  - destruct (List.find _ _) as [e|] eqn:E; cbn.
    + apply List.find_some in E as [Hin%list_elem_of_In He]. eauto.
    + intros e He%list_elem_of_In. by apply (List.find_none _ _ E).
Qed.

Lemma tlb_lookup_entries ctx va t : entries (tlb_lookup ctx va t).2 = entries t.
Proof. unfold tlb_lookup. destruct (_ && _); [done|]. by destruct (List.find _ _). Qed.

(** ** Reachable buffers *)

Inductive tlb_reachable : TLB -> Prop :=
| tr_new : tlb_reachable TLB_new
| tr_lookup t ctx va : tlb_reachable t -> tlb_reachable (tlb_lookup ctx va t).2
| tr_insert t ctx va lvl p t' :
    tlb_reachable t -> tlb_insert ctx va lvl p t = Some t' -> tlb_reachable t'
| tr_invalidate t ctx va : tlb_reachable t -> tlb_reachable (tlb_invalidate_strict ctx va t)
| tr_flush t : tlb_reachable t -> tlb_reachable (tlb_flush t).

Lemma tlb_reachable_ok t : tlb_reachable t -> tlb_ok t.
Proof.
  induction 1; eauto using tlb_ok_new, tlb_ok_lookup, tlb_ok_insert, tlb_ok_invalidate, tlb_ok_flush.
Qed.

(** C21. The micro-cache is transparent: in every state the TLB can reach, a
    lookup in a context other than the invalid marker answers with a live entry
    that matches context and tag, and answers nothing only when no entry
    matches.  In particular an entry that was evicted, invalidated or flushed is
    never returned from the micro-cache. *)
Theorem tlb_lookup_matches_entries t ctx va :
  tlb_reachable t -> ctx <> 0xffffffff ->
  match (tlb_lookup ctx va t).1 with
  | Some (p, l) => exists e, e ∈ entries t /\ entry_matches ctx va e = true /\ p = e_pte e /\ l = e_level e
  | None => forall e, e ∈ entries t -> entry_matches ctx va e = false
  end.
Proof. intros Ht Hc. apply tlb_lookup_sound; [by apply tlb_reachable_ok|done]. Qed.

(** A translation inserted for an address is found again for every address
    of the same page and context, whatever the buffer held before. *)
Theorem tlb_insert_lookup t ctx va va' lvl p m t' :
  is_valid p = true -> get_addr_level_mask lvl = Some m ->
  tlb_insert ctx va lvl p t = Some t' -> Z.land va' m = Z.land va m ->
  (tlb_lookup ctx va' t').1 = Some (p, lvl).
Proof.
  intros Hp Hm. unfold tlb_insert. rewrite Hp, Hm. cbn. intros [= <-] Hva.
  unfold tlb_lookup; cbn. by rewrite Hva, !Z.eqb_refl.
Qed.

(** The invalid marker of the micro-cache is also a context number: after a
    flush every entry is dead, and a lookup in context [0xffffffff] still hits
    whatever translation the micro-cache held. *)
Theorem flushed_tlb_hits_marker_context t va :
  Z.land va (mc_mask_ t) = mc_vaddr_tag_ t ->
  (forall ctx e, e ∈ entries (tlb_flush t) -> entry_matches ctx va e = false) /\
  (tlb_lookup 0xffffffff va (tlb_flush t)).1 = Some (mc_pte_ t, mc_level_ t).
Proof.
  intros Hm. split.
  - intros ctx e. cbn. intros He. assert (e = Entry0) as ->; [|done].
    repeat (apply elem_of_cons in He as [->|He]; [done|]). by apply elem_of_nil in He.
  - unfold tlb_lookup; cbn. by rewrite Hm, Z.eqb_refl.
Qed.

(** ** Concrete instances *)

Definition demo_pte : Z := 0x1234561e.
Definition demo_tlb : TLB := default TLB_new (tlb_insert 5 0x40001abc 3 demo_pte TLB_new).

Lemma tlb_lookup_matches_entries_witness :
  exists e, e ∈ entries demo_tlb /\ entry_matches 5 0x40001004 e = true /\
            demo_pte = e_pte e /\ 3 = e_level e.
Proof.
  refine (tlb_lookup_matches_entries demo_tlb 5 0x40001004 _ _); [|lia].
  apply (tr_insert TLB_new 5 0x40001abc 3 demo_pte); [constructor|reflexivity].
Defined.

Lemma tlb_insert_lookup_witness : (tlb_lookup 5 0x40001004 demo_tlb).1 = Some (demo_pte, 3).
Proof.
  exact (tlb_insert_lookup TLB_new 5 0x40001abc 0x40001004 3 demo_pte 0xfffff000 demo_tlb
           eq_refl eq_refl eq_refl eq_refl).
Defined.

Lemma flushed_tlb_hits_marker_context_witness :
  (tlb_lookup 0xffffffff 0x40001004 (tlb_flush demo_tlb)).1 = Some (demo_pte, 3).
Proof. exact (proj2 (flushed_tlb_hits_marker_context demo_tlb 0x40001004 eq_refl)). Defined.
