(* ===== verification/Mmu.v ===== *)
(** * The SPARC reference MMU (class [MMU] of src/src/sparcv8/MMU.h and MMU.cpp)

    Control registers, the table walk, the permission checks, the translation
    through the TLBs, and [MemAccess], the function every load, store and
    instruction fetch goes through, with its three direct-mapped page caches in
    front of the translation. *)
From S2P Require Import Prelude Mctrl Tlb.

Inductive intent := intent_load | intent_store | intent_execute.

(** The access sizes [MemAccess] is instantiated with. *)
Inductive acc_size := Sz1 | Sz2 | Sz4.

Definition DC_WAYS : nat := 16.

(** [FetchCache], [DataCache] and [StoreCache] have the same members.  The host
    pointer [page_data] is the bank it points into and an offset in its buffer. *)
Record PageCache := mkPageCache {
  vpage : Z; pctx : Z; psuper : bool; page_data : option (nat * Z) }.

Definition PageCache0 : PageCache := mkPageCache 0xffffffff 0xffffffff false None.

Definition invalidate_page (c : PageCache) : PageCache :=
  mkPageCache 0xffffffff (pctx c) (psuper c) (page_data c).

Record MMUFault := mkFault {
  far : Z; ft : Z; at_ : Z; flevel : Z; fav : bool }.

Record MMUTranslateResult := mkTranslate {
  tr_ok : bool; tr_pa : Z; tr_level : Z; tr_pte : Z }.

Record MMU := mkMMU {
  control_reg : Z;
  ccr : Z; iccr : Z; dccr : Z;
  ctx_tbl_ptr : Z;
  ctx_n : Z; last_ctx_n : Z;
  fault_status_reg : Z;
  fault_address_reg : Z;
  fetch_cache_ : PageCache;
  data_cache_ : list PageCache;
  store_cache_ : list PageCache;
  itlb : TLB;
  dtlb : TLB }.

#[export] Instance eta_MMU : Eta MMU := fun m =>
  mkMMU (control_reg m) (ccr m) (iccr m) (dccr m) (ctx_tbl_ptr m) (ctx_n m)
    (last_ctx_n m) (fault_status_reg m) (fault_address_reg m) (fetch_cache_ m)
    (data_cache_ m) (store_cache_ m) (itlb m) (dtlb m).
#[export] Instance set_f_control_reg : Setter control_reg := ltac:(derive_setter).
#[export] Instance set_f_ccr : Setter ccr := ltac:(derive_setter).
#[export] Instance set_f_iccr : Setter iccr := ltac:(derive_setter).
#[export] Instance set_f_dccr : Setter dccr := ltac:(derive_setter).
#[export] Instance set_f_ctx_tbl_ptr : Setter ctx_tbl_ptr := ltac:(derive_setter).
#[export] Instance set_f_ctx_n : Setter ctx_n := ltac:(derive_setter).
#[export] Instance set_f_fsr : Setter fault_status_reg := ltac:(derive_setter).
#[export] Instance set_f_far : Setter fault_address_reg := ltac:(derive_setter).
#[export] Instance set_f_fetch : Setter fetch_cache_ := ltac:(derive_setter).
#[export] Instance set_f_data : Setter data_cache_ := ltac:(derive_setter).
#[export] Instance set_f_store : Setter store_cache_ := ltac:(derive_setter).
#[export] Instance set_f_itlb : Setter itlb := ltac:(derive_setter).
#[export] Instance set_f_dtlb : Setter dtlb := ltac:(derive_setter).

(** ** Register accessors *)

Definition get_enabled (m : MMU) : bool := truth (Z.land (control_reg m) 0x1).

Definition get_no_fault (m : MMU) : bool :=
  Z.shiftr (Z.land (control_reg m) 0x2) 1 =? 0x1.

Definition invalidate_l0 (m : MMU) : MMU :=
  m <| fetch_cache_ := invalidate_page (fetch_cache_ m) |>
    <| data_cache_ := map invalidate_page (data_cache_ m) |>
    <| store_cache_ := map invalidate_page (store_cache_ m) |>.

Definition set_control_reg (value : Z) (m : MMU) : MMU :=
  let m := if negb (Z.land value 0x1 =? Z.land (control_reg m) 0x1)
           then invalidate_l0 m else m in
  m <| control_reg := value |>.

Definition set_ctx_tbl_ptr (value : Z) (m : MMU) : MMU := m <| ctx_tbl_ptr := value |>.
Definition set_ctx_number (value : Z) (m : MMU) : MMU := m <| ctx_n := value |>.
Definition set_ccr (value : Z) (m : MMU) : MMU := m <| ccr := value |>.
Definition set_iccr (value : Z) (m : MMU) : MMU := m <| iccr := value |>.
Definition set_dccr (value : Z) (m : MMU) : MMU := m <| dccr := value |>.
Definition clear_fault_status (m : MMU) : MMU := m <| fault_status_reg := 0x0 |>.

Definition mmu_reset (m : MMU) : MMU :=
  mkMMU 0 0 0 0 0 0 0 0 0 PageCache0
    (map (fun _ => PageCache0) (data_cache_ m)) (map (fun _ => PageCache0) (store_cache_ m))
    (tlb_flush (itlb m)) (tlb_flush (dtlb m)).

(** The constructor: default members, then [reset]. *)
Definition mmu_new : MMU :=
  mmu_reset (mkMMU 0 0 0 0 0 0 0 0 0 PageCache0
               (replicate DC_WAYS PageCache0) (replicate DC_WAYS PageCache0)
               TLB_new TLB_new).

Definition mmu_flush (m : MMU) : MMU :=
  let m := invalidate_l0 m in
  m <| itlb := tlb_flush (itlb m) |> <| dtlb := tlb_flush (dtlb m) |>.

Definition make_fsr (level at_ ft : Z) (fav : bool) : Z :=
  Z.lor (Z.lor (Z.lor (Z.shiftl (Z.land level 0x3) 8) (Z.shiftl (Z.land at_ 0x7) 5))
           (Z.shiftl (Z.land ft 0x7) 2)) (if fav then 0x2 else 0).

Definition set_fault (f : MMUFault) (m : MMU) : MMU :=
  m <| fault_address_reg := far f |>
    <| fault_status_reg := make_fsr (flevel f) (at_ f) (ft f) (fav f) |>.

Definition get_access_type (rw : intent) (supervisor : bool) : Z :=
  match rw with
  | intent_load => if supervisor then 1 else 0
  | intent_store => if supervisor then 5 else 4
  | intent_execute => if supervisor then 3 else 2
  end.

(** ** Permissions *)

(** The fault type [check_perms] computes, assignment by assignment. *)
Definition perm_fault (pte : Z) (rw : intent) (supervisor : bool) (level : Z) : Z :=
  let ACC := Z.land (Z.shiftr pte 2) 0x7 in
  let AT := get_access_type rw supervisor in
  let ET := Z.land pte SRMMU_ET_MASK in
  let acc l := existsb (Z.eqb ACC) l in
  let FT := if ((ET =? 1) && (level =? 3)) || (ET =? 3) then 4 else 0 in
  if ET =? 0 then 1
  else if AT =? 0 then
    let FT := if acc [4] then 2 else FT in if acc [6; 7] then 3 else FT
  else if AT =? 1 then if acc [4] then 2 else FT
  else if AT =? 2 then
    let FT := if acc [0; 1; 5] then 2 else FT in if acc [6; 7] then 3 else FT
  else if AT =? 3 then if acc [0; 1; 5] then 2 else FT
  else if AT =? 4 then
    let FT := if acc [0; 2; 4; 5] then 2 else FT in if acc [6; 7] then 3 else FT
  else if AT =? 5 then if acc [0; 2; 4; 6] then 2 else FT
  else if AT =? 6 then
    let FT := if acc [0; 1; 2; 4; 5] then 2 else FT in if acc [6; 7] then 3 else FT
  else if AT =? 7 then if acc [0; 1; 2; 4; 5; 6] then 2 else FT
  else FT.

(** [perm_ok_table] of [translate_va]. *)
Definition perm_ok_table : list Z := [0x03; 0x33; 0x0F; 0xFF; 0x0C; 0x23; 0x0A; 0xAA].

#[local] Open Scope M_scope.

Section mmu.
Context {W : Type} `{DeviceBus W}.

(** An [MMU] and the memory controller it refers to. *)
Record memsys := mkMemsys { ms_mmu : MMU; ms_mc : mctrl W }.
Abbreviation MS := (M memsys).

Definition on_mc {A} (op : M (mctrl W) A) : MS A :=
  zoom ms_mc (fun c s => mkMemsys (ms_mmu s) c) op.
Definition mmu_get {A} (f : MMU -> A) : MS A := gets (fun s => f (ms_mmu s)).
Definition mmu_upd (f : MMU -> MMU) : MS unit :=
  modify (fun s => mkMemsys (f (ms_mmu s)) (ms_mc s)).

Definition MemAccessBypassRead4 (pa : Z) : MS Z :=
  noexcept (r ← on_mc (try_read32 pa false);
            ret (match r with (BusOk, Some out) => out | _ => 0 end)).

Definition MemAccessBypassWrite4 (pa value : Z) : MS unit :=
  noexcept (on_mc (try_write32 pa value true) ;; ret tt).

Definition check_perms (vaddr pte : Z) (rw : intent) (supervisor : bool) (level : Z)
    (report_fault : bool) : MS Z :=
  let FT := perm_fault pte rw supervisor level in
  when (negb (FT =? 0) && report_fault)
    (mmu_upd (set_fault (mkFault vaddr FT (get_access_type rw supervisor) level true))) ;;
  ret FT.

(** The table walk from the entry of the context table: the last entry read
    and the level it was found at. *)
Definition get_PTE_from (virt_addr l1 : Z) : MS (Z * Z) :=
  let ind1 := Z.land (Z.shiftr virt_addr 24) 0xff in
  let ind2 := Z.land (Z.shiftr virt_addr 18) 0x3f in
  let ind3 := Z.land (Z.shiftr virt_addr 12) 0x3f in
  lx ← MemAccessBypassRead4 l1;
  let next lx ind := u32 (shl32 (Z.shiftr (Z.land lx 0xfffffffc) 2) 6 + ind * 4) in
  if Z.land lx 3 =? 1 then
    lx ← MemAccessBypassRead4 (next lx ind1);
    if Z.land lx 3 =? 1 then
      lx ← MemAccessBypassRead4 (next lx ind2);
      if Z.land lx 3 =? 1 then
        lx ← MemAccessBypassRead4 (next lx ind3);
        ret (lx, 3)
      else ret (lx, 2)
    else ret (lx, 1)
  else ret (lx, 0).

(** The address of the context table entry. *)
Definition ctx_entry (m : MMU) : Z := u32 (shl32 (ctx_tbl_ptr m) 4 + u32 (ctx_n m * 4)).

Definition get_PTE (virt_addr : Z) : MS (Z * Z) :=
  l1 ← mmu_get ctx_entry; get_PTE_from virt_addr l1.

Definition tlb_of (rw : intent) (m : MMU) : TLB :=
  match rw with intent_execute => itlb m | _ => dtlb m end.
Definition put_tlb (rw : intent) (t : TLB) (m : MMU) : MMU :=
  match rw with intent_execute => m <| itlb := t |> | _ => m <| dtlb := t |> end.

Definition tlb_lookup_m (rw : intent) (ctx vaddr : Z) : MS (option (Z * Z)) := fun s =>
  let '(r, t) := tlb_lookup ctx vaddr (tlb_of rw (ms_mmu s)) in
  (Val r, mkMemsys (put_tlb rw t (ms_mmu s)) (ms_mc s)).

Definition tlb_insert_m (rw : intent) (ctx vaddr level pte : Z) : MS unit := fun s =>
  match tlb_insert ctx vaddr level pte (tlb_of rw (ms_mmu s)) with
  | Some t => (Val tt, mkMemsys (put_tlb rw t (ms_mmu s)) (ms_mc s))
  | None => (Exn (logic_error "Level !=1,2,3 not allowed"), s)
  end.

(** The physical address assembled from a valid entry. *)
Definition assemble_pa (vaddr pte level : Z) : Z :=
  let PPN := Z.shiftr (Z.land pte 0xffffff00) 8 in
  let va := if level =? 3 then Z.land vaddr 0xfff
            else if level =? 2 then Z.land vaddr 0x3ffff
            else if level =? 1 then Z.land vaddr 0xffffff
            else vaddr in
  Z.lor va (shl32 PPN 12).

Definition translate_va (vaddr : Z) (supervisor : bool) (rw : intent)
    (report_faults : bool) : MS MMUTranslateResult :=
  ctx ← mmu_get ctx_n;
  found ← tlb_lookup_m rw ctx vaddr;
  match found with
  | None =>
      if 255 <? ctx then throw (runtime_error "ctx_n > 255 error")
      else
        r ← get_PTE vaddr;
        let '(pte, level) := r in
        when (Z.land pte SRMMU_ET_MASK =? SRMMU_ET_PTE)
          (tlb_insert_m rw ctx vaddr level pte) ;;
        FT ← check_perms vaddr pte rw supervisor level report_faults;
        if negb (FT =? 0) then ret (mkTranslate false 0x0 level 0x0)
        else ret (mkTranslate true (assemble_pa vaddr pte level) level pte)
  | Some (pte, level) =>
      let AT := get_access_type rw supervisor in
      let ACC := Z.land (Z.shiftr pte 2) 0x7 in
      row ← or_ub (perm_ok_table !! Z.to_nat ACC);
      if Z.land (Z.shiftr row AT) 1 =? 0 then
        check_perms vaddr pte rw supervisor level report_faults ;;
        ret (mkTranslate false 0x0 level 0x0)
      else ret (mkTranslate true (assemble_pa vaddr pte level) level pte)
  end.

(** ** Host accesses through a cached page pointer *)

Definition buffer_of (b : bank) : option bytes :=
  match b with RomBank _ _ _ d | RamBank _ _ d => Some d | DevBank _ _ _ _ _ => None end.

Definition host_load (size : acc_size) (p : option (nat * Z)) (off : Z) : MS Z :=
  p ← or_ub p;
  b ← on_mc (bank_at p.1);
  d ← or_ub (buffer_of b);
  let i := p.2 + off in
  or_ub (match size with
         | Sz1 => bytes_get d i
         | Sz2 => peek16_be d i
         | Sz4 => peek32_be d i
         end).

Definition host_store (size : acc_size) (p : option (nat * Z)) (off value : Z) : MS unit :=
  p ← or_ub p;
  b ← on_mc (bank_at p.1);
  d ← or_ub (buffer_of b);
  let i := p.2 + off in
  on_mc (put_data p.1 b (match size with
                         | Sz1 => bytes_set d i (u8 value)
                         | Sz2 => poke16_be d i value
                         | Sz4 => poke32_be d i value
                         end)).

Definition cache_hit (c : PageCache) (virt_addr : Z) (supervisor : bool) (ctx : Z) : bool :=
  (vpage c =? Z.shiftr virt_addr 12) && eqb (psuper c) supervisor && (pctx c =? ctx).

(** [x_cache_[vpage & (DC_WAYS - 1)]]. *)
Definition way (virt_addr : Z) : nat :=
  Z.to_nat (Z.land (Z.shiftr virt_addr 12) (Z.of_nat DC_WAYS - 1)).

Definition bus_fault (virt_addr : Z) (rw : intent) (supervisor report_faults : bool) : MS Z :=
  when report_faults
    (mmu_upd (set_fault (mkFault virt_addr 5 (get_access_type rw supervisor) 0 true))) ;;
  ret (-5).

(** The entry filled on a miss: [bdata + (phys_addr & ~0xFFF) - base]. *)
Definition fill (virt_addr phys_addr : Z) (supervisor : bool) (ctx : Z) (bi : nat)
    (base : Z) : PageCache :=
  mkPageCache (Z.shiftr virt_addr 12) ctx supervisor
    (Some (bi, Z.land phys_addr 0xfffff000 - base)).

(** The physical access at the end of [MemAccess]: the bank, the L0 fill when
    the MMU is on and the bank has a host buffer, the bank accessors
    otherwise.  Returns the status and the value parameter. *)
Definition phys_access (rw : intent) (size : acc_size) (virt_addr phys_addr value : Z)
    (mmu_on supervisor report_faults : bool) : MS (Z * Z) :=
  pbank ← on_mc (get_bank phys_addr);
  match pbank with
  | None => r ← bus_fault virt_addr rw supervisor report_faults; ret (r, value)
  | Some bi =>
      b ← on_mc (bank_at bi);
      ctx ← mmu_get ctx_n;
      let c := fill virt_addr phys_addr supervisor ctx bi (get_base b) in
      let off := Z.land virt_addr 0xfff in
      let virtual_read :=
        v ← on_mc (match size with
                   | Sz1 => read8_nolock bi phys_addr
                   | Sz2 => read16_nolock bi phys_addr false
                   | Sz4 => read32_nolock bi phys_addr false
                   end);
        ret (0, v) in
      match rw with
      | intent_store =>
          bdata ← on_mc (get_ptr bi);
          match mmu_on, bdata with
          | true, Some _ =>
              mmu_upd (fun m => m <| store_cache_ := <[way virt_addr := c]> (store_cache_ m) |>) ;;
              host_store size (page_data c) off value ;;
              ret (0, value)
          | _, _ =>
              on_mc (match size with
                     | Sz1 => write8_nolock bi phys_addr (u8 value)
                     | Sz2 => write16_nolock bi phys_addr (u16 value) false
                     | Sz4 => write32_nolock bi phys_addr value false
                     end) ;;
              ret (0, value)
          end
      | intent_execute =>
          if mmu_on then
            bdata ← on_mc (get_ptr bi);
            match bdata with
            | Some _ =>
                mmu_upd (fun m => m <| fetch_cache_ := c |>) ;;
                v ← host_load Sz4 (page_data c) off;
                ret (0, v)
            | None => virtual_read
            end
          else virtual_read
      | intent_load =>
          if mmu_on then
            bdata ← on_mc (get_ptr bi);
            match bdata with
            | Some _ =>
                mmu_upd (fun m => m <| data_cache_ := <[way virt_addr := c]> (data_cache_ m) |>) ;;
                v ← host_load size (page_data c) off;
                ret (0, v)
            | None => virtual_read
            end
          else virtual_read
      end
  end.

(** The L0 cache consulted for an access, if it hits. *)
Definition l0_hit (rw : intent) (virt_addr : Z) (supervisor : bool) : MS (option PageCache) :=
  ctx ← mmu_get ctx_n;
  c ← match rw with
      | intent_execute => mmu_get fetch_cache_
      | intent_load => l ← mmu_get data_cache_; or_ub (l !! way virt_addr)
      | intent_store => l ← mmu_get store_cache_; or_ub (l !! way virt_addr)
      end;
  ret (if cache_hit c virt_addr supervisor ctx then Some c else None).

(** [MemAccess<rw, size>]: the status and the value parameter on return. *)
Definition MemAccess (rw : intent) (size : acc_size) (virt_addr value : Z)
    (supervisor report_faults : bool) : MS (Z * Z) :=
  mmu_on ← mmu_get get_enabled;
  if mmu_on then
    hit ← l0_hit rw virt_addr supervisor;
    match hit with
    | Some c =>
        let off := Z.land virt_addr 0xfff in
        match rw with
        | intent_execute => v ← host_load Sz4 (page_data c) off; ret (0, v)
        | intent_load => v ← host_load size (page_data c) off; ret (0, v)
        | intent_store => host_store size (page_data c) off value ;; ret (0, value)
        end
    | None =>
        tr ← translate_va virt_addr supervisor rw report_faults;
        if tr_ok tr then
          phys_access rw size virt_addr (tr_pa tr) value true supervisor report_faults
        else
          FT ← mmu_get (fun m => if report_faults
                                 then Z.land (Z.shiftr (fault_status_reg m) 2) 7 else 1);
          ret (- FT, value)
    end
  else phys_access rw size virt_addr virt_addr value false supervisor report_faults.

(** ** Atomic operations *)

Definition atomic_swap32 (vaddr : Z) (supervisor : bool) (value : Z) : MS AtomicResult :=
  on ← mmu_get get_enabled;
  nf ← mmu_get get_no_fault;
  pa ← ((if on then
           tr ← translate_va vaddr supervisor intent_load (negb nf);
           if tr_ok tr then
             ft ← check_perms vaddr (tr_pte tr) intent_store supervisor (tr_level tr) (negb nf);
             ret (if ft =? 0 then Some (tr_pa tr) else None)
           else ret None
         else ret (Some vaddr)) : MS (option Z));
  match pa with
  | None => ret (mkAtomicResult false 0x0)
  | Some paddr =>
      pbank ← on_mc (get_bank paddr);
      match pbank with
      | None => ret (mkAtomicResult false 0)
      | Some bi =>
          old ← on_mc (read32_nolock bi paddr true);
          on_mc (write32_nolock bi paddr value true) ;;
          ret (mkAtomicResult true old)
      end
  end.

(** The result, and the output parameter [swapped] (false on entry). *)
Definition atomic_casa32 (vaddr : Z) (supervisor : bool) (expected desired : Z)
  : MS (AtomicResult * bool) :=
  on ← mmu_get get_enabled;
  nf ← mmu_get get_no_fault;
  tr ← (if on then translate_va vaddr supervisor intent_load (negb nf)
        else ret (mkTranslate true vaddr 0 0));
  if negb (tr_ok tr) then ret (mkAtomicResult false 0, false)
  else
    let paddr := tr_pa tr in
    pbank ← on_mc (get_bank paddr);
    match pbank with
    | None => ret (mkAtomicResult false 0, false)
    | Some bi =>
        old ← on_mc (read32_nolock bi paddr true);
        if old =? expected then
          ft ← (if on then
                  check_perms vaddr (tr_pte tr) intent_store supervisor (tr_level tr) (negb nf)
                else ret 0);
          if negb (ft =? 0) then ret (mkAtomicResult false old, false)
          else
            on_mc (write32_nolock bi paddr desired true) ;;
            ret (mkAtomicResult true old, true)
        else ret (mkAtomicResult true old, false)
    end.
End mmu.
Arguments memsys : clear implicits.
Arguments mkMemsys {_} _ _.

(** ** Permissions: the fast table and the reference *)

(** Table of the SPARC reference MMU: what an access permission code allows. *)
Definition acc_allows (acc : Z) (rw : intent) (supervisor : bool) : bool :=
  match rw with
  | intent_load => existsb (Z.eqb acc) (if supervisor then [0; 1; 2; 3; 5; 6; 7] else [0; 1; 2; 3; 5])
  | intent_store => existsb (Z.eqb acc) (if supervisor then [1; 3; 5; 7] else [1; 3])
  | intent_execute => existsb (Z.eqb acc) (if supervisor then [2; 3; 4; 6; 7] else [2; 3; 4])
  end.

(** The fault code of a forbidden access: privilege violation for a user access
    to a supervisor page, protection error otherwise. *)
Definition acc_fault (acc : Z) (supervisor : bool) : Z :=
  if negb supervisor && ((acc =? 6) || (acc =? 7)) then 3 else 2.

Definition acc_of (pte : Z) : Z := Z.land (Z.shiftr pte 2) 0x7.

Lemma acc_cases pte : acc_of pte ∈ [0; 1; 2; 3; 4; 5; 6; 7].
Proof.
  unfold acc_of. pose proof (land_range (Z.shiftr pte 2) 7 3 ltac:(lia) ltac:(lia)).
  set (a := Z.land _ _) in *. change (2 ^ 3) with 8 in *.
  assert (a = 0 \/ a = 1 \/ a = 2 \/ a = 3 \/ a = 4 \/ a = 5 \/ a = 6 \/ a = 7) by lia. set_solver.
Qed.

Lemma perm_fault_valid pte rw sup level :
  Z.land pte 3 = 2 ->
  perm_fault pte rw sup level = if acc_allows (acc_of pte) rw sup then 0 else acc_fault (acc_of pte) sup.
Proof.
  intros Hv. unfold perm_fault, SRMMU_ET_MASK. cbv zeta. rewrite Hv. fold (acc_of pte).
  pose proof (acc_cases pte) as Ha. repeat (apply elem_of_cons in Ha as [->|Ha]); [..|by apply elem_of_nil in Ha];
    by destruct rw, sup.
Qed.

Lemma perm_table_row pte :
  exists row, perm_ok_table !! Z.to_nat (acc_of pte) = Some row /\
    forall rw sup, (Z.land (Z.shiftr row (get_access_type rw sup)) 1 =? 0) = negb (acc_allows (acc_of pte) rw sup).
Proof.
  pose proof (acc_cases pte) as Ha. repeat (apply elem_of_cons in Ha as [->|Ha]); [..|by apply elem_of_nil in Ha];
    (eexists; split; [reflexivity|]; by intros [] []).
Qed.

(** The permission check: for a valid entry, [check_perms] reports no fault
    exactly for the accesses the reference MMU's table of access permissions
    allows, a privilege violation for user accesses to supervisor pages and a
    protection error for the rest, and the bit table on the fast path of
    [translate_va] answers the same question. *)
Theorem permissions_agree pte rw sup level :
  Z.land pte 3 = 2 ->
  perm_fault pte rw sup level = (if acc_allows (acc_of pte) rw sup then 0 else acc_fault (acc_of pte) sup) /\
  exists row, perm_ok_table !! Z.to_nat (acc_of pte) = Some row /\
    (Z.land (Z.shiftr row (get_access_type rw sup)) 1 =? 0) = negb (perm_fault pte rw sup level =? 0).
Proof.
  intros Hv. split; [by apply perm_fault_valid|]. destruct (perm_table_row pte) as (row & Hr & Ht).
  exists row. split; [done|]. rewrite Ht, perm_fault_valid by done.
  destruct (acc_allows _ _ _); [done|]. unfold acc_fault. by destruct (_ && _).
Qed.

(** ** Translation: the TLB against the table walk *)

Section translation.
Context {W : Type} `{DeviceBus W}.

(** A computation that only uses the memory controller. *)
Definition lifts {A} (op : M (memsys W) A) : Prop :=
  exists f : M (mctrl W) A, forall s, op s = on_mc f s.

Lemma lifts_ret {A} (a : A) : lifts (ret a).
Proof. exists (ret a). by intros []. Qed.
Lemma lifts_bind {A B} (m : M (memsys W) A) (k : A -> M (memsys W) B) :
  lifts m -> (forall a, lifts (k a)) -> lifts (bindM m k).
Proof.
  intros [f Hf] Hk. exists (fun c => bindM f (fun a c' => 
    let '(r, s') := k a (mkMemsys mmu_new c') in (r, ms_mc s')) c).
  intros [m0 c0]. unfold bindM at 1. rewrite Hf. unfold on_mc, zoom, bindM. cbn [ms_mc ms_mmu].
  destruct (f c0) as [[a|e|x|] c1]; try done. destruct (Hk a) as [g Hg]. rewrite !Hg.
  unfold on_mc, zoom. cbn [ms_mc ms_mmu]. by destruct (g c1).
Qed.
Lemma lifts_on_mc {A} (f : M (mctrl W) A) : lifts (on_mc f).
Proof. by exists f. Qed.
Lemma lifts_noexcept {A} (m : M (memsys W) A) : lifts m -> lifts (noexcept m).
Proof.
  intros [f Hf]. exists (noexcept f). intros s. unfold noexcept. rewrite Hf. unfold on_mc, zoom.
  by destruct (f (ms_mc s)) as [[] c].
Qed.
Lemma lifts_bypass_read pa : lifts (MemAccessBypassRead4 pa).
Proof. apply lifts_noexcept, lifts_bind; [apply lifts_on_mc|]. intros. apply lifts_ret. Qed.

(** The walk reads the context table pointer and the context number, and then
    only memory. *)
Lemma get_PTE_lifts va :
  exists f : Z -> M (mctrl W) (Z * Z), forall s, get_PTE va s = on_mc (f (ctx_entry (ms_mmu s))) s.
Proof.
  assert (forall l1, lifts (get_PTE_from va l1)) as Hl.
  { intros l1. unfold get_PTE_from.
    repeat first [apply lifts_ret | apply lifts_bypass_read | apply lifts_bind; [|intros ?]
                 | match goal with |- lifts (if ?b then _ else _) => destruct b end]. }
  exists (fun l1 c => let '(r, s) := get_PTE_from va l1 (mkMemsys mmu_new c) in (r, ms_mc s)).
  intros s. change (get_PTE va s) with (get_PTE_from va (ctx_entry (ms_mmu s)) s).
  destruct (Hl (ctx_entry (ms_mmu s))) as [g Hg]. unfold on_mc, zoom. rewrite !Hg. unfold on_mc, zoom. cbn [ms_mc].
  by destruct (g (ms_mc s)).
Qed.

(** The same memory system with both TLBs and the page caches flushed. *)
Definition flushed (s : memsys W) : memsys W := mkMemsys (mmu_flush (ms_mmu s)) (ms_mc s).

Lemma flushed_lookup rw ctx va s :
  ctx <> 0xffffffff -> (tlb_lookup ctx va (tlb_of rw (ms_mmu (flushed s)))) = (None, tlb_of rw (ms_mmu (flushed s))).
Proof.
  intros Hc. assert (exists t, tlb_of rw (ms_mmu (flushed s)) = tlb_flush t) as [t ->] by (destruct rw; by eexists).
  unfold tlb_lookup. cbn [mc_context_ tlb_flush set_field_of set_mc_context].
  by rewrite (proj2 (Z.eqb_neq 0xffffffff ctx)) by done.
Qed.

Lemma check_perms_runs va pte rw sup level rep (s : memsys W) :
  check_perms va pte rw sup level rep s =
    (Val (perm_fault pte rw sup level),
     mkMemsys (if negb (perm_fault pte rw sup level =? 0) && rep
               then set_fault (mkFault va (perm_fault pte rw sup level) (get_access_type rw sup) level true) (ms_mmu s)
               else ms_mmu s) (ms_mc s)).
Proof. unfold check_perms, bindM, when. destruct (_ && _), s; done. Qed.

Definition fault_regs (s : memsys W) : Z * Z :=
  (fault_status_reg (ms_mmu s), fault_address_reg (ms_mmu s)).

Lemma put_tlb_fault_regs rw t m c :
  fault_regs (mkMemsys (put_tlb rw t m) c) = fault_regs (mkMemsys m c).
Proof. by destruct rw. Qed.

(** What the translation of [va] through the entry [pte] amounts to. *)
Definition translation (va pte : Z) (rw : intent) (sup : bool) (level : Z) : MMUTranslateResult :=
  if perm_fault pte rw sup level =? 0 then mkTranslate true (assemble_pa va pte level) level pte
  else mkTranslate false 0 level 0.
Definition faulted (va pte : Z) (rw : intent) (sup : bool) (level : Z) (rep : bool) (r : Z * Z) : Z * Z :=
  let FT := perm_fault pte rw sup level in
  if negb (FT =? 0) && rep then (make_fsr level (get_access_type rw sup) FT true, va) else r.

(** A hit in the TLB. *)
Lemma translate_va_hit va sup rw rep s pte level :
  (tlb_lookup (ctx_n (ms_mmu s)) va (tlb_of rw (ms_mmu s))).1 = Some (pte, level) -> is_valid pte = true ->
  exists s', translate_va va sup rw rep s = (Val (translation va pte rw sup level), s') /\
    fault_regs s' = faulted va pte rw sup level rep (fault_regs s).
Proof.
  intros Hhit Hv. unfold is_valid in Hv. apply Z.eqb_eq in Hv.
  unfold translate_va. mstep. unfold tlb_lookup_m, bindM at 1.
  destruct (tlb_lookup _ _ _) as [r t] eqn:El. cbn in Hhit. subst r.
  destruct (perm_table_row pte) as (row & Hr & Ht). fold (acc_of pte). rewrite Hr. cbn [or_ub]. mstep.
  rewrite Ht. unfold translation, faulted. cbv zeta. rewrite perm_fault_valid by done.
  destruct (acc_allows _ _ _) eqn:Ea; cbn [negb].
  - eexists. split; [reflexivity|]. by destruct rw.
  - assert ((acc_fault (acc_of pte) sup =? 0) = false) as Ef by (unfold acc_fault; by destruct (_ && _)).
    unfold bindM. rewrite check_perms_runs, perm_fault_valid, Ea, Ef by done. eexists. split; [reflexivity|].
    cbn [negb andb]. destruct rep; by destruct rw.
Qed.

(** A miss followed by a walk that finds the entry. *)
Lemma translate_va_miss va sup rw rep s t pte level c' :
  tlb_lookup (ctx_n (ms_mmu s)) va (tlb_of rw (ms_mmu s)) = (None, t) -> ctx_n (ms_mmu s) <= 255 ->
  get_PTE va (mkMemsys (put_tlb rw t (ms_mmu s)) (ms_mc s)) = (Val (pte, level), c') ->
  (is_valid pte = true -> is_Some (get_addr_level_mask level)) ->
  exists s', translate_va va sup rw rep s = (Val (translation va pte rw sup level), s') /\
    fault_regs s' = faulted va pte rw sup level rep (fault_regs c').
Proof.
  intros Hmiss Hctx Hwalk Hlevel. unfold translate_va. mstep. unfold tlb_lookup_m, bindM at 1. rewrite Hmiss.
  rewrite (proj2 (Z.ltb_ge 255 _)) by done. rewrite (bindM_val _ _ _ _ _ Hwalk). cbv beta iota.
  assert (exists s1, when (Z.land pte SRMMU_ET_MASK =? SRMMU_ET_PTE)
            (tlb_insert_m rw (ctx_n (ms_mmu s)) va level pte) c' = (Val tt, s1) /\
            fault_regs s1 = fault_regs c') as (s1 & E1 & Ef).
  { change (Z.land pte SRMMU_ET_MASK =? SRMMU_ET_PTE) with (is_valid pte). destruct (is_valid pte) eqn:Ev; cbn [when]; [|by eexists].
    unfold tlb_insert_m, tlb_insert. rewrite Ev. cbn [negb]. destruct (Hlevel eq_refl) as [mask ->].
    eexists. split; [reflexivity|]. apply put_tlb_fault_regs. }
  rewrite (bindM_val _ _ _ _ _ E1). unfold bindM. rewrite check_perms_runs. unfold translation, faulted. cbv zeta.
  rewrite <- Ef. destruct (perm_fault pte rw sup level =? 0); cbn [negb andb]; (eexists; split; [reflexivity|]); [done|].
  by destruct rep.
Qed.

(** C11. The TLB is transparent as long as it is coherent: where the TLB holds
    the entry that a walk of the tables in memory finds, a translation through
    it returns the same result, fault or physical address, and leaves the same
    fault registers as the translation on a flushed MMU, which walks. *)
Theorem tlb_hit_is_walk va sup rw rep (s : memsys W) pte level s1 :
  0 <= ctx_n (ms_mmu s) <= 255 -> is_valid pte = true -> is_Some (get_addr_level_mask level) ->
  (tlb_lookup (ctx_n (ms_mmu s)) va (tlb_of rw (ms_mmu s))).1 = Some (pte, level) ->
  get_PTE va s = (Val (pte, level), s1) ->
  exists r t1 t2, translate_va va sup rw rep s = (Val r, t1) /\
    translate_va va sup rw rep (flushed s) = (Val r, t2) /\ fault_regs t1 = fault_regs t2.
Proof.
  intros Hctx Hv Hl Hhit Hwalk. destruct (translate_va_hit va sup rw rep s pte level Hhit Hv) as (t1 & E1 & F1).
  destruct (get_PTE_lifts va) as [f Hf].
  assert (exists s2, get_PTE va (mkMemsys (put_tlb rw (tlb_of rw (ms_mmu (flushed s))) (ms_mmu (flushed s))) (ms_mc (flushed s)))
    = (Val (pte, level), s2) /\ fault_regs s2 = fault_regs s) as (s2 & E2 & F2).
  { rewrite Hf in Hwalk |- *. unfold on_mc, zoom in *. cbn [ms_mc ms_mmu flushed] in *.
    replace (ctx_entry (put_tlb _ _ _)) with (ctx_entry (ms_mmu s)) by (by destruct rw).
    destruct (f (ctx_entry (ms_mmu s)) (ms_mc s)) as [r c]. injection Hwalk as -> _.
    eexists. split; [reflexivity|]. by destruct rw. }
  destruct (translate_va_miss va sup rw rep (flushed s) (tlb_of rw (ms_mmu (flushed s))) pte level s2) as (t2 & E3 & F3).
  - apply flushed_lookup. change (ctx_n (ms_mmu (flushed s))) with (ctx_n (ms_mmu s)). lia.
  - apply Hctx.
  - exact E2.
  - done.
  - eexists _, t1, t2. split; [exact E1|]. split; [exact E3|]. by rewrite F1, F3, F2.
Qed.
End translation.

(** ** The page caches in front of the translation *)

(** The value of an access to a big-endian buffer. *)
Definition ram_value (size : acc_size) (d : bytes) (i : Z) : option Z :=
  match size with Sz1 => bytes_get d i | Sz2 => peek16_be d i | Sz4 => peek32_be d i end.
Definition access_result (o : option Z) : res (Z * Z) :=
  match o with Some x => Val (0, x) | None => Crash UndefinedBehaviour end.

(** Fetches are words; loads have any size. *)
Definition reads (rw : intent) (size : acc_size) : Prop :=
  rw = intent_load \/ (rw = intent_execute /\ size = Sz4).

Definition put_cache (rw : intent) (va : Z) (c : PageCache) (m : MMU) : MMU :=
  match rw with
  | intent_execute => m <| fetch_cache_ := c |>
  | intent_load => m <| data_cache_ := <[way va := c]> (data_cache_ m) |>
  | intent_store => m <| store_cache_ := <[way va := c]> (store_cache_ m) |>
  end.

Definition page (a : Z) : Z := Z.land a 0xfffff000.
Definition offset (a : Z) : Z := Z.land a 0xfff.

Lemma offset_mod a : offset a = a mod 4096.
Proof. unfold offset. change 0xfff with (Z.ones 12). by rewrite Z.land_ones by lia. Qed.

Lemma page_mod a : is_u32 a -> page a = a - a mod 4096.
Proof.
  intros Ha. unfold page. change 0xfffff000 with (Z.shiftl (Z.ones 20) 12).
  assert (a - a mod 4096 = Z.shiftl (a / 4096) 12) as ->.
  { rewrite Z.shiftl_mul_pow2 by lia. change (2 ^ 12) with 4096. pose proof (Z.div_mod a 4096). lia. }
  apply Z.bits_inj'. intros i Hi. rewrite Z.land_spec, !Z.shiftl_spec by lia.
  destruct (decide (i < 12)); [by rewrite !(Z.testbit_neg_r _ (i - 12)), andb_false_r by lia|].
  replace (a / 4096) with (Z.shiftr a 12) by (by rewrite Z.shiftr_div_pow2 by lia).
  rewrite Z.shiftr_spec by lia. replace (i - 12 + 12) with i by lia.
  destruct (decide (i < 32)); [by rewrite Z.ones_spec_low, andb_true_r by lia|].
  by rewrite (testbit_high a 32 i) by (done || lia).
Qed.

Section caches.
Context {W : Type} `{DeviceBus W}.
#[local] Open Scope M_scope.

(** A read through a page pointer into a big-endian RAM bank. *)
Lemma host_load_ram size (s : memsys W) bi base d k off :
  banks (ms_mc s) !! bi = Some (RamBank base Big d) ->
  host_load size (Some (bi, k)) off s =
    (match ram_value size d (k + off) with Some x => Val x | None => Crash UndefinedBehaviour end, s).
Proof.
  intros Hb. unfold host_load, on_mc, zoom, bank_at, bindM. cbn [or_ub ret fst]. rewrite Hb. cbn.
  destruct s. by destruct size; cbn; destruct (_ : option Z).
Qed.

(** The end of [MemAccess] for a read from such a bank, with the MMU on or
    off: the same value, and the page cache filled when it is on. *)
Lemma phys_read_ram rw size va pa v on sup rep (s : memsys W) bi base d :
  reads rw size -> mc_ok (ms_mc s) -> is_u32 pa -> offset va = offset pa ->
  banks (ms_mc s) !! bi = Some (RamBank base Big d) -> holds (RamBank base Big d) pa ->
  exists tl, mc_ok (ms_mc s <| tl_cache := tl |>) /\
    phys_access rw size va pa v on sup rep s =
      (access_result (ram_value size d (pa - base)),
       mkMemsys (if on : bool then put_cache rw va (fill va pa sup (ctx_n (ms_mmu s)) bi base) (ms_mmu s)
                 else ms_mmu s) (ms_mc s <| tl_cache := tl |>)).
Proof.
  intros Hrw Hm Hpa Ho Hb Hh. destruct (find_bank_or_null_scan (ms_mc s) pa Hm Hpa) as (tl & E & Hok).
  rewrite (scan_banks_unique _ bi _ pa (proj1 Hm) Hpa Hb Hh) in E. exists tl. split; [done|].
  assert (bank_wf (RamBank base Big d)) as (Hb0 & _ & Hb1).
  { destruct (proj1 Hm) as [Hf _]. rewrite Forall_lookup in Hf. eauto. }
  unfold holds in Hh. cbn in Hh, Hb0, Hb1.
  assert (u32 (pa - base) = pa - base) as Eu by (apply u32_id; unfold is_u32 in *; lia).
  assert (page pa - base + offset va = pa - base) as Ep by (rewrite Ho, page_mod, offset_mod by done; lia).
  set (s' := mkMemsys (ms_mmu s) (ms_mc s <| tl_cache := tl |>)).
  assert (on_mc (get_bank pa) s = (Val (Some bi), s')) as E1.
  { unfold on_mc, zoom, get_bank. by rewrite E. }
  assert (on_mc (bank_at bi) s' = (Val (RamBank base Big d), s')) as E2.
  { unfold on_mc, zoom, bank_at. cbn. by rewrite Hb. }
  assert (on_mc (get_ptr bi) s' = (Val (Some bi), s')) as E3.
  { unfold on_mc, zoom, get_ptr, bank_at, bindM. cbn. by rewrite Hb. }
  unfold phys_access. rewrite (bindM_val _ _ _ _ _ E1). cbv iota.
  rewrite (bindM_val _ _ _ _ _ E2). mstep. cbn [get_base].
  set (c := fill va pa sup _ bi base).
  assert (forall t : MMU, (v0 ← host_load size (page_data c) (Z.land va 0xfff); ret (0, v0))
      (mkMemsys t (ms_mc s')) = (access_result (ram_value size d (pa - base)), mkMemsys t (ms_mc s'))) as Hl.
  { intros t. unfold bindM. change (page_data c) with (Some (bi, page pa - base)).
    rewrite (host_load_ram size _ bi base d) by done. change (Z.land va 0xfff) with (offset va). rewrite Ep.
    by destruct (ram_value _ _ _). }
  assert ((v0 ← on_mc match size with Sz1 => read8_nolock bi pa | Sz2 => read16_nolock bi pa false
            | Sz4 => read32_nolock bi pa false end; ret (0, v0)) s' =
          (access_result (ram_value size d (pa - base)), s')) as Hv.
  { unfold bindM, on_mc, zoom, read8_nolock, read16_nolock, read32_nolock, bank_read16, noexcept, bindM, bank_at.
    cbn [ms_mc s']. destruct size; cbn; rewrite Hb; cbn; unfold ram_read8_nolock, read16_be; rewrite Eu;
      by destruct (_ : option Z). }
  destruct Hrw as [->|[-> ->]], on; try exact Hv;
    rewrite (bindM_val _ _ _ _ _ E3); cbv iota; mstep; exact (Hl _).
Qed.

Definition cache_entry (rw : intent) (va : Z) (m : MMU) : option PageCache :=
  match rw with
  | intent_execute => Some (fetch_cache_ m)
  | intent_load => data_cache_ m !! way va
  | intent_store => store_cache_ m !! way va
  end.

Lemma way_lt va : (way va < DC_WAYS)%nat.
Proof.
  unfold way. pose proof (land_range (Z.shiftr va 12) (Z.of_nat DC_WAYS - 1) 4 ltac:(lia) ltac:(by vm_compute)).
  change (2 ^ 4) with (Z.of_nat DC_WAYS) in *. lia.
Qed.

Lemma l0_hit_runs rw va sup (s : memsys W) c :
  cache_entry rw va (ms_mmu s) = Some c ->
  l0_hit rw va sup s = (Val (if cache_hit c va sup (ctx_n (ms_mmu s)) then Some c else None), s).
Proof.
  intros Hc. unfold l0_hit. mstep. destruct rw; cbn [cache_entry] in Hc.
  - unfold bindM, mmu_get, gets. cbv beta iota. by rewrite Hc.
  - unfold bindM, mmu_get, gets. cbv beta iota. by rewrite Hc.
  - injection Hc as <-. done.
Qed.

(** A read that hits its page cache. *)
Lemma MemAccess_read_hit rw size va v sup rep (s : memsys W) c bi k base d :
  reads rw size -> get_enabled (ms_mmu s) = true -> cache_entry rw va (ms_mmu s) = Some c ->
  cache_hit c va sup (ctx_n (ms_mmu s)) = true -> page_data c = Some (bi, k) ->
  banks (ms_mc s) !! bi = Some (RamBank base Big d) ->
  MemAccess rw size va v sup rep s = (access_result (ram_value size d (k + offset va)), s).
Proof.
  intros Hrw Hon Hc Hhit Hp Hb. unfold MemAccess. mstep. rewrite Hon.
  rewrite (bindM_val _ _ _ _ _ (l0_hit_runs rw va sup s c Hc)). rewrite Hhit, Hp.
  destruct Hrw as [->|[-> ->]]; unfold bindM; rewrite (host_load_ram _ _ bi base d) by done;
    change (Z.land va 0xfff) with (offset va); by destruct (ram_value _ _ _).
Qed.

(** C12. The page caches are transparent for reads: after a load or fetch at
    [va], translated to [pa] in a big-endian RAM bank that holds the whole
    page, the first access and every later one to the same page, context and
    mode that is served from the cache return exactly what an access without
    the MMU returns at the translated address. *)
Theorem page_cache_transparent rw size size' va va' pa v v' sup rep (s : memsys W) bi base d :
  reads rw size -> reads rw size' -> get_enabled (ms_mmu s) = true ->
  length (data_cache_ (ms_mmu s)) = DC_WAYS -> mc_ok (ms_mc s) -> is_u32 pa ->
  Z.shiftr va 12 = Z.shiftr va' 12 -> offset va = offset pa ->
  banks (ms_mc s) !! bi = Some (RamBank base Big d) ->
  base <= page pa -> page pa + 4096 <= base + b_len d ->
  (phys_access rw size va pa v true sup rep s).1 = (phys_access rw size va pa v false sup rep s).1 /\
  (MemAccess rw size' va' v' sup rep (phys_access rw size va pa v true sup rep s).2).1 =
  (phys_access rw size' va' (page pa + offset va') v' false sup rep s).1.
Proof.
  intros Hrw Hrw' Hon Hlen Hm Hpa Hvp Ho Hb Hlo Hhi.
  assert (0 <= offset va' < 4096) as Hoff by (rewrite offset_mod; by apply Z.mod_pos_bound).
  assert (page pa = pa - pa mod 4096) as Hpg by by apply page_mod.
  pose proof (Z.mod_pos_bound pa 4096 ltac:(lia)) as Hmod.
  assert (bank_wf (RamBank base Big d)) as (Hb0 & _ & Hb1).
  { destruct (proj1 Hm) as [Hf _]. rewrite Forall_lookup in Hf. eauto. }
  cbn in Hb0, Hb1. set (pa' := page pa + offset va').
  assert (is_u32 pa') as Hpa' by (unfold is_u32, pa' in *; lia).
  assert (offset va' = offset pa') as Ho'.
  { unfold pa'. rewrite (offset_mod (page pa + _)), Hpg.
    replace (pa - pa mod 4096) with (pa / 4096 * 4096) by (pose proof (Z.div_mod pa 4096); lia).
    rewrite Z.add_comm, Z.mod_add by lia. symmetry. by apply Z.mod_small. }
  assert (forall a, page pa <= a < page pa + 4096 -> holds (RamBank base Big d) a) as Hh.
  { intros a Ha. unfold holds. cbn. lia. }
  destruct (phys_read_ram rw size va pa v true sup rep s bi base d Hrw Hm Hpa Ho Hb) as (tl & Hm' & E1); [apply Hh; lia|].
  destruct (phys_read_ram rw size va pa v false sup rep s bi base d Hrw Hm Hpa Ho Hb) as (tl2 & _ & E2); [apply Hh; lia|].
  destruct (phys_read_ram rw size' va' pa' v' false sup rep s bi base d Hrw' Hm Hpa' Ho' Hb) as (tl3 & _ & E3);
    [apply Hh; unfold pa'; lia|].
  rewrite E1, E2, E3. split; [done|]. cbn [fst snd].
  set (c := fill va pa sup (ctx_n (ms_mmu s)) bi base).
  rewrite (MemAccess_read_hit rw size' va' v' sup rep _ c bi (page pa - base) base d); try done.
  - unfold pa'. cbn [fst]. do 2 f_equal. lia.
  - destruct Hrw as [->|[-> ->]]; exact Hon.
  - destruct Hrw as [->|[-> ->]]; [|done]. cbn. replace (way va') with (way va) by (unfold way; by rewrite Hvp).
    apply list_lookup_insert_eq. rewrite Hlen. apply way_lt.
  - replace (ctx_n (ms_mmu _)) with (ctx_n (ms_mmu s)) by (by destruct Hrw as [->|[-> ->]]).
    unfold cache_hit, c, fill. cbn. rewrite Hvp, !Z.eqb_refl. by destruct sup.
Qed.

Lemma invalidated l : Forall (fun c => vpage c = 0xffffffff) (map invalidate_page l).
Proof. induction l; by constructor. Qed.

(** Flushing works: after [mmu_flush], as after the guest's store to the
    MMU flush space, no page cache and no TLB entry answers in any context but
    the marker, so that the next access walks the tables. *)
Theorem flush_forces_walk rw va sup (s : memsys W) c :
  is_u32 va -> ctx_n (ms_mmu s) <> 0xffffffff ->
  cache_entry rw va (ms_mmu (flushed s)) = Some c ->
  l0_hit rw va sup (flushed s) = (Val None, flushed s) /\
  (tlb_lookup (ctx_n (ms_mmu s)) va (tlb_of rw (ms_mmu (flushed s)))).1 = None.
Proof.
  intros Hva Hctx Hc. rewrite (l0_hit_runs _ _ _ _ c Hc). rewrite flushed_lookup by done. split; [|done].
  assert (vpage c = 0xffffffff) as Hv.
  { destruct rw; cbn in Hc; [exact (Forall_lookup_1 _ _ _ _ (invalidated _) Hc)..|by injection Hc as <-]. }
  unfold cache_hit. rewrite Hv. pose proof (shiftr_u32 va 12 ltac:(lia) Hva).
  rewrite (proj2 (Z.eqb_neq 0xffffffff (Z.shiftr va 12))); [done|].
  rewrite Z.shiftr_div_pow2 by lia. change (2 ^ 12) with 4096. unfold is_u32 in *. Z.div_mod_to_equations. lia.
Qed.

(** A locked ROM is not protected when the MMU is on: the store goes through
    the host pointer of the page cache, which the lock does not cover, and the
    word in the ROM changes, while the same store with the MMU off throws
    inside a [noexcept] accessor and ends the emulator. *)
Theorem rom_lock_bypassed va pa v sup rep (s : memsys W) bi base e d :
  mc_ok (ms_mc s) -> is_u32 pa -> is_u32 v -> offset va = offset pa ->
  banks (ms_mc s) !! bi = Some (RomBank base false e d) -> base <= pa -> pa + 4 <= base + b_len d ->
  (exists d' s', peek32_be d' (pa - base) = Some v /\
    phys_access intent_store Sz4 va pa v true sup rep s = (Val (0, v), s') /\
    banks (ms_mc s') !! bi = Some (RomBank base false e d')) /\
  (phys_access intent_store Sz4 va pa v false sup rep s).1 = Crash StdTerminate.
Proof.
  intros Hm Hpa Hv Ho Hb Hlo Hhi. set (b := RomBank base false e d) in *.
  destruct (find_bank_or_null_scan (ms_mc s) pa Hm Hpa) as (tl & E & _).
  rewrite (scan_banks_unique _ bi b pa (proj1 Hm) Hpa Hb) in E by (unfold holds; cbn; lia).
  set (s' := mkMemsys (ms_mmu s) (ms_mc s <| tl_cache := tl |>)).
  assert (on_mc (get_bank pa) s = (Val (Some bi), s')) as E1.
  { unfold on_mc, zoom, get_bank. by rewrite E. }
  assert (on_mc (bank_at bi) s' = (Val b, s')) as E2.
  { unfold on_mc, zoom, bank_at. cbn. by rewrite Hb. }
  assert (on_mc (get_ptr bi) s' = (Val (Some bi), s')) as E3.
  { unfold on_mc, zoom, get_ptr, bank_at, bindM. cbn. by rewrite Hb. }
  assert (page pa - base + offset va = pa - base) as Ep by (rewrite Ho, page_mod, offset_mod by done; lia).
  destruct (poke32_spec Big d (pa - base) v) as (d' & Hd' & Hr & _); [lia|lia|done|].
  assert (forall on : bool, exists k, phys_access intent_store Sz4 va pa v on sup rep s = k s' /\
    k = (if on then
           (mmu_upd (put_cache intent_store va (fill va pa sup (ctx_n (ms_mmu s)) bi base)) ;;
            host_store Sz4 (Some (bi, page pa - base)) (offset va) v ;; ret (0, v))
         else (on_mc (write32_nolock bi pa v false) ;; ret (0, v)))) as Hk.
  { intros on. eexists. split; [|reflexivity]. unfold phys_access. rewrite (bindM_val _ _ _ _ _ E1). cbv iota.
    rewrite (bindM_val _ _ _ _ _ E2). mstep. cbn [get_base b]. rewrite (bindM_val _ _ _ _ _ E3). by destruct on. }
  destruct (Hk true) as (k1 & -> & ->), (Hk false) as (k2 & -> & ->). split.
  - exists d'. eexists. split; [exact Hr|]. mstep. unfold host_store, put_data, on_mc, zoom, bindM, bank_at.
    cbn. rewrite Hb. cbn. rewrite Ep, Hd'. cbn.
    split; [reflexivity|]. cbn. apply list_lookup_insert_eq. by eapply lookup_lt_Some.
  - unfold bindM, on_mc, zoom, write32_nolock, noexcept, bank_write32, bindM, bank_at. cbn. rewrite Hb. cbn. rewrite Hb.
    unfold default_write32, bank_write8, bindM, bank_at. by destruct e; cbn; rewrite ?Hb.
Qed.
End caches.

(** ** Fault registers *)

Lemma make_fsr_fields level a ft fav :
  0 <= a < 8 -> 0 <= ft < 8 ->
  Z.land (Z.shiftr (make_fsr level a ft fav) 5) 7 = a /\
  Z.land (Z.shiftr (make_fsr level a ft fav) 2) 7 = ft /\ Z.testbit (make_fsr level a ft fav) 1 = fav.
Proof.
  intros Ha Hf. unfold make_fsr. set (l := Z.land level 3).
  assert (forall x, 0 <= x < 8 -> Z.land x 7 = x) as Hid.
  { intros x Hx. change 7 with (Z.ones 3). rewrite Z.land_ones by lia. by apply Z.mod_small. }
  rewrite (Hid a), (Hid ft) by done. set (b := if fav then 2 else 0).
  assert (forall i, Z.testbit b i = (i =? 1) && fav) as Hb.
  { intros i. unfold b. destruct fav; [|by rewrite Z.bits_0, andb_false_r]. rewrite andb_true_r.
    change 2 with (Z.shiftl 1 1). rewrite testbit_pow2, Z.eqb_sym by lia. done. }
  assert (forall x i, 0 <= x < 8 -> (i < 0 \/ 3 <= i) -> Z.testbit x i = false) as Hout.
  { intros x i Hx [Hi|Hi]; [by apply Z.testbit_neg_r|by apply (testbit_high x 3)]. }
  assert (forall y x, 0 <= x < 8 -> (forall i, 0 <= i < 3 -> Z.testbit y i = Z.testbit x i) -> Z.land y 7 = x) as Heq.
  { intros y x Hx Hy. apply Z.bits_inj'. intros i Hi. rewrite Z.land_spec. change 7 with (Z.ones 3).
    destruct (decide (i < 3)); [rewrite Z.ones_spec_low, andb_true_r by lia; apply Hy; lia|].
    rewrite Z.ones_spec_high, andb_false_r by lia. symmetry. apply Hout; lia. }
  split; [|split].
  - apply Heq; [done|]. intros i Hi. rewrite Z.shiftr_spec, !Z.lor_spec, !Z.shiftl_spec, Hb by lia.
    rewrite (Hout ft), (Z.testbit_neg_r l), (proj2 (Z.eqb_neq (i + 5) 1)) by lia.
    replace (i + 5 - 5) with i by lia. by rewrite !orb_false_r, orb_false_l.
  - apply Heq; [done|]. intros i Hi. rewrite Z.shiftr_spec, !Z.lor_spec, !Z.shiftl_spec, Hb by lia.
    rewrite (Z.testbit_neg_r l), (Z.testbit_neg_r a), (proj2 (Z.eqb_neq (i + 2) 1)) by lia.
    replace (i + 2 - 2) with i by lia. by rewrite !orb_false_r, !orb_false_l.
  - rewrite !Z.lor_spec, !Z.shiftl_spec, Hb by lia. by rewrite !Z.testbit_neg_r by lia.
Qed.

Lemma access_type_range rw sup : 0 <= get_access_type rw sup < 8.
Proof. destruct rw, sup; cbn; lia. Qed.

Lemma perm_fault_range pte rw sup level : 0 <= perm_fault pte rw sup level < 8.
Proof.
  assert (forall (b : bool) x y, 0 <= x < 8 -> 0 <= y < 8 -> 0 <= (if b then x else y) < 8) as Hif by by intros [].
  unfold perm_fault. cbv zeta. repeat apply Hif; lia.
Qed.

Section faults.
Context {W : Type} `{DeviceBus W}.
#[local] Open Scope M_scope.

(** The fault registers after a fault of type [ft] on an access to [va]. *)
Definition describes (va : Z) (rw : intent) (sup : bool) (ft : Z) (m : MMU) : Prop :=
  let f := fault_status_reg m in
  fault_address_reg m = va /\ Z.land (Z.shiftr f 5) 7 = get_access_type rw sup /\
  Z.land (Z.shiftr f 2) 7 = ft /\ Z.testbit f 1 = true.

Lemma set_fault_describes va rw sup ft level m :
  0 <= ft < 8 -> describes va rw sup ft (set_fault (mkFault va ft (get_access_type rw sup) level true) m).
Proof.
  intros Hf. split; [done|]. cbn [fault_status_reg set_fault set_field_of set_f_fsr].
  apply make_fsr_fields; [apply access_type_range|done].
Qed.

Lemma translate_va_fault va sup rw (s s' : memsys W) tr :
  tlb_ok (tlb_of rw (ms_mmu s)) -> ctx_n (ms_mmu s) <> 0xffffffff ->
  translate_va va sup rw true s = (Val tr, s') -> tr_ok tr = false ->
  exists ft, 0 < ft < 8 /\ describes va rw sup ft (ms_mmu s').
Proof.
  intros Hok Hctx. unfold translate_va. mstep. unfold tlb_lookup_m, bindM at 1.
  pose proof (tlb_lookup_sound (ctx_n (ms_mmu s)) va _ Hok Hctx) as Hs.
  destruct (tlb_lookup _ _ _) as [[[pte level]|] t]; cbn [fst] in Hs.
  - destruct Hs as (e & _ & He & -> & ->). unfold entry_matches, is_valid in He.
    assert (Z.land (e_pte e) 3 = 2) as Hv by (apply Z.eqb_eq; by destruct (_ =? 2)).
    destruct (perm_table_row (e_pte e)) as (row & Hr & Ht). fold (acc_of (e_pte e)). rewrite Hr. cbn [or_ub]. mstep.
    rewrite Ht. destruct (acc_allows _ _ _) eqn:Ea; cbn [negb]; [by intros [= <- <-]|].
    unfold bindM. rewrite check_perms_runs, perm_fault_valid, Ea by done.
    assert (0 < acc_fault (acc_of (e_pte e)) sup < 8) as Hft by (unfold acc_fault; case_match; lia).
    rewrite (proj2 (Z.eqb_neq (acc_fault _ _) 0)) by lia. intros [= <- <-] _. eexists. split; [exact Hft|].
    apply set_fault_describes. lia.
  - destruct (255 <? ctx_n (ms_mmu s)); [done|]. intros Htr Hno.
    apply bindM_inv_val in Htr as ([pte level] & s1 & _ & Htr). apply bindM_inv_val in Htr as ([] & s2 & _ & Htr).
    unfold bindM in Htr. rewrite check_perms_runs in Htr. pose proof (perm_fault_range pte rw sup level) as Hr.
    destruct (perm_fault pte rw sup level =? 0) eqn:E; cbn [negb andb] in Htr; injection Htr as <- <-; [done|].
    eexists. split; [|apply set_fault_describes; exact Hr]. lia.
Qed.

Lemma bus_fault_describes va rw sup (s s' : memsys W) r :
  bus_fault va rw sup true s = (Val r, s') -> r = -5 /\ describes va rw sup 5 (ms_mmu s').
Proof. intros [= <- <-]. split; [done|]. apply set_fault_describes. lia. Qed.

(** Past the bank lookup every access that returns reports success. *)
Lemma phys_access_status rw size va pa v on sup (s s' : memsys W) r x :
  phys_access rw size va pa v on sup true s = (Val (r, x), s') ->
  r = 0 \/ (r = -5 /\ x = v /\ describes va rw sup 5 (ms_mmu s')).
Proof.
  unfold phys_access. intros E. apply bindM_inv_val in E as ([bi|] & s1 & _ & E).
  - left. assert (forall A (m : M (memsys W) A) f t, bindM m (fun a => ret (0, f a)) t = (Val (r, x), s') -> r = 0) as Hz.
    { intros A m f t Em. apply bindM_inv_val in Em as (a & t' & _ & [= <- _ _]). done. }
    apply bindM_inv_val in E as (b & s2 & _ & E). apply bindM_inv_val in E as (c & s3 & _ & E).
    destruct rw, on; try (by apply (Hz _ _ _ _ E));
      apply bindM_inv_val in E as (o & s4 & _ & E); destruct o; try (by apply (Hz _ _ _ _ E));
      try (apply bindM_inv_val in E as ([] & s5 & _ & E); by apply (Hz _ _ _ _ E)).
  - right. apply bindM_inv_val in E as (r' & s2 & Hf & [= <- <- <-]).
    destruct (bus_fault_describes _ _ _ _ _ _ Hf). done.
Qed.

(** C14. Every failed access is described: when [MemAccess] returns an error
    status, the value parameter is untouched and the fault registers hold the
    faulting address, the access type of the intent and mode, the fault type
    that the status negates, and the address-valid bit. *)
Theorem fault_registers_describe_access rw size va v sup (s s' : memsys W) r x :
  tlb_ok (tlb_of rw (ms_mmu s)) -> ctx_n (ms_mmu s) <> 0xffffffff ->
  MemAccess rw size va v sup true s = (Val (r, x), s') -> r <> 0 ->
  x = v /\ 0 < - r < 8 /\ describes va rw sup (- r) (ms_mmu s').
Proof.
  intros Hok Hctx E Hr. unfold MemAccess in E. apply bindM_inv_val in E as (on & s1 & [= <- <-] & E).
  destruct (get_enabled (ms_mmu s)).
  - apply bindM_inv_val in E as (hit & s1 & Eh & E). assert (s1 = s) as ->.
    { unfold l0_hit in Eh. apply bindM_inv_val in Eh as (ctx & t & [= <- <-] & Eh).
      apply bindM_inv_val in Eh as (c & t & Ec & [= _ <-]). destruct rw; [..|by injection Ec];
        apply bindM_inv_val in Ec as (l & t' & [= <- <-] & Ec); unfold or_ub, ret, ub, crash_with in Ec; destruct (_ !! _); by simplify_eq. }
    destruct hit as [c|].
    + destruct rw; apply bindM_inv_val in E as (a & t & _ & [= <- _ _]); done.
    + apply bindM_inv_val in E as (tr & s1 & Et & E). destruct (tr_ok tr) eqn:Eok.
      * apply phys_access_status in E as [->|(-> & -> & Hd)]; [done|]. done.
      * destruct (translate_va_fault _ _ _ _ _ _ Hok Hctx Et Eok) as (ft & Hft & Hd).
        apply bindM_inv_val in E as (FT & s2 & [= <- <-] & [= <- <- <-]).
        destruct Hd as (H1 & H2 & H3 & H4). rewrite H3. rewrite Z.opp_involutive. done.
  - apply phys_access_status in E as [->|(-> & -> & Hd)]; done.
Qed.
End faults.

(** ** Concrete instances *)

(** A RAM page with a context table at its start, a first-level table at 0x400
    that maps address 0x40000000 to itself, and a word of data. *)
Definition vm_data : bytes :=
  default (mkBytes 0x1000 ∅)
    (d ← poke32_be (mkBytes 0x1000 ∅) 0x14 0x04000041;
     d ← poke32_be d 0x500 0x4000000e; poke32_be d 0xabc 0xcafebabe)%stdpp.
Definition vm_ram : bank := RamBank 0x40000000 Big vm_data.
Definition vm_rom : bank := RomBank 0 false Big (mkBytes 0x1000 ∅).
Definition vm_mc : mctrl unit := (attach_bank vm_rom (attach_bank vm_ram demo_empty).2).2.
Definition vm_mmu : MMU := set_ctx_number 5 (set_ctx_tbl_ptr 0x04000000 (set_control_reg 1 mmu_new)).
Definition demo_vm : memsys unit := mkMemsys vm_mmu vm_mc.

Lemma vm_mc_ok : mc_ok vm_mc.
Proof.
  apply mc_reachable_ok, mcr_attach; [apply mcr_attach; [by apply mcr_new| |]| |]; by vm_compute.
Qed.

(** The state after a load at 0x40000abc has filled the TLB. *)
Definition demo_vm1 : memsys unit := (@translate_va unit no_devices 0x40000abc true intent_load true demo_vm).2.

Lemma permissions_agree_witness : perm_fault 0x4000001a intent_load false 1 = 3.
Proof. rewrite (proj1 (permissions_agree 0x4000001a intent_load false 1 eq_refl)). reflexivity. Defined.

Lemma tlb_hit_is_walk_witness :
  exists r t1 t2, @translate_va unit no_devices 0x40000010 true intent_load true demo_vm1 = (Val r, t1) /\
    @translate_va unit no_devices 0x40000010 true intent_load true (flushed demo_vm1) = (Val r, t2).
Proof.
  destruct (@tlb_hit_is_walk unit no_devices 0x40000010 true intent_load true demo_vm1 0x4000000e 1
    (@get_PTE unit no_devices 0x40000010 demo_vm1).2) as (r & t1 & t2 & E1 & E2 & _).
  - vm_compute. split; discriminate.
  - reflexivity.
  - by eexists.
  - vm_compute. reflexivity.
  - vm_compute. reflexivity.
  - exists r, t1, t2. split; [exact E1|exact E2].
Defined.

Lemma page_cache_transparent_witness :
  (@MemAccess unit no_devices intent_load Sz4 0x40000abc 0 true true
     (@phys_access unit no_devices intent_load Sz1 0x40000010 0x40000010 0 true true true demo_vm).2).1 = Val (0, 0xcafebabe).
Proof.
  rewrite (proj2 (@page_cache_transparent unit no_devices intent_load Sz1 Sz4 0x40000010 0x40000abc 0x40000010 0 0
    true true demo_vm 0 0x40000000 vm_data (or_introl eq_refl) (or_introl eq_refl) eq_refl eq_refl vm_mc_ok
    ltac:(unfold is_u32; lia) eq_refl eq_refl eq_refl ltac:(vm_compute; discriminate) ltac:(vm_compute; discriminate))).
  vm_compute. reflexivity.
Defined.

Lemma flush_forces_walk_witness :
  @l0_hit unit intent_load 0x40000abc true (flushed demo_vm1) = (Val None, flushed demo_vm1).
Proof.
  refine (proj1 (@flush_forces_walk unit intent_load 0x40000abc true demo_vm1 PageCache0 _ _ _));
    [unfold is_u32; lia|vm_compute; discriminate|vm_compute; reflexivity].
Defined.

Lemma rom_lock_bypassed_witness :
  (@phys_access unit no_devices intent_store Sz4 0x10 0x10 0x12345678 false true true demo_vm).1 = Crash StdTerminate.
Proof.
  refine (proj2 (@rom_lock_bypassed unit no_devices 0x10 0x10 0x12345678 true true demo_vm 1 0 Big (mkBytes 0x1000 ∅)
    vm_mc_ok _ _ eq_refl eq_refl _ _)); [unfold is_u32; lia..|vm_compute; discriminate|vm_compute; discriminate].
Defined.

Lemma fault_registers_describe_access_witness :
  exists s', @MemAccess unit no_devices intent_store Sz4 0x50000004 7 false true demo_vm = (Val (-1, 7), s') /\
    fault_address_reg (ms_mmu s') = 0x50000004 /\ Z.land (Z.shiftr (fault_status_reg (ms_mmu s')) 5) 7 = 4.
Proof.
  eexists. split; [vm_compute; reflexivity|].
  refine ((fun H => conj (proj1 (proj2 (proj2 H))) (proj1 (proj2 (proj2 (proj2 H)))))
    (@fault_registers_describe_access unit no_devices intent_store Sz4 0x50000004 7 false demo_vm _ (-1) 7 _ _ _ _)).
  - apply tlb_ok_flush.
  - vm_compute. discriminate.
  - vm_compute. reflexivity.
  - discriminate.
Defined.
