(* ===== verification/Cpu.v ===== *)
(** * The processor state, register windows, decoder and trap entry
      (src/src/sparcv8/CPU.h, CPU.cpp, CPU_defines.h, CPU_instr_map.h) *)
From S2P Require Import Prelude Mctrl Tlb Mmu.

(** ** Constants of CPU_defines.h *)

Definition NWINDOWS : Z := 8.

Definition SPARC_INSTRUCTION_ACCESS_EXCEPTION : Z := 0x01.
Definition SPARC_ILLEGAL_INSTRUCTION : Z := 0x02.
Definition SPARC_PRIVILEGED_INSTRUCTION : Z := 0x03.
Definition SPARC_FP_DISABLED : Z := 0x04.
Definition SPARC_WINDOW_OVERFLOW : Z := 0x05.
Definition SPARC_WINDOW_UNDERFLOW : Z := 0x06.
Definition SPARC_MEMORY_ADDR_NOT_ALIGNED : Z := 0x07.
Definition SPARC_FP_EXCEPTION : Z := 0x08.
Definition SPARC_DATA_ACCESS_EXCEPTION : Z := 0x09.
Definition SPARC_TAG_OVERFLOW : Z := 0x0a.
Definition SPARC_DIVISION_BY_ZERO : Z := 0x2a.
Definition SPARC_INTERRUPT : Z := 0x10.

Definition CC_NEGATIVE : Z := 3.
Definition CC_ZERO : Z := 2.
Definition CC_OVERFLOW : Z := 1.
Definition CC_CARRY : Z := 0.
Definition PSR_ENABLE_TRAPS : Z := 5.
Definition PSR_CC_CARRY : Z := 20.

Definition INREG6 : Z := 0x1e.
Definition LOCALREG1 : Z := 0x11.
Definition LOCALREG2 : Z := 0x12.
Definition OUTREG6 : Z := 0x0e.
Definition OUTREG7 : Z := 0x0f.
Definition GLOBALREG8 : Z := 0x108.

Definition LOBITS1 : Z := 0x1.
Definition LOBITS2 : Z := 0x3.
Definition LOBITS3 : Z := 0x7.
Definition LOBITS4 : Z := 0xf.
Definition LOBITS5 : Z := 0x1f.
Definition LOBITS6 : Z := 0x3f.
Definition LOBITS7 : Z := 0x7f.
Definition LOBITS8 : Z := 0xff.
Definition LOBITS13 : Z := 0x1fff.
Definition LOBITS22 : Z := 0x3fffff.
Definition LOBITS30 : Z := 0x3fffffff.

Definition TERMINATE_INST : Z := 0x00000000.
Definition NOP : Z := 0x01000000.

Definition FIRST_RS1_EVAL_IDX : Z := 56.
Definition TICC_IDX : Z := 58.
Definition STORE_DBL_IDX : Z := 71.

Definition sign_ext22 (x : Z) : Z := Z.lor x (if truth (Z.land x 0x200000) then 0xffc00000 else 0).
Definition sign_ext13 (x : Z) : Z := Z.lor x (if truth (Z.land x 0x1000) then 0xffffe000 else 0).
Definition sign_ext7 (x : Z) : Z := Z.lor x (if truth (Z.land x 0x40) then 0xffffff80 else 0).

(** ** The bit fields of [PSR_t]

    The compiler lays the fields out from the least significant bit. *)
Definition psr_cwp (p : Z) : Z := Z.land p 0x1f.
Definition psr_et (p : Z) : Z := bit p 5.
Definition psr_ps (p : Z) : Z := bit p 6.
Definition psr_s (p : Z) : Z := bit p 7.
Definition psr_pil (p : Z) : Z := Z.land (Z.shiftr p 8) 0xf.
Definition psr_ef (p : Z) : Z := bit p 12.
Definition psr_c (p : Z) : Z := bit p 20.
Definition psr_v (p : Z) : Z := bit p 21.
Definition psr_z (p : Z) : Z := bit p 22.
Definition psr_n (p : Z) : Z := bit p 23.

(** Assignment to a field of [len] bits at [lo]: the value is truncated. *)
Definition put_bits (p lo len v : Z) : Z :=
  Z.lor (Z.ldiff p (Z.shiftl (Z.ones len) lo)) (Z.shiftl (Z.land v (Z.ones len)) lo).
Definition set_psr_cwp (v p : Z) : Z := put_bits p 0 5 v.
Definition set_psr_et (v p : Z) : Z := put_bits p 5 1 v.
Definition set_psr_ps (v p : Z) : Z := put_bits p 6 1 v.
Definition set_psr_s (v p : Z) : Z := put_bits p 7 1 v.

Inductive TerminateReason :=
| NORMAL | INSTRUCTION | BREAK | STEP | TRAP_CONDITIONAL | UNIMPLEMENTED
| RECV_SIGINT | TIMER_INTERRUPT | POWER_DOWN.

Record RunSummary := mkRunSummary {
  reason : TerminateReason; instr_count : Z; last_opcode : Z }.

(** ** Instruction functions: what the dispatch tables point to *)
Inductive instr :=
| UNIMP | CALL | BICC | SETHI | SLL | SRL | SRA | RDY | RDPSR | RDWIM | RDTBR
| WRY | WRPSR | WRWIM | WRTBR | JMPL | RETT | TICC | SAVE | RESTORE | FLUSH | MULSCC
| LD | LDUB | LDUH | LDD | LDSB | LDSH | ST | STB | STH | STD | SWAP | SWAPA | LDSTUB
| MUL | DIV | ADD | AND | STA_impl | LDA_impl | CASA
| LDF_impl | LDDF_impl | LDFSR_impl | STF_impl | STDF_impl | STFSR_impl | STDFQ_impl
| FBFCC_impl | FOP1_impl | FOP2_impl.

#[export] Instance instr_eq_dec : EqDecision instr.
Proof. solve_decision. Defined.

Definition format2 : list instr :=
  [UNIMP; UNIMP; BICC; UNIMP; SETHI; UNIMP; FBFCC_impl; UNIMP].

(** [format3], with the names CPU_instr_map.h gives to the same functions. *)
Definition format3 : list instr :=
  [ADD; AND; AND; AND;  ADD; AND; AND; AND;
   ADD; UNIMP; MUL; MUL;  ADD; UNIMP; DIV; DIV;
   ADD; AND; AND; AND;  ADD; AND; AND; AND;
   ADD; UNIMP; MUL; MUL;  ADD; UNIMP; DIV; DIV;
   ADD; ADD; ADD; ADD;  MULSCC; SLL; SRL; SRA;
   RDY; RDPSR; RDWIM; RDTBR;  UNIMP; UNIMP; UNIMP; UNIMP;
   WRY; WRPSR; WRWIM; WRTBR;  FOP1_impl; FOP2_impl; UNIMP; UNIMP;
   JMPL; RETT; TICC; FLUSH;  SAVE; RESTORE; UNIMP; UNIMP;
   LD; LDUB; LDUH; LDD;  ST; STB; STH; STD;
   UNIMP; LDSB; LDSH; UNIMP;  UNIMP; LDSTUB; UNIMP; SWAP;
   LDA_impl; UNIMP; UNIMP; UNIMP;  STA_impl; STA_impl; STA_impl; STA_impl;
   UNIMP; UNIMP; UNIMP; UNIMP;  UNIMP; UNIMP; UNIMP; SWAPA;
   LDF_impl; LDFSR_impl; UNIMP; LDDF_impl;  STF_impl; STFSR_impl; STDFQ_impl; STDF_impl;
   UNIMP; UNIMP; UNIMP; UNIMP;  UNIMP; UNIMP; UNIMP; UNIMP;
   UNIMP; UNIMP; UNIMP; UNIMP;  UNIMP; UNIMP; UNIMP; UNIMP;
   UNIMP; UNIMP; UNIMP; UNIMP;  CASA; UNIMP; UNIMP; UNIMP].

(** ** State *)

(** [DecodeStruct]; one object lives across the iterations of [run], so a field
    that [decode] does not assign keeps its previous value. *)
Record DecodeStruct := mkDecode {
  d_opcode : Z; d_function : instr; d_rd : Z; d_rs1 : Z; d_rs1_value : Z;
  d_imm_disp_rs2 : Z; d_ev : Z; d_op_2_3 : Z; d_i : Z;
  d_pc : Z; d_npc : Z; d_psr : Z; d_wb : bool; d_value : Z; d_value1 : Z }.

#[export] Instance eta_Decode : Eta DecodeStruct := fun d =>
  mkDecode (d_opcode d) (d_function d) (d_rd d) (d_rs1 d) (d_rs1_value d)
    (d_imm_disp_rs2 d) (d_ev d) (d_op_2_3 d) (d_i d) (d_pc d) (d_npc d) (d_psr d)
    (d_wb d) (d_value d) (d_value1 d).
#[export] Instance set_d_opcode : Setter d_opcode := ltac:(derive_setter).
#[export] Instance set_d_function : Setter d_function := ltac:(derive_setter).
#[export] Instance set_d_rd : Setter d_rd := ltac:(derive_setter).
#[export] Instance set_d_rs1 : Setter d_rs1 := ltac:(derive_setter).
#[export] Instance set_d_rs1_value : Setter d_rs1_value := ltac:(derive_setter).
#[export] Instance set_d_imm : Setter d_imm_disp_rs2 := ltac:(derive_setter).
#[export] Instance set_d_ev : Setter d_ev := ltac:(derive_setter).
#[export] Instance set_d_op_2_3 : Setter d_op_2_3 := ltac:(derive_setter).
#[export] Instance set_d_i : Setter d_i := ltac:(derive_setter).
#[export] Instance set_d_pc : Setter d_pc := ltac:(derive_setter).
#[export] Instance set_d_npc : Setter d_npc := ltac:(derive_setter).
#[export] Instance set_d_psr : Setter d_psr := ltac:(derive_setter).
#[export] Instance set_d_wb : Setter d_wb := ltac:(derive_setter).
#[export] Instance set_d_value : Setter d_value := ltac:(derive_setter).
#[export] Instance set_d_value1 : Setter d_value1 := ltac:(derive_setter).

(** [DecodeStruct Dec{}]; the null function pointer is never called before
    [decode] sets it. *)
Definition Decode0 : DecodeStruct := mkDecode 0 UNIMP 0 0 0 0 0 0 0 0 0 0 false 0 0.

(** The members of class [CPU] that are its own state. *)
Record cpu := mkCpu {
  pc : Z; npc : Z; psr : Z; irl : Z; trap_type : Z; tbr : Z; wim : Z; y_reg : Z;
  cpu_id_ : Z; fsr : Z; cwp_base_ : Z;
  globals : list Z; locals : list Z; outs : list Z; freg : list Z;
  running : bool; power_down_enabled : bool; powerdown_flag : bool; wakeup_flag : bool;
  rs : RunSummary; gdb_stub : bool; interrupt_ : bool }.

#[export] Instance eta_cpu : Eta cpu := fun c =>
  mkCpu (pc c) (npc c) (psr c) (irl c) (trap_type c) (tbr c) (wim c) (y_reg c)
    (cpu_id_ c) (fsr c) (cwp_base_ c) (globals c) (locals c) (outs c) (freg c)
    (running c) (power_down_enabled c) (powerdown_flag c) (wakeup_flag c)
    (rs c) (gdb_stub c) (interrupt_ c).
#[export] Instance set_c_pc : Setter pc := ltac:(derive_setter).
#[export] Instance set_c_npc : Setter npc := ltac:(derive_setter).
#[export] Instance set_c_psr : Setter psr := ltac:(derive_setter).
#[export] Instance set_c_irl : Setter irl := ltac:(derive_setter).
#[export] Instance set_c_trap_type : Setter trap_type := ltac:(derive_setter).
#[export] Instance set_c_tbr : Setter tbr := ltac:(derive_setter).
#[export] Instance set_c_wim : Setter wim := ltac:(derive_setter).
#[export] Instance set_c_y_reg : Setter y_reg := ltac:(derive_setter).
#[export] Instance set_c_fsr : Setter fsr := ltac:(derive_setter).
#[export] Instance set_c_cwp_base : Setter cwp_base_ := ltac:(derive_setter).
#[export] Instance set_c_globals : Setter globals := ltac:(derive_setter).
#[export] Instance set_c_locals : Setter locals := ltac:(derive_setter).
#[export] Instance set_c_outs : Setter outs := ltac:(derive_setter).
#[export] Instance set_c_freg : Setter freg := ltac:(derive_setter).
#[export] Instance set_c_running : Setter running := ltac:(derive_setter).
#[export] Instance set_c_power_down_enabled : Setter power_down_enabled := ltac:(derive_setter).
#[export] Instance set_c_powerdown : Setter powerdown_flag := ltac:(derive_setter).
#[export] Instance set_c_wakeup : Setter wakeup_flag := ltac:(derive_setter).
#[export] Instance set_c_rs : Setter rs := ltac:(derive_setter).
#[export] Instance set_c_gdb_stub : Setter gdb_stub := ltac:(derive_setter).
#[export] Instance set_c_interrupt : Setter interrupt_ := ltac:(derive_setter).

Definition update_cwp_bases (c : cpu) : cpu :=
  c <| cwp_base_ := shl32 (Z.land (psr c) LOBITS5) 3 |>.

(** The value written to [psr] by [reset]. *)
Definition reset_psr : Z :=
  Z.lor (Z.lor (Z.lor (Z.lor (Z.lor (Z.shiftl 1 5) (Z.shiftl 0 6)) (Z.shiftl 1 7))
                  (Z.shiftl 1 12)) (Z.shiftl 0x3 24)) (Z.shiftl 0xf 28).

Definition reset (entry_va : Z) (c : cpu) : cpu :=
  update_cwp_bases
    (mkCpu entry_va (u32 (entry_va + 4)) reset_psr 0 0 0 2 0
       (cpu_id_ c) (Z.shiftl 3 17) (cwp_base_ c)
       (replicate 9 0) (replicate 64 0) (replicate 64 0) (replicate 32 0)
       false (power_down_enabled c) false false
       (mkRunSummary NORMAL 0 0) false false).

(** The debugger's software breakpoints ([GdbStub::Breakpoint]). *)
Record Breakpoint := mkBreakpoint { bp_addr : Z; bp_instr : Z }.

(** One processor, its [DecodeStruct], its MMU with the memory controller, and
    the breakpoint list of the debugger stub. *)
Record machine (W : Type) := mkMachine {
  m_cpu : cpu; m_d : DecodeStruct; m_mem : memsys W; m_bps : list Breakpoint }.
Arguments mkMachine {_} _ _ _ _.
Arguments m_cpu {_} _.
Arguments m_d {_} _.
Arguments m_mem {_} _.
Arguments m_bps {_} _.

(** ** Register file *)

(** [read_reg(reg_no, &value)] with [old] the value of the output variable on
    entry: a number outside the four groups assigns nothing. *)
Definition read_reg_of (c : cpu) (reg_no old : Z) : option Z :=
  if reg_no =? GLOBALREG8 then globals c !! 8%nat
  else
    let g := Z.shiftr reg_no 3 in
    let i := Z.land reg_no LOBITS3 in
    if g =? 0 then globals c !! Z.to_nat i
    else if g =? 1 then outs c !! Z.to_nat (Z.lor (cwp_base_ c) i)
    else if g =? 2 then locals c !! Z.to_nat (Z.lor (cwp_base_ c) i)
    else if g =? 3 then
      outs c !! Z.to_nat (Z.lor (Z.land (u32 (cwp_base_ c + 8)) (NWINDOWS * 8 - 1)) i)
    else Some old.

Definition write_reg_of (c : cpu) (value reg_no : Z) : option cpu :=
  if reg_no =? GLOBALREG8 then
    a ← array_set (globals c) 8 value; Some (c <| globals := a |>)
  else
    let g := Z.land (Z.shiftr reg_no 3) LOBITS2 in
    let i := Z.land reg_no LOBITS3 in
    if g =? 0 then
      a ← array_set (globals c) i value; a ← array_set a 0 0; Some (c <| globals := a |>)
    else if g =? 1 then
      a ← array_set (outs c) (Z.lor (cwp_base_ c) i) value; Some (c <| outs := a |>)
    else if g =? 2 then
      a ← array_set (locals c) (Z.lor (cwp_base_ c) i) value; Some (c <| locals := a |>)
    else
      a ← array_set (outs c)
            (Z.lor (Z.land (u32 (cwp_base_ c + 8)) (NWINDOWS * 8 - 1)) i) value;
      Some (c <| outs := a |>).

#[local] Open Scope M_scope.

Section cpu_ops.
Context {W : Type} `{DeviceBus W}.
Abbreviation MX := (M (machine W)).

Definition getc {A} (f : cpu -> A) : MX A := gets (fun s => f (m_cpu s)).
Definition getd {A} (f : DecodeStruct -> A) : MX A := gets (fun s => f (m_d s)).
Definition updc (f : cpu -> cpu) : MX unit :=
  modify (fun s => mkMachine (f (m_cpu s)) (m_d s) (m_mem s) (m_bps s)).
Definition updd (f : DecodeStruct -> DecodeStruct) : MX unit :=
  modify (fun s => mkMachine (m_cpu s) (f (m_d s)) (m_mem s) (m_bps s)).
Definition on_mem {A} (op : M (memsys W) A) : MX A :=
  zoom m_mem (fun t s => mkMachine (m_cpu s) (m_d s) t (m_bps s)) op.
Definition get_mmu {A} (f : MMU -> A) : MX A := gets (fun s => f (ms_mmu (m_mem s))).
Definition upd_mmu (f : MMU -> MMU) : MX unit := on_mem (mmu_upd f).

(** ** Register access *)

Definition read_reg (reg_no old : Z) : MX Z :=
  v ← getc (fun c => read_reg_of c reg_no old); or_ub v.

Definition write_reg (value reg_no : Z) : MX unit :=
  c ← getc (fun c => write_reg_of c value reg_no);
  c ← or_ub c;
  updc (fun _ => c).

(** [*p_swap_reg = v]. *)
Definition put_swap_reg (v : Z) : MX unit := write_reg v GLOBALREG8.

(** ** Traps *)

Definition trap (trap_no : Z) : MX unit :=
  let tn := Z.land trap_no LOBITS8 in
  p ← getc psr;
  if Z.land (Z.shiftr p PSR_ENABLE_TRAPS) 0x1 =? 0 then
    op ← getd d_opcode;
    updc (fun c => c <| rs := mkRunSummary TRAP_CONDITIONAL (instr_count (rs c)) op |>) ;;
    throw (runtime_error "Trap in trap")
  else
    updc (fun c => c <| trap_type := Z.lor (Z.land (trap_type c) (not32 LOBITS8)) tn |>).

(** ** Fetch, decode, write back *)

(** The status of the access is negative exactly when it faulted; [opcode] is
    assigned through the reference only when it did not. *)
Definition instr_fetch (virt_addr : Z) : MX bool :=
  p ← getc psr;
  op ← getd d_opcode;
  let super := truth (Z.land (Z.shiftr p 7) 0x1) in
  r ← on_mem (MemAccess intent_execute Sz4 virt_addr op super true);
  updd (fun d => d <| d_opcode := r.2 |>) ;;
  if r.1 <? 0 then
    f ← get_mmu fault_status_reg;
    let AT := Z.land (Z.shiftr f 5) 0x7 in
    if (AT <? 2) || (3 <? AT) then
      throw (runtime_error "AT != 2 | 3 is not possible in an instruction fetch!")
    else
      nf ← get_mmu (fun m => Z.shiftr (Z.land (control_reg m) 0x2) 1);
      if nf =? 0 then trap SPARC_INSTRUCTION_ACCESS_EXCEPTION ;; ret false
      else throw (runtime_error "Unhandled error in instruction fetch (MMU nofault == 1)")
  else ret true.

Definition decode : MX unit :=
  opcode ← getd d_opcode;
  let fmt_bits := Z.land (Z.shiftr opcode 30) LOBITS2 in
  let op2 := Z.land (Z.shiftr opcode 22) LOBITS3 in
  let op3 := Z.land (Z.shiftr opcode 19) LOBITS6 in
  c ← getc id;
  updd (fun d => d <| d_pc := pc c |> <| d_npc := npc c |> <| d_psr := psr c |>
                   <| d_wb := false |>) ;;
  if fmt_bits =? 1 then
    updd (fun d => d <| d_function := CALL |>
                     <| d_imm_disp_rs2 := Z.land opcode LOBITS30 |>)
  else if fmt_bits =? 0 then
    f ← or_ub (format2 !! Z.to_nat op2);
    updd (fun d => d <| d_function := f |>
                     <| d_rd := Z.land (Z.shiftr opcode 25) LOBITS5 |>
                     <| d_op_2_3 := Z.land (Z.shiftr opcode 22) LOBITS3 |>
                     <| d_imm_disp_rs2 := Z.land opcode LOBITS22 |>)
  else
    let I_idx := op3 + Z.shiftl (Z.land fmt_bits 1) 6 in
    let rd := Z.land (Z.shiftr opcode 25) LOBITS5 in
    let rs1 := Z.land (Z.shiftr opcode 14) LOBITS5 in
    let i := Z.land (Z.shiftr opcode 13) LOBITS1 in
    let imm := Z.land opcode LOBITS13 in
    f ← or_ub (format3 !! Z.to_nat I_idx);
    updd (fun d => d <| d_function := f |> <| d_rd := rd |>
                     <| d_op_2_3 := Z.land (Z.shiftr opcode 19) LOBITS6 |>
                     <| d_rs1 := rs1 |> <| d_i := i |> <| d_imm_disp_rs2 := imm |>) ;;
    old ← getd d_rs1_value;
    v1 ← read_reg rs1 old;
    updd (fun d => d <| d_rs1_value := v1 |>) ;;
    let regvalue := if I_idx <? FIRST_RS1_EVAL_IDX then 0 else v1 in
    (if truth i then updd (fun d => d <| d_ev := u32 (regvalue + sign_ext13 imm) |>)
     else
       old ← getd d_ev;
       v2 ← read_reg (Z.land imm LOBITS5) old;
       updd (fun d => d <| d_ev := u32 (v2 + regvalue) |>)) ;;
    if I_idx =? STORE_DBL_IDX then
      old ← getd d_value;
      v ← read_reg (Z.land rd (not32 LOBITS1)) old;
      old1 ← getd d_value1;
      v' ← read_reg (Z.land rd (not32 LOBITS1) + 1) old1;
      updd (fun d => d <| d_value := v |> <| d_value1 := v' |>)
    else if (I_idx =? TICC_IDX) && negb (truth i) then
      old ← getd d_value;
      v ← read_reg (Z.land imm LOBITS5) old;
      updd (fun d => d <| d_value := v |>)
    else when (truth (Z.land fmt_bits 1))
           (old ← getd d_value; v ← read_reg rd old; updd (fun d => d <| d_value := v |>)).

Definition write_back : MX unit :=
  d ← getd id;
  updc (fun c => update_cwp_bases (c <| pc := d_pc d |> <| npc := d_npc d |>
                                     <| psr := d_psr d |>)) ;;
  when (d_wb d) (write_reg (d_value d) (d_rd d)).

(** ** Memory to register and back *)

Definition super_mode : MX bool := getc (fun c => Z.land (Z.shiftr (psr c) 7) 0x1 =? 0x1).

Definition load8 (va rd : Z) (signext : bool) : MX Z :=
  super ← super_mode;
  '(ret1, value) ← on_mem (MemAccess intent_load Sz1 va 0 super true);
  when (ret1 =? 0)
    (write_reg (Z.lor value (if signext && truth (Z.land value 0x80) then 0xffffff00 else 0)) rd) ;;
  ret ret1.

Definition load16 (va rd : Z) (signext : bool) : MX Z :=
  super ← super_mode;
  '(ret1, value) ← on_mem (MemAccess intent_load Sz2 va 0 super true);
  when (ret1 =? 0)
    (write_reg (Z.lor value (if signext && truth (Z.land value 0x8000) then 0xffff0000 else 0)) rd) ;;
  ret ret1.

Definition load32 (va rd : Z) (signext : bool) : MX Z :=
  super ← super_mode;
  '(ret1, value) ← on_mem (MemAccess intent_load Sz4 va 0 super true);
  when (ret1 =? 0)
    (write_reg (Z.lor value (if signext && truth (Z.land value 0x80) then 0xffffff00 else 0)) rd) ;;
  ret ret1.

Definition load64 (va rd : Z) (signext : bool) : MX Z :=
  super ← super_mode;
  '(ret1, value) ← on_mem (MemAccess intent_load Sz4 va 0 super true);
  '(ret2, value_ext) ← on_mem (MemAccess intent_load Sz4 (u32 (va + 4)) 0 super true);
  when ((ret1 =? 0) && (ret2 =? 0))
    (write_reg value rd ;; write_reg value_ext (u32 (rd + 1))) ;;
  ret (Z.lor ret1 ret2).

Definition store8 (va rd : Z) : MX Z :=
  super ← super_mode;
  value ← read_reg rd 0;
  '(ret1, _) ← on_mem (MemAccess intent_store Sz1 va value super true);
  ret ret1.

Definition store16 (va rd : Z) : MX Z :=
  super ← super_mode;
  value ← read_reg rd 0;
  '(ret1, _) ← on_mem (MemAccess intent_store Sz2 va value super true);
  ret ret1.

Definition store32 (va rd : Z) : MX Z :=
  super ← super_mode;
  value ← read_reg rd 0;
  '(ret1, _) ← on_mem (MemAccess intent_store Sz4 va value super true);
  ret ret1.

Definition store64 (va rd : Z) : MX Z :=
  super ← super_mode;
  value ← read_reg rd 0;
  '(ret1, value) ← on_mem (MemAccess intent_store Sz4 va value super true);
  value ← read_reg (u32 (rd + 1)) value;
  '(ret2, _) ← on_mem (MemAccess intent_store Sz4 (u32 (va + 4)) value super true);
  ret (Z.lor ret1 ret2).

(** ** Power down

    The calling thread sleeps on [power_cv] until [wakeup_flag] is set, with
    no debug stop pending. *)
Definition enter_powerdown : MX unit :=
  updc (fun c => c <| powerdown_flag := true |>) ;;
  w ← getc wakeup_flag;
  if w : bool then
    updc (fun c => c <| powerdown_flag := false |> <| wakeup_flag := false |>)
  else block.

Definition wakeup : MX unit := updc (fun c => c <| wakeup_flag := true |>).

(** [CPU::reset]: the processor state, then [mmu.reset()]. *)
Definition cpu_reset (entry_va : Z) : MX unit :=
  updc (reset entry_va) ;; upd_mmu mmu_reset.

(** [set_irl], [set_psr]. *)
Definition set_irl (v : Z) : MX unit := updc (fun c => c <| irl := Z.land v 0xf |>).
Definition set_psr (v : Z) : MX unit := updc (fun c => update_cwp_bases (c <| psr := v |>)).

(** [test_cc]: 0 or 1. *)
Definition test_cc (d : DecodeStruct) : Z :=
  let p := d_psr d in
  let cond := Z.land (d_rd d) LOBITS4 in
  let hi := Z.shiftr cond 3 in
  let k := Z.land cond LOBITS3 in
  if k =? 0 then Z.land hi LOBITS1
  else if k =? 1 then Z.lxor hi (psr_z p)
  else if k =? 2 then Z.lxor hi (Z.lor (psr_z p) (Z.lxor (psr_n p) (psr_v p)))
  else if k =? 3 then Z.lxor hi (Z.lxor (psr_n p) (psr_v p))
  else if k =? 4 then Z.lxor hi (Z.lor (psr_c p) (psr_z p))
  else if k =? 5 then Z.lxor hi (psr_c p)
  else if k =? 6 then Z.lxor hi (psr_n p)
  else Z.lxor hi (psr_v p).

(** [d->pc = d->npc; d->npc += 4;]. *)
Definition advance : MX unit :=
  updd (fun d => d <| d_pc := d_npc d |> <| d_npc := u32 (d_npc d + 4) |>).

(** [d->wb_type = WRITEBACKREG; d->value = v;]. *)
Definition write_result (v : Z) : MX unit :=
  updd (fun d => d <| d_wb := true |> <| d_value := v |>).
End cpu_ops.
