(* ===== verification/Instr.v ===== *)
(** * Integer instructions
      (src/src/sparcv8/CPU_instructions.cpp, CPU_instructions_extensions.cpp and
      CPU_instructions_Leon3_extensions.cpp)

    One definition [exec_F] per member function [CPU::F] of the sources, except
    [CPU::TICC], which calls back into the interpreter and is in Exec.v.  The
    arithmetic of the ALU instructions is factored into pure functions on
    32-bit words. *)
From S2P Require Import Prelude Mctrl Tlb Mmu Cpu.

Definition BIT2 : Z := 0x4.
Definition BIT4 : Z := 0x10.
Definition BIT5 : Z := 0x20.
Definition BIT31 : Z := 0x80000000.

Definition ASI_M_MXCC : Z := 0x02.
(** [CONFIG_SPARC_LEON] is defined by the build. *)
Definition ASI_M_MMUREGS : Z := 0x19.
Definition ASI_LEON_DFLUSH : Z := 0x11.
Definition ASI_LEON_MMUFLUSH : Z := 0x18.
Definition ASI_LEON_BYPASS : Z := 0x1c.

(** ** Arithmetic *)

(** [(cc & ~(1 << k)) | (v << k)]. *)
Definition put_cc (cc k v : Z) : Z :=
  Z.lor (Z.land cc (not32 (Z.shiftl 1 k))) (Z.shiftl v k).
Definition clear_cc (cc k : Z) : Z := Z.land cc (not32 (Z.shiftl 1 k)).

(** [(psr >> PSR_CC_CARRY) & LOBITS4] and its inverse. *)
Definition get_icc (p : Z) : Z := Z.land (Z.shiftr p PSR_CC_CARRY) LOBITS4.
Definition put_icc (p cc : Z) : Z :=
  Z.lor (Z.land p (not32 (Z.shiftl LOBITS4 PSR_CC_CARRY))) (shl32 cc PSR_CC_CARRY).

(** The macro [CalcCC] on [cc]. *)
Definition CalcCC (cc val : Z) : Z :=
  let cc := clear_cc cc CC_OVERFLOW in
  let cc := clear_cc cc CC_CARRY in
  let cc := put_cc cc CC_ZERO (if val =? 0 then 1 else 0) in
  put_cc cc CC_NEGATIVE (Z.land (Z.shiftr val 31) 1).

(** The general path of [CPU::ADD]: the sum and the new condition codes. *)
Definition add_core (op x y cc : Z) : Z * Z :=
  let tag_inst := Z.land op BIT5 in
  let tag_sub := if truth tag_inst && truth (Z.land op LOBITS1) then 1 else 0 in
  let y_sign := if truth (Z.land op BIT2) || truth tag_sub then not32 y else y in
  let carry :=
    Z.land (Z.lxor (Z.lor (Z.shiftr op 2) tag_sub)
              (Z.land (Z.shiftr cc CC_CARRY) (Z.land (not32 tag_sub) (Z.shiftr op 3))))
      LOBITS1 in
  let xtop := Z.land (Z.shiftr x 31) LOBITS1 in
  let ytop := Z.land (Z.shiftr y_sign 31) LOBITS1 in
  let z := u32 (x + y_sign + carry) in
  let ztop := Z.land (Z.shiftr z 31) LOBITS1 in
  let tag_overflow :=
    if truth tag_inst then
      if truth (Z.land x 0x3) || truth (Z.land y 0x3) then 1 else 0
    else 0 in
  let cc := put_cc cc CC_OVERFLOW
    (Z.lor (Z.land (Z.lor (Z.land (Z.land xtop ytop) (not32 ztop))
                      (Z.land (Z.land (not32 xtop) (not32 ytop)) ztop)) LOBITS1)
       tag_overflow) in
  let cc := put_cc cc CC_CARRY
    (Z.land (Z.lxor (Z.shiftr op 2)
               (Z.lor (Z.land xtop ytop) (Z.land (not32 ztop) (Z.lor xtop ytop))))
       LOBITS1) in
  let cc := put_cc cc CC_ZERO (if z =? 0 then 1 else 0) in
  let cc := put_cc cc CC_NEGATIVE (Z.land (Z.shiftr z 31) LOBITS1) in
  (z, cc).

(** The two paths of [CPU::AND]. *)
Definition and_fast (op x y : Z) : Z :=
  let k := Z.land op LOBITS2 in
  if k =? 1 then Z.land x y else if k =? 2 then Z.lor x y else Z.lxor x y.

Definition and_core (op x y : Z) : Z :=
  let y_sign := if truth (Z.land op BIT2) then not32 y else y in
  let k := Z.land op LOBITS2 in
  if k =? 1 then Z.land x y_sign
  else if k =? 2 then Z.lor x y_sign
  else if k =? 3 then Z.lxor x y_sign
  else 0.

(** [x |= (x & 0x80000000) ? ((u64)0xffffffff << 32) : 0]. *)
Definition sext64 (x : Z) : Z :=
  Z.lor x (if truth (Z.land x 0x80000000) then Z.shiftl 0xffffffff 32 else 0).

(** The 64-bit product of [CPU::MUL]. *)
Definition mul_core (op x y : Z) : Z :=
  if truth (Z.land op LOBITS1) then u64 (s64 (sext64 x) * s64 (sext64 y)) else u64 (x * y).

(** Quotient and remainder of [CPU::DIV] for a divisor that is not zero; [None]
    is the undefined [INT64_MIN / -1]. *)
Definition div_core (op yreg x y : Z) : option (Z * Z) :=
  let x := Z.lor (Z.shiftl yreg 32) x in
  if truth (Z.land op LOBITS1) then
    let n := s64 x in
    let m := s64 (sext64 y) in
    if (n =? -9223372036854775808) && (m =? -1) then None
    else Some (u64 (Z.quot n m), u32 (Z.rem n m))
  else Some (u64 (x / y), u32 (x mod y)).

(** The condition codes set by [MUL] and [DIV]. *)
Definition muldiv_cc (cc z : Z) : Z :=
  let cc := put_cc cc CC_ZERO (if z =? 0 then 1 else 0) in
  let cc := put_cc cc CC_NEGATIVE (Z.land (u32 (Z.shiftr z 31)) 1) in
  clear_cc (clear_cc cc CC_OVERFLOW) CC_CARRY.

(** [CPU::MULSCC]: result, condition codes and Y register. *)
Definition mulscc_core (rs1 ev y_reg cc : Z) : Z * Z * Z :=
  let x := Z.lor (Z.shiftr rs1 1)
             (shl32 (Z.land (Z.lxor (Z.shiftr cc CC_OVERFLOW) (Z.shiftr cc CC_NEGATIVE)) 1) 31) in
  let y := if truth (Z.land y_reg 1) then ev else 0 in
  let z := u32 (x + y) in
  let xtop := Z.shiftr x 31 in
  let ytop := Z.shiftr y 31 in
  let ztop := Z.shiftr z 31 in
  let cc := put_cc cc CC_OVERFLOW
    (Z.land (Z.lor (Z.land (Z.land xtop ytop) (not32 ztop))
               (Z.land (Z.land (not32 xtop) (not32 ytop)) ztop)) LOBITS1) in
  let cc := put_cc cc CC_CARRY
    (Z.land (Z.lor (Z.land xtop ytop) (Z.land (not32 ztop) (Z.lor xtop ytop))) LOBITS1) in
  let cc := put_cc cc CC_ZERO (if z =? 0 then 1 else 0) in
  let cc := put_cc cc CC_NEGATIVE (Z.land (Z.shiftr z 31) LOBITS1) in
  (z, cc, Z.lor (Z.shiftr y_reg 1) (shl32 (Z.land rs1 1) 31)).

(** The value [CPU::SRA] computes; [None] is the shift of a 32-bit word by 32. *)
Definition sra_core (x ev : Z) : option Z :=
  let n := Z.land ev LOBITS5 in
  let lo := Z.shiftr x n in
  if truth (Z.land x BIT31) && truth ev then
    if 32 - n =? 32 then None else Some (Z.lor lo (shl32 0xffffffff (32 - n)))
  else Some (Z.lor lo 0).

(** The value read by [rd %asr17]. *)
Definition asr17 (cpu_id : Z) : Z :=
  Z.lor (Z.lor (Z.lor (Z.lor (shl32 cpu_id 28) (Z.shiftl 0x1 26)) (Z.shiftl 3 10))
           (Z.shiftl 0x1 8)) (Z.land (NWINDOWS - 1) 0x1f).

(** The PSR value written by [CPU::WRPSR] ([FPU_IMPLEMENTED] build). *)
Definition wrpsr_value (w : Z) : Z :=
  let p := Z.lor (Z.lor (Z.shiftl 0xf 28) (Z.shiftl 0x3 24)) w in
  let p := Z.land p (not32 (Z.shiftl 0x1 13)) in
  Z.land p (not32 (Z.shiftl 0x3f 14)).

(** [(psr & ~LOBITS5) | (new_cwp & LOBITS5)]. *)
Definition with_cwp (p new_cwp : Z) : Z :=
  Z.lor (Z.land p (not32 LOBITS5)) (Z.land new_cwp LOBITS5).

(** The window [SAVE], and [RESTORE] and [RETT], move to. *)
Definition save_cwp (p : Z) : Z := u32 (Z.land p LOBITS5 - 1) mod NWINDOWS.
Definition restore_cwp (p : Z) : Z := u32 (Z.land p LOBITS5 + 1) mod NWINDOWS.

#[local] Open Scope M_scope.

Section instructions.
Context {W : Type} `{DeviceBus W}.
Abbreviation MX := (M (machine W)).

Definition exec_UNIMP : MX unit :=
  op ← getd d_opcode;
  updc (fun c => c <| rs := mkRunSummary (if negb (op =? TERMINATE_INST) then UNIMPLEMENTED
                                          else NORMAL) (instr_count (rs c)) op |>).

Definition exec_CALL : MX unit :=
  updd (fun d => d <| d_wb := true |> <| d_value := d_pc d |> <| d_rd := OUTREG7 |>
                   <| d_pc := d_npc d |>
                   <| d_npc := u32 (d_pc d + u32 (4 * d_imm_disp_rs2 d)) |>).

(** The branch and delay-slot arithmetic of [BICC] and [FBFCC]. *)
Definition take_branch (branch annul : bool) : MX unit :=
  updd (fun d =>
    let temp := d_npc d in
    let npc' := if branch then u32 (d_pc d + u32 (4 * sign_ext22 (d_imm_disp_rs2 d)))
                else u32 (d_npc d + 4) in
    let d := d <| d_npc := npc' |> <| d_pc := temp |> in
    if annul then d <| d_pc := d_npc d |> <| d_npc := u32 (d_npc d + 4) |> else d).

Definition exec_BICC : MX unit :=
  d ← getd id;
  let branch := truth (test_cc d) in
  let annul := truth (Z.land (Z.shiftr (d_rd d) 4) LOBITS1)
               && ((negb branch && negb (Z.land (d_rd d) LOBITS3 =? 0))
                   || (Z.land (d_rd d) LOBITS3 =? 0)) in
  take_branch branch annul.

Definition exec_SETHI : MX unit :=
  d ← getd id;
  when (negb (d_opcode d =? NOP)) (write_result (shl32 (d_imm_disp_rs2 d) 10)) ;;
  advance.

Definition exec_SLL : MX unit :=
  d ← getd id;
  write_result (shl32 (d_rs1_value d) (Z.land (d_ev d) LOBITS5)) ;; advance.

Definition exec_SRL : MX unit :=
  d ← getd id;
  write_result (Z.shiftr (d_rs1_value d) (Z.land (d_ev d) LOBITS5)) ;; advance.

Definition exec_SRA : MX unit :=
  d ← getd id;
  v ← or_ub (sra_core (d_rs1_value d) (d_ev d));
  write_result v ;; advance.

Definition exec_RDY : MX unit :=
  d ← getd id;
  c ← getc id;
  (if (d_rs1 d =? 15) && (d_rd d =? 0) then ret tt
   else if (d_rs1 d =? 0) && (Z.land (d_op_2_3 d) 0x2f =? 0x28) then write_result (y_reg c)
   else if (d_rs1 d =? 17) && (Z.land (d_op_2_3 d) 0x2f =? 0x28) then
     write_result (asr17 (cpu_id_ c))
   else exec_UNIMP) ;;
  advance.

(** The shape of [RDPSR], [RDWIM], [RDTBR], [WRWIM] and [WRTBR]. *)
Definition privileged (body : MX unit) : MX unit :=
  p ← getd d_psr;
  if psr_s p =? 0 then trap SPARC_PRIVILEGED_INSTRUCTION else body ;; advance.

Definition exec_RDPSR : MX unit :=
  privileged (d ← getd id; write_result (d_psr d)).
Definition exec_RDWIM : MX unit :=
  privileged (c ← getc id; write_result (wim c)).
Definition exec_RDTBR : MX unit :=
  privileged (c ← getc id; write_result (tbr c)).

Definition exec_WRY : MX unit :=
  d ← getd id;
  (if Z.land (d_rd d) LOBITS5 =? 0 then
     updc (fun c => c <| y_reg := Z.lxor (d_rs1_value d) (d_ev d) |>)
   else if d_rd d =? 19 then
     pd ← getc power_down_enabled;
     if pd : bool then enter_powerdown else ret tt
   else exec_UNIMP) ;;
  advance.

Definition exec_WRPSR : MX unit :=
  d ← getd id;
  let w := Z.lxor (d_rs1_value d) (d_ev d) in
  if NWINDOWS <=? Z.land w LOBITS5 then trap SPARC_ILLEGAL_INSTRUCTION
  else if psr_s (d_psr d) =? 0 then trap SPARC_PRIVILEGED_INSTRUCTION
  else updd (fun d => d <| d_psr := wrpsr_value w |>) ;; advance.

Definition exec_WRWIM : MX unit :=
  privileged
    (d ← getd id;
     updc (fun c => c <| wim := Z.land (Z.lxor (d_rs1_value d) (d_ev d))
                                  (Z.shiftl 0x1 NWINDOWS - 1) |>)).

Definition exec_WRTBR : MX unit :=
  privileged
    (d ← getd id; updc (fun c => c <| tbr := Z.lxor (d_rs1_value d) (d_ev d) |>)).

Definition exec_JMPL : MX unit :=
  d ← getd id;
  if truth (Z.land (d_ev d) LOBITS2) then trap SPARC_MEMORY_ADDR_NOT_ALIGNED
  else
    write_result (d_pc d) ;;
    updd (fun d => d <| d_pc := d_npc d |> <| d_npc := d_ev d |>).

Definition exec_RETT : MX unit :=
  d ← getd id;
  w ← getc wim;
  let p := d_psr d in
  let new_cwp := (psr_cwp p + 1) mod NWINDOWS in
  if (truth (psr_et p) && negb (truth (psr_s p)))
     || (negb (truth (psr_et p)) && negb (truth (psr_s p)))
  then trap SPARC_PRIVILEGED_INSTRUCTION
  else if truth (psr_et p) && truth (psr_s p) then trap SPARC_ILLEGAL_INSTRUCTION
  else if truth (Z.land (d_ev d) LOBITS2) then trap SPARC_MEMORY_ADDR_NOT_ALIGNED
  else if negb (Z.land (Z.shiftr w new_cwp) LOBITS1 =? 0) then trap SPARC_WINDOW_UNDERFLOW
  else
    updd (fun d => d <| d_pc := d_npc d |>
                     <| d_npc := Z.land (d_ev d) (not32 LOBITS2) |>
                     <| d_psr := set_psr_cwp (Z.land new_cwp LOBITS5)
                                   (set_psr_et 1 (set_psr_s (psr_ps p) p)) |>).

Definition exec_SAVE : MX unit :=
  d ← getd id;
  w ← getc wim;
  let new_cwp := save_cwp (d_psr d) in
  if negb (Z.land (Z.shiftr w new_cwp) LOBITS1 =? 0) then trap SPARC_WINDOW_OVERFLOW
  else
    updd (fun d => d <| d_psr := with_cwp (d_psr d) new_cwp |>) ;;
    write_result (d_ev d) ;;
    advance.

Definition exec_RESTORE : MX unit :=
  d ← getd id;
  w ← getc wim;
  let new_cwp := restore_cwp (d_psr d) in
  if negb (Z.land (Z.shiftr w new_cwp) LOBITS1 =? 0) then trap SPARC_WINDOW_UNDERFLOW
  else
    updd (fun d => d <| d_psr := with_cwp (d_psr d) new_cwp |>) ;;
    write_result (d_ev d) ;;
    advance.

Definition exec_FLUSH : MX unit := advance.

Definition exec_MULSCC : MX unit :=
  d ← getd id;
  y ← getc y_reg;
  let '(z, cc, y') := mulscc_core (d_rs1_value d) (d_ev d) y (get_icc (d_psr d)) in
  write_result z ;;
  updd (fun d => d <| d_psr := put_icc (d_psr d) cc |>) ;;
  updc (fun c => c <| y_reg := y' |>) ;;
  advance.

(** ** Loads and stores *)

(** The end of every load and store: a fault traps unless the MMU's no-fault
    bit is set. *)
Definition finish_access (r : Z) : MX unit :=
  nf ← get_mmu get_no_fault;
  if (r <? 0) && negb nf then trap SPARC_DATA_ACCESS_EXCEPTION else advance.

(** Alignment test of the effective address before an access. *)
Definition aligned (mask : Z) (access : MX unit) : MX unit :=
  ev ← getd d_ev;
  if truth (Z.land ev mask) then trap SPARC_MEMORY_ADDR_NOT_ALIGNED else access.

Definition exec_LD : MX unit :=
  aligned LOBITS2 (d ← getd id; r ← load32 (d_ev d) (d_rd d) false; finish_access r).
Definition exec_LDUB : MX unit :=
  d ← getd id; r ← load8 (d_ev d) (d_rd d) false; finish_access r.
Definition exec_LDUH : MX unit :=
  aligned LOBITS1 (d ← getd id; r ← load16 (d_ev d) (d_rd d) false; finish_access r).
Definition exec_LDD : MX unit :=
  d ← getd id;
  if truth (Z.land (d_rd d) LOBITS1) then trap SPARC_ILLEGAL_INSTRUCTION
  else aligned LOBITS3
         (r ← load64 (d_ev d) (Z.land (d_rd d) (not32 LOBITS1)) false; finish_access r).
Definition exec_LDSB : MX unit :=
  d ← getd id; r ← load8 (d_ev d) (d_rd d) true; finish_access r.
Definition exec_LDSH : MX unit :=
  aligned LOBITS1 (d ← getd id; r ← load16 (d_ev d) (d_rd d) true; finish_access r).
Definition exec_ST : MX unit :=
  aligned LOBITS2 (d ← getd id; r ← store32 (d_ev d) (d_rd d); finish_access r).
Definition exec_STB : MX unit :=
  d ← getd id; r ← store8 (d_ev d) (d_rd d); finish_access r.
Definition exec_STH : MX unit :=
  aligned LOBITS1 (d ← getd id; r ← store16 (d_ev d) (d_rd d); finish_access r).

Definition exec_STD : MX unit :=
  d ← getd id;
  if truth (Z.land (d_rd d) LOBITS1) then trap SPARC_ILLEGAL_INSTRUCTION
  else aligned LOBITS3
         (r ← store64 (d_ev d) (d_rd d);
          nf ← get_mmu get_no_fault;
          if (r <? 0) && negb nf then trap SPARC_DATA_ACCESS_EXCEPTION
          else
            updd (fun d => d <| d_rd := Z.land (d_rd d) (not32 LOBITS1) |>) ;;
            advance).

(** ** Atomic instructions *)

(** The common tail of [SWAP] and [SWAPA]. *)
Definition swap_word : MX unit :=
  d ← getd id;
  let super := psr_s (d_psr d) =? 0x1 in
  put_swap_reg (d_value d) ;;
  r ← on_mem (atomic_swap32 (d_ev d) super (d_value d));
  nf ← get_mmu get_no_fault;
  if negb (ar_ok r) && negb nf then trap SPARC_DATA_ACCESS_EXCEPTION
  else write_reg (ar_old r) (d_rd d) ;; advance.

Definition exec_SWAP : MX unit := aligned LOBITS2 swap_word.

Definition exec_SWAPA : MX unit :=
  d ← getd id;
  let asi := Z.land (Z.shiftr (d_opcode d) 5) 0xff in
  if negb (asi =? 1) then exec_UNIMP
  else if negb (truth (psr_s (d_psr d))) then trap SPARC_PRIVILEGED_INSTRUCTION
  else if truth (Z.land (d_ev d) LOBITS2) then trap SPARC_MEMORY_ADDR_NOT_ALIGNED
  else swap_word.

Definition exec_LDSTUB : MX unit :=
  d ← getd id;
  let super := psr_s (d_psr d) =? 0x1 in
  on ← get_mmu get_enabled;
  nf ← get_mmu get_no_fault;
  tr ← (if on : bool then on_mem (translate_va (d_ev d) super intent_load (negb nf))
        else ret (mkTranslate true (d_ev d) 0 0));
  if negb (tr_ok tr) then trap SPARC_DATA_ACCESS_EXCEPTION
  else
    ares ← on_mem (on_mc (mc_atomic_ldstub8 (tr_pa tr)));
    if negb (ar_ok ares) then trap SPARC_DATA_ACCESS_EXCEPTION
    else
      write_reg (Z.land (ar_old ares) 0xff) (d_rd d) ;;
      put_swap_reg 0xff ;;
      advance.

(** [rs1_addr] and [expected] are assigned by [read_reg] for every register
    number below 32, so the values they have before do not matter. *)
Definition exec_CASA : MX unit :=
  d ← getd id;
  rs1_addr ← read_reg (Z.land (d_rs1 d) LOBITS5) 0;
  let rs2 := Z.land (d_imm_disp_rs2 d) 0x1f in
  let imm_asi := Z.land (Z.shiftr (d_imm_disp_rs2 d) 5) 0xff in
  if (psr_s (d_psr d) =? 0) && negb (imm_asi =? 0xa) then trap SPARC_PRIVILEGED_INSTRUCTION
  else if truth (Z.land rs1_addr LOBITS2) then trap SPARC_MEMORY_ADDR_NOT_ALIGNED
  else if negb (imm_asi =? 0xb) && negb (imm_asi =? 0xa) then
    throw (not_implemented_leon_exception "ASI != 0xb|0xa not implemented for CASA")
  else
    let super := imm_asi =? 0xb in
    expected ← read_reg (Z.land rs2 LOBITS5) 0;
    desired ← read_reg (Z.land (d_rd d) LOBITS5) 0;
    r ← on_mem (atomic_casa32 rs1_addr super expected desired);
    nf ← get_mmu get_no_fault;
    if negb (ar_ok r.1) && negb nf then trap SPARC_DATA_ACCESS_EXCEPTION
    else write_reg (ar_old r.1) (Z.land (d_rd d) LOBITS5) ;; advance.

(** ** Arithmetic and logic *)

Definition exec_MUL : MX unit :=
  d ← getd id;
  let z := mul_core (d_op_2_3 d) (d_rs1_value d) (d_ev d) in
  updc (fun c => c <| y_reg := u32 (Z.shiftr z 32) |>) ;;
  let z := Z.land z 0xffffffff in
  when (truth (Z.land (d_op_2_3 d) BIT4))
    (updd (fun d => d <| d_psr := put_icc (d_psr d) (muldiv_cc (get_icc (d_psr d)) z) |>)) ;;
  write_result (u32 (Z.land z 0xffffffff)) ;;
  advance.

Definition exec_DIV : MX unit :=
  d ← getd id;
  y ← getc y_reg;
  if d_ev d =? 0 then trap SPARC_DIVISION_BY_ZERO
  else
    r ← or_ub (div_core (d_op_2_3 d) y (d_rs1_value d) (d_ev d));
    let '(z, y') := r in
    updc (fun c => c <| y_reg := y' |>) ;;
    when (truth (Z.land (d_op_2_3 d) BIT4))
      (updd (fun d => d <| d_psr := put_icc (d_psr d) (muldiv_cc (get_icc (d_psr d)) z) |>)) ;;
    write_result (Z.land (u32 z) 0xffffffff) ;;
    advance.

Definition exec_ADD : MX unit :=
  d ← getd id;
  let op := d_op_2_3 d in
  if op =? 0x00 then write_result (u32 (d_rs1_value d + d_ev d)) ;; advance
  else
    let '(z, cc) := add_core op (d_rs1_value d) (d_ev d) (get_icc (d_psr d)) in
    if (Z.land op 0x22 =? 0x22) && truth (Z.land cc (Z.shiftl 1 CC_OVERFLOW))
    then trap SPARC_TAG_OVERFLOW
    else
      when (truth (Z.land op BIT4) || truth (Z.land op BIT5))
        (updd (fun d => d <| d_psr := put_icc (d_psr d) cc |>)) ;;
      write_result z ;;
      advance.

Definition exec_AND : MX unit :=
  d ← getd id;
  let op := d_op_2_3 d in
  if Z.land op (Z.lor BIT4 BIT2) =? 0 then
    write_result (and_fast op (d_rs1_value d) (d_ev d)) ;; advance
  else
    let z := and_core op (d_rs1_value d) (d_ev d) in
    when (truth (Z.land op BIT4))
      (updd (fun d => d <| d_psr := put_icc (d_psr d) (CalcCC (get_icc (d_psr d)) z) |>)) ;;
    write_result z ;;
    advance.

(** ** Alternate address spaces *)

Definition exec_LDA : MX unit :=
  d ← getd id;
  if psr_s (d_psr d) =? 0 then trap SPARC_PRIVILEGED_INSTRUCTION
  else if d_i d =? 1 then trap SPARC_ILLEGAL_INSTRUCTION
  else
    let rs2 := Z.land (d_imm_disp_rs2 d) LOBITS5 in
    let ASI := Z.land (Z.shiftr (d_imm_disp_rs2 d) 5) LOBITS8 in
    if negb (Z.land (d_op_2_3 d) 15 =? 0) then
      throw (runtime_error "Load Altternate op3 != 0x0 Not implemented yet")
    else
      rd_value ← read_reg (d_rd d) 0;
      r1 ← read_reg (d_rs1 d) 0;
      r2 ← read_reg rs2 0;
      let address := u32 (r1 + r2) in
      (if ASI =? ASI_M_MMUREGS then
         (if address =? 0x0 then v ← get_mmu control_reg; write_result v
          else if address =? 0x100 then v ← get_mmu ctx_tbl_ptr; write_result v
          else if address =? 0x200 then v ← get_mmu ctx_n; write_result v
          else if address =? 0x300 then
            v ← get_mmu fault_status_reg;
            upd_mmu clear_fault_status ;;
            write_result v
          else if address =? 0x400 then v ← get_mmu fault_address_reg; write_result v
          else throw (not_implemented_leon_exception "Address not implemented for MMU access"))
       else if ASI =? ASI_M_MXCC then
         let offset := Z.land address 0xf in
         (if offset =? 0x0 then v ← get_mmu ccr; write_result v
          else if offset =? 0x8 then v ← get_mmu iccr; write_result v
          else if offset =? 0xc then v ← get_mmu dccr; write_result v
          else throw (runtime_error "ASI=0x2 with offset != 0,8,c not implemented"))
       else if ASI =? ASI_LEON_BYPASS then
         v ← on_mem (MemAccessBypassRead4 address); write_result v
       else throw (runtime_error "ASI assignment not implemented")) ;;
      advance.

Definition exec_STA : MX unit :=
  d ← getd id;
  if psr_s (d_psr d) =? 0 then trap SPARC_PRIVILEGED_INSTRUCTION
  else if d_i d =? 1 then trap SPARC_ILLEGAL_INSTRUCTION
  else
    let rs2 := Z.land (d_imm_disp_rs2 d) LOBITS5 in
    let ASI := Z.land (Z.shiftr (d_imm_disp_rs2 d) 5) LOBITS8 in
    rd_value ← read_reg (d_rd d) 0;
    r1 ← read_reg (d_rs1 d) 0;
    r2 ← read_reg rs2 0;
    let address := u32 (r1 + r2) in
    if truth (Z.land address LOBITS2) then trap SPARC_MEMORY_ADDR_NOT_ALIGNED
    else
      (if ASI =? ASI_M_MMUREGS then
         (if address =? 0x000 then upd_mmu (set_control_reg rd_value)
          else if address =? 0x100 then upd_mmu (set_ctx_tbl_ptr rd_value)
          else if address =? 0x200 then upd_mmu (set_ctx_number rd_value)
          else throw (runtime_error "ASI=MMUREGS with address != 0x000,100,200 not implemented"))
       else if ASI =? ASI_M_MXCC then
         let offset := Z.land address 0xf in
         (if offset =? 0x0 then upd_mmu (set_ccr rd_value)
          else if offset =? 0x8 then upd_mmu (set_iccr rd_value)
          else if offset =? 0xc then upd_mmu (set_dccr rd_value)
          else throw (runtime_error "ASI=0x2 with offset != 0,8,c not implemented"))
       else if ASI =? ASI_LEON_DFLUSH then ret tt
       else if ASI =? ASI_LEON_MMUFLUSH then upd_mmu mmu_flush
       else if ASI =? ASI_LEON_BYPASS then on_mem (MemAccessBypassWrite4 address rd_value)
       else throw (runtime_error "ASI assignment not implemented")) ;;
      advance.
End instructions.

(** ** Condition codes *)

Lemma put_cc_bit cc k b j :
  0 <= k -> 0 <= j < 32 ->
  Z.testbit (put_cc cc k (b2z b)) j = if k =? j then b else Z.testbit cc j.
Proof.
  intros Hk Hj. unfold put_cc. rewrite Z.lor_spec, Z.land_spec, testbit_not_pow2 by lia.
  assert (Z.testbit (Z.shiftl (b2z b) k) j = (k =? j) && b) as ->.
  { destruct b; cbn [b2z]; [by rewrite testbit_pow2, andb_true_r|].
    by rewrite Z.shiftl_0_l, Z.bits_0, andb_false_r. }
  destruct (k =? j), b; cbn; by rewrite ?andb_true_r, ?andb_false_r, ?orb_false_r.
Qed.

Lemma put_cc_range cc k b : 0 <= cc < 16 -> 0 <= k < 4 -> 0 <= put_cc cc k (b2z b) < 16.
Proof.
  intros Hc Hk. unfold put_cc. apply (lor_range _ _ 4); [lia| |].
  - rewrite Z.land_comm. apply (land_range _ _ 4); lia.
  - destruct b; cbn [b2z]; [|rewrite Z.shiftl_0_l; lia].
    rewrite Z.shiftl_1_l. split; [lia|]. apply Z.pow_lt_mono_r; lia.
Qed.

(** The four condition codes of a value. *)
Definition has_cc (cc : Z) (n z v c : bool) : Prop :=
  0 <= cc < 16 /\ Z.testbit cc CC_NEGATIVE = n /\ Z.testbit cc CC_ZERO = z /\
  Z.testbit cc CC_OVERFLOW = v /\ Z.testbit cc CC_CARRY = c.

Lemma put_all_cc cc n z v c :
  0 <= cc < 16 ->
  has_cc (put_cc (put_cc (put_cc (put_cc cc CC_OVERFLOW (b2z v)) CC_CARRY (b2z c))
                    CC_ZERO (b2z z)) CC_NEGATIVE (b2z n)) n z v c.
Proof.
  intros Hc. unfold has_cc, CC_OVERFLOW, CC_CARRY, CC_ZERO, CC_NEGATIVE.
  split; [repeat apply put_cc_range; lia|]. by rewrite !put_cc_bit by lia.
Qed.

(** ** Addition and subtraction *)

(** SPARC V8 reference: [ADD], [ADDX], [SUB], [SUBX] and their [cc] forms. *)
Record alu := mkAlu { alu_z : Z; alu_N : bool; alu_Z : bool; alu_V : bool; alu_C : bool }.

Definition fits_s32 (x : Z) : bool := (-2147483648 <=? x) && (x <? 2147483648).

Definition add_spec (x y cin : Z) : alu :=
  let z := (x + y + cin) mod 4294967296 in
  mkAlu z (2147483648 <=? z) (z =? 0) (negb (fits_s32 (s32 x + s32 y + cin)))
    (4294967296 <=? x + y + cin).
Definition sub_spec (x y cin : Z) : alu :=
  let z := (x - y - cin) mod 4294967296 in
  mkAlu z (2147483648 <=? z) (z =? 0) (negb (fits_s32 (s32 x - s32 y - cin)))
    (x <? y + cin).

(** The instruction selected by [op]: subtract, use the carry. *)
Definition addsub_spec (op x y : Z) (carry : bool) : alu :=
  let cin := b2z (Z.testbit op 3 && carry) in
  if Z.testbit op 2 then sub_spec x y cin else add_spec x y cin.

Definition addsub_ops : list Z := [0x00; 0x04; 0x08; 0x0c; 0x10; 0x14; 0x18; 0x1c].

(** [add_core] on booleans: the sum of [x], [y] or its complement, and a carry,
    with the condition codes as functions of the three sign bits. *)
Definition add_bits (op x y cc : Z) : Z * Z :=
  let tag := Z.testbit op 5 in
  let tag_sub := tag && Z.testbit op 0 in
  let y' := if Z.testbit op 2 || tag_sub then not32 y else y in
  let cin := xorb (Z.testbit op 2 || tag_sub)
               (Z.testbit cc 0 && (negb tag_sub && Z.testbit op 3)) in
  let z := u32 (x + y' + b2z cin) in
  let xt := 2147483648 <=? x in
  let yt := 2147483648 <=? y' in
  let zt := 2147483648 <=? z in
  let tovf := tag && (truth (Z.land x 0x3) || truth (Z.land y 0x3)) in
  (z, put_cc (put_cc (put_cc (put_cc cc
        CC_OVERFLOW (b2z ((xt && yt && negb zt) || (negb xt && negb yt && zt) || tovf)))
        CC_CARRY (b2z (xorb (Z.testbit op 2) ((xt && yt) || (negb zt && (xt || yt))))))
        CC_ZERO (b2z (z =? 0)))
        CC_NEGATIVE (b2z zt)).

Lemma add_core_bits op x y cc :
  is_u32 x -> is_u32 y -> add_core op x y cc = add_bits op x y cc.
Proof.
  intros Hx Hy. unfold add_core, LOBITS1, BIT2, BIT5. change 0x4 with (Z.shiftl 1 2).
  change 0x20 with (Z.shiftl 1 5). rewrite !truth_land_pow2, truth_land1 by lia.
  set (tag := Z.testbit op 5). set (ts := tag && Z.testbit op 0).
  replace (if ts then 1 else 0) with (b2z ts) by done. rewrite truth_b2z.
  set (y' := if Z.testbit op 2 || ts then not32 y else y).
  assert (is_u32 y') as Hy' by (unfold y'; case_match; auto with u32).
  set (c := Z.land (Z.lxor _ _) 1).
  assert (c = b2z (xorb (Z.testbit op 2 || ts) (Z.testbit cc 0 && (negb ts && Z.testbit op 3)))) as Ec.
  { unfold c. rewrite land1_testbit, Z.lxor_spec, Z.lor_spec, !Z.land_spec, !Z.shiftr_spec by lia.
    by rewrite testbit_not32, testbit_b2z_0 by lia. }
  cbv zeta. rewrite !sign_bit by auto using u32_range. rewrite !land1_testbit, !testbit_b2z_0.
  unfold add_bits. cbv zeta. fold tag. fold ts. fold y'. rewrite <- Ec.
  set (z := u32 (x + y' + c)). set (xt := 2147483648 <=? x). set (yt := 2147483648 <=? y').
  set (zt := 2147483648 <=? z).
  match goal with |- context [put_cc cc CC_OVERFLOW ?v] =>
    assert (v = b2z ((xt && yt && negb zt) || (negb xt && negb yt && zt)
                     || tag && (truth (Z.land x 3) || truth (Z.land y 3)))) as -> end.
  { rewrite !Z.lor_spec, !Z.land_spec, !testbit_not32, !testbit_b2z_0 by lia.
    by destruct tag, (truth (Z.land x 3)), (truth (Z.land y 3)), xt, yt, zt. }
  match goal with |- context [put_cc _ CC_CARRY ?v] =>
    assert (v = b2z (xorb (Z.testbit op 2) ((xt && yt) || (negb zt && (xt || yt))))) as -> end.
  { by rewrite Z.lxor_spec, Z.shiftr_spec, Z.lor_spec, !Z.land_spec, Z.lor_spec,
      !testbit_not32, !testbit_b2z_0 by lia. }
  done.
Qed.

(** Sign bits determine carry and overflow of a 32-bit sum. *)
Lemma adder_flags x y c :
  is_u32 x -> is_u32 y -> 0 <= c <= 1 ->
  let z := u32 (x + y + c) in
  let xt := 2147483648 <=? x in
  let yt := 2147483648 <=? y in
  let zt := 2147483648 <=? z in
  (xt && yt && negb zt) || (negb xt && negb yt && zt) = negb (fits_s32 (s32 x + s32 y + c)) /\
  (xt && yt) || (negb zt && (xt || yt)) = (4294967296 <=? x + y + c).
Proof.
  unfold is_u32, u32, fits_s32, s32. intros Hx Hy Hc. cbv zeta.
  pose proof (Z.mod_pos_bound (x + y + c) 4294967296) as Hb.
  pose proof (Z.div_mod (x + y + c) 4294967296) as Hd.
  set (z := (x + y + c) mod 4294967296) in *. set (q := (x + y + c) / 4294967296) in *.
  assert (q = 0 \/ q = 1) as Hq by lia.
  destruct (2147483648 <=? x) eqn:E1, (2147483648 <=? y) eqn:E2, (2147483648 <=? z) eqn:E3,
    (x <? 2147483648) eqn:E4, (y <? 2147483648) eqn:E5; try lia; cbn [andb orb negb];
    (split; [symmetry|symmetry]);
    rewrite ?negb_true_iff, ?negb_false_iff, ?andb_true_iff, ?andb_false_iff, ?Z.leb_le, ?Z.leb_gt,
      ?Z.ltb_lt, ?Z.ltb_ge; lia.
Qed.

Lemma fits_s32_ext a b : a = b -> fits_s32 a = fits_s32 b.
Proof. by intros ->. Qed.

Lemma add_core_correct op x y cc :
  op ∈ addsub_ops -> is_u32 x -> is_u32 y -> 0 <= cc < 16 ->
  let r := addsub_spec op x y (Z.testbit cc CC_CARRY) in
  (add_core op x y cc).1 = alu_z r /\
  has_cc (add_core op x y cc).2 (alu_N r) (alu_Z r) (alu_V r) (alu_C r).
Proof.
  intros Hop Hx Hy Hcc. rewrite add_core_bits by done. cbv zeta.
  assert (Z.testbit op 5 = false) as E5.
  { unfold addsub_ops in Hop. rewrite !elem_of_cons, elem_of_nil in Hop. by intuition subst. }
  unfold add_bits, addsub_spec, CC_CARRY. rewrite E5. cbn [andb negb fst snd]. rewrite orb_false_r, orb_false_r.
  rewrite (andb_comm (Z.testbit op 3)). set (c := Z.testbit cc 0 && Z.testbit op 3).
  destruct (Z.testbit op 2); rewrite ?xorb_true_l, ?xorb_false_l.
  - assert (u32 (x + not32 y + b2z (negb c)) = (x - y - b2z c) mod 4294967296) as Ez.
    { rewrite not32_sub by done. unfold u32.
      rewrite <- (Z.mod_add (x - y - b2z c) 1) by lia. f_equal. destruct c; cbn; lia. }
    destruct (adder_flags x (not32 y) (b2z (negb c))) as [Ev Ec];
      [done|auto with u32|destruct c; cbn; lia|]. cbv zeta in Ev, Ec. rewrite Ev, Ec.
    unfold sub_spec. cbn [alu_z alu_N alu_Z alu_V alu_C]. rewrite <- Ez. split; [done|].
    replace (negb (fits_s32 (s32 x - s32 y - b2z c)))
      with (negb (fits_s32 (s32 x + s32 (not32 y) + b2z (negb c)))).
    + replace (x <? y + b2z c) with (negb (4294967296 <=? x + not32 y + b2z (negb c)));
        [by apply put_all_cc|].
      rewrite not32_sub, Z.leb_antisym, negb_involutive by done.
      apply eq_true_iff_eq. rewrite !Z.ltb_lt. destruct c; cbn; lia.
    + f_equal. apply fits_s32_ext. rewrite not32_sub by done. unfold s32, is_u32 in *.
      destruct (x <? 2147483648), (y <? 2147483648) eqn:E, (4294967295 - y <? 2147483648) eqn:E',
        c; cbn; lia.
  - destruct (adder_flags x y (b2z c)) as [Ev Ec]; [done..|destruct c; cbn; lia|].
    cbv zeta in Ev, Ec. rewrite Ev, Ec. unfold add_spec. cbn [alu_z alu_N alu_Z alu_V alu_C].
    split; [done|]. by apply put_all_cc.
Qed.

(** ** The condition codes in the PSR *)

Lemma get_icc_range p : 0 <= get_icc p < 16.
Proof. unfold get_icc. apply (land_range _ _ 4); unfold LOBITS4; lia. Qed.

Lemma get_icc_bit p k : 0 <= k < 4 -> Z.testbit (get_icc p) k = Z.testbit p (k + 20).
Proof.
  intros Hk. unfold get_icc, LOBITS4, PSR_CC_CARRY. change 0xf with (Z.ones 4).
  by rewrite Z.land_spec, Z.shiftr_spec, Z.ones_spec_low, andb_true_r by lia.
Qed.

Lemma put_icc_bit p cc j :
  0 <= cc < 16 -> 0 <= j < 32 ->
  Z.testbit (put_icc p cc) j = if (20 <=? j) && (j <? 24) then Z.testbit cc (j - 20) else Z.testbit p j.
Proof.
  intros Hc Hj. unfold put_icc, shl32, PSR_CC_CARRY, LOBITS4.
  rewrite u32_id by (unfold is_u32; rewrite Z.shiftl_mul_pow2 by lia; change (2 ^ 20) with 1048576; lia).
  rewrite Z.lor_spec, Z.land_spec, testbit_not32, Z.shiftl_spec by lia.
  change 0xf with (Z.ones 4). rewrite Z.shiftl_spec by lia.
  destruct ((20 <=? j) && (j <? 24)) eqn:E.
  - rewrite Z.ones_spec_low by lia. by rewrite andb_false_r.
  - assert (j < 20 \/ 24 <= j) as [Hlo|Hhi] by lia.
    + by rewrite !(Z.testbit_neg_r _ (j - 20)), andb_true_r, orb_false_r by lia.
    + rewrite Z.ones_spec_high by lia. rewrite (testbit_high cc 4 (j - 20)) by lia.
      by rewrite andb_true_r, orb_false_r.
Qed.

(** [p'] has the condition codes [n z v c] and is [p] everywhere else. *)
Definition icc_set (p p' : Z) (n z v c : bool) : Prop :=
  psr_n p' = b2z n /\ psr_z p' = b2z z /\ psr_v p' = b2z v /\ psr_c p' = b2z c /\
  forall j, 0 <= j < 20 \/ 24 <= j < 32 -> Z.testbit p' j = Z.testbit p j.

Lemma put_icc_set p cc n z v c : has_cc cc n z v c -> icc_set p (put_icc p cc) n z v c.
Proof.
  intros (Hc & <- & <- & <- & <-). unfold icc_set, psr_n, psr_z, psr_v, psr_c.
  rewrite !bit_testbit, !put_icc_bit by lia. repeat split.
  intros j Hj. rewrite put_icc_bit by lia. by rewrite (proj2 (andb_false_iff _ _)) by lia.
Qed.

(** ** The ALU instructions on the machine *)

(** What an ALU instruction that completes does to the decoded instruction: a
    value for [rd], the new PSR, and the next two program counters. *)
Definition alu_done (v p : Z) (d : DecodeStruct) : DecodeStruct :=
  d <| d_psr := p |> <| d_wb := true |> <| d_value := v |>
    <| d_pc := d_npc d |> <| d_npc := u32 (d_npc d + 4) |>.

Definition with_d {W} (s : machine W) (d : DecodeStruct) : machine W :=
  mkMachine (m_cpu s) d (m_mem s) (m_bps s).

Definition psr_updated (set_cc : bool) (p p' : Z) (n z v c : bool) : Prop :=
  if set_cc then icc_set p p' n z v c else p' = p.

Section alu_exec.
Context {W : Type} `{DeviceBus W}.
Implicit Types s : machine W.

(** C15. Integer addition and subtraction are exact: [ADD], [ADDX], [SUB],
    [SUBX] and their condition-code forms, fast path included, deliver the
    SPARC V8 result modulo [2^32] to [rd]; the [cc] forms set N, Z, V and C to
    its sign, zero test, signed overflow and unsigned carry or borrow, and no
    form touches another bit of the PSR. *)
Theorem exec_ADD_correct s :
  let d := m_d s in
  d_op_2_3 d ∈ addsub_ops -> is_u32 (d_rs1_value d) -> is_u32 (d_ev d) ->
  let r := addsub_spec (d_op_2_3 d) (d_rs1_value d) (d_ev d) (Z.testbit (d_psr d) 20) in
  exists p', exec_ADD s = (Val tt, with_d s (alu_done (alu_z r) p' d)) /\
    psr_updated (Z.testbit (d_op_2_3 d) 4) (d_psr d) p' (alu_N r) (alu_Z r) (alu_V r) (alu_C r).
Proof.
  cbv zeta. intros Hop Hx Hy.
  destruct (add_core_correct _ _ _ (get_icc (d_psr (m_d s))) Hop Hx Hy (get_icc_range _)) as [Ez Hcc].
  rewrite get_icc_bit in Ez, Hcc by (unfold CC_CARRY; lia). cbn [Z.add CC_CARRY] in Ez, Hcc.
  unfold exec_ADD. unfold bindM at 1, getd, gets. cbn [id].
  destruct (d_op_2_3 (m_d s) =? 0) eqn:E0.
  - apply Z.eqb_eq in E0. rewrite E0 in *. exists (d_psr (m_d s)). split; [|done].
    unfold addsub_spec, add_spec. cbn. rewrite Z.add_0_r. by destruct s as [c [] m b].
  - destruct (add_core _ _ _ _) as [z cc] eqn:Eadd. cbn [fst snd] in *. subst z.
    rewrite (proj2 (andb_false_iff _ _)); cycle 1.
    { left. unfold addsub_ops in Hop. rewrite !elem_of_cons, elem_of_nil in Hop.
      repeat (destruct Hop as [-> | Hop]; [done|]). done. }
    unfold BIT4, BIT5. change 0x10 with (Z.shiftl 1 4). change 0x20 with (Z.shiftl 1 5).
    rewrite !truth_land_pow2 by lia.
    assert (Z.testbit (d_op_2_3 (m_d s)) 5 = false) as ->.
    { unfold addsub_ops in Hop. rewrite !elem_of_cons, elem_of_nil in Hop.
      repeat (destruct Hop as [-> | Hop]; [done|]). done. }
    rewrite orb_false_r. destruct (Z.testbit _ 4); cbn [when psr_updated].
    + eexists. split; [reflexivity|]. by apply put_icc_set.
    + exists (d_psr (m_d s)). split; [|done]. by destruct s as [c [] m b].
Qed.
End alu_exec.

(** ** Multiplication and division *)

Lemma s64_sext64 x : is_u32 x -> s64 (sext64 x) = s32 x.
Proof.
  unfold is_u32. intros Hx. unfold sext64. change 0x80000000 with (Z.shiftl 1 31).
  rewrite truth_land_pow2, sign_bit_testbit by (done || lia).
  rewrite Z.lor_comm, (lor_add _ x 32) by (try case_match; lia || reflexivity).
  unfold s64, s32. change (Z.shiftl 0xffffffff 32) with 18446744069414584320.
  destruct (2147483648 <=? x) eqn:E; repeat case_match; lia.
Qed.

Lemma low_word z : Z.land z 0xffffffff = z mod 4294967296.
Proof. change 0xffffffff with (Z.ones 32). by rewrite Z.land_ones by lia. Qed.

(** The operand of a multiplication or division as [op] reads it. *)
Definition operand (op x : Z) : Z := if Z.testbit op 0 then s32 x else x.

Lemma mul_core_product op x y :
  is_u32 x -> is_u32 y -> mul_core op x y = u64 (operand op x * operand op y).
Proof.
  intros Hx Hy. unfold mul_core, operand, LOBITS1. rewrite truth_land1.
  case_match; [by rewrite !s64_sext64|done].
Qed.

Lemma muldiv_has_cc cc z :
  0 <= cc < 16 ->
  has_cc (muldiv_cc cc z) (Z.testbit z 31) (z =? 0) false false.
Proof.
  intros Hc. unfold muldiv_cc.
  assert (Z.land (u32 (Z.shiftr z 31)) 1 = b2z (Z.testbit z 31)) as ->.
  { rewrite land1_testbit. unfold u32. change 4294967296 with (2 ^ 32).
    by rewrite Z.mod_pow2_bits_low, Z.shiftr_spec by lia. }
  assert (forall a k, clear_cc a k = put_cc a k (b2z false)) as Hclr.
  { intros a k. unfold clear_cc, put_cc. cbn [b2z]. by rewrite Z.shiftl_0_l, Z.lor_0_r. }
  rewrite !Hclr. change (if z =? 0 then 1 else 0) with (b2z (z =? 0)).
  unfold has_cc, CC_OVERFLOW, CC_CARRY, CC_ZERO, CC_NEGATIVE.
  split; [repeat apply put_cc_range; lia|]. by rewrite !put_cc_bit by lia.
Qed.

Definition set_y {W} (y : Z) (s : machine W) : machine W :=
  mkMachine (m_cpu s <| y_reg := y |>) (m_d s) (m_mem s) (m_bps s).

(** Words of a 64-bit product. *)
Lemma product_words p :
  u32 (Z.shiftr (u64 p) 32) = (p / 4294967296) mod 4294967296 /\
  Z.land (u64 p) 0xffffffff = p mod 4294967296.
Proof.
  rewrite low_word, Z.shiftr_div_pow2 by lia. unfold u32, u64.
  change (2 ^ 32) with 4294967296. split; Z.div_mod_to_equations; lia.
Qed.

Lemma quot_abs_le n m : m <> 0 -> Z.abs (Z.quot n m) <= Z.abs n.
Proof.
  intros Hm. rewrite <- Z.quot_abs, Z.quot_div_nonneg by lia. apply Z.div_le_upper_bound; nia.
Qed.

Lemma u64_eq_0 q : -18446744073709551616 < q < 18446744073709551616 -> (u64 q =? 0) = (q =? 0).
Proof.
  intros Hq. apply eq_true_iff_eq. rewrite !Z.eqb_eq. unfold u64. split; intros E.
  - Z.div_mod_to_equations. lia.
  - by rewrite E.
Qed.

Section muldiv_exec.
Context {W : Type} `{DeviceBus W}.
Implicit Types s : machine W.

(** [UMUL], [SMUL], [UMULcc] and [SMULcc] compute the exact 64-bit product
    of the unsigned or signed operands: the low word goes to [rd], the high
    word to Y; the [cc] forms set N and Z from the low word and clear V and
    C. *)
Theorem exec_MUL_correct s :
  let d := m_d s in
  is_u32 (d_rs1_value d) -> is_u32 (d_ev d) ->
  let p := operand (d_op_2_3 d) (d_rs1_value d) * operand (d_op_2_3 d) (d_ev d) in
  let lo := p mod 4294967296 in
  exists psr', exec_MUL s =
      (Val tt, with_d (set_y ((p / 4294967296) mod 4294967296) s) (alu_done lo psr' d)) /\
    psr_updated (Z.testbit (d_op_2_3 d) 4) (d_psr d) psr' (Z.testbit lo 31) (lo =? 0) false false.
Proof.
  cbv zeta. intros Hx Hy. unfold exec_MUL. unfold bindM at 1, getd, gets. cbn [id].
  rewrite mul_core_product by done. set (p := operand _ _ * operand _ _).
  destruct (product_words p) as [-> ->].
  assert (u32 (Z.land (p mod 4294967296) 0xffffffff) = p mod 4294967296) as ->.
  { rewrite low_word. unfold u32. by rewrite !Z.mod_mod by lia. }
  unfold BIT4. change 0x10 with (Z.shiftl 1 4). rewrite truth_land_pow2 by lia.
  destruct (Z.testbit (d_op_2_3 (m_d s)) 4); cbn [when psr_updated].
  - eexists. split; [reflexivity|]. apply put_icc_set, muldiv_has_cc, get_icc_range.
  - exists (d_psr (m_d s)). split; [|done]. by destruct s as [c [] m b].
Qed.

(** Division in full: a zero divisor traps, the signed dividend [-2^63] with
    divisor [-1] overflows the host's division, and every other pair leaves
    the truncated quotient and the remainder modulo [2^32], with V clear even
    where the quotient does not fit. *)
Lemma exec_DIV_modulo s :
  let d := m_d s in
  is_u32 (d_rs1_value d) -> is_u32 (d_ev d) -> is_u32 (y_reg (m_cpu s)) ->
  let n64 := y_reg (m_cpu s) * 4294967296 + d_rs1_value d in
  let n := if Z.testbit (d_op_2_3 d) 0 then s64 n64 else n64 in
  let m := operand (d_op_2_3 d) (d_ev d) in
  if d_ev d =? 0 then exec_DIV s = trap SPARC_DIVISION_BY_ZERO s
  else if Z.testbit (d_op_2_3 d) 0 && (n =? -9223372036854775808) && (m =? -1)
  then (exec_DIV s).1 = Crash UndefinedBehaviour
  else exists psr', exec_DIV s =
      (Val tt, with_d (set_y (Z.rem n m mod 4294967296) s)
                 (alu_done (Z.quot n m mod 4294967296) psr' d)) /\
    psr_updated (Z.testbit (d_op_2_3 d) 4) (d_psr d) psr'
      (Z.testbit (Z.quot n m) 31) (Z.quot n m =? 0) false false.
Proof.
  cbv zeta. intros Hx Hy Hyr. unfold exec_DIV.
  do 2 mstep. unfold id.
  destruct (d_ev (m_d s) =? 0) eqn:E0; [done|]. apply Z.eqb_neq in E0.
  assert (div_core (d_op_2_3 (m_d s)) (y_reg (m_cpu s)) (d_rs1_value (m_d s)) (d_ev (m_d s)) =
    let n64 := y_reg (m_cpu s) * 4294967296 + d_rs1_value (m_d s) in
    let n := if Z.testbit (d_op_2_3 (m_d s)) 0 then s64 n64 else n64 in
    let m := operand (d_op_2_3 (m_d s)) (d_ev (m_d s)) in
    if Z.testbit (d_op_2_3 (m_d s)) 0 && (n =? -9223372036854775808) && (m =? -1) then None
    else Some (u64 (Z.quot n m), u32 (Z.rem n m))) as ->.
  { unfold div_core, operand, LOBITS1, is_u32 in *.
    rewrite Z.shiftl_mul_pow2, (lor_add _ _ 32), truth_land1 by (try apply Z.mod_mul; lia).
    change (2 ^ 32) with 4294967296.
    destruct (Z.testbit (d_op_2_3 (m_d s)) 0); cbn [andb].
    - by rewrite s64_sext64.
    - by rewrite Z.quot_div_nonneg, Z.rem_mod_nonneg by lia. }
  cbv zeta. set (n64 := y_reg (m_cpu s) * 4294967296 + d_rs1_value (m_d s)).
  set (n := if Z.testbit (d_op_2_3 (m_d s)) 0 then s64 n64 else n64). set (m := operand _ _).
  destruct (Z.testbit (d_op_2_3 (m_d s)) 0 && (n =? -9223372036854775808) && (m =? -1)) eqn:Eub;
    [done|]. cbn [or_ub].
  assert (Z.land (u32 (u64 (Z.quot n m))) 0xffffffff = Z.quot n m mod 4294967296) as Ev.
  { rewrite low_word. unfold u32, u64. generalize (Z.quot n m). intros q.
    rewrite Z.mod_mod by lia. Z.div_mod_to_equations. lia. }
  assert (has_cc (muldiv_cc (get_icc (d_psr (m_d s))) (u64 (Z.quot n m)))
            (Z.testbit (Z.quot n m) 31) (Z.quot n m =? 0) false false) as Hcc.
  { pose proof (muldiv_has_cc (get_icc (d_psr (m_d s))) (u64 (Z.quot n m)) (get_icc_range _)) as Hcc.
    assert (Z.testbit (u64 (Z.quot n m)) 31 = Z.testbit (Z.quot n m) 31) as <-.
    { unfold u64. change 18446744073709551616 with (2 ^ 64). by apply Z.mod_pow2_bits_low. }
    assert ((u64 (Z.quot n m) =? 0) = (Z.quot n m =? 0)) as <-; [|done].
    apply u64_eq_0. pose proof (quot_abs_le n m) as Hq.
    assert (-18446744073709551616 < n < 18446744073709551616).
    { unfold n, n64, s64, is_u32 in *. repeat case_match; lia. }
    destruct (decide (m = 0)) as [Em|]; [|lia]. rewrite Em, Z.quot_0_r_ext by done. lia. }
  unfold BIT4. change 0x10 with (Z.shiftl 1 4). rewrite truth_land_pow2 by lia.
  destruct (Z.testbit (d_op_2_3 (m_d s)) 4); cbn [when psr_updated].
  - eexists. split; [|by apply put_icc_set]. cbn. rewrite Ev. reflexivity.
  - exists (d_psr (m_d s)). split; [|done]. cbn. rewrite Ev. by destruct s as [c [] mm b].
Qed.

Lemma operand_mod op q :
  (if Z.testbit op 0 then -2147483648 <= q <= 2147483647 else is_u32 q) ->
  operand op (q mod 4294967296) = q.
Proof.
  unfold operand, s32, is_u32. case_match; intros Hq; [case_match|]; Z.div_mod_to_equations; lia.
Qed.

(** C17. [UDIV], [SDIV] and their [cc] forms: a zero divisor traps; otherwise,
    when the quotient of the 64-bit dividend [Y:rs1], truncated towards zero,
    fits the 32-bit result, [rd] gets exactly that quotient, Y the remainder,
    and the [cc] forms set N and Z from it and clear V and C. A quotient that
    does not fit is outside the claim: the manual saturates it and sets V, the
    code does neither, see [udiv_overflow_wraps]. *)
Theorem exec_DIV_correct s :
  let d := m_d s in
  is_u32 (d_rs1_value d) -> is_u32 (d_ev d) -> is_u32 (y_reg (m_cpu s)) ->
  let n64 := y_reg (m_cpu s) * 4294967296 + d_rs1_value d in
  let n := if Z.testbit (d_op_2_3 d) 0 then s64 n64 else n64 in
  let m := operand (d_op_2_3 d) (d_ev d) in
  let q := Z.quot n m in
  (if Z.testbit (d_op_2_3 d) 0 then -2147483648 <= q <= 2147483647 else is_u32 q) ->
  if d_ev d =? 0 then exec_DIV s = trap SPARC_DIVISION_BY_ZERO s
  else exists v psr', exec_DIV s =
      (Val tt, with_d (set_y (Z.rem n m mod 4294967296) s) (alu_done v psr' d)) /\
    is_u32 v /\ operand (d_op_2_3 d) v = q /\
    psr_updated (Z.testbit (d_op_2_3 d) 4) (d_psr d) psr' (Z.testbit v 31) (v =? 0) false false.
Proof.
  cbv zeta. intros Hx Hy Hyr Hq. pose proof (exec_DIV_modulo s Hx Hy Hyr) as E. cbv zeta in E.
  set (n := if Z.testbit _ 0 then s64 _ else _) in *. set (m := operand _ _) in *.
  destruct (d_ev (m_d s) =? 0); [done|].
  destruct (Z.testbit (d_op_2_3 (m_d s)) 0 && (n =? -9223372036854775808) && (m =? -1)) eqn:Eub.
  { apply andb_true_iff in Eub as [[Es En%Z.eqb_eq]%andb_true_iff Em%Z.eqb_eq]. rewrite Es, En, Em in Hq.
    change (Z.quot _ _) with 9223372036854775808 in Hq. lia. }
  destruct E as (p' & E & Hp). eexists _, p'. split; [exact E|]. rewrite (operand_mod _ _ Hq).
  split; [unfold is_u32; Z.div_mod_to_equations; lia|]. split; [done|].
  assert ((Z.quot n m mod 4294967296 =? 0) = (Z.quot n m =? 0)) as ->.
  { clear -Hq. unfold is_u32 in *. case_match; Z.div_mod_to_equations; lia. }
  change 4294967296 with (2 ^ 32). by rewrite Z.mod_pow2_bits_low by lia.
Qed.
End muldiv_exec.

(** ** Logic and shifts *)

Definition logic_ops : list Z :=
  [0x01; 0x02; 0x03; 0x05; 0x06; 0x07; 0x11; 0x12; 0x13; 0x15; 0x16; 0x17].

(** SPARC V8 reference: [and], [or] or [xor] bit by bit, with the second operand
    complemented in the [n] forms. *)
Definition logic_bit (op : Z) (a b : bool) : bool :=
  let b := xorb (Z.testbit op 2) b in
  match Z.testbit op 1, Z.testbit op 0 with
  | false, _ => a && b
  | true, false => a || b
  | true, true => xorb a b
  end.

Lemma clear_cc_put a k : clear_cc a k = put_cc a k (b2z false).
Proof. unfold clear_cc, put_cc. cbn [b2z]. by rewrite Z.shiftl_0_l, Z.lor_0_r. Qed.

Lemma CalcCC_has_cc cc z :
  0 <= cc < 16 -> is_u32 z -> has_cc (CalcCC cc z) (Z.testbit z 31) (z =? 0) false false.
Proof.
  intros Hc Hz. unfold CalcCC. rewrite sign_bit, land1_testbit, testbit_b2z_0,
    <- sign_bit_testbit, !clear_cc_put by done.
  change (if z =? 0 then 1 else 0) with (b2z (z =? 0)). by apply put_all_cc.
Qed.

Lemma and_core_bits op x y :
  op ∈ logic_ops -> is_u32 x -> is_u32 y ->
  is_u32 (and_core op x y) /\
  forall j, 0 <= j < 32 ->
    Z.testbit (and_core op x y) j = logic_bit op (Z.testbit x j) (Z.testbit y j).
Proof.
  intros Hop Hx Hy. unfold logic_ops in Hop. rewrite !elem_of_cons, elem_of_nil in Hop.
  assert (is_u32 (not32 y)) as Hny by auto with u32. unfold is_u32 in *.
  repeat (destruct Hop as [-> | Hop]; [
    unfold and_core, logic_bit, BIT2, LOBITS2; ground; cbn [xorb negb];
    split; [first [apply (land_range _ _ 32)|apply (lor_range _ _ 32)|apply (lxor_range _ _ 32)]; lia|];
    intros j Hj;
    rewrite ?Z.land_spec, ?Z.lor_spec, ?Z.lxor_spec, ?testbit_not32 by lia;
    by destruct (Z.testbit x j), (Z.testbit y j)|]).
  done.
Qed.

Lemma and_fast_core op x y :
  op ∈ logic_ops -> Z.land op (Z.lor BIT4 BIT2) = 0 -> and_fast op x y = and_core op x y.
Proof.
  intros Hop Hf. unfold logic_ops in Hop. rewrite !elem_of_cons, elem_of_nil in Hop.
  repeat (destruct Hop as [-> | Hop]; [by (discriminate Hf || reflexivity)|]). done.
Qed.

(** The arithmetic right shift. *)
Lemma sra_core_spec x ev :
  is_u32 x -> is_u32 ev ->
  sra_core x ev =
  if (2147483648 <=? x) && negb (ev =? 0) && (ev mod 32 =? 0) then None
  else Some (u32 (Z.shiftr (s32 x) (ev mod 32))).
Proof.
  intros Hx He. unfold sra_core, LOBITS5, BIT31. change 0x1f with (Z.ones 5).
  rewrite Z.land_ones by lia. change (2 ^ 5) with 32.
  replace (truth (Z.land x 0x80000000)) with (2147483648 <=? x)
    by (rewrite <- sign_bit_testbit by done; symmetry; by apply (truth_land_pow2 x 31)).
  pose proof (Z.mod_pos_bound ev 32) as Hn. unfold truth.
  assert ((32 - ev mod 32 =? 32) = (ev mod 32 =? 0)) as -> by
    (apply eq_true_iff_eq; rewrite !Z.eqb_eq; lia).
  destruct (2147483648 <=? x) eqn:E1; cbn [andb]; cycle 1.
  { f_equal. rewrite Z.lor_0_r. unfold s32. rewrite (proj2 (Z.ltb_lt _ _)) by lia.
    symmetry. apply u32_id. unfold is_u32 in *. rewrite Z.shiftr_div_pow2 by lia.
    split; [apply Z.div_pos; lia|]. apply Z.div_lt_upper_bound; [lia|]. nia. }
  destruct (ev =? 0) eqn:E2; cbn [negb andb].
  { apply Z.eqb_eq in E2 as ->. f_equal. rewrite Z.mod_0_l, !Z.shiftr_0_r, Z.lor_0_r by lia.
    unfold s32, u32, is_u32 in *. rewrite (proj2 (Z.ltb_ge _ _)) by lia.
    rewrite <- (Z.mod_add _ 1) by lia. symmetry. rewrite Z.mod_small; lia. }
  destruct (ev mod 32 =? 0) eqn:E3; [done|]. f_equal.
  set (n := ev mod 32) in *. apply Z.eqb_neq in E3.
  apply Z.bits_inj'. intros j Hj. unfold u32, shl32. change 4294967296 with (2 ^ 32).
  assert (s32 x = Z.lor x (Z.shiftl (-1) 32)) as ->.
  { unfold s32, is_u32 in *. rewrite (proj2 (Z.ltb_ge _ _)), Z.lor_comm, (lor_add _ x 32) by (reflexivity || lia).
    change (Z.shiftl (-1) 32) with (-4294967296). lia. }
  unfold u32. change 4294967296 with (2 ^ 32). destruct (decide (j < 32)).
  - rewrite !Z.mod_pow2_bits_low, Z.lor_spec, !Z.shiftr_spec, Z.lor_spec, Z.mod_pow2_bits_low by lia.
    rewrite Z.shiftl_spec by lia. change 0xffffffff with (Z.ones 32). f_equal.
    destruct (decide (j < 32 - n)).
    + rewrite (Z.testbit_neg_r (Z.ones 32)), Z.shiftl_spec, Z.testbit_neg_r by lia. done.
    + rewrite Z.ones_spec_low, Z.shiftl_spec, Z.bits_m1 by lia. done.
  - rewrite Z.mod_pow2_bits_high, Z.lor_spec, Z.shiftr_spec, Z.mod_pow2_bits_high by lia.
    by rewrite (testbit_high x 32) by (unfold is_u32 in Hx; lia).
Qed.

Section logic_exec.
Context {W : Type} `{DeviceBus W}.
Implicit Types s : machine W.

(** The twelve logic instructions compute their boolean function on every
    bit of the operands, in the fast path as in the general one; the [cc]
    forms set N and Z from the result and clear V and C. *)
Theorem exec_AND_correct s :
  let d := m_d s in
  d_op_2_3 d ∈ logic_ops -> is_u32 (d_rs1_value d) -> is_u32 (d_ev d) ->
  exists v p', exec_AND s = (Val tt, with_d s (alu_done v p' d)) /\ is_u32 v /\
    (forall j, 0 <= j < 32 -> Z.testbit v j =
       logic_bit (d_op_2_3 d) (Z.testbit (d_rs1_value d) j) (Z.testbit (d_ev d) j)) /\
    psr_updated (Z.testbit (d_op_2_3 d) 4) (d_psr d) p' (Z.testbit v 31) (v =? 0) false false.
Proof.
  cbv zeta. intros Hop Hx Hy. destruct (and_core_bits _ _ _ Hop Hx Hy) as [Hr Hb].
  exists (and_core (d_op_2_3 (m_d s)) (d_rs1_value (m_d s)) (d_ev (m_d s))).
  unfold exec_AND. mstep. unfold id.
  destruct (Z.land (d_op_2_3 (m_d s)) (Z.lor BIT4 BIT2) =? 0) eqn:Ef.
  - apply Z.eqb_eq in Ef. exists (d_psr (m_d s)). rewrite and_fast_core by done.
    assert (Z.testbit (d_op_2_3 (m_d s)) 4 = false) as ->.
    { apply (f_equal (fun z => Z.testbit z 4)) in Ef. rewrite Z.land_spec, Z.bits_0 in Ef.
      change (Z.testbit (Z.lor BIT4 BIT2) 4) with true in Ef. by rewrite andb_true_r in Ef. }
    split; [|done]. by destruct s as [c [] m b].
  - unfold BIT4. change 0x10 with (Z.shiftl 1 4). rewrite truth_land_pow2 by lia.
    destruct (Z.testbit (d_op_2_3 (m_d s)) 4); cbn [when psr_updated].
    + eexists. split; [reflexivity|]. split; [done|]. split; [done|].
      apply put_icc_set, CalcCC_has_cc; [apply get_icc_range|done].
    + exists (d_psr (m_d s)). split; [|done]. by destruct s as [c [] m b].
Qed.

(** [SRA] shifts arithmetically by the low five bits of its operand,
    except in one case: when those five bits are zero but the operand is not
    and the value is negative, the code shifts a 32-bit word by 32, which is
    undefined. *)
Theorem exec_SRA_correct s :
  let d := m_d s in
  is_u32 (d_rs1_value d) -> is_u32 (d_ev d) ->
  if (2147483648 <=? d_rs1_value d) && negb (d_ev d =? 0) && (d_ev d mod 32 =? 0)
  then (exec_SRA s).1 = Crash UndefinedBehaviour
  else exec_SRA s =
    (Val tt, with_d s (alu_done (u32 (Z.shiftr (s32 (d_rs1_value d)) (d_ev d mod 32))) (d_psr d) d)).
Proof.
  cbv zeta. intros Hx He. unfold exec_SRA. mstep. unfold id. rewrite sra_core_spec by done.
  case_match; [done|]. by destruct s as [c [] m b].
Qed.
End logic_exec.

(** ** The multiply step *)

(** The partial product in [rd] after a multiply step is a 33-bit number: its
    sign is N xor V. *)
Definition true_sign (cc : Z) : bool := xorb (Z.testbit cc CC_NEGATIVE) (Z.testbit cc CC_OVERFLOW).
Definition true_value (z cc : Z) : Z := z - 4294967296 * b2z (true_sign cc).

(** One [MULScc] with second operand [ev] on [(rd, cc, Y)]. *)
Definition mulscc_step (ev : Z) (st : Z * Z * Z) : Z * Z * Z :=
  let '(z, cc, y) := st in mulscc_core z ev y cc.

Definition mulscc_ok (st : Z * Z * Z) : Prop :=
  let '(z, cc, y) := st in is_u32 z /\ 0 <= cc < 16 /\ is_u32 y.

Lemma mulscc_x rs1 cc :
  is_u32 rs1 ->
  let x := Z.lor (Z.shiftr rs1 1)
    (shl32 (Z.land (Z.lxor (Z.shiftr cc CC_OVERFLOW) (Z.shiftr cc CC_NEGATIVE)) 1) 31) in
  is_u32 x /\ s32 x = true_value rs1 cc / 2.
Proof.
  unfold is_u32. intros Hr. cbv zeta. unfold true_value, true_sign, CC_OVERFLOW, CC_NEGATIVE.
  rewrite land1_testbit, Z.lxor_spec, !Z.shiftr_spec, xorb_comm by lia. cbn [Z.add].
  set (b := xorb _ _). rewrite Z.lor_comm, Z.shiftr_div_pow2 by lia. change (2 ^ 1) with 2.
  assert (shl32 (b2z b) 31 = 2147483648 * b2z b) as -> by (by destruct b).
  rewrite (lor_add _ _ 31); [|lia|by destruct b|change (2 ^ 31) with 2147483648; Z.div_mod_to_equations; lia].
  unfold s32. destruct b; cbn [b2z]; case_match; Z.div_mod_to_equations; lia.
Qed.

(** The sum of a multiply step keeps its exact value. *)
Lemma true_sum x y c :
  is_u32 x -> is_u32 y -> 
  let z := u32 (x + y) in
  let n := 2147483648 <=? z in
  xorb n (negb (fits_s32 (s32 x + s32 y))) = c ->
  z - 4294967296 * b2z c = s32 x + s32 y.
Proof.
  unfold is_u32, u32, fits_s32, s32. intros Hx Hy. cbv zeta.
  pose proof (Z.mod_pos_bound (x + y) 4294967296) as Hb.
  pose proof (Z.div_mod (x + y) 4294967296) as Hd.
  set (z := (x + y) mod 4294967296) in *. set (q := (x + y) / 4294967296) in *.
  intros <-. destruct (x <? 2147483648) eqn:E1, (y <? 2147483648) eqn:E2,
    (2147483648 <=? z) eqn:E3; cbn [xorb];
    match goal with |- context [negb ?b] => destruct b eqn:E4 end; cbn [negb b2z];
    rewrite ?andb_true_iff, ?andb_false_iff, ?Z.leb_le, ?Z.leb_gt, ?Z.ltb_lt, ?Z.ltb_ge in E4; lia.
Qed.

Lemma mulscc_step_spec ev z cc y :
  mulscc_ok (z, cc, y) -> is_u32 ev ->
  let '(z', cc', y') := mulscc_step ev (z, cc, y) in
  mulscc_ok (z', cc', y') /\
  true_value z' cc' = true_value z cc / 2 + (y mod 2) * s32 ev /\
  y' = y / 2 + (true_value z cc mod 2) * 2147483648.
Proof.
  intros (Hz & Hcc & Hy) Hev. unfold mulscc_step, mulscc_core.
  destruct (mulscc_x z cc Hz) as [Hx Ex]. cbv zeta in Hx, Ex.
  set (x := Z.lor (Z.shiftr z 1) _) in *.
  assert (forall a, truth (Z.land a 1) = Z.testbit a 0) as Ht by (intros; apply truth_land1).
  set (ye := if truth (Z.land y 1) then ev else 0).
  assert (is_u32 ye) as Hye by (unfold ye; case_match; [done|unfold is_u32; lia]).
  assert (s32 ye = (y mod 2) * s32 ev) as Eye.
  { unfold ye. rewrite truth_land1, Z.bit0_odd, Zmod_odd. destruct (Z.odd y); [lia|done]. }
  destruct (adder_flags x ye 0 Hx Hye ltac:(lia)) as [Ev _]. cbv zeta in Ev.
  rewrite !Z.add_0_r in Ev. unfold LOBITS1. rewrite !sign_bit by auto using u32_range.
  set (s := u32 (x + ye)) in *.
  rewrite !land1_testbit, !Z.lor_spec, !Z.land_spec, !testbit_not32, !testbit_b2z_0, Z.lor_spec by lia.
  rewrite !testbit_b2z_0, Ev. change (if s =? 0 then 1 else 0) with (b2z (s =? 0)).
  match goal with |- context [put_cc (put_cc cc CC_OVERFLOW (b2z ?v)) CC_CARRY (b2z ?c)] =>
    pose proof (put_all_cc cc (2147483648 <=? s) (s =? 0) v c Hcc) as (Hr & En & _ & Eo & _) end.
  match goal with |- context [put_cc ?a CC_NEGATIVE ?b] => set (cc' := put_cc a CC_NEGATIVE b) in * end.
  assert (shl32 (b2z (Z.testbit z 0)) 31 = (z mod 2) * 2147483648) as ->.
  { rewrite Z.bit0_odd, Zmod_odd. by destruct (Z.odd z). }
  assert (true_value z cc mod 2 = z mod 2) as ->.
  { unfold true_value. replace (z - 4294967296 * b2z (true_sign cc))
      with (z + (-2147483648 * b2z (true_sign cc)) * 2) by lia. apply Z.mod_add. lia. }
  unfold is_u32 in Hy. rewrite Z.shiftr_div_pow2, Z.lor_comm, (lor_add _ _ 31); cycle 1;
    [lia|apply Z.mod_mul; lia|change (2 ^ 1) with 2; change (2 ^ 31) with 2147483648; Z.div_mod_to_equations; lia|lia|].
  change (2 ^ 1) with 2. split; [|split].
  - split; [apply u32_range|]. split; [done|]. unfold is_u32. Z.div_mod_to_equations. lia.
  - unfold true_value at 1. rewrite <- Ex, <- Eye. apply true_sum; [done..|].
    unfold true_sign. by rewrite En, Eo.
  - lia.
Qed.

(** The loop invariant: [h] is what is left of the multiplier, [l] what has been
    multiplied, [p] and [q] the powers of two of the steps done and to do. *)
Definition mulscc_inv (m y0 p q : Z) (st : Z * Z * Z) : Prop :=
  mulscc_ok st /\
  exists h l, y0 = h * p + l /\ 0 <= h < q /\
    let '(z, cc, y) := st in true_value z cc * 4294967296 + y = 2 * s32 m * l * q + h.

Lemma mulscc_inv_step m y0 p q st :
  is_u32 m -> 0 < q -> p * (2 * q) = 4294967296 ->
  mulscc_inv m y0 p (2 * q) st -> mulscc_inv m y0 (2 * p) q (mulscc_step m st).
Proof.
  intros Hm Hq Hpq (Hok & h & l & Hy0 & Hh & HA). destruct st as [[z cc] y].
  pose proof (mulscc_step_spec m z cc y Hok Hm) as Hs.
  destruct (mulscc_step m (z, cc, y)) as [[z' cc'] y']. destruct Hs as (Hok' & Et & Ey).
  destruct Hok as (_ & _ & Hy). unfold is_u32 in Hy.
  set (t := true_value z cc) in *. set (t' := true_value z' cc') in *.
  assert (y mod 2 = h mod 2) as Eb.
  { apply (f_equal (fun a => a mod 2)) in HA.
    replace (t * 4294967296 + y) with (y + (t * 2147483648) * 2) in HA by lia.
    replace (2 * s32 m * l * (2 * q) + h) with (h + (2 * s32 m * l * q) * 2) in HA by lia.
    rewrite !Z.mod_add in HA by lia. done. }
  split; [done|]. exists (h / 2), (l + (h mod 2) * p).
  pose proof (Z.div_mod h 2 ltac:(lia)) as Dh. pose proof (Z.mod_pos_bound h 2 ltac:(lia)) as Bh.
  pose proof (Z.div_mod t 2 ltac:(lia)) as Dt. pose proof (Z.div_mod y 2 ltac:(lia)) as Dy.
  split; [nia|]. split; [lia|]. cbv iota beta. fold t'. rewrite Et, Ey. rewrite Eb in *.
  set (b := h mod 2) in *. set (M := s32 m) in *.
  assert (2 * M * (l + b * p) * q = 2 * M * l * q + M * b * (p * (2 * q))) as -> by ring.
  rewrite Hpq. nia.
Qed.

(** C16. The multiply-step instruction multiplies: 32 [MULScc] with the
    multiplicand, from a zero partial product and the multiplier in Y, and a
    last one with zero leave in [rd:Y] the 64-bit product of the signed
    multiplicand and the unsigned multiplier. *)
Theorem mulscc_sequence_multiplies m y0 cc0 :
  is_u32 m -> is_u32 y0 -> 0 <= cc0 < 16 -> true_sign cc0 = false ->
  let '(z, cc, y) := mulscc_step 0 (Nat.iter 32 (mulscc_step m) (0, cc0, y0)) in
  z = (s32 m * y0 / 4294967296) mod 4294967296 /\ y = (s32 m * y0) mod 4294967296.
Proof.
  intros Hm Hy0 Hcc Hs.
  assert (forall n : nat, (n <= 32)%nat ->
    mulscc_inv m y0 (2 ^ Z.of_nat n) (2 ^ (32 - Z.of_nat n)) (Nat.iter n (mulscc_step m) (0, cc0, y0))) as Hn.
  { induction n as [|n IH]; intros Hle.
    - split; [by repeat split; unfold is_u32 in *; lia|]. exists y0, 0. cbn [Nat.iter nat_rect]. unfold true_value. rewrite Hs.
      unfold is_u32 in *. change (2 ^ Z.of_nat 0) with 1. change (2 ^ (32 - Z.of_nat 0)) with 4294967296. cbn [b2z]. lia.
    - rewrite Nat.iter_succ. replace (2 ^ Z.of_nat (S n)) with (2 * 2 ^ Z.of_nat n)
        by (rewrite Nat2Z.inj_succ, Z.pow_succ_r by lia; done).
      assert (2 ^ (32 - Z.of_nat n) = 2 * 2 ^ (32 - Z.of_nat (S n))) as Eq.
      { rewrite <- Z.pow_succ_r by lia. f_equal. lia. }
      apply mulscc_inv_step; [done|apply Z.pow_pos_nonneg; lia| |].
      + rewrite <- Eq, <- Z.pow_add_r by lia. change 4294967296 with (2 ^ 32). f_equal. lia.
      + rewrite <- Eq. apply IH. lia. }
  specialize (Hn 32%nat ltac:(lia)). destruct Hn as (Hok & h & l & El & Hh & HA).
  destruct (Nat.iter 32 _ _) as [[z cc] y].
  pose proof (mulscc_step_spec 0 z cc y Hok ltac:(unfold is_u32; lia)) as Hstep.
  destruct (mulscc_step 0 (z, cc, y)) as [[z' cc'] y']. destruct Hstep as (Hok' & Et & Ey).
  change (2 ^ (32 - Z.of_nat 32)) with 1 in *. change (2 ^ Z.of_nat 32) with 4294967296 in *.
  assert (h = 0) as -> by lia. assert (l = y0) as -> by lia.
  change (s32 0) with 0 in Et. destruct Hok' as (Hz' & _ & Hy'). destruct Hok as (_ & _ & Hy).
  unfold is_u32 in *. set (t := true_value z cc) in *. set (P := s32 m * y0).
  assert (t * 4294967296 + y = 2 * P) as HA' by (unfold P; lia).
  assert (true_value z' cc' * 4294967296 + y' = P) as HP by (Z.div_mod_to_equations; lia).
  rewrite <- HP. unfold true_value. split.
  - rewrite Z.div_add_l, (Z.div_small y'), Z.add_0_r by lia.
    replace (z' - 4294967296 * b2z (true_sign cc')) with (z' + - b2z (true_sign cc') * 4294967296) by lia.
    rewrite Z.mod_add, Z.mod_small by lia. done.
  - rewrite Z.add_comm, Z.mod_add, Z.mod_small by lia. done.
Qed.

(** ** Concrete instances *)

(** A processor after reset over an empty memory controller. *)
Definition demo_cpu : cpu :=
  reset 0x40000000 (mkCpu 0 0 0 0 0 0 0 0 0 0 0 [] [] [] [] false false false false
                      (mkRunSummary NORMAL 0 0) false false).
Definition demo_machine (d : DecodeStruct) : machine unit :=
  mkMachine demo_cpu d (mkMemsys mmu_new demo_mc) [].

(** A decoded [subcc] of 5 and 7 into [%g1]; [smulcc] and [sra] alike. *)
Definition demo_alu (op x y : Z) : DecodeStruct :=
  mkDecode 0 ADD 1 2 x 0 y op 0 0x40000000 0x40000004 reset_psr false 0 0.

Lemma exec_ADD_correct_witness :
  exists p', @exec_ADD unit (demo_machine (demo_alu 0x14 5 7)) =
    (Val tt, with_d (demo_machine (demo_alu 0x14 5 7)) (alu_done 0xfffffffe p' (demo_alu 0x14 5 7))) /\
    icc_set reset_psr p' true false false true.
Proof.
  apply (exec_ADD_correct (demo_machine (demo_alu 0x14 5 7))).
  - unfold addsub_ops. cbn. set_solver.
  - unfold is_u32; cbn; lia.
  - unfold is_u32; cbn; lia.
Defined.

Lemma exec_AND_correct_witness :
  exists v p', @exec_AND unit (demo_machine (demo_alu 0x05 0xff00 0x0ff0)) =
    (Val tt, with_d (demo_machine (demo_alu 0x05 0xff00 0x0ff0)) (alu_done v p' (demo_alu 0x05 0xff00 0x0ff0))) /\
    Z.testbit v 12 = true.
Proof.
  destruct (exec_AND_correct (demo_machine (demo_alu 0x05 0xff00 0x0ff0))) as (v & p' & E & _ & Hb & _).
  - unfold logic_ops. cbn. set_solver.
  - unfold is_u32; cbn; lia.
  - unfold is_u32; cbn; lia.
  - exists v, p'. split; [exact E|]. rewrite Hb by lia. reflexivity.
Defined.

Lemma exec_SRA_correct_witness :
  @exec_SRA unit (demo_machine (demo_alu 0 0x80000000 4)) =
    (Val tt, with_d (demo_machine (demo_alu 0 0x80000000 4)) (alu_done 0xf8000000 reset_psr (demo_alu 0 0x80000000 4))).
Proof.
  apply (exec_SRA_correct (demo_machine (demo_alu 0 0x80000000 4))); unfold is_u32; cbn; lia.
Defined.

Lemma exec_MUL_correct_witness :
  exists p', @exec_MUL unit (demo_machine (demo_alu 0x1b 0xffffffff 3)) =
    (Val tt, with_d (set_y 0xffffffff (demo_machine (demo_alu 0x1b 0xffffffff 3)))
               (alu_done 0xfffffffd p' (demo_alu 0x1b 0xffffffff 3))) /\
    icc_set reset_psr p' true false false false.
Proof.
  apply (exec_MUL_correct (demo_machine (demo_alu 0x1b 0xffffffff 3))); unfold is_u32; cbn; lia.
Defined.

Lemma exec_DIV_correct_witness :
  exists v p', @exec_DIV unit (demo_machine (demo_alu 0x0e 100 7)) =
    (Val tt, with_d (set_y 2 (demo_machine (demo_alu 0x0e 100 7))) (alu_done v p' (demo_alu 0x0e 100 7))) /\
    v = 14 /\ p' = reset_psr.
Proof.
  destruct (exec_DIV_correct (demo_machine (demo_alu 0x0e 100 7))) as (v & p' & E & _ & Hv & Hp);
    [unfold is_u32; cbn; lia..|vm_compute; split; [discriminate|done]|].
  exists v, p'. split; [exact E|]. split; [exact Hv|exact Hp].
Defined.

(** [udivcc] of [2^32] by 1: the result is 0 with V clear, where the manual
    gives [0xffffffff] with V set. *)
Example udiv_overflow_wraps :
  let s := set_y 1 (demo_machine (demo_alu 0x1e 0 1)) in
  exists p', @exec_DIV unit s = (Val tt, with_d (set_y 0 s) (alu_done 0 p' (m_d s))) /\
    Z.testbit p' 21 = false.
Proof. eexists. split; vm_compute; reflexivity. Qed.

Lemma mulscc_sequence_multiplies_witness :
  let '(z, cc, y) := mulscc_step 0 (Nat.iter 32 (mulscc_step 0xfffffffb) (0, 0, 6)) in
  z = 0xffffffff /\ y = 0xffffffe2.
Proof.
  apply (mulscc_sequence_multiplies 0xfffffffb 6 0); try (unfold is_u32; lia). reflexivity.
Defined.
