(* ===== verification/Fpu.v ===== *)
(** * Floating-point instructions (src/src/sparcv8/FPU_instructions.cpp)

    The sources compute with the host's [float] and [double].  The model takes
    IEEE 754 binary32 and binary64 with rounding to nearest even from the
    Standard Library's [SpecFloat]; the bits of a NaN that an operation produces
    are the host's choice, a parameter with the one law that they are a NaN. *)
From S2P Require Import Prelude Mctrl Tlb Mmu Cpu Instr.
From Stdlib Require Import SpecFloat.

(** ** Formats *)

(** A format: fraction width [f_mw], exponent width [f_ew]. *)
Record fmt := mkFmt { f_mw : Z; f_ew : Z }.
Definition binary32 : fmt := mkFmt 23 8.
Definition binary64 : fmt := mkFmt 52 11.

Definition f_prec (f : fmt) : Z := f_mw f + 1.
Definition f_emax (f : fmt) : Z := Z.shiftl 1 (f_ew f - 1).
(** The exponent of the least significant bit of a subnormal. *)
Definition f_emin (f : fmt) : Z := 3 - f_emax f - f_prec f.
Definition f_expmask (f : fmt) : Z := Z.ones (f_ew f).

(** [std::bit_cast] from an integer to a floating-point value. *)
Definition sf_of_bits (f : fmt) (x : Z) : spec_float :=
  let s := Z.testbit x (f_mw f + f_ew f) in
  let e := Z.land (Z.shiftr x (f_mw f)) (f_expmask f) in
  let m := Z.land x (Z.ones (f_mw f)) in
  if e =? 0 then
    match m with Zpos p => S754_finite s p (f_emin f) | _ => S754_zero s end
  else if e =? f_expmask f then
    if m =? 0 then S754_infinity s else S754_nan
  else
    match m + Z.shiftl 1 (f_mw f) with
    | Zpos p => S754_finite s p (e + f_emin f - 1)
    | _ => S754_nan
    end.

(** [std::bit_cast] back to the integer of the format's width, [nan] being the
    pattern of a NaN. *)
Definition bits_of_sf (f : fmt) (nan : Z) (x : spec_float) : Z :=
  let sign s := Z.shiftl (b2z s) (f_mw f + f_ew f) in
  let pattern :=
    match x with
    | S754_zero s => sign s
    | S754_infinity s => sign s + Z.shiftl (f_expmask f) (f_mw f)
    | S754_nan => nan
    | S754_finite s m e =>
        if Zpos m <? Z.shiftl 1 (f_mw f) then sign s + Zpos m
        else sign s + Z.shiftl (e - f_emin f + 1) (f_mw f) + (Zpos m - Z.shiftl 1 (f_mw f))
    end in
  Z.land pattern (Z.ones (f_mw f + f_ew f + 1)).

Definition is_nan (x : spec_float) : bool :=
  match x with S754_nan => true | _ => false end.

(** The NaN the host returns for an operation, by the operand patterns. *)
Class HostNaN := {
  nan_s : Z -> Z -> Z -> Z;
  nan_d : Z -> Z -> Z -> Z;
  nan_s_is_nan : forall opf a b, sf_of_bits binary32 (nan_s opf a b) = S754_nan;
  nan_d_is_nan : forall opf a b, sf_of_bits binary64 (nan_d opf a b) = S754_nan;
}.

(** ** Arithmetic of the two formats *)

Section format.
Context (f : fmt).
Definition f_add := SFadd (f_prec f) (f_emax f).
Definition f_sub := SFsub (f_prec f) (f_emax f).
Definition f_mul := SFmul (f_prec f) (f_emax f).
Definition f_div := SFdiv (f_prec f) (f_emax f).
Definition f_sqrt := SFsqrt (f_prec f) (f_emax f).

(** Conversion of an integer, and of a value of another format. *)
Definition f_of_int (r : Z) : spec_float :=
  binary_normalize (f_prec f) (f_emax f) r 0 false.
Definition f_round (x : spec_float) : spec_float :=
  match x with
  | S754_finite s m e =>
      binary_normalize (f_prec f) (f_emax f) (cond_Zopp s (Zpos m)) e s
  | x => x
  end.
End format.

(** [(int)x]: truncation; undefined ([None]) when the result is not an [int]. *)
Definition sf_to_int (x : spec_float) : option Z :=
  match x with
  | S754_zero _ => Some 0
  | S754_finite s m e =>
      let t := if 0 <=? e then Z.shiftl (Zpos m) e else Z.shiftr (Zpos m) (- e) in
      let r := cond_Zopp s t in
      if (-2147483648 <=? r) && (r <=? 2147483647) then Some r else None
  | _ => None
  end.

(** [get_fcc] and [get_fccd]: equal, less, greater, unordered. *)
Definition get_fcc (f1 f2 : spec_float) : Z :=
  if SFeqb f1 f2 then 0 else if SFltb f1 f2 then 1 else if SFltb f2 f1 then 2 else 3.

(** The FSR fields the instructions assign. *)
Definition put_ftt (fsr ftt : Z) : Z :=
  Z.lor (Z.land fsr (not32 (Z.shiftl 7 14))) (Z.shiftl (Z.land ftt 7) 14).
Definition put_fcc (fsr fcc : Z) : Z :=
  Z.lor (Z.land fsr (not32 (Z.shiftl 3 10))) (Z.shiftl (Z.land fcc 3) 10).
Definition put_cexc_nv (fsr : Z) : Z := Z.lor (Z.land fsr (not32 LOBITS5)) (Z.shiftl 0x1 4).

(** The condition table of [FBFCC_impl]. *)
Definition fbranch (cond fcc : Z) : bool :=
  if cond =? 8 then true
  else if cond =? 0 then false
  else if cond =? 7 then fcc =? 3
  else if cond =? 6 then fcc =? 2
  else if cond =? 5 then (fcc =? 3) || (fcc =? 2)
  else if cond =? 4 then fcc =? 1
  else if cond =? 3 then (fcc =? 3) || (fcc =? 1)
  else if cond =? 2 then (fcc =? 1) || (fcc =? 2)
  else if cond =? 1 then negb (fcc =? 0)
  else if cond =? 9 then fcc =? 0
  else if cond =? 10 then (fcc =? 3) || (fcc =? 0)
  else if cond =? 11 then (fcc =? 2) || (fcc =? 0)
  else if cond =? 12 then (fcc =? 3) || (fcc =? 2) || (fcc =? 0)
  else if cond =? 13 then (fcc =? 1) || (fcc =? 0)
  else if cond =? 14 then (fcc =? 3) || (fcc =? 1) || (fcc =? 0)
  else (fcc =? 0) || (fcc =? 1) || (fcc =? 2).

#[local] Open Scope M_scope.

Section fpu.
Context {W : Type} `{DeviceBus W} `{HostNaN}.
Abbreviation MX := (M (machine W)).

Definition read_freg (i : Z) : MX Z :=
  v ← getc (fun c => if 0 <=? i then freg c !! Z.to_nat i else None); or_ub v.
Definition write_freg (i v : Z) : MX unit :=
  a ← getc (fun c => array_set (freg c) i v);
  a ← or_ub a;
  updc (fun c => c <| freg := a |>).

Definition upd_fsr (f : Z -> Z) : MX unit := updc (fun c => c <| fsr := f (fsr c) |>).

(** [ftt = invalid_fp_register] and the trap that reports it. *)
Definition invalid_fp_register : MX unit :=
  upd_fsr (fun x => put_ftt x 0x6) ;; trap SPARC_FP_EXCEPTION.

Definition fp_enabled (body : MX unit) : MX unit :=
  p ← getd d_psr;
  if psr_ef p =? 0 then trap SPARC_FP_DISABLED else body.

Definition exec_LDF : MX unit :=
  fp_enabled (aligned LOBITS2
    (c ← getc id;
     let super := truth (Z.land (Z.shiftr (psr c) 7) 0x1) in
     d ← getd id;
     '(r, value) ← on_mem (MemAccess intent_load Sz4 (d_ev d) 0 super true);
     nf ← get_mmu get_no_fault;
     if (r <? 0) && negb nf then trap SPARC_DATA_ACCESS_EXCEPTION
     else write_freg (d_rd d) value ;; advance)).

Definition exec_LDDF : MX unit :=
  fp_enabled
    (c ← getc id;
     let super := truth (Z.land (Z.shiftr (psr c) 7) 0x1) in
     d ← getd id;
     if negb (d_ev d mod 8 =? 0) then trap SPARC_MEMORY_ADDR_NOT_ALIGNED
     else if truth (Z.land (d_rd d) 0x1) then invalid_fp_register
     else
       '(ret1, value_hi) ← on_mem (MemAccess intent_load Sz4 (d_ev d) 0 super true);
       '(ret2, value_lo) ← on_mem (MemAccess intent_load Sz4 (u32 (d_ev d + 4)) 0 super true);
       nf ← get_mmu get_no_fault;
       if ((ret1 <? 0) || (ret2 <? 0)) && negb nf then trap SPARC_DATA_ACCESS_EXCEPTION
       else
         write_freg (d_rd d) value_hi ;;
         write_freg (u32 (d_rd d + 1)) value_lo ;;
         advance).

(** The status is kept in a [u32] here, so the test for a fault is the one
    written, [ret1 < 0] on an unsigned value; the access is a supervisor one. *)
Definition exec_LDFSR : MX unit :=
  fp_enabled (aligned LOBITS2
    (d ← getd id;
     '(r, value) ← on_mem (MemAccess intent_load Sz4 (d_ev d) 0 true true);
     let ret1 := u32 r in
     nf ← get_mmu get_no_fault;
     if (ret1 <? 0) && negb nf then trap SPARC_DATA_ACCESS_EXCEPTION
     else upd_fsr (fun _ => value) ;; advance)).

Definition exec_STF : MX unit :=
  fp_enabled (aligned LOBITS2
    (c ← getc id;
     let super := truth (Z.land (Z.shiftr (psr c) 7) 0x1) in
     d ← getd id;
     value ← read_freg (d_rd d);
     '(r, _) ← on_mem (MemAccess intent_store Sz4 (d_ev d) value super true);
     finish_access r)).

Definition exec_STDF : MX unit :=
  fp_enabled
    (c ← getc id;
     let super := truth (Z.land (Z.shiftr (psr c) 7) 0x1) in
     d ← getd id;
     if negb (d_ev d mod 8 =? 0) then trap SPARC_MEMORY_ADDR_NOT_ALIGNED
     else if truth (Z.land (d_rd d) 0x1) then invalid_fp_register
     else
       value_hi ← read_freg (d_rd d);
       value_lo ← read_freg (u32 (d_rd d + 1));
       '(ret1, _) ← on_mem (MemAccess intent_store Sz4 (d_ev d) value_hi super true);
       '(ret2, _) ← on_mem (MemAccess intent_store Sz4 (u32 (d_ev d + 4)) value_lo super true);
       nf ← get_mmu get_no_fault;
       if ((ret1 <? 0) || (ret2 <? 0)) && negb nf then trap SPARC_DATA_ACCESS_EXCEPTION
       else advance).

Definition exec_STFSR : MX unit :=
  fp_enabled (aligned LOBITS2
    (d ← getd id;
     value ← getc fsr;
     '(r, _) ← on_mem (MemAccess intent_store Sz4 (d_ev d) value true true);
     let ret1 := u32 r in
     nf ← get_mmu get_no_fault;
     if (ret1 <? 0) && negb nf then trap SPARC_DATA_ACCESS_EXCEPTION else advance)).

Definition exec_STDFQ : MX unit := throw (runtime_error "STDFQ UNIMP").

Definition exec_FBFCC : MX unit :=
  fp_enabled
    (d ← getd id;
     x ← getc fsr;
     let cond := Z.land (Z.shiftr (d_opcode d) 25) 0xf in
     let fcc := Z.land (Z.shiftr x 10) 0x3 in
     let branch := fbranch cond fcc in
     let conditional := negb (cond =? 0) && negb (cond =? 8) in
     let annul := truth (Z.land (Z.shiftr (d_opcode d) 29) 0x1) in
     let annul := if branch && conditional then false else annul in
     take_branch branch annul).

(** [((u64)freg[r] << 32) | freg[r+1]]. *)
Definition read_double (r : Z) : MX Z :=
  hi ← read_freg r;
  lo ← read_freg (r + 1);
  ret (Z.lor (Z.shiftl hi 32) lo).

(** The single-precision result [fret], as its bits, for the operations that
    produce one from the two single operands. *)
Definition fop1_single (opf v1 v2 : Z) : option (option Z) :=
  let f1 := sf_of_bits binary32 v1 in
  let f2 := sf_of_bits binary32 v2 in
  let out x := Some (Some (bits_of_sf binary32 (nan_s opf v1 v2) x)) in
  if opf =? 0x49 then out (f_mul binary32 f1 f2)
  else if opf =? 0x4d then out (f_div binary32 f1 f2)
  else if opf =? 0x41 then out (f_add binary32 f1 f2)
  else if opf =? 0x45 then out (f_sub binary32 f1 f2)
  else if opf =? 0x01 then Some (Some v2)
  else if opf =? 0x05 then Some (Some (Z.lxor v2 BIT31))
  else if opf =? 0x09 then Some (Some (Z.land v2 (not32 BIT31)))
  else if opf =? 0x29 then out (f_sqrt binary32 f2)
  else if opf =? 0xc4 then out (f_of_int binary32 (s32 v2))
  else if opf =? 0xd1 then Some (r ← sf_to_int f2; Some (u32 r))%stdpp
  else None.

(** The double-precision result. *)
Definition fop1_double (opf v1s v2s v1 v2 : Z) : option Z :=
  let f1 := sf_of_bits binary32 v1s in
  let f2 := sf_of_bits binary32 v2s in
  let d1 := sf_of_bits binary64 v1 in
  let d2 := sf_of_bits binary64 v2 in
  let out x := Some (bits_of_sf binary64 (nan_d opf v1 v2) x) in
  if opf =? 0x2a then out (f_sqrt binary64 d2)
  else if opf =? 0x42 then out (f_add binary64 d1 d2)
  else if opf =? 0x46 then out (f_sub binary64 d1 d2)
  else if opf =? 0x4a then out (f_mul binary64 d1 d2)
  else if opf =? 0x4e then out (f_div binary64 d1 d2)
  else if opf =? 0x69 then out (f_mul binary64 (f_round binary64 f1) (f_round binary64 f2))
  else if opf =? 0xc8 then out (f_of_int binary64 (s32 v2s))
  else if opf =? 0xc9 then out (f_round binary64 f2)
  else None.

Definition is_double_op (opf : Z) : bool :=
  existsb (Z.eqb opf) [0x2a; 0x42; 0x46; 0x4a; 0x4e; 0x69; 0xc8; 0xc9].

Definition exec_FOP1 : MX unit :=
  fp_enabled
    (d ← getd id;
     let rs2 := Z.land (d_opcode d) LOBITS5 in
     let opf := Z.land (Z.shiftr (d_opcode d) 5) 0x1ff in
     v1 ← read_freg (d_rs1 d);
     v2 ← read_freg rs2;
     match fop1_single opf v1 v2 with
     | Some r => vret ← or_ub r; write_freg (d_rd d) vret ;; advance
     | None =>
         if (opf =? 0xd2) || (opf =? 0xc6) then
           if truth (Z.land rs2 0x1) then invalid_fp_register
           else
             w ← read_double rs2;
             let x := sf_of_bits binary64 w in
             vret ← (if opf =? 0xd2 then r ← or_ub (sf_to_int x); ret (u32 r)
                     else ret (bits_of_sf binary32 (nan_s opf v1 w) (f_round binary32 x)));
             write_freg (d_rd d) vret ;;
             advance
         else if is_double_op opf then
           if truth (Z.land (d_rd d) 0x1)
              || (negb (opf =? 0x69) && negb (opf =? 0xc8) && negb (opf =? 0xc9)
                  && (truth (Z.land rs2 0x1) || truth (Z.land (d_rs1 d) 0x1)))
           then invalid_fp_register
           else
             w1 ← read_double (d_rs1 d);
             w2 ← read_double rs2;
             match fop1_double opf v1 v2 w1 w2 with
             | Some vdret =>
                 write_freg (d_rd d) (u32 (Z.shiftr vdret 32)) ;;
                 write_freg (u32 (d_rd d + 1)) (u32 (Z.land vdret 0xffffffff)) ;;
                 advance
             | None => throw (logic_error "Should never get here")
             end
         else trap SPARC_ILLEGAL_INSTRUCTION
     end).

(** The comparison part of [FOP2_impl], for either precision: [quiet] and
    [signal] are the two operation codes of that precision. *)
Definition fcompare (opf quiet signal : Z) (f1 f2 : spec_float) : MX unit :=
  let fcc := get_fcc f1 f2 in
  if opf =? quiet then upd_fsr (fun x => put_fcc x fcc) ;; advance
  else if opf =? signal then
    if is_nan f1 || is_nan f2 then
      upd_fsr (fun x => put_cexc_nv (put_ftt x 0x1)) ;; trap SPARC_FP_EXCEPTION
    else upd_fsr (fun x => put_fcc x fcc) ;; advance
  else
    upd_fsr (fun x => put_ftt x 0x3) ;;
    trap SPARC_FP_EXCEPTION ;;
    throw (runtime_error "FPOP in fop2 not implemented, see trap/ftt").

Definition exec_FOP2 : MX unit :=
  fp_enabled
    (d ← getd id;
     let rs2 := Z.land (d_opcode d) LOBITS5 in
     let opf := Z.land (Z.shiftr (d_opcode d) 5) 0x1ff in
     let isdouble := truth (Z.land (Z.shiftr opf 1) 0x1) in
     if negb isdouble then
       v1 ← read_freg (d_rs1 d);
       v2 ← read_freg rs2;
       fcompare opf 0x51 0x55 (sf_of_bits binary32 v1) (sf_of_bits binary32 v2)
     else if truth (Z.land (d_rd d) 0x1) || truth (Z.land rs2 0x1)
             || truth (Z.land (d_rs1 d) 0x1) then invalid_fp_register
     else
       w1 ← read_double (d_rs1 d);
       w2 ← read_double rs2;
       fcompare opf 0x52 0x56 (sf_of_bits binary64 w1) (sf_of_bits binary64 w2)).
End fpu.
