(* ===== verification/Exec.v ===== *)
(** * The interpreter: dispatch, software breakpoints, and the run loop
      ([excute_one] of src/src/sparcv8/CPU.h, [TICC] of CPU_instructions.cpp and
      [CPU::run] of CPU.cpp) *)
From S2P Require Import Prelude Mctrl Tlb Mmu Cpu Instr Fpu.

(** What the interrupt controller promises to a processor: the two calls
    [CPU::run] makes on it ([IRQMP::get_irq_hint], [IRQMP::clear_irq]). *)
Class IntCtl (W : Type) := {
  get_irq_hint : Z -> M W Z;
  clear_irq : Z -> Z -> M W unit;
}.

Definition IRQ_CHECK_INTERVAL : Z := 64.

(** The opcode of [ta 1], planted by the debugger stub at a breakpoint. *)
Definition BREAKPOINT_OPCODE : Z := 0x91d02001.

(** [GdbStub::has_breakpoint] and [GdbStub::get_breakpoint_instruction]. *)
Definition has_breakpoint (bps : list Breakpoint) (addr : Z) : bool :=
  existsb (fun bp => bp_addr bp =? addr) bps.
Definition get_breakpoint_instruction (bps : list Breakpoint) (addr : Z) : Z :=
  match List.find (fun bp => bp_addr bp =? addr) bps with
  | Some bp => bp_instr bp
  | None => 0
  end.

(** [p->et = 0; p->ps = p->s; p->s = 1;] and the new window of a trap. *)
Definition trap_psr (p : Z) : Z :=
  let p := set_psr_et 0 p in
  let p := set_psr_ps (psr_s p) p in
  let p := set_psr_s 1 p in
  let n_cwp := Z.land (u32 (psr_cwp p - 1)) LOBITS5 mod NWINDOWS in
  set_psr_cwp n_cwp p.

(** [(tbr & ~0xff0) | ((trap_type & LOBITS8) << 4)]. *)
Definition trap_tbr (tbr tt : Z) : Z :=
  Z.lor (Z.land tbr (not32 0xff0)) (Z.shiftl (Z.land tt LOBITS8) 4).

#[local] Open Scope M_scope.

Section exec.
Context {W : Type} `{DeviceBus W} `{IntCtl W} `{HostNaN}.
Abbreviation MX := (M (machine W)).

Definition on_intc {A} (op : M W A) : MX A := on_mem (on_mc (on_device op)).

(** What happens to the machine while [GdbStub::notify_breakpoint] waits for
    the remote debugger to resume the processor: the stub serves the client's
    packets meanwhile. *)
Context (notify_breakpoint : Z -> Z -> MX unit).

(** [TICC]; [again] is the call [this->excute_one(d)]. *)
Definition exec_TICC (again : MX unit) : MX unit :=
  d ← getd id;
  c ← getc id;
  bps ← gets m_bps;
  if gdb_stub c && (d_opcode d =? BREAKPOINT_OPCODE) && has_breakpoint bps (pc c) then
    let bp_i := get_breakpoint_instruction bps (pc c) in
    notify_breakpoint (cpu_id_ c) (pc c) ;;
    updd (fun d => d <| d_opcode := bp_i |>) ;;
    again
  else if truth (test_cc d) then
    trap (if truth (d_i d) then
            128 + Z.land (u32 (d_rs1_value d + sign_ext7 (Z.land (d_opcode d) LOBITS7))) LOBITS7
          else 128 + Z.land (u32 (d_value d + d_rs1_value d)) LOBITS7)
  else advance.

(** [(this->*d->function)(d)]. *)
Definition dispatch (again : MX unit) (f : instr) : MX unit :=
  match f with
  | UNIMP => exec_UNIMP
  | CALL => exec_CALL
  | BICC => exec_BICC
  | SETHI => exec_SETHI
  | SLL => exec_SLL
  | SRL => exec_SRL
  | SRA => exec_SRA
  | RDY => exec_RDY
  | RDPSR => exec_RDPSR
  | RDWIM => exec_RDWIM
  | RDTBR => exec_RDTBR
  | WRY => exec_WRY
  | WRPSR => exec_WRPSR
  | WRWIM => exec_WRWIM
  | WRTBR => exec_WRTBR
  | JMPL => exec_JMPL
  | RETT => exec_RETT
  | TICC => exec_TICC again
  | SAVE => exec_SAVE
  | RESTORE => exec_RESTORE
  | FLUSH => exec_FLUSH
  | MULSCC => exec_MULSCC
  | LD => exec_LD
  | LDUB => exec_LDUB
  | LDUH => exec_LDUH
  | LDD => exec_LDD
  | LDSB => exec_LDSB
  | LDSH => exec_LDSH
  | ST => exec_ST
  | STB => exec_STB
  | STH => exec_STH
  | STD => exec_STD
  | SWAP => exec_SWAP
  | SWAPA => exec_SWAPA
  | LDSTUB => exec_LDSTUB
  | MUL => exec_MUL
  | DIV => exec_DIV
  | ADD => exec_ADD
  | AND => exec_AND
  | STA_impl => exec_STA
  | LDA_impl => exec_LDA
  | CASA => exec_CASA
  | LDF_impl => exec_LDF
  | LDDF_impl => exec_LDDF
  | LDFSR_impl => exec_LDFSR
  | STF_impl => exec_STF
  | STDF_impl => exec_STDF
  | STFSR_impl => exec_STFSR
  | STDFQ_impl => exec_STDFQ
  | FBFCC_impl => exec_FBFCC
  | FOP1_impl => exec_FOP1
  | FOP2_impl => exec_FOP2
  end.

(** [excute_one]; [depth] bounds the nested calls through [TICC] (the host
    stack), and exhausting it is undefined. *)
Fixpoint excute_one (depth : nat) : MX unit :=
  decode ;;
  f ← getd d_function;
  dispatch (match depth with O => ub | S n => excute_one n end) f ;;
  write_back.

(** ** [CPU::run] *)

(** The throttled poll of the interrupt controller; the new countdown. *)
Definition poll_irq (countdown : Z) : MX Z :=
  let countdown := countdown - 1 in
  if countdown =? 0 then
    c ← getc id;
    incoming_irl ← on_intc (get_irq_hint (cpu_id_ c));
    when ((irl c <? incoming_irl) && (trap_type c =? 0)) (set_irl incoming_irl) ;;
    ret IRQ_CHECK_INTERVAL
  else ret countdown.

Definition take_interrupt : MX unit :=
  c ← getc id;
  when ((trap_type c =? 0) && (truth (psr_et (psr c)) && (psr_pil (psr c) <? irl c)))
    (updc (fun c => c <| trap_type := u32 (irl c + SPARC_INTERRUPT) |>) ;;
     on_intc (clear_irq (irl c) (cpu_id_ c)) ;;
     updc (fun c => c <| irl := 0 |>)).

Definition take_trap : MX unit :=
  tt0 ← getc trap_type;
  when (truth tt0)
    (updc (fun c => update_cwp_bases (c <| psr := trap_psr (psr c) |>)) ;;
     c ← getc id;
     write_reg (pc c) LOCALREG1 ;;
     write_reg (npc c) LOCALREG2 ;;
     updc (fun c =>
       let t := trap_tbr (tbr c) (trap_type c) in
       c <| tbr := t |> <| pc := t |> <| npc := u32 (t + 4) |>
         <| trap_type := Z.land (trap_type c) (not32 LOBITS8) |>)).

(** One iteration of the loop up to the exit tests. *)
Definition run_body (depth : nat) (countdown : Z) : MX Z :=
  countdown ← poll_irq countdown;
  take_interrupt ;;
  take_trap ;;
  virt_addr ← getc pc;
  ok ← instr_fetch virt_addr;
  (if ok : bool then excute_one depth
   else
     tt0 ← getc trap_type;
     if truth tt0 then ret tt else throw (runtime_error "Could not fetch instruction.")) ;;
  ret countdown.

(** The exit tests at the end of an iteration: [true] is [break]. *)
Definition run_exit : MX bool :=
  c ← getc id;
  if interrupt_ c : bool then
    updc (fun c => c <| interrupt_ := false |>
                     <| rs := mkRunSummary RECV_SIGINT (instr_count (rs c)) (last_opcode (rs c)) |>) ;;
    ret true
  else
    ret (match reason (rs c) with NORMAL | UNIMPLEMENTED => true | _ => false end).

(** The loop; [None] when [fuel] iterations were not enough. *)
Fixpoint run_loop (fuel depth : nat) (ExecCount count countdown : Z) : MX (option Z) :=
  if (ExecCount =? 0) || (count <? ExecCount) then
    match fuel with
    | O => ret None
    | S fuel =>
        countdown ← run_body depth countdown;
        stop ← run_exit;
        if stop : bool then ret (Some (u64 (count + 1)))
        else run_loop fuel depth ExecCount (u64 (count + 1)) countdown
    end
  else ret (Some count).

Definition run (fuel depth : nat) (ExecCount : Z) : MX (option Z) :=
  updc (fun c => c <| rs := mkRunSummary INSTRUCTION (instr_count (rs c)) (last_opcode (rs c)) |>
                   <| running := true |>) ;;
  updd (fun _ => Decode0) ;;
  r ← run_loop fuel depth ExecCount 0 IRQ_CHECK_INTERVAL;
  match r with
  | None => ret None
  | Some count =>
      op ← getd d_opcode;
      updc (fun c => c <| rs := mkRunSummary (reason (rs c)) count op |>) ;;
      ret (Some (u32 count))
  end.
End exec.


(** ** Termination of the run loop *)
Section termination.
Context {W : Type} `{DeviceBus W} `{IntCtl W} `{HostNaN}.
Context (notify_breakpoint : Z -> Z -> M (machine W) unit).

Lemma run_loop_bounded fuel depth n count cd s :
  0 < n < 18446744073709551616 -> 0 <= count <= n -> n - count <= Z.of_nat fuel ->
  match (run_loop notify_breakpoint fuel depth n count cd s).1 with
  | Val None => False
  | Val (Some k) => count <= k <= n /\ (count < n -> count < k)
  | _ => True
  end.
Proof.
  intros Hn. revert count cd s. induction fuel as [|fuel IH]; intros count cd s Hc Hf; cbn [run_loop];
    rewrite (proj2 (Z.eqb_neq n 0)) by lia; cbn [orb];
    destruct (count <? n) eqn:E; cbn; try lia.
  unfold bindM. destruct (run_body _ _ _ s) as [[cd'| | |] s1]; try done.
  destruct (run_exit s1) as [[stop| | |] s2]; try done.
  assert (u64 (count + 1) = count + 1) as -> by (apply Z.mod_small; lia).
  destruct stop; cbn; [lia|]. specialize (IH (count + 1) cd' s2 ltac:(lia) ltac:(lia)).
  destruct (run_loop _ _ _ _ _ _ s2) as [[[k|]| | |] s3]; cbn in *; try done. lia.
Qed.

(** C19. [run] is bounded by its instruction count: asked for [n] instructions
    it never needs more than [n] iterations, and when it returns, without an
    exception, it reports between 1 and [n] of them, whatever the program
    does. *)
Theorem run_bounded depth n s :
  0 < n < 4294967296 ->
  match (run notify_breakpoint (Z.to_nat n) depth n s).1 with
  | Val None => False
  | Val (Some k) => 1 <= k <= n
  | _ => True
  end.
Proof.
  intros Hn. unfold run. do 2 mstep. set (s1 := mkMachine _ _ _ _).
  pose proof (run_loop_bounded (Z.to_nat n) depth n 0 IRQ_CHECK_INTERVAL s1 ltac:(lia) ltac:(lia) ltac:(lia)) as Hb.
  unfold bindM at 1. destruct (run_loop _ _ _ _ _ _ s1) as [[[k|]| | |] s2]; cbn in *; try done.
  rewrite u32_id by (unfold is_u32; lia). lia.
Qed.
End termination.
(** ** Concrete instances *)

(** A machine without interrupts, and the NaN of an x86 host. *)
Definition no_interrupts : IntCtl unit := {| get_irq_hint _ := ret 0; clear_irq _ _ := ret tt |}.
Definition default_nan : HostNaN.
Proof.
  refine {| nan_s _ _ _ := 0x7fc00000; nan_d _ _ _ := 0x7ff8000000000000 |}; reflexivity.
Defined.

(** A RAM at address 0 that holds the given words. *)
Definition put_words (ws : list Z) : bytes :=
  (fold_left (fun '(a, d) w => (a + 4, default d (poke32_be d a w))) ws (0, mkBytes 0x1000 ∅)).2.
Definition program_machine (c : cpu) (ws : list Z) : machine unit :=
  mkMachine c Decode0
    (mkMemsys mmu_new (mkMctrl [RamBank 0 Big (put_words ws)] 1 7 (mkBankCache 0 0 None 0 0) tt)) [].

(** [mov 10, %o0; add %o0, -1, %o1; save %sp, -96, %sp; add %i0, %i1, %i0;
    restore; subcc %o0, %o1, %o2], then the terminating opcode. *)
Definition demo_program : list Z :=
  [0x9010200a; 0x92023fff; 0x9de3bfa0; 0xb0060019; 0x81e80000; 0x94a20009; 0].
Definition demo_start : machine unit := program_machine (reset 0 demo_cpu) demo_program.
Definition demo_run (fuel : nat) (n : Z) : res (option Z) * machine unit :=
  @run unit no_devices no_interrupts default_nan (fun _ _ => ret tt) fuel 1 n demo_start.

(** The program stops at the terminating opcode, with 19 and 10 in its
    registers. *)
Lemma demo_run_result :
  (demo_run 10 0).1 = Val (Some 7) /\
  read_reg_of (m_cpu (demo_run 10 0).2) 8 0 = Some 19 /\
  read_reg_of (m_cpu (demo_run 10 0).2) 10 0 = Some 10.
Proof. vm_compute. repeat split. Qed.

Lemma run_bounded_witness :
  match (demo_run 3 3).1 with Val None => False | Val (Some k) => 1 <= k <= 3 | _ => True end
  /\ (demo_run 3 3).1 = Val (Some 3).
Proof.
  split; [|vm_compute; reflexivity].
  exact (@run_bounded unit no_devices no_interrupts default_nan (fun _ _ => ret tt) 1 3 demo_start ltac:(lia)).
Defined.
