(* ===== verification/Words.v ===== *)
(** * The type invariant: every location holds a value of its C++ type

    The model writes machine words as unbounded integers.  This file proves that
    the state of a processor, its decoder, its MMU and the memory behind it never
    leaves the ranges of the declared types, that [%g0] is zero, that the window
    pointer is below the number of windows and that the cached window base
    agrees with it, for every instruction and on every path, exceptions
    included. *)
From S2P Require Import Prelude Mctrl Tlb Mmu Cpu Instr Fpu Exec.

(** ** Memory *)

Definition bytes_ok (d : bytes) : Prop := map_Forall (fun _ v => is_u8 v) (b_map d).
Definition bank_bytes (b : bank) : Prop :=
  match b with RomBank _ _ _ d | RamBank _ _ d => bytes_ok d | DevBank _ _ _ _ _ => True end.

(** Every buffer holds bytes, and the devices satisfy [P]. *)
Definition typed_memory {W} (P : W -> Prop) (m : mctrl W) : Prop := Forall bank_bytes (banks m) /\ P (world m).

(** What a device bank promises of the values that cross its interface: they
    are values of the declared return types, given arguments of the declared
    types; and the memory a device writes still holds bytes. *)
Class DeviceBusLaws (W : Type) `{DeviceBus W} := {
  dev_ok : W -> Prop;
  dev_read8_ok id a : keeps (typed_memory dev_ok) (dev_read8 id a) is_u8;
  dev_read16_ok id a al : keeps (typed_memory dev_ok) (dev_read16 id a al) is_u16;
  dev_read32_ok id a al : keeps (typed_memory dev_ok) (dev_read32 id a al) is_u32;
  dev_write8_ok id a v : is_u8 v -> keeps (typed_memory dev_ok) (dev_write8 id a v) (fun _ => True);
  dev_write16_ok id a v al : is_u16 v -> keeps (typed_memory dev_ok) (dev_write16 id a v al) (fun _ => True);
  dev_write32_ok id a v al : is_u32 v -> keeps (typed_memory dev_ok) (dev_write32 id a v al) (fun _ => True);
}.

(** The same of the interrupt controller; the level is masked by the caller. *)
Class IntCtlLaws (W : Type) `{DeviceBusLaws W} `{IntCtl W} := {
  get_irq_hint_ok c : keeps dev_ok (get_irq_hint c) (fun _ => True);
  clear_irq_ok l c : keeps dev_ok (clear_irq l c) (fun _ => True);
}.

Lemma bytes_get_ok d i v : bytes_ok d -> bytes_get d i = Some v -> is_u8 v.
Proof.
  unfold bytes_get. intros Hd. destruct (in_buffer d i); [|done]. intros [= <-].
  destruct (b_map d !! i) as [x|] eqn:E; [by apply (Hd i)|done].
Qed.

Lemma bytes_set_ok d i v d' : bytes_ok d -> is_u8 v -> bytes_set d i v = Some d' -> bytes_ok d'.
Proof.
  unfold bytes_set. intros Hd Hv. destruct (in_buffer d i); [|done]. intros [= <-].
  by apply map_Forall_insert_2.
Qed.

Lemma cat2_u16 a b : is_u8 a -> is_u8 b -> is_u16 (cat2 a b).
Proof. intros. rewrite cat2_sum by done. unfold is_u8, is_u16 in *. lia. Qed.
Lemma cat4_u32 a b c d : is_u8 a -> is_u8 b -> is_u8 c -> is_u8 d -> is_u32 (cat4 a b c d).
Proof. intros. rewrite cat4_sum by done. unfold is_u8, is_u32 in *. lia. Qed.
Lemma byte_at_u8 v s : is_u8 (byte_at v s).
Proof. change (0 <= byte_at v s < 2 ^ 8). unfold byte_at. apply land_range; lia. Qed.
#[export] Hint Resolve cat2_u16 cat4_u32 byte_at_u8 bytes_get_ok bytes_set_ok : u32.

(** Solve an equation between an option computation and [Some]. *)
Ltac split_option :=
  repeat match goal with
  | H : (_ ← ?o; _)%stdpp = Some _ |- _ => destruct o eqn:?; [cbn in H|discriminate H]
  | H : Some _ = Some _ |- _ => injection H as <-
  end.

Section peek_poke.
Context (d : bytes) (Hd : bytes_ok d).

Lemma peek16_ok e p v :
  match e with Big => peek16_be d p | Little => peek16_le d p end = Some v -> is_u16 v.
Proof using Hd. destruct e; intros Hv; unfold peek16_be, peek16_le in Hv; split_option; eauto with u32. Qed.

Lemma peek32_ok e p v :
  match e with Big => peek32_be d p | Little => peek32_le d p end = Some v -> is_u32 v.
Proof using Hd. destruct e; intros Hv; unfold peek32_be, peek32_le in Hv; split_option; eauto 6 with u32. Qed.

Lemma poke16_ok e p v d' :
  match e with Big => poke16_be d p v | Little => poke16_le d p v end = Some d' -> bytes_ok d'.
Proof using Hd. destruct e; intros Hv; unfold poke16_be, poke16_le in Hv; split_option; eauto 6 with u32. Qed.

Lemma poke32_ok e p v d' :
  match e with Big => poke32_be d p v | Little => poke32_le d p v end = Some d' -> bytes_ok d'.
Proof using Hd. destruct e; intros Hv; unfold poke32_be, poke32_le in Hv; split_option; eauto 8 with u32. Qed.
End peek_poke.

Section memory.
Context {W : Type} `{DeviceBusLaws W}.

Definition mc_words : mctrl W -> Prop := typed_memory dev_ok.

Lemma bank_at_ok i : keeps mc_words (bank_at i) bank_bytes.
Proof.
  intros m Hm. unfold bank_at. destruct (banks m !! i) as [b|] eqn:E; cbn; [|done].
  split; [done|]. intros ? [= <-]. destruct Hm as [Hb _]. by apply (Forall_lookup_1 _ _ _ _ Hb E).
Qed.

Lemma put_data_ok i b o :
  bank_bytes b -> (forall d, o = Some d -> bytes_ok d) -> keeps mc_words (put_data i b o) (fun _ => True).
Proof.
  intros Hb Ho. unfold put_data. eapply keeps_bind; [apply keeps_or_ub|]. intros d Hd.
  apply keeps_modify; [|done]. intros m [Hm Hw]. split; [|done]. cbn. apply Forall_insert; [done|].
  specialize (Ho d Hd). destruct b; cbn; done.
Qed.

Lemma on_device_ok {A} (op : M W A) R : keeps dev_ok op R -> keeps mc_words (on_device op) R.
Proof. intros Hop. apply (keeps_zoom _ _ _ dev_ok); [done|by intros ? []|]. by intros m w [] ?. Qed.

Lemma keeps_or_ub_ok {S A} (I : S -> Prop) (o : option A) (R : A -> Prop) :
  (forall a, o = Some a -> R a) -> keeps I (or_ub o) R.
Proof. intros HR. eapply keeps_weaken; [apply keeps_or_ub|done]. Qed.
End memory.
#[export] Hint Resolve bank_at_ok on_device_ok dev_read8_ok dev_read16_ok dev_read32_ok
  dev_write8_ok dev_write16_ok dev_write32_ok : keeps.

(** The inherited accessors, for any bank. *)
Section defaults_ok.
Context {S : Type} (I : S -> Prop) (read8 : Z -> M S Z) (write8 : Z -> Z -> M S unit) (e : Endian).
Context (Hr : forall a, keeps I (read8 a) is_u8)
        (Hw : forall a v, is_u8 v -> keeps I (write8 a v) (fun _ => True)).
#[local] Hint Resolve Hr Hw : keeps.

Lemma default_read16_ok a : keeps I (default_read16 read8 e a) is_u16.
Proof using Hr. unfold default_read16. keeps_auto; destruct e; auto with u32. Qed.
Lemma default_read32_ok a : keeps I (default_read32 read8 e a) is_u32.
Proof using Hr. unfold default_read32. keeps_auto; destruct e; auto with u32. Qed.
Lemma default_write16_ok a v : keeps I (default_write16 write8 e a v) (fun _ => True).
Proof using Hw. unfold default_write16. keeps_auto; apply Hw; auto with u32. Qed.
Lemma default_write32_ok a v : keeps I (default_write32 write8 e a v) (fun _ => True).
Proof using Hw. unfold default_write32. keeps_auto; apply Hw; auto with u32. Qed.
End defaults_ok.

Section banks.
Context {W : Type} `{DeviceBusLaws W}.
Abbreviation I := (@mc_words W _ _).

(** A read of a host buffer, and an assignment to one. *)
Lemma keeps_peek {A} (o : option A) (R : A -> Prop) : (forall v, o = Some v -> R v) -> keeps I (or_ub o) R.
Proof. apply keeps_or_ub_ok. Qed.

Lemma bank_read8_ok i a : keeps I (bank_read8 i a) is_u8.
Proof.
  unfold bank_read8. eapply keeps_bind; [apply bank_at_ok|]. intros [] Hb; cbn in Hb;
    [apply keeps_peek; intros ?; by apply bytes_get_ok..|apply dev_read8_ok].
Qed.

Lemma bank_write8_ok i a v : is_u8 v -> keeps I (bank_write8 i a v) (fun _ => True).
Proof.
  intros Hv. unfold bank_write8. eapply keeps_bind; [apply bank_at_ok|].
  intros [] Hb; [destruct writeable; [|by apply keeps_stop]|..];
    [apply put_data_ok; [done|]; intros ?; by apply bytes_set_ok..|by apply dev_write8_ok].
Qed.

Lemma bank_read16_ok i a al : keeps I (bank_read16 i a al) is_u16.
Proof.
  unfold bank_read16. eapply keeps_bind; [apply bank_at_ok|]. intros [] Hb.
  - apply default_read16_ok, bank_read8_ok.
  - apply keeps_peek. destruct e; [apply (peek16_ok _ Hb Little)|apply (peek16_ok _ Hb Big)].
  - apply dev_read16_ok.
Qed.

Lemma bank_read32_ok i a al : keeps I (bank_read32 i a al) is_u32.
Proof.
  unfold bank_read32. eapply keeps_bind; [apply bank_at_ok|]. intros [] Hb.
  - apply default_read32_ok, bank_read8_ok.
  - apply keeps_peek. destruct e; [apply (peek32_ok _ Hb Little)|apply (peek32_ok _ Hb Big)].
  - apply dev_read32_ok.
Qed.

Lemma bank_write16_ok i a v al : is_u16 v -> keeps I (bank_write16 i a v al) (fun _ => True).
Proof.
  intros Hv. unfold bank_write16. eapply keeps_bind; [apply bank_at_ok|]. intros [] Hb.
  - apply default_write16_ok, bank_write8_ok.
  - apply put_data_ok; [done|]. destruct e; [apply (poke16_ok _ Hb Little)|apply (poke16_ok _ Hb Big)].
  - by apply dev_write16_ok.
Qed.

Lemma bank_write32_ok i a v al : is_u32 v -> keeps I (bank_write32 i a v al) (fun _ => True).
Proof.
  intros Hv. unfold bank_write32. eapply keeps_bind; [apply bank_at_ok|]. intros [] Hb.
  - apply default_write32_ok, bank_write8_ok.
  - apply put_data_ok; [done|]. destruct e; [apply (poke32_ok _ Hb Little)|apply (poke32_ok _ Hb Big)].
  - by apply dev_write32_ok.
Qed.

Lemma read8_nolock_ok i a : keeps I (read8_nolock i a) is_u8.
Proof.
  apply keeps_noexcept. eapply keeps_bind; [apply bank_at_ok|]. intros [] Hb;
    [apply bank_read8_ok|apply keeps_peek; intros ?; by apply bytes_get_ok|apply bank_read8_ok].
Qed.
Lemma write8_nolock_ok i a v : is_u8 v -> keeps I (write8_nolock i a v) (fun _ => True).
Proof.
  intros Hv. apply keeps_noexcept. eapply keeps_bind; [apply bank_at_ok|]. intros [] Hb;
    [by apply bank_write8_ok|apply put_data_ok; [done|]; intros ?; by apply bytes_set_ok|by apply bank_write8_ok].
Qed.
Lemma read16_nolock_ok i a al : keeps I (read16_nolock i a al) is_u16.
Proof. apply keeps_noexcept, bank_read16_ok. Qed.
Lemma write16_nolock_ok i a v al : is_u16 v -> keeps I (write16_nolock i a v al) (fun _ => True).
Proof. intros. by apply keeps_noexcept, bank_write16_ok. Qed.
Lemma read32_nolock_ok i a al : keeps I (read32_nolock i a al) is_u32.
Proof.
  apply keeps_noexcept. eapply keeps_bind; [apply bank_at_ok|]. intros [] Hb; try apply bank_read32_ok.
  apply keeps_peek. intros v. apply (peek32_ok _ Hb).
Qed.
Lemma write32_nolock_ok i a v al : is_u32 v -> keeps I (write32_nolock i a v al) (fun _ => True).
Proof.
  intros Hv. apply keeps_noexcept. eapply keeps_bind; [apply bank_at_ok|].
  intros [] Hb; try by apply bank_write32_ok.
  apply put_data_ok; [done|]. intros d. apply (poke32_ok _ Hb).
Qed.

Lemma get_ptr_ok i : keeps I (get_ptr i) (fun _ => True).
Proof. unfold get_ptr. eapply keeps_bind; [apply bank_at_ok|]. intros [] ?; keeps_auto. Qed.

Lemma find_bank_or_null_ok a : keeps I (find_bank_or_null a) (fun _ => True).
Proof.
  intros m Hm. unfold find_bank_or_null, rescan. cbv zeta.
  destruct (c_b _); [destruct (_ && _)|]; try destruct (scan_banks _ _ _) as [[]|]; by split.
Qed.

Lemma get_bank_ok a : keeps I (get_bank a) (fun _ => True).
Proof. apply find_bank_or_null_ok. Qed.

#[local] Hint Resolve read8_nolock_ok write8_nolock_ok read32_nolock_ok write32_nolock_ok
  bank_read32_ok bank_write32_ok find_bank_or_null_ok : keeps.

Lemma try_read32_ok a al :
  keeps I (try_read32 a al) (fun r => forall v, r.2 = Some v -> is_u32 v).
Proof. unfold try_read32. keeps_auto. by intros ? [= <-]. Qed.

Lemma try_write32_ok a v al : is_u32 v -> keeps I (try_write32 a v al) (fun _ => True).
Proof. intros Hv. unfold try_write32. keeps_auto. Qed.

Lemma bank_or_throw_ok a : keeps I (bank_or_throw a) (fun _ => True).
Proof. unfold bank_or_throw. keeps_auto. Qed.
Lemma mc_read16_ok a al : keeps I (mc_read16 a al) is_u16.
Proof. eapply keeps_bind; [apply bank_or_throw_ok|intros i _; apply bank_read16_ok]. Qed.
Lemma mc_read32_ok a al : keeps I (mc_read32 a al) is_u32.
Proof. eapply keeps_bind; [apply bank_or_throw_ok|intros i _; apply bank_read32_ok]. Qed.
Lemma mc_write32_ok a v al : is_u32 v -> keeps I (mc_write32 a v al) (fun _ => True).
Proof. intros Hv. eapply keeps_bind; [apply bank_or_throw_ok|intros i _; by apply bank_write32_ok]. Qed.

Lemma mc_atomic_ldstub8_ok a : keeps I (mc_atomic_ldstub8 a) (fun r => is_u32 (ar_old r)).
Proof.
  unfold mc_atomic_ldstub8, bank_atomic_ldstub8. keeps_auto; try by unfold is_u32.
  - by apply write8_nolock_ok.
  - cbn. auto with u32.
Qed.
End banks.
#[export] Hint Resolve read8_nolock_ok write8_nolock_ok read16_nolock_ok write16_nolock_ok
  read32_nolock_ok write32_nolock_ok find_bank_or_null_ok try_read32_ok try_write32_ok
  mc_atomic_ldstub8_ok get_ptr_ok get_bank_ok : keeps.

(** ** The MMU *)

Record mmu_words (m : MMU) : Prop := mkMmuWords {
  w_control : is_u32 (control_reg m); w_ccr : is_u32 (ccr m); w_iccr : is_u32 (iccr m);
  w_dccr : is_u32 (dccr m); w_ctp : is_u32 (ctx_tbl_ptr m); w_ctx : is_u32 (ctx_n m);
  w_fsr : is_u32 (fault_status_reg m); w_far : is_u32 (fault_address_reg m);
  w_data_cache : length (data_cache_ m) = DC_WAYS; w_store_cache : length (store_cache_ m) = DC_WAYS }.

(** [(x & ones) << n] below the width. *)
Lemma field_u32 x k n : 0 <= k -> 0 <= n -> k + n <= 32 -> is_u32 (Z.shiftl (Z.land x (Z.ones k)) n).
Proof.
  intros Hk Hn Hkn. rewrite is_u32_pow, Z.land_ones, Z.shiftl_mul_pow2 by lia.
  pose proof (Z.mod_pos_bound x (2 ^ k) ltac:(lia)).
  split; [nia|]. apply (Z.lt_le_trans _ (2 ^ k * 2 ^ n)); [nia|].
  rewrite <- Z.pow_add_r by lia. apply Z.pow_le_mono_r; lia.
Qed.

Lemma make_fsr_u32 l a f v : is_u32 (make_fsr l a f v).
Proof.
  unfold make_fsr. repeat apply lor_u32; [apply (field_u32 _ 2 8)|apply (field_u32 _ 3 5)|apply (field_u32 _ 3 2)|];
    try lia. by destruct v.
Qed.

Ltac mmu_fields := intros []; constructor; cbn; rewrite ?length_map, ?length_insert; auto with u32.

Lemma set_fault_words f m : is_u32 (far f) -> mmu_words m -> mmu_words (set_fault f m).
Proof. intros Hf. unfold set_fault. pose proof make_fsr_u32. mmu_fields. Qed.
Lemma mmu_flush_words m : mmu_words m -> mmu_words (mmu_flush m).
Proof. unfold mmu_flush, invalidate_l0. mmu_fields. Qed.
Lemma set_control_reg_words v m : is_u32 v -> mmu_words m -> mmu_words (set_control_reg v m).
Proof. intros Hv. unfold set_control_reg, invalidate_l0. destruct (negb _); mmu_fields. Qed.
Lemma put_tlb_words rw t m : mmu_words m -> mmu_words (put_tlb rw t m).
Proof. destruct rw; mmu_fields. Qed.

Section mmu_ok.
Context {W : Type} `{DeviceBusLaws W}.

Definition mem_words (s : memsys W) : Prop := mmu_words (ms_mmu s) /\ mc_words (ms_mc s).
Abbreviation I := mem_words.

Lemma on_mc_ok {A} (op : M (mctrl W) A) R : keeps mc_words op R -> keeps I (on_mc op) R.
Proof. intros Hop. apply (keeps_zoom _ _ _ mc_words); [done|by intros ? []|]. by intros m w [] ?. Qed.
Lemma mmu_upd_ok f : (forall m, mmu_words m -> mmu_words (f m)) -> keeps I (mmu_upd f) (fun _ => True).
Proof. intros Hf. apply keeps_modify; [|done]. intros s []. split; [by apply Hf|done]. Qed.
Lemma mmu_get_ok {A} (f : MMU -> A) : keeps I (mmu_get f) (fun a => exists m, mmu_words m /\ a = f m).
Proof. apply keeps_gets. intros s []. eauto. Qed.
#[local] Hint Resolve on_mc_ok mmu_get_ok : keeps.

Lemma MemAccessBypassRead4_ok pa : keeps I (MemAccessBypassRead4 pa) is_u32.
Proof.
  apply keeps_noexcept. eapply keeps_bind; [apply on_mc_ok, try_read32_ok|].
  intros [[] [v|]] Hv; apply keeps_ret; try done. by apply Hv.
Qed.
Lemma MemAccessBypassWrite4_ok pa v : is_u32 v -> keeps I (MemAccessBypassWrite4 pa v) (fun _ => True).
Proof. intros Hv. unfold MemAccessBypassWrite4. keeps_auto. Qed.

Lemma check_perms_ok va pte rw sup level rep :
  is_u32 va -> keeps I (check_perms va pte rw sup level rep) (fun _ => True).
Proof. intros Hva. unfold check_perms. keeps_auto. apply mmu_upd_ok. intros. by apply set_fault_words. Qed.

Lemma get_PTE_ok va : keeps I (get_PTE va) (fun r => is_u32 r.1).
Proof. pose proof MemAccessBypassRead4_ok. unfold get_PTE, get_PTE_from. keeps_auto. Qed.

Lemma tlb_lookup_m_ok rw c va : keeps I (tlb_lookup_m rw c va) (fun _ => True).
Proof.
  intros s []. unfold tlb_lookup_m. destruct (tlb_lookup _ _ _) as [r t].
  split; [|done]. split; [by apply put_tlb_words|done].
Qed.
Lemma tlb_insert_m_ok rw c va l p : keeps I (tlb_insert_m rw c va l p) (fun _ => True).
Proof.
  intros s []. unfold tlb_insert_m. destruct (tlb_insert _ _ _ _ _); (split; [|done]);
    (split; [first [done|by apply put_tlb_words]|done]).
Qed.
#[local] Hint Resolve check_perms_ok get_PTE_ok tlb_lookup_m_ok tlb_insert_m_ok : keeps.

Lemma translate_va_ok va sup rw rep : is_u32 va -> keeps I (translate_va va sup rw rep) (fun _ => True).
Proof. intros Hva. unfold translate_va. keeps_auto. Qed.

Lemma bank_buffer b d : bank_bytes b -> buffer_of b = Some d -> bytes_ok d.
Proof. destruct b; intros Hb [= <-]; exact Hb. Qed.

Lemma host_load_ok size p off : keeps I (host_load size p off) is_u32.
Proof.
  unfold host_load. eapply keeps_bind; [apply keeps_or_ub|]. intros q _.
  eapply keeps_bind; [apply on_mc_ok, bank_at_ok|]. intros b Hb.
  eapply keeps_bind; [apply keeps_or_ub|]. intros d Hd. pose proof (bank_buffer b d Hb Hd) as Hok.
  apply keeps_or_ub_ok. intros v. destruct size; intros Hv.
  - by eapply is_u8_u32, bytes_get_ok.
  - apply is_u16_u32, (peek16_ok d Hok Big _ _ Hv).
  - apply (peek32_ok d Hok Big _ _ Hv).
Qed.

Lemma host_store_ok size p off v : keeps I (host_store size p off v) (fun _ => True).
Proof.
  unfold host_store. eapply keeps_bind; [apply keeps_or_ub|]. intros q _.
  eapply keeps_bind; [apply on_mc_ok, bank_at_ok|]. intros b Hb.
  eapply keeps_bind; [apply keeps_or_ub|]. intros d Hd. pose proof (bank_buffer b d Hb Hd) as Hok.
  apply on_mc_ok, put_data_ok; [done|]. intros d'. destruct size; intros Hv.
  - eapply bytes_set_ok; [done| |done]. by apply Z.mod_pos_bound.
  - apply (poke16_ok d Hok Big _ _ _ Hv).
  - apply (poke32_ok d Hok Big _ _ _ Hv).
Qed.
#[local] Hint Resolve translate_va_ok host_load_ok host_store_ok bank_at_ok : keeps.

Lemma fetch_cache_ok c : keeps I (mmu_upd (fun m => m <| fetch_cache_ := c |>)) (fun _ => True).
Proof. apply mmu_upd_ok. intros m. mmu_fields. Qed.
Lemma data_cache_ok i c :
  keeps I (mmu_upd (fun m => m <| data_cache_ := <[i := c]> (data_cache_ m) |>)) (fun _ => True).
Proof. apply mmu_upd_ok. intros m. mmu_fields. Qed.
Lemma store_cache_ok i c :
  keeps I (mmu_upd (fun m => m <| store_cache_ := <[i := c]> (store_cache_ m) |>)) (fun _ => True).
Proof. apply mmu_upd_ok. intros m. mmu_fields. Qed.
#[local] Hint Resolve fetch_cache_ok data_cache_ok store_cache_ok : keeps.

Lemma bus_fault_ok va rw sup rep : is_u32 va -> keeps I (bus_fault va rw sup rep) (fun _ => True).
Proof. intros Hva. unfold bus_fault. keeps_auto. apply mmu_upd_ok. intros. by apply set_fault_words. Qed.

Lemma phys_read_ok size bi pa :
  keeps I (on_mc (match size with
                  | Sz1 => read8_nolock bi pa
                  | Sz2 => read16_nolock bi pa false
                  | Sz4 => read32_nolock bi pa false
                  end)) is_u32.
Proof.
  apply on_mc_ok. destruct size; [eapply keeps_weaken; [apply read8_nolock_ok|auto with u32]
                                 |eapply keeps_weaken; [apply read16_nolock_ok|auto with u32]
                                 |apply read32_nolock_ok].
Qed.
Lemma phys_write_ok size bi pa v : is_u32 v ->
  keeps I (on_mc (match size with
                  | Sz1 => write8_nolock bi pa (u8 v)
                  | Sz2 => write16_nolock bi pa (u16 v) false
                  | Sz4 => write32_nolock bi pa v false
                  end)) (fun _ => True).
Proof.
  intros Hv. apply on_mc_ok. destruct size; [apply write8_nolock_ok|apply write16_nolock_ok|by apply write32_nolock_ok];
    by apply Z.mod_pos_bound.
Qed.
#[local] Hint Resolve bus_fault_ok phys_read_ok phys_write_ok : keeps.

Lemma phys_access_ok rw size va pa v on sup rep :
  is_u32 va -> is_u32 v -> keeps I (phys_access rw size va pa v on sup rep) (fun r => is_u32 r.2).
Proof.
  intros Hva Hv. unfold phys_access. eapply keeps_bind; [apply on_mc_ok, find_bank_or_null_ok|].
  intros [bi|] _; [|by keeps_auto].
  eapply keeps_bind; [apply on_mc_ok, bank_at_ok|]. intros b _.
  eapply keeps_bind; [apply mmu_get_ok|]. intros ctx _. destruct rw; keeps_auto.
Qed.

Lemma l0_hit_ok rw va sup : keeps I (l0_hit rw va sup) (fun _ => True).
Proof.
  unfold l0_hit. eapply keeps_bind; [apply mmu_get_ok|]. intros ctx _.
  apply (keeps_bind _ _ _ (fun _ => True)); [|by intros; apply keeps_ret].
  destruct rw; keeps_auto.
Qed.
#[local] Hint Resolve phys_access_ok l0_hit_ok : keeps.

Lemma MemAccess_ok rw size va v sup rep :
  is_u32 va -> is_u32 v -> keeps I (MemAccess rw size va v sup rep) (fun r => is_u32 r.2).
Proof. intros Hva Hv. unfold MemAccess. keeps_auto. Qed.

Lemma atomic_swap32_ok va sup v :
  is_u32 va -> is_u32 v -> keeps I (atomic_swap32 va sup v) (fun r => is_u32 (ar_old r)).
Proof.
  intros Hva Hv. unfold atomic_swap32. do 2 (eapply keeps_bind; [apply mmu_get_ok|intros ? _]).
  apply (keeps_bind _ _ _ (fun _ => True)); [by keeps_auto|]. intros pa _. keeps_auto.
Qed.

Lemma atomic_casa32_ok va sup e v :
  is_u32 va -> is_u32 v -> keeps I (atomic_casa32 va sup e v) (fun r => is_u32 (ar_old r.1)).
Proof.
  intros Hva Hv. unfold atomic_casa32. do 2 (eapply keeps_bind; [apply mmu_get_ok|intros ? _]).
  apply (keeps_bind _ _ _ (fun _ => True)); [by keeps_auto|]. intros tr _.
  destruct (negb _); [by keeps_auto|].
  eapply keeps_bind; [apply on_mc_ok, find_bank_or_null_ok|]. intros [bi|] _; [|by keeps_auto].
  eapply keeps_bind; [apply on_mc_ok, read32_nolock_ok|]. intros old Hold.
  destruct (old =? e); [|by keeps_auto].
  apply (keeps_bind _ _ _ (fun _ => True)); [by keeps_auto|]. intros ft _. keeps_auto.
Qed.
End mmu_ok.
#[export] Hint Resolve MemAccess_ok atomic_swap32_ok atomic_casa32_ok translate_va_ok
  MemAccessBypassRead4_ok MemAccessBypassWrite4_ok mc_atomic_ldstub8_ok : keeps.
#[export] Hint Resolve on_mc_ok : keeps.

(** ** The processor *)

Record cpu_words (c : cpu) : Prop := mkCpuWords {
  w_pc : is_u32 (pc c); w_npc : is_u32 (npc c); w_psr : is_u32 (psr c);
  w_trap_type : is_u32 (trap_type c); w_tbr : is_u32 (tbr c); w_wim : is_u32 (wim c);
  w_y : is_u32 (y_reg c); w_irl : 0 <= irl c < 16;
  w_cwp : psr_cwp (psr c) < NWINDOWS; w_base : cwp_base_ c = 8 * psr_cwp (psr c);
  w_globals : Forall is_u32 (globals c); w_locals : Forall is_u32 (locals c);
  w_outs : Forall is_u32 (outs c);
  w_freg : Forall is_u32 (freg c); w_cfsr : is_u32 (fsr c);
  w_nglobals : length (globals c) = 9%nat; w_nlocals : length (locals c) = 64%nat;
  w_nouts : length (outs c) = 64%nat; w_nfreg : length (freg c) = 32%nat;
  w_g0 : globals c !! 0%nat = Some 0 }.

Record d_words (d : DecodeStruct) : Prop := mkDWords {
  w_opcode : is_u32 (d_opcode d); w_rs1_value : is_u32 (d_rs1_value d);
  w_imm : is_u32 (d_imm_disp_rs2 d); w_ev : is_u32 (d_ev d); w_dpc : is_u32 (d_pc d);
  w_dnpc : is_u32 (d_npc d); w_dpsr : is_u32 (d_psr d); w_value : is_u32 (d_value d);
  w_value1 : is_u32 (d_value1 d); w_dcwp : psr_cwp (d_psr d) < NWINDOWS }.

(** *** The window field of the PSR *)

Lemma psr_cwp_ext p q : (forall i, 0 <= i < 5 -> Z.testbit p i = Z.testbit q i) -> psr_cwp p = psr_cwp q.
Proof.
  intros Hb. unfold psr_cwp. apply Z.bits_inj'. intros i Hi. rewrite !Z.land_spec.
  destruct (decide (i < 5)); [by rewrite Hb by lia|].
  by rewrite (testbit_high 0x1f 5 i), !andb_false_r by lia.
Qed.

Lemma psr_cwp_range p : 0 <= psr_cwp p < 32.
Proof. apply (land_range _ _ 5); lia. Qed.

Lemma psr_cwp_small v : 0 <= v < 32 -> psr_cwp v = v.
Proof. intros. unfold psr_cwp. change 0x1f with (Z.ones 5). rewrite Z.land_ones by lia. by apply Z.mod_small. Qed.

Lemma put_icc_cwp p cc : psr_cwp (put_icc p cc) = psr_cwp p.
Proof.
  apply psr_cwp_ext. intros i Hi. unfold put_icc, shl32, u32, PSR_CC_CARRY. change 4294967296 with (2 ^ 32).
  rewrite Z.lor_spec, Z.land_spec, Z.mod_pow2_bits_low, Z.shiftl_spec_low, orb_false_r by lia.
  rewrite testbit_not32, Z.shiftl_spec_low, andb_true_r by lia. done.
Qed.

Lemma wrpsr_value_cwp w : psr_cwp (wrpsr_value w) = psr_cwp w.
Proof.
  apply psr_cwp_ext. intros i Hi. unfold wrpsr_value.
  rewrite !Z.land_spec, !testbit_not32, !Z.lor_spec, !Z.shiftl_spec_low by lia.
  by rewrite !andb_true_r.
Qed.

Lemma with_cwp_cwp p n : psr_cwp (with_cwp p n) = Z.land n 31.
Proof.
  rewrite (psr_cwp_ext _ n); [done|]. intros i Hi. unfold with_cwp, LOBITS5.
  rewrite Z.lor_spec, !Z.land_spec, testbit_not32 by lia. change 31 with (Z.ones 5).
  rewrite Z.ones_spec_low by lia. by rewrite andb_false_r, andb_true_r.
Qed.

Lemma put_bits_spec p lo len v i :
  0 <= lo -> 0 <= len -> 0 <= i ->
  Z.testbit (put_bits p lo len v) i =
    if (lo <=? i) && (i <? lo + len) then Z.testbit v (i - lo) else Z.testbit p i.
Proof.
  intros Hlo Hlen Hi. unfold put_bits. rewrite Z.lor_spec, Z.ldiff_spec, !Z.shiftl_spec, Z.land_spec by lia.
  destruct (lo <=? i) eqn:E1; cbn [andb].
  - destruct (i <? lo + len) eqn:E2.
    + by rewrite Z.ones_spec_low, andb_true_r, andb_false_r by lia.
    + by rewrite Z.ones_spec_high, !andb_false_r, andb_true_r, orb_false_r by lia.
  - by rewrite (Z.testbit_neg_r (Z.ones len)), (Z.testbit_neg_r v), andb_true_r, orb_false_r by lia.
Qed.

Lemma put_bits_u32 p lo len v :
  0 <= lo -> 0 <= len -> lo + len <= 32 -> is_u32 p -> is_u32 (put_bits p lo len v).
Proof.
  intros H1 H2 H3 Hp. apply (small_by_bits _ 32); [lia|]. intros i Hi.
  rewrite put_bits_spec by lia. rewrite (proj2 (Z.ltb_ge i (lo + len))), andb_false_r by lia.
  by apply (testbit_high p 32).
Qed.

Lemma set_psr_cwp_cwp v p : psr_cwp (set_psr_cwp v p) = Z.land v 31.
Proof.
  rewrite (psr_cwp_ext _ v); [done|]. intros i Hi. unfold set_psr_cwp. rewrite put_bits_spec by lia.
  by rewrite (proj2 (Z.leb_le 0 i)), (proj2 (Z.ltb_lt i (0 + 5))), Z.sub_0_r by lia.
Qed.

Lemma land31_mod8 a : Z.land (a mod NWINDOWS) 31 = a mod NWINDOWS.
Proof.
  unfold NWINDOWS. pose proof (Z.mod_pos_bound a 8). change 31 with (Z.ones 5).
  rewrite Z.land_ones by lia. apply Z.mod_small. lia.
Qed.

Lemma base_of_cwp p : shl32 (Z.land p LOBITS5) 3 = 8 * psr_cwp p.
Proof.
  pose proof (psr_cwp_range p). unfold shl32, LOBITS5. change (Z.land p 31) with (psr_cwp p).
  rewrite Z.shiftl_mul_pow2, u32_id by (unfold is_u32; lia). lia.
Qed.

Lemma put_icc_u32 p cc : is_u32 (put_icc p cc).
Proof. unfold put_icc. apply lor_u32; [apply land_u32; by compute|auto with u32]. Qed.
Lemma wrpsr_value_u32 w : is_u32 (wrpsr_value w).
Proof. unfold wrpsr_value. apply land_u32. by compute. Qed.
Lemma with_cwp_u32 p n : is_u32 (with_cwp p n).
Proof. unfold with_cwp, LOBITS5. auto with u32. Qed.
Lemma set_psr_cwp_u32 v p : is_u32 p -> is_u32 (set_psr_cwp v p).
Proof. by apply put_bits_u32. Qed.
Lemma set_psr_et_u32 v p : is_u32 p -> is_u32 (set_psr_et v p).
Proof. by apply put_bits_u32. Qed.
Lemma set_psr_s_u32 v p : is_u32 p -> is_u32 (set_psr_s v p).
Proof. by apply put_bits_u32. Qed.
Lemma set_psr_ps_u32 v p : is_u32 p -> is_u32 (set_psr_ps v p).
Proof. by apply put_bits_u32. Qed.
#[export] Hint Resolve put_icc_u32 wrpsr_value_u32 with_cwp_u32 set_psr_cwp_u32 set_psr_et_u32
  set_psr_s_u32 set_psr_ps_u32 base_of_cwp : u32.

Lemma trap_psr_words p : is_u32 p -> is_u32 (trap_psr p) /\ psr_cwp (trap_psr p) < NWINDOWS.
Proof.
  intros Hp. unfold trap_psr. split; [auto 6 with u32|].
  rewrite set_psr_cwp_cwp, land31_mod8. by apply Z.mod_pos_bound.
Qed.

(** *** Registers *)

Lemma read_reg_of_u32 c r old v : cpu_words c -> is_u32 old -> read_reg_of c r old = Some v -> is_u32 v.
Proof.
  intros [] Ho. unfold read_reg_of. repeat case_match; intros Hv;
    try (by eapply Forall_lookup_1; [|exact Hv]); congruence.
Qed.

Lemma write_reg_of_words c v r c' : cpu_words c -> is_u32 v -> write_reg_of c v r = Some c' -> cpu_words c'.
Proof.
  intros Hc Hv. unfold write_reg_of. repeat case_match; intros Hw;
    repeat match type of Hw with
           | (array_set ?a ?i ?x ≫= _) = _ =>
               let a' := fresh "a" in
               destruct (array_set a i x) as [a'|] eqn:?; [cbn in Hw|discriminate Hw];
               match goal with E : array_set _ _ _ = Some a' |- _ =>
                 apply array_set_Some in E as [-> ?] end
           end; injection Hw as <-; destruct Hc; constructor; cbn;
    rewrite ?length_insert; auto using Forall_insert with u32.
  - by rewrite list_lookup_insert_ne.
  - apply list_lookup_insert_eq. rewrite length_insert. lia.
Qed.

Section cpu_ok.
Context {W : Type} `{DeviceBusLaws W}.

(** The type invariant of the whole machine. *)
Definition machine_words (s : machine W) : Prop :=
  cpu_words (m_cpu s) /\ d_words (m_d s) /\ mem_words (m_mem s) /\
  Forall (fun bp => is_u32 (bp_instr bp)) (m_bps s).
Abbreviation I := machine_words.

Lemma getc_ok {A} (f : cpu -> A) : keeps I (getc f) (fun a => exists c, cpu_words c /\ a = f c).
Proof. apply keeps_gets. intros s (? & ?). eauto. Qed.
Lemma getd_ok {A} (f : DecodeStruct -> A) : keeps I (getd f) (fun a => exists d, d_words d /\ a = f d).
Proof. apply keeps_gets. intros s (? & ? & ?). eauto. Qed.
Lemma get_mmu_ok {A} (f : MMU -> A) : keeps I (get_mmu f) (fun a => exists m, mmu_words m /\ a = f m).
Proof. apply keeps_gets. intros s (? & ? & [? ?] & ?). eauto. Qed.
Lemma updc_ok f : (forall c, cpu_words c -> cpu_words (f c)) -> keeps I (updc f) (fun _ => True).
Proof. intros Hf. apply keeps_modify; [|done]. intros s (? & ?). split; [by apply Hf|done]. Qed.
Lemma updd_ok f : (forall d, d_words d -> d_words (f d)) -> keeps I (updd f) (fun _ => True).
Proof. intros Hf. apply keeps_modify; [|done]. intros s (? & ? & ?). split; [done|]. split; [by apply Hf|done]. Qed.
Lemma on_mem_ok {A} (op : M (memsys W) A) R : keeps mem_words op R -> keeps I (on_mem op) R.
Proof.
  intros Hop. apply (keeps_zoom _ _ _ mem_words); [done|by intros s (? & ? & ? & ?)|].
  by intros s t (? & ? & ? & ?) ?.
Qed.
Lemma upd_mmu_ok f : (forall m, mmu_words m -> mmu_words (f m)) -> keeps I (upd_mmu f) (fun _ => True).
Proof. intros Hf. by apply on_mem_ok, mmu_upd_ok. Qed.

Lemma read_reg_ok r old : is_u32 old -> keeps I (read_reg r old) is_u32.
Proof.
  intros Ho. unfold read_reg. eapply keeps_bind; [apply getc_ok|]. intros ? (c & Hc & ->).
  apply keeps_or_ub_ok. intros v. by apply read_reg_of_u32.
Qed.
Lemma write_reg_ok v r : is_u32 v -> keeps I (write_reg v r) (fun _ => True).
Proof.
  intros Hv. unfold write_reg. eapply keeps_bind; [apply getc_ok|]. intros ? (c & Hc & ->).
  eapply keeps_bind; [apply keeps_or_ub|]. intros c' Hc'.
  apply updc_ok. intros _ _. exact (write_reg_of_words _ _ _ _ Hc Hv Hc').
Qed.
End cpu_ok.
#[export] Hint Resolve getc_ok getd_ok get_mmu_ok on_mem_ok read_reg_ok write_reg_ok : keeps.

#[export] Hint Resolve w_pc w_npc w_psr w_trap_type w_tbr w_wim w_y w_irl w_cwp w_base w_globals
  w_locals w_outs w_freg w_cfsr w_nglobals w_nlocals w_nouts w_nfreg w_g0 w_opcode w_rs1_value w_imm w_ev w_dpc
  w_dnpc w_dpsr w_value w_value1 w_dcwp w_control w_ccr w_iccr w_dccr w_ctp w_ctx w_fsr w_far : u32.
#[export] Hint Extern 1 (is_u32 ?c) => (is_const c; by vm_compute) : u32.

(** Field by field; [cbn] computes the record updates. *)
Ltac words_fields := constructor; cbn -[Z.lt Z.le]; auto with u32.
Ltac upd_words :=
  match goal with
  | |- keeps _ (updc _) _ => apply updc_ok; intros ? ?
  | |- keeps _ (updd _) _ => apply updd_ok; intros ? ?
  end; words_fields.
(** Name the states read from and split their invariants. *)
Ltac open_reads :=
  cbv beta in *;
  repeat match goal with
  | H : exists c, cpu_words c /\ _ |- _ => destruct H as (? & ? & ->)
  | H : exists c, d_words c /\ _ |- _ => destruct H as (? & ? & ->)
  | H : exists c, mmu_words c /\ _ |- _ => destruct H as (? & ? & ->)
  end; cbn [id] in *.
Ltac words_step :=
  lazymatch goal with
  | |- True => constructor
  | |- keeps _ (updc _) _ => first [progress open_reads | solve [eauto 1 with keeps] | upd_words]
  | |- keeps _ (updd _) _ => first [progress open_reads | solve [eauto 1 with keeps] | upd_words]
  | |- keeps _ _ _ => first [progress open_reads | keeps_step]
  | |- is_u32 _ => progress auto with u32
  end.
Ltac words_auto := repeat words_step.

Section cpu_ops_ok.
Context {W : Type} `{DeviceBusLaws W}.
Abbreviation I := (@machine_words W _ _).

Lemma trap_ok n : keeps I (trap n) (fun _ => True).
Proof.
  unfold trap. words_auto.
Qed.
#[local] Hint Resolve trap_ok : keeps.

Lemma sign_ext13_u32 x : is_u32 x -> is_u32 (sign_ext13 x).
Proof. unfold sign_ext13. auto with u32. Qed.
Lemma sign_ext22_u32 x : is_u32 x -> is_u32 (sign_ext22 x).
Proof. unfold sign_ext22. auto with u32. Qed.

Lemma instr_fetch_ok va : is_u32 va -> keeps I (instr_fetch va) (fun _ => True).
Proof. intros Hva. unfold instr_fetch. words_auto. Qed.

Lemma decode_ok : keeps I decode (fun _ => True).
Proof. unfold decode. words_auto. Qed.

Lemma write_back_ok : keeps I write_back (fun _ => True).
Proof. unfold write_back. words_auto. Qed.

Lemma advance_ok : keeps I advance (fun _ => True).
Proof. unfold advance. words_auto. Qed.
Lemma write_result_ok v : is_u32 v -> keeps I (write_result v) (fun _ => True).
Proof. intros Hv. unfold write_result. words_auto. Qed.
#[local] Hint Resolve advance_ok write_result_ok : keeps.

Lemma load8_ok va rd sx : is_u32 va -> keeps I (load8 va rd sx) (fun _ => True).
Proof. intros Hva. unfold load8, super_mode. words_auto. Qed.
Lemma load16_ok va rd sx : is_u32 va -> keeps I (load16 va rd sx) (fun _ => True).
Proof. intros Hva. unfold load16, super_mode. words_auto. Qed.
Lemma load32_ok va rd sx : is_u32 va -> keeps I (load32 va rd sx) (fun _ => True).
Proof. intros Hva. unfold load32, super_mode. words_auto. Qed.
Lemma load64_ok va rd sx : is_u32 va -> keeps I (load64 va rd sx) (fun _ => True).
Proof. intros Hva. unfold load64, super_mode. words_auto. Qed.
Lemma store8_ok va rd : is_u32 va -> keeps I (store8 va rd) (fun _ => True).
Proof. intros Hva. unfold store8, super_mode. words_auto. Qed.
Lemma store16_ok va rd : is_u32 va -> keeps I (store16 va rd) (fun _ => True).
Proof. intros Hva. unfold store16, super_mode. words_auto. Qed.
Lemma store32_ok va rd : is_u32 va -> keeps I (store32 va rd) (fun _ => True).
Proof. intros Hva. unfold store32, super_mode. words_auto. Qed.
Lemma store64_ok va rd : is_u32 va -> keeps I (store64 va rd) (fun _ => True).
Proof. intros Hva. unfold store64, super_mode. words_auto. Qed.
Lemma finish_access_ok r : keeps I (finish_access r) (fun _ => True).
Proof. unfold finish_access. words_auto. Qed.
Lemma aligned_ok m op : keeps I op (fun _ => True) -> keeps I (aligned m op) (fun _ => True).
Proof. intros Hop. unfold aligned. words_auto. Qed.
Lemma enter_powerdown_ok : keeps I enter_powerdown (fun _ => True).
Proof. unfold enter_powerdown. words_auto. Qed.
End cpu_ops_ok.
#[export] Hint Resolve trap_ok sign_ext13_u32 sign_ext22_u32 advance_ok write_result_ok load8_ok load16_ok load32_ok
  load64_ok store8_ok store16_ok store32_ok store64_ok finish_access_ok aligned_ok
  enter_powerdown_ok : keeps.

(** *** Results of the arithmetic *)

Lemma add_core_u32 op x y cc : is_u32 (add_core op x y cc).1.
Proof. apply u32_range. Qed.
Lemma and_fast_u32 op x y : is_u32 x -> is_u32 y -> is_u32 (and_fast op x y).
Proof. unfold and_fast. cbv zeta. auto 6 with u32. Qed.
Lemma and_core_u32 op x y : is_u32 x -> is_u32 y -> is_u32 (and_core op x y).
Proof. unfold and_core. cbv zeta. auto 8 with u32. Qed.
Lemma sra_core_u32 x ev v : is_u32 x -> sra_core x ev = Some v -> is_u32 v.
Proof.
  intros Hx. unfold sra_core. assert (is_u32 (Z.shiftr x (Z.land ev LOBITS5))).
  { apply shiftr_u32; [|done]. apply (land_range _ LOBITS5 5); [lia|by compute]. }
  destruct (_ && _); [destruct (_ =? _); [done|]|]; intros [= <-]; auto with u32.
Qed.
Lemma mulscc_core_u32 x ev y cc :
  is_u32 x -> is_u32 y -> is_u32 (mulscc_core x ev y cc).1.1 /\ is_u32 (mulscc_core x ev y cc).2.
Proof. intros Hx Hy. unfold mulscc_core. cbn [fst snd]. auto 6 with u32. Qed.
Lemma div_core_u32 op yr x y r : div_core op yr x y = Some r -> is_u32 r.2.
Proof. unfold div_core. repeat case_match; intros [= <-]; cbn; auto with u32. Qed.
Lemma cwp_save_words p : is_u32 (save_cwp p) /\ Z.land (save_cwp p) 31 < NWINDOWS.
Proof.
  unfold save_cwp. rewrite land31_mod8. pose proof (Z.mod_pos_bound (u32 (Z.land p LOBITS5 - 1)) NWINDOWS eq_refl).
  unfold is_u32. unfold NWINDOWS in *. lia.
Qed.
Lemma cwp_restore_words p : is_u32 (restore_cwp p) /\ Z.land (restore_cwp p) 31 < NWINDOWS.
Proof.
  unfold restore_cwp. rewrite land31_mod8. pose proof (Z.mod_pos_bound (u32 (Z.land p LOBITS5 + 1)) NWINDOWS eq_refl).
  unfold is_u32. unfold NWINDOWS in *. lia.
Qed.
Lemma asr17_u32 i : is_u32 (asr17 i).
Proof. unfold asr17. repeat apply lor_u32; first [apply shl32_u32|by compute]. Qed.
#[export] Hint Resolve and_fast_u32 and_core_u32 asr17_u32 : u32.
#[export] Hint Extern 1 (is_u32 ?v) =>
  match goal with E : sra_core _ _ = Some v |- _ => apply (sra_core_u32 _ _ _) in E; [exact E|] end : u32.

(** An assignment of the PSR that keeps the window field. *)
Lemma put_icc_words d cc : d_words d -> d_words (d <| d_psr := put_icc (d_psr d) cc |>).
Proof. intros []. constructor; cbn; auto with u32. by rewrite put_icc_cwp. Qed.

Section instr_ok.
Context {W : Type} `{DeviceBusLaws W}.
Abbreviation I := (@machine_words W _ _).
Abbreviation kept op := (keeps I op (fun _ => True)).

Lemma set_icc_ok f : kept (updd (fun d => d <| d_psr := put_icc (d_psr d) (f d) |>)).
Proof. apply updd_ok. intros d Hd. by apply put_icc_words. Qed.
#[local] Hint Resolve set_icc_ok : keeps.
#[local] Hint Extern 1 (keeps _ (updd (fun d => d <| d_psr := put_icc (d_psr d) ?cc |>)) _) =>
  exact (set_icc_ok (fun _ => cc)) : keeps.

Lemma exec_UNIMP_ok : kept exec_UNIMP.
Proof. unfold exec_UNIMP. words_auto. Qed.
Lemma exec_CALL_ok : kept exec_CALL.
Proof. unfold exec_CALL. words_auto. Qed.
Lemma take_branch_ok b a : kept (take_branch b a).
Proof. unfold take_branch. apply updd_ok. intros d []. destruct a, b; words_fields. Qed.
#[local] Hint Resolve exec_UNIMP_ok take_branch_ok : keeps.
Lemma exec_BICC_ok : kept exec_BICC.
Proof. unfold exec_BICC. words_auto. Qed.
Lemma exec_SETHI_ok : kept exec_SETHI.
Proof. unfold exec_SETHI. words_auto. Qed.
Lemma exec_SLL_ok : kept exec_SLL.
Proof. unfold exec_SLL. words_auto. Qed.
Lemma exec_SRL_ok : kept exec_SRL.
Proof. unfold exec_SRL. words_auto. Qed.
Lemma exec_SRA_ok : kept exec_SRA.
Proof. unfold exec_SRA. words_auto. Qed.
Lemma exec_RDY_ok : kept exec_RDY.
Proof. unfold exec_RDY. words_auto. Qed.
Lemma privileged_ok body : kept body -> kept (privileged body).
Proof. intros Hb. unfold privileged. words_auto. Qed.
#[local] Hint Resolve privileged_ok : keeps.
Lemma exec_RDPSR_ok : kept exec_RDPSR.
Proof. apply privileged_ok. words_auto. Qed.
Lemma exec_RDWIM_ok : kept exec_RDWIM.
Proof. apply privileged_ok. words_auto. Qed.
Lemma exec_RDTBR_ok : kept exec_RDTBR.
Proof. apply privileged_ok. words_auto. Qed.
Lemma exec_WRY_ok : kept exec_WRY.
Proof. unfold exec_WRY. words_auto. Qed.
Lemma exec_WRPSR_ok : kept exec_WRPSR.
Proof.
  unfold exec_WRPSR. words_auto. rewrite wrpsr_value_cwp. unfold psr_cwp. change 31 with LOBITS5. lia.
Qed.
Lemma exec_WRWIM_ok : kept exec_WRWIM.
Proof. apply privileged_ok. words_auto. Qed.
Lemma exec_WRTBR_ok : kept exec_WRTBR.
Proof. apply privileged_ok. words_auto. Qed.
Lemma exec_JMPL_ok : kept exec_JMPL.
Proof. unfold exec_JMPL. words_auto. Qed.
Lemma exec_RETT_ok : kept exec_RETT.
Proof. 
  unfold exec_RETT. words_auto. rewrite set_psr_cwp_cwp. unfold LOBITS5.
  rewrite !land31_mod8. by apply Z.mod_pos_bound.
Qed.
Lemma exec_SAVE_ok : kept exec_SAVE.
Proof. unfold exec_SAVE. words_auto. rewrite with_cwp_cwp. apply cwp_save_words. Qed.
Lemma exec_RESTORE_ok : kept exec_RESTORE.
Proof. unfold exec_RESTORE. words_auto. rewrite with_cwp_cwp. apply cwp_restore_words. Qed.
Lemma exec_MULSCC_ok : kept exec_MULSCC.
Proof.
  unfold exec_MULSCC. do 2 (eapply keeps_bind; [solve [eauto with keeps]|intros ? (? & ? & ->)]). cbn [id].
  pose proof (mulscc_core_u32 (d_rs1_value x) (d_ev x) (y_reg x0) (get_icc (d_psr x))) as Hm.
  destruct (mulscc_core _ _ _ _) as [[z cc] y']. destruct Hm as [Hz Hy]; [auto with u32..|]. cbn in Hz, Hy.
  words_auto.
Qed.

Lemma exec_LD_ok : kept exec_LD.
Proof. apply aligned_ok. words_auto. Qed.
Lemma exec_LDUB_ok : kept exec_LDUB.
Proof. unfold exec_LDUB. words_auto. Qed.
Lemma exec_LDUH_ok : kept exec_LDUH.
Proof. apply aligned_ok. words_auto. Qed.
Lemma exec_LDD_ok : kept exec_LDD.
Proof. unfold exec_LDD. words_auto. apply aligned_ok. words_auto. Qed.
Lemma exec_LDSB_ok : kept exec_LDSB.
Proof. unfold exec_LDSB. words_auto. Qed.
Lemma exec_LDSH_ok : kept exec_LDSH.
Proof. apply aligned_ok. words_auto. Qed.
Lemma exec_ST_ok : kept exec_ST.
Proof. apply aligned_ok. words_auto. Qed.
Lemma exec_STB_ok : kept exec_STB.
Proof. unfold exec_STB. words_auto. Qed.
Lemma exec_STH_ok : kept exec_STH.
Proof. apply aligned_ok. words_auto. Qed.
Lemma exec_STD_ok : kept exec_STD.
Proof. unfold exec_STD. words_auto. apply aligned_ok. words_auto. Qed.

Lemma put_swap_reg_ok v : is_u32 v -> kept (put_swap_reg v).
Proof. apply write_reg_ok. Qed.
#[local] Hint Resolve put_swap_reg_ok : keeps.
Lemma swap_word_ok : kept swap_word.
Proof. unfold swap_word. words_auto. Qed.
#[local] Hint Resolve swap_word_ok : keeps.
Lemma exec_SWAP_ok : kept exec_SWAP.
Proof. apply aligned_ok, swap_word_ok. Qed.
Lemma exec_SWAPA_ok : kept exec_SWAPA.
Proof. unfold exec_SWAPA. words_auto. Qed.
Lemma exec_LDSTUB_ok : kept exec_LDSTUB.
Proof.
  unfold exec_LDSTUB. do 3 (eapply keeps_bind; [solve [eauto with keeps]|intros ? (? & ? & ->)]). cbn [id].
  apply (keeps_bind _ _ _ (fun _ => True)); [words_auto|]. intros tr _. words_auto.
Qed.
Lemma exec_CASA_ok : kept exec_CASA.
Proof. unfold exec_CASA. words_auto. Qed.
Lemma exec_MUL_ok : kept exec_MUL.
Proof. unfold exec_MUL. words_auto. Qed.
Lemma exec_DIV_ok : kept exec_DIV.
Proof.
  unfold exec_DIV. do 2 (eapply keeps_bind; [solve [eauto with keeps]|intros ? (? & ? & ->)]). cbn [id].
  destruct (d_ev x =? 0); [words_auto|]. eapply keeps_bind; [apply keeps_or_ub|].
  intros [z y'] Hd%div_core_u32. cbn in Hd. words_auto.
Qed.
Lemma exec_ADD_ok : kept exec_ADD.
Proof.
  unfold exec_ADD. eapply keeps_bind; [solve [eauto with keeps]|intros ? (d & ? & ->)]. cbn [id].
  destruct (d_op_2_3 d =? 0); [words_auto|].
  pose proof (add_core_u32 (d_op_2_3 d) (d_rs1_value d) (d_ev d) (get_icc (d_psr d))) as Hz.
  destruct (add_core _ _ _ _) as [z cc]. cbn in Hz. words_auto.
Qed.
Lemma exec_AND_ok : kept exec_AND.
Proof. unfold exec_AND. words_auto. Qed.

#[local] Hint Extern 1 (keeps _ (upd_mmu (set_control_reg _)) _) =>
  (apply upd_mmu_ok; intros ?; apply set_control_reg_words) : keeps.
#[local] Hint Extern 1 (keeps _ (upd_mmu mmu_flush) _) => (apply upd_mmu_ok, mmu_flush_words) : keeps.
#[local] Hint Extern 2 (keeps _ (upd_mmu _) _) => (apply upd_mmu_ok; intros ?; mmu_fields) : keeps.
Lemma exec_LDA_ok : kept exec_LDA.
Proof. unfold exec_LDA. words_auto. Qed.
Lemma exec_STA_ok : kept exec_STA.
Proof. unfold exec_STA. words_auto. Qed.
End instr_ok.

(** *** Floating point: the register file keeps its 32 elements *)
Section fpu_ok.
Context {W : Type} `{DeviceBusLaws W} `{HostNaN}.
Abbreviation I := (@machine_words W _ _).
Abbreviation kept op := (keeps I op (fun _ => True)).

Lemma read_freg_ok i : keeps I (read_freg i) is_u32.
Proof.
  unfold read_freg. eapply keeps_bind; [apply getc_ok|]. intros ? (c & Hc & ->).
  apply keeps_or_ub_ok. intros v. destruct (0 <=? i); [|done]. intros Hv.
  by apply (Forall_lookup_1 _ _ _ _ (w_freg c Hc) Hv).
Qed.
Lemma write_freg_ok i v : is_u32 v -> kept (write_freg i v).
Proof.
  intros Hv. unfold write_freg. apply (keeps_bind _ _ _ (fun o => forall a, o = Some a ->
    Forall is_u32 a /\ length a = 32%nat)).
  - eapply keeps_weaken; [apply getc_ok|]. intros ? (c & Hc & ->) a [-> _]%array_set_Some.
    rewrite length_insert. auto using Forall_insert with u32.
  - intros o Ho. eapply keeps_bind; [apply keeps_or_ub|]. intros a [Ha Hl]%Ho.
    apply updc_ok. intros c Hc. words_fields.
Qed.
Lemma upd_fsr_ok f : (forall x, is_u32 x -> is_u32 (f x)) -> kept (upd_fsr f).
Proof. intros Hf. unfold upd_fsr. words_auto. Qed.
#[local] Hint Resolve read_freg_ok write_freg_ok upd_fsr_ok : keeps.

Lemma put_ftt_u32 x t : is_u32 x -> is_u32 (put_ftt x t).
Proof. intros. apply lor_u32; [auto with u32|by apply (field_u32 _ 3 14)]. Qed.
Lemma put_fcc_u32 x t : is_u32 x -> is_u32 (put_fcc x t).
Proof. intros. apply lor_u32; [auto with u32|by apply (field_u32 _ 2 10)]. Qed.
Lemma put_cexc_nv_u32 x : is_u32 x -> is_u32 (put_cexc_nv x).
Proof. intros. apply lor_u32; [auto with u32|by compute]. Qed.
Lemma bits32_u32 n x : is_u32 (bits_of_sf binary32 n x).
Proof. unfold bits_of_sf. apply land_u32. by compute. Qed.
#[local] Hint Resolve put_ftt_u32 put_fcc_u32 put_cexc_nv_u32 bits32_u32 : u32.

Lemma invalid_fp_register_ok : kept invalid_fp_register.
Proof. unfold invalid_fp_register. words_auto. Qed.
Lemma fp_enabled_ok body : kept body -> kept (fp_enabled body).
Proof. intros Hb. unfold fp_enabled. words_auto. Qed.
#[local] Hint Resolve invalid_fp_register_ok : keeps.

Lemma exec_LDF_ok : kept exec_LDF.
Proof. apply fp_enabled_ok, aligned_ok. words_auto. Qed.
Lemma exec_LDDF_ok : kept exec_LDDF.
Proof. apply fp_enabled_ok. words_auto. Qed.
Lemma exec_LDFSR_ok : kept exec_LDFSR.
Proof. apply fp_enabled_ok, aligned_ok. words_auto. Qed.
Lemma exec_STF_ok : kept exec_STF.
Proof. apply fp_enabled_ok, aligned_ok. words_auto. Qed.
Lemma exec_STDF_ok : kept exec_STDF.
Proof. apply fp_enabled_ok. words_auto. Qed.
Lemma exec_STFSR_ok : kept exec_STFSR.
Proof. apply fp_enabled_ok, aligned_ok. words_auto. Qed.
Lemma exec_FBFCC_ok : kept exec_FBFCC.
Proof. pose proof (take_branch_ok (W := W)). apply fp_enabled_ok. words_auto. Qed.
Lemma read_double_ok r : keeps I (read_double r) (fun _ => True).
Proof. unfold read_double. words_auto. Qed.
#[local] Hint Resolve read_double_ok : keeps.
Lemma fop1_single_u32 opf v1 v2 v :
  is_u32 v2 -> fop1_single opf v1 v2 = Some (Some v) -> is_u32 v.
Proof.
  intros Hv. set (good := fun r : option (option Z) => forall v, r = Some (Some v) -> is_u32 v).
  assert (forall (b : bool) r1 r2, good r1 -> good r2 -> good (if b then r1 else r2)) as Hif by by intros [].
  assert (forall x, is_u32 x -> good (Some (Some x))) as Hx by by intros x Hx ? [= <-].
  revert v. change (good (fop1_single opf v1 v2)).
  unfold fop1_single. repeat apply Hif; try (apply Hx; auto with u32); [|done].
  intros v E. destruct (sf_to_int _); cbn in E; [injection E as <-; auto with u32|discriminate E].
Qed.
Lemma exec_FOP1_ok : kept exec_FOP1.
Proof.
  apply fp_enabled_ok. eapply keeps_bind; [apply getd_ok|]. intros ? (d & Hd & ->). cbv zeta.
  do 2 (eapply keeps_bind; [apply read_freg_ok|intros ? ?]).
  destruct (fop1_single _ _ _) as [r|] eqn:E.
  { eapply keeps_bind; [apply keeps_or_ub|]. intros v ->. apply fop1_single_u32 in E; [|done]. words_auto. }
  destruct (_ || _).
  - destruct (truth _); [apply invalid_fp_register_ok|].
    eapply keeps_bind; [apply read_double_ok|intros w _].
    apply (keeps_bind _ _ _ is_u32).
    + destruct (_ =? _); [|apply keeps_ret; auto with u32].
      eapply keeps_bind; [apply keeps_or_ub|]. intros. apply keeps_ret. auto with u32.
    + intros v ?. words_auto.
  - words_auto.
Qed.
Lemma fcompare_ok opf q s f1 f2 : kept (fcompare opf q s f1 f2).
Proof. unfold fcompare. words_auto. Qed.
#[local] Hint Resolve fcompare_ok : keeps.
Lemma exec_FOP2_ok : kept exec_FOP2.
Proof. apply fp_enabled_ok. words_auto. Qed.
End fpu_ok.
#[export] Hint Resolve instr_fetch_ok decode_ok write_back_ok
  exec_UNIMP_ok exec_CALL_ok exec_BICC_ok exec_SETHI_ok exec_SLL_ok exec_SRL_ok exec_SRA_ok
  exec_RDY_ok exec_RDPSR_ok exec_RDWIM_ok exec_RDTBR_ok exec_WRY_ok exec_WRPSR_ok exec_WRWIM_ok
  exec_WRTBR_ok exec_JMPL_ok exec_RETT_ok exec_SAVE_ok exec_RESTORE_ok exec_MULSCC_ok
  exec_LD_ok exec_LDUB_ok exec_LDUH_ok exec_LDD_ok exec_LDSB_ok exec_LDSH_ok exec_ST_ok exec_STB_ok
  exec_STH_ok exec_STD_ok exec_SWAP_ok exec_SWAPA_ok exec_LDSTUB_ok exec_CASA_ok exec_MUL_ok
  exec_DIV_ok exec_ADD_ok exec_AND_ok exec_LDA_ok exec_STA_ok exec_LDF_ok exec_LDDF_ok exec_LDFSR_ok
  exec_STF_ok exec_STDF_ok exec_STFSR_ok exec_FBFCC_ok exec_FOP1_ok exec_FOP2_ok : keeps.

(** ** The interpreter *)
Section exec_ok.
Context {W : Type} `{IntCtlLaws W} `{HostNaN}.
Abbreviation I := (@machine_words W _ _).
Abbreviation kept op := (keeps I op (fun _ => True)).
Context (notify_breakpoint : Z -> Z -> M (machine W) unit).
Context (Hnotify : forall i a, kept (notify_breakpoint i a)).

Lemma on_intc_ok {A} (op : M W A) R : keeps dev_ok op R -> keeps I (on_intc op) R.
Proof. intros Hop. by apply on_mem_ok, on_mc_ok, on_device_ok. Qed.
#[local] Hint Resolve on_intc_ok get_irq_hint_ok clear_irq_ok Hnotify : keeps.

Lemma bp_instr_u32 (s : machine W) a : I s -> is_u32 (get_breakpoint_instruction (m_bps s) a).
Proof.
  intros (_ & _ & _ & Hb). unfold get_breakpoint_instruction.
  destruct (List.find _ _) as [bp|] eqn:E; [|auto with u32].
  apply List.find_some in E as [Hin _]. by apply (proj1 (List.Forall_forall _ _) Hb).
Qed.

Lemma exec_TICC_ok again : kept again -> kept (exec_TICC notify_breakpoint again).
Proof.
  intros Ha. unfold exec_TICC. do 2 (eapply keeps_bind; [solve [eauto with keeps]|intros ? (? & ? & ->)]).
  eapply keeps_bind; [apply keeps_gets_strong|]. intros ? (s & Hs & ->).
  pose proof (bp_instr_u32 s (pc x0) Hs). words_auto.
Qed.

Lemma dispatch_ok again f : kept again -> kept (dispatch notify_breakpoint again f).
Proof.
  intros Ha. destruct f; cbn [dispatch]; try solve [eauto 2 with keeps].
  - by apply exec_TICC_ok.
  - apply advance_ok.
  - by apply keeps_stop.
Qed.

Lemma excute_one_ok depth : kept (excute_one notify_breakpoint depth).
Proof.
  induction depth as [|n IH]; cbn [excute_one];
    (eapply keeps_bind; [apply decode_ok|intros _ _]);
    (eapply keeps_bind; [apply getd_ok|intros f _]);
    (eapply keeps_bind; [apply dispatch_ok|intros _ _; apply write_back_ok]); [by apply keeps_stop|done].
Qed.

Lemma take_trap_ok : kept take_trap.
Proof.
  unfold take_trap. eapply keeps_bind; [apply getc_ok|]. intros ? _. apply keeps_when; [intros _|done].
  apply (keeps_bind _ _ _ (fun _ => True)).
  { apply updc_ok. intros c Hc. destruct (trap_psr_words (psr c) (w_psr c Hc)). words_fields. }
  intros _ _. words_auto; unfold trap_tbr; apply lor_u32; auto with u32; by apply (field_u32 _ 8 4).
Qed.

Lemma poll_irq_ok n : keeps I (poll_irq n) (fun _ => True).
Proof.
  unfold poll_irq. cbv zeta. destruct (_ =? _); [|by apply keeps_ret].
  eapply keeps_bind; [apply getc_ok|]. intros ? (c & Hc & ->).
  eapply keeps_bind; [apply on_intc_ok, get_irq_hint_ok|]. intros l _.
  apply (keeps_bind _ _ _ (fun _ => True)); [|by intros; apply keeps_ret].
  apply keeps_when; [intros _|done]. apply updc_ok. intros c' Hc'. words_fields.
  by apply (land_range _ _ 4).
Qed.

Lemma take_interrupt_ok : kept take_interrupt.
Proof.
  unfold take_interrupt. eapply keeps_bind; [apply getc_ok|]. intros ? (c & Hc & ->).
  apply keeps_when; [intros _|done]. apply (keeps_bind _ _ _ (fun _ => True)); [words_auto|intros _ _].
  apply (keeps_bind _ _ _ (fun _ => True)); [apply on_intc_ok, clear_irq_ok|intros _ _].
  apply updc_ok. intros c' Hc'. words_fields. lia.
Qed.

Lemma run_body_ok depth n : kept (run_body notify_breakpoint depth n).
Proof.
  unfold run_body. eapply keeps_bind; [apply poll_irq_ok|intros cd _].
  eapply keeps_bind; [apply take_interrupt_ok|intros _ _].
  eapply keeps_bind; [apply take_trap_ok|intros _ _].
  eapply keeps_bind; [apply getc_ok|intros ? (c & Hc & ->)].
  eapply keeps_bind; [apply instr_fetch_ok; auto with u32|intros ok _].
  apply (keeps_bind _ _ _ (fun _ => True)); [|by intros; apply keeps_ret].
  destruct ok; [apply excute_one_ok|words_auto].
Qed.

Lemma run_exit_ok : keeps I run_exit (fun _ => True).
Proof. unfold run_exit. words_auto. Qed.

Lemma run_loop_ok fuel depth n count cd :
  keeps I (run_loop notify_breakpoint fuel depth n count cd) (fun _ => True).
Proof.
  revert count cd. induction fuel as [|fuel IH]; intros count cd; cbn [run_loop];
    (destruct (_ || _); [|by apply keeps_ret]); [by apply keeps_ret|].
  eapply keeps_bind; [apply run_body_ok|intros cd' _].
  eapply keeps_bind; [apply run_exit_ok|intros [] _]; [by apply keeps_ret|apply IH].
Qed.

Lemma run_ok fuel depth n : kept (run notify_breakpoint fuel depth n).
Proof.
  unfold run.
  apply (keeps_bind _ _ _ (fun _ => True)); [words_auto|intros _ _].
  apply (keeps_bind _ _ _ (fun _ => True)); [apply updd_ok; intros; by constructor; cbn; auto with u32|intros _ _].
  eapply keeps_bind; [apply run_loop_ok|intros [c|] _]; [words_auto|by apply keeps_ret].
Qed.

(** C2. The type invariant: whatever the program in memory does, [run] leaves
    every register, control register, floating-point register, MMU register
    and memory byte within the range of its C++ type, the arrays of the
    register file at their length, [%g0] zero, the window pointer below the
    number of windows and the cached window base equal to eight times it; also
    when it ends with an exception, a trap or undefined behaviour of an
    access. *)
Theorem run_keeps_types fuel depth n s :
  machine_words s -> machine_words (run notify_breakpoint fuel depth n s).2.
Proof. intros Hs. exact (proj1 (run_ok fuel depth n s Hs)). Qed.
End exec_ok.

(** ** A concrete machine *)

Lemma no_devices_laws : @DeviceBusLaws unit no_devices.
Proof. refine {| dev_ok _ := True |}; intros; by apply keeps_stop. Defined.
Lemma no_interrupts_laws : @IntCtlLaws unit no_devices no_devices_laws no_interrupts.
Proof. constructor; intros; by apply keeps_ret. Defined.

Lemma reset_words entry c : is_u32 entry -> cpu_words (reset entry c).
Proof.
  intros He. unfold reset, update_cwp_bases.
  assert (forall n, Forall is_u32 (replicate n 0)) by (intros; by apply Forall_replicate).
  assert (is_u32 reset_psr /\ psr_cwp reset_psr < NWINDOWS) as [? ?] by by vm_compute.
  constructor; cbn [pc npc psr trap_type tbr wim y_reg irl cwp_base_ globals locals outs freg fsr
    set_field_of set_c_cwp_base]; auto with u32; try done; by vm_compute.
Qed.

Lemma demo_start_words : @machine_words unit no_devices no_devices_laws demo_start.
Proof.
  split; [by apply reset_words|]. split; [by constructor; vm_compute|]. split; [|by constructor].
  split; [by constructor; vm_compute|]. split; [|done].
  constructor; [|done]. cbn. apply map_Forall_to_list. vm_compute. repeat constructor; done.
Qed.

Lemma run_keeps_types_witness :
  (demo_run 10 0).1 = Val (Some 7) /\ cpu_words (m_cpu (demo_run 10 0).2).
Proof.
  split; [exact (proj1 demo_run_result)|].
  refine (proj1 (@run_keeps_types unit no_devices no_devices_laws no_interrupts no_interrupts_laws
    default_nan (fun _ _ => ret tt) _ 10 1 0 demo_start demo_start_words)).
  intros. by apply keeps_ret.
Defined.
