(* ===== verification/Privilege.v ===== *)
(** * Confinement of user mode

    No instruction executed with the supervisor bit clear changes the privileged
    fields of the PSR, the window mask, the trap base or a register of the MMU;
    the only ways to supervisor mode are the trap and the interrupt taken at the
    head of the run loop. *)
From S2P Require Import Prelude Mctrl Tlb Mmu Cpu Instr Fpu Exec.

(** The PSR fields ET, PS, S, PIL, EF and EC: bits 5 to 13. *)
Definition PSR_PRIV : Z := 0x3fe0.

Definition priv_psr (p : Z) : Z := Z.land p PSR_PRIV.

(** The MMU registers an alternate-space store can write. *)
Definition mmu_regs (m : MMU) : Z * Z * Z * Z * Z * Z :=
  (control_reg m, ctx_tbl_ptr m, ctx_n m, ccr m, iccr m, dccr m).

(** What user mode must not change. *)
Record priv_state := mkPriv {
  pv_psr : Z; pv_wim : Z; pv_tbr : Z; pv_mmu : Z * Z * Z * Z * Z * Z }.
Definition priv_of {W} (s : machine W) : priv_state :=
  mkPriv (priv_psr (psr (m_cpu s))) (wim (m_cpu s)) (tbr (m_cpu s)) (mmu_regs (ms_mmu (m_mem s))).

Definition user_mode (p : Z) : Prop := psr_s p = 0.

Lemma priv_ext p q :
  (forall i, 5 <= i < 14 -> Z.testbit p i = Z.testbit q i) -> priv_psr p = priv_psr q.
Proof.
  intros Hb. unfold priv_psr, PSR_PRIV. apply Z.bits_inj'. intros i Hi. rewrite !Z.land_spec.
  destruct (decide (5 <= i < 14)); [by rewrite Hb|].
  assert (Z.testbit 0x3fe0 i = false) as ->; [|by rewrite !andb_false_r].
  change 0x3fe0 with (Z.shiftl (Z.ones 9) 5). rewrite Z.shiftl_spec by lia.
  destruct (decide (i < 5)); [by apply Z.testbit_neg_r; lia|by apply Z.ones_spec_high; lia].
Qed.

Lemma priv_bit p i : 5 <= i < 14 -> Z.testbit p i = Z.testbit (priv_psr p) i.
Proof.
  intros Hi. unfold priv_psr, PSR_PRIV. change 0x3fe0 with (Z.shiftl (Z.ones 9) 5).
  by rewrite Z.land_spec, Z.shiftl_spec, Z.ones_spec_low, andb_true_r by lia.
Qed.

Lemma user_mode_priv p q : priv_psr p = priv_psr q -> user_mode q -> user_mode p.
Proof.
  unfold user_mode, psr_s. intros Hp. rewrite !bit_testbit by lia.
  by rewrite (priv_bit p), (priv_bit q), Hp by lia.
Qed.

Lemma put_icc_priv p cc : priv_psr (put_icc p cc) = priv_psr p.
Proof.
  apply priv_ext. intros i Hi. unfold put_icc, shl32, u32, PSR_CC_CARRY. change 4294967296 with (2 ^ 32).
  rewrite Z.lor_spec, Z.land_spec, Z.mod_pow2_bits_low, Z.shiftl_spec_low, orb_false_r by lia.
  by rewrite testbit_not32, Z.shiftl_spec_low, andb_true_r by lia.
Qed.

Lemma with_cwp_priv p n : priv_psr (with_cwp p n) = priv_psr p.
Proof.
  apply priv_ext. intros i Hi. unfold with_cwp, LOBITS5. change 31 with (Z.ones 5).
  rewrite Z.lor_spec, !Z.land_spec, testbit_not32, !Z.ones_spec_high by lia.
  by rewrite andb_true_r, andb_false_r, orb_false_r.
Qed.

Section memory.
Context {W : Type} `{DeviceBus W} (r : Z * Z * Z * Z * Z * Z).
Definition mmu_is (s : memsys W) : Prop := mmu_regs (ms_mmu s) = r.
Abbreviation kept op := (keeps mmu_is op (fun _ => True)).

(** The memory controller and the devices have no way to the MMU. *)
Lemma on_mc_regs {A} (op : M (mctrl W) A) : kept (on_mc op).
Proof. by apply (keeps_zoom _ _ _ (fun _ => True)). Qed.
Lemma mmu_upd_regs f : (forall m, mmu_regs (f m) = mmu_regs m) -> kept (mmu_upd f).
Proof. intros Hf. apply keeps_modify; [|done]. intros s Hs. unfold mmu_is. cbn. by rewrite Hf. Qed.
Lemma mmu_get_regs {A} (f : MMU -> A) : kept (mmu_get f).
Proof. apply keeps_gets_any. Qed.
#[local] Hint Resolve on_mc_regs mmu_get_regs : keeps.
#[local] Hint Extern 1 (keeps _ (mmu_upd _) _) => (apply mmu_upd_regs; intros ?; reflexivity) : keeps.

Lemma tlb_lookup_regs rw c va : kept (tlb_lookup_m rw c va).
Proof. intros s Hs. unfold tlb_lookup_m. destruct (tlb_lookup _ _ _). split; [|done]. by destruct rw. Qed.
Lemma tlb_insert_regs rw c va l p : kept (tlb_insert_m rw c va l p).
Proof. intros s Hs. unfold tlb_insert_m. destruct (tlb_insert _ _ _ _ _); (split; [|done]); by destruct rw. Qed.
Lemma bypass_read_regs a : kept (MemAccessBypassRead4 a).
Proof. unfold MemAccessBypassRead4. keeps_auto. Qed.
#[local] Hint Resolve tlb_lookup_regs tlb_insert_regs bypass_read_regs : keeps.
Lemma get_PTE_regs va : kept (get_PTE va).
Proof. unfold get_PTE, get_PTE_from. keeps_auto. Qed.
Lemma check_perms_regs va pte rw sup level rep : kept (check_perms va pte rw sup level rep).
Proof. unfold check_perms. keeps_auto. Qed.
#[local] Hint Resolve get_PTE_regs check_perms_regs : keeps.
Lemma translate_va_regs va sup rw rep : kept (translate_va va sup rw rep).
Proof. unfold translate_va. keeps_auto. Qed.
Lemma host_load_regs size p off : kept (host_load size p off).
Proof. unfold host_load. keeps_auto. Qed.
Lemma host_store_regs size p off v : kept (host_store size p off v).
Proof. unfold host_store. keeps_auto. Qed.
Lemma bus_fault_regs va rw sup rep : kept (bus_fault va rw sup rep).
Proof. unfold bus_fault. keeps_auto. Qed.
#[local] Hint Resolve translate_va_regs host_load_regs host_store_regs bus_fault_regs : keeps.
Lemma phys_access_regs rw size va pa v on sup rep : kept (phys_access rw size va pa v on sup rep).
Proof. unfold phys_access. keeps_auto. Qed.
Lemma l0_hit_regs rw va sup : kept (l0_hit rw va sup).
Proof.
  unfold l0_hit. eapply keeps_bind; [apply mmu_get_regs|intros ctx _].
  apply (keeps_bind _ _ _ (fun _ => True)); [destruct rw; keeps_auto|].
  intros c _. by apply keeps_ret.
Qed.
#[local] Hint Resolve phys_access_regs l0_hit_regs : keeps.
Lemma MemAccess_regs rw size va v sup rep : kept (MemAccess rw size va v sup rep).
Proof. unfold MemAccess. keeps_auto. Qed.
Lemma atomic_swap32_regs va sup v : kept (atomic_swap32 va sup v).
Proof.
  unfold atomic_swap32. do 2 (eapply keeps_bind; [apply mmu_get_regs|intros ? _]).
  apply (keeps_bind _ _ _ (fun _ => True)); [by keeps_auto|]. intros pa _. keeps_auto.
Qed.
Lemma atomic_casa32_regs va sup e v : kept (atomic_casa32 va sup e v).
Proof.
  unfold atomic_casa32. do 2 (eapply keeps_bind; [apply mmu_get_regs|intros ? _]).
  apply (keeps_bind _ _ _ (fun _ => True)); [by keeps_auto|]. intros tr _.
  destruct (negb _); [by keeps_auto|].
  eapply keeps_bind; [apply on_mc_regs|]. intros [bi|] _; [|by keeps_auto].
  eapply keeps_bind; [apply on_mc_regs|]. intros old _. destruct (old =? e); [|by keeps_auto].
  apply (keeps_bind _ _ _ (fun _ => True)); [by keeps_auto|]. intros ft _. keeps_auto.
Qed.
End memory.
#[export] Hint Resolve on_mc_regs MemAccess_regs atomic_swap32_regs atomic_casa32_regs translate_va_regs : keeps.

Section user.
Context {W : Type} `{DeviceBus W} `{IntCtl W} `{HostNaN}.
Context (v : priv_state) (Hv : user_mode (pv_psr v)).

(** Between [decode] and [write_back]: the working PSR agrees with the real
    one in its privileged fields, and no debugger is attached. *)
Definition user_inv (s : machine W) : Prop :=
  priv_of s = v /\ priv_psr (d_psr (m_d s)) = pv_psr v /\ gdb_stub (m_cpu s) = false.
Abbreviation I := user_inv.
Abbreviation kept op := (keeps I op (fun _ => True)).

Lemma getc_user {A} (f : cpu -> A) : keeps I (getc f) (fun a => exists c, gdb_stub c = false /\ a = f c).
Proof using Type. apply keeps_gets. intros s (? & ? & ?). eauto. Qed.
Lemma getd_user {A} (f : DecodeStruct -> A) :
  keeps I (getd f) (fun a => exists d, psr_s (d_psr d) = 0 /\ priv_psr (d_psr d) = pv_psr v /\ a = f d).
Proof using Hv.
  apply keeps_gets. intros s (Hs & Hd & _). exists (m_d s). split; [|done].
  apply (user_mode_priv _ (pv_psr v)); [|done]. apply priv_ext. intros i Hi. by rewrite priv_bit, Hd.
Qed.
Lemma get_mmu_user {A} (f : MMU -> A) : kept (get_mmu f).
Proof using Type. apply keeps_gets_any. Qed.
Lemma on_mem_user {A} (op : M (memsys W) A) :
  (forall r, keeps (mmu_is r) op (fun _ => True)) -> kept (on_mem op).
Proof using Type.
  intros Hop. apply (keeps_zoom _ _ _ (mmu_is (pv_mmu v))); [done| |].
  - intros s (Hs & _). unfold mmu_is. by rewrite <- Hs.
  - intros s t (Hs & Hd & Hg) Ht. split; [|done]. unfold priv_of, mmu_is in *. cbn. by rewrite Ht, <- Hs.
Qed.
(** An assignment to the processor that spares the privileged registers. *)
Lemma updc_user f :
  (forall c, psr (f c) = psr c /\ wim (f c) = wim c /\ tbr (f c) = tbr c /\ gdb_stub (f c) = gdb_stub c) ->
  kept (updc f).
Proof using Type.
  intros Hf. apply keeps_modify; [|done]. intros s (Hs & Hd & Hg). destruct (Hf (m_cpu s)) as (E1 & E2 & E3 & E4).
  unfold user_inv, priv_of in *. cbn. by rewrite E1, E2, E3, E4.
Qed.
Lemma updd_user f :
  (forall d, priv_psr (d_psr d) = pv_psr v -> priv_psr (d_psr (f d)) = pv_psr v) -> kept (updd f).
Proof using Type. intros Hf. apply keeps_modify; [|done]. intros s (Hs & Hd & Hg). split; [done|]. split; [by apply Hf|done]. Qed.
Lemma write_reg_user x r : kept (write_reg x r).
Proof using Type.
  intros s (Hs & Hd & Hg). unfold write_reg, getc, gets, bindM. cbn.
  destruct (write_reg_of (m_cpu s) x r) as [c|] eqn:E; (split; [|done]); [|done]. cbn.
  assert (psr c = psr (m_cpu s) /\ wim c = wim (m_cpu s) /\ tbr c = tbr (m_cpu s) /\
          gdb_stub c = gdb_stub (m_cpu s)) as (E1 & E2 & E3 & E4).
  { revert E. unfold write_reg_of. repeat case_match; intros E;
      repeat match type of E with (?o ≫= _) = _ => destruct o; [cbn in E|discriminate E] end;
      injection E as <-; done. }
  unfold user_inv, priv_of in *. cbn. by rewrite E1, E2, E3, E4.
Qed.
Lemma read_reg_user r old : kept (read_reg r old).
Proof using Type. unfold read_reg. eapply keeps_bind; [apply getc_user|]. intros. keeps_auto. Qed.
#[local] Hint Resolve getc_user getd_user get_mmu_user on_mem_user write_reg_user read_reg_user : keeps.

(** A step of the proof for one instruction: the state read from is in user
    mode, so the guards of the privileged instructions are decided. *)
Ltac user_reads :=
  cbv beta in *;
  repeat match goal with
  | E : exists c, gdb_stub c = false /\ _ |- _ => destruct E as (? & ? & ->)
  | E : exists d, psr_s (d_psr d) = 0 /\ _ |- _ => destruct E as (? & ? & ? & ->)
  end; cbn [id] in *.
Ltac user_upd :=
  match goal with
  | |- keeps _ (updc _) _ => by apply updc_user
  | |- keeps _ (updd _) _ =>
      apply updd_user; intros ? ?; cbn -[priv_psr]; rewrite ?put_icc_priv, ?with_cwp_priv; done
  end.
Ltac user_step :=
  lazymatch goal with
  | |- True => constructor
  | E : psr_s (d_psr ?d) = 0 |- context [psr_s (d_psr ?d)] => rewrite E; cbn [Z.eqb truth negb andb orb]
  | |- _ => first [progress user_reads | user_upd | keeps_step]
  end.
Ltac user_auto := repeat user_step.

Lemma trap_user n : kept (trap n).
Proof using Hv. unfold trap. user_auto. Qed.
Lemma advance_user : kept advance.
Proof using Type. unfold advance. user_auto. Qed.
Lemma write_result_user x : kept (write_result x).
Proof using Type. unfold write_result. user_auto. Qed.
#[local] Hint Resolve trap_user advance_user write_result_user : keeps.
Lemma write_back_user : kept write_back.
Proof using Hv.
  unfold write_back. eapply keeps_bind; [apply getd_user|]. intros ? (d & _ & Hd & ->). cbn [id].
  apply (keeps_bind _ _ _ (fun _ => True)); [|intros; user_auto].
  apply keeps_modify; [|done]. intros s (Hs & Hd' & Hg). split; [|done].
  unfold priv_of in *. cbn -[priv_psr]. rewrite Hd. by rewrite <- Hs.
Qed.

Lemma exec_UNIMP_user : kept exec_UNIMP.
Proof using Hv. unfold exec_UNIMP. user_auto. Qed.
Lemma take_branch_user b a : kept (take_branch b a).
Proof using Type. unfold take_branch. apply updd_user. intros d Hd. by destruct a, b. Qed.
Lemma finish_access_user r : kept (finish_access r).
Proof using Hv. unfold finish_access. user_auto. Qed.
Lemma aligned_user m op : kept op -> kept (aligned m op).
Proof using Hv. intros Hop. unfold aligned. user_auto. Qed.
Lemma load_user sz va sup : kept (on_mem (MemAccess intent_load sz va 0 sup true)).
Proof using Type. apply on_mem_user. intros r. apply MemAccess_regs. Qed.
#[local] Hint Resolve exec_UNIMP_user take_branch_user finish_access_user : keeps.
Lemma super_mode_user : kept super_mode.
Proof using Type. unfold super_mode. user_auto. Qed.
#[local] Hint Resolve super_mode_user : keeps.
Lemma load8_user va rd sx : kept (load8 va rd sx).
Proof using Hv. unfold load8. user_auto. Qed.
Lemma load16_user va rd sx : kept (load16 va rd sx).
Proof using Hv. unfold load16. user_auto. Qed.
Lemma load32_user va rd sx : kept (load32 va rd sx).
Proof using Hv. unfold load32. user_auto. Qed.
Lemma load64_user va rd sx : kept (load64 va rd sx).
Proof using Hv. unfold load64. user_auto. Qed.
Lemma store8_user va rd : kept (store8 va rd).
Proof using Hv. unfold store8. user_auto. Qed.
Lemma store16_user va rd : kept (store16 va rd).
Proof using Hv. unfold store16. user_auto. Qed.
Lemma store32_user va rd : kept (store32 va rd).
Proof using Hv. unfold store32. user_auto. Qed.
Lemma store64_user va rd : kept (store64 va rd).
Proof using Hv. unfold store64. user_auto. Qed.
Lemma enter_powerdown_user : kept enter_powerdown.
Proof using Type. unfold enter_powerdown. user_auto. Qed.
Lemma put_swap_reg_user x : kept (put_swap_reg x).
Proof using Type. apply write_reg_user. Qed.
#[local] Hint Resolve load8_user load16_user load32_user load64_user store8_user store16_user
  store32_user store64_user enter_powerdown_user put_swap_reg_user : keeps.
Lemma swap_word_user : kept swap_word.
Proof using Hv. unfold swap_word. user_auto. Qed.
#[local] Hint Resolve swap_word_user : keeps.
Lemma privileged_user body : kept (privileged body).
Proof using Hv. unfold privileged. user_auto. Qed.
Lemma exec_RETT_user : kept exec_RETT.
Proof using Hv.
  unfold exec_RETT. eapply keeps_bind; [apply getd_user|]. intros ? (d & Hd & _ & ->). cbn [id].
  eapply keeps_bind; [apply getc_user|]. intros w _. rewrite Hd. destruct (truth (psr_et (d_psr d))); apply trap_user.
Qed.
Lemma exec_ints_user f :
  f ∈ [CALL; BICC; SETHI; SLL; SRL; SRA; RDY; WRY; WRPSR; JMPL; RETT; SAVE; RESTORE; MULSCC] ->
  forall notify again, kept (dispatch notify again f).
Proof using Hv.
  intros Hf notify again. repeat (apply elem_of_cons in Hf as [->|Hf]); [..|by apply elem_of_nil in Hf]; cbn [dispatch].
  - unfold exec_CALL. user_auto.
  - unfold exec_BICC. user_auto.
  - unfold exec_SETHI. user_auto.
  - unfold exec_SLL. user_auto.
  - unfold exec_SRL. user_auto.
  - unfold exec_SRA. user_auto.
  - unfold exec_RDY. user_auto.
  - unfold exec_WRY. user_auto.
  - unfold exec_WRPSR. user_auto.
  - unfold exec_JMPL. user_auto.
  - apply exec_RETT_user.
  - unfold exec_SAVE. user_auto.
  - unfold exec_RESTORE. user_auto.
  - unfold exec_MULSCC. user_auto.
Qed.

Lemma exec_mem_user f :
  f ∈ [LD; LDUB; LDUH; LDD; LDSB; LDSH; ST; STB; STH; STD; SWAP; SWAPA; LDSTUB; CASA] ->
  forall notify again, kept (dispatch notify again f).
Proof using Hv.
  intros Hf notify again. repeat (apply elem_of_cons in Hf as [->|Hf]); [..|by apply elem_of_nil in Hf]; cbn [dispatch].
  - apply aligned_user. user_auto.
  - unfold exec_LDUB. user_auto.
  - apply aligned_user. user_auto.
  - unfold exec_LDD. user_auto. apply aligned_user. user_auto.
  - unfold exec_LDSB. user_auto.
  - apply aligned_user. user_auto.
  - apply aligned_user. user_auto.
  - unfold exec_STB. user_auto.
  - apply aligned_user. user_auto.
  - unfold exec_STD. user_auto. apply aligned_user. user_auto.
  - apply aligned_user, swap_word_user.
  - unfold exec_SWAPA. user_auto.
  - unfold exec_LDSTUB. user_reads. do 3 (eapply keeps_bind; [solve [eauto with keeps]|intros ? ?]). user_reads.
    apply (keeps_bind _ _ _ (fun _ => True)); [user_auto|]. intros tr _. user_auto.
  - unfold exec_CASA. user_auto.
Qed.

Lemma exec_alu_user f :
  f ∈ [MUL; DIV; ADD; AND; LDA_impl; STA_impl] -> forall notify again, kept (dispatch notify again f).
Proof using Hv.
  intros Hf notify again. repeat (apply elem_of_cons in Hf as [->|Hf]); [..|by apply elem_of_nil in Hf]; cbn [dispatch].
  - unfold exec_MUL. user_auto.
  - unfold exec_DIV. user_auto.
  - unfold exec_ADD. user_auto.
  - unfold exec_AND. user_auto.
  - unfold exec_LDA. user_auto.
  - unfold exec_STA. user_auto.
Qed.

Lemma read_freg_user i : kept (read_freg i).
Proof using Type. unfold read_freg. eapply keeps_bind; [apply getc_user|]. intros. keeps_auto. Qed.
Lemma write_freg_user i x : kept (write_freg i x).
Proof using Type. unfold write_freg. user_auto. Qed.
Lemma upd_fsr_user f : kept (upd_fsr f).
Proof using Type. unfold upd_fsr. user_auto. Qed.
#[local] Hint Resolve read_freg_user write_freg_user upd_fsr_user : keeps.
Lemma invalid_fp_register_user : kept invalid_fp_register.
Proof using Hv. unfold invalid_fp_register. user_auto. Qed.
Lemma fp_enabled_user body : kept body -> kept (fp_enabled body).
Proof using Hv. intros Hb. unfold fp_enabled. user_auto. Qed.
Lemma read_double_user r : kept (read_double r).
Proof using Type. unfold read_double. user_auto. Qed.
Lemma fcompare_user opf q s f1 f2 : kept (fcompare opf q s f1 f2).
Proof using Hv. unfold fcompare. user_auto. Qed.
#[local] Hint Resolve invalid_fp_register_user read_double_user fcompare_user : keeps.

Lemma exec_FOP1_user : kept exec_FOP1.
Proof using Hv.
  apply fp_enabled_user. eapply keeps_bind; [apply getd_user|]. intros ? (d & _ & _ & ->). cbv zeta.
  do 2 (eapply keeps_bind; [apply read_freg_user|intros ? _]).
  destruct (fop1_single _ _ _); [user_auto|]. destruct (_ || _); [|user_auto].
  destruct (truth _); [apply invalid_fp_register_user|].
  eapply keeps_bind; [apply read_double_user|intros w _].
  apply (keeps_bind _ _ _ (fun _ => True)); [user_auto|]. intros x _. user_auto.
Qed.

Lemma exec_fpu_user f :
  f ∈ [LDF_impl; LDDF_impl; LDFSR_impl; STF_impl; STDF_impl; STFSR_impl; STDFQ_impl; FBFCC_impl;
       FOP1_impl; FOP2_impl] -> forall notify again, kept (dispatch notify again f).
Proof using Hv.
  intros Hf notify again. repeat (apply elem_of_cons in Hf as [->|Hf]); [..|by apply elem_of_nil in Hf]; cbn [dispatch].
  - apply fp_enabled_user, aligned_user. user_auto.
  - apply fp_enabled_user. user_auto.
  - apply fp_enabled_user, aligned_user. user_auto.
  - apply fp_enabled_user, aligned_user. user_auto.
  - apply fp_enabled_user. user_auto.
  - apply fp_enabled_user, aligned_user. user_auto.
  - by apply keeps_stop.
  - apply fp_enabled_user. user_auto.
  - apply exec_FOP1_user.
  - apply fp_enabled_user. user_auto.
Qed.

Lemma exec_TICC_user notify again : kept (exec_TICC notify again).
Proof using Hv.
  unfold exec_TICC. eapply keeps_bind; [apply getd_user|]. intros ? (d & _ & _ & ->). cbn [id].
  eapply keeps_bind; [apply getc_user|]. intros ? (c & Hc & ->). cbn [id].
  eapply keeps_bind; [apply keeps_gets_any|]. intros bps _. rewrite Hc. cbn [andb]. user_auto.
Qed.

Lemma dispatch_user notify again f : kept (dispatch notify again f).
Proof using Hv.
  destruct f;
    first [(apply exec_ints_user; apply (bool_decide_eq_true_1 _); reflexivity)
          |(apply exec_mem_user; apply (bool_decide_eq_true_1 _); reflexivity)
          |(apply exec_alu_user; apply (bool_decide_eq_true_1 _); reflexivity)
          |(apply exec_fpu_user; apply (bool_decide_eq_true_1 _); reflexivity)
          |apply privileged_user|idtac].
  - apply exec_UNIMP_user.
  - apply exec_TICC_user.
  - apply advance_user.
Qed.

(** [decode] copies the PSR, so that the working copy agrees with it. *)
Lemma decode_user s :
  priv_of s = v -> gdb_stub (m_cpu s) = false ->
  match decode s with
  | (Val _, s') => user_inv s'
  | (_, s') => priv_of s' = v
  end.
Proof using Hv.
  intros Hs Hg.
  assert (forall m : M (machine W) unit, kept m ->
    match m (mkMachine (m_cpu s) (m_d s <| d_pc := pc (m_cpu s) |> <| d_npc := npc (m_cpu s) |>
               <| d_psr := psr (m_cpu s) |> <| d_wb := false |>) (m_mem s) (m_bps s)) with
    | (Val _, s') => user_inv s' | (_, s') => priv_of s' = v end) as Hk.
  { intros m Hm. match goal with |- context [m ?t] => specialize (Hm t); destruct (m t) as [r s'] end.
    destruct Hm as [Hm _].
    - split; [done|]. split; [|done]. cbn. by rewrite <- Hs.
    - destruct r; [done|by apply Hm..]. }
  unfold decode, bindM at 1 2 3, getd at 1, getc at 1, updd at 1, gets, modify. cbn [id].
  destruct (_ =? 1); [apply Hk; user_auto|]. destruct (_ =? 0); [apply Hk; user_auto|].
  apply Hk. user_auto.
Qed.

Lemma excute_one_user notify depth s :
  priv_of s = v -> gdb_stub (m_cpu s) = false -> priv_of (excute_one notify depth s).2 = v.
Proof using Hv.
  intros Hs Hg. destruct depth as [|n]; cbn [excute_one]; unfold bindM at 1;
    pose proof (decode_user s Hs Hg) as Hd; destruct (decode s) as [[] s']; try done;
    (match goal with |- context [?m s'] =>
      assert (kept m) as K; [|exact (proj1 (proj1 (K s' Hd)))] end);
    (eapply keeps_bind; [apply getd_user|intros f _]);
    (eapply keeps_bind; [apply dispatch_user|intros _ _; apply write_back_user]).
Qed.
End user.

(** C1. User mode is confined: executing one instruction with the supervisor bit
    clear and no debugger attached, on whatever opcode, registers and memory,
    and however it ends, changes neither ET, PS, S, PIL, EF or EC of the PSR, nor
    the window mask, the trap base register, or the control, context and cache
    registers of the MMU. *)
Theorem user_mode_confined {W} `{DeviceBus W} `{HostNaN} notify depth (s : machine W) :
  psr_s (psr (m_cpu s)) = 0 -> gdb_stub (m_cpu s) = false ->
  priv_of (excute_one notify depth s).2 = priv_of s.
Proof.
  intros Hu Hg. apply excute_one_user; [|done..].
  apply (user_mode_priv _ (psr (m_cpu s))); [|done]. apply priv_ext. intros i Hi. by rewrite (priv_bit (psr _)).
Qed.

(** ** A concrete instance *)

(** [wr %g0, 0xe0, %psr] in user mode: the instruction asks for supervisor mode. *)
Definition user_start : machine unit :=
  program_machine (update_cwp_bases (reset 0 demo_cpu <| psr := 0xf3001020 |>)) [0x818820e0].

Lemma user_mode_confined_witness :
  psr_s (psr (m_cpu user_start)) = 0 /\
  let s' := (@instr_fetch unit no_devices 0 user_start).2 in
  d_opcode (m_d s') = 0x818820e0 /\
  priv_of (@excute_one unit no_devices default_nan (fun _ _ => ret tt) 1 s').2 = priv_of s'.
Proof.
  split; [reflexivity|]. split; [vm_compute; reflexivity|].
  apply (@user_mode_confined unit no_devices default_nan); vm_compute; reflexivity.
Defined.
