(* ===== verification/Windows.v ===== *)
(** * Register windows, traps and the return from a trap

    The register file of src/src/sparcv8/CPU.cpp is two arrays of 64 words for
    the locals and the outs of eight windows, indexed through the cached base of
    the current window; the ins of a window are the outs of the next.  This file
    relates it to the architecture's view, one cell per register and window, and
    proves what [SAVE], [RESTORE], the trap entry of [CPU::run] and [RETT] do to
    it. *)
From S2P Require Import Prelude Mctrl Tlb Mmu Cpu Instr Fpu Exec Words.

(** ** The architectural register file *)

(** The cell behind register [r] of window [w]. *)
Inductive cell := Global (i : Z) | Local (i : Z) | Out (i : Z).
#[export] Instance cell_eq_dec : EqDecision cell.
Proof. solve_decision. Defined.

Definition cell_of (w r : Z) : cell :=
  if r <? 8 then Global r
  else if r <? 16 then Out (8 * w + (r - 8))
  else if r <? 24 then Local (8 * w + (r - 16))
  else Out (8 * ((w + 1) mod NWINDOWS) + (r - 24)).

Definition cell_val (c : cpu) (x : cell) : option Z :=
  match x with
  | Global i => globals c !! Z.to_nat i
  | Local i => locals c !! Z.to_nat i
  | Out i => outs c !! Z.to_nat i
  end.

(** The same registers seen from window [w]. *)
Definition in_window (w : Z) (c : cpu) : cpu := c <| cwp_base_ := 8 * w |>.

Lemma lor_window a i : 0 <= i < 8 -> Z.lor (8 * a) i = 8 * a + i.
Proof. intros. apply (lor_add _ _ 3); [lia| |lia]. rewrite Z.mul_comm. by apply Z.mod_mul. Qed.

Lemma next_window w : 0 <= w < 8 -> Z.land (u32 (8 * w + 8)) (NWINDOWS * 8 - 1) = 8 * ((w + 1) mod NWINDOWS).
Proof.
  intros Hw. rewrite u32_id by (unfold is_u32; lia). unfold NWINDOWS. change (8 * 8 - 1) with (Z.ones 6).
  rewrite Z.land_ones by lia. change (2 ^ 6) with 64. Z.div_mod_to_equations. lia.
Qed.

Lemma low3 r : Z.land r LOBITS3 = r mod 8.
Proof. change LOBITS3 with (Z.ones 3). by rewrite Z.land_ones by lia. Qed.
Lemma group r : Z.shiftr r 3 = r / 8.
Proof. by rewrite Z.shiftr_div_pow2 by lia. Qed.

(** Reading register [r] of window [w] is reading its cell. *)
Lemma read_cell c w r old :
  cwp_base_ c = 8 * w -> 0 <= w < 8 -> 0 <= r < 32 -> read_reg_of c r old = cell_val c (cell_of w r).
Proof.
  intros Hb Hw Hr. unfold read_reg_of, cell_of. cbv zeta. rewrite Hb, next_window, low3, group by done.
  assert (r mod 8 = r - 8 * (r / 8)) as Em by (Z.div_mod_to_equations; lia).
  assert (0 <= r mod 8 < 8) by (by apply Z.mod_pos_bound). rewrite !lor_window by done.
  rewrite (proj2 (Z.eqb_neq r GLOBALREG8)) by (unfold GLOBALREG8; lia).
  destruct (r / 8 =? 0) eqn:E0; [rewrite (proj2 (Z.ltb_lt r 8)) by (Z.div_mod_to_equations; lia);
    cbn; do 2 f_equal; lia|].
  rewrite (proj2 (Z.ltb_ge r 8)) by (Z.div_mod_to_equations; lia).
  destruct (r / 8 =? 1) eqn:E1; [rewrite (proj2 (Z.ltb_lt r 16)) by (Z.div_mod_to_equations; lia);
    cbn [cell_val]; do 2 f_equal; lia|].
  rewrite (proj2 (Z.ltb_ge r 16)) by (Z.div_mod_to_equations; lia).
  destruct (r / 8 =? 2) eqn:E2; [rewrite (proj2 (Z.ltb_lt r 24)) by (Z.div_mod_to_equations; lia);
    cbn [cell_val]; do 2 f_equal; lia|].
  rewrite (proj2 (Z.ltb_ge r 24)) by (Z.div_mod_to_equations; lia).
  rewrite (proj2 (Z.eqb_eq (r / 8) 3)) by (Z.div_mod_to_equations; lia).
  cbn [cell_val]. do 2 f_equal. Z.div_mod_to_equations. lia.
Qed.

(** Assignment to a cell; [%g0] stays zero. *)
Definition put_cell (c : cpu) (x : cell) (v : Z) : cpu :=
  match x with
  | Global i => c <| globals := <[0%nat := 0]> (<[Z.to_nat i := v]> (globals c)) |>
  | Local i => c <| locals := <[Z.to_nat i := v]> (locals c) |>
  | Out i => c <| outs := <[Z.to_nat i := v]> (outs c) |>
  end.

Lemma write_cell c w r v :
  cpu_words c -> cwp_base_ c = 8 * w -> 0 <= w < 8 -> 0 <= r < 32 ->
  write_reg_of c v r = Some (put_cell c (cell_of w r) v).
Proof.
  intros [] Hb Hw Hr. unfold write_reg_of, cell_of. cbv zeta. rewrite Hb, next_window, low3, group by done.
  change LOBITS2 with (Z.ones 2). rewrite Z.land_ones by lia. change (2 ^ 2) with 4.
  assert (0 <= (w + 1) mod NWINDOWS < 8) by (by apply Z.mod_pos_bound).
  assert (r / 8 mod 4 = r / 8) as -> by (apply Z.mod_small; Z.div_mod_to_equations; lia).
  assert (r mod 8 = r - 8 * (r / 8)) as Em by (Z.div_mod_to_equations; lia).
  assert (0 <= r mod 8 < 8) by (by apply Z.mod_pos_bound). rewrite !lor_window by done.
  rewrite (proj2 (Z.eqb_neq r GLOBALREG8)) by (unfold GLOBALREG8; lia).
  destruct (r / 8 =? 0) eqn:E0.
  { rewrite (proj2 (Z.ltb_lt r 8)) by (Z.div_mod_to_equations; lia). replace (r mod 8) with r by lia.
    rewrite array_set_in by lia. cbn. by rewrite array_set_in by (rewrite length_insert; lia). }
  rewrite (proj2 (Z.ltb_ge r 8)) by (Z.div_mod_to_equations; lia).
  destruct (r / 8 =? 1) eqn:E1.
  { rewrite (proj2 (Z.ltb_lt r 16)) by (Z.div_mod_to_equations; lia). rewrite array_set_in by lia.
    cbn. repeat f_equal. lia. }
  rewrite (proj2 (Z.ltb_ge r 16)) by (Z.div_mod_to_equations; lia).
  destruct (r / 8 =? 2) eqn:E2.
  { rewrite (proj2 (Z.ltb_lt r 24)) by (Z.div_mod_to_equations; lia). rewrite array_set_in by lia.
    cbn. repeat f_equal. lia. }
  rewrite (proj2 (Z.ltb_ge r 24)) by (Z.div_mod_to_equations; lia). rewrite array_set_in by lia.
  cbn. repeat f_equal. Z.div_mod_to_equations. lia.
Qed.

Definition cell_ok (x : cell) : Prop :=
  match x with Global i => 0 <= i < 8 | Local i | Out i => 0 <= i < 64 end.

Lemma cell_of_ok w r : 0 <= w < 8 -> 0 <= r < 32 -> cell_ok (cell_of w r).
Proof.
  intros Hw Hr. unfold cell_of. pose proof (Z.mod_pos_bound (w + 1) NWINDOWS eq_refl). unfold NWINDOWS in *.
  repeat case_match; cbn; lia.
Qed.

Lemma lookup_put (a : list Z) i j v :
  0 <= i < Z.of_nat (length a) -> 0 <= j ->
  (<[Z.to_nat i := v]> a : list Z) !! Z.to_nat j = if decide (i = j) then Some v else a !! Z.to_nat j.
Proof.
  intros Hi Hj. case_decide as E; [subst; apply list_lookup_insert_eq; lia|].
  apply list_lookup_insert_ne. lia.
Qed.

Lemma cell_val_put c x y v :
  cpu_words c -> cell_ok x -> cell_ok y ->
  cell_val (put_cell c x v) y =
    if decide (x = y /\ x <> Global 0) then Some v else cell_val c y.
Proof.
  intros [] Hx Hy. destruct x as [i|i|i], y as [j|j|j]; cbn in Hx, Hy |- *;
    try (rewrite decide_False by naive_solver; done).
  - destruct (decide (j = 0)) as [->|].
    + change (Z.to_nat 0) with 0%nat. rewrite list_lookup_insert_eq by (rewrite length_insert; lia).
      rewrite decide_False by naive_solver. done.
    + rewrite list_lookup_insert_ne, lookup_put by lia. repeat case_decide; naive_solver.
  - rewrite lookup_put by lia. repeat case_decide; naive_solver.
  - rewrite lookup_put by lia. repeat case_decide; naive_solver.
Qed.

Lemma put_cell_words c x v : cpu_words c -> cell_ok x -> is_u32 v -> cpu_words (put_cell c x v).
Proof.
  intros [] Hx Hv. destruct x; cbn in Hx; constructor; cbn; rewrite ?length_insert; auto using Forall_insert with u32.
  apply list_lookup_insert_eq. rewrite length_insert. lia.
Qed.

Lemma in_window_words w c : cpu_words c -> cell_val (in_window w c) = cell_val c.
Proof. done. Qed.

Lemma cell_val_some c x : cpu_words c -> cell_ok x -> is_Some (cell_val c x).
Proof. intros [] Hx. destruct x; cbn in *; apply lookup_lt_is_Some; lia. Qed.

(** C6. The register file implements the windows of the architecture: a write to
    register [r] in the current window never leaves the arrays, and afterwards
    register [r'] of any window [w'] reads the new value exactly when it is the
    same cell, [%g0] excepted, and what it read before otherwise.  The cells are
    shared as the manual says: the ins of a window are the outs of the next, the
    globals are common, the locals private. *)
Theorem register_windows c v r w' r' old :
  cpu_words c -> 0 <= r < 32 -> 0 <= w' < 8 -> 0 <= r' < 32 ->
  let w := psr_cwp (psr c) in
  exists c', write_reg_of c v r = Some c' /\
    (cell_of w r = cell_of w' r' /\ r <> 0 -> read_reg_of (in_window w' c') r' old = Some v) /\
    (cell_of w r <> cell_of w' r' \/ r = 0 ->
     read_reg_of (in_window w' c') r' old = read_reg_of (in_window w' c) r' old) /\
    is_Some (read_reg_of (in_window w' c) r' old).
Proof.
  intros Hc Hr Hw' Hr'. cbv zeta. set (w := psr_cwp (psr c)).
  assert (0 <= w < 8) as Hw by (pose proof (psr_cwp_range (psr c)); pose proof (w_cwp c Hc); unfold NWINDOWS, w in *; lia).
  exists (put_cell c (cell_of w r) v). split; [apply write_cell; [done|apply (w_base c Hc)|done..]|].
  rewrite !(read_cell (in_window _ _) w') by done. change (cell_val (in_window w' ?x)) with (cell_val x).
  rewrite cell_val_put by auto using cell_of_ok.
  assert (cell_of w r = Global 0 <-> r = 0) as Hg0.
  { unfold cell_of. repeat case_match; naive_solver lia. }
  split; [|split].
  - intros [E Hn]. by rewrite decide_True by naive_solver.
  - intros E. by rewrite decide_False by naive_solver.
  - by apply cell_val_some, cell_of_ok.
Qed.

(** ** Moving the window *)

Lemma save_cwp_spec p : psr_cwp p < 8 -> save_cwp p = (psr_cwp p - 1) mod NWINDOWS.
Proof.
  intros Hp. pose proof (psr_cwp_range p). unfold save_cwp. change (Z.land p LOBITS5) with (psr_cwp p).
  unfold u32, NWINDOWS. Z.div_mod_to_equations. lia.
Qed.
Lemma restore_cwp_spec p : restore_cwp p = (psr_cwp p + 1) mod NWINDOWS.
Proof.
  pose proof (psr_cwp_range p). unfold restore_cwp. change (Z.land p LOBITS5) with (psr_cwp p).
  by rewrite u32_id by (unfold is_u32; lia).
Qed.

(** The ins of the window below are the outs of this one. *)
Lemma ins_are_outs w i : 0 <= w < 8 -> 0 <= i < 8 -> cell_of ((w - 1) mod NWINDOWS) (24 + i) = cell_of w (8 + i).
Proof.
  intros Hw Hi. unfold cell_of. rewrite (proj2 (Z.ltb_ge (24 + i) 8)), (proj2 (Z.ltb_ge (24 + i) 16)),
    (proj2 (Z.ltb_ge (24 + i) 24)), (proj2 (Z.ltb_ge (8 + i) 8)), (proj2 (Z.ltb_lt (8 + i) 16)) by lia. f_equal. unfold NWINDOWS. Z.div_mod_to_equations. lia.
Qed.

(** No register of a window is a local of the window below it. *)
Lemma locals_below w r r' :
  0 <= w < 8 -> 0 <= r < 32 -> 16 <= r' < 24 -> cell_of ((w - 1) mod NWINDOWS) r' <> cell_of w r.
Proof.
  intros Hw Hr Hr'. unfold cell_of. pose proof (Z.mod_pos_bound (w - 1) NWINDOWS eq_refl).
  rewrite (proj2 (Z.ltb_ge r' 8)), (proj2 (Z.ltb_ge r' 16)), (proj2 (Z.ltb_lt r' 24)) by lia.
  destruct (r <? 8); [done|]. destruct (r <? 16) eqn:?; [done|]. destruct (r <? 24) eqn:E; [|done].
  intros [= Hx]. unfold NWINDOWS in *. Z.div_mod_to_equations. lia.
Qed.

(** Two registers of one window are one cell only when they are equal. *)
Lemma cell_inj w r r' : 0 <= w < 8 -> 0 <= r < 32 -> 0 <= r' < 32 -> cell_of w r = cell_of w r' -> r = r'.
Proof.
  intros Hw Hr Hr'. unfold cell_of. pose proof (Z.mod_pos_bound (w + 1) NWINDOWS eq_refl).
  destruct (r <? 8) eqn:?, (r' <? 8) eqn:?, (r <? 16) eqn:?, (r' <? 16) eqn:?, (r <? 24) eqn:?, (r' <? 24) eqn:?;
    intros [=]; unfold NWINDOWS in *; Z.div_mod_to_equations; lia.
Qed.

Lemma put_cell_frame c x v :
  psr (put_cell c x v) = psr c /\ cwp_base_ (put_cell c x v) = cwp_base_ c /\ pc (put_cell c x v) = pc c /\
  npc (put_cell c x v) = npc c /\ wim (put_cell c x v) = wim c.
Proof. by destruct x. Qed.

Section moves.
Context {W : Type} `{DeviceBus W}.
#[local] Open Scope M_scope.

(** [write_back] when the instruction computed a result for [rd]. *)
Lemma write_back_result (s : machine W) :
  cpu_words (m_cpu s) -> d_words (m_d s) -> d_wb (m_d s) = true -> 0 <= d_rd (m_d s) < 32 ->
  let d := m_d s in
  let c := update_cwp_bases (m_cpu s <| pc := d_pc d |> <| npc := d_npc d |> <| psr := d_psr d |>) in
  write_back s = (Val tt, mkMachine (put_cell c (cell_of (psr_cwp (d_psr d)) (d_rd d)) (d_value d))
                            d (m_mem s) (m_bps s)) /\ cpu_words c.
Proof.
  intros Hc Hd Hwb Hrd. cbv zeta. set (c := update_cwp_bases _).
  assert (cpu_words c) as Hc'.
  { destruct Hc, Hd. constructor; cbn; auto with u32. }
  split; [|done]. unfold write_back, bindM, getd, gets, updc, modify, write_reg, getc, gets, or_ub, bindM.
  cbn [id m_cpu m_d m_mem m_bps]. rewrite Hwb. cbn [when m_cpu]. fold c.
  rewrite (write_cell c (psr_cwp (d_psr (m_d s)))); [done|done|apply (w_base c Hc')|pose proof (w_cwp c Hc')|done].
  pose proof (psr_cwp_range (d_psr (m_d s))). unfold NWINDOWS in *. cbn in *. lia.
Qed.

(** [SAVE] and [RESTORE] move to the adjacent window: when the window mask
    allows it, the result goes to [rd] of the new window, every other
    register of the new window reads its cell, and after a [SAVE] the ins are
    the outs of the caller; when the mask forbids it, the instruction raises
    window overflow or underflow and does nothing else. *)
Theorem save_restore_windows (s : machine W) (save : bool) :
  cpu_words (m_cpu s) -> d_words (m_d s) -> d_psr (m_d s) = psr (m_cpu s) -> 0 <= d_rd (m_d s) < 32 ->
  let c := m_cpu s in
  let w := psr_cwp (psr c) in
  let w' := (if save then w - 1 else w + 1) mod NWINDOWS in
  let op := (if save then exec_SAVE else exec_RESTORE : M (machine W) unit) in
  if Z.testbit (wim c) w'
  then op s = trap (if save then SPARC_WINDOW_OVERFLOW else SPARC_WINDOW_UNDERFLOW) s
  else exists c' d', (op ;; write_back) s = (Val tt, mkMachine c' d' (m_mem s) (m_bps s)) /\
    psr_cwp (psr c') = w' /\ cwp_base_ c' = 8 * w' /\ pc c' = d_npc (m_d s) /\
    npc c' = u32 (d_npc (m_d s) + 4) /\ wim c' = wim c /\
    (forall r, 0 <= r < 32 ->
      read_reg_of c' r 0 = if decide (r = d_rd (m_d s) /\ r <> 0) then Some (d_ev (m_d s))
                           else cell_val c (cell_of w' r)) /\
    (save = true -> forall i, 0 <= i < 8 -> 24 + i <> d_rd (m_d s) ->
      read_reg_of c' (24 + i) 0 = read_reg_of c (8 + i) 0).
Proof.
  intros Hc Hd Hp Hrd. cbv zeta. set (w := psr_cwp (psr (m_cpu s))). set (w' := _ mod NWINDOWS).
  assert (0 <= w < 8) as Hw.
  { pose proof (psr_cwp_range (psr (m_cpu s))). pose proof (w_cwp _ Hc). unfold NWINDOWS, w in *. lia. }
  assert (0 <= w' < 8) as Hw' by (by apply Z.mod_pos_bound).
  assert ((if save then save_cwp (d_psr (m_d s)) else restore_cwp (d_psr (m_d s))) = w') as Ew.
  { unfold w', w. rewrite Hp. destruct save; [apply save_cwp_spec|apply restore_cwp_spec]. apply Hw. }
  assert (Z.land w' 31 = w') as Ew31 by (unfold w'; apply land31_mod8).
  assert (negb (Z.land (Z.shiftr (wim (m_cpu s)) w') LOBITS1 =? 0) = Z.testbit (wim (m_cpu s)) w') as Ht.
  { apply truth_shift_land. lia. }
  destruct (Z.testbit (wim (m_cpu s)) w') eqn:Eb.
  { destruct save; unfold exec_SAVE, exec_RESTORE; do 2 mstep; cbn [id]; rewrite Ew, Ht; done. }
  set (d' := m_d s <| d_psr := with_cwp (d_psr (m_d s)) w' |> <| d_wb := true |> <| d_value := d_ev (m_d s) |>
               <| d_pc := d_npc (m_d s) |> <| d_npc := u32 (d_npc (m_d s) + 4) |>).
  assert ((if save then exec_SAVE else exec_RESTORE) s =
          (Val tt, mkMachine (m_cpu s) d' (m_mem s) (m_bps s))) as Eop.
  { destruct save; unfold exec_SAVE, exec_RESTORE; do 2 mstep; cbn [id]; rewrite Ew, Ht; done. }
  assert (d_words d') as Hd'.
  { destruct Hd. constructor; cbn -[Z.lt]; auto with u32. rewrite with_cwp_cwp, Ew31. apply Hw'. }
  destruct (write_back_result (mkMachine (m_cpu s) d' (m_mem s) (m_bps s)) Hc Hd' eq_refl Hrd) as [Ewb Hcw].
  eexists _, d'. split; [erewrite bindM_val by exact Eop; exact Ewb|].
  set (c1 := update_cwp_bases _) in *. cbn [m_d m_cpu] in c1.
  assert (psr_cwp (psr c1) = w') as Ecwp by (cbn; by rewrite with_cwp_cwp).
  change (psr_cwp (d_psr (m_d _))) with (psr_cwp (psr c1)). rewrite Ecwp. cbn [m_d].
  change (d_rd d') with (d_rd (m_d s)). change (d_value d') with (d_ev (m_d s)).
  assert (cell_ok (cell_of w' (d_rd (m_d s)))) as Hcell by (by apply cell_of_ok).
  set (c' := put_cell c1 _ _).
  assert (psr c' = psr c1 /\ cwp_base_ c' = cwp_base_ c1 /\ pc c' = pc c1 /\ npc c' = npc c1 /\ wim c' = wim c1)
    as (E1 & E2 & E3 & E4 & E5) by apply put_cell_frame.
  assert (cwp_base_ c' = 8 * w') as Eb' by (by rewrite E2, (w_base _ Hcw), Ecwp).
  assert (forall r, 0 <= r < 32 ->
      read_reg_of c' r 0 = if decide (r = d_rd (m_d s) /\ r <> 0) then Some (d_ev (m_d s))
                           else cell_val (m_cpu s) (cell_of w' r)) as Hread.
  { intros r Hr. rewrite (read_cell c' w') by done. unfold c'. rewrite cell_val_put by auto using cell_of_ok.
    apply decide_ext. split.
    - intros [E%cell_inj Hn]; [|done..]. split; [done|]. intros ->. by rewrite E in Hn.
    - intros [-> Hn]. split; [done|]. unfold cell_of. repeat case_match; naive_solver lia. }
  rewrite E1. do 6 (split; [done|]).
  intros -> i Hi Hne. rewrite Hread, decide_False by naive_solver lia.
  rewrite (read_cell (m_cpu s) w) by (done || lia || apply (w_base _ Hc)). by rewrite <- ins_are_outs.
Qed.
End moves.

(** ** Trap entry and return *)

Lemma testbit_bit p k i : 0 <= k -> Z.testbit (bit p k) i = (i =? 0) && Z.testbit p k.
Proof.
  intros Hk. rewrite bit_testbit by done. destruct (i =? 0) eqn:E.
  - apply Z.eqb_eq in E as ->. by rewrite testbit_b2z_0.
  - destruct (Z.testbit p k); cbn [b2z andb]; [|apply Z.bits_0].
    destruct (decide (i < 0)); [apply Z.testbit_neg_r; lia|]. apply (testbit_high 1 1); lia.
Qed.

(** The PSR of a trap, bit by bit: the window below, traps disabled, supervisor
    mode, the old mode in PS, the rest unchanged. *)
Lemma trap_psr_spec p i :
  psr_cwp p < 8 -> 0 <= i ->
  Z.testbit (trap_psr p) i =
    if i <? 5 then Z.testbit ((psr_cwp p - 1) mod NWINDOWS) i
    else if i =? 5 then false
    else if i =? 6 then Z.testbit p 7
    else if i =? 7 then true
    else Z.testbit p i.
Proof.
  intros Hp Hi. pose proof (psr_cwp_range p). unfold trap_psr.
  set (p3 := set_psr_s 1 _).
  assert (psr_cwp p3 = psr_cwp p) as ->.
  { apply psr_cwp_ext. intros j Hj. unfold p3, set_psr_s, set_psr_ps, set_psr_et.
    rewrite !put_bits_spec by lia. by rewrite !(proj2 (Z.leb_gt _ j)) by lia. }
  assert (Z.land (u32 (psr_cwp p - 1)) LOBITS5 mod NWINDOWS = (psr_cwp p - 1) mod NWINDOWS) as ->.
  { unfold LOBITS5, u32, NWINDOWS. change 31 with (Z.ones 5). rewrite Z.land_ones by lia.
    change (2 ^ 5) with 32. Z.div_mod_to_equations. lia. }
  unfold set_psr_cwp. rewrite put_bits_spec, (proj2 (Z.leb_le 0 i)), Z.sub_0_r by lia. change (0 + 5) with 5. cbn [andb].
  destruct (i <? 5) eqn:E5; [done|]. unfold p3, set_psr_s, set_psr_ps, set_psr_et, psr_s.
  rewrite !put_bits_spec by lia. rewrite testbit_bit, put_bits_spec by lia. ground. cbn [andb].
  destruct (decide (i = 5)) as [->|]; [reflexivity|]. destruct (decide (i = 6)) as [->|]; [reflexivity|].
  destruct (decide (i = 7)) as [->|]; [reflexivity|].
  rewrite (proj2 (Z.eqb_neq i 5)), (proj2 (Z.eqb_neq i 6)), (proj2 (Z.eqb_neq i 7)) by done.
  rewrite !(proj2 (Z.ltb_ge i _)) by lia. by rewrite !andb_false_r.
Qed.

Lemma trap_psr_cwp p : psr_cwp p < 8 -> psr_cwp (trap_psr p) = (psr_cwp p - 1) mod NWINDOWS.
Proof.
  intros Hp. rewrite (psr_cwp_ext _ ((psr_cwp p - 1) mod NWINDOWS)).
  - unfold psr_cwp at 1. apply land31_mod8.
  - intros i Hi. rewrite trap_psr_spec by (done || lia). by rewrite (proj2 (Z.ltb_lt i 5)) by lia.
Qed.

Lemma trap_psr_modes p :
  psr_cwp p < 8 -> psr_et (trap_psr p) = 0 /\ psr_s (trap_psr p) = 1 /\ psr_ps (trap_psr p) = psr_s p.
Proof. intros Hp. unfold psr_et, psr_s, psr_ps. by rewrite !bit_testbit, !trap_psr_spec by (done || lia). Qed.

(** The processor after trap entry. *)
Definition trap_cpu (c : cpu) : cpu :=
  let w' := (psr_cwp (psr c) - 1) mod NWINDOWS in
  let c1 := update_cwp_bases (c <| psr := trap_psr (psr c) |>) in
  let c2 := put_cell c1 (cell_of w' 17) (pc c) in
  let c3 := put_cell c2 (cell_of w' 18) (npc c) in
  let t := trap_tbr (tbr c) (trap_type c) in
  c3 <| tbr := t |> <| pc := t |> <| npc := u32 (t + 4) |>
     <| trap_type := Z.land (trap_type c) (not32 LOBITS8) |>.

Section trap_cpu.
Context (c : cpu) (Hc : cpu_words c).
Let w := psr_cwp (psr c).
Let w' := (w - 1) mod NWINDOWS.

Lemma window_range : 0 <= w < 8 /\ 0 <= w' < 8.
Proof using Hc.
  split; [|by apply Z.mod_pos_bound].
  pose proof (psr_cwp_range (psr c)). pose proof (w_cwp _ Hc). unfold NWINDOWS, w in *. lia.
Qed.

Lemma trap_window_words :
  let c1 := update_cwp_bases (c <| psr := trap_psr (psr c) |>) in
  cpu_words c1 /\ cpu_words (put_cell c1 (cell_of w' 17) (pc c)) /\
  cpu_words (put_cell (put_cell c1 (cell_of w' 17) (pc c)) (cell_of w' 18) (npc c)) /\
  psr_cwp (psr c1) = w'.
Proof using Hc.
  cbv zeta. destruct window_range as [Hw Hw'].
  assert (cpu_words (update_cwp_bases (c <| psr := trap_psr (psr c) |>))) as Hc1.
  { destruct (trap_psr_words (psr c) (w_psr _ Hc)). destruct Hc. constructor; cbn; auto with u32. }
  assert (cpu_words (put_cell (update_cwp_bases (c <| psr := trap_psr (psr c) |>)) (cell_of w' 17) (pc c))) as Hc2.
  { apply put_cell_words; [done|by apply cell_of_ok|apply (w_pc _ Hc)]. }
  split; [done|]. split; [done|]. split.
  - apply put_cell_words; [done|by apply cell_of_ok|apply (w_npc _ Hc)].
  - apply trap_psr_cwp, Hw.
Qed.

Lemma trap_cpu_words : cpu_words (trap_cpu c).
Proof using Hc.
  destruct trap_window_words as (_ & _ & H3 & _). unfold trap_cpu. cbv zeta. fold w w'.
  assert (is_u32 (trap_tbr (tbr c) (trap_type c))).
  { apply lor_u32; [apply land_u32_l, (w_tbr _ Hc)|by apply (field_u32 _ 8 4)]. }
  assert (is_u32 (Z.land (trap_type c) (not32 LOBITS8))) by auto with u32.
  destruct H3. constructor; cbn; auto with u32.
Qed.

Lemma trap_cpu_psr : psr (trap_cpu c) = trap_psr (psr c).
Proof using Type.
  unfold trap_cpu. cbv zeta. cbn [psr set_field_of set_c_trap_type set_c_npc set_c_pc set_c_tbr].
  by rewrite !(proj1 (put_cell_frame _ _ _)).
Qed.

Lemma trap_cpu_cells x :
  cell_ok x ->
  cell_val (trap_cpu c) x =
    if decide (cell_of w' 18 = x) then Some (npc c)
    else if decide (cell_of w' 17 = x) then Some (pc c) else cell_val c x.
Proof using Hc.
  intros Hx. destruct trap_window_words as (H1 & H2 & H3 & _), window_range as [Hw Hw'].
  change (cell_val (trap_cpu c) x) with
    (cell_val (put_cell (put_cell (update_cwp_bases (c <| psr := trap_psr (psr c) |>)) (cell_of w' 17) (pc c))
                 (cell_of w' 18) (npc c)) x).
  rewrite !cell_val_put by (done || by apply cell_of_ok).
  change (cell_val (update_cwp_bases _) x) with (cell_val c x).
  assert (cell_of w' 17 <> Global 0 /\ cell_of w' 18 <> Global 0) as [? ?] by done.
  repeat case_decide; first [done|exfalso; tauto].
Qed.

Lemma trap_cpu_locals :
  read_reg_of (trap_cpu c) 17 0 = Some (pc c) /\ read_reg_of (trap_cpu c) 18 0 = Some (npc c).
Proof using Hc.
  destruct window_range as [Hw Hw'].
  assert (cwp_base_ (trap_cpu c) = 8 * w') as Hb.
  { rewrite (w_base _ trap_cpu_words), trap_cpu_psr. f_equal. apply trap_psr_cwp, Hw. }
  rewrite !(read_cell _ w') by (done || lia). rewrite !trap_cpu_cells by by apply cell_of_ok.
  rewrite decide_False, !decide_True by (done || by intros E%cell_inj). done.
Qed.

Lemma trap_cpu_kept r : 0 <= r < 32 -> cell_val (trap_cpu c) (cell_of w r) = read_reg_of c r 0.
Proof using Hc.
  intros Hr. destruct window_range as [Hw Hw']. rewrite trap_cpu_cells by by apply cell_of_ok.
  rewrite !decide_False by (by apply locals_below). symmetry. apply read_cell; [apply (w_base _ Hc)|done..].
Qed.
End trap_cpu.

Section traps.
Context {W : Type} `{DeviceBus W} `{IntCtl W}.
#[local] Open Scope M_scope.

(** One [write_reg] of [CPU::run]. *)
Lemma write_reg_cell (s : machine W) v r :
  cpu_words (m_cpu s) -> 0 <= r < 32 ->
  write_reg v r s = (Val tt, mkMachine (put_cell (m_cpu s) (cell_of (psr_cwp (psr (m_cpu s))) r) v)
                               (m_d s) (m_mem s) (m_bps s)).
Proof.
  intros Hc Hr. unfold write_reg, getc, gets, or_ub, bindM, updc, modify. cbn [m_cpu].
  rewrite (write_cell _ (psr_cwp (psr (m_cpu s)))); [done|done|apply (w_base _ Hc)| |done].
  apply (window_range _ Hc).
Qed.

Lemma take_trap_runs (s : machine W) :
  cpu_words (m_cpu s) -> trap_type (m_cpu s) <> 0 ->
  take_trap s = (Val tt, mkMachine (trap_cpu (m_cpu s)) (m_d s) (m_mem s) (m_bps s)).
Proof.
  intros Hc Ht. destruct (trap_window_words _ Hc) as (H1 & H2 & H3 & Ew). cbv zeta in *.
  unfold take_trap, truth. mstep. rewrite (proj2 (Z.eqb_neq _ _) Ht). cbn [negb when].
  do 2 mstep. cbn [m_cpu m_d m_mem m_bps id].
  set (c := m_cpu s) in *. set (c1 := update_cwp_bases _) in *.
  rewrite (bindM_val _ _ _ _ _ (write_reg_cell (mkMachine c1 (m_d s) (m_mem s) (m_bps s)) (pc c) LOCALREG1 H1
      ltac:(unfold LOCALREG1; lia))). cbn [m_cpu m_d m_mem m_bps]. rewrite Ew.
  set (c2 := put_cell c1 _ _) in *. assert (psr c2 = psr c1) as E2 by apply put_cell_frame.
  rewrite (bindM_val _ _ _ _ _ (write_reg_cell (mkMachine c2 (m_d s) (m_mem s) (m_bps s)) (npc c) LOCALREG2 H2
      ltac:(unfold LOCALREG2; lia))). cbn [m_cpu m_d m_mem m_bps]. rewrite E2, Ew. done.
Qed.

(** What the trap entry of the run loop does, whatever PSR it starts from. *)
Lemma take_trap_enters (s : machine W) :
  cpu_words (m_cpu s) -> trap_type (m_cpu s) <> 0 ->
  let c := m_cpu s in
  let w := psr_cwp (psr c) in
  exists c', take_trap s = (Val tt, mkMachine c' (m_d s) (m_mem s) (m_bps s)) /\
    psr c' = trap_psr (psr c) /\ psr_cwp (psr c') = (w - 1) mod NWINDOWS /\
    psr_et (psr c') = 0 /\ psr_s (psr c') = 1 /\ psr_ps (psr c') = psr_s (psr c) /\
    read_reg_of c' 17 0 = Some (pc c) /\ read_reg_of c' 18 0 = Some (npc c) /\
    (forall r, 0 <= r < 32 -> cell_val c' (cell_of w r) = read_reg_of c r 0) /\
    tbr c' = trap_tbr (tbr c) (trap_type c) /\ pc c' = tbr c' /\ npc c' = u32 (tbr c' + 4) /\
    Z.land (trap_type c') 0xff = 0 /\ cpu_words c'.
Proof.
  intros Hc Ht. cbv zeta. exists (trap_cpu (m_cpu s)). split; [by apply take_trap_runs|].
  rewrite trap_cpu_psr. destruct (window_range _ Hc) as [Hw _].
  destruct (trap_psr_modes (psr (m_cpu s))) as (M1 & M2 & M3); [apply Hw|].
  destruct (trap_cpu_locals _ Hc) as [L1 L2].
  split; [done|]. split; [apply trap_psr_cwp, Hw|]. do 5 (split; [done|]). split; [apply (trap_cpu_kept _ Hc)|].
  do 3 (split; [done|]). split; [|by apply trap_cpu_words].
  change (trap_type (trap_cpu (m_cpu s))) with (Z.land (trap_type (m_cpu s)) (not32 LOBITS8)).
  rewrite <- Z.land_assoc. change (Z.land (not32 LOBITS8) 0xff) with 0. apply Z.land_0_r.
Qed.

(** C7. Trap entry: with a trap pending and traps enabled, the processor moves
    to the window below, saves PC and nPC in its [%l1] and [%l2], disables
    traps, enters supervisor mode with the old mode in PS, vectors through the
    trap base and clears the pending number, and leaves every register of the
    interrupted window, the memory and the decoder as they were. A trap that
    is pending while traps are disabled is outside the claim: the manual sends
    the processor to the error mode, which the code does not have, see
    [trap_without_error_mode]. *)
Theorem trap_entry (s : machine W) :
  cpu_words (m_cpu s) -> trap_type (m_cpu s) <> 0 -> psr_et (psr (m_cpu s)) = 1 ->
  let c := m_cpu s in
  let w := psr_cwp (psr c) in
  exists c', take_trap s = (Val tt, mkMachine c' (m_d s) (m_mem s) (m_bps s)) /\
    psr c' = trap_psr (psr c) /\ psr_cwp (psr c') = (w - 1) mod NWINDOWS /\
    psr_et (psr c') = 0 /\ psr_s (psr c') = 1 /\ psr_ps (psr c') = psr_s (psr c) /\
    read_reg_of c' 17 0 = Some (pc c) /\ read_reg_of c' 18 0 = Some (npc c) /\
    (forall r, 0 <= r < 32 -> cell_val c' (cell_of w r) = read_reg_of c r 0) /\
    tbr c' = trap_tbr (tbr c) (trap_type c) /\ pc c' = tbr c' /\ npc c' = u32 (tbr c' + 4) /\
    Z.land (trap_type c') 0xff = 0 /\ cpu_words c'.
Proof. intros Hc Ht _. by apply take_trap_enters. Qed.

(** The code has no error mode: a trap pending with traps disabled is entered
    like any other, window decrement and saved addresses included, where the
    manual halts the processor in the error mode with its registers as they
    are. *)
Lemma trap_without_error_mode (s : machine W) :
  cpu_words (m_cpu s) -> trap_type (m_cpu s) <> 0 -> psr_et (psr (m_cpu s)) = 0 ->
  exists c', take_trap s = (Val tt, mkMachine c' (m_d s) (m_mem s) (m_bps s)) /\
    psr_cwp (psr c') = (psr_cwp (psr (m_cpu s)) - 1) mod NWINDOWS /\
    read_reg_of c' 17 0 = Some (pc (m_cpu s)) /\ pc c' = trap_tbr (tbr (m_cpu s)) (trap_type (m_cpu s)).
Proof.
  intros Hc Ht _. destruct (take_trap_enters s Hc Ht) as (c' & E & _ & Hw & _ & _ & _ & H1 & _ & _ & Hb & Hp & _).
  exists c'. rewrite Hp. done.
Qed.

(** The PSR [RETT] computes from the PSR of a trap handler. *)
Lemma rett_psr p :
  psr_cwp p < 8 -> psr_et p = 1 ->
  set_psr_cwp (Z.land ((psr_cwp (trap_psr p) + 1) mod NWINDOWS) LOBITS5)
    (set_psr_et 1 (set_psr_s (psr_ps (trap_psr p)) (trap_psr p))) = set_psr_ps (psr_s p) p.
Proof.
  intros Hp Het. pose proof (psr_cwp_range p). rewrite trap_psr_cwp by done.
  destruct (trap_psr_modes p Hp) as (_ & _ & ->).
  assert (((psr_cwp p - 1) mod NWINDOWS + 1) mod NWINDOWS = psr_cwp p) as ->.
  { unfold NWINDOWS. Z.div_mod_to_equations. lia. }
  unfold psr_et in Het. rewrite bit_testbit in Het by lia.
  apply Z.bits_inj'. intros i Hi. unfold set_psr_cwp, set_psr_et, set_psr_s, set_psr_ps, psr_s.
  rewrite !put_bits_spec, !testbit_bit, trap_psr_spec by (done || lia).
  rewrite (proj2 (Z.leb_le 0 i)) by done. change (0 + 5) with 5. rewrite Z.sub_0_r. cbn [andb].
  destruct (i <? 5) eqn:E5.
  - unfold psr_cwp, LOBITS5. change 31 with (Z.ones 5). rewrite !Z.land_spec, !Z.ones_spec_low by lia.
    rewrite !andb_true_r. by rewrite (proj2 (Z.leb_gt 6 i)) by lia.
  - destruct (decide (i = 5)) as [->|]; [ground; destruct (Z.testbit p 5); [done|discriminate Het]|].
    destruct (decide (i = 6)) as [->|]; [done|]. destruct (decide (i = 7)) as [->|]; [done|].
    rewrite (proj2 (Z.eqb_neq i 5)), (proj2 (Z.eqb_neq i 6)), (proj2 (Z.eqb_neq i 7)) by done.
    rewrite !(proj2 (Z.ltb_ge i _)) by lia. by rewrite !andb_false_r.
Qed.

(** C8. [RETT] undoes the trap: executed by a handler whose PSR is the one
    trap entry left, with an aligned target and the interrupted window not
    masked, it restores the PSR that was interrupted, window, traps enabled
    and mode included, up to PS, which still records the mode, and continues
    at the delay slot's successor and the target. *)
Theorem rett_undoes_trap (s : machine W) p :
  psr_cwp p < 8 -> psr_et p = 1 -> d_psr (m_d s) = trap_psr p ->
  Z.land (d_ev (m_d s)) 3 = 0 -> is_u32 (d_ev (m_d s)) ->
  Z.testbit (wim (m_cpu s)) (psr_cwp p) = false ->
  exec_RETT s =
    (Val tt, mkMachine (m_cpu s)
      (m_d s <| d_pc := d_npc (m_d s) |> <| d_npc := d_ev (m_d s) |> <| d_psr := set_psr_ps (psr_s p) p |>)
      (m_mem s) (m_bps s)).
Proof.
  intros Hp Het Hd Hev Hu Hw. pose proof (psr_cwp_range p). unfold exec_RETT. do 2 mstep. cbn [id].
  rewrite Hd, rett_psr by done.
  destruct (trap_psr_modes p Hp) as (-> & -> & _). cbn [truth Z.eqb negb andb orb].
  change (Z.land (d_ev (m_d s)) LOBITS2) with (Z.land (d_ev (m_d s)) 3). rewrite Hev. cbn [truth Z.eqb negb].
  rewrite trap_psr_cwp by done.
  assert (((psr_cwp p - 1) mod NWINDOWS + 1) mod NWINDOWS = psr_cwp p) as ->.
  { unfold NWINDOWS. Z.div_mod_to_equations. lia. }
  unfold LOBITS1. fold (truth (Z.land (Z.shiftr (wim (m_cpu s)) (psr_cwp p)) 1)).
  rewrite truth_shift_land, Hw by lia. unfold updd, modify.
  assert (Z.land (d_ev (m_d s)) (not32 LOBITS2) = d_ev (m_d s)) as ->; [|done].
  apply Z.bits_inj'. intros i Hi. rewrite Z.land_spec. destruct (decide (i < 32)).
  - rewrite testbit_not32 by lia. destruct (decide (i < 2)).
    + apply (f_equal (fun z => Z.testbit z i)) in Hev. rewrite Z.land_spec, Z.bits_0 in Hev.
      change 3 with (Z.ones 2) in Hev. rewrite Z.ones_spec_low, andb_true_r in Hev by lia. by rewrite Hev.
    + change LOBITS2 with (Z.ones 2). by rewrite Z.ones_spec_high, andb_true_r by lia.
  - by rewrite (testbit_high (d_ev (m_d s)) 32 i) by (done || lia).
Qed.

(** The devices after an operation of theirs. *)
Definition on_world (f : W -> W) (ms : memsys W) : memsys W :=
  mkMemsys (ms_mmu ms) (ms_mc ms <| world := f (world (ms_mc ms)) |>).

(** One due poll followed by the interrupt and trap tests of the loop, for
    any level and any PIL: the code compares the two and nothing else. *)
Lemma poll_takes_above_pil (s : machine W) l w1 w2 :
  cpu_words (m_cpu s) -> irl (m_cpu s) = 0 -> trap_type (m_cpu s) = 0 -> 0 < l < 16 ->
  let c := m_cpu s in
  let world_of (m : machine W) := world (ms_mc (m_mem m)) in
  get_irq_hint (cpu_id_ c) (world_of s) = (Val l, w1) ->
  clear_irq l (cpu_id_ c) w1 = (Val tt, w2) ->
  exists s', (poll_irq 1 ;; take_interrupt ;; take_trap) s = (Val tt, s') /\
    if truth (psr_et (psr c)) && (psr_pil (psr c) <? l)
    then pc (m_cpu s') = Z.lor (Z.land (tbr c) (not32 0xff0)) (Z.shiftl (16 + l) 4) /\
         psr (m_cpu s') = trap_psr (psr c) /\
         read_reg_of (m_cpu s') 17 0 = Some (pc c) /\ read_reg_of (m_cpu s') 18 0 = Some (npc c) /\
         irl (m_cpu s') = 0 /\ world_of s' = w2
    else m_cpu s' = c <| irl := l |> /\ world_of s' = w1.
Proof.
  intros Hc Hirl Htt Hl. cbv zeta. intros Hhint Hclear. set (c := m_cpu s) in *.
  set (c1 := c <| irl := l |>). set (s1 := mkMachine c1 (m_d s) (on_world (fun _ => w1) (m_mem s)) (m_bps s)).
  assert (poll_irq 1 s = (Val IRQ_CHECK_INTERVAL, s1)) as E1.
  { unfold poll_irq. change (1 - 1 =? 0) with true. cbv iota zeta. mstep. fold c.
    unfold on_intc, on_mem, on_mc, on_device, zoom, bindM at 1. cbn [id].
    rewrite Hhint. fold c. rewrite Hirl, Htt. rewrite (proj2 (Z.ltb_lt 0 l)) by lia. cbn [Z.eqb andb when].
    unfold set_irl. mstep. unfold ret. cbn [m_cpu m_d m_mem m_bps]. fold c.
    change 0xf with (Z.ones 4). rewrite Z.land_ones, Z.mod_small by lia. done. }
  set (c2 := c1 <| trap_type := u32 (l + SPARC_INTERRUPT) |> <| irl := 0 |>).
  set (s2 := mkMachine c2 (m_d s) (on_world (fun _ => w2) (m_mem s)) (m_bps s)).
  set (g := truth (psr_et (psr c)) && (psr_pil (psr c) <? l)).
  assert (take_interrupt s1 = (Val tt, if g then s2 else s1)) as E2.
  { unfold take_interrupt. mstep. cbn [id m_cpu s1]. change (trap_type c1) with (trap_type c).
    change (psr c1) with (psr c). change (irl c1) with l. rewrite Htt. cbn [Z.eqb andb]. fold g.
    destruct g; cbn [when]; [|done]. mstep.
    unfold on_intc, on_mem, on_mc, on_device, zoom, bindM.
    cbn [m_cpu m_mem s1 on_world world ms_mc set_field_of set_world].
    change (cpu_id_ c1) with (cpu_id_ c). by rewrite Hclear. }
  rewrite (bindM_val _ _ _ _ _ E1), (bindM_val _ _ _ _ _ E2). destruct g.
  - assert (cpu_words c2) as Hc2.
    { destruct Hc. constructor; cbn -[Z.lt Z.le]; auto with u32. lia. }
    assert (u32 (l + SPARC_INTERRUPT) = 16 + l) as Et.
    { unfold SPARC_INTERRUPT. rewrite u32_id by (unfold is_u32; lia). lia. }
    exists (mkMachine (trap_cpu c2) (m_d s) (m_mem s2) (m_bps s)). split.
    + apply (take_trap_runs s2); [done|]. change (trap_type (m_cpu s2)) with (u32 (l + SPARC_INTERRUPT)). lia.
    + cbn [m_cpu m_mem s2]. rewrite trap_cpu_psr. destruct (trap_cpu_locals _ Hc2) as [L1 L2].
      split; [|done]. change (pc (trap_cpu c2)) with (trap_tbr (tbr c) (u32 (l + SPARC_INTERRUPT))).
      rewrite Et. unfold trap_tbr, LOBITS8. change 255 with (Z.ones 8).
      rewrite Z.land_ones, (Z.mod_small (16 + l)) by lia. done.
  - exists s1. split; [|done]. unfold take_trap. mstep. cbn [m_cpu s1]. change (trap_type c1) with (trap_type c).
    by rewrite Htt.
Qed.

(** C9. Interrupts: when the poll of the controller is due and the controller
    reports level [l], the processor takes the interrupt in the same iteration
    of the run loop exactly when no trap is pending, traps are enabled and
    the level is above PIL: it acknowledges the level to the controller and
    vectors to trap [0x10 + l] with the registers of the interrupted window
    kept. Level 15 at PIL 15 is outside the claim: the manual makes level 15
    unmaskable and the code does not, see [level15_is_masked]. *)
Theorem interrupt_delivery (s : machine W) l w1 w2 :
  cpu_words (m_cpu s) -> irl (m_cpu s) = 0 -> trap_type (m_cpu s) = 0 -> 0 < l < 16 ->
  (l = 15 -> psr_pil (psr (m_cpu s)) <> 15) ->
  let c := m_cpu s in
  let world_of (m : machine W) := world (ms_mc (m_mem m)) in
  get_irq_hint (cpu_id_ c) (world_of s) = (Val l, w1) ->
  clear_irq l (cpu_id_ c) w1 = (Val tt, w2) ->
  exists s', (poll_irq 1 ;; take_interrupt ;; take_trap) s = (Val tt, s') /\
    if truth (psr_et (psr c)) && (psr_pil (psr c) <? l)
    then pc (m_cpu s') = Z.lor (Z.land (tbr c) (not32 0xff0)) (Z.shiftl (16 + l) 4) /\
         psr (m_cpu s') = trap_psr (psr c) /\
         read_reg_of (m_cpu s') 17 0 = Some (pc c) /\ read_reg_of (m_cpu s') 18 0 = Some (npc c) /\
         irl (m_cpu s') = 0 /\ world_of s' = w2
    else m_cpu s' = c <| irl := l |> /\ world_of s' = w1.
Proof. intros Hc Hirl Htt Hl _. by apply poll_takes_above_pil. Qed.

(** Level 15 at PIL 15, with traps enabled and no trap pending: it stays
    pending in [irl] and is not acknowledged, where the manual takes it. *)
Lemma level15_is_masked (s : machine W) w1 :
  cpu_words (m_cpu s) -> irl (m_cpu s) = 0 -> trap_type (m_cpu s) = 0 ->
  psr_et (psr (m_cpu s)) = 1 -> psr_pil (psr (m_cpu s)) = 15 ->
  get_irq_hint (cpu_id_ (m_cpu s)) (world (ms_mc (m_mem s))) = (Val 15, w1) ->
  clear_irq 15 (cpu_id_ (m_cpu s)) w1 = (Val tt, w1) ->
  exists s', (poll_irq 1 ;; take_interrupt ;; take_trap) s = (Val tt, s') /\
    m_cpu s' = m_cpu s <| irl := 15 |> /\ world (ms_mc (m_mem s')) = w1.
Proof.
  intros Hc Hirl Htt Het Hpil Hh Hcl.
  destruct (poll_takes_above_pil s 15 w1 w1 Hc Hirl Htt ltac:(lia) Hh Hcl) as (s' & E & Hs).
  exists s'. split; [done|]. rewrite Het, Hpil in Hs. done.
Qed.
End traps.

(** ** Concrete instances *)

(** The processor after reset: window 0, traps enabled, window 1 masked. *)
Definition demo_reset : cpu := reset 0x40000000 demo_cpu.

Lemma demo_reset_words : cpu_words demo_reset.
Proof. apply reset_words. unfold is_u32. lia. Qed.

Lemma register_windows_witness :
  exists c', write_reg_of demo_reset 77 8 = Some c' /\ read_reg_of (in_window 7 c') 24 0 = Some 77.
Proof.
  destruct (register_windows demo_reset 77 8 7 24 0 demo_reset_words ltac:(lia) ltac:(lia) ltac:(lia))
    as (c' & E & Hw & _).
  exists c'. split; [exact E|]. apply Hw. split; [reflexivity|lia].
Defined.

(** [save] into [%o6] with the result 0x1000. *)
Definition demo_save : machine unit :=
  mkMachine demo_reset
    (mkDecode 0x9de3bfa0 SAVE 14 14 0 0 0x1000 0x3c 1 0x40000000 0x40000004 reset_psr false 0 0)
    (m_mem demo_start) [].

Lemma demo_save_words : d_words (m_d demo_save).
Proof. by constructor; vm_compute. Qed.

Lemma save_restore_windows_witness :
  exists c' d', (exec_SAVE ;; write_back)%M demo_save = (Val tt, mkMachine c' d' (m_mem demo_start) []) /\
    psr_cwp (psr c') = 7 /\ read_reg_of c' 14 0 = Some 0x1000.
Proof.
  pose proof (save_restore_windows demo_save true demo_reset_words demo_save_words eq_refl ltac:(cbn; lia)) as Hs.
  cbn zeta in Hs. destruct Hs as (c' & d' & E & Hw & _ & _ & _ & _ & Hr & _).
  exists c', d'. split; [exact E|]. split; [exact Hw|]. rewrite (Hr 14) by lia. reflexivity.
Defined.

(** A window-overflow trap pending. *)
Definition demo_trap : machine unit :=
  mkMachine (demo_reset <| trap_type := SPARC_WINDOW_OVERFLOW |>) Decode0 (m_mem demo_start) [].

Lemma trap_entry_witness :
  exists c', @take_trap unit demo_trap = (Val tt, mkMachine c' Decode0 (m_mem demo_start) []) /\
    psr_cwp (psr c') = 7 /\ pc c' = 0x50 /\ read_reg_of c' 17 0 = Some 0x40000000.
Proof.
  destruct (trap_entry demo_trap) as (c' & E & _ & Hw & _ & _ & _ & H1 & _ & _ & Ht & Hp & _).
  - destruct demo_reset_words. constructor; cbn -[Z.lt Z.le]; auto with u32.
  - vm_compute. discriminate.
  - reflexivity.
  - exists c'. split; [exact E|]. split; [exact Hw|]. split; [rewrite Hp, Ht; reflexivity|exact H1].
Defined.

(** The handler's [rett] back to window 0. *)
Definition demo_rett : machine unit :=
  mkMachine demo_reset
    (mkDecode 0 RETT 0 18 0x40000004 0 0x40000004 0x39 0 0x50 0x40000000 (trap_psr reset_psr) false 0 0)
    (m_mem demo_start) [].

Lemma rett_undoes_trap_witness :
  exists s', exec_RETT demo_rett = (Val tt, s') /\ psr_cwp (d_psr (m_d s')) = 0 /\
    psr_et (d_psr (m_d s')) = 1 /\ d_pc (m_d s') = 0x40000000 /\ d_npc (m_d s') = 0x40000004.
Proof.
  eexists. split.
  - apply (rett_undoes_trap demo_rett reset_psr); [reflexivity..|unfold is_u32; cbn; lia|reflexivity].
  - repeat split; reflexivity.
Defined.

(** A controller that reports level 8. *)
Definition level8 : IntCtl unit := {| get_irq_hint _ := ret 8; clear_irq _ _ := ret tt |}.

Lemma interrupt_delivery_witness :
  exists s', (@poll_irq unit level8 1 ;; @take_interrupt unit level8 ;; take_trap)%M
               (mkMachine demo_reset Decode0 (m_mem demo_start) []) = (Val tt, s') /\ pc (m_cpu s') = 0x180.
Proof.
  destruct (@interrupt_delivery unit level8 (mkMachine demo_reset Decode0 (m_mem demo_start) []) 8 tt tt
    demo_reset_words eq_refl eq_refl ltac:(lia) ltac:(discriminate) eq_refl eq_refl) as (s' & E & Hs).
  exists s'. split; [exact E|]. exact (proj1 Hs).
Defined.
