(* ===== verification/Irqmp.v ===== *)
(** * The multiprocessor interrupt controller
      (class [IRQMP], src/src/peripherals/IRQMP.h and IRQMP.cpp)

    A call [cpu_ptrs_[i]->wakeup()] is recorded in [wakeups]; [cpu_ptrs_] says
    which pointers were set.  Calling through a null pointer or past the end of
    the vector is undefined. *)
From S2P Require Import Prelude Exec.

Record irqmp := mkIrqmp {
  ilevel_ : Z; ipend_ : Z; iforce_ : Z; iclear_ : Z; mpstat_ : Z; brdcst_ : Z;
  errstat_ : Z; ampctrl_ : Z;
  piforce_ : list Z; pimask_ : list Z; irq_hint_ : list Z;
  num_cpus_ : Z; num_active_cpus_ : Z; barrier_irl_ : Z;
  cpu_ptrs_ : list bool; wakeups : list Z }.

#[export] Instance eta_irqmp : Eta irqmp := fun q =>
  mkIrqmp (ilevel_ q) (ipend_ q) (iforce_ q) (iclear_ q) (mpstat_ q) (brdcst_ q)
    (errstat_ q) (ampctrl_ q) (piforce_ q) (pimask_ q) (irq_hint_ q) (num_cpus_ q)
    (num_active_cpus_ q) (barrier_irl_ q) (cpu_ptrs_ q) (wakeups q).
#[export] Instance set_ilevel : Setter ilevel_ := ltac:(derive_setter).
#[export] Instance set_ipend : Setter ipend_ := ltac:(derive_setter).
#[export] Instance set_iforce : Setter iforce_ := ltac:(derive_setter).
#[export] Instance set_iclear : Setter iclear_ := ltac:(derive_setter).
#[export] Instance set_mpstat : Setter mpstat_ := ltac:(derive_setter).
#[export] Instance set_brdcst : Setter brdcst_ := ltac:(derive_setter).
#[export] Instance set_errstat : Setter errstat_ := ltac:(derive_setter).
#[export] Instance set_piforce : Setter piforce_ := ltac:(derive_setter).
#[export] Instance set_pimask : Setter pimask_ := ltac:(derive_setter).
#[export] Instance set_irq_hint : Setter irq_hint_ := ltac:(derive_setter).
#[export] Instance set_num_active : Setter num_active_cpus_ := ltac:(derive_setter).
#[export] Instance set_cpu_ptrs : Setter cpu_ptrs_ := ltac:(derive_setter).
#[export] Instance set_wakeups : Setter wakeups := ltac:(derive_setter).

Definition IRQMP_ILEVEL_OS : Z := 0x00.
Definition IRQMP_IPEND_OS : Z := 0x04.
Definition IRQMP_IFORCE_OS : Z := 0x08.
Definition IRQMP_ICLEAR_OS : Z := 0x0c.
Definition IRQMP_MPSTAT_OS : Z := 0x10.
Definition IRQMP_BRDCST_OS : Z := 0x14.
Definition IRQMP_ERRSTAT_OS : Z := 0x18.
Definition IRQMP_AMPCTRL_OS : Z := 0x20.

(** [for (int i = n; i >= 1; --i) if bit i of both is set { h = i; break; }]. *)
Fixpoint scan_irl (n : nat) (pend mask : Z) : Z :=
  match n with
  | O => 0
  | S k =>
      if truth (bit pend (Z.of_nat n)) && truth (bit mask (Z.of_nat n))
      then Z.of_nat n else scan_irl k pend mask
  end.

(** The hint of one processor. *)
Definition hint (force pend mask : Z) : Z :=
  let h := scan_irl 15 force mask in
  if h =? 0 then scan_irl 15 pend mask else h.

(** The hints of the processors from number [c] on, [l] being those stored. *)
Fixpoint hints_from (q : irqmp) (c : nat) (l : list Z) : list Z :=
  match l with
  | [] => []
  | h :: l =>
      (if Z.of_nat c <? num_cpus_ q
       then hint (nth c (piforce_ q) 0) (ipend_ q) (nth c (pimask_ q) 0)
       else h) :: hints_from q (S c) l
  end.

Definition update_hints_locked (q : irqmp) : irqmp :=
  q <| irq_hint_ := hints_from q 0 (irq_hint_ q) |>.

(** The constructor before it calls [reset]. *)
Definition irqmp_init (num_cpus : Z) : irqmp :=
  mkIrqmp 0 0 0 0 0 0 0 0 (replicate 8 0) (replicate 8 0) (replicate 8 0)
    num_cpus 0 8 [] [].

Definition irqmp_reset (q : irqmp) : res unit * irqmp :=
  if 8 <? num_cpus_ q then (Exn (runtime_error "ncpu > 8 not implemented"), q)
  else
    (Val tt,
     mkIrqmp (ilevel_ q) (ipend_ q) (iforce_ q) (iclear_ q)
       (if 1 <? num_cpus_ q
        then Z.lor (Z.lor (shl32 (num_cpus_ q - 1) 28) (Z.shiftl 0x1 27)) 0xfffe
        else mpstat_ q)
       (brdcst_ q) (errstat_ q) (ampctrl_ q)
       (replicate 8 0) (replicate 8 0) (replicate 8 0)
       (num_cpus_ q) 0 (barrier_irl_ q)
       (replicate (Z.to_nat (num_cpus_ q)) false) (wakeups q)).

Definition irqmp_new (num_cpus : Z) : res unit * irqmp := irqmp_reset (irqmp_init (u8 num_cpus)).

#[local] Open Scope M_scope.

Abbreviation MQ := (M irqmp).

(** [cpu_ptrs_[i]->wakeup()]. *)
Definition wake_cpu (i : Z) : MQ unit := fun q =>
  match cpu_ptrs_ q !! Z.to_nat i with
  | Some true => (Val tt, q <| wakeups := wakeups q ++ [i] |>)
  | _ => (Crash UndefinedBehaviour, q)
  end.

Definition set_cpu_ptr (cpu_id : Z) : MQ unit := fun q =>
  if Z.of_nat (length (cpu_ptrs_ q)) <=? cpu_id
  then (Exn (runtime_error "Cannot assign cpu larger than requested number of CPUs"), q)
  else (Val tt, q <| cpu_ptrs_ := <[Z.to_nat cpu_id := true]> (cpu_ptrs_ q) |>).

(** [0 .. num_cpus_ - 1]. *)
Definition cpu_ids (q : irqmp) : list Z := map Z.of_nat (seq 0 (Z.to_nat (num_cpus_ q))).

(** [piforce_[i] |= 0x1U << irl] for every processor that has unmasked it. *)
Definition force_unmasked (irl : Z) (q : irqmp) : irqmp :=
  q <| piforce_ :=
    imap (fun i f => if (Z.of_nat i <? num_cpus_ q) && truth (bit (nth i (pimask_ q) 0) irl)
                     then Z.lor f (shl32 1 irl) else f) (piforce_ q) |>.

Definition trigger_irq (IRL : Z) : MQ unit :=
  let irl := Z.land IRL 0xf in
  modify (fun q =>
    update_hints_locked
      (if truth (Z.land (Z.shiftr (brdcst_ q) irl) 1) then
         if 1 <? num_cpus_ q then force_unmasked irl q
         else if truth (bit (nth 0 (pimask_ q) 0) irl) then
           q <| piforce_ := <[0%nat := Z.lor (nth 0 (piforce_ q) 0) (shl32 1 irl)]> (piforce_ q) |>
             <| iforce_ := Z.lor (iforce_ q) (shl32 1 irl) |>
         else q
       else q <| ipend_ := Z.lor (ipend_ q) (shl32 1 irl) |>)) ;;
  ids ← gets cpu_ids;
  for_each ids (fun i =>
    m ← gets (fun q => nth (Z.to_nat i) (pimask_ q) 0);
    when (truth (Z.land (Z.shiftl 0x1 irl) m)) (wake_cpu i)).

Definition irqmp_clear_irq (IRL cpu_id : Z) : MQ unit :=
  let irl := Z.land IRL 0xf in
  let cpu := Z.to_nat (Z.land (u8 cpu_id) 0x7) in
  let bit := shl32 1 irl in
  modify (fun q =>
    let f := nth cpu (piforce_ q) 0 in
    update_hints_locked
      (if truth (Z.land f bit)
       then q <| piforce_ := <[cpu := Z.land f (not32 bit)]> (piforce_ q) |>
       else q <| ipend_ := Z.land (ipend_ q) (not32 bit) |>)).

Definition irqmp_get_irq_hint (cpu_id : Z) : MQ Z :=
  h ← gets (fun q => irq_hint_ q !! Z.to_nat (Z.land (u8 cpu_id) 7)); or_ub h.

Definition irqmp_read (offset : Z) : MQ Z :=
  gets (fun q =>
    if (0x40 <=? offset) && (offset <? 0x60) then nth (Z.to_nat ((offset - 0x40) / 4)) (pimask_ q) 0
    else if offset =? IRQMP_ILEVEL_OS then ilevel_ q
    else if offset =? IRQMP_IPEND_OS then ipend_ q
    else if offset =? IRQMP_IFORCE_OS then iforce_ q
    else if offset =? IRQMP_ICLEAR_OS then iclear_ q
    else if offset =? IRQMP_MPSTAT_OS then mpstat_ q
    else if offset =? IRQMP_BRDCST_OS then brdcst_ q
    else if offset =? IRQMP_ERRSTAT_OS then errstat_ q
    else if offset =? IRQMP_AMPCTRL_OS then ampctrl_ q
    else 0).

(** One processor of a write to the status register: powered up when the bit
    is written and set, and the pointer is known. *)
Definition power_up (val i : Z) : MQ unit :=
  q ← gets id;
  if truth (Z.land (Z.land (Z.shiftr val i) 0x1) (Z.land (Z.shiftr (mpstat_ q) i) 0x1))
     && default false (cpu_ptrs_ q !! Z.to_nat i)
  then
    when (truth (Z.land (Z.shiftr (nth (Z.to_nat i) (pimask_ q) 0) (barrier_irl_ q)) 0x1))
      (modify (fun q => q <| num_active_cpus_ := u32 (num_active_cpus_ q + 1) |>)) ;;
    modify (fun q => q <| mpstat_ := Z.land (mpstat_ q) (not32 (Z.shiftl 1 i)) |>) ;;
    wake_cpu i
  else ret tt.

(** Writes to a processor's mask and force registers. *)
Definition write_pimask (n : nat) (value : Z) : MQ unit :=
  modify (fun q =>
    let b := barrier_irl_ q in
    let q :=
      if negb (Z.land (Z.shiftr (nth n (pimask_ q) 0) b) 0x1 =? 0x1)
         && (Z.land (Z.shiftr value b) 0x1 =? 0x1)
         && (Z.land (Z.shiftr (mpstat_ q) (Z.of_nat n)) 0x1 =? 0)
      then q <| num_active_cpus_ := u32 (num_active_cpus_ q + 1) |> else q in
    update_hints_locked (q <| pimask_ := <[n := value]> (pimask_ q) |>)).

Definition write_piforce (n : nat) (value : Z) : MQ unit :=
  modify (fun q =>
    update_hints_locked
      (q <| piforce_ := <[n := Z.lor (nth n (piforce_ q) 0) value]> (piforce_ q) |>)) ;;
  m ← gets (fun q => nth n (pimask_ q) 0);
  when (truth (Z.land value m)) (wake_cpu (Z.of_nat n)).

Definition irqmp_write (offset value : Z) : MQ unit :=
  if (0x40 <=? offset) && (offset <? 0x60) then
    write_pimask (Z.to_nat ((offset - 0x40) / 4)) value
  else if (0x80 <=? offset) && (offset <? 0xa0) then
    write_piforce (Z.to_nat ((offset - 0x80) / 4)) value
  else if offset =? IRQMP_ILEVEL_OS then modify (fun q => q <| ilevel_ := value |>)
  else if offset =? IRQMP_IPEND_OS then
    modify (fun q => update_hints_locked (q <| ipend_ := value |>))
  else if offset =? IRQMP_IFORCE_OS then
    modify (fun q => update_hints_locked (q <| iforce_ := Z.lor (iforce_ q) value |>))
  else if offset =? IRQMP_ICLEAR_OS then
    modify (fun q =>
      let mask := Z.land value 0x0000fffe in
      update_hints_locked
        (q <| iclear_ := value |> <| ipend_ := Z.land (ipend_ q) (not32 mask) |>))
  else if offset =? IRQMP_MPSTAT_OS then
    ids ← gets cpu_ids; for_each ids (power_up (Z.land value 0xffff))
  else if offset =? IRQMP_BRDCST_OS then
    modify (fun q => q <| brdcst_ := Z.land value 0xfffe |>)
  else if offset =? IRQMP_ERRSTAT_OS then modify (fun q => q <| errstat_ := value |>)
  else throw (runtime_error "IRQMP::write offset not implemented").

(** The controller as the processors use it. *)
#[export] Instance IntCtl_irqmp : IntCtl irqmp := {|
  get_irq_hint := irqmp_get_irq_hint;
  clear_irq := irqmp_clear_irq;
|}.

(** ** The hint of a processor *)

(** Interrupt [i] is requested and not masked. *)
Definition unmasked (pend mask i : Z) : bool := Z.testbit pend i && Z.testbit mask i.

Lemma scan_irl_spec n pend mask :
  (scan_irl n pend mask = 0 /\ forall i, 1 <= i <= Z.of_nat n -> unmasked pend mask i = false) \/
  (1 <= scan_irl n pend mask <= Z.of_nat n /\ unmasked pend mask (scan_irl n pend mask) = true /\
   forall i, scan_irl n pend mask < i <= Z.of_nat n -> unmasked pend mask i = false).
Proof.
  induction n as [|n IH]; [left; split; [done|lia]|]. cbn [scan_irl].
  rewrite !bit_testbit, !truth_b2z by lia. fold (unmasked pend mask (Z.of_nat (S n))).
  destruct (unmasked pend mask (Z.of_nat (S n))) eqn:E.
  - right. split; [lia|]. split; [done|]. lia.
  - destruct IH as [[-> H]|(H1 & H2 & H3)]; [left|right].
    + split; [done|]. intros i Hi. destruct (decide (i = Z.of_nat (S n))) as [->|]; [done|].
      apply H. lia.
    + split; [lia|]. split; [done|]. intros i Hi.
      destruct (decide (i = Z.of_nat (S n))) as [->|]; [done|]. apply H3. lia.
Qed.

(** The hint is exact: it is 0 only when no unmasked interrupt is forced or
    pending; otherwise it is an unmasked interrupt level, the highest forced one
    if any is forced, else the highest pending one. *)
Theorem hint_exact force pend mask :
  let h := hint force pend mask in
  (h = 0 /\ forall i, 1 <= i <= 15 -> unmasked force mask i = false /\ unmasked pend mask i = false) \/
  (1 <= h <= 15 /\ unmasked force mask h = true /\
   forall i, h < i <= 15 -> unmasked force mask i = false) \/
  (1 <= h <= 15 /\ unmasked pend mask h = true /\
   (forall i, 1 <= i <= 15 -> unmasked force mask i = false) /\
   forall i, h < i <= 15 -> unmasked pend mask i = false).
Proof.
  cbv zeta. unfold hint.
  destruct (scan_irl_spec 15 force mask) as [[E F]|(E & F1 & F2)].
  - rewrite E. cbn [Z.eqb]. destruct (scan_irl_spec 15 pend mask) as [[E' F']|(E' & F1' & F2')].
    + left. split; [done|]. auto.
    + right. right. auto.
  - rewrite (proj2 (Z.eqb_neq _ _)) by lia. right. left. auto.
Qed.

(** A forced interrupt hides every pending one, also those of a higher
    level: with level 1 forced, level 15 pending and both unmasked, the hint
    is 1. *)
Theorem forced_irq_hides_higher_pending :
  hint (Z.shiftl 1 1) (Z.shiftl 1 15) 0xfffe = 1 /\ unmasked (Z.shiftl 1 15) 0xfffe 15 = true.
Proof. by vm_compute. Qed.

(** ** The stored hints are current *)

Definition hint_of (q : irqmp) (c : nat) : Z :=
  hint (nth c (piforce_ q) 0) (ipend_ q) (nth c (pimask_ q) 0).

Definition irqmp_ok (q : irqmp) : Prop :=
  length (piforce_ q) = 8%nat /\ length (pimask_ q) = 8%nat /\ length (irq_hint_ q) = 8%nat /\
  0 <= num_cpus_ q <= 8 /\
  forall c, Z.of_nat c < num_cpus_ q -> irq_hint_ q !! c = Some (hint_of q c).

Lemma hints_from_lookup q k l c :
  (c < length l)%nat ->
  hints_from q k l !! c =
  if Z.of_nat (k + c) <? num_cpus_ q then Some (hint_of q (k + c)) else l !! c.
Proof.
  revert k c. induction l as [|h l IH]; intros k c Hc; cbn in *; [lia|]. destruct c as [|c].
  - rewrite Nat.add_0_r. cbn. by destruct (_ <? _).
  - cbn. rewrite IH by lia. by replace (S k + c)%nat with (k + S c)%nat by lia.
Qed.

Lemma hints_from_length q k l : length (hints_from q k l) = length l.
Proof. revert k. induction l; intros; cbn; auto. Qed.

(** Registers of the right shape are all that [update_hints_locked] needs. *)
Definition irqmp_shape (q : irqmp) : Prop :=
  length (piforce_ q) = 8%nat /\ length (pimask_ q) = 8%nat /\ length (irq_hint_ q) = 8%nat /\
  0 <= num_cpus_ q <= 8.

Lemma update_hints_ok q : irqmp_shape q -> irqmp_ok (update_hints_locked q).
Proof.
  intros (H1 & H2 & H3 & H4). unfold irqmp_ok; cbn. rewrite hints_from_length.
  do 4 (split; [done|]). intros c Hc. rewrite hints_from_lookup by lia.
  by rewrite (proj2 (Z.ltb_lt _ _)) by (cbn; lia).
Qed.

Lemma irqmp_ok_shape q : irqmp_ok q -> irqmp_shape q.
Proof. unfold irqmp_ok, irqmp_shape. tauto. Qed.

(** Fields the hints do not depend on may change. *)
Lemma irqmp_ok_frame q q' :
  irqmp_ok q -> piforce_ q' = piforce_ q -> pimask_ q' = pimask_ q -> irq_hint_ q' = irq_hint_ q ->
  ipend_ q' = ipend_ q -> num_cpus_ q' = num_cpus_ q -> irqmp_ok q'.
Proof. unfold irqmp_ok, hint_of. by intros ? -> -> -> -> ->. Qed.

Create HintDb irqmp.

Lemma keeps_irq_update (f : irqmp -> irqmp) :
  (forall q, irqmp_shape q -> irqmp_shape (f q)) ->
  keeps irqmp_ok (modify (fun q => update_hints_locked (f q))) (fun _ => True).
Proof. intros Hf. apply keeps_modify; [|done]. intros q Hq. by apply update_hints_ok, Hf, irqmp_ok_shape. Qed.

Lemma keeps_irq_frame (f : irqmp -> irqmp) :
  (forall q, piforce_ (f q) = piforce_ q /\ pimask_ (f q) = pimask_ q /\
             irq_hint_ (f q) = irq_hint_ q /\ ipend_ (f q) = ipend_ q /\ num_cpus_ (f q) = num_cpus_ q) ->
  keeps irqmp_ok (modify f) (fun _ => True).
Proof.
  intros Hf. apply keeps_modify; [|done]. intros q Hq. destruct (Hf q) as (? & ? & ? & ? & ?).
  by apply (irqmp_ok_frame q).
Qed.

Lemma keeps_wake_cpu i : keeps irqmp_ok (wake_cpu i) (fun _ => True).
Proof.
  intros q Hq. unfold wake_cpu. destruct (cpu_ptrs_ q !! _) as [[]|]; split; done.
Qed.

Lemma irqmp_shape_insert_force q n v : irqmp_shape q -> irqmp_shape (q <| piforce_ := <[n := v]> (piforce_ q) |>).
Proof. intros (? & ? & ? & ?). unfold irqmp_shape; cbn. by rewrite length_insert. Qed.

Lemma irqmp_shape_insert_mask q n v : irqmp_shape q -> irqmp_shape (q <| pimask_ := <[n := v]> (pimask_ q) |>).
Proof. intros (? & ? & ? & ?). unfold irqmp_shape; cbn. by rewrite length_insert. Qed.

Lemma irqmp_shape_force_unmasked q irl : irqmp_shape q -> irqmp_shape (force_unmasked irl q).
Proof. intros (? & ? & ? & ?). unfold irqmp_shape; cbn. by rewrite length_imap. Qed.

#[export] Hint Resolve keeps_wake_cpu irqmp_shape_insert_force irqmp_shape_insert_mask
  irqmp_shape_force_unmasked : irqmp.

Lemma keeps_trigger_irq IRL : keeps irqmp_ok (trigger_irq IRL) (fun _ => True).
Proof.
  eapply keeps_bind; [apply keeps_irq_update|].
  - intros q Hq. repeat case_match; eauto with irqmp.
    by apply (irqmp_shape_insert_force q 0 (Z.lor (nth 0 (piforce_ q) 0) (shl32 1 (Z.land IRL 0xf)))) in Hq.
  - intros _ _. eapply keeps_bind; [apply keeps_gets_any|]. intros ids _.
    apply keeps_for_each. intros i. eapply keeps_bind; [apply keeps_gets_any|]. intros m _.
    by apply keeps_when; [eauto with irqmp|].
Qed.

Lemma keeps_clear_irq IRL cpu : keeps irqmp_ok (irqmp_clear_irq IRL cpu) (fun _ => True).
Proof.
  apply keeps_irq_update. intros q Hq. case_match; eauto with irqmp.
Qed.

Lemma keeps_power_up v i : keeps irqmp_ok (power_up v i) (fun _ => True).
Proof.
  eapply keeps_bind; [apply keeps_gets_any|]. intros q _. case_match; [|by apply keeps_ret].
  eapply keeps_bind; [apply keeps_when; [intros _; by apply keeps_irq_frame|done]|]. intros _ _.
  eapply keeps_bind; [by apply keeps_irq_frame|]. eauto with irqmp.
Qed.

Lemma keeps_irqmp_write o v : keeps irqmp_ok (irqmp_write o v) (fun _ => True).
Proof.
  unfold irqmp_write. repeat (match goal with |- keeps _ (if ?b then _ else _) _ => destruct b end);
    try (by apply keeps_irq_frame); try (by apply keeps_irq_update); try (by apply keeps_stop).
  - apply (keeps_irq_update (fun q => _ <| pimask_ := _ |>)). intros q Hq.
    apply irqmp_shape_insert_mask. by case_match.
  - eapply keeps_bind; [apply keeps_irq_update; eauto with irqmp|]. intros _ _.
    eapply keeps_bind; [apply keeps_gets_any|]. intros m _. by apply keeps_when; eauto with irqmp.
  - eapply keeps_bind; [apply keeps_gets_any|]. intros ids _.
    apply keeps_for_each, keeps_power_up.
Qed.

Lemma keeps_set_cpu_ptr i : keeps irqmp_ok (set_cpu_ptr i) (fun _ => True).
Proof. intros q Hq. unfold set_cpu_ptr. case_match; split; done. Qed.

Inductive irqmp_reachable : irqmp -> Prop :=
| ir_new n q : irqmp_new n = (Val tt, q) -> irqmp_reachable q
| ir_set_cpu q i : irqmp_reachable q -> irqmp_reachable (set_cpu_ptr i q).2
| ir_trigger q l : irqmp_reachable q -> irqmp_reachable (trigger_irq l q).2
| ir_clear q l c : irqmp_reachable q -> irqmp_reachable (irqmp_clear_irq l c q).2
| ir_write q o v : irqmp_reachable q -> irqmp_reachable (irqmp_write o v q).2.

Lemma irqmp_new_ok n q : irqmp_new n = (Val tt, q) -> irqmp_ok q.
Proof.
  unfold irqmp_new, irqmp_reset. change (num_cpus_ (irqmp_init (u8 n))) with (u8 n).
  pose proof (Z.mod_pos_bound n 256). fold (u8 n) in *. destruct (8 <? u8 n) eqn:E; [done|].
  apply Z.ltb_ge in E. intros [= <-]. unfold irqmp_ok; cbn -[u8 replicate].
  do 3 (split; [done|]). split; [lia|]. intros c Hc. unfold hint_of. cbn -[u8].
  do 8 (destruct c as [|c]; [done|]). lia.
Qed.

Lemma irqmp_reachable_ok q : irqmp_reachable q -> irqmp_ok q.
Proof.
  induction 1; try (by eapply irqmp_new_ok);
    [apply keeps_set_cpu_ptr|apply keeps_trigger_irq|apply keeps_clear_irq|apply keeps_irqmp_write]; done.
Qed.

(** C22. The lock-free hint a processor reads is never stale: after any sequence
    of register writes, triggered and cleared interrupts, it is the hint
    computed from the current force, pending and mask registers. *)
Theorem irq_hint_current q c :
  irqmp_reachable q -> 0 <= c < num_cpus_ q ->
  irqmp_get_irq_hint c q = (Val (hint_of q (Z.to_nat c)), q).
Proof.
  intros Hq Hc. destruct (irqmp_reachable_ok q Hq) as (_ & _ & _ & Hn & Hh).
  unfold irqmp_get_irq_hint, u8. rewrite Z.mod_small by lia. change 7 with (Z.ones 3).
  rewrite Z.land_ones by lia.
  assert (irq_hint_ q !! Z.to_nat (c mod 2 ^ 3) = Some (hint_of q (Z.to_nat c))) as E.
  { rewrite Z.mod_small by lia. apply Hh. lia. }
  unfold bindM, gets. by rewrite E.
Qed.

(** The interrupt force register at offset 8 never interrupts anyone:
    writing it changes no processor's hint. *)
Theorem iforce_write_has_no_effect q v :
  irqmp_ok q -> irq_hint_ (irqmp_write IRQMP_IFORCE_OS v q).2 = irq_hint_ q.
Proof.
  intros (_ & _ & Hl & _ & Hh). cbn. apply list_eq. intros c.
  destruct (decide (c < 8)%nat).
  - rewrite hints_from_lookup by lia. cbn. case_match eqn:E; [|done].
    apply Z.ltb_lt in E. by rewrite Hh by lia.
  - rewrite !lookup_ge_None_2; [done|lia|]. rewrite hints_from_length. lia.
Qed.

(** ** Delivery *)

Lemma hint_nonzero force pend mask i :
  1 <= i <= 15 -> unmasked force mask i = true \/ unmasked pend mask i = true ->
  hint force pend mask <> 0.
Proof.
  intros Hi Hu. unfold hint.
  destruct (scan_irl_spec 15 force mask) as [[E F]|(E & _)];
    [|rewrite (proj2 (Z.eqb_neq _ _)) by lia; lia].
  rewrite E. cbn [Z.eqb]. destruct (scan_irl_spec 15 pend mask) as [[E' F']|(E' & _)]; [|lia].
  rewrite F, F' in Hu by done. by destruct Hu.
Qed.

(** The processors that have interrupt [irl] unmasked. *)
Definition listening (q : irqmp) (irl : Z) : list Z :=
  List.filter (fun i => Z.testbit (nth (Z.to_nat i) (pimask_ q) 0) irl) (cpu_ids q).

Lemma wake_loop irl ids q :
  0 <= irl -> (forall i, i ∈ ids -> cpu_ptrs_ q !! Z.to_nat i = Some true) ->
  for_each ids (fun i =>
    (m ← gets (fun q => nth (Z.to_nat i) (pimask_ q) 0);
     when (truth (Z.land (Z.shiftl 0x1 irl) m)) (wake_cpu i))%M) q =
  (Val tt, q <| wakeups := wakeups q ++
     List.filter (fun i => Z.testbit (nth (Z.to_nat i) (pimask_ q) 0) irl) ids |>).
Proof.
  intros Hirl. revert q. induction ids as [|i ids IH]; intros q Hp.
  - cbn. rewrite app_nil_r. by destruct q.
  - cbn [for_each List.filter]. unfold bindM at 1 2, gets. cbn [fst snd].
    rewrite truth_pow2_land by done.
    destruct (Z.testbit _ irl); cbn [when].
    + unfold wake_cpu at 1. rewrite Hp by set_solver. rewrite IH by (intros; apply Hp; set_solver).
      cbn. by rewrite <- app_assoc.
    + apply IH. intros; apply Hp; set_solver.
Qed.

(** The register update of [trigger_irq], before the hints. *)
Definition post_irq (irl : Z) (q : irqmp) : irqmp :=
  if truth (Z.land (Z.shiftr (brdcst_ q) irl) 1) then
    if 1 <? num_cpus_ q then force_unmasked irl q
    else if truth (bit (nth 0 (pimask_ q) 0) irl) then
      q <| piforce_ := <[0%nat := Z.lor (nth 0 (piforce_ q) 0) (shl32 1 irl)]> (piforce_ q) |>
        <| iforce_ := Z.lor (iforce_ q) (shl32 1 irl) |>
    else q
  else q <| ipend_ := Z.lor (ipend_ q) (shl32 1 irl) |>.

Lemma post_irq_requests irl q c :
  irqmp_shape q -> 1 <= irl <= 15 -> Z.of_nat c < num_cpus_ q ->
  Z.testbit (nth c (pimask_ q) 0) irl = true -> hint_of (post_irq irl q) c <> 0.
Proof.
  intros (Hf & Hm & _ & Hn) Hirl Hc Hmask. unfold hint_of, post_irq.
  assert (forall x, Z.testbit (Z.lor x (shl32 1 irl)) irl = true) as Hset.
  { intros x. by rewrite shl32_1, Z.lor_spec, testbit_pow2, Z.eqb_refl, orb_true_r by lia. }
  destruct (truth _); [destruct (1 <? num_cpus_ q) eqn:E1|].
  - apply (hint_nonzero _ _ _ irl); [done|left]. unfold unmasked, force_unmasked; cbn -[Z.lor].
    destruct (lookup_lt_is_Some_2 (piforce_ q) c) as [f Ef]; [lia|].
    erewrite nth_lookup_Some by (rewrite list_lookup_imap, Ef; done).
    rewrite (proj2 (Z.ltb_lt _ _)), bit_testbit, truth_b2z, Hmask by lia. cbn -[Z.lor].
    by rewrite Hset.
  - assert (c = O) as -> by (apply Z.ltb_ge in E1; lia).
    rewrite bit_testbit, truth_b2z, Hmask by lia.
    apply (hint_nonzero _ _ _ irl); [done|left]. unfold unmasked; cbn -[Z.lor].
    erewrite nth_lookup_Some by (apply list_lookup_insert_eq; lia). by rewrite Hset, Hmask.
  - apply (hint_nonzero _ _ _ irl); [done|right]. unfold unmasked; cbn -[Z.lor].
    by rewrite Hset, Hmask.
Qed.

Lemma post_irq_frame irl q :
  pimask_ (post_irq irl q) = pimask_ q /\ cpu_ids (post_irq irl q) = cpu_ids q /\
  cpu_ptrs_ (post_irq irl q) = cpu_ptrs_ q /\ wakeups (post_irq irl q) = wakeups q /\
  (irqmp_shape q -> irqmp_shape (post_irq irl q)).
Proof.
  unfold post_irq. repeat case_match; (do 4 (split; [done|])); intros (? & ? & ? & ?);
    unfold irqmp_shape; cbn; by rewrite ?length_imap, ?length_insert.
Qed.

(** An interrupt is delivered: when it is raised, every processor that has
    it unmasked is woken, in order and once, and finds a request in its hint;
    no processor that masks it is woken. *)
Theorem trigger_irq_delivers q irl :
  irqmp_reachable q -> 1 <= irl <= 15 ->
  (forall c, Z.of_nat c < num_cpus_ q -> cpu_ptrs_ q !! c = Some true) ->
  exists q', trigger_irq irl q = (Val tt, q') /\
    wakeups q' = wakeups q ++ listening q irl /\
    forall c, c ∈ listening q irl ->
      exists h, irq_hint_ q' !! Z.to_nat c = Some h /\ h <> 0.
Proof.
  intros Hr Hirl Hp. apply irqmp_reachable_ok, irqmp_ok_shape in Hr as Hs.
  destruct (post_irq_frame irl q) as (Fm & Fi & Fp & Fw & Fs).
  assert (Z.land irl 0xf = irl) as Ei.
  { change 0xf with (Z.ones 4). rewrite Z.land_ones, Z.mod_small by lia. done. }
  pose proof (update_hints_ok _ (Fs Hs)) as (_ & _ & _ & _ & Hh).
  set (q1 := update_hints_locked (post_irq irl q)) in *.
  assert (forall i, i ∈ cpu_ids q -> exists c, i = Z.of_nat c /\ Z.of_nat c < num_cpus_ q) as Hids.
  { intros i Hi. unfold cpu_ids in Hi. apply list_elem_of_fmap in Hi as (c & -> & Hc).
    apply elem_of_seq in Hc. exists c. split; [done|lia]. }
  exists (q1 <| wakeups := wakeups q ++ listening q irl |>). split; [|split; [done|]].
  - unfold trigger_irq. rewrite Ei. unfold bindM at 1, modify. fold (post_irq irl q). fold q1.
    unfold bindM at 1, gets at 1.
    rewrite wake_loop.
    + subst q1. cbn -[List.filter Z.testbit]. unfold listening. by rewrite Fw, Fm, <- Fi.
    + lia.
    + intros i Hi. change (cpu_ids q1) with (cpu_ids (post_irq irl q)) in Hi. rewrite Fi in Hi.
      destruct (Hids i Hi) as (c & -> & ?). rewrite Nat2Z.id.
      change (cpu_ptrs_ q1) with (cpu_ptrs_ (post_irq irl q)). rewrite Fp. by apply Hp.
  - intros i Hi. unfold listening in Hi. apply list_elem_of_In, filter_In in Hi as [Hi Hmask].
    apply list_elem_of_In in Hi. destruct (Hids i Hi) as (c & -> & Hc). rewrite Nat2Z.id in *.
    assert (num_cpus_ q1 = num_cpus_ q) as En.
    { subst q1. unfold post_irq. by repeat case_match. }
    exists (hint_of (post_irq irl q) c). split; [|by apply post_irq_requests].
    apply Hh. by rewrite En.
Qed.

(** ** Concrete instances *)

(** Two processors, both known to the controller, interrupt 8 unmasked. *)
Definition demo_irqmp : irqmp :=
  (irqmp_write 0x44 0x100 (irqmp_write 0x40 0x100
    (set_cpu_ptr 1 (set_cpu_ptr 0 (irqmp_new 2).2).2).2).2).2.

Lemma demo_irqmp_reachable : irqmp_reachable demo_irqmp.
Proof. do 2 apply ir_write. do 2 apply ir_set_cpu. by apply (ir_new 2). Qed.

Lemma irq_hint_current_witness : irqmp_get_irq_hint 1 (trigger_irq 8 demo_irqmp).2 =
  (Val 8, (trigger_irq 8 demo_irqmp).2).
Proof.
  rewrite (irq_hint_current (trigger_irq 8 demo_irqmp).2 1).
  - reflexivity.
  - apply ir_trigger, demo_irqmp_reachable.
  - vm_compute. split; [discriminate|reflexivity].
Defined.

Lemma iforce_write_has_no_effect_witness :
  irq_hint_ (irqmp_write IRQMP_IFORCE_OS 0x100 demo_irqmp).2 = irq_hint_ demo_irqmp.
Proof. apply iforce_write_has_no_effect, irqmp_reachable_ok, demo_irqmp_reachable. Defined.

Lemma trigger_irq_delivers_witness :
  exists q', trigger_irq 8 demo_irqmp = (Val tt, q') /\ wakeups q' = [0; 1].
Proof.
  destruct (trigger_irq_delivers demo_irqmp 8 demo_irqmp_reachable ltac:(lia))
    as (q' & H1 & H2 & _).
  - intros c Hc. change (num_cpus_ demo_irqmp) with 2 in Hc.
    destruct c as [|[|c]]; [reflexivity|reflexivity|lia].
  - exists q'. split; [exact H1|]. rewrite H2. reflexivity.
Defined.
