(* ===== verification/Gptimer.v ===== *)
(** * The timer unit (class [GPTIMER], src/src/peripherals/GPTIMER.h)

    Every method holds the mutex for its whole body (or its caller does), so a
    call is one transition.  The messages printed on a reload write are left
    out. *)
From S2P Require Import Prelude.

Definition NUM_IMPLEMENTED_TIMERS : Z := 2.

Record timer_impl := mkTimer { TCNTVAL : Z; TRLDVAL : Z; TCTRL : Z; TLATCH : Z }.

#[export] Instance eta_timer : Eta timer_impl := fun t =>
  mkTimer (TCNTVAL t) (TRLDVAL t) (TCTRL t) (TLATCH t).
#[export] Instance set_TCNTVAL : Setter TCNTVAL := ltac:(derive_setter).
#[export] Instance set_TRLDVAL : Setter TRLDVAL := ltac:(derive_setter).
#[export] Instance set_TCTRL : Setter TCTRL := ltac:(derive_setter).
#[export] Instance set_TLATCH : Setter TLATCH := ltac:(derive_setter).

(** The members, with [timers[NUM_IMPLEMENTED_TIMERS]] written out. *)
Record gptimer := mkGptimer {
  SCALER : Z; SRELOAD : Z; CONFIG : Z; CATCHCFG : Z; timer0 : timer_impl; timer1 : timer_impl }.

#[export] Instance eta_gptimer : Eta gptimer := fun t =>
  mkGptimer (SCALER t) (SRELOAD t) (CONFIG t) (CATCHCFG t) (timer0 t) (timer1 t).
#[export] Instance set_SCALER : Setter SCALER := ltac:(derive_setter).
#[export] Instance set_SRELOAD : Setter SRELOAD := ltac:(derive_setter).
#[export] Instance set_CONFIG : Setter CONFIG := ltac:(derive_setter).
#[export] Instance set_CATCHCFG : Setter CATCHCFG := ltac:(derive_setter).
#[export] Instance set_timer0 : Setter timer0 := ltac:(derive_setter).
#[export] Instance set_timer1 : Setter timer1 := ltac:(derive_setter).

(** ** One timer *)

Definition timer_new : timer_impl := mkTimer 0x270f 0x270f (Z.shiftl 0x1 1) 0.

Definition is_enabled (t : timer_impl) : bool := truth (Z.land (TCTRL t) 0x1).

Definition timer_reset (t : timer_impl) : timer_impl := t <| TCNTVAL := TRLDVAL t |>.

Definition timer_check_interrupt (t : timer_impl) : bool :=
  truth (Z.land (Z.shiftr (TCTRL t) 4) 0x1).

Definition timer_clear_interrupt (t : timer_impl) : timer_impl :=
  t <| TCTRL := Z.land (TCTRL t) (not32 (Z.shiftl 0x1 4)) |>.

Definition tick (t : timer_impl) : timer_impl :=
  if TCNTVAL t =? 0 then
    let t := if truth (Z.land (Z.shiftr (TCTRL t) 3) 0x1)
             then t <| TCTRL := Z.lor (TCTRL t) (Z.shiftl 0x1 4) |> else t in
    if truth (Z.land (Z.shiftr (TCTRL t) 1) 0x1) then t <| TCNTVAL := TRLDVAL t |>
    else t <| TCNTVAL := u32 (TCNTVAL t - 1) |> <| TCTRL := Z.land (TCTRL t) (not32 0x1) |>
  else t <| TCNTVAL := u32 (TCNTVAL t - 1) |>.

(** ** The unit *)

Definition gptimer_reset (t : gptimer) : gptimer :=
  let one i tm :=
    timer_reset (if truth (Z.land (Z.shiftr (CONFIG t) (16 + i)) 0x1)
                 then tm <| TCTRL := Z.lor (Z.shiftl 0x1 1) 0x1 |> else tm) in
  t <| timer0 := one 0 (timer0 t) |> <| timer1 := one 1 (timer1 t) |>
    <| SCALER := Z.land (SRELOAD t) 0xffff |>.

(** The constructor; the members it leaves uninitialised are assigned by
    [reset]. *)
Definition gptimer_new (IRQ prescaler : Z) : gptimer :=
  gptimer_reset
    (mkGptimer 0 (Z.land prescaler 0xffff)
       (Z.lor (Z.lor (Z.shiftl 0x1 8) (Z.shiftl (Z.land IRQ 0x1f) 3)) NUM_IMPLEMENTED_TIMERS)
       0 timer_new timer_new).

Definition set_LEON_state (t : gptimer) : gptimer :=
  mkGptimer 0x24 0x24 (CONFIG t) (CATCHCFG t)
    (mkTimer 0x270f 0x270f 0x3 (TLATCH (timer0 t))) (mkTimer 0 0 0 (TLATCH (timer1 t))).

Definition set_LEON_smp_state (t : gptimer) : gptimer :=
  mkGptimer 0x24 0x24 (CONFIG t) (CATCHCFG t)
    (mkTimer 0x270f 0x270f (Z.lor 0x3 0x8) (TLATCH (timer0 t)))
    (mkTimer 0 0 0 (TLATCH (timer1 t))).

Definition check_interrupt (clear : bool) (t : gptimer) : bool * gptimer :=
  if timer_check_interrupt (timer0 t) then
    (true, if clear then t <| timer0 := timer_clear_interrupt (timer0 t) |> else t)
  else if timer_check_interrupt (timer1 t) then
    (true, if clear then t <| timer1 := timer_clear_interrupt (timer1 t) |> else t)
  else (false, t).

Definition interrupt_enable (t : gptimer) : gptimer :=
  let en tm := tm <| TCTRL := Z.lor (TCTRL tm) (Z.shiftl 0x1 3) |> in
  t <| timer0 := en (timer0 t) |> <| timer1 := en (timer1 t) |>.

Definition tick_enabled (tm : timer_impl) : timer_impl :=
  if is_enabled tm then tick tm else tm.

Definition Tick (t : gptimer) : gptimer :=
  if is_enabled (timer0 t) || is_enabled (timer1 t) then
    if SCALER t =? 0 then
      t <| timer0 := tick_enabled (timer0 t) |> <| timer1 := tick_enabled (timer1 t) |>
        <| SCALER := Z.land (SRELOAD t) 0xffff |>
    else t <| SCALER := u32 (SCALER t - 1) |>
  else t.

(** The locked and the unlocked variant have the same body. *)
Definition tick_and_check_interrupt (clear : bool) (t : gptimer) : bool * gptimer :=
  check_interrupt clear (Tick t).

(** The two phases of [advance_unlocked] on the prescaler: the number of
    prescaler ticks in [n] bus ticks, and the new [SCALER]. *)
Definition advance_prescaler (scaler sreload n : Z) : Z * Z :=
  let period := u32 (sreload + 1) in
  let '(pt, scaler, n) :=
    if scaler =? 0 then (1, sreload, n - 1)
    else if n <=? scaler then (0, u32 (scaler - u32 n), 0)
    else (1, sreload, u64 (n - u32 (scaler + 1))) in
  if 0 <? n then (u64 (pt + n / period), u32 (sreload - u32 (n mod period)))
  else (pt, scaler).

(** The loop body over one timer: its new state and whether it interrupts. *)
Definition advance_timer (pt : Z) (clear_irq : bool) (tm : timer_impl) : bool * timer_impl :=
  if negb (is_enabled tm) then (false, tm)
  else
    let tm := Z.iter pt tick tm in
    if timer_check_interrupt tm
    then (true, if clear_irq then timer_clear_interrupt tm else tm)
    else (false, tm).

Definition advance_unlocked (n : Z) (clear_irq : bool) (t : gptimer) : bool * gptimer :=
  if n =? 0 then (false, t)
  else if negb (is_enabled (timer0 t) || is_enabled (timer1 t)) then (false, t)
  else
    let sreload := Z.land (SRELOAD t) 0xffff in
    let '(pt, scaler) := advance_prescaler (SCALER t) sreload n in
    let '(i0, t0) := advance_timer pt clear_irq (timer0 t) in
    let '(i1, t1) := advance_timer pt clear_irq (timer1 t) in
    (i0 || i1, t <| SCALER := scaler |> <| timer0 := t0 |> <| timer1 := t1 |>).

(** ** Registers *)

(** [(offset - 0x10) / 0x10] on [u32], then as an [int]. *)
Definition timer_index (offset : Z) : Z := s32 (u32 (offset - 0x10) / 0x10).

(** [timers[n]] for [n <= NUM_IMPLEMENTED_TIMERS - 1]; the only values that
    reach it are 0 and 1. *)
Definition nth_timer (n : Z) (t : gptimer) : timer_impl :=
  if n =? 0 then timer0 t else timer1 t.
Definition put_timer (n : Z) (tm : timer_impl) (t : gptimer) : gptimer :=
  if n =? 0 then t <| timer0 := tm |> else t <| timer1 := tm |>.

Definition gptimer_read (offset : Z) (t : gptimer) : Z :=
  if offset =? 0x0 then SCALER t
  else if offset =? 0x4 then SRELOAD t
  else if offset =? 0x8 then Z.land (CONFIG t) (not32 (Z.shiftl 0x7f 16))
  else if offset =? 0xc then CATCHCFG t
  else if offset <=? 0x7c then
    let n := timer_index offset in
    if NUM_IMPLEMENTED_TIMERS - 1 <? n then 0
    else
      let tm := nth_timer n t in
      let o := offset mod 0x10 in
      if o =? 0x0 then TCNTVAL tm
      else if o =? 0x4 then TRLDVAL tm
      else if o =? 0x8 then TCTRL tm
      else if o =? 0xc then TLATCH tm
      else 0
  else 0.

(** The write to a timer's control register. *)
Definition write_tctrl (n regvalue : Z) (t : gptimer) : gptimer :=
  let tm := nth_timer n t in
  let t := if truth (Z.land regvalue 0x1)
           then t <| CONFIG := Z.lor (CONFIG t) (Z.shiftl 0x1 (16 + n)) |> else t in
  let regvalue :=
    if Z.land (Z.shiftr regvalue 4) 0x1 =? 0x1 then Z.land regvalue (not32 (Z.shiftl 0x1 4))
    else Z.lor regvalue (Z.land (TCTRL tm) (Z.shiftl 0x1 4)) in
  let '(regvalue, tm) :=
    if truth (Z.land (Z.shiftr regvalue 2) 0x1)
    then (Z.land regvalue (not32 (Z.shiftl 0x1 2)), timer_reset tm) else (regvalue, tm) in
  put_timer n (tm <| TCTRL := regvalue |>) t.

Definition gptimer_write (offset regvalue : Z) (t : gptimer) : gptimer :=
  if offset =? 0x0 then t <| SCALER := regvalue |>
  else if offset =? 0x4 then t <| SRELOAD := regvalue |>
  else if offset =? 0x8 then t <| CONFIG := regvalue |>
  else if offset =? 0xc then t <| CATCHCFG := regvalue |>
  else if offset <=? 0x7c then
    let n := timer_index offset in
    if NUM_IMPLEMENTED_TIMERS - 1 <? n then t
    else
      let tm := nth_timer n t in
      let o := offset mod 0x10 in
      if o =? 0x0 then put_timer n (tm <| TCNTVAL := regvalue |>) t
      else if o =? 0x4 then put_timer n (tm <| TRLDVAL := regvalue |>) t
      else if o =? 0x8 then write_tctrl n regvalue t
      else if o =? 0xc then put_timer n (tm <| TLATCH := regvalue |>) t
      else t
  else t.

(** ** Batched and single ticks agree *)

(** An enabled timer reloads at zero, so it never disables itself. *)
Definition reloads (tm : timer_impl) : Prop :=
  is_enabled tm = true -> Z.testbit (TCTRL tm) 1 = true.

Definition timers_reload (t : gptimer) : Prop := reloads (timer0 t) /\ reloads (timer1 t).

Lemma tick_TCTRL tm :
  Z.testbit (TCTRL tm) 1 = true ->
  TCTRL (tick tm) = TCTRL tm \/ TCTRL (tick tm) = Z.lor (TCTRL tm) 16.
Proof.
  intros H1. unfold tick. destruct (TCNTVAL tm =? 0); [|by left].
  rewrite (truth_shift_land _ 3) by lia.
  destruct (Z.testbit (TCTRL tm) 3); cbn -[Z.lor Z.land Z.shiftr truth];
    rewrite (truth_shift_land _ 1), ?Z.lor_spec, H1 by lia; cbn; auto.
Qed.

Lemma tick_keeps tm :
  Z.testbit (TCTRL tm) 1 = true ->
  Z.testbit (TCTRL (tick tm)) 1 = true /\ is_enabled (tick tm) = is_enabled tm.
Proof.
  intros H1. unfold is_enabled. rewrite !truth_land1.
  destruct (tick_TCTRL tm H1) as [-> | ->]; [done|]. rewrite !Z.lor_spec, H1.
  split; [done|]. change (Z.testbit 16 0) with false. by rewrite orb_false_r.
Qed.

(** [k] prescaler ticks for every enabled timer. *)
Definition ticks (k : nat) (tm : timer_impl) : timer_impl :=
  if is_enabled tm then Nat.iter k tick tm else tm.
Definition fire (k : nat) (t : gptimer) : gptimer :=
  t <| timer0 := ticks k (timer0 t) |> <| timer1 := ticks k (timer1 t) |>.

Lemma ticks_S k tm :
  reloads tm -> ticks (S k) tm = tick_enabled (ticks k tm) /\
  is_enabled (ticks k tm) = is_enabled tm /\ reloads (ticks k tm).
Proof.
  intros Hr. unfold ticks, tick_enabled. destruct (is_enabled tm) eqn:E; [|by rewrite E].
  assert (is_enabled (Nat.iter k tick tm) = true /\
          Z.testbit (TCTRL (Nat.iter k tick tm)) 1 = true) as [-> H1].
  { induction k as [|k [IH1 IH2]]; [by split; [|apply Hr]|]. destruct (tick_keeps _ IH2) as [E1 E2].
    split; [|exact E1]. exact (eq_trans E2 IH1). }
  split; [done|]. split; [done|]. by intros _.
Qed.

Definition any_enabled (t : gptimer) : bool := is_enabled (timer0 t) || is_enabled (timer1 t).

Lemma fire_keeps k t :
  timers_reload t -> any_enabled (fire k t) = any_enabled t /\ timers_reload (fire k t).
Proof.
  intros [H0 H1]. unfold any_enabled, timers_reload. cbn.
  destruct (ticks_S k _ H0) as (_ & -> & ?), (ticks_S k _ H1) as (_ & -> & ?). done.
Qed.

Lemma fire_0 t : fire 0 t = t.
Proof. destruct t as [? ? ? ? t0 t1]. unfold fire, ticks; cbn. by destruct (is_enabled t0), (is_enabled t1). Qed.

(** One bus tick from a state reached by [k] prescaler ticks. *)
Lemma Tick_fire k t s :
  timers_reload t -> any_enabled t = true -> 0 <= s < 4294967296 ->
  Tick (fire k t <| SCALER := s |>) =
  if s =? 0 then fire (S k) t <| SCALER := Z.land (SRELOAD t) 0xffff |>
  else fire k t <| SCALER := s - 1 |>.
Proof.
  intros Hr Ha Hs. destruct (fire_keeps k t Hr) as [He _]. unfold any_enabled in *.
  unfold Tick. cbn in *. rewrite He, Ha. destruct Hr as [H0 H1].
  destruct (ticks_S k _ H0) as (E0 & _), (ticks_S k _ H1) as (E1 & _).
  destruct (s =? 0) eqn:E; [by unfold fire; rewrite E0, E1|]. apply Z.eqb_neq in E.
  unfold u32. by rewrite Z.mod_small by lia.
Qed.

Section advance.
Context (t : gptimer) (Hr : timers_reload t) (Ha : any_enabled t = true).
Let r := Z.land (SRELOAD t) 0xffff.

Lemma reload_range : 0 <= r < 65536.
Proof. apply (land_range _ _ 16); lia. Qed.

(** Counting the prescaler down, and down past zero. *)
Lemma iter_down k s n :
  Z.of_nat n <= s -> s < 4294967296 ->
  Nat.iter n Tick (fire k t <| SCALER := s |>) = fire k t <| SCALER := s - Z.of_nat n |>.
Proof.
  intros Hn Hs. induction n as [|n IH]; [by rewrite Z.sub_0_r|].
  rewrite Nat.iter_succ, IH, Tick_fire by (done || lia).
  rewrite (proj2 (Z.eqb_neq _ _)) by lia. f_equal. lia.
Qed.

Lemma iter_period k s :
  0 <= s < 4294967296 ->
  Nat.iter (Z.to_nat (s + 1)) Tick (fire k t <| SCALER := s |>) = fire (S k) t <| SCALER := r |>.
Proof.
  intros Hs. replace (Z.to_nat (s + 1)) with (S (Z.to_nat s)) by lia.
  rewrite Nat.iter_succ, iter_down, Tick_fire by (done || lia).
  by replace (s - Z.of_nat (Z.to_nat s)) with 0 by lia.
Qed.

Lemma iter_periods q k :
  Nat.iter (q * Z.to_nat (r + 1)) Tick (fire k t <| SCALER := r |>) =
  fire (q + k) t <| SCALER := r |>.
Proof.
  pose proof reload_range. induction q as [|q IH]; [done|].
  cbn [Nat.mul]. rewrite Nat.iter_add, IH. apply iter_period. lia.
Qed.

Lemma advance_prescaler_iter n :
  0 <= SCALER t < 4294967295 -> 0 < n < 18446744073709551616 ->
  let p := advance_prescaler (SCALER t) r n in
  0 <= p.1 /\ Nat.iter (Z.to_nat n) Tick t = fire (Z.to_nat p.1) t <| SCALER := p.2 |>.
Proof.
  intros Hs Hn. pose proof reload_range as Hp. unfold advance_prescaler.
  assert (t = fire 0 t <| SCALER := SCALER t |>) as Et by (rewrite fire_0; by destruct t).
  unfold u32, u64. rewrite (Z.mod_small (r + 1)), (Z.mod_small (SCALER t + 1)) by lia.
  (* from a state with the prescaler just reloaded *)
  assert (forall x, 0 <= x < 18446744073709551615 ->
    let q := if 0 <? x then ((1 + x / (r + 1)) mod 18446744073709551616,
                             (r - (x mod (r + 1)) mod 4294967296) mod 4294967296) else (1, r) in
    0 <= q.1 /\ Nat.iter (Z.to_nat x) Tick (fire 1 t <| SCALER := r |>) =
                fire (Z.to_nat q.1) t <| SCALER := q.2 |>) as Htail.
  { intros x Hx. destruct (0 <? x) eqn:Ex; cbn [fst snd]; [|by replace x with 0 by lia].
    pose proof (Z.div_mod x (r + 1)) as Hdm. pose proof (Z.mod_pos_bound x (r + 1)) as Hm.
    set (q := x / (r + 1)) in *. set (w := x mod (r + 1)) in *.
    assert (0 <= q <= x) by nia.
    rewrite (Z.mod_small (1 + _)), (Z.mod_small w), (Z.mod_small (r - _)) by lia.
    split; [lia|].
    replace (Z.to_nat x) with (Z.to_nat w + Z.to_nat q * Z.to_nat (r + 1))%nat by nia.
    rewrite Nat.iter_add, iter_periods, iter_down by lia.
    by replace (Z.to_nat (1 + q)) with (Z.to_nat q + 1)%nat by lia;
      replace (r - Z.of_nat (Z.to_nat w)) with (r - w) by lia. }
  destruct (SCALER t =? 0) eqn:E0; [|destruct (n <=? SCALER t) eqn:E1].
  - apply Z.eqb_eq in E0. destruct (Htail (n - 1)) as [H1 H2]; [lia|]. split; [done|].
    rewrite <- H2. replace (Z.to_nat n) with (Z.to_nat (n - 1) + Z.to_nat (SCALER t + 1))%nat by lia.
    rewrite Nat.iter_add. f_equal. rewrite Et at 2. apply iter_period. lia.
  - apply Z.leb_le in E1. cbn. rewrite (Z.mod_small n), Z.mod_small by lia. split; [done|].
    rewrite Et at 1. rewrite iter_down by lia. by rewrite Z2Nat.id by lia.
  - apply Z.eqb_neq in E0. apply Z.leb_gt in E1. rewrite (Z.mod_small (n - _)) by lia.
    destruct (Htail (n - (SCALER t + 1))) as [H1 H2]; [lia|]. split; [done|].
    rewrite <- H2. replace (Z.to_nat n) with
      (Z.to_nat (n - (SCALER t + 1)) + Z.to_nat (SCALER t + 1))%nat by lia.
    rewrite Nat.iter_add. f_equal. rewrite Et at 2. apply iter_period. lia.
Qed.
End advance.

(** The interrupts of the enabled timers, and their acknowledgement. *)
Definition timer_irq (tm : timer_impl) : bool := is_enabled tm && timer_check_interrupt tm.
Definition pending_irq (t : gptimer) : bool := timer_irq (timer0 t) || timer_irq (timer1 t).
Definition ack_timer (tm : timer_impl) : timer_impl :=
  if timer_irq tm then timer_clear_interrupt tm else tm.
Definition ack_irq (t : gptimer) : gptimer :=
  t <| timer0 := ack_timer (timer0 t) |> <| timer1 := ack_timer (timer1 t) |>.

Lemma Z_iter_nat {A} (f : A -> A) x n : Z.iter n f x = Nat.iter (Z.to_nat n) f x.
Proof. destruct n; cbn; [done| |done]. by rewrite Pos2Nat.inj_iter. Qed.

Lemma advance_timer_ticks pt clear tm :
  reloads tm ->
  advance_timer pt clear tm =
  (timer_irq (ticks (Z.to_nat pt) tm),
   if clear then ack_timer (ticks (Z.to_nat pt) tm) else ticks (Z.to_nat pt) tm).
Proof.
  intros Hr. destruct (ticks_S (Z.to_nat pt) tm Hr) as (_ & He & _).
  unfold advance_timer, ack_timer, timer_irq in *. rewrite He.
  unfold ticks in *. destruct (is_enabled tm); cbn; [|by destruct clear].
  rewrite Z_iter_nat. by destruct (timer_check_interrupt _), clear.
Qed.

Lemma Tick_idle t n : any_enabled t = false -> Nat.iter n Tick t = t.
Proof.
  intros Ha. induction n as [|n IH]; [done|]. rewrite Nat.iter_succ, IH.
  unfold Tick. unfold any_enabled in Ha. by rewrite Ha.
Qed.

(** C23. The analytic batch is the loop it replaces: for timers that reload,
    [advance_unlocked n] leaves the unit exactly as [n] calls of [Tick] do, with
    the pending interrupts of the enabled timers reported and, on request,
    acknowledged. *)
Theorem advance_is_iterated_Tick t n clear :
  timers_reload t -> 0 <= SCALER t < 4294967295 -> 0 < n < 18446744073709551616 ->
  advance_unlocked n clear t =
  let t' := Nat.iter (Z.to_nat n) Tick t in
  (pending_irq t', if clear then ack_irq t' else t').
Proof.
  intros Hr Hs Hn. unfold advance_unlocked. rewrite (proj2 (Z.eqb_neq n 0)) by lia.
  fold (any_enabled t). destruct (any_enabled t) eqn:Ha; cbn [negb].
  - pose proof (advance_prescaler_iter t Hr Ha n Hs Hn) as [_ ->].
    destruct (advance_prescaler (SCALER t) _ n) as [pt sc]. cbn [fst snd].
    destruct Hr as [H0 H1]. rewrite !advance_timer_ticks by done. by destruct clear.
  - rewrite Tick_idle by done. unfold any_enabled in Ha. apply orb_false_iff in Ha as [E0 E1].
    unfold pending_irq, ack_irq, ack_timer, timer_irq. rewrite E0, E1. destruct t; by destruct clear.
Qed.

(** Without reload the two disagree: [Tick] stops a one-shot timer when it
    expires, [advance_unlocked] goes on decrementing it after it has disabled
    itself. *)
Theorem advance_oneshot_diverges :
  let t := mkGptimer 0 0 0 0 (mkTimer 0 5 0x1 0) (mkTimer 0 0 0 0) in
  TCNTVAL (timer0 (Nat.iter 3 Tick t)) = 0xffffffff /\
  TCNTVAL (timer0 (advance_unlocked 3 false t).2) = 0xfffffffd.
Proof. by vm_compute. Qed.

Lemma advance_is_iterated_Tick_witness :
  advance_unlocked 37 true (set_LEON_smp_state (gptimer_new 8 31)) =
  (false, Nat.iter 37 Tick (set_LEON_smp_state (gptimer_new 8 31))).
Proof.
  rewrite (advance_is_iterated_Tick (set_LEON_smp_state (gptimer_new 8 31)) 37 true).
  - vm_compute. reflexivity.
  - split; [by intros _|]. discriminate.
  - vm_compute. split; [discriminate|reflexivity].
  - lia.
Defined.
