(* ===== verification/Uart.v ===== *)
(** * Console and UART (src/src/peripherals/console.h and APBUART.h)

    The terminal behind the console is the bytes waiting on the standard input
    (the descriptor is non-blocking: a read finds a byte or fails) and the bytes
    written to the standard output. *)
From S2P Require Import Prelude.

Record console := mkConsole {
  pending : Z; has_pending : bool; escape_pending : bool;
  c_stdin : list Z; c_stdout : list Z; c_sigterm : bool }.

#[export] Instance eta_console : Eta console := fun c =>
  mkConsole (pending c) (has_pending c) (escape_pending c) (c_stdin c) (c_stdout c) (c_sigterm c).
#[export] Instance set_pending : Setter pending := ltac:(derive_setter).
#[export] Instance set_has_pending : Setter has_pending := ltac:(derive_setter).
#[export] Instance set_escape_pending : Setter escape_pending := ltac:(derive_setter).
#[export] Instance set_c_stdin : Setter c_stdin := ltac:(derive_setter).
#[export] Instance set_c_stdout : Setter c_stdout := ltac:(derive_setter).
#[export] Instance set_c_sigterm : Setter c_sigterm := ltac:(derive_setter).

Definition console_new (input : list Z) : console := mkConsole 0 false false input [] false.

(** [Hit]: whether a byte for the guest is pending; [Ctrl+A] starts an escape
    sequence, [Ctrl+A x] raises [SIGTERM]. *)
Definition Hit (c : console) : bool * console :=
  if has_pending c then (true, c)
  else
    match c_stdin c with
    | [] => (false, c)
    | b :: rest =>
        let c := c <| c_stdin := rest |> in
        if escape_pending c then
          let c := c <| escape_pending := false |> in
          if (b =? 0x78) || (b =? 0x58) then (false, c <| c_sigterm := true |>)
          else if b =? 0x01 then (true, c <| pending := 0x01 |> <| has_pending := true |>)
          else (false, c)
        else if b =? 0x01 then (false, c <| escape_pending := true |>)
        else (true, c <| pending := b |> <| has_pending := true |>)
    end.

Definition Getc (c : console) : Z * console := (pending c, c <| has_pending := false |>).

Definition Putc (ch : Z) (c : console) : console :=
  c <| c_stdout := c_stdout c ++ [Z.land ch 0xff] |>.

(** ** [APBUART] *)

Record apbuart := mkUart {
  enabled : bool; r_ints_enabled : bool; t_ints_enabled : bool;
  tx_emptied_int_pending : bool; overrun : bool;
  in_len : Z; in_pos : Z; in_fifo : list Z; scaler : Z }.

#[export] Instance eta_uart : Eta apbuart := fun u =>
  mkUart (enabled u) (r_ints_enabled u) (t_ints_enabled u) (tx_emptied_int_pending u)
    (overrun u) (in_len u) (in_pos u) (in_fifo u) (scaler u).
#[export] Instance set_u_enabled : Setter enabled := ltac:(derive_setter).
#[export] Instance set_u_r_ints : Setter r_ints_enabled := ltac:(derive_setter).
#[export] Instance set_u_t_ints : Setter t_ints_enabled := ltac:(derive_setter).
#[export] Instance set_u_tx : Setter tx_emptied_int_pending := ltac:(derive_setter).
#[export] Instance set_u_overrun : Setter overrun := ltac:(derive_setter).
#[export] Instance set_u_len : Setter in_len := ltac:(derive_setter).
#[export] Instance set_u_pos : Setter in_pos := ltac:(derive_setter).
#[export] Instance set_u_fifo : Setter in_fifo := ltac:(derive_setter).
#[export] Instance set_u_scaler : Setter scaler := ltac:(derive_setter).

(** The constructor; it leaves [enabled] and [tx_emptied_int_pending] with
    whatever the storage holds. *)
Definition uart_new (enabled0 tx0 : bool) : apbuart :=
  mkUart enabled0 false false tx0 false 0 0 (replicate 8 0) 0xfff.

Definition DREADY : Z := 1.
Definition TS_EMPTY : Z := 2.
Definition TFIFO_EMPTY : Z := 4.
Definition OVERRUN : Z := 16.
Definition RCNT_shift : Z := 26.
Definition RE : Z := 1.
Definition TE : Z := 2.
Definition RI : Z := 4.
Definition TI : Z := 8.
Definition FA : Z := 0x80000000.

(** [in.fifo[(in.pos + 8 - in.len--) % 8]]: the array has 8 elements and the
    index is below 8. *)
Definition uart_pop (u : apbuart) : Z * apbuart :=
  (nth (Z.to_nat ((in_pos u + 8 - in_len u) mod 8)) (in_fifo u) 0,
   u <| in_len := u8 (in_len u - 1) |>).

#[local] Open Scope M_scope.

(** The UART, the console it refers to, and the counter that is a static
    variable of [input]. *)
Record uart_sys := mkUartSys { us_uart : apbuart; us_console : console; us_counter : Z }.
Abbreviation MU := (M uart_sys).

Definition on_uart {A} (m : M apbuart A) : MU A :=
  zoom us_uart (fun u s => mkUartSys u (us_console s) (us_counter s)) m.
Definition on_console {A} (f : console -> A * console) : MU A := fun s =>
  let '(a, c) := f (us_console s) in (Val a, mkUartSys (us_uart s) c (us_counter s)).

Definition uart_read (offset : Z) : M apbuart Z :=
  u ← gets id;
  if offset =? 0x0 then
    if 0 <? in_len u then
      let '(v, u) := uart_pop u in modify (fun _ => u) ;; ret v
    else ret 0
  else if offset =? 0x4 then
    let result := Z.lor (Z.lor (if 0 <? in_len u then DREADY else 0) TS_EMPTY) TFIFO_EMPTY in
    let result := if overrun u then Z.lor result OVERRUN else result in
    when (overrun u) (modify (fun u => u <| overrun := false |>)) ;;
    ret (Z.lor result (shl32 (in_len u) RCNT_shift))
  else if offset =? 0x8 then
    let result := if enabled u then RE + TE else 0 in
    let result := if r_ints_enabled u then Z.lor result RI else result in
    let result := if t_ints_enabled u then Z.lor result TI else result in
    ret (Z.lor result FA)
  else if offset =? 0xc then ret (scaler u)
  else throw (not_implemented_leon_exception "UART Read offset > 0xC").

Definition uart_write (offset value : Z) : MU unit :=
  if offset =? 0x0 then
    on_console (fun c => (tt, Putc value c)) ;;
    on_uart (modify (fun u => u <| tx_emptied_int_pending := true |>))
  else if offset =? 0x4 then ret tt
  else if offset =? 0x8 then
    on_uart (modify (fun u => u <| r_ints_enabled := truth (Z.land value RI) |>
                                <| t_ints_enabled := truth (Z.land value TI) |>
                                <| enabled := truth (Z.land value (Z.lor RE TE)) |>))
  else if offset =? 0xc then on_uart (modify (fun u => u <| scaler := Z.land value 0xfff |>))
  else throw (not_implemented_leon_exception "Test - write UART other reg").

Definition check_irq : M apbuart bool :=
  u ← gets id;
  if r_ints_enabled u && truth (in_len u) then ret true
  else if t_ints_enabled u && tx_emptied_int_pending u then
    modify (fun u => u <| tx_emptied_int_pending := false |>) ;; ret true
  else ret false.

(** [in.fifo[in.pos++ % 8] = b; ++in.len;]. *)
Definition uart_push (b : Z) (u : apbuart) : apbuart :=
  u <| in_fifo := <[Z.to_nat (in_pos u mod 8) := b]> (in_fifo u) |>
    <| in_pos := u8 (in_pos u + 1) |> <| in_len := u8 (in_len u + 1) |>.

Definition input_scheduled : MU unit :=
  hit ← on_console Hit;
  if negb hit then ret tt
  else
    u ← gets us_uart;
    if 8 <=? in_len u then on_uart (modify (fun u => u <| overrun := true |>))
    else
      b ← on_console Getc;
      on_uart (modify (uart_push b)).

Definition input : MU unit :=
  s ← gets id;
  if us_counter s =? 0 then
    modify (fun s => mkUartSys (us_uart s) (us_console s) (Z.land (scaler (us_uart s)) 0xfff)) ;;
    input_scheduled
  else modify (fun s => mkUartSys (us_uart s) (us_console s) (us_counter s - 1)).

Definition tick_scheduled : MU unit :=
  on_uart (modify (fun u => if t_ints_enabled u
                            then u <| tx_emptied_int_pending := true |> else u)) ;;
  input_scheduled.

(** ** The receive FIFO is a bounded queue *)

Definition uart_ok (u : apbuart) : Prop :=
  length (in_fifo u) = 8%nat /\ 0 <= in_len u <= 8 /\ 0 <= in_pos u < 256.

(** The bytes received and not yet read, oldest first. *)
Definition fifo_cell (u : apbuart) (k : nat) : Z :=
  nth (Z.to_nat ((in_pos u + 8 - in_len u + Z.of_nat k) mod 8)) (in_fifo u) 0.
Definition fifo_view (u : apbuart) : list Z :=
  map (fifo_cell u) (seq 0 (Z.to_nat (in_len u))).

Lemma fifo_view_length u : length (fifo_view u) = Z.to_nat (in_len u).
Proof. unfold fifo_view. by rewrite length_map, length_seq. Qed.

Lemma uart_push_fields u b :
  uart_ok u -> in_len u < 8 ->
  in_len (uart_push b u) = in_len u + 1 /\ in_pos (uart_push b u) = (in_pos u + 1) mod 256 /\
  in_fifo (uart_push b u) = <[Z.to_nat (in_pos u mod 8) := b]> (in_fifo u).
Proof. intros (_ & Hl & _) Hlt. repeat split. cbn. unfold u8. apply Z.mod_small. lia. Qed.

Lemma uart_push_view u b :
  uart_ok u -> in_len u < 8 -> fifo_view (uart_push b u) = fifo_view u ++ [b] /\ uart_ok (uart_push b u).
Proof.
  intros Hok Hlt. destruct (uart_push_fields u b Hok Hlt) as (El & Ep & Ef).
  destruct Hok as (Hf & Hl & Hp). split.
  - unfold fifo_view. rewrite El.
    replace (Z.to_nat (in_len u + 1)) with (Z.to_nat (in_len u) + 1)%nat by lia.
    rewrite seq_app, map_app. cbn [seq map Nat.add]. f_equal.
    + apply map_ext_in. intros k Hk%in_seq. unfold fifo_cell. rewrite El, Ep, Ef, !nth_lookup.
      replace (((in_pos u + 1) mod 256 + 8 - (in_len u + 1) + Z.of_nat k) mod 8)
        with ((in_pos u + 8 - in_len u + Z.of_nat k) mod 8) by (Z.div_mod_to_equations; lia).
      rewrite list_lookup_insert_ne; [done|]. Z.div_mod_to_equations; lia.
    + f_equal. unfold fifo_cell. rewrite El, Ep, Ef, nth_lookup.
      replace (((in_pos u + 1) mod 256 + 8 - (in_len u + 1) + Z.of_nat (Z.to_nat (in_len u))) mod 8)
        with (in_pos u mod 8) by (Z.div_mod_to_equations; lia).
      rewrite list_lookup_insert_eq; [done|]. rewrite Hf. Z.div_mod_to_equations; lia.
  - unfold uart_ok. rewrite El, Ep, Ef, length_insert.
    pose proof (Z.mod_pos_bound (in_pos u + 1) 256). lia.
Qed.

Lemma uart_pop_view u :
  uart_ok u -> 0 < in_len u ->
  fifo_view u = (uart_pop u).1 :: fifo_view (uart_pop u).2 /\ uart_ok (uart_pop u).2.
Proof.
  intros (Hf & Hl & Hp) Hlt.
  assert (in_len (uart_pop u).2 = in_len u - 1) as El by (cbn; unfold u8; apply Z.mod_small; lia).
  assert (in_pos (uart_pop u).2 = in_pos u /\ in_fifo (uart_pop u).2 = in_fifo u) as [Ep Ef] by done.
  split; [|unfold uart_ok; rewrite El, Ep, Ef; lia].
  unfold fifo_view. rewrite El.
  replace (Z.to_nat (in_len u)) with (S (Z.to_nat (in_len u - 1))) by lia.
  cbn [seq map]. f_equal; [unfold fifo_cell, uart_pop; cbn -[nth]; by rewrite Z.add_0_r|].
  rewrite <- seq_shift, map_map. apply map_ext_in. intros k Hk%in_seq. unfold fifo_cell.
  rewrite El, Ep, Ef. do 3 f_equal. lia.
Qed.

(** ** Reception and reading *)

(** The states of a UART under every operation of the class, its console
    receiving any input. *)
Inductive uart_reachable : uart_sys -> Prop :=
| ur_new e t con : uart_reachable (mkUartSys (uart_new e t) con 0)
| ur_read s o : uart_reachable s -> uart_reachable (on_uart (uart_read o) s).2
| ur_write s o v : uart_reachable s -> uart_reachable (uart_write o v s).2
| ur_irq s : uart_reachable s -> uart_reachable (on_uart check_irq s).2
| ur_input s : uart_reachable s -> uart_reachable (input s).2
| ur_tick s : uart_reachable s -> uart_reachable (tick_scheduled s).2
| ur_typed s b :
    uart_reachable s ->
    uart_reachable (mkUartSys (us_uart s)
      (us_console s <| c_stdin := c_stdin (us_console s) ++ [b] |>) (us_counter s)).

Definition us_ok (s : uart_sys) : Prop := uart_ok (us_uart s).

Lemma input_scheduled_view s :
  us_ok s ->
  let '(hit, con) := Hit (us_console s) in
  let u := us_uart s in
  exists u', input_scheduled s = (Val tt, mkUartSys u'
               (if hit && (in_len u <? 8) then (Getc con).2 else con) (us_counter s)) /\ uart_ok u' /\
    fifo_view u' = (if hit && (in_len u <? 8) then fifo_view u ++ [pending con] else fifo_view u) /\
    overrun u' = (if hit && negb (in_len u <? 8) then true else overrun u).
Proof.
  intros Hok. destruct (Hit (us_console s)) as [hit con] eqn:Eh.
  unfold input_scheduled, bindM, on_console, on_uart, zoom, gets, modify. rewrite Eh.
  destruct hit; cbn -[fifo_view uart_push]; [|by exists (us_uart s)].
  destruct (8 <=? in_len (us_uart s)) eqn:E; cbn -[fifo_view uart_push].
  - apply Z.leb_le in E. rewrite (proj2 (Z.ltb_ge _ _)) by lia.
    by exists (us_uart s <| overrun := true |>).
  - apply Z.leb_gt in E. rewrite (proj2 (Z.ltb_lt _ _)) by lia.
    exists (uart_push (pending con) (us_uart s)). split; [done|].
    destruct (uart_push_view (us_uart s) (pending con)) as [-> ?]; done.
Qed.

Lemma input_scheduled_ok s : us_ok s -> us_ok (input_scheduled s).2.
Proof.
  intros Hs. pose proof (input_scheduled_view s Hs) as H. destruct (Hit _) as [hit con].
  by destruct H as (u' & -> & ? & _).
Qed.

Lemma uart_reachable_ok s : uart_reachable s -> us_ok s.
Proof.
  pose proof input_scheduled_ok as Hin. induction 1 as [| s o _ IH | s o v _ IH | s _ IH | s _ IH | s _ IH | s b _ IH].
  - repeat split; cbn; lia || done.
  - unfold us_ok, on_uart, zoom, uart_read, bindM, gets, when. cbn -[uart_pop].
    repeat case_match; unfold ret, throw, modify in *; simplify_eq/=; try done.
    pose proof (proj2 (uart_pop_view (us_uart s) IH ltac:(lia))). by destruct (uart_pop (us_uart s)); simplify_eq/=.
  - unfold us_ok, uart_write, on_uart, on_console, zoom, bindM, modify, ret, throw.
    by repeat case_match; simplify_eq/=.
  - unfold us_ok, on_uart, zoom, check_irq, bindM, gets, modify, ret.
    by repeat case_match; simplify_eq/=.
  - unfold input, bindM, gets, modify. cbn. destruct (us_counter s =? 0); [by apply Hin|done].
  - unfold tick_scheduled, bindM, on_uart, zoom, modify. apply Hin. unfold us_ok. cbn.
    by destruct (t_ints_enabled _).
  - done.
Qed.

(** C24. The receive FIFO refines a queue of at most eight bytes: reading the
    data register removes and returns the oldest byte, or 0 when there is none;
    a poll appends the byte the console has, or, when eight bytes wait, sets the
    overrun flag and leaves the byte with the console. *)
Theorem uart_fifo_refines_queue s :
  uart_reachable s ->
  (length (fifo_view (us_uart s)) <= 8)%nat /\
  (exists u', on_uart (uart_read 0) s =
     (Val (hd 0 (fifo_view (us_uart s))), mkUartSys u' (us_console s) (us_counter s)) /\
     fifo_view u' = tl (fifo_view (us_uart s))) /\
  let '(hit, con) := Hit (us_console s) in
  let room := in_len (us_uart s) <? 8 in
  exists u', input_scheduled s =
    (Val tt, mkUartSys u' (if hit && room then (Getc con).2 else con) (us_counter s)) /\
    fifo_view u' = (if hit && room then fifo_view (us_uart s) ++ [pending con]
                    else fifo_view (us_uart s)) /\
    overrun u' = (if hit && negb room then true else overrun (us_uart s)).
Proof.
  intros Hr. apply uart_reachable_ok in Hr as Hok. split; [|split].
  - rewrite fifo_view_length. destruct Hok as (_ & Hl & _). lia.
  - unfold on_uart, zoom, uart_read, bindM, gets. cbn -[fifo_view uart_pop].
    destruct (0 <? in_len (us_uart s)) eqn:E.
    + apply Z.ltb_lt in E. destruct (uart_pop_view (us_uart s) Hok E) as [-> _].
      destruct (uart_pop (us_uart s)) as [v u']. by exists u'.
    + apply Z.ltb_ge in E. exists (us_uart s).
      assert (fifo_view (us_uart s) = []) as ->; [|done].
      apply nil_length_inv. rewrite fifo_view_length. lia.
  - pose proof (input_scheduled_view s Hok) as H. destruct (Hit _) as [hit con].
    destruct H as (u' & ? & _ & ?). by exists u'.
Qed.

Lemma uart_fifo_refines_queue_witness :
  let s := mkUartSys (uart_new false false) (console_new [0x41; 0x42]) 0 in
  exists u', on_uart (uart_read 0) (tick_scheduled (tick_scheduled s).2).2 =
    (Val 0x41, mkUartSys u' (us_console (tick_scheduled (tick_scheduled s).2).2) 0) /\
    fifo_view u' = [0x42].
Proof.
  cbv zeta.
  destruct (uart_fifo_refines_queue
    (tick_scheduled (tick_scheduled (mkUartSys (uart_new false false) (console_new [0x41; 0x42]) 0)).2).2
    (ur_tick _ (ur_tick _ (ur_new false false (console_new [0x41; 0x42]))))) as (_ & (u' & H1 & H2) & _).
  exists u'. rewrite H1, H2. split; reflexivity.
Defined.
