(* ===== verification/Ps2.v ===== *)
(** * The PS/2 keyboard controller (class [APBPS2], src/src/peripherals/APBPS2.h)

    The controller and the interrupt controller it refers to are the state of
    its operations. *)
From S2P Require Import Prelude Exec Irqmp.

Inductive TxState := IDLE | WAIT_F0 | WAIT_ED | WAIT_F3.

Record apbps2 := mkPs2 { irq_line_ : Z; ctrl_ : Z; tx_state_ : TxState; rxq_ : list Z }.

#[export] Instance eta_ps2 : Eta apbps2 := fun p =>
  mkPs2 (irq_line_ p) (ctrl_ p) (tx_state_ p) (rxq_ p).
#[export] Instance set_p_ctrl : Setter ctrl_ := ltac:(derive_setter).
#[export] Instance set_p_tx : Setter tx_state_ := ltac:(derive_setter).
#[export] Instance set_p_rxq : Setter rxq_ := ltac:(derive_setter).

Definition ps2_new (irq_line : Z) : apbps2 := mkPs2 irq_line 0 IDLE [].

Definition ps2_reset (p : apbps2) : apbps2 := p <| ctrl_ := 0 |> <| tx_state_ := IDLE |> <| rxq_ := [] |>.

(** [push] and [ack]. *)
Definition ps2_push (b : Z) (p : apbps2) : apbps2 :=
  if (length (rxq_ p) <? 32)%nat then p <| rxq_ := rxq_ p ++ [b] |> else p.
Definition ack (p : apbps2) : apbps2 := ps2_push 0xfa p.

Definition tx_respond (cmd : Z) (p : apbps2) : apbps2 :=
  match tx_state_ p with
  | WAIT_F0 =>
      let p := ack (p <| tx_state_ := IDLE |>) in
      if cmd =? 0x00 then ps2_push 0x02 p else p
  | WAIT_ED | WAIT_F3 => ack (p <| tx_state_ := IDLE |>)
  | IDLE =>
      if cmd =? 0xff then ps2_push 0xaa (ack p)
      else if cmd =? 0xf2 then ps2_push 0x83 (ps2_push 0xab (ack p))
      else if cmd =? 0xf0 then ack p <| tx_state_ := WAIT_F0 |>
      else if cmd =? 0xed then ack p <| tx_state_ := WAIT_ED |>
      else if cmd =? 0xf3 then ack p <| tx_state_ := WAIT_F3 |>
      else if cmd =? 0xee then ps2_push 0xee p
      else ack p
  end.

Definition ps2_read (offset : Z) (p : apbps2) : Z * apbps2 :=
  let o := Z.land offset 0x0c in
  if o =? 0x00 then
    match rxq_ p with
    | [] => (0, p)
    | b :: q => (b, p <| rxq_ := q |>)
    end
  else if o =? 0x04 then
    let rcnt := Z.of_nat (length (rxq_ p)) in
    let rcnt := if 31 <? rcnt then 31 else rcnt in
    let st := match rxq_ p with [] => 0 | _ => 0x01 end in
    (Z.lor st (shl32 rcnt 27), p)
  else if o =? 0x08 then (ctrl_ p, p)
  else (0, p).

#[local] Open Scope M_scope.

Record ps2_sys := mkPs2Sys { ps_dev : apbps2; ps_irqmp : irqmp }.
Abbreviation MP := (M ps2_sys).

Definition on_ps2 {A} (f : apbps2 -> A * apbps2) : MP A := fun s =>
  let '(a, p) := f (ps_dev s) in (Val a, mkPs2Sys p (ps_irqmp s)).
Definition ps2_irqmp {A} (m : M irqmp A) : MP A :=
  zoom ps_irqmp (fun q s => mkPs2Sys (ps_dev s) q) m.

(** [if (trigger) irqmp_.trigger_irq(irq_line_)]. *)
Definition ps2_trigger (trigger : bool) : MP unit :=
  line ← gets (fun s => irq_line_ (ps_dev s));
  when trigger (ps2_irqmp (trigger_irq line)).

Definition push_byte (byte : Z) : MP unit :=
  trigger ← on_ps2 (fun p => let p := ps2_push byte p in
                             (negb (Z.land (ctrl_ p) 0x4 =? 0), p));
  ps2_trigger trigger.

Definition ps2_write (offset value : Z) : MP unit :=
  let o := Z.land offset 0x0c in
  trigger ← on_ps2 (fun p =>
    if o =? 0x00 then
      let p := tx_respond (Z.land value 0xff) p in
      (negb (Z.land (ctrl_ p) 0x4 =? 0), p)
    else if o =? 0x08 then (false, p <| ctrl_ := Z.land value 0xf |>)
    else (false, p));
  ps2_trigger trigger.

(** ** Keyboard protocol *)

Lemma ps2_push_room b p :
  (length (rxq_ p) < 32)%nat ->
  ps2_push b p = p <| rxq_ := rxq_ p ++ [b] |>.
Proof. intros H. unfold ps2_push. by rewrite (proj2 (Nat.ltb_lt _ _)). Qed.

Lemma ps2_push_bound b p : (length (rxq_ p) <= 32)%nat -> (length (rxq_ (ps2_push b p)) <= 32)%nat.
Proof.
  intros H. unfold ps2_push. destruct (_ <? _)%nat eqn:E; [|done].
  apply Nat.ltb_lt in E. cbn. rewrite length_app. cbn. lia.
Qed.

(** Rewrite every push, innermost first, where the queue has room. *)
Ltac push_all :=
  repeat match goal with
  | |- context [ps2_push ?b ?p] =>
      lazymatch p with context [ps2_push] => fail | _ => idtac end;
      rewrite (ps2_push_room b p) by (cbn; rewrite ?length_app; cbn; lia)
  end.

(** What the keyboard answers to a byte, and the state it moves to. *)
Definition response (st : TxState) (cmd : Z) : list Z * TxState :=
  match st with
  | WAIT_F0 => (if cmd =? 0 then [0xfa; 0x02] else [0xfa], IDLE)
  | WAIT_ED | WAIT_F3 => ([0xfa], IDLE)
  | IDLE =>
      if cmd =? 0xff then ([0xfa; 0xaa], IDLE)
      else if cmd =? 0xf2 then ([0xfa; 0xab; 0x83], IDLE)
      else if cmd =? 0xf0 then ([0xfa], WAIT_F0)
      else if cmd =? 0xed then ([0xfa], WAIT_ED)
      else if cmd =? 0xf3 then ([0xfa], WAIT_F3)
      else if cmd =? 0xee then ([0xee], IDLE)
      else ([0xfa], IDLE)
  end.

Inductive ps2_reachable : ps2_sys -> Prop :=
| pr_new line q : ps2_reachable (mkPs2Sys (ps2_new line) q)
| pr_reset s : ps2_reachable s -> ps2_reachable (mkPs2Sys (ps2_reset (ps_dev s)) (ps_irqmp s))
| pr_key s b : ps2_reachable s -> ps2_reachable (push_byte b s).2
| pr_read s o : ps2_reachable s -> ps2_reachable (on_ps2 (ps2_read o) s).2
| pr_write s o v : ps2_reachable s -> ps2_reachable (ps2_write o v s).2.

Lemma ps2_trigger_dev b s : ps_dev (ps2_trigger b s).2 = ps_dev s.
Proof.
  unfold ps2_trigger, bindM, gets. destruct b; [|done]. cbn. unfold ps2_irqmp, zoom.
  by destruct (trigger_irq _ _).
Qed.

Lemma tx_respond_bound cmd p :
  (length (rxq_ p) <= 32)%nat -> (length (rxq_ (tx_respond cmd p)) <= 32)%nat.
Proof. intros H. unfold tx_respond, ack. repeat case_match; cbn; repeat apply ps2_push_bound; done. Qed.

Lemma ps2_write_dev o v s :
  ps_dev (ps2_write o v s).2 =
  if Z.land o 0x0c =? 0 then tx_respond (Z.land v 0xff) (ps_dev s)
  else if Z.land o 0x0c =? 8 then ps_dev s <| ctrl_ := Z.land v 0xf |> else ps_dev s.
Proof.
  unfold ps2_write, on_ps2. unfold bindM at 1.
  repeat case_match; simplify_eq; by rewrite ps2_trigger_dev.
Qed.

Lemma ps2_reachable_bound s : ps2_reachable s -> (length (rxq_ (ps_dev s)) <= 32)%nat.
Proof.
  induction 1 as [| | s b _ IH | s o _ IH | s o v _ IH]; try (cbn; lia).
  - unfold push_byte, on_ps2. unfold bindM at 1. rewrite ps2_trigger_dev. by apply ps2_push_bound.
  - unfold on_ps2, ps2_read. destruct (rxq_ (ps_dev s)) eqn:E; repeat case_match; simplify_eq/=;
      rewrite ?E; cbn; lia.
  - rewrite ps2_write_dev. repeat case_match; cbn; [by apply tx_respond_bound|done..].
Qed.

(** C25. The PS/2 controller follows the keyboard protocol: it queues at most 32
    bytes; a command written to the data register appends exactly the answer of
    the protocol and moves to its next state when three bytes fit; reading the
    data register returns the queued bytes in order. *)
Theorem ps2_protocol s cmd :
  ps2_reachable s ->
  (length (rxq_ (ps_dev s)) <= 32)%nat /\
  ((length (rxq_ (ps_dev s)) <= 29)%nat ->
   rxq_ (ps_dev (ps2_write 0 cmd s).2) =
     rxq_ (ps_dev s) ++ (response (tx_state_ (ps_dev s)) (Z.land cmd 0xff)).1 /\
   tx_state_ (ps_dev (ps2_write 0 cmd s).2) =
     (response (tx_state_ (ps_dev s)) (Z.land cmd 0xff)).2) /\
  (on_ps2 (ps2_read 0) s).1 = Val (hd 0 (rxq_ (ps_dev s))) /\
  rxq_ (ps_dev (on_ps2 (ps2_read 0) s).2) = tl (rxq_ (ps_dev s)).
Proof.
  intros Hr. split; [by apply ps2_reachable_bound|]. split.
  - intros Hroom. rewrite ps2_write_dev. cbn [Z.land Z.eqb].
    unfold tx_respond, response, ack. generalize (Z.land cmd 0xff). intros c.
    repeat case_match; cbn [fst snd];
      push_all; cbn; rewrite <- ?app_assoc; by split.
  - unfold on_ps2, ps2_read. cbn [Z.land Z.eqb]. destruct (rxq_ (ps_dev s)) eqn:E; cbn; by split.
Qed.

Lemma ps2_protocol_witness :
  exists q, rxq_ (ps_dev (ps2_write 0 0xf2 (mkPs2Sys (ps2_new 5) q)).2) = [0xfa; 0xab; 0x83].
Proof.
  exists (irqmp_new 1).2.
  exact (proj1 (proj1 (proj2 (ps2_protocol (mkPs2Sys (ps2_new 5) (irqmp_new 1).2) 0xf2
    (pr_new 5 (irqmp_new 1).2))) ltac:(cbn; lia))).
Defined.
