(* ===== verification/Apb.v ===== *)
(** * The AHB/APB bridge and the bus clock
      (src/src/peripherals/APBCTRL.h, apb_slave.h, BusClock.cpp)

    The bridge is a memory bank whose 32-bit accesses go to a register of one of
    its slaves.  The PCI bridge is a slave behind the interface [ApbSlave]; the
    display controller is one behind [DisplaySlave], since it looks banks up when
    it is written.  The bridge is an instance of the interrupt interface the
    processors use. *)
From S2P Require Import Prelude Mctrl Exec Irqmp Gptimer Uart Ps2.

(** [apb_slave::read] and [apb_slave::write]. *)
Class ApbSlave (S : Type) := {
  slv_read : Z -> M S Z;
  slv_write : Z -> Z -> M S unit;
}.

(** The same of the display controller [V]: a write runs on the memory
    controller with the devices [W] behind it. *)
Class DisplaySlave (V W : Type) := {
  vga_read : Z -> M V Z;
  vga_write : Z -> Z -> M (mctrl W) unit;
}.

(** The members of [APBCTRL], [P] and [V] being the PCI bridge and the display
    controller. *)
Record apb (P V : Type) := mkApb {
  apb_base : Z; apb_size : Z; apb_mem : bytes;
  apb_uart : apbuart; apb_uart9 : apbuart; apb_console : console; apb_counter : Z;
  apb_irq : irqmp; apb_timer : gptimer; apb_pci : P; apb_svga : V; apb_ps2 : apbps2 }.
Arguments mkApb {_ _}.
Arguments apb_base {_ _} _.
Arguments apb_size {_ _} _.
Arguments apb_mem {_ _} _.
Arguments apb_uart {_ _} _.
Arguments apb_uart9 {_ _} _.
Arguments apb_console {_ _} _.
Arguments apb_counter {_ _} _.
Arguments apb_irq {_ _} _.
Arguments apb_timer {_ _} _.
Arguments apb_pci {_ _} _.
Arguments apb_svga {_ _} _.
Arguments apb_ps2 {_ _} _.

#[export] Instance eta_apb P V : Eta (apb P V) := fun a =>
  mkApb (apb_base a) (apb_size a) (apb_mem a) (apb_uart a) (apb_uart9 a) (apb_console a)
    (apb_counter a) (apb_irq a) (apb_timer a) (apb_pci a) (apb_svga a) (apb_ps2 a).
#[export] Instance set_apb_mem P V : Setter (@apb_mem P V) := ltac:(derive_setter).
#[export] Instance set_apb_uart P V : Setter (@apb_uart P V) := ltac:(derive_setter).
#[export] Instance set_apb_uart9 P V : Setter (@apb_uart9 P V) := ltac:(derive_setter).
#[export] Instance set_apb_console P V : Setter (@apb_console P V) := ltac:(derive_setter).
#[export] Instance set_apb_counter P V : Setter (@apb_counter P V) := ltac:(derive_setter).
#[export] Instance set_apb_irq P V : Setter (@apb_irq P V) := ltac:(derive_setter).
#[export] Instance set_apb_timer P V : Setter (@apb_timer P V) := ltac:(derive_setter).
#[export] Instance set_apb_pci P V : Setter (@apb_pci P V) := ltac:(derive_setter).
#[export] Instance set_apb_svga P V : Setter (@apb_svga P V) := ltac:(derive_setter).
#[export] Instance set_apb_ps2 P V : Setter (@apb_ps2 P V) := ltac:(derive_setter).

(** The bridge as constructed: 1 MB less two pages, a 256-byte RAM, the timer
    with interrupt 8 and prescaler 31, the keyboard on interrupt 5. *)
Definition APBCTRL_new {P V} (base : Z) (con : console) (q : irqmp) (e1 t1 e9 t9 : bool)
    (pci : P) (svga : V) : apb P V :=
  mkApb base (1 * 1024 * 1024 - 0x2000) (mkBytes 0x100 ∅)
    (uart_new e1 t1) (uart_new e9 t9) con 0 q (gptimer_new 8 31) pci svga (ps2_new 5).

#[local] Open Scope M_scope.

Section apb_ops.
Context {P V : Type} `{ApbSlave P} `{DisplaySlave V (apb P V)}.
Abbreviation MA := (M (apb P V)).

Definition a_irq {A} (m : M irqmp A) : MA A := zoom apb_irq (fun q a => a <| apb_irq := q |>) m.
Definition a_pci {A} (m : M P A) : MA A := zoom apb_pci (fun p a => a <| apb_pci := p |>) m.
Definition a_svga {A} (m : M V A) : MA A := zoom apb_svga (fun v a => a <| apb_svga := v |>) m.
Definition a_uart {A} (m : M uart_sys A) : MA A :=
  zoom (fun a => mkUartSys (apb_uart a) (apb_console a) (apb_counter a))
    (fun s a => a <| apb_uart := us_uart s |> <| apb_console := us_console s |>
                  <| apb_counter := us_counter s |>) m.
Definition a_uart9 {A} (m : M uart_sys A) : MA A :=
  zoom (fun a => mkUartSys (apb_uart9 a) (apb_console a) (apb_counter a))
    (fun s a => a <| apb_uart9 := us_uart s |> <| apb_console := us_console s |>
                  <| apb_counter := us_counter s |>) m.
Definition a_ps2 {A} (m : M ps2_sys A) : MA A :=
  zoom (fun a => mkPs2Sys (apb_ps2 a) (apb_irq a))
    (fun s a => a <| apb_ps2 := ps_dev s |> <| apb_irq := ps_irqmp s |>) m.

(** [check_range]. *)
Definition check_range (va : Z) : MA unit :=
  a ← gets id;
  if (apb_base a <=? va) && (va <? apb_base a + apb_size a) then ret tt
  else throw (out_of_range "ROM access out of range").

Definition apb_read32 (va : Z) : MA Z :=
  check_range va ;;
  let slot := Z.shiftr (Z.land va 0xfff00) 8 in
  let reg := Z.land va 0x0ff in
  if slot =? 0x000 then v ← gets (fun a => read32_be 0 (apb_mem a) reg); or_ub v
  else if slot =? 0x001 then a_uart (on_uart (uart_read reg))
  else if slot =? 0x002 then a_irq (irqmp_read reg)
  else if slot =? 0x003 then gets (fun a => gptimer_read reg (apb_timer a))
  else if slot =? 0x004 then a_pci (slv_read reg)
  else if slot =? 0x009 then a_uart9 (on_uart (uart_read reg))
  else if slot =? 0x005 then a_svga (vga_read reg)
  else if slot =? 0x006 then a_ps2 (on_ps2 (ps2_read reg))
  else ret 0.

(** A write to the display controller may access the memory controller; the
    others are operations of the bridge alone. *)
Definition apb_write32 (va value : Z) : M (mctrl (apb P V)) unit :=
  on_device (check_range va) ;;
  let slot := Z.shiftr (Z.land va 0xfff00) 8 in
  let reg := Z.land va 0x0ff in
  if slot =? 0x000 then
    on_device
      (d ← gets (fun a => write32_be 0 (apb_mem a) reg value);
       d ← or_ub d;
       modify (fun a => a <| apb_mem := d |>))
  else if slot =? 0x001 then on_device (a_uart (uart_write reg value))
  else if slot =? 0x002 then on_device (a_irq (irqmp_write reg value))
  else if slot =? 0x003 then
    on_device (modify (fun a => a <| apb_timer := gptimer_write reg value (apb_timer a) |>))
  else if slot =? 0x004 then on_device (a_pci (slv_write reg value))
  else if slot =? 0x009 then on_device (a_uart9 (uart_write reg value))
  else if slot =? 0x005 then vga_write reg value
  else if slot =? 0x006 then on_device (a_ps2 (ps2_write reg value))
  else ret tt.

Definition apb_read8 (va : Z) : MA Z := throw (logic_error "read8 not available in APBCTRL").
Definition apb_write8 (va v : Z) : MA unit := throw (logic_error "write8 not available in APBCTRL").

#[export] Instance IntCtl_apb : IntCtl (apb P V) := {|
  get_irq_hint c := a_irq (get_irq_hint c);
  clear_irq l c := a_irq (clear_irq l c);
|}.

(** ** [BusClock::run], one host iteration

    [due] is the number of bus ticks that elapsed; the timer is advanced in
    batches that end at the UART's poll.  The loop returns the divider. *)
Definition bus_step (uart_div_target uart_div remaining : Z) : MA (Z * Z) :=
  let to_uart := uart_div_target - uart_div in
  let batch := if remaining <? to_uart then remaining else to_uart in
  fire ← (fun a => let '(f, t) := advance_unlocked batch true (apb_timer a) in
                   (Val f, a <| apb_timer := t |>));
  let uart_div := uart_div + batch in
  let remaining := remaining - batch in
  when fire (a_irq (trigger_irq 8)) ;;
  if uart_div_target <=? uart_div then
    a_uart tick_scheduled ;;
    irq ← a_uart (on_uart check_irq);
    when irq (a_irq (trigger_irq 4)) ;;
    ret (0, remaining)
  else ret (uart_div, remaining).

(** [while (remaining > 0)]; [None] when the fuel was not enough. *)
Fixpoint bus_loop (fuel : nat) (uart_div_target uart_div remaining : Z) : MA (option Z) :=
  if 0 <? remaining then
    match fuel with
    | O => ret None
    | S fuel =>
        r ← bus_step uart_div_target uart_div remaining;
        bus_loop fuel uart_div_target r.1 r.2
    end
  else ret (Some uart_div).
End apb_ops.
