(* ===== verification/DebugStop.v ===== *)
(** * Stop-the-world control for the debugger
      (src/src/gdb/DebugStopController.hpp)

    Worker threads call [checkpoint] between instructions; the debugger calls
    [request_stop], [wait_until_all_stopped] and [resume].  The state is shared,
    so the model is a transition relation: every step is what one thread does
    between two points where others can interleave (an atomic access, or the
    body of a critical section). *)
From S2P Require Import Prelude.

Inductive StopState := Running | StopRequested | Stopped.

#[export] Instance StopState_eq_dec : EqDecision StopState.
Proof. solve_decision. Defined.

(** Where a worker thread is: outside [checkpoint]; inside it after the load
    that saw a stop and before the lock; waiting on [cv_] with [my_epoch]. *)
Inductive wpc := Out | Slow | Parked (my_epoch : Z).

#[export] Instance wpc_eq_dec : EqDecision wpc.
Proof. solve_decision. Defined.

(** [WorkerState] with the worker's control point. *)
Record worker := mkWorker { w_stopped : bool; w_pc : wpc }.

Record dsc := mkDsc {
  workers_ : gmap Z worker; next_id_ : Z; expected_workers_ : Z; stopped_count_ : Z;
  state_ : StopState; stop_epoch_ : Z }.

Definition dsc_init : dsc := mkDsc ∅ 1 0 0 Running 0.

Definition register_worker (s : dsc) : Z * dsc :=
  let id := next_id_ s in
  let ws := <[id := mkWorker false Out]> (workers_ s) in
  (id, mkDsc ws (u32 (next_id_ s + 1)) (u32 (Z.of_nat (size ws))) (stopped_count_ s)
         (state_ s) (stop_epoch_ s)).

(** The compare-exchange of [request_stop], and its critical section. *)
Definition request_stop_cas (s : dsc) : bool * dsc :=
  match state_ s with
  | Running => (true, mkDsc (workers_ s) (next_id_ s) (expected_workers_ s) (stopped_count_ s)
                        StopRequested (stop_epoch_ s))
  | _ => (false, s)
  end.
Definition request_stop_bump (s : dsc) : dsc :=
  mkDsc (workers_ s) (next_id_ s) (expected_workers_ s) (stopped_count_ s) (state_ s)
    (u64 (stop_epoch_ s + 1)).

Definition resume (s : dsc) : dsc :=
  mkDsc ((fun w => mkWorker false (w_pc w)) <$> workers_ s) (next_id_ s) (expected_workers_ s) 0
    Running (u64 (stop_epoch_ s + 1)).

Definition is_stop_requested_or_stopped (s : dsc) : bool := negb (bool_decide (state_ s = Running)).

Definition set_worker (id : Z) (w : worker) (s : dsc) : dsc :=
  mkDsc (<[id := w]> (workers_ s)) (next_id_ s) (expected_workers_ s) (stopped_count_ s)
    (state_ s) (stop_epoch_ s).

(** The atomic load at the head of [checkpoint]. *)
Definition checkpoint_load (id : Z) (w : worker) (s : dsc) : dsc :=
  if is_stop_requested_or_stopped s then set_worker id (mkWorker (w_stopped w) Slow) s else s.

(** The critical section of [checkpoint_slow] up to the wait. *)
Definition checkpoint_slow (id : Z) (w : worker) (s : dsc) : dsc :=
  let s' :=
    if w_stopped w then s
    else
      let n := u32 (stopped_count_ s + 1) in
      mkDsc (workers_ s) (next_id_ s) (expected_workers_ s) n
        (if n =? expected_workers_ s then Stopped else state_ s) (stop_epoch_ s) in
  set_worker id (mkWorker true (Parked (stop_epoch_ s'))) s'.

(** The predicate of the worker's wait, and of the debugger's. *)
Definition may_leave (my_epoch : Z) (s : dsc) : bool :=
  bool_decide (state_ s = Running) && negb (stop_epoch_ s =? my_epoch).
Definition all_stopped (s : dsc) : bool :=
  bool_decide (state_ s = Stopped) && (stopped_count_ s =? expected_workers_ s).

(** ** The system *)

(** [requests] counts the calls of [request_stop] between their exchange and
    their critical section. *)
Record sys := mkSys { ctl : dsc; requests : nat }.

Definition sys_init : sys := mkSys dsc_init 0.

(** With [serial = true], [resume] is not called while a [request_stop] is in
    progress: a discipline of the callers, which [notify_breakpoint] and the [c]
    packet of gdb_stub.cpp and the signal handler of sparcv8_leon_smp.cpp:48 do
    not keep among each other. With [serial = false] the calls interleave as
    they like.  Worker numbers do not wrap around. *)
Inductive step (serial : bool) : sys -> sys -> Prop :=
| step_register s n :
    next_id_ s < 4294967295 -> step serial (mkSys s n) (mkSys (register_worker s).2 n)
| step_request s n :
    step serial (mkSys s n)
      (mkSys (request_stop_cas s).2 (if (request_stop_cas s).1 then S n else n))
| step_bump s n : step serial (mkSys s (S n)) (mkSys (request_stop_bump s) n)
| step_resume s n : (serial = true -> n = O) -> step serial (mkSys s n) (mkSys (resume s) n)
| step_load s n id w :
    workers_ s !! id = Some w -> w_pc w = Out ->
    step serial (mkSys s n) (mkSys (checkpoint_load id w s) n)
| step_slow s n id w :
    workers_ s !! id = Some w -> w_pc w = Slow ->
    step serial (mkSys s n) (mkSys (checkpoint_slow id w s) n)
| step_leave s n id w e :
    workers_ s !! id = Some w -> w_pc w = Parked e -> may_leave e s = true ->
    step serial (mkSys s n) (mkSys (set_worker id (mkWorker (w_stopped w) Out) s) n).

(** The states the calls reach from the controller's constructor. *)
Definition reachable (serial : bool) (s : sys) : Prop := rtc (step serial) sys_init s.

(** ** Counting the stopped workers *)

Definition stopped_workers (m : gmap Z worker) : nat :=
  size (filter (fun kv => w_stopped kv.2 = true) m).

Lemma stopped_workers_fresh m id w :
  m !! id = None ->
  stopped_workers (<[id := w]> m) = ((if w_stopped w then 1 else 0) + stopped_workers m)%nat.
Proof.
  intros Hid. unfold stopped_workers. destruct (w_stopped w) eqn:E.
  - rewrite map_filter_insert_True by done. apply map_size_insert_None.
    rewrite map_lookup_filter_None. by left.
  - rewrite map_filter_insert_False by (cbn; congruence). by rewrite delete_id.
Qed.

Lemma stopped_workers_insert m id w w' :
  m !! id = Some w ->
  (stopped_workers (<[id := w']> m) + (if w_stopped w then 1 else 0) =
   stopped_workers m + (if w_stopped w' then 1 else 0))%nat.
Proof.
  intros Hid. assert (delete id m !! id = None) as Hd by apply lookup_delete_eq.
  rewrite <- insert_delete_eq, (stopped_workers_fresh _ id w' Hd).
  rewrite <- (insert_delete_id m id w Hid) at 2. rewrite (stopped_workers_fresh _ id w Hd). lia.
Qed.

Lemma stopped_workers_le m : (stopped_workers m <= size m)%nat.
Proof. apply map_size_filter. Qed.

Lemma stopped_workers_all m id w :
  stopped_workers m = size m -> m !! id = Some w -> w_stopped w = true.
Proof.
  intros Hall Hid. destruct (w_stopped w) eqn:E; [done|]. exfalso.
  rewrite <- (insert_delete_id m id w Hid), stopped_workers_fresh, E in Hall
    by apply lookup_delete_eq.
  rewrite map_size_insert_None in Hall by apply lookup_delete_eq.
  pose proof (stopped_workers_le (delete id m)). cbn in Hall. lia.
Qed.

Lemma stopped_workers_resume m : stopped_workers ((fun w => mkWorker false (w_pc w)) <$> m) = 0%nat.
Proof.
  unfold stopped_workers. apply map_size_empty_iff, map_empty. intros i.
  apply map_lookup_filter_None. right. intros w. rewrite lookup_fmap_Some. by intros (x & <- & _).
Qed.

(** ** Invariant of the serial system *)

(** A worker marked stopped is parked, with the current epoch while running. *)
Definition parked_ok (s : dsc) (w : worker) : Prop :=
  w_stopped w = true -> exists e, w_pc w = Parked e /\ (state_ s = Running -> e = stop_epoch_ s).

Record dsc_ok (s : dsc) : Prop := {
  ok_ids : forall id, is_Some (workers_ s !! id) -> 1 <= id < next_id_ s;
  ok_next : 1 <= next_id_ s <= 4294967295;
  ok_size : Z.of_nat (size (workers_ s)) < next_id_ s;
  ok_expected : expected_workers_ s = Z.of_nat (size (workers_ s));
  ok_count : stopped_count_ s = Z.of_nat (stopped_workers (workers_ s));
  ok_parked : forall id w, workers_ s !! id = Some w -> parked_ok s w }.

Definition sys_ok (s : sys) : Prop :=
  dsc_ok (ctl s) /\ (requests s <> O -> state_ (ctl s) <> Running).

Lemma dsc_ok_init : dsc_ok dsc_init.
Proof. split; cbn; try done; try lia; intros id; rewrite lookup_empty; by intros []. Qed.

(** Replacing a worker by one with the same flag. *)
Lemma dsc_ok_set s id w w' :
  dsc_ok s -> workers_ s !! id = Some w -> w_stopped w' = w_stopped w -> parked_ok s w' ->
  dsc_ok (set_worker id w' s).
Proof.
  intros [H1 H2 H3 H4 H5 H6] Hid Hf Hp. split; cbn; try done.
  - intros j [x Hx]. apply H1. destruct (decide (id = j)) as [<-|]; [eauto|].
    by rewrite lookup_insert_ne in Hx.
  - by rewrite map_size_insert_Some by eauto.
  - by rewrite map_size_insert_Some by eauto.
  - rewrite H5. f_equal. pose proof (stopped_workers_insert _ id w w' Hid) as E.
    rewrite Hf in E. lia.
  - intros j x. destruct (decide (id = j)) as [<-|].
    + rewrite lookup_insert_eq. by intros [= <-].
    + rewrite lookup_insert_ne by done. apply H6.
Qed.

Lemma dsc_ok_register s : next_id_ s < 4294967295 -> dsc_ok s -> dsc_ok (register_worker s).2.
Proof.
  intros Hn [H1 H2 H3 H4 H5 H6].
  assert (workers_ s !! next_id_ s = None) as Hfresh.
  { destruct (workers_ s !! next_id_ s) eqn:E; [|done]. specialize (H1 (next_id_ s)).
    rewrite E in H1. destruct H1; [by eexists|lia]. }
  split; cbn; rewrite ?map_size_insert_None by done; unfold u32;
    rewrite ?Z.mod_small by lia; try lia.
  - intros id [w Hw]. destruct (decide (next_id_ s = id)) as [<-|]; [lia|].
    rewrite lookup_insert_ne in Hw by done. specialize (H1 id (ex_intro _ _ Hw)). lia.
  - rewrite stopped_workers_fresh by done. cbn. lia.
  - intros id w. destruct (decide (next_id_ s = id)) as [<-|].
    + rewrite lookup_insert_eq. intros [= <-]. done.
    + rewrite lookup_insert_ne by done. apply H6.
Qed.

Lemma dsc_ok_state s st e :
  dsc_ok s -> (st = Running -> state_ s = Running /\ e = stop_epoch_ s) ->
  dsc_ok (mkDsc (workers_ s) (next_id_ s) (expected_workers_ s) (stopped_count_ s) st e).
Proof.
  intros [H1 H2 H3 H4 H5 H6] Hst. split; cbn; try done. intros id w Hw Hf.
  destruct (H6 id w Hw Hf) as (x & Hx & Hr). exists x. split; [done|]. cbn.
  intros E. destruct (Hst E) as [E1 ->]. by apply Hr.
Qed.

Lemma dsc_ok_resume s : dsc_ok s -> dsc_ok (resume s).
Proof.
  intros [H1 H2 H3 H4 H5 H6]. split; cbn; rewrite ?map_size_fmap; try done.
  - intros id. rewrite lookup_fmap, fmap_is_Some. apply H1.
  - by rewrite stopped_workers_resume.
  - intros id w. rewrite lookup_fmap_Some. by intros (x & <- & _).
Qed.

Lemma dsc_ok_slow s id w :
  dsc_ok s -> workers_ s !! id = Some w -> w_stopped w = false -> dsc_ok (checkpoint_slow id w s).
Proof.
  intros [H1 H2 H3 H4 H5 H6] Hid Hf. unfold checkpoint_slow. rewrite Hf.
  pose proof (stopped_workers_insert _ id w (mkWorker true (Parked (stop_epoch_ s))) Hid) as E.
  rewrite Hf in E. cbn in E.
  split; cbn; try (by rewrite map_size_insert_Some by eauto); try done.
  - intros j [x Hx]. apply H1. destruct (decide (id = j)) as [<-|]; [eauto|].
    by rewrite lookup_insert_ne in Hx.
  - pose proof (stopped_workers_le (<[id:=mkWorker true (Parked (stop_epoch_ s))]> (workers_ s))) as L.
    rewrite map_size_insert_Some in L by eauto.
    unfold u32. rewrite H5, Z.mod_small by lia. lia.
  - intros j x. destruct (decide (id = j)) as [<-|].
    + rewrite lookup_insert_eq. intros [= <-] _. cbn. eauto.
    + rewrite lookup_insert_ne by done. intros Hj Hx. destruct (H6 j x Hj Hx) as (e & He & Hr).
      exists e. split; [done|]. cbn. case_match; [done|apply Hr].
Qed.

Lemma sys_ok_step s s' : sys_ok s -> step true s s' -> sys_ok s'.
Proof.
  intros [Hok Hreq] Hst. destruct Hst as [s n Hn|s n|s n|s n Hn|s n id w Hid Hpc|s n id w Hid Hpc
                                         |s n id w e Hid Hpc Hl]; cbn in *.
  - split; [by apply dsc_ok_register|]. done.
  - unfold request_stop_cas. destruct (state_ s) eqn:E; cbn; (split; [|cbn; congruence]);
      [by apply dsc_ok_state|done..].
  - split; [|cbn; intros; by apply Hreq]. apply dsc_ok_state; [done|].
    intros E. by destruct (Hreq ltac:(done)).
  - split; [by apply dsc_ok_resume|]. cbn. rewrite Hn by done. done.
  - unfold checkpoint_load. case_match; [|done]. split; [|done].
    apply (dsc_ok_set s id w); try done. intros Hf. cbn in Hf.
    destruct (ok_parked s Hok id w Hid Hf) as (e & He & _). congruence.
  - assert (w_stopped w = false) as Hf.
    { destruct (w_stopped w) eqn:E; [|done].
      destruct (ok_parked s Hok id w Hid E) as (e & He & _). congruence. }
    split; [by apply dsc_ok_slow|]. unfold checkpoint_slow. rewrite Hf. cbn.
    intros Hn. case_match; [done|by apply Hreq].
  - split; [|done]. apply (dsc_ok_set s id w); try done. intros Hf. cbn in Hf.
    destruct (ok_parked s Hok id w Hid Hf) as (e' & He & Hr). simplify_eq.
    unfold may_leave in Hl. apply andb_true_iff in Hl as [Hs Hne].
    apply bool_decide_eq_true in Hs. specialize (Hr Hs). apply negb_true_iff, Z.eqb_neq in Hne. congruence.
Qed.

Lemma sys_ok_init : sys_ok sys_init.
Proof. split; [apply dsc_ok_init|done]. Qed.

Lemma reachable_ok s : reachable true s -> sys_ok s.
Proof.
  apply (rtc_ind_r sys_ok sys_init); [apply sys_ok_init|]. intros y z _ Hst Hy.
  by apply (sys_ok_step y).
Qed.

(** A worker cannot leave while all are stopped. *)
Lemma stopped_is_parked c :
  dsc_ok c -> all_stopped c = true ->
  forall id w, workers_ c !! id = Some w -> exists e, w_pc w = Parked e /\ may_leave e c = false.
Proof.
  intros Hok Hall id w Hid.
  apply andb_true_iff in Hall as [Hst%bool_decide_eq_true Hc%Z.eqb_eq].
  rewrite (ok_count _ Hok), (ok_expected _ Hok) in Hc.
  destruct (ok_parked _ Hok id w Hid) as (e & He & _).
  - apply (stopped_workers_all (workers_ c) id); [lia|done].
  - exists e. split; [done|]. unfold may_leave. by rewrite Hst.
Qed.

(** C26. Stop the world, under the discipline that [resume] never runs while a
    [request_stop] is in progress: in every state the workers, the requests and
    the resumes then reach in any order, whenever [wait_until_all_stopped] may
    return, every registered worker is parked in its checkpoint and cannot
    leave. The controller does not enforce the discipline and its callers do
    not either ([notify_breakpoint] on a processor's thread, the [c] packet on
    the debugger's, and the signal handler); without it the statement fails,
    see [overlapping_resume_breaks_stop]. *)
Theorem all_stopped_all_parked s :
  reachable true s -> all_stopped (ctl s) = true ->
  forall id w, workers_ (ctl s) !! id = Some w ->
    exists e, w_pc w = Parked e /\ may_leave e (ctl s) = false.
Proof. intros [Hok _]%reachable_ok. by apply stopped_is_parked. Qed.

(** The count the debugger waits for is exact: it is the number of workers
    marked stopped, and the expected count is the number of workers. *)
Theorem stopped_count_exact s :
  reachable true s ->
  stopped_count_ (ctl s) = Z.of_nat (stopped_workers (workers_ (ctl s))) /\
  expected_workers_ (ctl s) = Z.of_nat (size (workers_ (ctl s))) /\
  stopped_count_ (ctl s) <= expected_workers_ (ctl s).
Proof.
  intros [Hok _]%reachable_ok. rewrite (ok_count _ Hok), (ok_expected _ Hok).
  pose proof (stopped_workers_le (workers_ (ctl s))). lia.
Qed.

(** ** Two races *)

Definition two_workers : dsc := (register_worker (register_worker dsc_init).2).2.

(** A resume can be lost: a worker that saw the stop request but takes the
    lock only after [resume] parks although the world is running, and no
    predicate it waits for becomes true before the next stop and resume. *)
Theorem resume_can_be_lost :
  exists s w e, reachable true s /\ requests s = O /\ state_ (ctl s) = Running /\
    workers_ (ctl s) !! 1 = Some w /\ w_pc w = Parked e /\ may_leave e (ctl s) = false.
Proof.
  set (s1 := request_stop_bump (request_stop_cas two_workers).2).
  set (s2 := checkpoint_load 1 (mkWorker false Out) s1).
  set (s3 := resume s2).
  set (s4 := checkpoint_slow 1 (mkWorker false Slow) s3).
  exists (mkSys s4 0), (mkWorker true (Parked 2)), 2.
  split; [|by vm_compute].
  eapply rtc_l; [by apply (step_register true dsc_init 0)|].
  eapply rtc_l; [by apply (step_register true (register_worker dsc_init).2 0)|].
  eapply rtc_l; [apply (step_request true two_workers 0)|].
  eapply rtc_l; [apply (step_bump true _ 0)|].
  eapply rtc_l; [by apply (step_load true s1 0 1 (mkWorker false Out))|].
  eapply rtc_l; [by apply (step_resume true s2 0)|].
  eapply rtc_l; [by apply (step_slow true s3 0 1 (mkWorker false Slow))|].
  apply rtc_refl.
Qed.

(** Without that discipline the guarantee fails: when [resume] runs between
    the two halves of a [request_stop], the debugger can be told that all
    workers are stopped while one of them is running. *)
Theorem overlapping_resume_breaks_stop :
  exists s w, reachable false s /\ all_stopped (ctl s) = true /\
    workers_ (ctl s) !! 1 = Some w /\ w_pc w = Out.
Proof.
  set (s1 := (request_stop_cas two_workers).2).
  set (s2 := checkpoint_load 1 (mkWorker false Out) s1).
  set (s3 := resume s2).
  set (s4 := checkpoint_slow 1 (mkWorker false Slow) s3).
  set (s5 := request_stop_bump s4).
  set (s6 := set_worker 1 (mkWorker true Out) s5).
  set (s7 := (request_stop_cas s6).2).
  set (s8 := request_stop_bump s7).
  set (s9 := checkpoint_load 2 (mkWorker false Out) s8).
  set (s10 := checkpoint_slow 2 (mkWorker false Slow) s9).
  exists (mkSys s10 0), (mkWorker true Out).
  split; [|by vm_compute].
  eapply rtc_l; [by apply (step_register false dsc_init 0)|].
  eapply rtc_l; [by apply (step_register false (register_worker dsc_init).2 0)|].
  eapply rtc_l; [apply (step_request false two_workers 0)|].
  eapply rtc_l; [by apply (step_load false s1 1 1 (mkWorker false Out))|].
  eapply rtc_l; [by apply (step_resume false s2 1)|].
  eapply rtc_l; [by apply (step_slow false s3 1 1 (mkWorker false Slow))|].
  eapply rtc_l; [apply (step_bump false s4 0)|].
  eapply rtc_l; [by apply (step_leave false s5 0 1 (mkWorker true (Parked 1)) 1)|].
  eapply rtc_l; [apply (step_request false s6 0)|].
  eapply rtc_l; [apply (step_bump false s7 0)|].
  eapply rtc_l; [by apply (step_load false s8 0 2 (mkWorker false Out))|].
  eapply rtc_l; [by apply (step_slow false s9 0 2 (mkWorker false Slow))|].
  apply rtc_refl.
Qed.

(** ** Concrete instances *)

(** One worker, parked after a stop request. *)
Definition demo_stopped : sys :=
  let s0 := (register_worker dsc_init).2 in
  let s1 := request_stop_bump (request_stop_cas s0).2 in
  mkSys (checkpoint_slow 1 (mkWorker false Slow) (checkpoint_load 1 (mkWorker false Out) s1)) 0.

Lemma demo_stopped_reachable : reachable true demo_stopped.
Proof.
  eapply rtc_l; [by apply (step_register true dsc_init 0)|].
  eapply rtc_l; [apply (step_request true (register_worker dsc_init).2 0)|].
  eapply rtc_l; [apply (step_bump true _ 0)|].
  eapply rtc_l; [by apply (step_load true _ 0 1 (mkWorker false Out))|].
  eapply rtc_l; [by apply (step_slow true _ 0 1 (mkWorker false Slow))|].
  apply rtc_refl.
Qed.

Lemma all_stopped_all_parked_witness :
  exists e, w_pc (mkWorker true (Parked 1)) = Parked e /\ may_leave e (ctl demo_stopped) = false.
Proof.
  apply (all_stopped_all_parked demo_stopped demo_stopped_reachable
           ltac:(vm_compute; reflexivity) 1); vm_compute; reflexivity.
Defined.

Lemma stopped_count_exact_witness : stopped_count_ (ctl demo_stopped) = 1.
Proof. rewrite (proj1 (stopped_count_exact demo_stopped demo_stopped_reachable)). vm_compute. reflexivity. Defined.
