(* ===== verification/DebugWait.v ===== *)
(** * Sleeping under the stop controller
      ([wait_for_or_stop] of src/src/gdb/DebugStopController.hpp)

    A processor that powers down waits in short turns: each turn passes the
    checkpoint, tests its predicate under its own lock, and waits on its own
    condition variable for at most five milliseconds.  The model adds one such
    waiting worker to the system of [DebugStop]; the other workers, the debugger
    and the thread that makes the predicate true take any of their steps in
    between. *)
From S2P Require Import Prelude DebugStop.

(** In [checkpoint], before [pred()], in [wait_for], and returned. *)
Inductive wait_pc := WaitCheck | WaitTest | WaitCv | WaitDone.

Record waiting := mkWaiting { wt_sys : sys; wt_pc : wait_pc; wt_pred : bool }.

Definition put_ctl (c : dsc) (pc : wait_pc) (s : waiting) : waiting :=
  mkWaiting (mkSys c (requests (wt_sys s))) pc (wt_pred s).

(** A step of the waiting worker [me]; [None]: it is blocked, or has returned.
    The wait ends by a notification or by its time. *)
Definition wait_step (me : Z) (s : waiting) : option waiting :=
  let c := ctl (wt_sys s) in
  match wt_pc s with
  | WaitCheck =>
      match workers_ c !! me with
      | None => Some (put_ctl c WaitTest s)
      | Some w =>
          match w_pc w with
          | Out => Some (put_ctl (checkpoint_load me w c) (if is_stop_requested_or_stopped c then WaitCheck else WaitTest) s)
          | Slow => Some (put_ctl (checkpoint_slow me w c) WaitCheck s)
          | Parked e => if may_leave e c then Some (put_ctl (set_worker me (mkWorker (w_stopped w) Out) c) WaitTest s) else None
          end
      end
  | WaitTest => Some (put_ctl c (if wt_pred s then WaitDone else WaitCv) s)
  | WaitCv => Some (put_ctl c WaitCheck s)
  | WaitDone => None
  end.

Definition pc_of (me : Z) (c : dsc) : option wpc := w_pc <$> workers_ c !! me.

(** Steps of the worker itself, of the others (with no [resume] inside a
    [request_stop]), and the call that makes the predicate true. *)
Inductive wait_any (me : Z) : waiting -> waiting -> Prop :=
| any_own s s' : wait_step me s = Some s' -> wait_any me s s'
| any_other s x pc b :
    step true s x -> pc_of me (ctl x) = pc_of me (ctl s) -> wait_any me (mkWaiting s pc b) (mkWaiting x pc b)
| any_call s pc b : wait_any me (mkWaiting s pc b) (mkWaiting s pc true).

(** ** Invariant *)

Record wait_ok (me : Z) (s : waiting) : Prop := {
  wo_sys : sys_ok (wt_sys s); wo_known : is_Some (workers_ (ctl (wt_sys s)) !! me);
  wo_out : wt_pc s <> WaitCheck -> pc_of me (ctl (wt_sys s)) = Some Out }.

Lemma wait_step_ok me s s' : wait_ok me s -> wait_step me s = Some s' -> wait_ok me s'.
Proof.
  intros [Hs [w Hw] Ho] E. unfold wait_step in E. destruct s as [[c n] pc b]. cbn in *. destruct pc; simplify_eq; cbn in *.
  - rewrite Hw in E. destruct (w_pc w) as [| |e] eqn:Hpc.
    + injection E as <-. unfold put_ctl. cbn.
      split; cbn; [by apply (sys_ok_step (mkSys c n) _ Hs), step_load|unfold checkpoint_load; case_match; cbn; [rewrite lookup_insert_eq|rewrite Hw]; by eexists|].
      unfold checkpoint_load, pc_of. case_match; [done|]. intros _. by rewrite Hw; cbn; rewrite Hpc.
    + injection E as <-. split; cbn; [by apply (sys_ok_step (mkSys c n) _ Hs), step_slow|rewrite lookup_insert_eq; by eexists|done].
    + destruct (may_leave e c) eqn:Hl; simplify_eq. split; cbn; [|rewrite lookup_insert_eq; by eexists|].
      * by apply (sys_ok_step (mkSys c n) _ Hs), (step_leave true c n me w e).
      * intros _. unfold pc_of. cbn. by rewrite lookup_insert_eq.
  - split; cbn; [done|by eexists|]. intros _. by apply Ho.
  - by split; cbn; [|eexists|].
Qed.

Lemma wait_any_ok me s s' : wait_ok me s -> wait_any me s s' -> wait_ok me s'.
Proof.
  intros Hs Ht. destruct Ht as [s s' E|s x pc b Hst Hp|s pc b]; [by eapply wait_step_ok| |by destruct Hs; split].
  destruct Hs as [Hs Hk Ho]. cbn in *. split; cbn; [by eapply sys_ok_step| |by rewrite Hp].
  unfold pc_of in Hp. destruct (workers_ (ctl s) !! me); [|by destruct Hk]. by destruct (workers_ (ctl x) !! me).
Qed.

(** ** A worker that has been called returns *)

Abbreviation waits me := (rtc (fun s s' => wait_step me s = Some s')).

Lemma called_returns me s :
  wait_ok me s -> wt_pred s = true -> state_ (ctl (wt_sys s)) = Running -> pc_of me (ctl (wt_sys s)) = Some Out ->
  exists s', waits me s s' /\ wt_pc s' = WaitDone.
Proof.
  intros [Hs [w Hw] _] Hp Hr Ho. destruct s as [[c n] pc b]. cbn in *. subst b. unfold pc_of in Ho. rewrite Hw in Ho. injection Ho as Ho.
  assert (is_stop_requested_or_stopped c = false) as Hn by (unfold is_stop_requested_or_stopped; by rewrite Hr).
  assert (forall c', waits me (mkWaiting (mkSys c' n) WaitTest true) (mkWaiting (mkSys c' n) WaitDone true)) as Ht by (intros; by apply rtc_once).
  assert (waits me (mkWaiting (mkSys c n) WaitCheck true) (mkWaiting (mkSys c n) WaitDone true)) as Hc.
  { eapply rtc_l; [|apply Ht]. unfold wait_step. cbn. rewrite Hw, Ho. unfold checkpoint_load, put_ctl. by rewrite Hn. }
  exists (mkWaiting (mkSys c n) WaitDone true). split; [|done]. destruct pc; [apply Hc|apply Ht|eapply rtc_l; [done|apply Hc]|apply rtc_refl].
Qed.

(** C40. A sleeping processor obeys the debugger and hears its call, under the
    discipline that [resume] never runs while a [request_stop] is in progress
    ([reachable true], and the steps of the others in [wait_any]): in every
    state reached that way in which the debugger is told that all workers are
    stopped, the sleeper is parked in its checkpoint and cannot take a step,
    even when it has been called; and once it has been called and the world
    runs, a sleeper that is not itself inside the slow path of the checkpoint
    returns in its own next steps, without any further notification. The
    callers of the controller do not keep the discipline, and without it a
    worker can be running while the debugger is told that all are stopped, see
    [overlapping_resume_breaks_stop]. *)
Theorem sleeper_respects_stop me f s0 b s :
  reachable true s0 -> workers_ (ctl s0) !! me = Some (mkWorker f Out) ->
  rtc (wait_any me) (mkWaiting s0 WaitCheck b) s ->
  (all_stopped (ctl (wt_sys s)) = true -> wt_pc s = WaitCheck /\ wait_step me s = None) /\
  (wt_pred s = true -> state_ (ctl (wt_sys s)) = Running -> pc_of me (ctl (wt_sys s)) = Some Out ->
   exists s', waits me s s' /\ wt_pc s' = WaitDone).
Proof.
  intros Hr0 Hme Hr.
  assert (wait_ok me s) as Hs.
  { assert (wait_ok me (mkWaiting s0 WaitCheck b)) as H0 by (split; cbn; [by apply reachable_ok|by rewrite Hme|done]).
    revert H0. induction Hr; [done|]. eauto using wait_any_ok. }
  split; [|by apply called_returns]. destruct Hs as [[Hok _] [w Hw] Ho]. intros Hall.
  destruct (stopped_is_parked _ Hok Hall me w Hw) as (e & He & Hl).
  assert (wt_pc s = WaitCheck) as Hc.
  { destruct (wt_pc s); [done|..]; (unfold pc_of in Ho; rewrite Hw in Ho; cbn in Ho; rewrite He in Ho; by specialize (Ho ltac:(done))). }
  split; [done|]. unfold wait_step. by rewrite Hc, Hw, He, Hl.
Qed.

(** ** A processor asleep while the world stops and goes on *)

Definition slept : waiting :=
  mkWaiting (mkSys (resume (ctl demo_stopped)) 0) WaitCheck true.

Lemma slept_reached :
  rtc (wait_any 1) (mkWaiting (mkSys (register_worker dsc_init).2 0) WaitCheck false) slept.
Proof.
  eapply rtc_l; [apply any_other; [apply (step_request true)|reflexivity]|].
  eapply rtc_l; [apply any_other; [apply (step_bump true _ 0)|reflexivity]|].
  do 2 (eapply rtc_l; [by apply any_own|]). eapply rtc_l; [apply any_call|].
  eapply rtc_l; [|apply rtc_refl]. apply any_other; [by apply (step_resume true)|reflexivity].
Qed.

(** One more turn: it leaves the checkpoint, then returns. *)
Definition left_checkpoint : waiting := default slept (wait_step 1 slept).

Lemma sleeper_respects_stop_witness : exists s', waits 1 left_checkpoint s' /\ wt_pc s' = WaitDone.
Proof.
  assert (reachable true (mkSys (register_worker dsc_init).2 0)) as Hr by (apply rtc_once, (step_register true dsc_init 0); done).
  assert (rtc (wait_any 1) (mkWaiting (mkSys (register_worker dsc_init).2 0) WaitCheck false) left_checkpoint) as Hl
    by (eapply rtc_r; [apply slept_reached|by apply any_own]).
  destruct (sleeper_respects_stop 1 false _ false left_checkpoint Hr ltac:(reflexivity) Hl) as [_ H].
  apply H; vm_compute; reflexivity.
Defined.
