(* ===== verification/Gdb.v ===== *)
(** * The debugger stub (src/src/gdb/gdb_stub.cpp, gdb_stub.hpp)

    The stub speaks the remote serial protocol over a socket: packets
    [$data#checksum], hexadecimal payloads, memory and register reads and
    software breakpoints.  A character is its code; the socket is the list of
    the bytes the client still sends before it disconnects and the list of the
    bytes sent to it.  The processors share one memory controller, and each has
    its own MMU, through which the stub reads and writes memory. *)
From S2P Require Import Prelude Mctrl Tlb Mmu Cpu Instr Fpu Exec DebugStop.
From Stdlib Require Import Ascii.

(** ** Characters and numerals *)

Definition chr (c : ascii) : Z := Z.of_N (N_of_ascii c).
(** The characters of a string literal. *)
Fixpoint str (s : string) : list Z :=
  match s with EmptyString => [] | String c s => chr c :: str s end.

(** [oss << std::hex << std::setw(2) << std::setfill('0') << (int)b] for a byte. *)
Definition hex_digit (n : Z) : Z := if n <? 10 then 48 + n else 87 + n.
Definition hex2 (b : Z) : list Z := [hex_digit (b / 16); hex_digit (b mod 16)].

Definition to_hex (data : list Z) : list Z := concat (map hex2 data).

(** The value of a character as a digit of [base], as [strtol] reads it. *)
Definition digit_val (base c : Z) : option Z :=
  let v := if (48 <=? c) && (c <=? 57) then c - 48
           else if (97 <=? c) && (c <=? 122) then c - 87
           else if (65 <=? c) && (c <=? 90) then c - 55
           else base in
  if v <? base then Some v else None.

Definition is_space (c : Z) : bool := (c =? 32) || ((9 <=? c) && (c <=? 13)).

Fixpoint skip_spaces (l : list Z) : list Z :=
  match l with
  | c :: l' => if is_space c then skip_spaces l' else l
  | [] => []
  end.

(** The longest run of digits: its value, how many there were, the rest. *)
Fixpoint scan_digits (base acc : Z) (n : nat) (l : list Z) : Z * nat * list Z :=
  match l with
  | c :: l' =>
      match digit_val base c with
      | Some v => scan_digits base (acc * base + v) (S n) l'
      | None => (acc, n, l)
      end
  | [] => (acc, n, [])
  end.

Definition scan_sign (l : list Z) : bool * list Z :=
  match l with
  | 45 :: l' => (true, l')
  | 43 :: l' => (false, l')
  | _ => (false, l)
  end.

(** An optional [0x] before hexadecimal digits. *)
Definition skip_0x (base : Z) (l : list Z) : list Z :=
  match l with
  | 48 :: x :: c :: l' =>
      if (base =? 16) && ((x =? 120) || (x =? 88)) && bool_decide (is_Some (digit_val base c))
      then c :: l' else l
  | _ => l
  end.

(** The numeral at the head of a string: sign, magnitude and the rest, or
    nothing where there is no digit. *)
Definition scan_number (base : Z) (l : list Z) : option (bool * Z * list Z) :=
  let '(neg, l) := scan_sign (skip_spaces l) in
  let '(v, n, rest) := scan_digits base 0 0 (skip_0x base l) in
  match n with O => None | S _ => Some (neg, v, rest) end.

(** [std::stoi(s, nullptr, base)]. *)
Definition stoi {S} (base : Z) (l : list Z) : M S Z :=
  match scan_number base l with
  | None => throw (invalid_argument "stoi")
  | Some (neg, v, _) =>
      let x := if neg then - v else v in
      if (-2147483648 <=? x) && (x <=? 2147483647) then ret x
      else throw (out_of_range "stoi")
  end.

(** A [%x] conversion of [sscanf] into an [unsigned int].  It assigns nothing
    where no numeral matches, and is undefined for a numeral that the type
    cannot represent; the sources then use an indeterminate value, so both are
    [None]. *)
Definition scan_x (l : list Z) : option (Z * list Z) :=
  match scan_number 16 l with
  | Some (neg, v, rest) =>
      if (v <? 4294967296) && (negb neg || (v =? 0)) then Some (v, rest) else None
  | None => None
  end.

(** A literal of the format string, then the rest. *)
Fixpoint scan_lit (lit l : list Z) : option (list Z) :=
  match lit, l with
  | [], _ => Some l
  | c :: lit', x :: l' => if c =? x then scan_lit lit' l' else None
  | _, [] => None
  end.

Definition starts_with (lit l : list Z) : bool := bool_decide (is_Some (scan_lit lit l)).

(** [std::to_string(int)]. *)
Fixpoint decimal (fuel : nat) (n : Z) : list Z :=
  match fuel with
  | O => []
  | S fuel => if n <? 10 then [48 + n] else decimal fuel (n / 10) ++ [48 + n mod 10]
  end.
Definition to_string (n : Z) : list Z :=
  if n <? 0 then 45 :: decimal 10 (- n) else decimal 10 n.

#[local] Open Scope M_scope.

(** [from_hex]: pairs of characters, the last one alone when the length is odd. *)
Fixpoint from_hex {S} (hex : list Z) : M S (list Z) :=
  match hex with
  | [] => ret []
  | [a] => v ← stoi 16 [a]; ret [u8 v]
  | a :: b :: hex => v ← stoi 16 [a; b]; r ← from_hex hex; ret (u8 v :: r)
  end.

(** [send_packet]'s frame. *)
Definition checksum (data : list Z) : Z := fold_left (fun s c => u8 (s + c)) data 0.
Definition frame (data : list Z) : list Z := str "$" ++ data ++ str "#" ++ hex2 (checksum data).

Definition make_qfThreadInfo_reply (total_num_cpus : Z) : list Z :=
  if total_num_cpus <=? 0 then str "l"
  else str "m" ++
    concat (map (fun i => (if (0 <? Z.of_nat i) then str "," else []) ++ to_string (Z.of_nat i + 1))
              (seq 0 (Z.to_nat total_num_cpus))).

(** ** State *)

Record gdb (W : Type) := mkGdb {
  g_cpus : list (cpu * MMU); g_mc : mctrl W; g_bps : list Breakpoint;
  current_cpu_ : Z; halted_cpu_ : Z; waiting_ : bool; shutting_down_ : bool;
  g_in : list Z; g_out : list Z; g_dsc : option dsc }.
Arguments mkGdb {_}.
Arguments g_cpus {_} _.
Arguments g_mc {_} _.
Arguments g_bps {_} _.
Arguments current_cpu_ {_} _.
Arguments halted_cpu_ {_} _.
Arguments waiting_ {_} _.
Arguments shutting_down_ {_} _.
Arguments g_in {_} _.
Arguments g_out {_} _.
Arguments g_dsc {_} _.

#[export] Instance eta_gdb W : Eta (gdb W) := fun g =>
  mkGdb (g_cpus g) (g_mc g) (g_bps g) (current_cpu_ g) (halted_cpu_ g) (waiting_ g)
    (shutting_down_ g) (g_in g) (g_out g) (g_dsc g).
#[export] Instance set_g_cpus W : Setter (@g_cpus W) := ltac:(derive_setter).
#[export] Instance set_g_mc W : Setter (@g_mc W) := ltac:(derive_setter).
#[export] Instance set_g_bps W : Setter (@g_bps W) := ltac:(derive_setter).
#[export] Instance set_g_current W : Setter (@current_cpu_ W) := ltac:(derive_setter).
#[export] Instance set_g_halted W : Setter (@halted_cpu_ W) := ltac:(derive_setter).
#[export] Instance set_g_waiting W : Setter (@waiting_ W) := ltac:(derive_setter).
#[export] Instance set_g_in W : Setter (@g_in W) := ltac:(derive_setter).
#[export] Instance set_g_out W : Setter (@g_out W) := ltac:(derive_setter).
#[export] Instance set_g_dsc W : Setter (@g_dsc W) := ltac:(derive_setter).

Section gdb_ops.
Context {W : Type} `{DeviceBus W}.
Abbreviation MG := (M (gdb W)).

(** ** Packets *)

Definition send_packet (data : list Z) : MG unit :=
  modify (fun g => g <| g_out := g_out g ++ frame data |>).

(** What the two reading loops of [recv_packet] end with: the client is gone
    (or the stub shuts down), an interrupt character, or the character looked
    for. *)
Inductive scanned := Gone | CtrlC | Found (buf : list Z).

(** Read up to [stop]; every character before it goes to the buffer. *)
Fixpoint read_until (shut : bool) (stop : Z) (buf l : list Z) : scanned * list Z :=
  match l with
  | [] => (Gone, [])
  | ch :: l =>
      if shut then (Gone, l)
      else if ch =? 3 then (CtrlC, l)
      else if ch =? stop then (Found buf, l)
      else read_until shut stop (buf ++ [ch]) l
  end.

Definition read_scan (stop : Z) : MG scanned := fun g =>
  let '(r, l) := read_until (shutting_down_ g) stop [] (g_in g) in (Val r, g <| g_in := l |>).

Definition recv_packet : MG (option (list Z)) :=
  start ← read_scan 36;
  match start with
  | Gone => ret None
  | CtrlC => ret (Some [3])
  | Found _ =>
      body ← read_scan 35;
      match body with
      | Gone => ret None
      | CtrlC => ret (Some [3])
      | Found buf =>
          l ← gets g_in;
          match l with
          | _ :: _ :: l =>
              modify (fun g => g <| g_in := l |> <| g_out := g_out g ++ str "+" |>) ;;
              ret (Some buf)
          | _ => modify (fun g => g <| g_in := [] |>) ;; ret None
          end
      end
  end.

(** ** Memory *)

(** An operation on the MMU of [*cpus_[current_cpu_]]. *)
Definition g_mem {A} (op : M (memsys W) A) : MG A := fun g =>
  match array_get (g_cpus g) (current_cpu_ g) with
  | None => (Crash UndefinedBehaviour, g)
  | Some (c, m) =>
      let '(r, t) := op (mkMemsys m (g_mc g)) in
      (r, g <| g_cpus := <[Z.to_nat (current_cpu_ g) := (c, ms_mmu t)]> (g_cpus g) |>
            <| g_mc := ms_mc t |>)
  end.

(** The fixed mappings of the guest's kernel before it has enabled its MMU. *)
Definition boot_low (vaddr : Z) : bool := (0xf0000000 <=? vaddr) && (vaddr <? 0xfbffffff).
Definition boot_high (vaddr : Z) : bool := (0xffd00000 <=? vaddr) && (vaddr <? 0xffd13fff).
Definition boot_low_pa (vaddr : Z) : Z := vaddr - (0xf0000000 - 0x40000000).
Definition boot_high_pa (vaddr : Z) : Z := vaddr - (0xffd00000 - 0x43fec000).

(** [mmu.MemAccess<rw, 4>(vaddr, value, CROSS_ENDIAN, true)]. *)
Definition gdb_access (rw : intent) (vaddr value : Z) : MG (Z * Z) :=
  g_mem (MemAccess rw Sz4 vaddr value true true).

(** The three attempts of [read_mem32] and [write_mem32]: the value parameter
    of the one that succeeded. *)
Definition mem32 (rw : intent) (vaddr value : Z) (failed : exn) : MG Z :=
  r ← gdb_access rw vaddr value;
  if r.1 =? 0 then ret r.2
  else
    on ← g_mem (mmu_get get_enabled);
    low ← (if negb on && boot_low vaddr
           then r ← gdb_access rw (boot_low_pa vaddr) r.2; ret (Some r)
           else ret None);
    match low with
    | Some (0, v) => ret v
    | _ =>
        let v := match low with Some (_, v) => v | None => r.2 end in
        on ← g_mem (mmu_get get_enabled);
        high ← (if negb on && boot_high vaddr
                then r ← gdb_access rw (boot_high_pa vaddr) v; ret (Some r)
                else ret None);
        match high with
        | Some (0, v) => ret v
        | _ => throw failed
        end
    end.

Definition read_mem32 (vaddr : Z) : MG Z :=
  mem32 intent_load vaddr 0 (runtime_error "Could not read memory at address").
Definition write_mem32 (vaddr value : Z) : MG unit :=
  mem32 intent_store vaddr value (runtime_error "Could not write memory at address") ;; ret tt.

(** The loop of [handle_memory_read] from byte [i], with its one-word cache. *)
Fixpoint memory_read_loop (n : nat) (addr i last_aligned_addr cached_word : Z) : MG (list Z) :=
  match n with
  | O => ret []
  | S n =>
      let aligned_addr := Z.land (addr + i) 0xfffffffc in
      w ← (if aligned_addr =? last_aligned_addr then ret cached_word else read_mem32 aligned_addr);
      let byte_offset := Z.land (addr + i) 3 in
      let byte := Z.land (Z.shiftr w ((3 - byte_offset) * 8)) 0xff in
      rest ← memory_read_loop n addr (i + 1) aligned_addr w;
      ret (hex2 byte ++ rest)
  end.
Definition handle_memory_read (addr len : Z) : MG (list Z) :=
  memory_read_loop (Z.to_nat len) addr 0 0xffffffff 0.

Fixpoint memory_write_loop (bs : list Z) (addr i last_aligned_addr cached_word : Z) : MG unit :=
  match bs with
  | [] => ret tt
  | b :: bs =>
      let target_addr := u32 (addr + i) in
      let aligned_addr := Z.land target_addr 0xfffffffc in
      w ← (if aligned_addr =? last_aligned_addr then ret cached_word else read_mem32 aligned_addr);
      let shift := (3 - Z.land target_addr 3) * 8 in
      let w := Z.lor (Z.land w (not32 (shl32 0xff shift))) (shl32 b shift) in
      write_mem32 aligned_addr w ;;
      memory_write_loop bs addr (i + 1) aligned_addr w
  end.
(** [bytes[i] = stoi(data.substr(i * 2, 2), nullptr, 16)] for every [i] is
    [from_hex] where the length is even. *)
Definition handle_memory_write (addr len : Z) (data : list Z) : MG bool :=
  if negb (Z.of_nat (length data) =? u64 (len * 2)) then ret false
  else if 0x8000000000000000 <=? len then throw (logic_error "length_error")
  else
    bytes ← from_hex data;
    memory_write_loop bytes addr 0 0xffffffff 0 ;;
    ret true.

(** ** Breakpoints *)

(** The body of the [try], or of one of its replacements, with the address to
    access. *)
Definition plant (addr pa : Z) : MG unit :=
  original ← read_mem32 pa;
  modify (fun g => g <| g_bps := g_bps g ++ [mkBreakpoint addr original] |>) ;;
  write_mem32 pa BREAKPOINT_OPCODE.

Definition insert_breakpoint (addr : Z) : MG unit :=
  bps ← gets g_bps;
  if has_breakpoint bps addr then ret tt
  else
    try_catch (plant addr addr)
      (fun _ =>
         on ← g_mem (mmu_get get_enabled);
         if negb on && boot_low addr then plant addr (boot_low_pa addr)
         else if negb on && boot_high addr then plant addr (boot_high_pa addr)
         else throw (runtime_error "Could not insert breakpoint at given adress.")).

(** The loop from the [i]-th breakpoint.  The erasures of the handler do not
    leave the loop, which goes on with the invalidated iterator. *)
Fixpoint remove_loop (addr : Z) (i : nat) (bps : list Breakpoint) : MG unit :=
  match bps with
  | [] => throw (runtime_error "Could not insert breakpoint at given adress.")
  | bp :: bps =>
      if bp_addr bp =? addr then
        let erase := modify (fun g => g <| g_bps := delete i (g_bps g) |>) in
        try_catch (write_mem32 addr (bp_instr bp) ;; erase)
          (fun _ =>
             on ← g_mem (mmu_get get_enabled);
             if negb on && boot_low addr then
               write_mem32 (boot_low_pa addr) (bp_instr bp) ;; erase ;; ub
             else if negb on && boot_high addr then
               write_mem32 (boot_high_pa addr) (bp_instr bp) ;; erase ;; ub
             else throw (runtime_error "Could not insert breakpoint at given adress."))
      else remove_loop addr (S i) bps
  end.
Definition remove_breakpoint (addr : Z) : MG unit :=
  bps ← gets g_bps; remove_loop addr 0 bps.

(** ** Registers *)

(** The four bytes [read_registers] appends for a word. *)
Definition be_bytes (v : Z) : list Z :=
  [u8 (Z.shiftr v 24); u8 (Z.shiftr v 16); u8 (Z.shiftr v 8); u8 v].

(** The general registers of the current window, in order. *)
Fixpoint read_regs (c : cpu) (i n : nat) : option (list Z) :=
  match n with
  | O => Some []
  | S n => (v ← read_reg_of c (Z.of_nat i) 0; r ← read_regs c (S i) n; Some (v :: r))%stdpp
  end.

Definition special_regs (c : cpu) : list Z :=
  [y_reg c; psr c; wim c; tbr c; pc c; npc c; fsr c; 0].

Definition read_registers (c : cpu) : MG (list Z) :=
  regs ← or_ub (read_regs c 0 32);
  ret (to_hex (concat (map be_bytes (regs ++ replicate 32 0 ++ special_regs c)))).

Definition write_registers (data : list Z) : MG unit := throw (runtime_error "Not implemented").

(** ** Stopping and resuming *)

Definition request_stop (d : dsc) : dsc :=
  let '(won, d) := request_stop_cas d in if won then request_stop_bump d else d.

Definition upd_dsc (f : dsc -> dsc) : MG unit :=
  modify (fun g => g <| g_dsc := f <$> g_dsc g |>).

(** [wait_until_all_stopped]: the thread waits while a worker runs. *)
Definition wait_until_all_stopped : MG unit :=
  d ← gets g_dsc;
  match d with Some d => if all_stopped d then ret tt else block | None => ret tt end.

Definition stop_reply (tid : Z) : list Z := str "T05thread:" ++ to_string tid ++ str ";".

(** [notify_breakpoint], called by a processor thread: up to its wait, and from
    the wake-up on. *)
Definition notify_breakpoint_enter (cpu_id : Z) : MG unit :=
  upd_dsc request_stop ;;
  modify (fun g => g <| halted_cpu_ := cpu_id |> <| waiting_ := true |>) ;;
  send_packet (stop_reply (cpu_id + 1)).
Definition notify_breakpoint_leave : MG unit :=
  w ← gets waiting_;
  if w then block
  else modify (fun g => g <| halted_cpu_ := -1 |>) ;; upd_dsc resume.

(** ** Packet handlers *)

(** [current_cpu_ < 0 || current_cpu_ >= (int)cpus_.size()]. *)
Definition invalid_cpu (g : gdb W) : bool :=
  (current_cpu_ g <? 0) || (Z.of_nat (length (g_cpus g)) <=? current_cpu_ g).

(** The reply of a handler that may throw, [err] being the reply of the
    [catch]. *)
Definition reply_or (err : list Z) (m : MG (list Z)) : MG unit :=
  r ← try_catch m (fun _ => ret err); send_packet r.

(** The reply [OK] or [E01] by a test. *)
Definition reply_if (b : bool) : MG unit := send_packet (str (if b then "OK" else "E01")).

Definition handle_packet (pkt : list Z) : MG unit :=
  g ← gets id;
  let ncpus := Z.of_nat (length (g_cpus g)) in
  let c0 := hd 0 pkt in
  if bool_decide (pkt = str "?") then send_packet (stop_reply (current_cpu_ g + 1))
  else if bool_decide (pkt = [3]) then
    match g_dsc g with
    | Some _ =>
        upd_dsc request_stop ;;
        wait_until_all_stopped ;;
        send_packet (stop_reply (current_cpu_ g + 1))
    | None => ret tt
    end
  else if starts_with (str "qC") pkt then send_packet (str "QC" ++ to_string (current_cpu_ g + 1))
  else if starts_with (str "qfThreadInfo") pkt then send_packet (make_qfThreadInfo_reply ncpus)
  else if starts_with (str "qsThreadInfo") pkt then send_packet (str "l")
  else if c0 =? 103 then                                    (* 'g' *)
    if invalid_cpu g then send_packet (str "E01")
    else
      c ← or_ub (array_get (g_cpus g) (current_cpu_ g));
      r ← read_registers c.1;
      send_packet r
  else if c0 =? 71 then                                     (* 'G' *)
    if invalid_cpu g then send_packet (str "E01")
    else
      data ← from_hex (tl pkt);
      write_registers data ;;
      send_packet (str "OK")
  else if c0 =? 99 then                                     (* 'c' *)
    modify (fun g => g <| waiting_ := false |>) ;; upd_dsc resume
  else if starts_with (str "Hg") pkt then
    id ← stoi 10 (drop 2 pkt);
    if id =? 0 then send_packet (str "OK")
    else if (0 <? id) && (id <=? ncpus) then
      modify (fun g => g <| current_cpu_ := id - 1 |>) ;; send_packet (str "OK")
    else send_packet (str "E01")
  else if starts_with (str "T") pkt then
    id ← stoi 10 (drop 1 pkt); reply_if ((0 <? id) && (id <=? ncpus))
  else if starts_with (str "Hc") pkt then
    id ← stoi 10 (drop 2 pkt); reply_if ((id =? -1) || ((0 <=? id) && (id <? ncpus)))
  else if starts_with (str "Z0,") pkt then
    r ← or_ub (scan_x (drop 3 pkt));
    reply_or (str "E01") (insert_breakpoint r.1 ;; ret (str "OK"))
  else if starts_with (str "z0,") pkt then
    r ← or_ub (scan_x (drop 3 pkt));
    reply_or (str "E01") (remove_breakpoint r.1 ;; ret (str "OK"))
  else if c0 =? 109 then                                    (* 'm' *)
    a ← or_ub (scan_x (tl pkt));
    l ← or_ub (match scan_lit (str ",") a.2 with Some l => scan_x l | None => None end);
    reply_or (str "E14") (handle_memory_read a.1 l.1)
  else send_packet [].

(** The loop of [gdb_thread] after the client has connected, [n] packets at
    most; [false] when the client may send more. *)
Fixpoint gdb_loop (n : nat) : MG bool :=
  shut ← gets shutting_down_;
  if shut then ret true
  else
    match n with
    | O => ret false
    | S n =>
        p ← recv_packet;
        match p with
        | None => ret true
        | Some pkt => handle_packet pkt ;; gdb_loop n
        end
    end.
End gdb_ops.
