(* ===== verification/GdbProofs.v ===== *)
(** * What the debugger stub does (theorems about [Gdb])

    Hexadecimal and packet round trips, the register dump, memory reads and
    writes through the stub against the bytes of physical memory, and the
    effect of planting and removing a breakpoint. *)
From S2P Require Import Prelude Mctrl Tlb Mmu Cpu Instr Fpu Exec Words Windows DebugStop Gdb.

#[local] Open Scope M_scope.

(** ** Hexadecimal *)

(** A check of every byte value. *)
Lemma all_bytes (P : Z -> bool) :
  forallb (fun n => P (Z.of_nat n)) (seq 0 256) = true -> forall b, is_u8 b -> P b = true.
Proof.
  rewrite forallb_forall. intros HP b Hb. unfold is_u8 in Hb.
  rewrite <- (Z2Nat.id b) by lia. apply HP, in_seq. lia.
Qed.

Lemma scan_hex2 b : is_u8 b -> scan_number 16 (hex2 b) = Some (false, b, []).
Proof.
  intros Hb. apply (bool_decide_eq_true_1 (_ = _)). revert b Hb.
  apply (all_bytes (fun b => bool_decide (scan_number 16 (hex2 b) = Some (false, b, [])))).
  vm_compute. reflexivity.
Qed.

Lemma stoi_hex2 {S} b (s : S) : is_u8 b -> stoi 16 (hex2 b) s = (Val b, s).
Proof.
  intros Hb. unfold stoi. rewrite scan_hex2 by done. unfold is_u8 in Hb.
  destruct (_ && _) eqn:E; [done|]. apply andb_false_iff in E. lia.
Qed.

Lemma from_hex_to_hex_app {S} l rest r (s : S) :
  Forall is_u8 l -> from_hex rest s = (Val r, s) -> from_hex (to_hex l ++ rest) s = (Val (l ++ r), s).
Proof.
  intros Hl Hr. induction Hl as [|b l Hb Hl IH]; [done|].
  change (to_hex (b :: l) ++ rest) with (hex_digit (b / 16) :: hex_digit (b mod 16) :: (to_hex l ++ rest)).
  cbn [from_hex]. rewrite (bindM_val _ _ _ _ _ (stoi_hex2 b s Hb)).
  rewrite (bindM_val _ _ _ _ _ IH). unfold u8. by rewrite Z.mod_small.
Qed.

(** The stub's hexadecimal encoding is lossless: decoding the digits of a
    byte string gives the byte string back, without an exception. *)
Theorem hex_roundtrip {S} l (s : S) : Forall is_u8 l -> from_hex (to_hex l) s = (Val l, s).
Proof.
  intros Hl. pose proof (from_hex_to_hex_app l [] [] s Hl eq_refl) as E. by rewrite !app_nil_r in E.
Qed.

Lemma hex_roundtrip_witness : from_hex (to_hex [0; 0x91; 0xd0; 255]) tt = (Val [0; 0x91; 0xd0; 255], tt).
Proof. apply (hex_roundtrip [0; 0x91; 0xd0; 255] tt). repeat constructor; done. Defined.

Lemma to_hex_length l : length (to_hex l) = (2 * length l)%nat.
Proof. induction l as [|b l IH]; [done|]. unfold to_hex in *. cbn in *. lia. Qed.

(** ** Packets *)

(** The characters of a payload: neither the interrupt character nor [stop]. *)
Definition payload (stop : Z) (l : list Z) : Prop := Forall (fun c => c <> 3 /\ c <> stop) l.

Lemma read_until_found stop buf l rest :
  stop <> 3 -> payload stop l ->
  read_until false stop buf (l ++ stop :: rest) = (Found (buf ++ l), rest).
Proof.
  intros Hs Hl. revert buf. induction Hl as [|c l [H1 H2] Hl IH]; intros buf; cbn.
  - rewrite (proj2 (Z.eqb_neq stop 3)), Z.eqb_refl, app_nil_r by done. done.
  - rewrite (proj2 (Z.eqb_neq c 3)), (proj2 (Z.eqb_neq c stop)) by done.
    rewrite IH. by rewrite <- app_assoc.
Qed.

Lemma checksum_sum data s0 : fold_left (fun s c => u8 (s + c)) data (u8 s0) = u8 (fold_left Z.add data s0).
Proof.
  revert s0. induction data as [|c data IH]; intros s0; [done|]. cbn. rewrite <- IH. f_equal.
  unfold u8. by rewrite Zplus_mod_idemp_l.
Qed.

Lemma checksum_u8 data : is_u8 (checksum data).
Proof. unfold checksum. change 0 with (u8 0) at 1. rewrite checksum_sum. apply Z.mod_pos_bound. lia. Qed.

(** Reading a frame, after noise and with more input behind it. *)
Lemma recv_frame {W} (g : gdb W) noise data rest :
  shutting_down_ g = false -> payload 36 noise -> payload 35 data ->
  g_in g = noise ++ frame data ++ rest ->
  recv_packet g = (Val (Some data), g <| g_in := rest |> <| g_out := g_out g ++ str "+" |>).
Proof.
  intros Hsd Hn Hd Hin.
  assert (g_in g = noise ++ 36 :: (data ++ 35 :: (hex2 (checksum data) ++ rest))) as Hin'.
  { rewrite Hin. unfold frame. cbn [str app]. by rewrite <- !app_assoc. }
  unfold recv_packet.
  rewrite (bindM_val _ _ _ (Found noise) (g <| g_in := data ++ 35 :: (hex2 (checksum data) ++ rest) |>)).
  2: { unfold read_scan. by rewrite Hsd, Hin', read_until_found. }
  cbv iota. rewrite (bindM_val _ _ _ (Found data) (g <| g_in := hex2 (checksum data) ++ rest |>)).
  2: { unfold read_scan. cbn. by rewrite Hsd, read_until_found. }
  done.
Qed.

(** C31. Packets survive the wire: what [send_packet] writes for a payload
    without the characters ['#'] and 3 ends in the two digits of the payload's
    sum modulo 256, and [recv_packet] reads exactly that payload back from it,
    whatever noise comes before it and whatever follows, and acknowledges it. *)
Theorem packet_roundtrip {W} (g : gdb W) noise data rest :
  shutting_down_ g = false -> payload 36 noise -> payload 35 data ->
  g_in g = noise ++ frame data ++ rest ->
  frame data = str "$" ++ data ++ str "#" ++ hex2 (fold_left Z.add data 0 mod 256) /\
  recv_packet g = (Val (Some data), g <| g_in := rest |> <| g_out := g_out g ++ str "+" |>).
Proof.
  intros Hsd Hn Hd Hin. split; [|by apply (recv_frame g noise)].
  unfold frame, checksum. change 0 with (u8 0) at 1. by rewrite checksum_sum.
Qed.

(** ** The register dump *)

Lemma read_regs_spec c n i l :
  read_regs c i n = Some l ->
  length l = n /\ forall k, (k < n)%nat -> l !! k = read_reg_of c (Z.of_nat (i + k)) 0.
Proof.
  revert i l. induction n as [|n IH]; intros i l H; cbn [read_regs] in H.
  - injection H as <-. split; [done|lia].
  - destruct (read_reg_of c (Z.of_nat i) 0) as [v|] eqn:Ev; cbn in H; [|done].
    destruct (read_regs c (S i) n) as [r|] eqn:Er; cbn in H; [|done]. injection H as <-.
    destruct (IH _ _ Er) as [Hl Hk]. split; [by cbn; f_equal|].
    intros [|k] Hlt; cbn; [by rewrite Nat.add_0_r|]. rewrite Hk by lia. f_equal. lia.
Qed.

Lemma read_reg_in_range c r : cpu_words c -> 0 <= r < 32 -> is_Some (read_reg_of c r 0).
Proof.
  intros Hc Hr. pose proof (psr_cwp_range (psr c)). pose proof (w_cwp c Hc) as Hw. unfold NWINDOWS in Hw.
  rewrite (read_cell c (psr_cwp (psr c))) by (apply Hc || lia).
  apply cell_val_some, cell_of_ok; done || lia.
Qed.

Lemma read_regs_some c n i :
  cpu_words c -> (i + n <= 32)%nat -> exists l, read_regs c i n = Some l /\ Forall is_u32 l.
Proof.
  intros Hc. revert i. induction n as [|n IH]; intros i Hi; cbn [read_regs]; [by eexists|].
  destruct (read_reg_in_range c (Z.of_nat i) Hc ltac:(lia)) as [v Hv].
  destruct (IH (S i)) as (l & -> & Hl); [lia|]. rewrite Hv. cbn. eexists. split; [done|].
  constructor; [|done]. apply (read_reg_of_u32 c (Z.of_nat i) 0); [done|unfold is_u32; lia|done].
Qed.

(** The client's reading of the dump: big-endian words. *)
Fixpoint words_of (l : list Z) : list Z :=
  match l with
  | b0 :: b1 :: b2 :: b3 :: l => cat4 b0 b1 b2 b3 :: words_of l
  | _ => []
  end.

Lemma be_bytes_at v : be_bytes v = [byte_at v 24; byte_at v 16; byte_at v 8; byte_at v 0].
Proof.
  unfold be_bytes, byte_at. change 0xff with (Z.ones 8). rewrite !Z.land_ones by lia.
  by rewrite Z.shiftr_0_r.
Qed.

Lemma words_of_be l : Forall is_u32 l -> words_of (concat (map be_bytes l)) = l.
Proof.
  induction 1 as [|v l Hv Hl IH]; [done|]. cbn [map concat]. rewrite be_bytes_at. cbn [app words_of].
  by rewrite cat4_byte_at, IH.
Qed.

Lemma be_bytes_u8 l : Forall is_u8 (concat (map be_bytes l)).
Proof.
  induction l as [|v l IH]; [constructor|]. cbn [map concat]. rewrite be_bytes_at.
  repeat (constructor; [apply byte_at_u8|]). done.
Qed.

Lemma be_bytes_length l : length (concat (map be_bytes l)) = (4 * length l)%nat.
Proof. induction l as [|v l IH]; [done|]. cbn [map concat]. rewrite length_app, IH. cbn. lia. Qed.

(** The register dump is complete: for a well-typed processor
    [read_registers] returns the 576 digits its caller asserts, and a client that
    decodes them gets the 32 registers of the current window, 32 zero words
    for the floating-point registers, and Y, PSR, WIM, TBR, PC, nPC, FSR and a
    zero word. *)
Theorem register_dump {W} (g : gdb W) c :
  cpu_words c ->
  exists regs hex bytes, read_registers c g = (Val hex, g) /\ length hex = 576%nat /\
    from_hex hex g = (Val bytes, g) /\
    words_of bytes = regs ++ replicate 32 0 ++ special_regs c /\
    length regs = 32%nat /\ forall r, (r < 32)%nat -> regs !! r = read_reg_of c (Z.of_nat r) 0.
Proof.
  intros Hc. destruct (read_regs_some c 32 0 Hc) as (regs & Er & Hr); [done|].
  destruct (read_regs_spec _ _ _ _ Er) as [Hlen Hreg].
  set (ws := regs ++ replicate 32 0 ++ special_regs c).
  assert (Forall is_u32 ws) as Hw.
  { apply Forall_app. split; [done|]. apply Forall_app. split; [by apply Forall_replicate|].
    destruct Hc. repeat (apply Forall_cons_2; [done|]). by apply Forall_nil_2. }
  exists regs, (to_hex (concat (map be_bytes ws))), (concat (map be_bytes ws)).
  split; [unfold read_registers; by rewrite Er|].
  split; [rewrite to_hex_length, be_bytes_length; unfold ws; rewrite !length_app, Hlen; done|].
  split; [pose proof (from_hex_to_hex_app (concat (map be_bytes ws)) [] [] g (be_bytes_u8 ws) eq_refl) as E;
          by rewrite !app_nil_r in E|].
  split; [by apply words_of_be|]. split; [done|]. intros r Hlt. by apply (Hreg r).
Qed.

(** ** Memory through the stub *)

Section ram.
Context {W : Type} `{DeviceBus W}.
Implicit Types g : gdb W.

(** The selected processor exists and has its MMU off, and bank [i] is a
    big-endian RAM with the bytes [d]. *)
Record gdb_ram g (i : nat) (base : Z) (d : bytes) : Prop := {
  gr_cpu : exists c m, array_get (g_cpus g) (current_cpu_ g) = Some (c, m) /\ get_enabled m = false;
  gr_mc : mc_ok (g_mc g);
  gr_bank : banks (g_mc g) !! i = Some (RamBank base Big d) }.

(** [g'] differs from [g] in the memory controller only, which has the given
    banks and, up to the cache of the last bank, is otherwise the same. *)
Definition mem_only g g' (bs : list bank) : Prop :=
  g' = g <| g_mc := g_mc g' |> /\ g_mc g' = g_mc g <| banks := bs |> <| tl_cache := tl_cache (g_mc g') |>.

Lemma mem_only_banks g g' bs : mem_only g g' bs -> banks (g_mc g') = bs.
Proof. by intros [_ ->]. Qed.

Lemma g_mem_runs {A} (op : M (memsys W) A) g c m r mc' :
  array_get (g_cpus g) (current_cpu_ g) = Some (c, m) ->
  op (mkMemsys m (g_mc g)) = (r, mkMemsys m mc') -> g_mem op g = (r, g <| g_mc := mc' |>).
Proof.
  intros Hc Ho. unfold g_mem. rewrite Hc, Ho. cbn. f_equal. unfold array_get in Hc.
  destruct (_ <? 0); [done|]. rewrite list_insert_id by done. by destruct g.
Qed.

Lemma ram_range g i base d : gdb_ram g i base d -> 0 <= base /\ base + b_len d <= 4294967296.
Proof.
  intros [_ Hm Hb]. destruct (ram_wf _ _ _ _ _ Hm Hb). lia.
Qed.

(** The words and bytes of a buffer. *)
Lemma peek32_bytes d p v :
  peek32_be d p = Some v ->
  exists b0 b1 b2 b3, bytes_get d p = Some b0 /\ bytes_get d (p + 1) = Some b1 /\
    bytes_get d (p + 2) = Some b2 /\ bytes_get d (p + 3) = Some b3 /\ v = cat4 b0 b1 b2 b3.
Proof. unfold peek32_be. intros Hp. split_option. by repeat eexists. Qed.

(** A word read by the stub is the word in the buffer. *)
Lemma read_mem32_ram g i base d a :
  gdb_ram g i base d -> base <= a -> a + 4 <= base + b_len d ->
  exists v g', read_mem32 a g = (Val v, g') /\ peek32_be d (a - base) = Some v /\
    gdb_ram g' i base d /\ mem_only g g' (banks (g_mc g)).
Proof.
  intros Hr Hlo Hhi. pose proof (ram_range _ _ _ _ Hr). destruct Hr as [(c & m & Hc & Hoff) Hm Hb].
  destruct (phys_read_ram intent_load Sz4 a a 0 false true true (mkMemsys m (g_mc g)) i base d)
    as (tl & Hok & E); [by left|done|unfold is_u32; lia|done|done|unfold holds; cbn; lia|].
  destruct (peek32_in d (a - base) Big) as [v Hv]; [lia..|].
  exists v, (g <| g_mc := g_mc g <| tl_cache := tl |> |>).
  assert (gdb_access intent_load a 0 g = (Val (0, v), g <| g_mc := g_mc g <| tl_cache := tl |> |>)) as Ea.
  { apply (g_mem_runs _ g c m); [done|]. unfold MemAccess. mstep. cbn [ms_mmu]. rewrite Hoff, E.
    cbn [ram_value access_result]. by rewrite Hv. }
  split; [unfold read_mem32, mem32; by rewrite (bindM_val _ _ _ _ _ Ea)|].
  split; [done|]. split; [|done]. split; [by exists c, m|done|done].
Qed.

(** A word written by the stub is in the buffer, and nothing else changes. *)
Lemma write_mem32_ram g i base d a v :
  gdb_ram g i base d -> base <= a -> a + 4 <= base + b_len d -> is_u32 v ->
  exists d' g', write_mem32 a v g = (Val tt, g') /\ poke32_be d (a - base) v = Some d' /\
    gdb_ram g' i base d' /\ mem_only g g' (<[i := RamBank base Big d']> (banks (g_mc g))).
Proof.
  intros Hr Hlo Hhi Hv. pose proof (ram_range _ _ _ _ Hr). destruct Hr as [(c & m & Hc & Hoff) Hm Hb].
  destruct (find_bank_or_null_scan (g_mc g) a Hm ltac:(unfold is_u32; lia)) as (tl & E & Hok).
  rewrite (scan_banks_unique _ i _ a (proj1 Hm) ltac:(unfold is_u32; lia) Hb ltac:(unfold holds; cbn; lia)) in E.
  destruct (poke32_spec Big d (a - base) v) as (d' & Ew & _ & El & _); [lia..|done|].
  set (mc1 := g_mc g <| tl_cache := tl |>) in *.
  set (mc' := mc1 <| banks := <[i := RamBank base Big d']> (banks mc1) |>).
  exists d', (g <| g_mc := mc' |>).
  assert (u32 (a - base) = a - base) as Eu by (apply u32_id; unfold is_u32; lia).
  assert (gdb_access intent_store a v g = (Val (0, v), g <| g_mc := mc' |>)) as Ea.
  { apply (g_mem_runs _ g c m); [done|]. unfold MemAccess. mstep. cbn [ms_mmu]. rewrite Hoff.
    unfold phys_access. rewrite (bindM_val _ _ _ (Some i) (mkMemsys m mc1)) by
      (unfold on_mc, zoom, get_bank; cbn [ms_mc]; by rewrite E).
    cbv iota. rewrite (bindM_val _ _ _ (RamBank base Big d) (mkMemsys m mc1)) by
      (unfold on_mc, zoom, bank_at; cbn; by rewrite Hb).
    mstep. rewrite (bindM_val _ _ _ (Some i) (mkMemsys m mc1)) by
      (unfold on_mc, zoom, get_ptr, bank_at, bindM; cbn; by rewrite Hb).
    cbv iota. rewrite (bindM_val _ _ _ tt (mkMemsys m mc')); [done|].
    unfold on_mc, zoom, write32_nolock, noexcept, bindM, bank_at. cbn [ms_mc mc1 banks or_ub].
    change (banks mc1) with (banks (g_mc g)). rewrite Hb. cbn.
    unfold ram_write32_nolock. rewrite Eu. cbn. rewrite Ew. done. }
  split; [unfold write_mem32, mem32; by rewrite (bindM_val _ _ _ v (g <| g_mc := mc' |>)) by
            (by rewrite (bindM_val _ _ _ _ _ Ea))|].
  split; [done|]. split; [|done]. split; [by exists c, m| |].
  - apply (mc_ok_insert mc1 i (RamBank base Big d)); [done|done|by apply (set_data_range (RamBank base Big d))].
  - apply list_lookup_insert_eq. by eapply lookup_lt_Some.
Qed.

Lemma mem_only_trans g1 g2 g3 b2 b3 : mem_only g1 g2 b2 -> mem_only g2 g3 b3 -> mem_only g1 g3 b3.
Proof. intros [E1 E2] [E3 E4]. split; [by rewrite E3, E1|]. rewrite E4 at 1. by rewrite E2. Qed.

Lemma mem_only_refl g : mem_only g g (banks (g_mc g)).
Proof. split; [by destruct g|by destruct g as [? []]]. Qed.

Lemma align4 a : is_u32 a -> Z.land a 0xfffffffc = a - a mod 4.
Proof.
  intros Ha. assert (a - a mod 4 = Z.shiftl (Z.shiftr a 2) 2) as ->.
  { rewrite Z.shiftl_mul_pow2, Z.shiftr_div_pow2 by lia. change (2 ^ 2) with 4.
    pose proof (Z.div_mod a 4). lia. }
  apply Z.bits_inj'. intros j Hj. rewrite Z.land_spec, Z.shiftl_spec by lia.
  change 0xfffffffc with (Z.shiftl (Z.ones 30) 2). rewrite Z.shiftl_spec by lia.
  destruct (decide (j < 2)); [by rewrite !(Z.testbit_neg_r _ (j - 2)), andb_false_r by lia|].
  rewrite Z.shiftr_spec by lia. replace (j - 2 + 2) with j by lia.
  destruct (decide (j < 32)); [by rewrite Z.ones_spec_low, andb_true_r by lia|].
  by rewrite (testbit_high a 32 j) by (done || lia).
Qed.

Lemma low2 a : Z.land a 3 = a mod 4.
Proof. change 3 with (Z.ones 2). by rewrite Z.land_ones by lia. Qed.

(** The byte of address [x] taken from the word that holds it. *)
Lemma word_byte d w x base :
  bytes_ok d -> peek32_be d (x - x mod 4 - base) = Some w ->
  is_u8 (byte_at w ((3 - x mod 4) * 8)) /\ bytes_get d (x - base) = Some (byte_at w ((3 - x mod 4) * 8)).
Proof.
  intros Hd Hw. split; [apply byte_at_u8|].
  destruct (peek32_bytes _ _ _ Hw) as (b0 & b1 & b2 & b3 & H0 & H1 & H2 & H3 & ->).
  pose proof (bytes_get_ok _ _ _ Hd H0). pose proof (bytes_get_ok _ _ _ Hd H1).
  pose proof (bytes_get_ok _ _ _ Hd H2). pose proof (bytes_get_ok _ _ _ Hd H3).
  rewrite cat4_sum by done. unfold is_u8 in *. pose proof (Z.mod_pos_bound x 4 eq_refl) as Hm.
  rewrite byte_at_mod by lia.
  assert (x mod 4 = 0 \/ x mod 4 = 1 \/ x mod 4 = 2 \/ x mod 4 = 3) as [E|[E|[E|E]]] by lia; rewrite E in *;
    [rewrite <- (Z.sub_0_r x), H0|replace (x - base) with (x - 1 - base + 1) by lia; rewrite H1
    |replace (x - base) with (x - 2 - base + 2) by lia; rewrite H2
    |replace (x - base) with (x - 3 - base + 3) by lia; rewrite H3]; f_equal;
    cbn -[Z.div Z.modulo]; Z.div_mod_to_equations; lia.
Qed.

Lemma memory_read_loop_ram n g k base d addr i last w :
  gdb_ram g k base d -> bytes_ok d -> base mod 4 = 0 -> b_len d mod 4 = 0 ->
  base <= addr + i -> addr + i + Z.of_nat n <= base + b_len d ->
  last = 0xffffffff \/ peek32_be d (last - base) = Some w ->
  exists bs g', memory_read_loop n addr i last w g = (Val (to_hex bs), g') /\ length bs = n /\
    Forall is_u8 bs /\ (forall j, (j < n)%nat -> bytes_get d (addr + i + Z.of_nat j - base) = bs !! j) /\
    gdb_ram g' k base d /\ mem_only g g' (banks (g_mc g)).
Proof.
  intros Hr Hd Hb4 Hl4. revert g Hr i last w. induction n as [|n IH]; intros g Hr i last w Hlo Hhi Hc.
  { exists [], g. split; [done|]. split; [done|]. split; [done|]. split; [lia|]. split; [done|apply mem_only_refl]. }
  pose proof (ram_range _ _ _ _ Hr) as Hrng. cbn [memory_read_loop].
  set (x := addr + i) in *. assert (is_u32 x) as Hx by (unfold is_u32; lia).
  rewrite align4, low2 by done. set (al := x - x mod 4).
  assert (base <= al /\ al + 4 <= base + b_len d) as [Hal1 Hal2].
  { unfold al. pose proof (Z.mod_pos_bound x 4). Z.div_mod_to_equations. lia. }
  assert (exists v g1, (if al =? last then ret w else read_mem32 al) g = (Val v, g1) /\
    peek32_be d (al - base) = Some v /\ gdb_ram g1 k base d /\ mem_only g g1 (banks (g_mc g)))
    as (v & g1 & E1 & Hv & Hr1 & Hm1).
  { destruct (Z.eqb_spec al last) as [<-|Hne].
    - destruct Hc as [Hc|Hc]; [unfold al in Hc; Z.div_mod_to_equations; lia|].
      exists w, g. split; [done|]. split; [done|]. split; [done|apply mem_only_refl].
    - by apply read_mem32_ram. }
  rewrite (bindM_val _ _ _ _ _ E1).
  destruct (IH g1 Hr1 (i + 1) al v) as (bs & g2 & E2 & Hlen & H8 & Hbs & Hr2 & Hm2);
    [lia|lia|by right|]. rewrite (bindM_val _ _ _ _ _ E2).
  destruct (word_byte d v x base Hd Hv) as [Hu8 Hbyte].
  exists (byte_at v ((3 - x mod 4) * 8) :: bs), g2. split; [done|]. split; [cbn; by f_equal|].
  split; [by constructor|]. split; [|split; [done|]].
  - intros [|j] Hj; cbn.
    + rewrite <- Hbyte. f_equal. lia.
    + rewrite <- Hbs by lia. f_equal. lia.
  - rewrite (mem_only_banks _ _ _ Hm1) in Hm2. by eapply mem_only_trans.
Qed.

(** The word with the byte at [s] replaced, as [handle_memory_write] computes it. *)
Definition patch (w b s : Z) : Z := Z.lor (Z.land w (not32 (shl32 0xff s))) (shl32 b s).

Lemma testbit_shl_byte b s j :
  is_u8 b -> 0 <= s <= 24 -> 0 <= j -> Z.testbit (shl32 b s) j = Z.testbit b (j - s).
Proof.
  intros Hb Hs Hj. unfold shl32. rewrite u32_id.
  - by rewrite Z.shiftl_spec.
  - unfold is_u32. rewrite Z.shiftl_mul_pow2 by lia. unfold is_u8 in Hb.
    pose proof (Z.pow_le_mono_r 2 s 24 ltac:(lia) ltac:(lia)). change (2 ^ 24) with 16777216 in *.
    pose proof (Z.pow_pos_nonneg 2 s ltac:(lia) ltac:(lia)). nia.
Qed.

Lemma testbit_byte_at v s j : 0 <= s -> 0 <= j -> Z.testbit (byte_at v s) j = (j <? 8) && Z.testbit v (j + s).
Proof.
  intros Hs Hj. unfold byte_at. change 0xff with (Z.ones 8).
  rewrite Z.land_spec, Z.shiftr_spec, Z.testbit_ones_nonneg by lia. apply andb_comm.
Qed.

Lemma byte_at_patch w b s k :
  is_u8 b -> 0 <= s < 4 -> 0 <= k < 4 ->
  byte_at (patch w b (s * 8)) (k * 8) = if decide (s = k) then b else byte_at w (k * 8).
Proof.
  intros Hb Hs Hk. apply Z.bits_inj'. intros j Hj. unfold patch.
  rewrite testbit_byte_at by lia. destruct (Z.ltb_spec j 8) as [Hj8|Hj8]; cbn [andb].
  - rewrite Z.lor_spec, Z.land_spec, testbit_not32 by lia.
    rewrite !testbit_shl_byte by (done || lia). change 255 with (Z.ones 8).
    case_decide as E.
    + subst k. rewrite Z.ones_spec_low by lia. cbn. rewrite andb_false_r. cbn. f_equal. lia.
    + rewrite testbit_byte_at, (proj2 (Z.ltb_lt j 8)) by lia. cbn.
      destruct (decide (j + k * 8 - s * 8 < 0)).
      * rewrite !(Z.testbit_neg_r _ (j + k * 8 - s * 8)) by lia. by rewrite andb_true_r, orb_false_r.
      * rewrite Z.ones_spec_high, (testbit_high b 8) by (done || lia). by rewrite andb_true_r, orb_false_r.
  - case_decide; [by rewrite (testbit_high b 8) by (done || lia)|].
    rewrite testbit_byte_at, (proj2 (Z.ltb_ge j 8)) by lia. done.
Qed.

Lemma patch_u32 w b s : is_u32 w -> is_u8 b -> is_u32 (patch w b s).
Proof. intros. unfold patch. auto with u32. Qed.

(** Storing the patched word changes the byte of [x] and no other. *)
Lemma poke_patched d w x base b :
  bytes_ok d -> is_u8 b -> 0 <= x - x mod 4 - base -> x - x mod 4 - base + 4 <= b_len d ->
  peek32_be d (x - x mod 4 - base) = Some w ->
  let w' := patch w b ((3 - x mod 4) * 8) in
  forall d', poke32_be d (x - x mod 4 - base) w' = Some d' ->
  peek32_be d' (x - x mod 4 - base) = Some w' /\ bytes_ok d' /\ b_len d' = b_len d /\
  forall j, bytes_get d' j = if decide (j = x - base) then Some b else bytes_get d j.
Proof.
  intros Hd Hb H0 H1 Hw w' d' Hp.
  assert (is_u32 w') as Hw' by (apply patch_u32; [by apply (peek32_ok d Hd Big) in Hw|done]).
  destruct (poke32_spec Big d (x - x mod 4 - base) w') as (d1 & E & Hpk & Hlen & Hfr); [done..|].
  cbv iota in E, Hpk. rewrite Hp in E. injection E as <-.
  assert (bytes_ok d') as Hd' by (by apply (poke32_ok d Hd Big (x - x mod 4 - base) w' d')).
  split; [done|]. split; [done|]. split; [done|]. intros j.
  pose proof (Z.mod_pos_bound x 4 eq_refl) as Hm.
  remember (j + base) as y eqn:Ej. assert (j = y - base) as -> by lia. clear Ej.
  destruct (decide (y - y mod 4 = x - x mod 4)) as [E|E].
  - assert (y = x - x mod 4 + y mod 4) as Ey by lia. pose proof (Z.mod_pos_bound y 4 eq_refl).
    destruct (word_byte d' w' y base) as [_ ->]; [done|by rewrite E|].
    unfold w'. rewrite byte_at_patch by (done || lia).
    destruct (decide (3 - x mod 4 = 3 - y mod 4)); [rewrite decide_True by lia; done|].
    rewrite decide_False by lia. destruct (word_byte d w y base) as [_ ->]; [done|by rewrite E|done].
  - rewrite decide_False by (intros ?; apply E; assert (y = x) as Eyx by lia; by rewrite Eyx).
    apply Hfr. Z.div_mod_to_equations. lia.
Qed.

Lemma mem_only_insert g1 g2 g3 i b2 b3 :
  mem_only g1 g2 (<[i := b2]> (banks (g_mc g1))) -> mem_only g2 g3 (<[i := b3]> (banks (g_mc g2))) ->
  mem_only g1 g3 (<[i := b3]> (banks (g_mc g1))).
Proof.
  intros H1 H2. pose proof (mem_only_trans _ _ _ _ _ H1 H2) as H3.
  rewrite (mem_only_banks _ _ _ H1), list_insert_insert_eq in H3. done.
Qed.

Lemma mem_only_insert_id g i b : banks (g_mc g) !! i = Some b -> mem_only g g (<[i := b]> (banks (g_mc g))).
Proof. intros Hi. rewrite list_insert_id by done. apply mem_only_refl. Qed.

Lemma memory_write_loop_ram bs g k base d addr i last w :
  gdb_ram g k base d -> bytes_ok d -> base mod 4 = 0 -> b_len d mod 4 = 0 -> Forall is_u8 bs ->
  base <= addr + i -> addr + i + Z.of_nat (length bs) <= base + b_len d ->
  last = 0xffffffff \/ peek32_be d (last - base) = Some w ->
  exists d' g', memory_write_loop bs addr i last w g = (Val tt, g') /\ gdb_ram g' k base d' /\
    mem_only g g' (<[k := RamBank base Big d']> (banks (g_mc g))) /\ b_len d' = b_len d /\
    forall j, bytes_get d' j =
      if decide (addr + i - base <= j < addr + i - base + Z.of_nat (length bs))
      then bs !! Z.to_nat (j - (addr + i - base)) else bytes_get d j.
Proof.
  intros Hr Hd Hb4 Hl4 H8. revert g d Hr Hd Hl4 i last w.
  induction H8 as [|b bs Hb H8 IH]; intros g d Hr Hd Hl4 i last w Hlo Hhi Hc; cbn [length] in *.
  { exists d, g. split; [done|]. split; [done|]. split; [apply mem_only_insert_id, Hr|]. split; [done|].
    intros j. by rewrite decide_False by lia. }
  pose proof (ram_range _ _ _ _ Hr) as Hrng. cbn [memory_write_loop].
  assert (is_u32 (addr + i)) as Hx by (unfold is_u32; lia). rewrite (u32_id (addr + i)) by done.
  remember (addr + i) as x eqn:Ex.
  rewrite align4, low2 by done. pose proof (Z.mod_pos_bound x 4 eq_refl) as Hm4.
  assert (base <= x - x mod 4 /\ x - x mod 4 + 4 <= base + b_len d) as [Hal1 Hal2]
    by (Z.div_mod_to_equations; lia).
  assert (exists v g1, (if x - x mod 4 =? last then ret w else read_mem32 (x - x mod 4)) g = (Val v, g1) /\
    peek32_be d (x - x mod 4 - base) = Some v /\ gdb_ram g1 k base d /\ mem_only g g1 (banks (g_mc g)))
    as (v & g1 & E1 & Hv & Hr1 & Hm1).
  { destruct (Z.eqb_spec (x - x mod 4) last) as [<-|Hne].
    - destruct Hc as [Hc|Hc]; [Z.div_mod_to_equations; lia|].
      exists w, g. split; [done|]. split; [done|]. split; [done|apply mem_only_refl].
    - by apply read_mem32_ram. }
  rewrite (bindM_val _ _ _ _ _ E1). fold (patch v b ((3 - x mod 4) * 8)).
  destruct (write_mem32_ram g1 k base d (x - x mod 4) (patch v b ((3 - x mod 4) * 8)))
    as (d1 & g2 & E2 & Hp & Hr2 & Hm2); [done|lia|lia|apply patch_u32; [by apply (peek32_ok d Hd Big) in Hv|done]|].
  rewrite (bindM_val _ _ _ _ _ E2).
  destruct (poke_patched d v x base b Hd Hb ltac:(lia) ltac:(lia) Hv d1 Hp) as (Hpk & Hd1 & Hl1 & Hget).
  destruct (IH g2 d1 Hr2 Hd1 ltac:(congruence) (i + 1) (x - x mod 4) (patch v b ((3 - x mod 4) * 8)))
    as (d' & g' & E3 & Hr' & Hm' & Hlen' & Hget'); [lia|lia|by right|].
  exists d', g'. split; [done|]. split; [done|].
  split; [|split; [congruence|]].
  - rewrite (mem_only_banks _ _ _ Hm1) in Hm2. eapply mem_only_insert; [eapply mem_only_trans; [exact Hm1|exact Hm2]|exact Hm'].
  - intros j. rewrite Hget', Hget. replace (addr + (i + 1)) with (x + 1) by lia.
    destruct (decide (j = x - base)) as [->|Hj].
    + rewrite decide_False, decide_True by lia. by replace (x - base - (x - base)) with 0 by lia.
    + destruct (decide (x + 1 - base <= j < x + 1 - base + Z.of_nat (length bs))).
      * rewrite decide_True by lia. replace (Z.to_nat (j - (x - base))) with (S (Z.to_nat (j - (x + 1 - base)))) by lia.
        done.
      * by rewrite decide_False by lia.
Qed.

(** Physical memory and the buffer of the bank. *)
Lemma pa_byte_ram g i base d a :
  gdb_ram g i base d -> base <= a < base + b_len d ->
  pa_byte (banks (g_mc g)) a = bytes_get d (a - base).
Proof. intros [_ Hm Hb]. by eapply pa_byte_at. Qed.

Lemma pa_byte_updated g g' i base d d' a :
  gdb_ram g i base d -> gdb_ram g' i base d' -> b_len d' = b_len d -> is_u32 a ->
  banks (g_mc g') = <[i := RamBank base Big d']> (banks (g_mc g)) ->
  pa_byte (banks (g_mc g')) a =
    if decide (base <= a < base + b_len d) then bytes_get d' (a - base) else pa_byte (banks (g_mc g)) a.
Proof.
  intros Hr Hr' Hl Ha Hb. case_decide as E; [by rewrite (pa_byte_ram g' i base d') by (done || lia)|].
  rewrite Hb. apply (pa_byte_insert (g_mc g) i base Big d d'); [apply Hr|done|].
  intros b Hs. destruct (scan_banks_Some _ _ _ _ _ Hs) as (j & Eij & Hj & Hc). rewrite Nat.add_0_l in Eij. subst j.
  destruct Hr as [_ ([Hf _] & _) Hi]. rewrite Hi in Hj. injection Hj as <-.
  rewrite Forall_lookup in Hf. apply contains_iff in Hc; [|by apply (Hf i)|done]. unfold holds in Hc. cbn in Hc. lia.
Qed.

(** A word-aligned RAM that holds bytes, seen through a processor with its MMU off. *)
Definition byte_ram g (i : nat) (base : Z) (d : bytes) : Prop :=
  gdb_ram g i base d /\ bytes_ok d /\ base mod 4 = 0 /\ b_len d mod 4 = 0.

(** Memory dumps are exact: [handle_memory_read] over a RAM answers with the
    hexadecimal digits of exactly the bytes of physical memory at the addresses
    asked for, whatever their alignment, and changes nothing. *)
Theorem memory_read_exact g i base d addr len :
  byte_ram g i base d -> 0 <= len -> base <= addr -> addr + len <= base + b_len d ->
  exists bs g', handle_memory_read addr len g = (Val (to_hex bs), g') /\
    length bs = Z.to_nat len /\
    (forall j, 0 <= j < len -> pa_byte (banks (g_mc g)) (addr + j) = bs !! Z.to_nat j) /\
    mem_only g g' (banks (g_mc g)).
Proof.
  intros (Hr & Hd & H4 & Hl4) Hlen Hlo Hhi. unfold handle_memory_read.
  destruct (memory_read_loop_ram (Z.to_nat len) g i base d addr 0 0xffffffff 0)
    as (bs & g' & E & Hn & H8 & Hbs & Hr' & Hm); [done|done|done|done|lia|lia|by left|].
  exists bs, g'. split; [done|]. split; [done|]. split; [|done]. intros j Hj.
  rewrite (pa_byte_ram g i base d) by (done || lia). rewrite <- Hbs by lia. f_equal. lia.
Qed.

(** Memory writes are exact: [handle_memory_write] of the digits of a byte
    string over a RAM succeeds, stores exactly those bytes at the addresses
    given, whatever their alignment, and changes no other byte of physical
    memory. *)
Theorem memory_write_exact g i base d addr bs :
  byte_ram g i base d -> Forall is_u8 bs -> base <= addr ->
  addr + Z.of_nat (length bs) <= base + b_len d ->
  exists g', handle_memory_write addr (Z.of_nat (length bs)) (to_hex bs) g = (Val true, g') /\
    g' = g <| g_mc := g_mc g' |> /\
    forall a, is_u32 a -> pa_byte (banks (g_mc g')) a =
      if decide (addr <= a < addr + Z.of_nat (length bs)) then bs !! Z.to_nat (a - addr)
      else pa_byte (banks (g_mc g)) a.
Proof.
  intros (Hr & Hd & H4 & Hl4) H8 Hlo Hhi. pose proof (ram_range _ _ _ _ Hr).
  unfold handle_memory_write. rewrite to_hex_length, Nat2Z.inj_mul.
  rewrite (Z.mul_comm (Z.of_nat 2)). change (Z.of_nat 2) with 2.
  assert (u64 (Z.of_nat (length bs) * 2) = Z.of_nat (length bs) * 2) as -> by (unfold u64; apply Z.mod_small; lia).
  rewrite Z.eqb_refl. cbn [negb]. rewrite (proj2 (Z.leb_gt 0x8000000000000000 _)) by lia.
  pose proof (from_hex_to_hex_app bs [] [] g H8 eq_refl) as Eh. rewrite !app_nil_r in Eh.
  rewrite (bindM_val _ _ _ _ _ Eh).
  destruct (memory_write_loop_ram bs g i base d addr 0 0xffffffff 0)
    as (d' & g' & E & Hr' & Hm & Hl & Hget); [done|done|done|done|done|lia|lia|by left|].
  rewrite (bindM_val _ _ _ _ _ E). exists g'. split; [done|]. split; [apply Hm|]. intros a Ha.
  rewrite (pa_byte_updated g g' i base d d') by (done || by eapply mem_only_banks). rewrite Hget.
  destruct (decide (base <= a < base + b_len d)).
  - destruct (decide (addr <= a < addr + Z.of_nat (length bs))).
    + rewrite decide_True by lia. f_equal. lia.
    + rewrite decide_False by lia. by rewrite (pa_byte_ram g i base d) by (done || lia).
  - by rewrite decide_False by lia.
Qed.

(** ** Breakpoints *)

Lemma has_breakpoint_snoc bps a v x :
  has_breakpoint (bps ++ [mkBreakpoint a v]) x = has_breakpoint bps x || (a =? x).
Proof. unfold has_breakpoint. rewrite existsb_app. cbn. by rewrite orb_false_r. Qed.

Lemma get_breakpoint_snoc bps a v :
  has_breakpoint bps a = false -> get_breakpoint_instruction (bps ++ [mkBreakpoint a v]) a = v.
Proof.
  unfold get_breakpoint_instruction. induction bps as [|b bps IH]; cbn; [by rewrite Z.eqb_refl|].
  destruct (bp_addr b =? a); cbn; [done|]. exact IH.
Qed.

(** Searching the list for an address that only its last element has. *)
Lemma remove_loop_snoc bps a v i g :
  has_breakpoint bps a = false ->
  remove_loop a i (bps ++ [mkBreakpoint a v]) g = remove_loop a (i + length bps) [mkBreakpoint a v] g.
Proof.
  revert i. induction bps as [|b bps IH]; intros i Hb; cbn [app length] in *; [by rewrite Nat.add_0_r|].
  cbn in Hb. destruct (bp_addr b =? a) eqn:E; [done|]. cbn [remove_loop]. rewrite E, IH by done.
  by rewrite Nat.add_succ_r.
Qed.

Lemma delete_snoc {A} (l : list A) x : delete (length l) (l ++ [x]) = l.
Proof. induction l as [|y l IH]; [done|]. cbn. by f_equal. Qed.

(** A word stored, as a fact about the result. *)
Lemma poke32_stored d p v d' :
  0 <= p -> p + 4 <= b_len d -> is_u32 v -> poke32_be d p v = Some d' ->
  stored 4 d p d' /\ peek32_be d' p = Some v.
Proof.
  intros H0 H1 Hv E. destruct (poke32_spec Big d p v) as (x & F & P & L); [done..|].
  cbv iota in F, P. rewrite E in F. by injection F as <-.
Qed.

(** Storing over a word and storing the old word again. *)
Lemma poke_restores d p v w d1 d2 :
  bytes_ok d -> 0 <= p -> p + 4 <= b_len d -> is_u32 v -> peek32_be d p = Some w ->
  poke32_be d p v = Some d1 -> poke32_be d1 p w = Some d2 -> forall j, bytes_get d2 j = bytes_get d j.
Proof.
  intros Hd H0 H1 Hv Hw E1 E2 j.
  assert (is_u32 w) as Hw32 by (by apply (peek32_ok d Hd Big) in Hw).
  destruct (poke32_stored _ _ _ _ H0 H1 Hv E1) as [[L1 R1] _].
  destruct (poke32_stored d1 p w d2) as [[L2 R2] P2]; [done|lia|done|done|].
  assert (bytes_ok d2) as Hd2 by (apply (poke32_ok d1 (poke32_ok d Hd Big p v d1 E1) Big p w d2 E2)).
  destruct (decide (p <= j < p + 4)) as [Hj|Hj]; [|by rewrite R2, R1 by lia].
  destruct (peek32_bytes _ _ _ P2) as (a0 & a1 & a2 & a3 & A0 & A1 & A2 & A3 & Ea).
  destruct (peek32_bytes _ _ _ Hw) as (b0 & b1 & b2 & b3 & B0 & B1 & B2 & B3 & Eb).
  rewrite Eb in Ea.
  pose proof (bytes_get_ok _ _ _ Hd2 A0). pose proof (bytes_get_ok _ _ _ Hd2 A1).
  pose proof (bytes_get_ok _ _ _ Hd2 A2). pose proof (bytes_get_ok _ _ _ Hd2 A3).
  pose proof (bytes_get_ok _ _ _ Hd B0). pose proof (bytes_get_ok _ _ _ Hd B1).
  pose proof (bytes_get_ok _ _ _ Hd B2). pose proof (bytes_get_ok _ _ _ Hd B3).
  rewrite !cat4_sum in Ea by done.
  unfold is_u8 in *. assert (a0 = b0 /\ a1 = b1 /\ a2 = b2 /\ a3 = b3) as (-> & -> & -> & ->) by lia.
  assert (j = p \/ j = p + 1 \/ j = p + 2 \/ j = p + 3) as [E|[E|[E|E]]] by lia; rewrite E; congruence.
Qed.

Lemma insert_breakpoint_ram g i base d a :
  gdb_ram g i base d -> base <= a -> a + 4 <= base + b_len d -> has_breakpoint (g_bps g) a = false ->
  exists g1 d1 w, insert_breakpoint a g = (Val tt, g1) /\ peek32_be d (a - base) = Some w /\
    poke32_be d (a - base) BREAKPOINT_OPCODE = Some d1 /\ gdb_ram g1 i base d1 /\
    g_bps g1 = g_bps g ++ [mkBreakpoint a w] /\
    banks (g_mc g1) = <[i := RamBank base Big d1]> (banks (g_mc g)).
Proof.
  intros Hr Hlo Hhi Hno.
  destruct (read_mem32_ram g i base d a Hr Hlo Hhi) as (w & g0 & E0 & Hw & Hr0 & Hm0).
  assert (gdb_ram (g0 <| g_bps := g_bps g0 ++ [mkBreakpoint a w] |>) i base d) as Hr0' by (by destruct Hr0).
  destruct (write_mem32_ram _ i base d a BREAKPOINT_OPCODE Hr0' Hlo Hhi) as (d1 & g1 & E1 & Hp1 & Hr1 & Hm1);
    [by unfold is_u32|].
  exists g1, d1, w. split.
  { unfold insert_breakpoint. mstep. rewrite Hno. unfold try_catch, plant.
    rewrite (bindM_val _ _ _ _ _ E0). mstep. by rewrite E1. }
  split; [done|]. split; [done|]. split; [done|].
  split; [rewrite (proj1 Hm1); cbn; by rewrite (proj1 Hm0)|]. rewrite (mem_only_banks _ _ _ Hm1). cbn. by rewrite (mem_only_banks _ _ _ Hm0).
Qed.

Lemma remove_breakpoint_ram g i base d a bps w :
  gdb_ram g i base d -> base <= a -> a + 4 <= base + b_len d -> is_u32 w ->
  g_bps g = bps ++ [mkBreakpoint a w] -> has_breakpoint bps a = false ->
  exists g2 d2, remove_breakpoint a g = (Val tt, g2) /\ poke32_be d (a - base) w = Some d2 /\
    gdb_ram g2 i base d2 /\ g_bps g2 = bps /\
    banks (g_mc g2) = <[i := RamBank base Big d2]> (banks (g_mc g)).
Proof.
  intros Hr Hlo Hhi Hw Hb Hno.
  destruct (write_mem32_ram g i base d a w Hr Hlo Hhi Hw) as (d2 & g2 & E2 & Hp2 & Hr2 & Hm2).
  assert (g_bps g2 = bps ++ [mkBreakpoint a w]) as Hb2 by (by rewrite (proj1 Hm2)).
  exists (g2 <| g_bps := bps |>), d2. split.
  { unfold remove_breakpoint. mstep. rewrite Hb, remove_loop_snoc by done. cbn [remove_loop bp_addr bp_instr].
    rewrite Z.eqb_refl. unfold try_catch. rewrite (bindM_val _ _ _ _ _ E2). cbn.
    by rewrite Hb2, delete_snoc. }
  split; [done|]. split; [by destruct Hr2|]. split; [done|by apply mem_only_banks in Hm2].
Qed.

(** C33. Breakpoints are invisible once removed: with the MMU of the processor
    the debugger has selected off, planting one at an address of a big-endian
    RAM that has no breakpoint yet records the original instruction, puts [ta 1] there and
    changes no other byte; removing it then gives back the list of breakpoints
    and every byte of memory. *)
Theorem breakpoint_roundtrip g i base d a :
  gdb_ram g i base d -> bytes_ok d -> base <= a -> a + 4 <= base + b_len d ->
  has_breakpoint (g_bps g) a = false ->
  exists g1 g2 w, insert_breakpoint a g = (Val tt, g1) /\ (read_mem32 a g).1 = Val w /\
    get_breakpoint_instruction (g_bps g1) a = w /\ (read_mem32 a g1).1 = Val BREAKPOINT_OPCODE /\
    (forall x, is_u32 x -> x < a \/ a + 4 <= x -> pa_byte (banks (g_mc g1)) x = pa_byte (banks (g_mc g)) x) /\
    remove_breakpoint a g1 = (Val tt, g2) /\ g_bps g2 = g_bps g /\
    forall x, is_u32 x -> pa_byte (banks (g_mc g2)) x = pa_byte (banks (g_mc g)) x.
Proof.
  intros Hr Hd Hlo Hhi Hno.
  destruct (insert_breakpoint_ram g i base d a Hr Hlo Hhi Hno) as (g1 & d1 & w & E1 & Hw & Hp1 & Hr1 & Hb1 & Hm1).
  destruct (poke32_stored d (a - base) BREAKPOINT_OPCODE d1 ltac:(lia) ltac:(lia) ltac:(done) Hp1) as [[L1 R1] P1].
  assert (is_u32 w) as Hw32 by (by apply (peek32_ok d Hd Big) in Hw).
  destruct (remove_breakpoint_ram g1 i base d1 a (g_bps g) w Hr1) as (g2 & d2 & E2 & Hp2 & Hr2 & Hb2 & Hm2);
    [done|lia|done|done|done|].
  destruct (poke32_stored d1 (a - base) w d2 ltac:(lia) ltac:(lia) Hw32 Hp2) as [[L2 _] _].
  exists g1, g2, w. split; [done|].
  split. { destruct (read_mem32_ram g i base d a Hr) as (v & g3 & -> & Hv & _); [done|lia|]. cbn. congruence. }
  split; [rewrite Hb1; by apply get_breakpoint_snoc|].
  split. { destruct (read_mem32_ram g1 i base d1 a Hr1) as (v & g3 & -> & Hv & _); [done|lia|]. cbn. congruence. }
  split. { intros x Hx Hout. rewrite (pa_byte_updated g g1 i base d d1) by done.
    case_decide; [|done]. rewrite R1 by lia. by rewrite (pa_byte_ram g i base d). }
  split; [done|]. split; [done|]. intros x Hx.
  rewrite (pa_byte_updated g1 g2 i base d1 d2), (pa_byte_updated g g1 i base d d1), L1 by done.
  case_decide; [|done].
  rewrite (poke_restores d (a - base) BREAKPOINT_OPCODE w d1 d2) by (done || lia).
  by rewrite (pa_byte_ram g i base d).
Qed.

(** ** A memory request from the wire to the reply *)

(** The value of a string of hexadecimal digits of any length, in upper or
    lower case and with any number of leading zeros. *)
Definition hex_step (acc : option Z) (c : Z) : option Z :=
  match acc, digit_val 16 c with Some a, Some v => Some (a * 16 + v) | _, _ => None end.

Definition hex_value (ds : list Z) : option Z :=
  match ds with [] => None | _ => fold_left hex_step ds (Some 0) end.

Lemma hex_step_None ds : fold_left hex_step ds None = None.
Proof. by induction ds. Qed.

Lemma hex_step_Some ds acc v :
  fold_left hex_step ds (Some acc) = Some v -> Forall (fun c => is_Some (digit_val 16 c)) ds.
Proof.
  revert acc. induction ds as [|c ds IH]; intros acc E; [constructor|]. cbn in E.
  destruct (digit_val 16 c) eqn:Ed; [|by rewrite hex_step_None in E]. constructor; [by rewrite Ed|eauto].
Qed.

Lemma hex_value_digits ds v : hex_value ds = Some v -> Forall (fun c => is_Some (digit_val 16 c)) ds.
Proof. destruct ds; [done|]. apply hex_step_Some. Qed.

Lemma hex_char c : is_Some (digit_val 16 c) -> 48 <= c <= 57 \/ 65 <= c <= 70 \/ 97 <= c <= 102.
Proof.
  unfold digit_val. intros [v E].
  destruct (Z.leb_spec 48 c), (Z.leb_spec c 57), (Z.leb_spec 97 c), (Z.leb_spec c 122), (Z.leb_spec 65 c), (Z.leb_spec c 90);
    cbn [andb] in E; try discriminate E; case_match eqn:El; try discriminate E; apply Z.ltb_lt in El; lia.
Qed.

Lemma scan_digits_hex ds acc v n rest :
  fold_left hex_step ds (Some acc) = Some v -> (forall c r, rest = c :: r -> digit_val 16 c = None) ->
  scan_digits 16 acc n (ds ++ rest) = (v, (n + length ds)%nat, rest).
Proof.
  intros E Hrest. revert acc n E. induction ds as [|c ds IH]; intros acc n E; cbn in E.
  - injection E as ->. cbn. rewrite Nat.add_0_r. destruct rest as [|c r]; [done|]. cbn. by rewrite (Hrest c r).
  - cbn [app scan_digits]. destruct (digit_val 16 c); [|by rewrite hex_step_None in E].
    rewrite (IH _ _ E). cbn [length]. by rewrite Nat.add_succ_r.
Qed.

(** A string of digits is not mistaken for a sign, a space or the prefix. *)
Lemma hex_prefixes ds rest :
  ds <> [] -> Forall (fun c => is_Some (digit_val 16 c)) ds -> (forall r, rest <> 120 :: r /\ rest <> 88 :: r) ->
  scan_sign (skip_spaces (ds ++ rest)) = (false, ds ++ rest) /\ skip_0x 16 (ds ++ rest) = ds ++ rest.
Proof.
  intros Hne Hd Hrest. destruct Hd as [|c ds Hc%hex_char Hd]; [done|]. cbn [app]. split.
  - cbn [skip_spaces]. assert (is_space c = false) as ->.
    { unfold is_space. apply orb_false_iff. split; [lia|]. apply andb_false_iff. lia. }
    unfold scan_sign. repeat case_match; done || lia.
  - assert (forall x l, ds ++ rest = x :: l -> x <> 120 /\ x <> 88) as Hx.
    { intros x l E. destruct Hd as [|c' ds Hc'%hex_char _]; cbn in E; [|injection E as <- _; lia].
      destruct (Hrest l). split; intros ->; congruence. }
    unfold skip_0x. destruct (ds ++ rest) as [|x [|y l]] eqn:E; [by repeat case_match..|].
    destruct (Hx _ _ eq_refl). rewrite (proj2 (Z.eqb_neq x 120)), (proj2 (Z.eqb_neq x 88)) by done.
    cbn [orb]. rewrite andb_false_r. cbn. by repeat case_match.
Qed.

Lemma scan_x_hex ds v rest :
  hex_value ds = Some v -> is_u32 v -> (forall c r, rest = c :: r -> digit_val 16 c = None /\ c <> 120 /\ c <> 88) ->
  scan_x (ds ++ rest) = Some (v, rest).
Proof.
  intros Hv Hu Hrest. pose proof (hex_value_digits _ _ Hv) as Hd. unfold hex_value in Hv.
  assert (ds <> [] /\ fold_left hex_step ds (Some 0) = Some v) as [Hne Ef] by (by destruct ds).
  unfold scan_x, scan_number. destruct (hex_prefixes ds rest) as [-> ->]; [done|done|..].
  { intros r. split; intros ->; destruct (Hrest _ _ eq_refl) as (_ & ? & ?); lia. }
  rewrite (scan_digits_hex ds 0 v) by (done || intros c' r E; apply (Hrest c' r E)).
  destruct ds; [done|]. cbn.
  unfold is_u32 in Hu. by rewrite (proj2 (Z.ltb_lt v _)) by lia.
Qed.

Lemma payload_hex ds v : hex_value ds = Some v -> payload 35 ds.
Proof. intros Hv%hex_value_digits. eapply Forall_impl; [|exact Hv]. intros c Hc%hex_char. lia. Qed.

(** The request [m<addr>,<len>], with the digits of the two numerals. *)
Definition m_packet (da dl : list Z) : list Z := 109 :: (da ++ 44 :: dl).

Lemma starts_with_hd lit x l : lit <> [] -> hd 0 lit <> x -> starts_with lit (x :: l) = false.
Proof.
  intros Hn Hx. destruct lit as [|c lit]; [done|]. unfold starts_with. cbn in *.
  by rewrite (proj2 (Z.eqb_neq c x)).
Qed.

Lemma handle_m_packet g da dl addr len :
  hex_value da = Some addr -> hex_value dl = Some len -> is_u32 addr -> is_u32 len ->
  handle_packet (m_packet da dl) g = reply_or (str "E14") (handle_memory_read addr len) g.
Proof.
  intros Ha Hl Hua Hul. unfold handle_packet. mstep. cbv zeta.
  assert (da <> []) as Hne by (by intros ->).
  rewrite (bool_decide_eq_false_2 (m_packet da dl = str "?")) by done.
  rewrite (bool_decide_eq_false_2 (m_packet da dl = [3])) by done.
  unfold m_packet. rewrite !starts_with_hd by (vm_compute; done). cbn [hd tl].
  change (109 =? 103) with false. change (109 =? 71) with false. change (109 =? 99) with false.
  change (109 =? 109) with true. cbv iota.
  rewrite (bindM_val _ _ _ (addr, 44 :: dl) g).
  2: { rewrite (scan_x_hex da addr); [done..|]. by intros c r [= <- <-]. }
  rewrite (bindM_val _ _ _ (len, []) g); [done|]. cbn [snd].
  change (scan_lit (str ",") (44 :: dl)) with (Some dl). cbv iota.
  by rewrite <- (app_nil_r dl), (scan_x_hex dl len).
Qed.

(** C32. A memory request is answered: when the client's [m] packet, with its
    two numerals in any number of hexadecimal digits, asks for bytes of one
    word-aligned big-endian RAM and the MMU of the selected processor is off,
    the stub thread acknowledges it, sends one packet with exactly the digits
    of those bytes of physical memory, and goes on with the rest of the input.
    Nothing else of the stub's state changes, the selected processor, the
    waiting flag, the breakpoints, the processors and the stop controller
    included, and nothing of the memory controller but its cache of the last
    bank. *)
Theorem memory_request_served g i base d da dl addr len rest n :
  byte_ram g i base d -> shutting_down_ g = false ->
  hex_value da = Some addr -> hex_value dl = Some len -> is_u32 addr -> is_u32 len ->
  base <= addr -> addr + len <= base + b_len d -> g_in g = frame (m_packet da dl) ++ rest ->
  exists bs tl,
    gdb_loop (S n) g =
      gdb_loop n (g <| g_in := rest |> <| g_out := g_out g ++ str "+" ++ frame (to_hex bs) |>
                    <| g_mc := g_mc g <| tl_cache := tl |> |>) /\
    length bs = Z.to_nat len /\
    (forall j, 0 <= j < len -> pa_byte (banks (g_mc g)) (addr + j) = bs !! Z.to_nat j).
Proof.
  intros Hr Hsd Ha Hl Hua Hul Hlo Hhi Hin. unfold is_u32 in Hua, Hul.
  assert (payload 35 (m_packet da dl)) as Hp.
  { constructor; [done|]. apply Forall_app. split; [by eapply payload_hex|]. constructor; [done|by eapply payload_hex]. }
  set (g1 := g <| g_in := rest |> <| g_out := g_out g ++ str "+" |>).
  assert (byte_ram g1 i base d) as Hr1 by (destruct Hr as ([] & ?); by split).
  destruct Hr1 as (Hr1 & Hd & H4 & Hl4).
  destruct (memory_read_loop_ram (Z.to_nat len) g1 i base d addr 0 0xffffffff 0)
    as (bs & g2 & E & Hn & _ & Hbs & _ & Eg & Em); [done|done|done|done|lia|lia|by left|].
  exists bs, (tl_cache (g_mc g2)).
  assert (recv_packet g = (Val (Some (m_packet da dl)), g1)) as Ercv by (apply (recv_frame g []); [done|constructor|done|done]).
  assert (handle_packet (m_packet da dl) g1 = (Val tt, g2 <| g_out := g_out g2 ++ frame (to_hex bs) |>)) as Eh.
  { rewrite (handle_m_packet _ _ _ addr len) by (unfold is_u32; done || lia). unfold reply_or, try_catch, handle_memory_read, bindM.
    by rewrite E. }
  split; [|split; [done|]].
  - cbn [gdb_loop]. rewrite (bindM_val _ _ _ false g) by (unfold gets; by rewrite Hsd).
    rewrite (bindM_val _ _ _ _ _ Ercv), (bindM_val _ _ _ _ _ Eh). f_equal. rewrite Eg, Em.
    destruct g as [cpus mc ? ? ? ? ? ? out ?]. destruct mc. cbn. by rewrite <- app_assoc.
  - intros j Hj. rewrite (pa_byte_ram g i base d) by (apply Hr || lia). rewrite <- Hbs by lia. f_equal. lia.
Qed.
End ram.

(** ** A concrete session: one processor after reset, and the two RAM banks of
       [demo_mc] *)

Definition demo_gdb (input : list Z) : gdb unit :=
  mkGdb [(demo_reset, mmu_new)] demo_mc [] 0 (-1) false false input [] None.

Lemma demo_gdb_ram input : gdb_ram (demo_gdb input) 0 0x40000000 (mkBytes 0x1000 ∅).
Proof. split; [by exists demo_reset, mmu_new|apply mc_reachable_ok, demo_reachable|done]. Qed.

Lemma demo_bytes_ok : bytes_ok (mkBytes 0x1000 ∅).
Proof. apply map_Forall_empty. Qed.

Lemma demo_byte_ram input : byte_ram (demo_gdb input) 0 0x40000000 (mkBytes 0x1000 ∅).
Proof. split; [apply demo_gdb_ram|]. split; [apply demo_bytes_ok|]. by split. Qed.

Lemma packet_roundtrip_witness :
  (recv_packet (demo_gdb (str "+" ++ frame (str "qC") ++ str "$"))).1 = Val (Some (str "qC")).
Proof.
  destruct (packet_roundtrip (demo_gdb (str "+" ++ frame (str "qC") ++ str "$")) (str "+") (str "qC") (str "$"))
    as [_ E]; [reflexivity|by repeat constructor|by repeat constructor|reflexivity|].
  by rewrite E.
Defined.

Lemma register_dump_witness :
  exists regs hex bytes, read_registers demo_reset (demo_gdb []) = (Val hex, demo_gdb []) /\
    words_of bytes = regs ++ replicate 32 0 ++ special_regs demo_reset /\ length hex = 576%nat.
Proof.
  destruct (register_dump (demo_gdb []) demo_reset demo_reset_words) as (regs & hex & bytes & E & Hl & _ & Hw & _).
  by exists regs, hex, bytes.
Defined.

Lemma memory_read_exact_witness :
  exists bs g', @handle_memory_read unit no_devices 0x40000ffd 3 (demo_gdb []) = (Val (to_hex bs), g') /\
    length bs = 3%nat.
Proof.
  destruct (@memory_read_exact unit no_devices (demo_gdb []) 0 0x40000000 (mkBytes 0x1000 ∅) 0x40000ffd 3
              (demo_byte_ram []) ltac:(lia) ltac:(lia) ltac:(cbn; lia)) as (bs & g' & E & Hl & _).
  by exists bs, g'.
Defined.

Lemma memory_write_exact_witness :
  exists g', @handle_memory_write unit no_devices 0x40000001 2 (to_hex [0xab; 0xcd]) (demo_gdb []) = (Val true, g') /\
    pa_byte (banks (g_mc g')) 0x40000002 = Some 0xcd.
Proof.
  destruct (@memory_write_exact unit no_devices (demo_gdb []) 0 0x40000000 (mkBytes 0x1000 ∅) 0x40000001 [0xab; 0xcd]
              (demo_byte_ram []) ltac:(by repeat constructor) ltac:(lia) ltac:(cbn; lia)) as (g' & E & _ & Hb).
  exists g'. split; [exact E|]. rewrite Hb by (unfold is_u32; lia). reflexivity.
Defined.

Lemma breakpoint_roundtrip_witness :
  exists g1 g2, @insert_breakpoint unit no_devices 0x40000010 (demo_gdb []) = (Val tt, g1) /\
    @remove_breakpoint unit no_devices 0x40000010 g1 = (Val tt, g2) /\ g_bps g2 = [].
Proof.
  destruct (@breakpoint_roundtrip unit no_devices (demo_gdb []) 0 0x40000000 (mkBytes 0x1000 ∅) 0x40000010
              (demo_gdb_ram []) demo_bytes_ok ltac:(lia) ltac:(cbn; lia) eq_refl)
    as (g1 & g2 & w & E1 & _ & _ & _ & _ & E2 & E3 & _).
  by exists g1, g2.
Defined.

Lemma memory_request_served_witness :
  exists bs tl, @gdb_loop unit no_devices 1 (demo_gdb (frame (str "m40000000,4") ++ [])) =
      @gdb_loop unit no_devices 0 (demo_gdb [] <| g_out := str "+" ++ frame (to_hex bs) |>
                                      <| g_mc := demo_mc <| tl_cache := tl |> |>) /\
    length bs = 4%nat.
Proof.
  destruct (@memory_request_served unit no_devices (demo_gdb (frame (str "m40000000,4") ++ [])) 0 0x40000000
              (mkBytes 0x1000 ∅) (str "40000000") (str "4") 0x40000000 4 [] 0 (demo_byte_ram _) eq_refl eq_refl eq_refl
              ltac:(unfold is_u32; lia) ltac:(unfold is_u32; lia) ltac:(lia) ltac:(cbn; lia) eq_refl)
    as (bs & tl & E & Hl & _).
  exists bs, tl. split; [exact E|exact Hl].
Defined.
