(* ===== verification/AudioOut.v ===== *)
(** * The host's audio output (class [HostAudioOut] of src/src/peripherals/ac97.hpp)

    The audio controller pushes samples from the bus clock's thread; a thread of
    the output's own takes them off the queue in whole blocks and hands them to
    the audio library.  The state is shared, so the model is a transition
    relation: a step is a critical section, a call of the library, or a test of
    [running_].  The library is not under src/: what is modelled of it is which
    blocks it is given, and, for the constructor, whether its calls succeed. *)
From S2P Require Import Prelude.

#[local] Open Scope Z_scope.

(** Where the thread is: at the head of its loop, in [feedAudio] with the rest
    of its batch, or past the loop. *)
Inductive feed_pc := FeedTop | FeedWrite (batch : list Z) | FeedDone.

(** [a_written] is what the library has been given, one list per call. *)
Record audio_out := mkAudioOut {
  a_frames : Z; a_rate : Z; a_queue : list Z; a_running : bool; a_pc : feed_pc; a_written : list (list Z) }.

(** The number of samples of a block, [frames_ * 2]. *)
Definition block_len (s : audio_out) : nat := Z.to_nat (a_frames s * 2).

(** The constructor, given the results of [Pa_Initialize],
    [Pa_OpenDefaultStream] and [Pa_StartStream]. *)
Definition HostAudioOut_new (sample_rate frames : Z) (init_ok open_ok start_ok : bool) : res audio_out :=
  if negb init_ok then Exn (runtime_error "PortAudio init failed")
  else if negb open_ok then Exn (runtime_error "PortAudio open failed")
  else if negb start_ok then Exn (runtime_error "PortAudio start failed")
  else Val (mkAudioOut frames sample_rate [] true FeedTop []).

Definition HostAudioOut_pushSamples (samples : list Z) (s : audio_out) : audio_out :=
  mkAudioOut (a_frames s) (a_rate s) (a_queue s ++ samples) (a_running s) (a_pc s) (a_written s).

(** The critical section of [feedAudio]; dividing by [frames_ * 2] is undefined
    for 0. *)
Definition feed_take (s : audio_out) : option audio_out :=
  if (block_len s =? 0)%nat then None
  else
    let n := (length (a_queue s) / block_len s * block_len s)%nat in
    if (n =? 0)%nat then Some s
    else Some (mkAudioOut (a_frames s) (a_rate s) (drop n (a_queue s)) (a_running s)
                 (FeedWrite (take n (a_queue s))) (a_written s)).

(** An iteration of the loop over the batch, or its end. *)
Definition feed_write (batch : list Z) (s : audio_out) : audio_out :=
  if negb (bool_decide (batch = [])) && a_running s
  then mkAudioOut (a_frames s) (a_rate s) (a_queue s) (a_running s)
         (FeedWrite (drop (block_len s) batch)) (a_written s ++ [take (block_len s) batch])
  else mkAudioOut (a_frames s) (a_rate s) (a_queue s) (a_running s) FeedTop (a_written s).

(** [while (running_)]. *)
Definition feed_exit (s : audio_out) : audio_out :=
  mkAudioOut (a_frames s) (a_rate s) (a_queue s) (a_running s) FeedDone (a_written s).

(** The flag [stopThread] clears before it joins the thread. *)
Definition stop_flag (s : audio_out) : audio_out :=
  mkAudioOut (a_frames s) (a_rate s) (a_queue s) false (a_pc s) (a_written s).

(** A step of the thread; [None]: undefined, or the thread has ended. *)
Definition feed_step (s : audio_out) : option audio_out :=
  match a_pc s with
  | FeedTop => if a_running s then feed_take s else Some (feed_exit s)
  | FeedWrite batch => Some (feed_write batch s)
  | FeedDone => None
  end.

(** [pushed] is what has been pushed so far. *)
Inductive audio_step : list Z * audio_out -> list Z * audio_out -> Prop :=
| step_push pushed samples s : audio_step (pushed, s) (pushed ++ samples, HostAudioOut_pushSamples samples s)
| step_feed pushed s s' : feed_step s = Some s' -> audio_step (pushed, s) (pushed, s')
| step_stop pushed s : audio_step (pushed, s) (pushed, stop_flag s).

(** ** Order and completeness *)

Definition batch_of (s : audio_out) : list Z := match a_pc s with FeedWrite b => b | _ => [] end.

(** The abstract view: the samples written, those on their way, and those
    waiting are the samples pushed, unless the output was stopped; and the
    library is only ever given whole blocks. *)
Record audio_ok (frames : Z) (p : list Z * audio_out) : Prop := {
  ao_frames : a_frames p.2 = frames;
  ao_blocks : Forall (fun b => length b = block_len p.2) (a_written p.2);
  ao_batch : (block_len p.2 | length (batch_of p.2))%nat;
  ao_all : a_running p.2 = true -> concat (a_written p.2) ++ batch_of p.2 ++ a_queue p.2 = p.1;
  ao_prefix : concat (a_written p.2) `prefix_of` p.1;
  ao_done : a_running p.2 = true -> a_pc p.2 <> FeedDone }.

Lemma new_ok rate frames s : HostAudioOut_new rate frames true true true = Val s -> audio_ok frames ([], s).
Proof. intros [= <-]. split; cbn; try done. by apply Nat.divide_0_r. Qed.

Lemma take_ok frames pushed s s' :
  audio_ok frames (pushed, s) -> a_pc s = FeedTop -> a_running s = true -> feed_take s = Some s' -> audio_ok frames (pushed, s').
Proof.
  intros [H1 H2 H3 H4 H5 H6] Hpc Hr E. unfold feed_take in E. destruct (block_len s =? 0)%nat eqn:E0; [done|].
  set (n := (length (a_queue s) / block_len s * block_len s)%nat) in *. destruct (n =? 0)%nat; simplify_eq; [by split|].
  apply Nat.eqb_neq in E0. assert (n <= length (a_queue s))%nat by (unfold n; rewrite Nat.mul_comm; by apply Nat.Div0.mul_div_le).
  cbn in *. unfold batch_of in *. rewrite Hpc in *. split; cbn; try done.
  - change (block_len _) with (block_len s). rewrite length_take, Nat.min_l by done. by exists (length (a_queue s) / block_len s)%nat.
  - intros _. rewrite take_drop. by apply H4.
Qed.

Lemma write_ok frames pushed s batch :
  0 < frames -> audio_ok frames (pushed, s) -> a_pc s = FeedWrite batch -> audio_ok frames (pushed, feed_write batch s).
Proof.
  intros Hf [H1 H2 H3 H4 H5 H6] Hpc. cbn in *. unfold batch_of in *. rewrite Hpc in *. unfold feed_write.
  assert (0 < block_len s)%nat by (unfold block_len; lia).
  case_bool_decide as Hb; cbn [negb andb]; [|destruct (a_running s) eqn:Hr]; cbn.
  - subst batch. by split.
  - change (block_len (mkAudioOut _ _ _ _ _ _)) with (block_len s) in *. destruct H3 as [k Hk].
    assert (block_len s <= length batch)%nat as Hle by (destruct k; [by destruct batch|nia]).
    split; cbn; try done.
    + apply Forall_app. split; [done|]. constructor; [|done]. rewrite length_take. apply Nat.min_l, Hle.
    + exists (k - 1)%nat. rewrite length_drop. change (block_len (mkAudioOut _ _ _ _ _ _)) with (block_len s).
      rewrite Hk, Nat.mul_sub_distr_r. lia.
    + intros _. rewrite concat_app. cbn. rewrite app_nil_r, <- app_assoc, (app_assoc (take _ _)), take_drop. by apply H4.
    + rewrite concat_app. cbn. rewrite app_nil_r. rewrite <- H4 by done. apply prefix_app.
      exists (drop (block_len s) batch ++ a_queue s). by rewrite app_assoc, take_drop.
  - split; cbn; try done. by apply Nat.divide_0_r.
Qed.

Lemma audio_step_ok frames p p' : 0 < frames -> audio_ok frames p -> audio_step p p' -> audio_ok frames p'.
Proof.
  intros Hf Hp Hs. destruct Hs as [pushed samples s|pushed s s' E|pushed s].
  - destruct Hp as [H1 H2 H3 H4 H5 H6]. split; cbn in *; try done.
    + intros Hr. rewrite <- H4 by done. unfold batch_of. cbn. by rewrite !app_assoc.
    + by apply prefix_app_r.
  - unfold feed_step in E. destruct (a_pc s) as [|batch|] eqn:Hpc; [|simplify_eq; by apply write_ok|done].
    destruct (a_running s) eqn:Hr; [by eapply take_ok|]. simplify_eq. destruct Hp as [H1 H2 H3 H4 H5 H6].
    unfold batch_of in *. cbn in *. rewrite Hpc in *. by split; cbn; rewrite ?Hr.
  - destruct Hp as [H1 H2 H3 H4 H5 H6]. by split.
Qed.

(** ** Progress *)

Abbreviation feeds := (rtc (fun s s' => feed_step s = Some s')).

(** The thread writes its whole batch. *)
Lemma batch_written k : forall batch s,
  a_pc s = FeedWrite batch -> a_running s = true -> length batch = (k * block_len s)%nat -> (0 < block_len s)%nat ->
  exists s', feeds s s' /\ a_pc s' = FeedTop /\ a_running s' = true /\ a_queue s' = a_queue s /\ a_frames s' = a_frames s.
Proof.
  induction k as [|k IH]; intros batch s Hpc Hr Hl Hb.
  - destruct batch; [|done]. eexists. split; [apply rtc_once; unfold feed_step; rewrite Hpc; unfold feed_write; by rewrite bool_decide_eq_true_2|].
    done.
  - assert (batch <> []) by (intros ->; cbn in Hl; lia).
    destruct (IH (drop (block_len s) batch) (feed_write batch s)) as (s' & Hs' & R);
      unfold feed_write in *; rewrite (bool_decide_eq_false_2 _ H), Hr in *; cbn [negb andb] in *; try done.
    + rewrite length_drop, Hl. cbn. change (block_len (mkAudioOut _ _ _ _ _ _)) with (block_len s). lia.
    + exists s'. split; [|exact R]. eapply rtc_l; [|exact Hs']. unfold feed_step. rewrite Hpc. unfold feed_write.
      by rewrite (bool_decide_eq_false_2 _ H), Hr.
Qed.

(** From the head of the loop: whole blocks leave the queue. *)
Lemma queue_drained s :
  a_pc s = FeedTop -> a_running s = true -> (0 < block_len s)%nat ->
  exists s', feeds s s' /\ a_pc s' = FeedTop /\ a_running s' = true /\ (length (a_queue s') < block_len s)%nat /\ a_frames s' = a_frames s.
Proof.
  intros Hpc Hr Hb. pose proof (Nat.div_mod_eq (length (a_queue s)) (block_len s)) as Hd.
  pose proof (Nat.mod_upper_bound (length (a_queue s)) (block_len s)) as Hm.
  destruct (feed_take s) as [s1|] eqn:E; unfold feed_take in E; rewrite (proj2 (Nat.eqb_neq _ 0)) in E by lia; [|by repeat case_match].
  set (n := (length (a_queue s) / block_len s * block_len s)%nat) in *.
  assert (length (a_queue s) = n + length (a_queue s) mod block_len s)%nat as Hn by (rewrite Hd at 1; unfold n; lia).
  clear Hd. assert (n <= length (a_queue s))%nat as Hle by lia. assert (feed_step s = Some s1) as E1.
  { unfold feed_step. rewrite Hpc, Hr. unfold feed_take. rewrite (proj2 (Nat.eqb_neq _ 0)) by lia. fold n. exact E. }
  destruct (n =? 0)%nat eqn:E0; simplify_eq.
  - apply Nat.eqb_eq in E0. exists s1. split; [apply rtc_refl|]. split_and!; try done. lia.
  - destruct (batch_written (length (a_queue s) / block_len s) (take n (a_queue s))
      (mkAudioOut (a_frames s) (a_rate s) (drop n (a_queue s)) (a_running s) (FeedWrite (take n (a_queue s))) (a_written s)))
      as (s' & Hs' & H1 & H2 & H3 & H4); [done|done|rewrite length_take; by apply Nat.min_l|done|].
    exists s'. split; [by eapply rtc_l|]. split_and!; try done. rewrite H3. cbn. rewrite length_drop. lia.
Qed.

(** C10. The samples reach the host: whatever the controller pushes, and however
    its calls interleave with the output's thread, the audio library is given
    whole blocks only, which together are the samples pushed so far, in order,
    each once, as far as they were not still waiting; and as long as the output
    is not stopped none is lost, and the thread on its own gets to a state where
    less than a block is waiting. *)
Theorem audio_in_order rate frames s0 pushed s :
  0 < frames -> HostAudioOut_new rate frames true true true = Val s0 -> rtc audio_step ([], s0) (pushed, s) ->
  Forall (fun b => length b = Z.to_nat (frames * 2)) (a_written s) /\ concat (a_written s) `prefix_of` pushed /\
  (a_running s = true ->
   concat (a_written s) ++ batch_of s ++ a_queue s = pushed /\
   exists s', feeds s s' /\ concat (a_written s') ++ a_queue s' = pushed /\ (length (a_queue s') < Z.to_nat (frames * 2))%nat).
Proof.
  intros Hf E Hr.
  assert (forall p p', audio_ok frames p -> rtc audio_step p p' -> audio_ok frames p') as Hinv.
  { intros p p' Hp. induction 1; [done|]. eauto using audio_step_ok. }
  pose proof (Hinv _ _ (new_ok _ _ _ E) Hr) as Hs. destruct (Hs) as [H1 H2 H3 H4 H5 H6]. cbn in *.
  assert (block_len s = Z.to_nat (frames * 2)) as Hbl by (unfold block_len; by rewrite H1).
  assert (0 < block_len s)%nat by (rewrite Hbl; lia).
  split; [by rewrite <- Hbl|]. split; [done|]. intros Hrun. split; [by apply H4|].
  assert (exists s1, feeds s s1 /\ a_pc s1 = FeedTop /\ a_running s1 = true /\ a_frames s1 = a_frames s) as (s1 & F1 & P1 & R1 & G1).
  { destruct (a_pc s) as [|batch|] eqn:Hpc; [by exists s| |by destruct (H6 Hrun)].
    - unfold batch_of in H3. rewrite Hpc in H3. destruct H3 as [k Hk].
      destruct (batch_written k batch s Hpc Hrun Hk) as (s1 & ? & ? & ? & ? & ?); [done|]. eauto. }
  destruct (queue_drained s1 P1 R1) as (s2 & F2 & P2 & R2 & L2 & G2); [unfold block_len in *; by rewrite G1|].
  assert (feeds s s2) as F by (by etrans). exists s2. split; [done|].
  assert (forall a b, feeds a b -> rtc audio_step (pushed, a) (pushed, b)) as Hl.
  { intros a b. induction 1; [done|]. eapply rtc_l; [by constructor|done]. }
  pose proof (Hinv _ _ Hs (Hl _ _ F)) as [_ _ _ H4' _ _]. cbn in H4'. specialize (H4' R2). unfold batch_of in H4'. rewrite P2 in H4'.
  split; [exact H4'|]. rewrite <- Hbl. unfold block_len in *. by rewrite <- G1.
Qed.

(** Blocks of two frames: five samples pushed, four of them written. *)
Definition demo_out : audio_out := mkAudioOut 2 48000 [5] true (FeedWrite []) [[1; 2; 3; 4]].

Lemma demo_out_reached : rtc audio_step ([], mkAudioOut 2 48000 [] true FeedTop []) ([1; 2; 3; 4; 5], demo_out).
Proof.
  eapply rtc_l; [apply (step_push [] [1; 2; 3; 4; 5])|]. do 2 (eapply rtc_l; [by apply step_feed|]). apply rtc_refl.
Qed.

Lemma audio_in_order_witness :
  exists s', feeds demo_out s' /\ concat (a_written s') ++ a_queue s' = [1; 2; 3; 4; 5] /\ (length (a_queue s') < 4)%nat.
Proof.
  destruct (audio_in_order 48000 2 (mkAudioOut 2 48000 [] true FeedTop []) [1; 2; 3; 4; 5] demo_out) as (_ & _ & H);
    [lia|reflexivity|apply demo_out_reached|]. by destruct (H eq_refl).
Defined.
