(* ===== verification/Ac97.v ===== *)
(** * The AC97 audio controller
      (class [AC97Pci] of src/src/peripherals/ac97.hpp and ac97.cpp)

    A PCI device with a configuration space, a codec register file (NAM), bus
    master registers (NABM), and a playback engine that walks a ring of 32
    buffer descriptors in guest memory.  The host's audio output is the list of
    samples pushed to it; the interrupt line counts the calls of the callback.
    In its production mode the engine converts wall-clock time into a credit of
    frames: the whole frames of that credit at a tick are an input of the model. *)
From S2P Require Import Prelude Mctrl.

(** ** State *)

Record ac97 := mkAc97 {
  config_ : list Z; bar_values_ : list Z; probing_bar_ : list bool;
  nam_base_ : Z; nabm_base_ : Z; phys_nam_base_ : Z; phys_nabm_base_ : Z;
  codec_regs_ : list Z; power_ctrl_ : Z; power_status_ : Z;
  bdbar_playback_ : Z; bdbar_capture_ : Z; glob_cnt_ : Z; glob_sta_ : Z;
  pi_control_ : Z; po_control_ : Z; mc_control_ : Z;
  pi_status_ : Z; po_status_ : Z; mc_status_ : Z;
  pi_civ_ : Z; po_civ_ : Z; mc_civ_ : Z; pi_lvi_ : Z; po_lvi_ : Z; mc_lvi_ : Z;
  po_picb_ : Z; po_cur_ptr_ : Z; po_cur_len_ : Z; po_cur_ctl_ : Z;
  po_cur_bd_frame_offset_bytes_ : Z; po_running_ : bool; po_lvbci_halted_ : bool;
  frames_per_tick_dynamic_ : Z; use_wall_clock_ : bool; po_wall_clock_initialized_ : bool;
  host_audio_ : bool; raise_intx_ : bool }.

#[export] Instance eta_ac97 : Eta ac97 := fun a =>
  mkAc97 (config_ a) (bar_values_ a) (probing_bar_ a) (nam_base_ a) (nabm_base_ a)
    (phys_nam_base_ a) (phys_nabm_base_ a) (codec_regs_ a) (power_ctrl_ a) (power_status_ a)
    (bdbar_playback_ a) (bdbar_capture_ a) (glob_cnt_ a) (glob_sta_ a)
    (pi_control_ a) (po_control_ a) (mc_control_ a) (pi_status_ a) (po_status_ a) (mc_status_ a)
    (pi_civ_ a) (po_civ_ a) (mc_civ_ a) (pi_lvi_ a) (po_lvi_ a) (mc_lvi_ a)
    (po_picb_ a) (po_cur_ptr_ a) (po_cur_len_ a) (po_cur_ctl_ a) (po_cur_bd_frame_offset_bytes_ a)
    (po_running_ a) (po_lvbci_halted_ a) (frames_per_tick_dynamic_ a) (use_wall_clock_ a)
    (po_wall_clock_initialized_ a) (host_audio_ a) (raise_intx_ a).
#[export] Instance set_ac_config : Setter config_ := ltac:(derive_setter).
#[export] Instance set_ac_bars : Setter bar_values_ := ltac:(derive_setter).
#[export] Instance set_ac_probing : Setter probing_bar_ := ltac:(derive_setter).
#[export] Instance set_ac_nam : Setter nam_base_ := ltac:(derive_setter).
#[export] Instance set_ac_nabm : Setter nabm_base_ := ltac:(derive_setter).
#[export] Instance set_ac_phys_nam : Setter phys_nam_base_ := ltac:(derive_setter).
#[export] Instance set_ac_phys_nabm : Setter phys_nabm_base_ := ltac:(derive_setter).
#[export] Instance set_ac_codec : Setter codec_regs_ := ltac:(derive_setter).
#[export] Instance set_ac_pctrl : Setter power_ctrl_ := ltac:(derive_setter).
#[export] Instance set_ac_pstatus : Setter power_status_ := ltac:(derive_setter).
#[export] Instance set_ac_bdp : Setter bdbar_playback_ := ltac:(derive_setter).
#[export] Instance set_ac_bdc : Setter bdbar_capture_ := ltac:(derive_setter).
#[export] Instance set_ac_cnt : Setter glob_cnt_ := ltac:(derive_setter).
#[export] Instance set_ac_sta : Setter glob_sta_ := ltac:(derive_setter).
#[export] Instance set_ac_pic : Setter pi_control_ := ltac:(derive_setter).
#[export] Instance set_ac_poc : Setter po_control_ := ltac:(derive_setter).
#[export] Instance set_ac_mcc : Setter mc_control_ := ltac:(derive_setter).
#[export] Instance set_ac_pis : Setter pi_status_ := ltac:(derive_setter).
#[export] Instance set_ac_pos : Setter po_status_ := ltac:(derive_setter).
#[export] Instance set_ac_mcs : Setter mc_status_ := ltac:(derive_setter).
#[export] Instance set_ac_poci : Setter po_civ_ := ltac:(derive_setter).
#[export] Instance set_ac_pilv : Setter pi_lvi_ := ltac:(derive_setter).
#[export] Instance set_ac_polv : Setter po_lvi_ := ltac:(derive_setter).
#[export] Instance set_ac_mclv : Setter mc_lvi_ := ltac:(derive_setter).
#[export] Instance set_ac_picb : Setter po_picb_ := ltac:(derive_setter).
#[export] Instance set_ac_cptr : Setter po_cur_ptr_ := ltac:(derive_setter).
#[export] Instance set_ac_clen : Setter po_cur_len_ := ltac:(derive_setter).
#[export] Instance set_ac_cctl : Setter po_cur_ctl_ := ltac:(derive_setter).
#[export] Instance set_ac_coff : Setter po_cur_bd_frame_offset_bytes_ := ltac:(derive_setter).
#[export] Instance set_ac_run : Setter po_running_ := ltac:(derive_setter).
#[export] Instance set_ac_halt : Setter po_lvbci_halted_ := ltac:(derive_setter).
#[export] Instance set_ac_fpt : Setter frames_per_tick_dynamic_ := ltac:(derive_setter).
#[export] Instance set_ac_wall : Setter use_wall_clock_ := ltac:(derive_setter).
#[export] Instance set_ac_wini : Setter po_wall_clock_initialized_ := ltac:(derive_setter).
#[export] Instance set_ac_intx : Setter raise_intx_ := ltac:(derive_setter).

(** The device with the memory controller it masters, the samples played and
    the number of interrupts raised. *)
Record ac97_sys (W : Type) := mkAcSys {
  ac_dev : ac97; ac_mc : mctrl W; ac_audio : list Z; ac_irqs : nat }.
Arguments mkAcSys {_}.
Arguments ac_dev {_} _.
Arguments ac_mc {_} _.
Arguments ac_audio {_} _.
Arguments ac_irqs {_} _.

(** The windows of the controller are memory too. While the controller accesses
    memory, its own state is where the rest of the system finds it: [self_put]
    takes it there and [self_get] back. [self_intx] is the effect of the callback
    [raise_intx_] on the rest of the system. *)
Class SelfAccess (W : Type) := {
  self_put : ac97 -> W -> W; self_get : W -> ac97 -> ac97; self_intx : M W unit }.

(** A controller whose windows are not in memory, with a callback that does
    nothing but is counted. *)
Definition detached {W} : SelfAccess W := {| self_put _ w := w; self_get _ a := a; self_intx := ret tt |}.

(** ** Constants *)

Definition GS_PR : Z := 0x100.
Definition GS_BUSY : Z := 0x4.
Definition GS_POINT : Z := 0x40.
Definition GS_W1C_MASK : Z := 0xff.
Definition CNT_COLD : Z := 0x2.
Definition CNT_WARM : Z := 0x4.

Definition PI_BASE : Z := 0x00.
Definition PO_BASE : Z := 0x10.
Definition MC_BASE : Z := 0x20.
Definition BD_BAR : Z := 0x00.
Definition CIV : Z := 0x04.
Definition LVI : Z := 0x05.
Definition SR : Z := 0x06.
Definition PICB : Z := 0x08.
Definition CR : Z := 0x0b.
Definition GLOB_CNT : Z := 0x2c.
Definition GLOB_STA : Z := 0x30.
Definition CAS : Z := 0x34.

Definition VALID_NAM_REGS : list Z :=
  [0x00; 0x02; 0x04; 0x06; 0x18; 0x1a; 0x1c; 0x20; 0x26; 0x28; 0x2a; 0x2c; 0x32; 0x7c; 0x7e].
Definition nam_valid (offset : Z) : bool := existsb (Z.eqb offset) VALID_NAM_REGS.

(** [std::byteswap]. *)
Definition byteswap32 (v : Z) : Z := cat4 (byte_at v 0) (byte_at v 8) (byte_at v 16) (byte_at v 24).
Definition byteswap16 (v : Z) : Z := cat2 (byte_at v 0) (byte_at v 8).

(** ** Codec *)

(** [codec_regs_[reg >> 1] = v] for the registers the resets write. *)
Definition put_codec (reg v : Z) (l : list Z) : list Z := <[Z.to_nat (Z.shiftr reg 1) := v]> l.

Definition codec_ready (a : ac97) : ac97 :=
  a <| glob_sta_ := Z.ldiff (Z.lor (glob_sta_ a) GS_PR) GS_BUSY |>.

Definition init_codec_cold (a : ac97) : ac97 :=
  let regs :=
    put_codec 0x20 0x0008 (put_codec 0x1a 0x0808 (put_codec 0x18 0x0808
      (put_codec 0x04 0 (put_codec 0x02 0 (put_codec 0x32 48000 (put_codec 0x2c 48000
        (put_codec 0x2a 0x0003 (put_codec 0x28 0x0003 (put_codec 0x26 0x000f
          (put_codec 0x7e 0x5348 (put_codec 0x7c 0x4144 (replicate 64 0)))))))))))) in
  codec_ready (a <| codec_regs_ := regs |>) <| power_status_ := 0x000f |>.

Definition init_codec_warm (a : ac97) : ac97 :=
  codec_ready (a <| codec_regs_ := put_codec 0x1a 0x0808 (put_codec 0x18 0x0808
                      (put_codec 0x04 0 (put_codec 0x02 0 (codec_regs_ a)))) |>).

Definition codec_command_begin (a : ac97) : ac97 := a <| glob_sta_ := Z.lor (glob_sta_ a) GS_BUSY |>.
Definition codec_command_complete (a : ac97) : ac97 := a <| glob_sta_ := Z.ldiff (glob_sta_ a) GS_BUSY |>.

(** The value, or undefined behaviour for an index outside [codec_regs_]. *)
Definition read_nam (offset : Z) (a : ac97) : option Z * ac97 :=
  if 0x80 <=? offset then (Some 0xffff, a)
  else
    let a := codec_command_begin a in
    if negb (nam_valid offset) then (Some 0xffff, codec_command_complete a)
    else
      let val := if offset =? 0x00 then Some 0x0a00
                 else if offset =? 0x26 then Some (power_status_ a)
                 else array_get (codec_regs_ a) (Z.shiftr offset 1) in
      (val, codec_command_complete a).

Definition handle_0x26_power (value : Z) (a : ac97) : ac97 :=
  a <| power_ctrl_ := value |>
    <| power_status_ := if value =? 0 then 0x000f else Z.ldiff 0x000f value |>.

Definition handle_0x2A_ext_audio_status (value : Z) (a : ac97) : option ac97 :=
  (eaid ← array_get (codec_regs_ a) (Z.shiftr 0x28 1);
   regs ← array_set (codec_regs_ a) (Z.shiftr 0x2a 1)
            (Z.lor (Z.land eaid 0xfffe) (Z.land value 0x0001));
   Some (a <| codec_regs_ := regs |>))%stdpp.

Definition mask_volume_reg (value : Z) : Z :=
  Z.lor (Z.lor (Z.land value 0x8000) (Z.land value 0x1f00)) (Z.land value 0x001f).

Definition put_reg (offset value : Z) (a : ac97) : option ac97 :=
  (regs ← array_set (codec_regs_ a) (Z.shiftr offset 1) value;
   Some (a <| codec_regs_ := regs |>))%stdpp.

Definition write_nam (offset value : Z) (a : ac97) : option ac97 :=
  if 0x80 <=? offset then Some a
  else
    let a := codec_command_begin a in
    if negb (nam_valid offset) then Some (codec_command_complete a)
    else
      (a ← (if offset =? 0x00 then Some (init_codec_warm a)
            else if offset =? 0x26 then Some (handle_0x26_power value a)
            else if offset =? 0x28 then Some a
            else if offset =? 0x2a then handle_0x2A_ext_audio_status value a
            else if existsb (Z.eqb offset) [0x02; 0x04; 0x18; 0x1a]
            then put_reg offset (mask_volume_reg value) a
            else put_reg offset value a);
       Some (codec_command_complete a))%stdpp.

(** ** Configuration space *)

Definition cfg_read16 (off : Z) (a : ac97) : option Z :=
  (b0 ← array_get (config_ a) off; b1 ← array_get (config_ a) (off + 1);
   Some (Z.lor b0 (Z.shiftl b1 8)))%stdpp.

Definition cfg_write16 (off v : Z) (a : ac97) : option ac97 :=
  (c ← array_set (config_ a) off (byte_at v 0); c ← array_set c (off + 1) (byte_at v 8);
   Some (a <| config_ := c |>))%stdpp.

(** [BAR0] and [BAR1]: the index of the base address register at an offset. *)
Definition bar_index (off : Z) : option nat :=
  if off =? 0x10 then Some 0%nat else if off =? 0x14 then Some 1%nat else None.

Definition set_bar_base (idx : nat) (v : Z) (a : ac97) : ac97 :=
  match idx with O => a <| nam_base_ := v |> | _ => a <| nabm_base_ := v |> end.

Definition cfg_read32 (off : Z) (a : ac97) : option Z :=
  match bar_index off with
  | Some i =>
      (p ← probing_bar_ a !! i; v ← bar_values_ a !! i;
       Some (if p : bool then 0xffffff00 else v))%stdpp
  | None =>
      (b0 ← array_get (config_ a) off; b1 ← array_get (config_ a) (off + 1);
       b2 ← array_get (config_ a) (off + 2); b3 ← array_get (config_ a) (off + 3);
       Some (Z.lor (Z.lor (Z.lor b0 (Z.shiftl b1 8)) (Z.shiftl b2 16)) (Z.shiftl b3 24)))%stdpp
  end.

Definition cfg_write32 (off v : Z) (a : ac97) : option ac97 :=
  match bar_index off with
  | Some i =>
      let probe p a := a <| probing_bar_ := <[i := p]> (probing_bar_ a) |> in
      if v =? 0xffffffff then Some (probe true a)
      else
        let base := Z.land v 0xfffffff0 in
        Some (set_bar_base i base (probe false a <| bar_values_ := <[i := base]> (bar_values_ a) |>))
  | None =>
      (c ← array_set (config_ a) off (byte_at v 0); c ← array_set c (off + 1) (byte_at v 8);
       c ← array_set c (off + 2) (byte_at v 16); c ← array_set c (off + 3) (byte_at v 24);
       Some (a <| config_ := c |>))%stdpp
  end.

Definition cfg_read8 (off : Z) (a : ac97) : option Z := array_get (config_ a) off.
Definition cfg_write8 (off v : Z) (a : ac97) : option ac97 :=
  (c ← array_set (config_ a) off v; Some (a <| config_ := c |>))%stdpp.

Definition put_config (off v : Z) (a : ac97) : ac97 := a <| config_ := <[Z.to_nat off := v]> (config_ a) |>.

(** The device as constructed. *)
Definition ac97_zero (audio : bool) : ac97 :=
  mkAc97 (replicate 256 0) (replicate 6 0) (replicate 6 false) 0 0 0 0 (replicate 64 0) 0 0
    0 0 0 GS_PR 0 0 0 0 0 0 0 0 0 0 0 0 0 0 0 0 0 false false 48 true false audio false.

Definition init_pci_config (a : ac97) : option ac97 :=
  (a ← cfg_write16 0x00 0x8086 a;
   a ← cfg_write16 0x02 0x2415 a;
   let a := put_config 0x0e 0x00 (put_config 0x0b 0x04 (put_config 0x0a 0x01
              (put_config 0x09 0x00 (put_config 0x08 0x01 a)))) in
   s ← cfg_read16 0x06 a;
   a ← cfg_write16 0x06 (Z.ldiff s 0x10) a;
   a ← cfg_write32 0x2c 0x0000000c a;
   a ← cfg_write32 0x30 0x00000000 a;
   let a := put_config 0x34 0x50 (put_config 0x3c 0xff (put_config 0x3d 0x01 a)) in
   Some (init_codec_cold a <| po_status_ := 0 |>))%stdpp.

Definition set_phys_bases (nam_phys nabm_phys : Z) (a : ac97) : ac97 :=
  a <| phys_nam_base_ := nam_phys |> <| phys_nabm_base_ := nabm_phys |>.
Definition force_frames_per_tick (val : Z) (a : ac97) : ac97 :=
  a <| frames_per_tick_dynamic_ := val |> <| use_wall_clock_ := false |>.

(** [set_intx_cb] with a callable argument. *)
Definition set_intx_cb (a : ac97) : ac97 := a <| raise_intx_ := true |>.

(** [inta_asserted]. *)
Definition ac97_inta (a : ac97) : bool :=
  truth (Z.land (po_status_ a) 0x0c) && truth (Z.land (po_control_ a) 0x10).

(** ** Resets *)

Definition cold_reset (a : ac97) : ac97 :=
  init_codec_cold a
    <| po_running_ := false |> <| po_lvbci_halted_ := false |> <| po_civ_ := 0 |>
    <| po_cur_ptr_ := 0 |> <| po_cur_len_ := 0 |> <| po_cur_ctl_ := 0 |>
    <| po_cur_bd_frame_offset_bytes_ := 0 |> <| po_picb_ := 0 |>
    <| po_wall_clock_initialized_ := false |>
    <| bdbar_playback_ := 0 |> <| bdbar_capture_ := 0 |>
    <| po_status_ := 0x0001 |> <| po_control_ := 0 |>
    <| glob_sta_ := GS_PR |> <| glob_cnt_ := Z.shiftl 1 18 |>.

Definition warm_reset (a : ac97) : ac97 :=
  codec_ready (init_codec_warm a <| po_status_ := 0 |> <| mc_status_ := 0 |>).

(** [RESETREGS] of the playback channel. *)
Definition po_reset_regs (a : ac97) : ac97 :=
  a <| po_running_ := false |> <| po_lvbci_halted_ := false |> <| po_civ_ := 0 |>
    <| po_cur_ptr_ := 0 |> <| po_cur_len_ := 0 |> <| po_cur_ctl_ := 0 |> <| po_picb_ := 0 |>
    <| po_cur_bd_frame_offset_bytes_ := 0 |> <| po_wall_clock_initialized_ := false |>
    <| po_status_ := 0x01 |>.

(** ** Bus master registers *)

Definition glob_sta_readable : Z := 0x81e7.
Definition read_glob_sta (a : ac97) : Z * ac97 :=
  let v := Z.land (glob_sta_ a) glob_sta_readable in
  (v, if truth (Z.land v 0x8000) then a <| glob_sta_ := Z.ldiff (glob_sta_ a) 0x8000 |> else a).

#[local] Open Scope M_scope.

Section ac97_ops.
Context {W : Type} `{DeviceBus W} `{SelfAccess W}.
Abbreviation MA := (M (ac97_sys W)).

Definition dev {A} (f : ac97 -> A) : MA A := gets (fun s => f (ac_dev s)).
Definition upd (f : ac97 -> ac97) : MA unit :=
  modify (fun s => mkAcSys (f (ac_dev s)) (ac_mc s) (ac_audio s) (ac_irqs s)).
Definition upd_opt (f : ac97 -> option ac97) : MA unit :=
  a ← gets ac_dev; a ← or_ub (f a); upd (fun _ => a).
Definition on_memory {A} (m : M (mctrl W) A) : MA A := fun s =>
  let '(r, c) := m (ac_mc s <| world := self_put (ac_dev s) (world (ac_mc s)) |>) in
  (r, mkAcSys (self_get (world c) (ac_dev s)) c (ac_audio s) (ac_irqs s)).

(** [if (raise_intx_) raise_intx_()]. *)
Definition intx : MA unit :=
  r ← dev raise_intx_;
  when r
    (modify (fun s => mkAcSys (ac_dev s) (ac_mc s) (ac_audio s) (S (ac_irqs s))) ;;
     on_memory (on_device self_intx)).

Definition mem_read32 (addr : Z) : MA Z :=
  v ← on_memory (mc_read32 addr true); ret (byteswap32 v).
Definition mem_read16 (addr : Z) : MA Z :=
  v ← on_memory (mc_read16 addr true); ret (byteswap16 v).

(** The three loads of a buffer descriptor: pointer, length in samples,
    control. *)
Definition read_bd : MA (Z * Z * Z) :=
  bd_addr ← dev (fun a => u32 (bdbar_playback_ a + po_civ_ a * 8));
  ptr ← mem_read32 bd_addr;
  len ← mem_read16 (u32 (bd_addr + 4));
  ctl ← mem_read16 (u32 (bd_addr + 6));
  ret (ptr, len, ctl).

(** The current descriptor loaded. *)
Definition load_bd (bd : Z * Z * Z) (a : ac97) : ac97 :=
  let '(ptr, len, ctl) := bd in
  a <| po_cur_ptr_ := ptr |> <| po_cur_len_ := len |> <| po_cur_ctl_ := ctl |>
    <| po_cur_bd_frame_offset_bytes_ := 0 |> <| po_picb_ := len / 2 |>.

Definition bd_empty (bd : Z * Z * Z) : bool := let '(ptr, len, _) := bd in (ptr =? 0) || (len =? 0).

(** [DCH = 1, CIP = 0]. *)
Definition halted (a : ac97) : ac97 := a <| po_status_ := Z.lor (Z.ldiff (po_status_ a) 0x02) 0x01 |>.

Definition read_nabm (offset width : Z) : MA Z :=
  if width =? 1 then
    if (offset =? PO_BASE + SR) || (offset =? PO_BASE + SR + 1) then
      dev (fun a => Z.land (Z.shiftr (po_status_ a) (Z.land offset 1 * 8)) 0xff)
    else if (offset =? PI_BASE + SR) || (offset =? PI_BASE + SR + 1) then
      dev (fun a => if Z.land offset 1 =? 0 then Z.land (pi_status_ a) 0x1f else 0)
    else if (offset =? MC_BASE + SR) || (offset =? MC_BASE + SR + 1) then
      dev (fun a => if Z.land offset 1 =? 0 then Z.land (mc_status_ a) 0x1f else 0)
    else if offset =? PI_BASE + CR then dev pi_control_
    else if offset =? PO_BASE + CR then dev (fun a => Z.land (po_control_ a) 0x1d)
    else if offset =? MC_BASE + CR then dev mc_control_
    else if offset =? PI_BASE + CIV then dev pi_civ_
    else if offset =? PO_BASE + CIV then dev po_civ_
    else if offset =? MC_BASE + CIV then dev mc_civ_
    else if offset =? PI_BASE + LVI then dev pi_lvi_
    else if offset =? PO_BASE + LVI then dev po_lvi_
    else if offset =? MC_BASE + LVI then dev mc_lvi_
    else if offset =? CAS then ret 0
    else throw (runtime_error "[AC97 NABM] read8 not valid for register ")
  else if width =? 2 then
    if offset =? PO_BASE + SR then dev po_status_
    else if offset =? PI_BASE + SR then dev pi_status_
    else if offset =? MC_BASE + SR then dev mc_status_
    else if offset =? PO_BASE + PICB then dev (fun a => po_picb_ a * 2)
    else if (offset =? PI_BASE + PICB) || (offset =? MC_BASE + PICB) then ret 0
    else throw (runtime_error "[AC97 NABM] read16 not valid for register ")
  else
    if offset =? PO_BASE + BD_BAR then dev bdbar_playback_
    else if offset =? PI_BASE + BD_BAR then dev bdbar_capture_
    else if offset =? MC_BASE + BD_BAR then ret 0
    else if offset =? GLOB_CNT then dev glob_cnt_
    else if offset =? GLOB_STA then
      r ← dev read_glob_sta; upd (fun _ => r.2) ;; ret r.1
    else throw (runtime_error "[AC97 NABM] read32 not valid for register ").

(** The write of [PO_BASE + CR]. *)
Definition write_po_cr (value : Z) : MA unit :=
  let ctl := Z.land value 0x1f in
  upd (fun a => a <| po_control_ := Z.ldiff ctl 0x02 |>) ;;
  if truth (Z.land ctl 0x02) then upd po_reset_regs
  else if negb (truth (Z.land ctl 0x01)) then
    upd (fun a => a <| po_running_ := false |> <| po_lvbci_halted_ := false |>
                    <| po_status_ := Z.lor (Z.ldiff (po_status_ a) 0x0c) 0x01 |>)
  else
    let refuse := upd (fun a => a <| po_running_ := false |>
                                  <| po_status_ := Z.lor (po_status_ a) 0x01 |>) in
    running ← dev po_running_;
    if running : bool then ret tt
    else
      bar ← dev bdbar_playback_;
      bank ← (if bar =? 0 then ret None else on_memory (find_bank_or_null bar));
      match bank with
      | None => refuse
      | Some _ =>
          bd ← read_bd;
          if bd_empty bd then refuse
          else
            upd (fun a => load_bd bd
              (a <| po_running_ := true |> <| po_wall_clock_initialized_ := false |>
                 <| po_status_ := Z.ldiff (po_status_ a) 0x01 |>))
      end.

(** The write of [PO_BASE + LVI], with the resume of a channel that stopped
    after its last valid buffer. *)
Definition write_po_lvi (value : Z) (a : ac97) : ac97 :=
  let a := a <| po_lvi_ := Z.land value 0x1f |> in
  if negb (po_running_ a) && po_lvbci_halted_ a
     && negb (po_lvi_ a =? Z.land (po_civ_ a - 1 + 32) 0x1f)
  then a <| po_running_ := true |> <| po_lvbci_halted_ := false |>
         <| po_wall_clock_initialized_ := false |>
         <| po_status_ := Z.lor (Z.ldiff (po_status_ a) 0x01) 0x02 |>
  else a.

(** The write of [GLOB_CNT]: a reset on the rising edge of its bit. *)
Definition write_glob_cnt (value : Z) (a : ac97) : ac97 :=
  let rises bit := negb (truth (Z.land (glob_cnt_ a) bit)) && truth (Z.land value bit) in
  let cold := rises CNT_COLD in
  let warm := rises CNT_WARM in
  let a := a <| glob_cnt_ := value |> in
  let a := if cold then let a := cold_reset a in a <| glob_cnt_ := Z.ldiff (glob_cnt_ a) CNT_COLD |> else a in
  if warm then let a := warm_reset a in a <| glob_cnt_ := Z.ldiff (glob_cnt_ a) CNT_WARM |> else a.

Definition write_nabm (offset value width : Z) : MA unit :=
  if width =? 1 then
    let value := Z.land value 0xff in
    (* [PI_SR] and [MC_SR]: the low byte replaces the register before bits 4-2 are cleared *)
    let sr := Z.ldiff (Z.land value 0x1f) (Z.land value 0x1c) in
    if offset =? PO_BASE + SR then
      upd (fun a => a <| po_status_ := Z.ldiff (po_status_ a) (Z.land value 0x1e) |>)
    else if offset =? PO_BASE + SR + 1 then ret tt
    else if offset =? PI_BASE + SR then upd (fun a => a <| pi_status_ := sr |>)
    else if offset =? PI_BASE + SR + 1 then ret tt
    else if offset =? MC_BASE + SR then upd (fun a => a <| mc_status_ := sr |>)
    else if offset =? MC_BASE + SR + 1 then ret tt
    else if offset =? PI_BASE + CR then
      upd (fun a => a <| pi_control_ := Z.ldiff (Z.land value 0x1f) 0x02 |>)
    else if offset =? PO_BASE + CR then write_po_cr value
    else if offset =? MC_BASE + CR then
      upd (fun a => a <| mc_control_ := Z.ldiff (Z.land value 0x1f) 0x02 |>)
    else if (offset =? PO_BASE + CIV) || (offset =? PI_BASE + CIV) || (offset =? MC_BASE + CIV) then ret tt
    else if offset =? PI_BASE + LVI then upd (fun a => a <| pi_lvi_ := Z.land value 0x1f |>)
    else if offset =? PO_BASE + LVI then upd (write_po_lvi value)
    else if offset =? MC_BASE + LVI then upd (fun a => a <| mc_lvi_ := Z.land value 0x1f |>)
    else throw (runtime_error "[AC97 NABM] Write not valid for register ")
  else if width =? 2 then
    let value := Z.land value 0xffff in
    if offset =? PO_BASE + SR then
      upd (fun a => a <| po_status_ := Z.ldiff (po_status_ a) (Z.land value 0x1e) |>)
    else ret tt
  else
    if offset =? PO_BASE + BD_BAR then upd (fun a => a <| bdbar_playback_ := value |>)
    else if offset =? PI_BASE + BD_BAR then upd (fun a => a <| bdbar_capture_ := value |>)
    else if offset =? MC_BASE + BD_BAR then ret tt
    else if offset =? GLOB_CNT then upd (write_glob_cnt value)
    else if offset =? GLOB_STA then
      upd (fun a => a <| glob_sta_ := Z.ldiff (glob_sta_ a) (Z.land value GS_W1C_MASK) |>)
    else throw (runtime_error "[AC97 NABM] Read16 not valid for register ").

(** ** The I/O windows *)

Definition eff_nam (a : ac97) : Z := if truth (phys_nam_base_ a) then phys_nam_base_ a else nam_base_ a.
Definition eff_nabm (a : ac97) : Z := if truth (phys_nabm_base_ a) then phys_nabm_base_ a else nabm_base_ a.
Definition in_io_window (base addr : Z) : bool := (base <=? addr) && (addr <? u32 (base + 0x100)).

(** Dispatch of an access: to the codec, to the bus master registers, or to
    neither, with the offset in the window. *)
Definition io_dispatch {A} (addr : Z) (nam nabm : Z -> MA A) (none : MA A) : MA A :=
  a ← gets ac_dev;
  if in_io_window (eff_nam a) addr then nam (Z.land (addr - eff_nam a) 0xff)
  else if in_io_window (eff_nabm a) addr then nabm (Z.land (addr - eff_nabm a) 0xff)
  else none.

Definition m_read_nam (off : Z) : MA Z :=
  r ← dev (read_nam off); upd (fun _ => r.2) ;; or_ub r.1.

Definition io_read32 (addr : Z) : MA Z :=
  io_dispatch addr (fun off => v ← m_read_nam off; ret (Z.lor 0xffff0000 v))
    (fun off => read_nabm off 4) (ret 0xffffffff).
Definition io_read16 (addr : Z) : MA Z :=
  io_dispatch addr m_read_nam (fun off => v ← read_nabm off 2; ret (u16 v)) (ret 0xffff).
(** The byte accesses do not see the codec window. *)
Definition io_read8 (addr : Z) : MA Z :=
  b ← dev eff_nabm;
  if in_io_window b addr then v ← read_nabm (Z.land (addr - b) 0xff) 1; ret (u8 v) else ret 0xff.

Definition io_write32 (addr v : Z) : MA unit :=
  io_dispatch addr (fun off => upd_opt (write_nam off (u16 v))) (fun off => write_nabm off v 4) (ret tt).
Definition io_write16 (addr v : Z) : MA unit :=
  io_dispatch addr (fun off => upd_opt (write_nam off v)) (fun off => write_nabm off v 2) (ret tt).
Definition io_write8 (addr v : Z) : MA unit :=
  b ← dev eff_nabm;
  if in_io_window b addr then write_nabm (Z.land (addr - b) 0xff) v 1 else ret tt.

(** [PCIMMIOBank]: the windows as a little-endian memory bank. *)
Definition mmio_read32 (addr : Z) : MA Z := v ← io_read32 addr; ret (byteswap32 v).
Definition mmio_read16 (addr : Z) : MA Z := v ← io_read16 addr; ret (byteswap16 v).
Definition mmio_write32 (addr v : Z) : MA unit := io_write32 addr (byteswap32 v).
Definition mmio_write16 (addr v : Z) : MA unit := io_write16 addr (byteswap16 v).

(** ** The playback engine *)

(** [(int16_t)x]. *)
Definition s16 (x : Z) : Z := if x <? 32768 then x else x - 65536.

Fixpoint read_samples (n : nat) (ptr : Z) : MA (list Z) :=
  match n with
  | O => ret []
  | S n => v ← mem_read16 (u32 ptr); r ← read_samples n (ptr + 2); ret (s16 v :: r)
  end.

Definition pushSamples (l : list Z) : MA unit :=
  h ← dev host_audio_;
  when h (modify (fun s => mkAcSys (ac_dev s) (ac_mc s) (ac_audio s ++ l) (ac_irqs s))).

(** The interrupt at the end of a buffer. *)
Definition raise_point : MA unit :=
  i ← dev ac97_inta;
  when i (upd (fun a => a <| glob_sta_ := Z.lor (glob_sta_ a) GS_POINT |>) ;; intx).

(** Step 5 of [tick]: the current buffer is finished. *)
Definition bd_complete : MA unit :=
  upd (fun a => a <| po_status_ := if truth (Z.land (po_cur_ctl_ a) 0x8000)
                                   then Z.lor (po_status_ a) 0x08 else po_status_ a |>
                  <| po_civ_ := Z.land (po_civ_ a + 1) 0x1f |>) ;;
  a ← gets ac_dev;
  if po_civ_ a =? Z.land (po_lvi_ a + 1) 0x1f then
    upd (fun a => halted (a <| po_status_ := Z.lor (po_status_ a) 0x04 |>)
                    <| po_running_ := false |> <| po_lvbci_halted_ := true |> <| po_cur_len_ := 0 |>) ;;
    raise_point
  else
    raise_point ;;
    bd ← read_bd;
    if bd_empty bd then upd (fun a => halted (a <| po_running_ := false |> <| po_cur_len_ := 0 |>))
    else upd (load_bd bd).

(** Steps 3 to 5 with the number of frames decided. *)
Definition play (todo : Z) : MA unit :=
  ptr ← dev (fun a => po_cur_ptr_ a + po_cur_bd_frame_offset_bytes_ a);
  samples ← read_samples (Z.to_nat (todo * 2)) ptr;
  pushSamples samples ;;
  upd (fun a => a <| po_cur_bd_frame_offset_bytes_ := u32 (po_cur_bd_frame_offset_bytes_ a + todo * 4) |>
                  <| po_picb_ := u16 (po_picb_ a - todo) |>) ;;
  picb ← dev po_picb_;
  if 0 <? picb then ret tt else bd_complete.

(** [tick]; [credit] is the number of whole frames of the wall-clock credit,
    at most 4096, in production mode. *)
Definition ac97_tick (credit : Z) : MA unit :=
  a ← gets ac_dev;
  if negb (po_running_ a) || (bdbar_playback_ a =? 0) then ret tt
  else
    go ← (if po_cur_len_ a =? 0 then
            bd ← read_bd;
            if bd_empty bd then upd (fun a => halted (a <| po_running_ := false |>)) ;; ret false
            else upd (load_bd bd) ;; ret true
          else ret true);
    if negb go then ret tt
    else
      a ← gets ac_dev;
      if use_wall_clock_ a then
        if negb (po_wall_clock_initialized_ a) then upd (fun a => a <| po_wall_clock_initialized_ := true |>)
        else
          let todo := Z.min credit (po_picb_ a) in
          if todo =? 0 then ret tt else play todo
      else play (Z.min (frames_per_tick_dynamic_ a) (po_picb_ a)).

(** [GRPCI2::maybe_tick_device]: one tick per elapsed millisecond, with the
    credit each of them finds. *)
Definition maybe_tick_device (credits : list Z) : MA unit := for_each credits ac97_tick.
End ac97_ops.
