(* ===== verification/Ac97Proofs.v ===== *)
(** * Correctness of the AC97 audio controller

    The invariant of the device over every guest access and tick; the playback
    engine plays exactly the samples of the buffer ring, in order, and stops
    after the last valid buffer; base address registers, the configuration
    space and the codec registers return what was stored. *)
From S2P Require Import Prelude Mctrl Words Ac97.

(** A channel that does not run makes no access to memory. *)
Section stopped.
Context {W : Type} `{DeviceBus W} `{SelfAccess W}.
Implicit Types s : ac97_sys W.

Lemma tick_stopped s credit : po_running_ (ac_dev s) = false -> ac97_tick credit s = (Val tt, s).
Proof. intros Hr. unfold ac97_tick. mstep. by rewrite Hr. Qed.

Lemma ticks_stopped credits s : po_running_ (ac_dev s) = false -> maybe_tick_device credits s = (Val tt, s).
Proof.
  intros Hr. induction credits as [|c l IH]; [done|]. unfold maybe_tick_device. cbn [for_each].
  by rewrite (bindM_val _ _ _ _ _ (tick_stopped s c Hr)).
Qed.
End stopped.

(** The theorems that follow are about the device by itself. *)
#[local] Existing Instance detached.

Lemma on_memory_detached {W A} (m : M (mctrl W) A) (s : ac97_sys W) :
  on_memory m s = zoom ac_mc (fun c s => mkAcSys (ac_dev s) c (ac_audio s) (ac_irqs s)) m s.
Proof. unfold on_memory, zoom. cbn. by destruct s as [a [] l n]. Qed.

(** ** Guest memory as the device sees it *)

(** The little-endian values of a buffer. *)
Definition le16 (d : bytes) (p : Z) : Z := default 0 (peek16_le d p).
Definition le32 (d : bytes) (p : Z) : Z := default 0 (peek32_le d p).

Lemma byteswap16_cat b0 b1 : is_u8 b0 -> is_u8 b1 -> byteswap16 (cat2 b0 b1) = cat2 b1 b0.
Proof.
  intros H0 H1. unfold byteswap16. rewrite (cat2_sum b0 b1), !byte_at_mod by (done || lia).
  change (2 ^ 0) with 1. change (2 ^ 8) with 256. unfold is_u8 in *.
  f_equal; Z.div_mod_to_equations; lia.
Qed.

Lemma byteswap32_cat b0 b1 b2 b3 :
  is_u8 b0 -> is_u8 b1 -> is_u8 b2 -> is_u8 b3 -> byteswap32 (cat4 b0 b1 b2 b3) = cat4 b3 b2 b1 b0.
Proof.
  intros H0 H1 H2 H3. unfold byteswap32. rewrite (cat4_sum b0 b1 b2 b3), !byte_at_mod by (done || lia).
  change (2 ^ 0) with 1. change (2 ^ 8) with 256. change (2 ^ 16) with 65536. change (2 ^ 24) with 16777216.
  unfold is_u8 in *. f_equal; Z.div_mod_to_equations; lia.
Qed.

Lemma le16_read d p :
  bytes_ok d -> 0 <= p -> p + 2 <= b_len d ->
  exists v, peek16_be d p = Some v /\ byteswap16 v = le16 d p /\ is_u16 (le16 d p).
Proof.
  intros Hd H0 H1. unfold le16, peek16_le, peek16_be.
  destruct (bytes_get_in d p) as [b0 E0]; [lia|]. destruct (bytes_get_in d (p + 1)) as [b1 E1]; [lia|].
  pose proof (bytes_get_ok _ _ _ Hd E0). pose proof (bytes_get_ok _ _ _ Hd E1).
  rewrite E0, E1. cbn. eexists. split; [done|]. rewrite byteswap16_cat by done. split; [done|].
  rewrite cat2_sum by done. unfold is_u8, is_u16 in *. lia.
Qed.

Lemma le32_read d p :
  bytes_ok d -> 0 <= p -> p + 4 <= b_len d ->
  exists v, peek32_be d p = Some v /\ byteswap32 v = le32 d p /\ is_u32 (le32 d p).
Proof.
  intros Hd H0 H1. unfold le32, peek32_le, peek32_be.
  destruct (bytes_get_in d p) as [b0 E0]; [lia|]. destruct (bytes_get_in d (p + 1)) as [b1 E1]; [lia|].
  destruct (bytes_get_in d (p + 2)) as [b2 E2]; [lia|]. destruct (bytes_get_in d (p + 3)) as [b3 E3]; [lia|].
  pose proof (bytes_get_ok _ _ _ Hd E0). pose proof (bytes_get_ok _ _ _ Hd E1).
  pose proof (bytes_get_ok _ _ _ Hd E2). pose proof (bytes_get_ok _ _ _ Hd E3).
  rewrite E0, E1, E2, E3. cbn. eexists. split; [done|]. rewrite byteswap32_cat by done. split; [done|].
  rewrite cat4_sum by done. unfold is_u8, is_u32 in *. lia.
Qed.

Section playback.
Context {W : Type} `{DeviceBus W} (i : nat) (base : Z) (d : bytes).
Implicit Types s : ac97_sys W.

(** Bank [i] of the controller is a big-endian RAM with the bytes [d]. *)
Record ac_ram s : Prop := {
  ar_mc : mc_ok (ac_mc s);
  ar_bytes : bytes_ok d;
  ar_bank : banks (ac_mc s) !! i = Some (RamBank base Big d) }.

(** The state with another bank cache, device, output and interrupt count. *)
Definition with_cache s c : ac97_sys W := mkAcSys (ac_dev s) (ac_mc s <| tl_cache := c |>) (ac_audio s) (ac_irqs s).

Lemma ac_ram_range s : ac_ram s -> 0 <= base /\ base + b_len d <= 4294967296.
Proof.
  intros [Hm _ Hb]. destruct (ram_wf _ _ _ _ _ Hm Hb). lia.
Qed.

Lemma ac_read_hit s a :
  ac_ram s -> base <= a < base + b_len d ->
  exists c, bank_or_throw a (ac_mc s) = (Val i, ac_mc s <| tl_cache := c |>) /\ ac_ram (with_cache s c).
Proof.
  intros Hr Ha. pose proof (ac_ram_range s Hr). destruct Hr as [Hm Hd Hb].
  destruct (bank_or_throw_hit (ac_mc s) i (RamBank base Big d) a Hm) as (c & E & Hok);
    [unfold is_u32; lia|done|unfold holds; cbn; lia|]. exists c. split; [done|]. by split.
Qed.

Lemma mem_read16_ram s a :
  ac_ram s -> base <= a -> a + 2 <= base + b_len d ->
  exists c, mem_read16 a s = (Val (le16 d (a - base)), with_cache s c) /\ ac_ram (with_cache s c).
Proof.
  intros Hr Hlo Hhi. pose proof (ac_ram_range s Hr). destruct (ac_read_hit s a Hr) as (c & E & Hr'); [lia|].
  exists c. split; [|done].
  destruct (le16_read d (a - base)) as (v & Ev & Es & _); [apply Hr|lia..|].
  assert (u32 (a - base) = a - base) as Eo by (apply u32_id; unfold is_u32; lia).
  unfold mem_read16. rewrite (bindM_val _ _ _ v (with_cache s c)); [by rewrite Es|].
  rewrite on_memory_detached. unfold zoom, mc_read16. rewrite (bindM_val _ _ _ _ _ E). unfold bank_read16, bank_at.
  rewrite (bindM_val _ _ _ (RamBank base Big d) (ac_mc s <| tl_cache := c |>)) by
    (change (banks (ac_mc s <| tl_cache := c |>)) with (banks (ac_mc s)); by rewrite (ar_bank _ Hr)).
  cbn. unfold read16_be. by rewrite Eo, Ev.
Qed.

Lemma mem_read32_ram s a :
  ac_ram s -> base <= a -> a + 4 <= base + b_len d ->
  exists c, mem_read32 a s = (Val (le32 d (a - base)), with_cache s c) /\ ac_ram (with_cache s c).
Proof.
  intros Hr Hlo Hhi. pose proof (ac_ram_range s Hr). destruct Hr as [Hm Hd Hb].
  destruct (le32_read d (a - base)) as (v & Ev & Es & _); [done|lia..|].
  destruct (mc_read32_ram (ac_mc s) i base Big d a true v Hm Hb Hlo Hhi Ev) as (c & E & Hok).
  exists c. split; [|by split]. unfold mem_read32.
  rewrite (bindM_val _ _ _ v (with_cache s c)); [by rewrite Es|]. rewrite on_memory_detached. unfold zoom. by rewrite E.
Qed.

(** ** The samples of a buffer and of the ring *)

(** [n] little-endian 16-bit samples from physical address [ptr] on. *)
Definition pcm (ptr : Z) (n : nat) : list Z :=
  map (fun k => s16 (le16 d (ptr + 2 * Z.of_nat k - base))) (seq 0 n).

Lemma pcm_app ptr n m : pcm ptr (n + m) = pcm ptr n ++ pcm (ptr + 2 * Z.of_nat n) m.
Proof.
  unfold pcm. rewrite seq_app, map_app. f_equal. apply list_eq. intros k.
  rewrite !list_lookup_fmap. destruct (decide (k < m)%nat).
  - rewrite !lookup_seq_lt by done. cbn. do 3 f_equal. lia.
  - by rewrite !lookup_seq_ge by lia.
Qed.

Lemma pcm_S ptr n : pcm ptr (S n) = s16 (le16 d (ptr - base)) :: pcm (ptr + 2) n.
Proof. change (S n) with (1 + n)%nat. rewrite pcm_app. cbn. do 3 f_equal. lia. Qed.

Lemma length_pcm ptr n : length (pcm ptr n) = n.
Proof. unfold pcm. by rewrite length_map, length_seq. Qed.

(** The descriptor [c] of the ring at [bar], and the frames of its buffer. *)
Definition bd_ptr (bar c : Z) : Z := le32 d (bar + c * 8 - base).
Definition bd_len (bar c : Z) : Z := le16 d (bar + c * 8 + 4 - base).
Definition bd_ctl (bar c : Z) : Z := le16 d (bar + c * 8 + 6 - base).
Definition bd_frames (bar c : Z) : Z := bd_len bar c / 2.
Definition buffer (bar c : Z) : list Z := pcm (bd_ptr bar c) (Z.to_nat (2 * bd_frames bar c)).

(** The samples of [n] buffers from descriptor [c] on, around the ring. *)
Fixpoint playlist (bar c : Z) (n : nat) : list Z :=
  match n with O => [] | S n => buffer bar c ++ playlist bar (Z.land (c + 1) 0x1f) n end.

(** A descriptor of at least one frame whose buffer lies in the RAM. *)
Record bd_ok (bar c : Z) : Prop := {
  bo_ptr : bd_ptr bar c <> 0;
  bo_len : 2 <= bd_len bar c < 65536;
  bo_lo : base <= bd_ptr bar c;
  bo_hi : bd_ptr bar c + 2 * bd_len bar c <= base + b_len d }.

(** The 32 descriptors lie in the RAM. *)
Definition ring_in (bar : Z) : Prop := bar <> 0 /\ base <= bar /\ bar + 256 <= base + b_len d.

Lemma with_cache_id s : with_cache s (tl_cache (ac_mc s)) = s.
Proof. unfold with_cache. destruct s as [a m l n]. cbn. by destruct m. Qed.

Lemma read_samples_ram n ptr s :
  ac_ram s -> base <= ptr -> ptr + 2 * Z.of_nat n <= base + b_len d ->
  exists c, read_samples n ptr s = (Val (pcm ptr n), with_cache s c) /\ ac_ram (with_cache s c).
Proof.
  revert ptr s. induction n as [|n IH]; intros ptr s Hr Hlo Hhi.
  - exists (tl_cache (ac_mc s)). by rewrite with_cache_id.
  - pose proof (ac_ram_range s Hr). cbn [read_samples].
    destruct (mem_read16_ram s ptr Hr) as (c1 & E1 & Hr1); [lia..|].
    destruct (IH (ptr + 2) _ Hr1) as (c2 & E2 & Hr2); [lia..|].
    exists c2. split; [|done]. rewrite (u32_id ptr) by (unfold is_u32; lia).
    rewrite (bindM_val _ _ _ _ _ E1), (bindM_val _ _ _ _ _ E2), pcm_S. done.
Qed.

Lemma read_bd_ram s :
  ac_ram s -> ring_in (bdbar_playback_ (ac_dev s)) -> 0 <= po_civ_ (ac_dev s) < 32 ->
  let bar := bdbar_playback_ (ac_dev s) in let c := po_civ_ (ac_dev s) in
  exists t, read_bd s = (Val (bd_ptr bar c, bd_len bar c, bd_ctl bar c), with_cache s t) /\
    ac_ram (with_cache s t).
Proof.
  intros Hr (Hz & Hlo & Hhi) Hc bar c. subst bar c. pose proof (ac_ram_range s Hr).
  set (a := bdbar_playback_ (ac_dev s) + po_civ_ (ac_dev s) * 8).
  destruct (mem_read32_ram s a Hr) as (c1 & E1 & Hr1); [lia..|].
  destruct (mem_read16_ram _ (a + 4) Hr1) as (c2 & E2 & Hr2); [lia..|].
  destruct (mem_read16_ram _ (a + 6) Hr2) as (c3 & E3 & Hr3); [lia..|].
  exists c3. split; [|done]. unfold read_bd. mstep. fold a. rewrite (u32_id a) by (unfold is_u32; lia).
  rewrite (bindM_val _ _ _ _ _ E1), (u32_id (a + 4)), (bindM_val _ _ _ _ _ E2), (u32_id (a + 6)),
    (bindM_val _ _ _ _ _ E3) by (unfold is_u32; lia). done.
Qed.

(** ** One step of the engine *)

(** The state with another device, output and interrupt count. *)
Definition moved s a c l n : ac97_sys W := mkAcSys a (ac_mc s <| tl_cache := c |>) l n.

Lemma raise_point_run s :
  raise_intx_ (ac_dev s) = true ->
  let i := ac97_inta (ac_dev s) in
  raise_point s = (Val tt, mkAcSys
    (if i then ac_dev s <| glob_sta_ := Z.lor (glob_sta_ (ac_dev s)) GS_POINT |> else ac_dev s)
    (ac_mc s) (ac_audio s) (if i then S (ac_irqs s) else ac_irqs s)).
Proof.
  intros Hi. unfold raise_point. cbv zeta. mstep. destruct s as [a m l n]. cbn [ac_dev ac_mc ac_audio ac_irqs] in *.
  destruct (ac97_inta a); [|done]. cbn [when]. mstep. unfold intx. mstep.
  change (raise_intx_ _) with (raise_intx_ a). rewrite Hi. cbn [when]. mstep. rewrite on_memory_detached. by destruct m.
Qed.

(** The frames played so far in a step. *)
Definition advanced (todo : Z) (a : ac97) : ac97 :=
  a <| po_cur_bd_frame_offset_bytes_ := po_cur_bd_frame_offset_bytes_ a + todo * 4 |>
    <| po_picb_ := po_picb_ a - todo |>.

Lemma play_ram s todo :
  let a := ac_dev s in let p := po_cur_ptr_ a + po_cur_bd_frame_offset_bytes_ a in
  ac_ram s -> host_audio_ a = true -> 0 <= todo <= po_picb_ a -> po_picb_ a < 65536 ->
  base <= p -> 0 <= po_cur_bd_frame_offset_bytes_ a -> p + 4 * todo <= base + b_len d -> 0 < po_cur_ptr_ a ->
  exists t, let s' := moved s (advanced todo a) t (ac_audio s ++ pcm p (Z.to_nat (2 * todo))) (ac_irqs s) in
    ac_ram s' /\ play todo s = (if 0 <? po_picb_ a - todo then (Val tt, s') else bd_complete s').
Proof.
  intros a p Hr Hh Ht Hp Hlo Ho Hhi Hcp. subst a p. pose proof (ac_ram_range s Hr).
  destruct (read_samples_ram (Z.to_nat (todo * 2)) (po_cur_ptr_ (ac_dev s) + po_cur_bd_frame_offset_bytes_ (ac_dev s)) s)
    as (t & E & Hr'); [done|lia..|].
  exists t. split; [by split; apply Hr'|].
  unfold play. mstep. rewrite (bindM_val _ _ _ _ _ E). unfold pushSamples. cbn [bindM].
  rewrite (bindM_val _ _ _ tt (moved s (ac_dev s) t
    (ac_audio s ++ pcm (po_cur_ptr_ (ac_dev s) + po_cur_bd_frame_offset_bytes_ (ac_dev s)) (Z.to_nat (2 * todo)))
    (ac_irqs s))).
  2:{ mstep. unfold with_cache. cbn [ac_dev]. rewrite Hh. cbn [when]. unfold modify, moved. cbn.
      by rewrite (Z.mul_comm todo 2). }
  mstep. mstep. unfold moved. cbn [ac_dev]. unfold advanced.
  cbn -[Z.mul Z.add Z.sub Z.ltb u32 u16 bd_complete]. rewrite u32_id by (unfold is_u32; lia).
  unfold u16. rewrite Z.mod_small by lia. by destruct (0 <? _).
Qed.

(** ** The engine plays the ring *)

(** The registers that playback does not write. *)
Definition same_setup (a a' : ac97) : Prop :=
  bdbar_playback_ a' = bdbar_playback_ a /\ po_lvi_ a' = po_lvi_ a /\ po_control_ a' = po_control_ a /\
  frames_per_tick_dynamic_ a' = frames_per_tick_dynamic_ a /\ use_wall_clock_ a' = use_wall_clock_ a /\
  host_audio_ a' = host_audio_ a /\ raise_intx_ a' = raise_intx_ a.

(** Buffers after the current one, up to the last valid one. *)
Definition buffers_left (a : ac97) : nat := Z.to_nat (Z.land (po_lvi_ a - po_civ_ a) 0x1f).

(** The samples still to be played. *)
Definition pending (a : ac97) : list Z :=
  if po_running_ a then
    pcm (po_cur_ptr_ a + po_cur_bd_frame_offset_bytes_ a) (Z.to_nat (2 * po_picb_ a)) ++
    playlist (bdbar_playback_ a) (Z.land (po_civ_ a + 1) 0x1f) (buffers_left a)
  else [].

(** The descriptors [c], [c + 1], ..., [c + n] around the ring are good. *)
Definition ring_from (bar c : Z) (n : nat) : Prop :=
  forall k, (k <= n)%nat -> bd_ok bar (Z.land (c + Z.of_nat k) 0x1f).

(** The host side of the device: audio output and interrupt line connected. *)
Definition connected (a : ac97) : Prop := host_audio_ a = true /\ raise_intx_ a = true.

(** The channel runs, in the middle of the buffer of the descriptor [CIV]. *)
Record playing s : Prop := {
  pl_ram : ac_ram s;
  pl_ring : ring_in (bdbar_playback_ (ac_dev s));
  pl_conn : connected (ac_dev s);
  pl_running : po_running_ (ac_dev s) = true;
  pl_civ : 0 <= po_civ_ (ac_dev s) < 32;
  pl_lvi : 0 <= po_lvi_ (ac_dev s) < 32;
  pl_bds : ring_from (bdbar_playback_ (ac_dev s)) (po_civ_ (ac_dev s)) (buffers_left (ac_dev s));
  pl_loaded : po_cur_len_ (ac_dev s) <> 0;
  pl_ptr : po_cur_ptr_ (ac_dev s) = bd_ptr (bdbar_playback_ (ac_dev s)) (po_civ_ (ac_dev s));
  pl_picb : 1 <= po_picb_ (ac_dev s) < 65536;
  pl_off : 0 <= po_cur_bd_frame_offset_bytes_ (ac_dev s) /\
    po_cur_bd_frame_offset_bytes_ (ac_dev s) + 4 * po_picb_ (ac_dev s) =
    4 * bd_frames (bdbar_playback_ (ac_dev s)) (po_civ_ (ac_dev s)) }.

(** Interrupt on completion is enabled. *)
Definition ioce (a : ac97) : bool := truth (Z.land (po_control_ a) 0x10).

(** The channel stopped after its last valid buffer. *)
Record finished (a : ac97) : Prop := {
  fi_running : po_running_ a = false;
  fi_halted : po_lvbci_halted_ a = true;
  fi_civ : po_civ_ a = Z.land (po_lvi_ a + 1) 0x1f;
  fi_dch : Z.testbit (po_status_ a) 0 = true;
  fi_lvbci : Z.testbit (po_status_ a) 2 = true;
  fi_point : ioce a = true -> Z.testbit (glob_sta_ a) 6 = true }.

Lemma land31 x : Z.land x 0x1f = x mod 32.
Proof. change 0x1f with (Z.ones 5). by rewrite Z.land_ones by lia. Qed.

Lemma ring_last c l : 0 <= c < 32 -> 0 <= l < 32 ->
  (Z.land (c + 1) 0x1f =? Z.land (l + 1) 0x1f) = (c =? l).
Proof.
  intros Hc Hl. rewrite !land31. destruct (Z.eqb_spec c l) as [->|Hn]; [by rewrite Z.eqb_refl|].
  apply Z.eqb_neq. Z.div_mod_to_equations. lia.
Qed.

Lemma ring_next c l : 0 <= c < 32 -> 0 <= l < 32 -> c <> l ->
  Z.to_nat (Z.land (l - c) 0x1f) = S (Z.to_nat (Z.land (l - Z.land (c + 1) 0x1f) 0x1f)).
Proof.
  intros Hc Hl Hn. rewrite !land31. rewrite <- Z2Nat.inj_succ by (apply Z.mod_pos_bound; lia).
  f_equal. Z.div_mod_to_equations. lia.
Qed.

Lemma ring_from_next bar c n : ring_from bar c (S n) -> ring_from bar (Z.land (c + 1) 0x1f) n.
Proof.
  intros Hr k Hk. specialize (Hr (S k) ltac:(lia)). rewrite land31 in Hr.
  rewrite !land31, Zplus_mod_idemp_l. by replace (c + 1 + Z.of_nat k) with (c + Z.of_nat (S k)) by lia.
Qed.

Lemma lor_4_bits x : truth (Z.land (Z.lor (Z.ldiff (Z.lor x 4) 2) 1) 0xc) = true /\
  Z.testbit (Z.lor (Z.ldiff (Z.lor x 4) 2) 1) 0 = true /\ Z.testbit (Z.lor (Z.ldiff (Z.lor x 4) 2) 1) 2 = true.
Proof.
  assert (Z.testbit (Z.lor (Z.ldiff (Z.lor x 4) 2) 1) 2 = true) as E2
    by (rewrite !Z.lor_spec, Z.ldiff_spec, Z.lor_spec; cbn; by rewrite orb_true_r).
  split; [|split; [rewrite !Z.lor_spec; cbn; by rewrite orb_true_r|done]].
  unfold truth. apply negb_true_iff, Z.eqb_neq. intros H0.
  apply (f_equal (fun z => Z.testbit z 2)) in H0. rewrite Z.land_spec, E2 in H0. done.
Qed.

(** The buffer is finished: the last one stops the channel, another one gives
    way to its successor. *)
Lemma bd_complete_last s :
  connected (ac_dev s) -> 0 <= po_civ_ (ac_dev s) < 32 -> 0 <= po_lvi_ (ac_dev s) < 32 ->
  po_civ_ (ac_dev s) = po_lvi_ (ac_dev s) ->
  exists a', same_setup (ac_dev s) a' /\ finished a' /\
    bd_complete s = (Val tt, mkAcSys a' (ac_mc s) (ac_audio s)
                       (if ioce (ac_dev s) then S (ac_irqs s) else ac_irqs s)).
Proof.
  intros [_ Hi] Hc Hl E. unfold bd_complete. mstep. mstep.
  cbn -[Z.land Z.lor Z.ldiff Z.testbit Z.add truth raise_point].
  rewrite E, Z.eqb_refl. mstep. rewrite raise_point_run by done.
  cbn -[Z.land Z.lor Z.ldiff Z.testbit Z.add truth].
  unfold ac97_inta, ioce.
  cbn -[Z.land Z.lor Z.ldiff Z.testbit Z.add truth].
  set (x := if truth _ then _ else _). destruct (lor_4_bits x) as (E1 & E2 & E3). rewrite E1. cbn [andb].
  destruct (truth (Z.land (po_control_ (ac_dev s)) 16)) eqn:Eo; eexists; (split; [|split; [|reflexivity]]); try done.
  all: split; try done. all: unfold ioce; cbn -[Z.land Z.lor Z.ldiff Z.testbit Z.add truth]; try congruence.
  intros _. rewrite Z.lor_spec. cbn. by rewrite orb_true_r.
Qed.

Lemma bd_complete_next s :
  let a := ac_dev s in let c := Z.land (po_civ_ a + 1) 0x1f in let bar := bdbar_playback_ a in
  ac_ram s -> connected a -> ring_in bar -> 0 <= po_civ_ a < 32 -> 0 <= po_lvi_ a < 32 ->
  po_civ_ a <> po_lvi_ a -> bd_ok bar c ->
  exists s', bd_complete s = (Val tt, s') /\ ac_ram s' /\ same_setup a (ac_dev s') /\
    ac_audio s' = ac_audio s /\ po_civ_ (ac_dev s') = c /\ po_running_ (ac_dev s') = po_running_ a /\
    po_cur_len_ (ac_dev s') = bd_len bar c /\ po_cur_ptr_ (ac_dev s') = bd_ptr bar c /\
    po_picb_ (ac_dev s') = bd_frames bar c /\ po_cur_bd_frame_offset_bytes_ (ac_dev s') = 0 /\
    po_wall_clock_initialized_ (ac_dev s') = po_wall_clock_initialized_ a /\
    (ac_irqs s <= ac_irqs s')%nat /\ (ioce a = false -> ac_irqs s' = ac_irqs s).
Proof.
  intros a c bar Hr [Hh Hi] Hring Hc Hl Hn Hok. subst a c bar.
  assert (0 <= Z.land (po_civ_ (ac_dev s) + 1) 0x1f < 32) as Hc'
    by (rewrite land31; apply Z.mod_pos_bound; lia).
  unfold bd_complete. mstep. mstep.
  cbn -[Z.land Z.lor Z.ldiff Z.testbit Z.add truth raise_point].
  rewrite ring_last, (proj2 (Z.eqb_neq _ _) Hn) by done.
  set (s1 := mkAcSys _ _ _ _). pose proof (raise_point_run s1 Hi) as Er. cbv zeta in Er.
  set (s2 := mkAcSys _ _ _ _) in Er. rewrite (bindM_val _ _ _ _ _ Er).
  assert (ac_ram s2) as Hr2 by (split; apply Hr).
  assert (bdbar_playback_ (ac_dev s2) = bdbar_playback_ (ac_dev s)) as Eb by (cbn; by destruct (ac97_inta _)).
  assert (po_civ_ (ac_dev s2) = Z.land (po_civ_ (ac_dev s) + 1) 0x1f) as Ec by (cbn; by destruct (ac97_inta _)).
  destruct (read_bd_ram s2) as (t & E & Hr3); [done|by rewrite Eb|by rewrite Ec|].
  rewrite Eb, Ec in E. rewrite (bindM_val _ _ _ _ _ E).
  assert (bd_empty (bd_ptr (bdbar_playback_ (ac_dev s)) (Z.land (po_civ_ (ac_dev s) + 1) 0x1f),
                    bd_len (bdbar_playback_ (ac_dev s)) (Z.land (po_civ_ (ac_dev s) + 1) 0x1f),
                    bd_ctl (bdbar_playback_ (ac_dev s)) (Z.land (po_civ_ (ac_dev s) + 1) 0x1f)) = false) as ->.
  { destruct Hok. unfold bd_empty. rewrite orb_false_iff, !Z.eqb_neq. split; [done|lia]. }
  eexists. split; [reflexivity|]. split; [by split; apply Hr3|].
  unfold s2, s1. cbn -[Z.land Z.lor Z.add truth ac97_inta]. unfold bd_frames.
  destruct (ac97_inta _) eqn:Ei; split_and!; try done; try lia.
  intros Ho. unfold ac97_inta in Ei. apply andb_true_iff in Ei as [_ Ei]. unfold ioce in Ho. cbn -[Z.land truth] in Ei. congruence.
Qed.

(** The frames one tick may play: the credit, or the fixed number of test mode. *)
Definition quantum (a : ac97) (credit : Z) : Z := if use_wall_clock_ a then credit else frames_per_tick_dynamic_ a.

(** The wall clock has been read once. *)
Definition seeded (a : ac97) : bool := negb (use_wall_clock_ a) || po_wall_clock_initialized_ a.

(** Ticks needed at most: one per remaining sample, and one for the clock. *)
Definition ticks_left (a : ac97) : nat := (length (pending a) + if seeded a then 0 else 1)%nat.

(** What one step of the engine achieves. *)
Record progress s s' : Prop := {
  pr_setup : same_setup (ac_dev s) (ac_dev s');
  pr_samples : ac_audio s' ++ pending (ac_dev s') = ac_audio s ++ pending (ac_dev s);
  pr_ticks : (ticks_left (ac_dev s') < ticks_left (ac_dev s))%nat;
  pr_irqs : (ac_irqs s <= ac_irqs s')%nat;
  pr_quiet : ioce (ac_dev s) = false -> ac_irqs s' = ac_irqs s;
  pr_end : playing s' \/
    (finished (ac_dev s') /\ ac_ram s' /\ (ioce (ac_dev s) = true -> (ac_irqs s < ac_irqs s')%nat)) }.

Lemma playing_bd s : playing s -> bd_ok (bdbar_playback_ (ac_dev s)) (po_civ_ (ac_dev s)).
Proof.
  intros Hp. specialize (pl_bds s Hp O ltac:(lia)) as Hb. change (Z.of_nat 0) with 0 in Hb.
  rewrite Z.add_0_r, land31 in Hb. by rewrite Z.mod_small in Hb by apply Hp.
Qed.

Lemma pending_split s todo :
  playing s -> 0 <= todo <= po_picb_ (ac_dev s) ->
  let a := ac_dev s in let p := po_cur_ptr_ a + po_cur_bd_frame_offset_bytes_ a in
  pending a = pcm p (Z.to_nat (2 * todo)) ++ pending (advanced todo a).
Proof.
  intros Hp Ht a p. subst a p. unfold pending. change (po_running_ (advanced todo (ac_dev s))) with (po_running_ (ac_dev s)).
  rewrite (pl_running s Hp). unfold advanced, buffers_left. cbn -[Z.mul Z.add Z.sub Z.land pcm playlist].
  rewrite app_assoc. f_equal.
  replace (Z.to_nat (2 * po_picb_ (ac_dev s))) with
    (Z.to_nat (2 * todo) + Z.to_nat (2 * (po_picb_ (ac_dev s) - todo)))%nat by lia.
  rewrite pcm_app. f_equal. f_equal. lia.
Qed.

(** Frames left in the buffer after the step: the same descriptor goes on. *)
Lemma playing_advanced s todo t :
  playing s -> 1 <= todo < po_picb_ (ac_dev s) ->
  let a := ac_dev s in
  let s' := moved s (advanced todo a) t (ac_audio s ++ pcm (po_cur_ptr_ a + po_cur_bd_frame_offset_bytes_ a)
              (Z.to_nat (2 * todo))) (ac_irqs s) in
  ac_ram s' -> progress s s'.
Proof.
  intros Hp Ht a s' Hr. subst a s'. pose proof (pending_split s todo Hp) as Es. cbv zeta in Es.
  split; try done; unfold moved; cbn [ac_dev ac_audio ac_irqs].
  - rewrite Es, app_assoc by lia. done.
  - unfold ticks_left. rewrite Es, length_app, length_pcm by lia.
    change (seeded (advanced todo (ac_dev s))) with (seeded (ac_dev s)). lia.
  - left. destruct Hp. split; try done; unfold moved; cbn -[Z.mul Z.add Z.sub]; [lia|]. lia.
Qed.

(** The state in which a buffer has been played to its end. *)
Definition played s t : ac97_sys W :=
  let a := ac_dev s in
  moved s (advanced (po_picb_ a) a) t (ac_audio s ++
    pcm (po_cur_ptr_ a + po_cur_bd_frame_offset_bytes_ a) (Z.to_nat (2 * po_picb_ a))) (ac_irqs s).

Lemma pending_played s t :
  playing s ->
  pending (ac_dev (played s t)) =
    playlist (bdbar_playback_ (ac_dev s)) (Z.land (po_civ_ (ac_dev s) + 1) 0x1f) (buffers_left (ac_dev s)) /\
  ac_audio (played s t) ++ pending (ac_dev (played s t)) = ac_audio s ++ pending (ac_dev s) /\
  (length (pending (ac_dev (played s t))) + 2 <= length (pending (ac_dev s)))%nat.
Proof.
  intros Hp. pose proof (pl_picb s Hp). pose proof (pending_split s (po_picb_ (ac_dev s)) Hp ltac:(lia)) as Es.
  cbv zeta in Es. split_and!.
  - unfold played, moved, pending. change (po_running_ (ac_dev _)) with (po_running_ (ac_dev s)).
    rewrite (pl_running s Hp). unfold advanced.
    cbn -[Z.mul Z.add Z.sub Z.land pcm playlist buffers_left]. rewrite Z.sub_diag. done.
  - rewrite Es, app_assoc. done.
  - rewrite Es, length_app, length_pcm. change (ac_dev (played s t)) with (advanced (po_picb_ (ac_dev s)) (ac_dev s)). lia.
Qed.

Lemma complete_last s t :
  playing s -> ac_ram (played s t) -> po_civ_ (ac_dev s) = po_lvi_ (ac_dev s) ->
  exists s', bd_complete (played s t) = (Val tt, s') /\ progress s s'.
Proof.
  intros Hp Hr Ec. destruct (pending_played s t Hp) as (El & Es & Hl).
  destruct (bd_complete_last (played s t)) as (a' & Hset & Hfin & Eb); [apply Hp..|done|].
  eexists. split; [exact Eb|].
  assert (pending (ac_dev (played s t)) = []) as E0
    by (rewrite El; unfold buffers_left; by rewrite Ec, Z.sub_diag).
  assert (pending a' = []) as En by (unfold pending; by rewrite (fi_running _ Hfin)).
  change (ioce (ac_dev (played s t))) with (ioce (ac_dev s)).
  split; cbn [ac_dev ac_audio ac_irqs].
  - done.
  - by rewrite En, <- E0.
  - unfold ticks_left. rewrite En. cbn [length]. destruct (seeded a'), (seeded (ac_dev s)); lia.
  - destruct (ioce _); cbn; lia.
  - by intros ->.
  - right. split; [done|]. split; [by split; apply Hr|]. intros ->. cbn. lia.
Qed.

Lemma complete_next s t :
  playing s -> ac_ram (played s t) -> po_civ_ (ac_dev s) <> po_lvi_ (ac_dev s) ->
  exists s', bd_complete (played s t) = (Val tt, s') /\ progress s s'.
Proof.
  intros Hp Hr Ec. destruct (pending_played s t Hp) as (El & Es & Hl).
  pose proof (ring_next _ _ (pl_civ s Hp) (pl_lvi s Hp) Ec) as Hleft.
  assert (buffers_left (ac_dev s) = S (Z.to_nat (Z.land (po_lvi_ (ac_dev s) - Z.land (po_civ_ (ac_dev s) + 1) 31) 31)))
    as E0 by done.
  pose proof (pl_bds s Hp) as Hbds. rewrite E0 in Hbds, El. apply ring_from_next in Hbds. clear Hleft E0.
  set (c' := Z.land (po_civ_ (ac_dev s) + 1) 0x1f) in *.
  assert (0 <= c' < 32) as Hc' by (unfold c'; rewrite land31; apply Z.mod_pos_bound; lia).
  assert (bd_ok (bdbar_playback_ (ac_dev s)) c') as Hok.
  { specialize (Hbds O ltac:(lia)). change (Z.of_nat 0) with 0 in Hbds.
    rewrite Z.add_0_r, land31, Z.mod_small in Hbds by lia. done. }
  destruct (bd_complete_next (played s t))
    as (s' & Eb & Hr' & (S1 & S2 & S3 & S4 & S5 & S6 & S7) & Ha & Hciv & Hrun & Hlen & Hptr & Hpi & Hoff & Hw & Hi & Hq);
    [done|apply Hp..|done|done|].
  change (ac_dev (played s t)) with (advanced (po_picb_ (ac_dev s)) (ac_dev s)) in S1, S2, Hciv, Hrun, Hlen, Hptr, Hpi, Hw.
  cbn -[Z.land Z.add] in S1, S2, Hciv, Hrun, Hlen, Hptr, Hpi, Hw. fold c' in Hciv, Hlen, Hptr, Hpi.
  assert (pending (ac_dev s') = pending (ac_dev (played s t))) as En.
  { rewrite El. unfold pending, buffers_left. rewrite Hrun, (pl_running s Hp), Hptr, Hoff, Hpi, S1, S2, Hciv, Z.add_0_r. done. }
  exists s'. split; [exact Eb|]. split.
  - done.
  - by rewrite En, Ha.
  - unfold ticks_left. rewrite En. destruct (seeded (ac_dev s')), (seeded (ac_dev s)); lia.
  - done.
  - done.
  - left. destruct Hok as [O1 O2 O3 O4].
    assert (1 <= bd_frames (bdbar_playback_ (ac_dev s)) c' < 65536) by
      (unfold bd_frames; Z.div_mod_to_equations; lia).
    split; rewrite ?Hciv, ?S1, ?S2, ?Hrun, ?Hlen, ?Hptr, ?Hpi, ?Hoff; try done; try lia; try apply Hp.
    + split; [rewrite S6|rewrite S7]; apply Hp.
    + unfold buffers_left. by rewrite Hciv, S2.
Qed.

(** One tick of a channel that plays. *)
Lemma tick_progress s credit :
  playing s -> 1 <= quantum (ac_dev s) credit ->
  exists s', ac97_tick credit s = (Val tt, s') /\ progress s s'.
Proof.
  intros Hp Hq. unfold ac97_tick. mstep. rewrite (pl_running s Hp). destruct (pl_ring s Hp) as (Hbar & _).
  rewrite (proj2 (Z.eqb_neq _ _) Hbar), (proj2 (Z.eqb_neq _ _) (pl_loaded s Hp)). cbn [negb orb].
  mstep. cbn [negb]. mstep.
  assert (1 <= quantum (ac_dev s) credit ->
    exists s', play (Z.min (quantum (ac_dev s) credit) (po_picb_ (ac_dev s))) s = (Val tt, s') /\ progress s s') as Hplay.
  { intros _. pose proof (pl_picb s Hp). pose proof (playing_bd s Hp) as [B1 B2 B3 B4].
    pose proof (pl_off s Hp) as [Ho1 Ho2]. rewrite <- (pl_ptr s Hp) in B1, B3, B4.
    pose proof (ac_ram_range s (pl_ram s Hp)). set (todo := Z.min _ _).
    assert (4 * bd_frames (bdbar_playback_ (ac_dev s)) (po_civ_ (ac_dev s)) <=
            2 * bd_len (bdbar_playback_ (ac_dev s)) (po_civ_ (ac_dev s)))
      by (unfold bd_frames; Z.div_mod_to_equations; lia).
    destruct (play_ram s todo) as (t & Hr & E); [apply Hp..|lia|lia|lia|lia|lia|lia|]. rewrite E.
    destruct (0 <? po_picb_ (ac_dev s) - todo) eqn:El.
    - eexists. split; [reflexivity|]. apply playing_advanced; [done|lia|done].
    - assert (todo = po_picb_ (ac_dev s)) as Et by lia. rewrite Et in Hr |- *.
      destruct (decide (po_civ_ (ac_dev s) = po_lvi_ (ac_dev s)));
        [by apply (complete_last s t)|by apply (complete_next s t)]. }
  specialize (Hplay Hq). unfold quantum in *. destruct (use_wall_clock_ (ac_dev s)) eqn:Ew; [|done].
  destruct (po_wall_clock_initialized_ (ac_dev s)) eqn:Ei; cbn [negb].
  - pose proof (pl_picb s Hp). by rewrite (proj2 (Z.eqb_neq (Z.min _ _) 0)) by lia.
  - eexists. split; [reflexivity|]. split; try done.
    + unfold ticks_left. change (pending (ac_dev (mkAcSys _ _ _ _))) with (pending (ac_dev s)).
      unfold seeded. cbn -[pending]. rewrite Ew, Ei. cbn -[pending]. lia.
    + left. destruct Hp as [R1 R2 R3 R4 R5 R6 R7 R8 R9 R10 R11]. split; try done. by split; apply R1.
Qed.

(** A stopped channel ignores the tick. *)
Lemma same_setup_trans a b c : same_setup a b -> same_setup b c -> same_setup a c.
Proof. unfold same_setup. intuition congruence. Qed.

Lemma ticks_play credits s :
  playing s -> Forall (fun c => 1 <= quantum (ac_dev s) c) credits -> (ticks_left (ac_dev s) <= length credits)%nat ->
  exists s', maybe_tick_device credits s = (Val tt, s') /\ same_setup (ac_dev s) (ac_dev s') /\ finished (ac_dev s') /\
    ac_audio s' = ac_audio s ++ pending (ac_dev s) /\
    (if ioce (ac_dev s) then (ac_irqs s < ac_irqs s')%nat else ac_irqs s' = ac_irqs s).
Proof.
  revert s. induction credits as [|c l IH]; intros s Hp Hq Hl.
  { exfalso. pose proof (pl_picb s Hp). unfold ticks_left, pending in Hl.
    rewrite (pl_running s Hp), length_app, length_pcm in Hl. cbn -[Z.mul] in Hl. lia. }
  apply Forall_cons_1 in Hq as [Hq0 Hq]. destruct (tick_progress s c Hp Hq0) as (s1 & E1 & [P1 P2 P3 P4 P5 P6]).
  unfold maybe_tick_device. cbn [for_each]. rewrite (bindM_val _ _ _ _ _ E1). fold (maybe_tick_device l).
  destruct P6 as [Hp1|(Hf & Hr & Hi)].
  - destruct (IH s1 Hp1) as (s2 & E2 & Q1 & Q2 & Q3 & Q4).
    { revert Hq. apply List.Forall_impl. intros x. unfold quantum. destruct P1 as (_ & _ & _ & -> & -> & _). done. }
    { cbn in Hl. lia. }
    exists s2. split; [done|]. split; [by eapply same_setup_trans|]. split; [done|]. split; [by rewrite Q3, P2|].
    assert (ioce (ac_dev s1) = ioce (ac_dev s)) as Ei by (unfold ioce; destruct P1 as (_ & _ & -> & _); done).
    rewrite Ei in Q4. destruct (ioce (ac_dev s)); [lia|]. by rewrite Q4, P5.
  - exists s1. rewrite ticks_stopped by apply Hf. split; [done|]. split; [done|]. split; [done|].
    assert (pending (ac_dev s1) = []) as En by (unfold pending; by rewrite (fi_running _ Hf)).
    rewrite En, app_nil_r in P2. split; [done|]. destruct (ioce (ac_dev s)); auto.
Qed.

(** Starting the channel: the control register write with the run bit. *)
Lemma start_playing s ctl :
  let a := ac_dev s in
  ac_ram s -> ring_in (bdbar_playback_ a) -> connected a -> po_running_ a = false ->
  0 <= po_civ_ a < 32 -> 0 <= po_lvi_ a < 32 ->
  ring_from (bdbar_playback_ a) (po_civ_ a) (buffers_left a) ->
  truth (Z.land (Z.land ctl 0x1f) 0x01) = true -> truth (Z.land (Z.land ctl 0x1f) 0x02) = false ->
  exists s', write_po_cr ctl s = (Val tt, s') /\ playing s' /\
    ac_audio s' = ac_audio s /\ ac_irqs s' = ac_irqs s /\
    po_control_ (ac_dev s') = Z.ldiff (Z.land ctl 0x1f) 2 /\ po_lvi_ (ac_dev s') = po_lvi_ a /\
    frames_per_tick_dynamic_ (ac_dev s') = frames_per_tick_dynamic_ a /\
    use_wall_clock_ (ac_dev s') = use_wall_clock_ a /\
    pending (ac_dev s') = playlist (bdbar_playback_ a) (po_civ_ a) (S (buffers_left a)).
Proof.
  intros a Hr Hring Hconn Hrun Hc Hl Hbds H1 H2. subst a. unfold write_po_cr. mstep. rewrite H2, H1. cbn [negb].
  set (s1 := mkAcSys _ _ _ _). mstep. change (po_running_ (ac_dev s1)) with (po_running_ (ac_dev s)). rewrite Hrun.
  mstep. change (bdbar_playback_ (ac_dev s1)) with (bdbar_playback_ (ac_dev s)).
  pose proof Hring as (Hz & Hlo & Hhi). rewrite (proj2 (Z.eqb_neq _ _) Hz).
  pose proof (ac_ram_range s Hr).
  destruct (find_bank_or_null_scan (ac_mc s) (bdbar_playback_ (ac_dev s))) as (c & E & Hok); [apply Hr|unfold is_u32; lia|].
  rewrite (scan_banks_unique _ i (RamBank base Big d)) in E; [|apply Hr|unfold is_u32; lia|apply Hr|unfold holds; cbn; lia].
  rewrite (bindM_val _ _ _ (Some i) (with_cache s1 c)) by (rewrite on_memory_detached; unfold zoom; cbn [ac_mc s1]; by rewrite E).
  assert (ac_ram (with_cache s1 c)) as Hr1 by (split; [done|apply Hr|apply Hr]).
  destruct (read_bd_ram (with_cache s1 c)) as (t & Eb & Hr2); [done..|]. rewrite (bindM_val _ _ _ _ _ Eb).
  cbv zeta. change (bdbar_playback_ (ac_dev (with_cache s1 c))) with (bdbar_playback_ (ac_dev s)).
  change (po_civ_ (ac_dev (with_cache s1 c))) with (po_civ_ (ac_dev s)).
  pose proof (Hbds O ltac:(lia)) as Hb0. change (Z.of_nat 0) with 0 in Hb0.
  rewrite Z.add_0_r, land31, Z.mod_small in Hb0 by lia. destruct Hb0 as [B1 B2 B3 B4].
  unfold bd_empty. rewrite (proj2 (Z.eqb_neq _ _) B1), (proj2 (Z.eqb_neq (bd_len _ _) 0)) by lia. cbn [orb].
  eexists. split; [reflexivity|].
  assert (1 <= bd_frames (bdbar_playback_ (ac_dev s)) (po_civ_ (ac_dev s)) < 65536)
    by (unfold bd_frames; Z.div_mod_to_equations; lia).
  split; [|split_and!; try done].
  - split; try done. { by split; apply Hr2. } { cbn. lia. }
  - unfold pending. cbn -[Z.mul Z.land Z.add playlist pcm]. cbn [playlist]. by rewrite Z.add_0_r.
Qed.

(** C27. A guest that points the bus master at a ring of valid descriptors in
    RAM and sets the run bit hears exactly the samples of the buffers from the
    current descriptor to the last valid one, each once and in order, within
    one tick per sample (and one to read the clock), whatever number of frames
    each tick is worth; then the channel is halted with LVBCI and DCH set,
    the current descriptor is the one after the last valid one, and the
    interrupt was raised if and only if interrupts on completion are enabled. *)
Theorem ring_playback s ctl credits :
  let a := ac_dev s in
  let samples := playlist (bdbar_playback_ a) (po_civ_ a) (S (buffers_left a)) in
  ac_ram s -> ring_in (bdbar_playback_ a) -> connected a -> po_running_ a = false ->
  0 <= po_civ_ a < 32 -> 0 <= po_lvi_ a < 32 ->
  ring_from (bdbar_playback_ a) (po_civ_ a) (buffers_left a) ->
  is_u8 ctl -> Z.testbit ctl 0 = true -> Z.testbit ctl 1 = false ->
  Forall (fun c => 1 <= quantum a c) credits -> (length samples < length credits)%nat ->
  exists s1 s2, write_nabm (PO_BASE + CR) ctl 1 s = (Val tt, s1) /\ maybe_tick_device credits s1 = (Val tt, s2) /\
    ac_audio s2 = ac_audio s ++ samples /\ finished (ac_dev s2) /\ po_lvi_ (ac_dev s2) = po_lvi_ a /\
    (if Z.testbit ctl 4 then (ac_irqs s < ac_irqs s2)%nat else ac_irqs s2 = ac_irqs s).
Proof.
  intros a samples Hr Hring Hconn Hrun Hc Hl Hbds Hu H0 H1 Hq Hlen.
  assert (forall k, 0 <= k < 5 -> Z.testbit (Z.land ctl 0x1f) k = Z.testbit ctl k) as Hb.
  { intros k Hk. change 0x1f with (Z.ones 5). by rewrite Z.land_spec, Z.ones_spec_low, andb_true_r by lia. }
  destruct (start_playing s ctl Hr Hring Hconn Hrun Hc Hl Hbds) as (s1 & E1 & Hp & Ha & Hi & Hctl & Hlvi & Hf & Hw & Hpend).
  { change 0x01 with (Z.shiftl 1 0). rewrite truth_land_pow2, Hb by lia. done. }
  { change 0x02 with (Z.shiftl 1 1). rewrite truth_land_pow2, Hb by lia. done. }
  destruct (ticks_play credits s1 Hp) as (s2 & E2 & Hset & Hfin & Ha2 & Hi2).
  { revert Hq. apply List.Forall_impl. intros x. unfold quantum. by rewrite Hw, Hf. }
  { unfold ticks_left. rewrite Hpend. fold a samples. destruct (seeded _); lia. }
  exists s1, s2. split.
  { unfold write_nabm. cbn [Z.eqb Pos.eqb PO_BASE CR SR PI_BASE MC_BASE Z.add Pos.add orb Pos.succ].
    cbn -[Z.land write_po_cr]. rewrite <- E1. f_equal.
    change 0xff with (Z.ones 8). rewrite Z.land_ones by lia. apply Z.mod_small. done. }
  split; [done|]. split; [by rewrite Ha2, Ha, Hpend|]. split; [done|]. destruct Hset as (_ & S2 & _).
  split; [by rewrite S2|]. rewrite <- Hi.
  assert (ioce (ac_dev s1) = Z.testbit ctl 4) as <-; [|done].
  unfold ioce. rewrite Hctl. change 0x10 with (Z.shiftl 1 4).
  rewrite truth_land_pow2, Z.ldiff_spec, Hb by lia. cbn. by rewrite andb_true_r.
Qed.
End playback.

(** *** A ring of two buffers *)

Definition demo_ring : bytes := mkBytes 0x1000 (list_to_map (imap (fun k b => (Z.of_nat k, b))
  [0; 1; 0; 0x40; 4; 0; 0; 0x80;      (* 0x40000100, 4 samples, IOC *)
   8; 1; 0; 0x40; 2; 0; 0; 0x80] ++    (* 0x40000108, 2 samples, IOC *)
  [(0x100, 1); (0x102, 2); (0x104, 0xff); (0x105, 0xff); (0x106, 4); (0x108, 5); (0x10a, 6)])).

Definition demo_sound : ac97_sys unit :=
  mkAcSys (ac97_zero true <| bdbar_playback_ := 0x40000000 |> <| po_lvi_ := 1 |> <| raise_intx_ := true |>
             <| use_wall_clock_ := false |>)
    (mkMctrl [RamBank 0x40000000 Big demo_ring] 1 7 (mkBankCache 0 0 None 0 0) tt) [] 0.

#[local] Existing Instance no_devices.
Example demo_sound_plays :
  ac_audio (((write_nabm 0x1b 0x11 1 ;; maybe_tick_device [0; 0; 0])%M demo_sound).2) = [1; 2; -1; 4; 5; 6].
Proof. vm_compute. reflexivity. Qed.

Lemma ring_playback_witness :
  exists s1 s2, write_nabm (PO_BASE + CR) 0x11 1 demo_sound = (Val tt, s1) /\
    maybe_tick_device (repeat 0 7) s1 = (Val tt, s2) /\ ac_audio s2 = [1; 2; -1; 4; 5; 6] /\ (0 < ac_irqs s2)%nat.
Proof.
  destruct (ring_playback 0 0x40000000 demo_ring demo_sound 0x11 (repeat 0 7)) as (s1 & s2 & E1 & E2 & E3 & _ & _ & E4).
  - split; [|apply map_Forall_to_list; vm_compute; repeat constructor; done|done].
    split; [split; [by repeat constructor|]|split; [done|]]; [|vm_compute; split; congruence].
    intros j k bj bk x Hj Hk. apply list_lookup_singleton_Some in Hj as [-> _].
    by apply list_lookup_singleton_Some in Hk as [-> _].
  - vm_compute. split_and!; congruence.
  - done.
  - done.
  - cbn. lia.
  - cbn. lia.
  - intros k Hk. change (buffers_left (ac_dev demo_sound)) with 1%nat in Hk.
    destruct k as [|[|]]; [| |lia]; split; vm_compute; try (split; congruence); congruence.
  - done.
  - done.
  - done.
  - repeat constructor; vm_compute; congruence.
  - apply Nat.ltb_lt. vm_compute. reflexivity.
  - exists s1, s2. split; [done|]. split; [done|]. split; [rewrite E3; vm_compute; reflexivity|exact E4].
Defined.

(** ** The invariant of the device *)

Record ac_inv (a : ac97) : Prop := {
  ai_config : length (config_ a) = 256%nat;
  ai_bars : length (bar_values_ a) = 6%nat;
  ai_probing : length (probing_bar_ a) = 6%nat;
  ai_codec : length (codec_regs_ a) = 64%nat;
  ai_civ : 0 <= po_civ_ a < 32;
  ai_lvi : 0 <= po_lvi_ a < 32;
  ai_status : 0 <= po_status_ a < 32;
  ai_fpt : 0 <= frames_per_tick_dynamic_ a;
  (* a channel that runs is not reported as halted *)
  ai_dch : po_running_ a = true -> Z.testbit (po_status_ a) 0 = false;
  (* frames played and frames left are the frames of the loaded buffer *)
  ai_len : 0 <= po_cur_len_ a < 65536;
  ai_frames : po_cur_len_ a <> 0 -> 0 <= po_picb_ a /\ 0 <= po_cur_bd_frame_offset_bytes_ a /\
    po_cur_bd_frame_offset_bytes_ a + 4 * po_picb_ a = 4 * (po_cur_len_ a / 2) }.

Lemma ldiff_range x y n : 0 <= n -> 0 <= x < 2 ^ n -> 0 <= Z.ldiff x y < 2 ^ n.
Proof.
  intros Hn Hx. apply small_by_bits; [done|]. intros i Hi.
  by rewrite Z.ldiff_spec, (testbit_high x n i) by lia.
Qed.

Lemma status_lor x y : 0 <= x < 32 -> 0 <= y < 32 -> 0 <= Z.lor x y < 32.
Proof. apply (lor_range x y 5). lia. Qed.
Lemma status_ldiff x y : 0 <= x < 32 -> 0 <= Z.ldiff x y < 32.
Proof. apply (ldiff_range x y 5). lia. Qed.
Lemma ring_index x : 0 <= Z.land x 0x1f < 32.
Proof. rewrite land31. apply Z.mod_pos_bound. lia. Qed.

Create HintDb ac97 discriminated.
#[export] Hint Constants Opaque : ac97.
#[export] Hint Resolve status_lor status_ldiff ring_index : ac97.
#[export] Hint Extern 1 (0 <= Zpos _ < 32) => lia : ac97.

(** A register update keeps the invariant: each clause by computation, or by
    the ranges of the bit operations. *)
Ltac ac_inv_step :=
  match goal with
  | H : ac_inv ?a |- ac_inv _ =>
      destruct H; split; cbn -[Z.land Z.lor Z.ldiff Z.add Z.sub Z.mul Z.div Z.testbit insert]; auto with ac97;
      rewrite ?length_insert; try done; try lia; try congruence
  end.

Lemma inv_halted a : ac_inv a -> po_running_ a = false -> ac_inv (halted a).
Proof. intros H Hr. unfold halted. ac_inv_step. Qed.

Lemma inv_load_bd p l c a : 0 <= l < 65536 -> ac_inv a -> ac_inv (load_bd (p, l, c) a).
Proof. intros Hl H. unfold load_bd. ac_inv_step. intros _. Z.div_mod_to_equations. lia. Qed.

Lemma inv_codec l a : length l = length (codec_regs_ a) -> ac_inv a -> ac_inv (a <| codec_regs_ := l |>).
Proof. intros Hl H. ac_inv_step. Qed.
Lemma inv_config l a : length l = length (config_ a) -> ac_inv a -> ac_inv (a <| config_ := l |>).
Proof. intros Hl H. ac_inv_step. Qed.

Lemma inv_glob_sta v a : ac_inv a -> ac_inv (a <| glob_sta_ := v |>).
Proof. intros H. ac_inv_step. Qed.
Lemma inv_power v w a : ac_inv a -> ac_inv (a <| power_ctrl_ := v |> <| power_status_ := w |>).
Proof. intros H. ac_inv_step. Qed.

Lemma array_set_length {A} (l : list A) k v l' : array_set l k v = Some l' -> length l' = length l.
Proof. intros E. destruct (array_set_Some _ _ _ _ E) as [-> _]. apply length_insert. Qed.

Lemma inv_init_codec_cold a : ac_inv a -> ac_inv (init_codec_cold a).
Proof. intros H. unfold init_codec_cold, codec_ready, put_codec. ac_inv_step. Qed.
Lemma inv_init_codec_warm a : ac_inv a -> ac_inv (init_codec_warm a).
Proof. intros H. unfold init_codec_warm, codec_ready, put_codec. ac_inv_step. Qed.
Lemma inv_cold_reset a : ac_inv a -> ac_inv (cold_reset a).
Proof. intros H. apply inv_init_codec_cold in H. unfold cold_reset. ac_inv_step. Qed.
Lemma inv_warm_reset a : ac_inv a -> ac_inv (warm_reset a).
Proof. intros H. apply inv_init_codec_warm in H. unfold warm_reset, codec_ready. ac_inv_step. Qed.
Lemma inv_po_reset_regs a : ac_inv a -> ac_inv (po_reset_regs a).
Proof. intros H. unfold po_reset_regs. ac_inv_step. Qed.
Lemma inv_write_glob_cnt v a : ac_inv a -> ac_inv (write_glob_cnt v a).
Proof.
  intros H. assert (forall w b, ac_inv b -> ac_inv (b <| glob_cnt_ := w |>)) as Hc by (intros w b Hb; ac_inv_step).
  unfold write_glob_cnt. generalize (Hc v a H). generalize (a <| glob_cnt_ := v |>). intros a0 H0. cbv zeta.
  destruct (_ && _); [apply Hc, inv_warm_reset|]; (destruct (_ && _); [by apply Hc, inv_cold_reset|done]).
Qed.
Lemma inv_write_po_lvi v a : ac_inv a -> ac_inv (write_po_lvi v a).
Proof.
  intros H. unfold write_po_lvi. cbv zeta. case_match; [|ac_inv_step]. ac_inv_step.
  intros _. rewrite Z.lor_spec, Z.ldiff_spec. cbn. by rewrite andb_false_r.
Qed.

Section invariant.
Context {W : Type} `{Hdev : DeviceBus W}.
Implicit Types s : ac97_sys W.

Definition sys_inv s : Prop := ac_inv (ac_dev s).

Lemma keeps_upd f : (forall a, ac_inv a -> ac_inv (f a)) -> keeps sys_inv (upd (W:=W) f) (fun _ => True).
Proof. intros Hf. apply keeps_modify; [|done]. intros s Hs. by apply Hf. Qed.

Lemma keeps_upd_opt f :
  (forall a a', ac_inv a -> f a = Some a' -> ac_inv a') -> keeps sys_inv (upd_opt (W:=W) f) (fun _ => True).
Proof.
  intros Hf s Hs. unfold upd_opt. mstep. destruct (f (ac_dev s)) as [a'|] eqn:E; cbn; split; try done.
  by apply (Hf (ac_dev s)).
Qed.

(** Memory accesses leave the device alone. *)
Lemma keeps_on_memory {A} (P : ac97 -> Prop) (m : M (mctrl W) A) :
  keeps (fun s => P (ac_dev s)) (on_memory m) (fun _ => True).
Proof. intros s Hs. rewrite on_memory_detached. unfold zoom. destruct (m (ac_mc s)). done. Qed.

Lemma keeps_mem_read16 (P : ac97 -> Prop) a : keeps (fun s => P (ac_dev s)) (mem_read16 (W:=W) a) is_u16.
Proof.
  eapply keeps_bind; [apply keeps_on_memory|]. intros v _. apply keeps_ret.
  unfold byteswap16. rewrite cat2_sum by (apply byte_at_range; lia).
  pose proof (byte_at_range v 0 ltac:(lia)). pose proof (byte_at_range v 8 ltac:(lia)).
  unfold is_u8, is_u16 in *. lia.
Qed.

Lemma keeps_read_bd (P : ac97 -> Prop) :
  keeps (fun s => P (ac_dev s)) (read_bd (W:=W)) (fun bd => 0 <= bd.1.2 < 65536).
Proof.
  eapply keeps_bind; [apply keeps_gets_any|]. intros x _. eapply keeps_bind.
  { eapply keeps_bind; [apply keeps_on_memory|]. intros v _. by apply (keeps_ret _ _ (fun _ => True)). }
  intros p _. eapply keeps_bind; [apply keeps_mem_read16|]. intros l Hl.
  eapply keeps_bind; [apply keeps_mem_read16|]. intros c _. by apply keeps_ret.
Qed.

Lemma keeps_read_samples (P : ac97 -> Prop) n p :
  keeps (fun s => P (ac_dev s)) (read_samples (W:=W) n p) (fun _ => True).
Proof.
  revert p. induction n as [|n IH]; intros p; [by apply keeps_ret|]. cbn [read_samples].
  eapply keeps_bind; [apply keeps_mem_read16|]. intros v _. eapply keeps_bind; [apply IH|].
  intros l _. by apply keeps_ret.
Qed.

Lemma keeps_raise_point : keeps sys_inv (raise_point (W:=W)) (fun _ => True).
Proof.
  unfold raise_point. eapply keeps_bind; [apply keeps_gets_any|]. intros i _. apply keeps_when; [|done]. intros _.
  eapply keeps_bind; [apply keeps_upd; intros a; apply inv_glob_sta|]. intros _ _. unfold intx.
  eapply keeps_bind; [apply keeps_gets_any|]. intros r _. apply keeps_when; [|done]. intros _.
  apply (keeps_bind _ _ _ (fun _ => True)); [by apply keeps_modify|intros _ _]. apply (keeps_on_memory ac_inv).
Qed.

Lemma inv_buffer_done a : ac_inv a -> ac_inv (a
  <| po_status_ := if truth (Z.land (po_cur_ctl_ a) 0x8000) then Z.lor (po_status_ a) 0x08 else po_status_ a |>
  <| po_civ_ := Z.land (po_civ_ a + 1) 0x1f |>).
Proof.
  intros H. ac_inv_step; destruct (truth _); auto with ac97.
  intros Hr. rewrite Z.lor_spec. change (Z.testbit 8 0) with false. by rewrite orb_false_r, ai_dch0.
Qed.

Lemma inv_stop a : ac_inv a -> ac_inv (a <| po_running_ := false |>).
Proof. intros H. ac_inv_step. Qed.
Lemma inv_unload a : ac_inv a -> ac_inv (a <| po_cur_len_ := 0 |>).
Proof. intros H. ac_inv_step. Qed.

Lemma keeps_bd_complete : keeps sys_inv (bd_complete (W:=W)) (fun _ => True).
Proof.
  unfold bd_complete. eapply keeps_bind; [apply keeps_upd, inv_buffer_done|]. intros _ _.
  eapply keeps_bind; [apply keeps_gets_any|]. intros a _. destruct (_ =? _).
  - eapply keeps_bind; [|intros; apply keeps_raise_point]. apply keeps_upd. intros b H0. unfold halted. ac_inv_step.
  - eapply keeps_bind; [apply keeps_raise_point|]. intros _ _.
    eapply keeps_bind; [apply (keeps_read_bd ac_inv)|]. intros [[p l] c] Hl. destruct (bd_empty _).
    + apply keeps_upd. intros b H0. apply inv_halted; [|done]. by apply inv_unload, inv_stop.
    + apply keeps_upd. intros b H0. by apply inv_load_bd.
Qed.

Lemma inv_advanced todo a :
  ac_inv a -> po_cur_len_ a <> 0 -> 0 <= todo <= po_picb_ a ->
  ac_inv (a <| po_cur_bd_frame_offset_bytes_ := u32 (po_cur_bd_frame_offset_bytes_ a + todo * 4) |>
            <| po_picb_ := u16 (po_picb_ a - todo) |>).
Proof.
  intros Ha Hn Ht. destruct (ai_frames a Ha Hn) as (F1 & F2 & F3). pose proof (ai_len a Ha) as Hl.
  unfold u32, u16. rewrite !Z.mod_small by (Z.div_mod_to_equations; lia).
  destruct Ha; split; try done. intros _. cbn -[Z.mul Z.div Z.add Z.sub]. lia.
Qed.

Lemma play_inv s todo :
  sys_inv s -> po_cur_len_ (ac_dev s) <> 0 -> 0 <= todo <= po_picb_ (ac_dev s) -> sys_inv (play todo s).2.
Proof.
  intros Hs Hn Ht. unfold play. mstep.
  match goal with |- context [read_samples ?n ?p] =>
    destruct (keeps_read_samples (eq (ac_dev s)) n p s eq_refl) as [E _]; set (m := read_samples n p) in * end.
  unfold bindM at 1. destruct (m s) as [[l|e|c|] s1]; cbn [snd] in E; unfold sys_inv in *; rewrite E in *; try done.
  assert (exists s2, pushSamples l s1 = (Val tt, s2) /\ ac_dev s2 = ac_dev s1) as (s2 & E2 & E3).
  { unfold pushSamples. mstep. destruct (host_audio_ _); by eexists. }
  rewrite (bindM_val _ _ _ _ _ E2). mstep. mstep.
  rewrite <- E3 in *. pose proof (inv_advanced todo (ac_dev s2) Hs Hn Ht) as Hi.
  destruct (0 <? _); [done|]. by apply keeps_bd_complete.
Qed.

(** The part of [tick] after the descriptor is loaded. *)
Lemma tick_rest_inv s credit :
  sys_inv s -> po_cur_len_ (ac_dev s) <> 0 -> 0 <= credit ->
  sys_inv ((a ← gets ac_dev;
    if use_wall_clock_ a then
      if negb (po_wall_clock_initialized_ a) then upd (fun a => a <| po_wall_clock_initialized_ := true |>)
      else let todo := Z.min credit (po_picb_ a) in if todo =? 0 then ret tt else play todo
    else play (Z.min (frames_per_tick_dynamic_ a) (po_picb_ a)))%M s).2.
Proof.
  intros Hs Hn Hc. pose proof (ai_fpt _ Hs). destruct (ai_frames _ Hs Hn) as (F1 & _). mstep.
  destruct (use_wall_clock_ _); [|apply play_inv; [done|done|lia]].
  destruct (negb _). { unfold sys_inv in *. by destruct Hs. }
  cbv zeta. destruct (_ =? 0); [done|]. apply play_inv; [done|done|lia].
Qed.

Lemma tick_inv s credit : sys_inv s -> 0 <= credit -> sys_inv (ac97_tick credit s).2.
Proof.
  intros Hs Hc. unfold ac97_tick. mstep. destruct (_ || _); [done|].
  destruct (Z.eqb_spec (po_cur_len_ (ac_dev s)) 0) as [E0|E0].
  2:{ mstep. cbn [negb]. by apply tick_rest_inv. }
  destruct (keeps_read_bd (eq (ac_dev s)) s eq_refl) as [E Hb].
  unfold bindM at 1. unfold bindM at 1. destruct (read_bd s) as [[bd|e|c|] s1]; cbn [fst snd] in E, Hb;
    unfold sys_inv in Hs; rewrite E in Hs; try done. specialize (Hb bd eq_refl). destruct bd as [[p l] c].
  destruct (bd_empty (p, l, c)) eqn:Ee.
  - cbn -[halted]. by apply inv_halted; [apply inv_stop|].
  - apply (tick_rest_inv (mkAcSys (load_bd (p, l, c) (ac_dev s1)) (ac_mc s1) (ac_audio s1) (ac_irqs s1)) credit);
      [|cbn|done].
    + by apply inv_load_bd.
    + unfold bd_empty in Ee. lia.
Qed.

Lemma keeps_read_nabm o w : keeps sys_inv (read_nabm (W:=W) o w) (fun _ => True).
Proof.
  unfold read_nabm, dev. repeat case_match; try (apply keeps_gets_any || by apply keeps_ret || by apply keeps_stop).
  eapply keeps_bind; [apply (keeps_gets _ _ (fun r => ac_inv r.2)); intros s Hs; unfold read_glob_sta|].
  - cbn. case_match; [by apply inv_glob_sta|done].
  - intros r Hr. eapply keeps_bind; [by apply keeps_upd|]. intros. by apply keeps_ret.
Qed.

Lemma keeps_write_po_cr v : keeps sys_inv (write_po_cr (W:=W) v) (fun _ => True).
Proof.
  unfold write_po_cr. eapply keeps_bind; [apply keeps_upd; intros a H0; ac_inv_step|]. intros _ _.
  destruct (truth _); [apply keeps_upd; intros; by apply inv_po_reset_regs|].
  destruct (negb _); [apply keeps_upd; intros a H0; ac_inv_step|].
  eapply keeps_bind; [apply keeps_gets_any|]. intros r _. destruct r; [by apply keeps_ret|].
  eapply keeps_bind; [apply keeps_gets_any|]. intros bar _.
  eapply keeps_bind; [destruct (bar =? 0); [by apply (keeps_ret _ _ (fun _ => True))|apply (keeps_on_memory ac_inv)]|].
  intros o _. destruct o; [|apply keeps_upd; intros a H0; ac_inv_step].
  eapply keeps_bind; [apply (keeps_read_bd ac_inv)|]. intros [[p l] c] Hl.
  destruct (bd_empty _); [apply keeps_upd; intros a H0; ac_inv_step|].
  apply keeps_upd. intros a H0. apply inv_load_bd; [done|]. ac_inv_step.
  intros _. rewrite Z.ldiff_spec. by rewrite andb_false_r.
Qed.

Lemma inv_po_sr_w1c v a : ac_inv a -> ac_inv (a <| po_status_ := Z.ldiff (po_status_ a) v |>).
Proof. intros H0. ac_inv_step. intros Hr. rewrite Z.ldiff_spec, ai_dch0; done. Qed.

Lemma keeps_write_nabm o v w : keeps sys_inv (write_nabm (W:=W) o v w) (fun _ => True).
Proof.
  unfold write_nabm. cbv zeta.
  repeat case_match; first
    [by apply keeps_ret | by apply keeps_stop | apply keeps_write_po_cr
    | apply keeps_upd; intros a Ha; first
        [exact (inv_po_sr_w1c _ _ Ha) | exact (inv_write_po_lvi _ _ Ha) | exact (inv_write_glob_cnt _ _ Ha) | ac_inv_step]].
Qed.

Lemma inv_busy a : ac_inv a -> ac_inv (codec_command_begin a) /\ ac_inv (codec_command_complete a).
Proof. intros Ha. split; by apply inv_glob_sta. Qed.

Lemma inv_read_nam o a : ac_inv a -> ac_inv (read_nam o a).2.
Proof.
  intros Ha. unfold read_nam. destruct (_ <=? _); [done|]. cbv zeta.
  destruct (negb _); cbn [snd]; by apply inv_busy, inv_busy.
Qed.

Lemma inv_put_reg o v a a' : ac_inv a -> put_reg o v a = Some a' -> ac_inv a'.
Proof.
  unfold put_reg. intros Ha E. apply bind_Some in E as (l & E & [= <-]). apply inv_codec; [|done].
  by apply array_set_length in E.
Qed.

Lemma inv_write_nam o v a a' : ac_inv a -> write_nam o v a = Some a' -> ac_inv a'.
Proof.
  intros Ha. unfold write_nam. destruct (_ <=? _); [by intros [= <-]|]. cbv zeta.
  destruct (negb _); [intros [= <-]; by apply inv_busy, inv_busy|].
  intros E. apply bind_Some in E as (b & E & [= <-]). apply inv_busy. revert E.
  generalize (proj1 (inv_busy a Ha)). generalize (codec_command_begin a). clear a Ha. intros a Ha.
  destruct (o =? 0); [intros [= <-]; by apply inv_init_codec_warm|].
  destruct (o =? 0x26); [intros [= <-]; by apply inv_power|]. destruct (o =? 0x28); [by intros [= <-]|].
  destruct (o =? 0x2a); [|destruct (existsb _ _); by apply inv_put_reg].
  unfold handle_0x2A_ext_audio_status. intros E. apply bind_Some in E as (x & _ & E).
  apply bind_Some in E as (l & E & [= <-]). apply inv_codec; [|done]. by apply array_set_length in E.
Qed.

Lemma inv_cfg_write16 o v a a' : ac_inv a -> cfg_write16 o v a = Some a' -> ac_inv a'.
Proof.
  intros Ha E. apply bind_Some in E as (c & E1 & E). apply bind_Some in E as (c' & E2 & [= <-]).
  apply inv_config; [|done]. apply array_set_length in E1, E2. congruence.
Qed.

Lemma inv_cfg_write8 o v a a' : ac_inv a -> cfg_write8 o v a = Some a' -> ac_inv a'.
Proof.
  intros Ha E. apply bind_Some in E as (c & E1 & [= <-]). apply inv_config; [|done]. by apply array_set_length in E1.
Qed.

Lemma inv_cfg_write32 o v a a' : ac_inv a -> cfg_write32 o v a = Some a' -> ac_inv a'.
Proof.
  intros Ha. unfold cfg_write32. destruct (bar_index o) as [k|].
  - cbv zeta. destruct (_ =? _); intros [= <-]; [|unfold set_bar_base; destruct k]; ac_inv_step.
  - intros E. apply bind_Some in E as (c1 & E1 & E). apply bind_Some in E as (c2 & E2 & E).
    apply bind_Some in E as (c3 & E3 & E). apply bind_Some in E as (c4 & E4 & [= <-]).
    apply inv_config; [|done]. apply array_set_length in E1, E2, E3, E4. congruence.
Qed.

(** Everything the guest, the bridge and the board do to the device. *)
Inductive ac_op :=
| IoRead32 (addr : Z) | IoRead16 (addr : Z) | IoRead8 (addr : Z)
| IoWrite32 (addr v : Z) | IoWrite16 (addr v : Z) | IoWrite8 (addr v : Z)
| CfgWrite32 (off v : Z) | CfgWrite16 (off v : Z) | CfgWrite8 (off v : Z)
| Tick (credit : Z) | SetPhysBases (nam nabm : Z) | ForceFrames (val : Z) | SetIntxCb | ColdReset.

(** The arguments have the types of the source. *)
Definition op_typed (op : ac_op) : Prop :=
  match op with Tick c => 0 <= c <= 4096 | ForceFrames v => is_u32 v | _ => True end.

Definition run_op (op : ac_op) : M (ac97_sys W) unit :=
  match op with
  | IoRead32 a => (_ ← io_read32 a; ret tt)%M
  | IoRead16 a => (_ ← io_read16 a; ret tt)%M
  | IoRead8 a => (_ ← io_read8 a; ret tt)%M
  | IoWrite32 a v => io_write32 a v
  | IoWrite16 a v => io_write16 a v
  | IoWrite8 a v => io_write8 a v
  | CfgWrite32 o v => upd_opt (cfg_write32 o v)
  | CfgWrite16 o v => upd_opt (cfg_write16 o v)
  | CfgWrite8 o v => upd_opt (cfg_write8 o v)
  | Tick c => ac97_tick c
  | SetPhysBases n b => upd (set_phys_bases n b)
  | ForceFrames v => upd (force_frames_per_tick v)
  | SetIntxCb => upd set_intx_cb
  | ColdReset => upd cold_reset
  end.

Lemma keeps_dispatch {A} addr (nam nabm : Z -> M (ac97_sys W) A) none :
  (forall o, keeps sys_inv (nam o) (fun _ => True)) -> (forall o, keeps sys_inv (nabm o) (fun _ => True)) ->
  keeps sys_inv none (fun _ => True) -> keeps sys_inv (io_dispatch addr nam nabm none) (fun _ => True).
Proof.
  intros H1 H2 H3. unfold io_dispatch. eapply keeps_bind; [apply keeps_gets_any|]. intros a _.
  destruct (in_io_window _ _); [done|]. by destruct (in_io_window _ _).
Qed.

Lemma keeps_m_read_nam o : keeps sys_inv (m_read_nam (W:=W) o) (fun _ => True).
Proof.
  unfold m_read_nam. eapply keeps_bind; [apply (keeps_gets _ _ (fun r => ac_inv r.2)); intros s; apply inv_read_nam|].
  intros r Hr. eapply keeps_bind; [by apply keeps_upd|]. intros _ _. eapply keeps_any, keeps_or_ub.
Qed.

Lemma keeps_discard {A B} (m : M (ac97_sys W) A) (f : A -> B) :
  keeps sys_inv m (fun _ => True) -> keeps sys_inv (bindM m (fun v => ret (f v))) (fun _ => True).
Proof. intros Hm. eapply keeps_bind; [exact Hm|]. intros. by apply keeps_ret. Qed.

Lemma run_op_inv op s : op_typed op -> sys_inv s -> sys_inv (run_op op s).2.
Proof.
  intros Ht Hs. destruct op; cbn [run_op op_typed] in *.
  10:{ apply tick_inv; [done|lia]. }
  all: match goal with |- sys_inv (?m ?x).2 =>
         assert (keeps sys_inv m (fun _ => True)) as Hk; [|by apply (Hk x Hs)] end.
  1-3: apply keeps_discard.
  1,2: apply keeps_dispatch; try (by apply keeps_ret); intros o;
    first [apply keeps_discard|idtac]; (apply keeps_m_read_nam || apply keeps_read_nabm).
  1: unfold io_read8, dev; eapply keeps_bind; [apply keeps_gets_any|]; intros b _;
     destruct (in_io_window _ _); [apply keeps_discard, keeps_read_nabm|by apply keeps_ret].
  1,2: apply keeps_dispatch; try (by apply keeps_ret); intros o;
    [apply keeps_upd_opt; intros a a'; apply inv_write_nam|apply keeps_write_nabm].
  1: unfold io_write8, dev; eapply keeps_bind; [apply keeps_gets_any|]; intros b _;
     destruct (in_io_window _ _); [apply keeps_write_nabm|by apply keeps_ret].
  1: apply keeps_upd_opt; intros a a'; apply inv_cfg_write32.
  1: apply keeps_upd_opt; intros a a'; apply inv_cfg_write16.
  1: apply keeps_upd_opt; intros a a'; apply inv_cfg_write8.
  all: apply keeps_upd; intros a Ha; try (by apply inv_cold_reset).
  all: unfold set_phys_bases, force_frames_per_tick, set_intx_cb; unfold is_u32 in *; ac_inv_step.
Qed.

(** The states of a device between construction and any later moment; the
    memory may be changed by others at any time. *)
Inductive ac_reachable : ac97_sys W -> Prop :=
| acr_new audio a m : init_pci_config (ac97_zero audio) = Some a -> ac_reachable (mkAcSys a m [] 0)
| acr_op s op : ac_reachable s -> op_typed op -> ac_reachable (run_op op s).2
| acr_memory s m : ac_reachable s -> ac_reachable (mkAcSys (ac_dev s) m (ac_audio s) (ac_irqs s)).

(** In every state the device can reach, whatever the guest writes and
    whatever its memory holds, also after an access or a tick that threw: the
    ring indices stay in the ring, a running channel is never reported as
    halted, and frames played plus frames left are the frames of the loaded
    descriptor. *)
Theorem ac97_invariant s : ac_reachable s -> ac_inv (ac_dev s).
Proof.
  induction 1 as [audio a m Hi|s op Hs IH Ht|s m Hs IH]; [|by apply run_op_inv|done].
  assert (init_pci_config (ac97_zero audio) = Some a) as E by done. vm_compute in E. injection E as <-.
  split; try done; cbn; lia.
Qed.
End invariant.

(** ** Codec registers and configuration space *)

(** What a codec register holds after a write of [v]. *)
Definition nam_stored (off v : Z) : Z :=
  if off =? 0x26 then Z.ldiff 0x000f v
  else if existsb (Z.eqb off) [0x02; 0x04; 0x18; 0x1a] then mask_volume_reg v else v.

Lemma nam_valid_even off : nam_valid off = true -> 0 <= off < 0x80 /\ off = 2 * Z.shiftr off 1.
Proof.
  unfold nam_valid. intros Hv. apply existsb_exists in Hv as (x & Hin & E%Z.eqb_eq). subst x.
  repeat (destruct Hin as [<-|Hin]; [done|]). destruct Hin.
Qed.

Lemma array_get_set {A} (l : list A) i j v l' :
  0 <= j -> array_set l i v = Some l' -> array_get l' j = if decide (i = j) then Some v else array_get l j.
Proof.
  intros Hj E. apply array_set_Some in E as [-> Hi]. unfold array_get.
  rewrite (proj2 (Z.ltb_ge j 0)) by lia. destruct (decide (i = j)) as [<-|].
  - rewrite list_lookup_insert_eq; [done|lia].
  - rewrite list_lookup_insert_ne; [done|lia].
Qed.

Lemma read_nam_plain off a :
  nam_valid off = true -> off <> 0 -> off <> 0x26 -> (read_nam off a).1 = array_get (codec_regs_ a) (Z.shiftr off 1).
Proof.
  intros Hv H0 H1. destruct (nam_valid_even off Hv) as [Hr _]. unfold read_nam.
  rewrite (proj2 (Z.leb_gt _ _)) by lia. cbv zeta.
  by rewrite Hv, (proj2 (Z.eqb_neq off 0) H0), (proj2 (Z.eqb_neq off 0x26) H1).
Qed.

Lemma read_nam_power a : (read_nam 0x26 a).1 = Some (power_status_ a).
Proof. done. Qed.
Lemma read_nam_reset a : (read_nam 0 a).1 = Some 0x0a00.
Proof. done. Qed.

Lemma busy_released v : Z.testbit (Z.ldiff v GS_BUSY) 2 = false.
Proof. rewrite Z.ldiff_spec. cbn. by rewrite andb_false_r. Qed.

(** A write of a plain register: the effect on the register file. *)
Lemma write_nam_effect off v a :
  length (codec_regs_ a) = 64%nat -> nam_valid off = true -> off <> 0 -> off <> 0x28 -> off <> 0x2a ->
  exists a', write_nam off v a = Some a' /\ Z.testbit (glob_sta_ a') 2 = false /\
    if off =? 0x26 then power_status_ a' = Z.ldiff 0x000f v /\ codec_regs_ a' = codec_regs_ a
    else power_status_ a' = power_status_ a /\
      array_set (codec_regs_ a) (Z.shiftr off 1) (nam_stored off v) = Some (codec_regs_ a').
Proof.
  intros Hl Hv H0 H1 H2. destruct (nam_valid_even off Hv) as [Hr He]. unfold write_nam, nam_stored.
  rewrite (proj2 (Z.leb_gt _ _)), Hv, (proj2 (Z.eqb_neq off 0)), (proj2 (Z.eqb_neq off 0x28)),
    (proj2 (Z.eqb_neq off 0x2a)) by lia. cbv zeta. cbn [negb].
  destruct (off =? 0x26).
  - eexists. split; [reflexivity|]. split; [apply busy_released|]. split; [|done]. cbn.
    destruct (Z.eqb_spec v 0) as [->|]; done.
  - set (w := if existsb (Z.eqb off) [0x02; 0x04; 0x18; 0x1a] then mask_volume_reg v else v).
    assert ((if existsb (Z.eqb off) [0x02; 0x04; 0x18; 0x1a]
             then put_reg off (mask_volume_reg v) (codec_command_begin a)
             else put_reg off v (codec_command_begin a)) = put_reg off w (codec_command_begin a)) as ->
      by (unfold w; by destruct (existsb _ _)).
    unfold put_reg. change (codec_regs_ (codec_command_begin a)) with (codec_regs_ a).
    rewrite array_set_in by lia. cbn -[Z.shiftr insert].
    eexists. split; [reflexivity|]. split; [apply busy_released|]. done.
Qed.

(** The codec answers with what was written: after a write to a writable
    register, a read returns the value with the reserved volume bits clear (or
    the powered-up sections, for the power register), every other register
    still reads as before, and the access semaphore is released. *)
Theorem codec_roundtrip off v a :
  length (codec_regs_ a) = 64%nat -> nam_valid off = true -> off <> 0 -> off <> 0x28 -> off <> 0x2a ->
  exists a', write_nam off v a = Some a' /\ (read_nam off a').1 = Some (nam_stored off v) /\
    (forall o, nam_valid o = true -> o <> off -> (read_nam o a').1 = (read_nam o a).1) /\
    Z.testbit (glob_sta_ a') 2 = false.
Proof.
  intros Hl Hv H0 H1 H2. destruct (nam_valid_even off Hv) as [Hr He].
  destruct (write_nam_effect off v a Hl Hv H0 H1 H2) as (a' & E & Hb & Heff). exists a'. split; [done|].
  assert (forall o, nam_valid o = true -> o <> 0 -> o <> 0x26 -> off <> 0x26 ->
    (read_nam o a').1 = if decide (off = o) then Some (nam_stored off v) else (read_nam o a).1) as Hregs.
  { intros o Ho Ho0 Ho1 Hp. rewrite !read_nam_plain by done. destruct (nam_valid_even o Ho) as [Hor Hoe].
    rewrite (proj2 (Z.eqb_neq off 0x26) Hp) in Heff. destruct Heff as [_ Hs].
    assert (0 <= Z.shiftr o 1) as Hz by lia. rewrite (array_get_set _ _ _ _ _ Hz Hs).
    destruct (decide (off = o)) as [->|]; [by rewrite decide_True|by rewrite decide_False by lia]. }
  split; [|split; [|done]].
  - destruct (decide (off = 0x26)) as [->|Hn]; [by rewrite read_nam_power, (proj1 Heff)|].
    by rewrite Hregs, decide_True.
  - intros o Ho Hne. destruct (decide (o = 0)) as [->|]; [done|].
    destruct (decide (o = 0x26)) as [->|].
    + rewrite !read_nam_power. rewrite (proj2 (Z.eqb_neq off 0x26)) in Heff by done. by rewrite (proj1 Heff).
    + destruct (decide (off = 0x26)) as [->|]; [|by rewrite Hregs, decide_False].
      rewrite !read_nam_plain by done. by rewrite (proj2 Heff).
Qed.

Lemma codec_roundtrip_witness :
  exists a', write_nam 0x02 0xffff (ac97_zero true) = Some a' /\ (read_nam 0x02 a').1 = Some 0x9f1f.
Proof.
  destruct (codec_roundtrip 0x02 0xffff (ac97_zero true)) as (a' & E1 & E2 & _); try done. by exists a'.
Defined.

Lemma le_word v :
  is_u32 v ->
  Z.lor (Z.lor (Z.lor (byte_at v 0) (Z.shiftl (byte_at v 8) 8)) (Z.shiftl (byte_at v 16) 16))
    (Z.shiftl (byte_at v 24) 24) = v.
Proof.
  intros Hv. rewrite <- (cat4_byte_at v Hv) at 5. unfold cat4.
  rewrite (Z.lor_comm (Z.lor (Z.lor _ _) _)), (Z.lor_comm (Z.lor (byte_at v 0) _)), (Z.lor_comm (byte_at v 0)),
    !Z.lor_assoc. done.
Qed.

(** A 32-bit write outside the base address registers, read back. *)
Lemma cfg_word_roundtrip off v a :
  length (config_ a) = 256%nat -> bar_index off = None -> 0 <= off <= 252 -> is_u32 v ->
  exists a', cfg_write32 off v a = Some a' /\ cfg_read32 off a' = Some v /\
    (forall o, 0 <= o -> o < off \/ off + 4 <= o -> cfg_read8 o a' = cfg_read8 o a).
Proof.
  intros Hl Hb Ho Hv. unfold cfg_write32, cfg_read32. rewrite Hb.
  destruct (array_set (config_ a) off (byte_at v 0)) as [c1|] eqn:E1; [|rewrite array_set_in in E1 by lia; done].
  pose proof (array_set_length _ _ _ _ E1).
  destruct (array_set c1 (off + 1) (byte_at v 8)) as [c2|] eqn:E2; [|rewrite array_set_in in E2 by lia; done].
  pose proof (array_set_length _ _ _ _ E2).
  destruct (array_set c2 (off + 2) (byte_at v 16)) as [c3|] eqn:E3; [|rewrite array_set_in in E3 by lia; done].
  pose proof (array_set_length _ _ _ _ E3).
  destruct (array_set c3 (off + 3) (byte_at v 24)) as [c4|] eqn:E4; [|rewrite array_set_in in E4 by lia; done].
  cbn -[Z.lor Z.shiftl]. rewrite E2. cbn -[Z.lor Z.shiftl]. rewrite E3. cbn -[Z.lor Z.shiftl]. rewrite E4. cbn -[Z.lor Z.shiftl].
  eexists. split; [done|]. cbn -[Z.lor Z.shiftl].
  assert (forall j, 0 <= j -> array_get c4 j =
    if decide (off + 3 = j) then Some (byte_at v 24) else if decide (off + 2 = j) then Some (byte_at v 16)
    else if decide (off + 1 = j) then Some (byte_at v 8) else if decide (off = j) then Some (byte_at v 0)
    else array_get (config_ a) j) as Hg.
  { intros j Hj. rewrite (array_get_set _ _ _ _ _ Hj E4), (array_get_set _ _ _ _ _ Hj E3),
      (array_get_set _ _ _ _ _ Hj E2), (array_get_set _ _ _ _ _ Hj E1). done. }
  split.
  - rewrite !Hg by lia. repeat (case_decide; [|lia || idtac]; try lia). cbn -[Z.lor Z.shiftl]. by rewrite le_word.
  - intros o Hpos Hout. unfold cfg_read8. cbn. rewrite Hg by done. by repeat (rewrite decide_False by lia).
Qed.

(** A base address register: sizing, and assignment. *)
Lemma bar_probe reg k a :
  ac_inv a -> bar_index reg = Some k ->
  exists a', cfg_write32 reg 0xffffffff a = Some a' /\ cfg_read32 reg a' = Some 0xffffff00 /\ ac_inv a' /\
    nam_base_ a' = nam_base_ a /\ nabm_base_ a' = nabm_base_ a.
Proof.
  intros Ha Eb. assert (k < 6)%nat as Hk by (unfold bar_index in Eb; repeat case_match; simplify_eq; lia).
  destruct (lookup_lt_is_Some_2 (bar_values_ a) k) as [w Hw]; [by rewrite (ai_bars a Ha)|].
  unfold cfg_write32, cfg_read32. rewrite Eb. eexists. split; [reflexivity|]. cbn -[insert list_insert].
  rewrite list_lookup_insert_eq by (by rewrite (ai_probing a Ha)). cbn -[insert list_insert]. rewrite Hw.
  split; [done|]. split; [|done]. ac_inv_step.
Qed.

Lemma bar_assign reg k v a :
  ac_inv a -> bar_index reg = Some k -> v <> 0xffffffff ->
  exists a', cfg_write32 reg v a = Some a' /\ cfg_read32 reg a' = Some (Z.land v 0xfffffff0) /\ ac_inv a' /\
    (if decide (k = 0%nat) then nam_base_ a' = Z.land v 0xfffffff0 /\ nabm_base_ a' = nabm_base_ a
     else nabm_base_ a' = Z.land v 0xfffffff0 /\ nam_base_ a' = nam_base_ a).
Proof.
  intros Ha Eb Hne. assert (k < 6)%nat as Hk by (unfold bar_index in Eb; repeat case_match; simplify_eq; lia).
  unfold cfg_write32, cfg_read32. rewrite Eb, (proj2 (Z.eqb_neq _ _) Hne). cbv zeta. eexists. split; [reflexivity|].
  unfold set_bar_base. destruct k; cbn -[Z.land insert list_insert];
    rewrite (list_lookup_insert_eq (probing_bar_ a)) by (by rewrite (ai_probing a Ha)); cbn -[Z.land insert list_insert];
    rewrite (list_lookup_insert_eq (bar_values_ a)) by (by rewrite (ai_bars a Ha)); (split; [done|]); (split; [|done]); ac_inv_step.
Qed.

(** Configuration space.  Writing all ones to a base address register and
    reading it returns the size mask of a 256-byte window; writing an address
    then reading returns the address without its low four bits, which is also
    the base the accesses are dispatched on, and the other window is unchanged;
    a word written anywhere else reads back, with all other bytes unchanged. *)
Theorem config_roundtrip a off v :
  ac_inv a -> 0 <= off <= 252 -> is_u32 v ->
  match bar_index off with
  | Some k =>
      exists p, cfg_write32 off 0xffffffff a = Some p /\ cfg_read32 off p = Some 0xffffff00 /\
        (v <> 0xffffffff -> exists a', cfg_write32 off v p = Some a' /\
           cfg_read32 off a' = Some (Z.land v 0xfffffff0) /\
           (if decide (k = 0%nat) then nam_base_ a' = Z.land v 0xfffffff0 /\ nabm_base_ a' = nabm_base_ a
            else nabm_base_ a' = Z.land v 0xfffffff0 /\ nam_base_ a' = nam_base_ a))
  | None =>
      exists a', cfg_write32 off v a = Some a' /\ cfg_read32 off a' = Some v /\
        (forall o, 0 <= o -> o < off \/ off + 4 <= o -> cfg_read8 o a' = cfg_read8 o a)
  end.
Proof.
  intros Ha Ho Hv. destruct (bar_index off) as [k|] eqn:Eb; [|by apply cfg_word_roundtrip; [apply Ha|..]].
  destruct (bar_probe off k a Ha Eb) as (p & E1 & E2 & Hp & Hn & Hb). exists p. split; [done|]. split; [done|].
  intros Hne. destruct (bar_assign off k v p Hp Eb Hne) as (a' & E3 & E4 & _ & Hbase). exists a'.
  rewrite <- Hn, <- Hb. done.
Qed.

Lemma demo_ac_inv : ac_inv (ac97_zero true).
Proof. split; try done; cbn; lia. Qed.

Lemma config_roundtrip_witness :
  exists p a', cfg_write32 0x14 0xffffffff (ac97_zero true) = Some p /\ cfg_read32 0x14 p = Some 0xffffff00 /\
    cfg_write32 0x14 0x24000105 p = Some a' /\ nabm_base_ a' = 0x24000100.
Proof.
  destruct (config_roundtrip (ac97_zero true) 0x14 0x24000105) as (p & E1 & E2 & E3);
    [apply demo_ac_inv|lia|unfold is_u32; lia|].
  destruct E3 as (a' & E3 & _ & E4 & _); [lia|]. exists p, a'. split; [done|]. split; [done|]. split; [done|exact E4].
Defined.

Lemma ac97_invariant_witness :
  ac_inv (ac_dev (run_op (W:=unit) (Tick 48) (run_op (IoWrite8 0x1b 0x11) (mkAcSys
    (default (ac97_zero true) (init_pci_config (ac97_zero true))) demo_empty [] 0)).2).2).
Proof.
  apply (ac97_invariant (W:=unit)). apply acr_op; [|cbn; lia]. apply acr_op; [|done].
  apply (acr_new true). vm_compute. reflexivity.
Defined.

(** ** Two corners of the engine *)

(** In wall-clock mode a descriptor of one sample loads no frame, and every
    later tick leaves the state as it is: the channel runs for ever. *)
Lemma short_descriptor_stalls {W} `{DeviceBus W} (s : ac97_sys W) credit :
  let a := ac_dev s in
  po_running_ a = true -> bdbar_playback_ a <> 0 -> po_cur_len_ a = 1 -> po_picb_ a = 0 ->
  use_wall_clock_ a = true -> po_wall_clock_initialized_ a = true -> 0 <= credit ->
  ac97_tick credit s = (Val tt, s).
Proof.
  cbv zeta. intros Hr Hb Hl Hp Hw Hi Hc. unfold ac97_tick. mstep.
  rewrite Hr, (proj2 (Z.eqb_neq _ _) Hb), Hl. cbn [negb orb]. mstep. cbn [negb]. mstep.
  by rewrite Hw, Hi, Hp, Z.min_r by done.
Qed.

(** A channel that stopped after its last valid buffer and is started through
    the control register still remembers the stop: a later stop through an
    empty descriptor is then resumed by a write of the last valid index. *)
Example restart_keeps_halt_flag :
  let s := ((write_nabm 0x1b 0x11 1 ;; maybe_tick_device [0; 0] ;; write_nabm 0x15 0 1)%M
              (mkAcSys (ac_dev demo_sound <| po_lvi_ := 0 |>) (ac_mc demo_sound) [] 0)).2 in
  po_lvbci_halted_ (ac_dev s) = true /\ po_running_ (ac_dev s) = false /\
  let s' := (write_nabm 0x1b 0x11 1 s).2 in
  po_lvbci_halted_ (ac_dev s') = true /\ po_running_ (ac_dev s') = true.
Proof. vm_compute. done. Qed.
