(* ===== verification/Video.v ===== *)
(** * The display controller, the display thread and the keyboard
      (src/src/peripherals/SVGA.h, Display.h, Display.cpp)

    [SVGA] is an APB slave that drives a [Display]: a window whose thread copies
    the guest's frame buffer into a texture, and turns key events into the bytes
    of a PS/2 keyboard.  The graphics library appears as the pitch it gives a
    texture and as the list of events a pass of the thread finds.  The frame
    buffer is a host pointer into a bank, as for the page caches of [Mmu]. *)
From S2P Require Import Prelude Mctrl Mmu Exec Irqmp Ps2 Ac97.

(** ** Key codes *)

(** The scan codes the table of [Display.cpp] names; [SDL_other] are the rest
    below [SDL_NUM_SCANCODES], [SDL_invalid] those from it on. *)
Inductive SDL_Scancode :=
  | SDL_SCANCODE_A | SDL_SCANCODE_B | SDL_SCANCODE_C | SDL_SCANCODE_D | SDL_SCANCODE_E
  | SDL_SCANCODE_F | SDL_SCANCODE_G | SDL_SCANCODE_H | SDL_SCANCODE_I | SDL_SCANCODE_J
  | SDL_SCANCODE_K | SDL_SCANCODE_L | SDL_SCANCODE_M | SDL_SCANCODE_N | SDL_SCANCODE_O
  | SDL_SCANCODE_P | SDL_SCANCODE_Q | SDL_SCANCODE_R | SDL_SCANCODE_S | SDL_SCANCODE_T
  | SDL_SCANCODE_U | SDL_SCANCODE_V | SDL_SCANCODE_W | SDL_SCANCODE_X | SDL_SCANCODE_Y
  | SDL_SCANCODE_Z | SDL_SCANCODE_1 | SDL_SCANCODE_2 | SDL_SCANCODE_3 | SDL_SCANCODE_4
  | SDL_SCANCODE_5 | SDL_SCANCODE_6 | SDL_SCANCODE_7 | SDL_SCANCODE_8 | SDL_SCANCODE_9
  | SDL_SCANCODE_0 | SDL_SCANCODE_RETURN | SDL_SCANCODE_ESCAPE | SDL_SCANCODE_BACKSPACE
  | SDL_SCANCODE_TAB | SDL_SCANCODE_SPACE | SDL_SCANCODE_MINUS | SDL_SCANCODE_EQUALS
  | SDL_SCANCODE_LEFTBRACKET | SDL_SCANCODE_RIGHTBRACKET | SDL_SCANCODE_BACKSLASH
  | SDL_SCANCODE_SEMICOLON | SDL_SCANCODE_APOSTROPHE | SDL_SCANCODE_GRAVE | SDL_SCANCODE_COMMA
  | SDL_SCANCODE_PERIOD | SDL_SCANCODE_SLASH | SDL_SCANCODE_NONUSBACKSLASH
  | SDL_SCANCODE_CAPSLOCK | SDL_SCANCODE_F1 | SDL_SCANCODE_F2 | SDL_SCANCODE_F3
  | SDL_SCANCODE_F4 | SDL_SCANCODE_F5 | SDL_SCANCODE_F6 | SDL_SCANCODE_F7 | SDL_SCANCODE_F8
  | SDL_SCANCODE_F9 | SDL_SCANCODE_F10 | SDL_SCANCODE_F11 | SDL_SCANCODE_F12
  | SDL_SCANCODE_SCROLLLOCK | SDL_SCANCODE_INSERT | SDL_SCANCODE_HOME | SDL_SCANCODE_PAGEUP
  | SDL_SCANCODE_DELETE | SDL_SCANCODE_END | SDL_SCANCODE_PAGEDOWN | SDL_SCANCODE_RIGHT
  | SDL_SCANCODE_LEFT | SDL_SCANCODE_DOWN | SDL_SCANCODE_UP | SDL_SCANCODE_LCTRL
  | SDL_SCANCODE_LSHIFT | SDL_SCANCODE_LALT | SDL_SCANCODE_LGUI | SDL_SCANCODE_RCTRL
  | SDL_SCANCODE_RSHIFT | SDL_SCANCODE_RALT | SDL_SCANCODE_RGUI
  | SDL_other | SDL_invalid.

(** The table of set 2 codes: 0 is unmapped, [0xe0] in the upper byte marks an
    extended code. *)
Definition ps2_set2_table (sc : SDL_Scancode) : Z :=
  match sc with
  | SDL_SCANCODE_A => 0x001C | SDL_SCANCODE_B => 0x0032 | SDL_SCANCODE_C => 0x0021
  | SDL_SCANCODE_D => 0x0023 | SDL_SCANCODE_E => 0x0024 | SDL_SCANCODE_F => 0x002B
  | SDL_SCANCODE_G => 0x0034 | SDL_SCANCODE_H => 0x0033 | SDL_SCANCODE_I => 0x0043
  | SDL_SCANCODE_J => 0x003B | SDL_SCANCODE_K => 0x0042 | SDL_SCANCODE_L => 0x004B
  | SDL_SCANCODE_M => 0x003A | SDL_SCANCODE_N => 0x0031 | SDL_SCANCODE_O => 0x0044
  | SDL_SCANCODE_P => 0x004D | SDL_SCANCODE_Q => 0x0015 | SDL_SCANCODE_R => 0x002D
  | SDL_SCANCODE_S => 0x001B | SDL_SCANCODE_T => 0x002C | SDL_SCANCODE_U => 0x003C
  | SDL_SCANCODE_V => 0x002A | SDL_SCANCODE_W => 0x001D | SDL_SCANCODE_X => 0x0022
  | SDL_SCANCODE_Y => 0x0035 | SDL_SCANCODE_Z => 0x001A | SDL_SCANCODE_1 => 0x0016
  | SDL_SCANCODE_2 => 0x001E | SDL_SCANCODE_3 => 0x0026 | SDL_SCANCODE_4 => 0x0025
  | SDL_SCANCODE_5 => 0x002E | SDL_SCANCODE_6 => 0x0036 | SDL_SCANCODE_7 => 0x003D
  | SDL_SCANCODE_8 => 0x003E | SDL_SCANCODE_9 => 0x0046 | SDL_SCANCODE_0 => 0x0045
  | SDL_SCANCODE_RETURN => 0x005A | SDL_SCANCODE_ESCAPE => 0x0076
  | SDL_SCANCODE_BACKSPACE => 0x0066 | SDL_SCANCODE_TAB => 0x000D
  | SDL_SCANCODE_SPACE => 0x0029 | SDL_SCANCODE_MINUS => 0x004E | SDL_SCANCODE_EQUALS => 0x0055
  | SDL_SCANCODE_LEFTBRACKET => 0x0054 | SDL_SCANCODE_RIGHTBRACKET => 0x005B
  | SDL_SCANCODE_BACKSLASH => 0x005D | SDL_SCANCODE_SEMICOLON => 0x004C
  | SDL_SCANCODE_APOSTROPHE => 0x0052 | SDL_SCANCODE_GRAVE => 0x000E
  | SDL_SCANCODE_COMMA => 0x0041 | SDL_SCANCODE_PERIOD => 0x0049 | SDL_SCANCODE_SLASH => 0x004A
  | SDL_SCANCODE_NONUSBACKSLASH => 0x0061 | SDL_SCANCODE_CAPSLOCK => 0x0058
  | SDL_SCANCODE_F1 => 0x0005 | SDL_SCANCODE_F2 => 0x0006 | SDL_SCANCODE_F3 => 0x0004
  | SDL_SCANCODE_F4 => 0x000C | SDL_SCANCODE_F5 => 0x0003 | SDL_SCANCODE_F6 => 0x000B
  | SDL_SCANCODE_F7 => 0x0083 | SDL_SCANCODE_F8 => 0x000A | SDL_SCANCODE_F9 => 0x0001
  | SDL_SCANCODE_F10 => 0x0009 | SDL_SCANCODE_F11 => 0x0078 | SDL_SCANCODE_F12 => 0x0007
  | SDL_SCANCODE_SCROLLLOCK => 0x007E | SDL_SCANCODE_INSERT => 0xE070
  | SDL_SCANCODE_HOME => 0xE06C | SDL_SCANCODE_PAGEUP => 0xE07D | SDL_SCANCODE_DELETE => 0xE071
  | SDL_SCANCODE_END => 0xE069 | SDL_SCANCODE_PAGEDOWN => 0xE07A | SDL_SCANCODE_RIGHT => 0xE074
  | SDL_SCANCODE_LEFT => 0xE06B | SDL_SCANCODE_DOWN => 0xE072 | SDL_SCANCODE_UP => 0xE075
  | SDL_SCANCODE_LCTRL => 0x0014 | SDL_SCANCODE_LSHIFT => 0x0012 | SDL_SCANCODE_LALT => 0x0011
  | SDL_SCANCODE_LGUI => 0xE01F | SDL_SCANCODE_RCTRL => 0xE014 | SDL_SCANCODE_RSHIFT => 0x0059
  | SDL_SCANCODE_RALT => 0xE011 | SDL_SCANCODE_RGUI => 0xE027
  | SDL_other | SDL_invalid => 0
  end.

Definition is_key_A (sc : SDL_Scancode) : bool := match sc with SDL_SCANCODE_A => true | _ => false end.
Definition is_key_X (sc : SDL_Scancode) : bool := match sc with SDL_SCANCODE_X => true | _ => false end.
Definition scancode_in_range (sc : SDL_Scancode) : bool := match sc with SDL_invalid => false | _ => true end.

(** A key event: [SDL_KEYDOWN] or [SDL_KEYUP], and whether a control key is
    held; other events are ignored. *)
Inductive SDL_Event :=
| KeyEvent (down : bool) (sc : SDL_Scancode) (ctrl : bool)
| OtherEvent.

(** ** State *)

(** A streaming texture: its size and its pixel words. *)
Record texture := mkTexture { tex_w : Z; tex_h : Z; tex_px : bytes }.

(** Where the render thread stands: not started, in the first wait, at the head
    of the outer loop, in the inner loop, returned. *)
Inductive render_pc := NotStarted | FirstWait | OuterLoop | InnerLoop | Returned.

(** The members of [Display]; the frame buffer is a bank number and an offset in
    its buffer, [None] for [nullptr]. *)
Record display := mkDisplay {
  dp_width : Z; dp_height : Z; dp_bpp : Z; dp_resolution_changed : bool;
  dp_framebuffer : option (nat * Z); dp_running : bool; dp_enabled : bool;
  dp_hideWindowWhenDisabled : bool; dp_key_callback : bool; dp_palette : list Z;
  dp_escape_pending : bool; dp_a_keydown_suppressed : bool }.

(** The registers of [SVGA]. *)
Record svga := mkSvga {
  sv_stat : Z; sv_vlen : Z; sv_fporch : Z; sv_synlen : Z; sv_linlen : Z; sv_fbuf : Z;
  sv_dclk0 : Z; sv_dclk1 : Z; sv_dclk2 : Z; sv_dclk3 : Z; sv_palette : list Z; sv_bpp : Z;
  sv_display_started : bool }.

(** The controller and its display, the locals of the render thread (texture
    and program position), what the window shows ([None] is black or hidden), the
    [SIGTERM]s raised, and the two objects they refer to: the memory controller
    and the keyboard controller. *)
Record video (W : Type) := mkVideo {
  v_svga : svga; v_dp : display; v_tex : texture; v_pc : render_pc; v_screen : option texture;
  v_sigterm : nat; v_mc : mctrl W; v_ps2 : ps2_sys }.
Arguments mkVideo {_}.
Arguments v_svga {_} _.
Arguments v_dp {_} _.
Arguments v_tex {_} _.
Arguments v_pc {_} _.
Arguments v_screen {_} _.
Arguments v_sigterm {_} _.
Arguments v_mc {_} _.
Arguments v_ps2 {_} _.

#[export] Instance eta_display : Eta display := fun r =>
  mkDisplay (dp_width r) (dp_height r) (dp_bpp r) (dp_resolution_changed r) (dp_framebuffer r) (dp_running r) (dp_enabled r) (dp_hideWindowWhenDisabled r) (dp_key_callback r) (dp_palette r) (dp_escape_pending r) (dp_a_keydown_suppressed r).
#[export] Instance set_dp_width : Setter dp_width := ltac:(derive_setter).
#[export] Instance set_dp_height : Setter dp_height := ltac:(derive_setter).
#[export] Instance set_dp_bpp : Setter dp_bpp := ltac:(derive_setter).
#[export] Instance set_dp_resolution_changed : Setter dp_resolution_changed := ltac:(derive_setter).
#[export] Instance set_dp_framebuffer : Setter dp_framebuffer := ltac:(derive_setter).
#[export] Instance set_dp_running : Setter dp_running := ltac:(derive_setter).
#[export] Instance set_dp_enabled : Setter dp_enabled := ltac:(derive_setter).
#[export] Instance set_dp_hideWindowWhenDisabled : Setter dp_hideWindowWhenDisabled := ltac:(derive_setter).
#[export] Instance set_dp_key_callback : Setter dp_key_callback := ltac:(derive_setter).
#[export] Instance set_dp_palette : Setter dp_palette := ltac:(derive_setter).
#[export] Instance set_dp_escape_pending : Setter dp_escape_pending := ltac:(derive_setter).
#[export] Instance set_dp_a_keydown_suppressed : Setter dp_a_keydown_suppressed := ltac:(derive_setter).
#[export] Instance eta_svga : Eta svga := fun r =>
  mkSvga (sv_stat r) (sv_vlen r) (sv_fporch r) (sv_synlen r) (sv_linlen r) (sv_fbuf r) (sv_dclk0 r) (sv_dclk1 r) (sv_dclk2 r) (sv_dclk3 r) (sv_palette r) (sv_bpp r) (sv_display_started r).
#[export] Instance set_sv_stat : Setter sv_stat := ltac:(derive_setter).
#[export] Instance set_sv_vlen : Setter sv_vlen := ltac:(derive_setter).
#[export] Instance set_sv_fporch : Setter sv_fporch := ltac:(derive_setter).
#[export] Instance set_sv_synlen : Setter sv_synlen := ltac:(derive_setter).
#[export] Instance set_sv_linlen : Setter sv_linlen := ltac:(derive_setter).
#[export] Instance set_sv_fbuf : Setter sv_fbuf := ltac:(derive_setter).
#[export] Instance set_sv_dclk0 : Setter sv_dclk0 := ltac:(derive_setter).
#[export] Instance set_sv_dclk1 : Setter sv_dclk1 := ltac:(derive_setter).
#[export] Instance set_sv_dclk2 : Setter sv_dclk2 := ltac:(derive_setter).
#[export] Instance set_sv_dclk3 : Setter sv_dclk3 := ltac:(derive_setter).
#[export] Instance set_sv_palette : Setter sv_palette := ltac:(derive_setter).
#[export] Instance set_sv_bpp : Setter sv_bpp := ltac:(derive_setter).
#[export] Instance set_sv_display_started : Setter sv_display_started := ltac:(derive_setter).
#[export] Instance eta_video W : Eta (video W) := fun r =>
  mkVideo (v_svga r) (v_dp r) (v_tex r) (v_pc r) (v_screen r) (v_sigterm r) (v_mc r) (v_ps2 r).
#[export] Instance set_v_svga W : Setter (@v_svga W) := ltac:(derive_setter).
#[export] Instance set_v_dp W : Setter (@v_dp W) := ltac:(derive_setter).
#[export] Instance set_v_tex W : Setter (@v_tex W) := ltac:(derive_setter).
#[export] Instance set_v_pc W : Setter (@v_pc W) := ltac:(derive_setter).
#[export] Instance set_v_screen W : Setter (@v_screen W) := ltac:(derive_setter).
#[export] Instance set_v_sigterm W : Setter (@v_sigterm W) := ltac:(derive_setter).
#[export] Instance set_v_mc W : Setter (@v_mc W) := ltac:(derive_setter).
#[export] Instance set_v_ps2 W : Setter (@v_ps2 W) := ltac:(derive_setter).

(** [Display(width, height, bpp, refreshRateHz)] with no frame buffer. *)
Definition display_new (width height bpp : Z) : display :=
  mkDisplay width height bpp false None false false false false (replicate 256 0) false false.

(** The pitch in bytes the graphics library gives a locked texture. *)
Class HostVideo := { sdl_pitch : Z -> Z }.

(** Its documentation: a row holds its pixels. *)
Class HostVideoLaws `{HostVideo} := { sdl_pitch_ok w : 0 < w -> 4 * w <= sdl_pitch w }.

#[local] Open Scope M_scope.

(** A value computed as [int]; overflow is undefined. *)
Definition as_int {S} (x : Z) : M S Z :=
  if (-2147483648 <=? x) && (x <=? 2147483647) then ret x else ub.

Section video_ops.
Context {W : Type} `{DeviceBus W} `{HostVideo}.
Abbreviation MV := (M (video W)).

Definition v_upd (f : display -> display) : MV unit := modify (fun v => v <| v_dp := f (v_dp v) |>).
Definition s_upd (f : svga -> svga) : MV unit := modify (fun v => v <| v_svga := f (v_svga v) |>).
Definition v_mem {A} (m : M (mctrl W) A) : MV A := zoom v_mc (fun c v => v <| v_mc := c |>) m.
Definition v_key {A} (m : M ps2_sys A) : MV A := zoom v_ps2 (fun p v => v <| v_ps2 := p |>) m.

(** ** [Display], the interface *)

(** [start]: assigning to a thread object that still runs ends the program. *)
Definition display_start : MV unit :=
  v_upd (fun d => d <| dp_running := true |>) ;;
  pc ← gets v_pc;
  match pc with
  | NotStarted => modify (fun v => v <| v_pc := FirstWait |>)
  | _ => crash_with StdTerminate
  end.

Definition display_enable : MV unit := v_upd (fun d => d <| dp_enabled := true |>).

Definition display_disable (hideWindow : bool) : MV unit :=
  v_upd (fun d => d <| dp_enabled := false |> <| dp_hideWindowWhenDisabled := hideWindow |>).

(** [stop], up to the join. *)
Definition display_stop : MV unit :=
  running ← gets (fun v => dp_running (v_dp v));
  when running (v_upd (fun d => d <| dp_running := false |>) ;; display_enable).

Definition set_framebuffer (fb : option (nat * Z)) : MV unit := v_upd (fun d => d <| dp_framebuffer := fb |>).
Definition set_bpp (b : Z) : MV unit := v_upd (fun d => d <| dp_bpp := b |>).
Definition set_palette (pal : list Z) : MV unit := v_upd (fun d => d <| dp_palette := pal |>).
Definition set_resolution (w h : Z) : MV unit :=
  v_upd (fun d => d <| dp_width := w |> <| dp_height := h |> <| dp_resolution_changed := true |>).

(** ** [SVGA] *)

(** [bank_start + (value - base)]; only zero may be added to [nullptr]. *)
Definition fb_pointer (i : nat) (value : Z) : MV (option (nat * Z)) :=
  p ← v_mem (get_ptr i);
  b ← v_mem (bank_at i);
  let off := u32 (value - get_base b) in
  match p with
  | Some k => ret (Some (k, off))
  | None => if off =? 0 then ret None else ub
  end.

Definition svga_reset : MV unit :=
  s_upd (fun s => s <| sv_stat := Z.land (sv_stat s) (Z.lor (Z.shiftl 0x3 4) (Z.shiftl 0x3 8)) |>
                    <| sv_vlen := 0 |> <| sv_fporch := 0 |> <| sv_synlen := 0 |> <| sv_linlen := 0 |>
                    <| sv_fbuf := 0 |>) ;;
  enabled ← gets (fun v => dp_enabled (v_dp v));
  when enabled (display_disable true).

Definition svga_read (offset : Z) (s : svga) : Z :=
  if offset =? 0x0 then sv_stat s
  else if offset =? 0x4 then sv_vlen s
  else if offset =? 0x8 then sv_fporch s
  else if offset =? 0xc then sv_synlen s
  else if offset =? 0x10 then sv_linlen s
  else if offset =? 0x14 then sv_fbuf s
  else if offset =? 0x18 then sv_dclk0 s
  else if offset =? 0x1c then sv_dclk1 s
  else if offset =? 0x20 then sv_dclk2 s
  else if offset =? 0x24 then sv_dclk3 s
  else 0.

(** The first branch of [write]: the status register. *)
Definition write_stat (value : Z) : MV unit :=
  if truth (Z.land value 0x2) then svga_reset
  else
    let enable_req := truth (Z.land value 0x1) in
    was_enabled ← gets (fun v => truth (Z.land (sv_stat (v_svga v)) 0x1));
    let bpp := if Z.land (Z.shiftr value 4) 0x3 =? 1 then 8 else 32 in
    s_upd (fun s => s <| sv_stat := value |> <| sv_bpp := bpp |>) ;;
    set_bpp bpp ;;
    if enable_req && negb was_enabled then
      s ← gets v_svga;
      when (truth (sv_vlen s))
        (set_resolution (Z.land (sv_vlen s) 0xffff + 1) (Z.land (Z.shiftr (sv_vlen s) 16) 0xffff + 1)) ;;
      when (negb (sv_display_started s))
        (display_start ;; s_upd (fun s => s <| sv_display_started := true |>)) ;;
      display_enable
    else when (negb enable_req && was_enabled) (display_disable false).

(** The branch of the frame buffer address. *)
Definition write_fbuf (value : Z) : MV unit :=
  s_upd (fun s => s <| sv_fbuf := value |>) ;;
  o ← v_mem (find_bank_or_null value);
  match o with
  | Some i => fb ← fb_pointer i value; set_framebuffer fb
  | None => ret tt
  end.

(** The branch of the colour table. *)
Definition write_clut (value : Z) : MV unit :=
  let idx := Z.land (Z.shiftr value 24) 0xff in
  let r := Z.land (Z.shiftr value 16) 0xff in
  let g := Z.land (Z.shiftr value 8) 0xff in
  let b := Z.land value 0xff in
  let colour := Z.lor (Z.lor (Z.lor 0xff000000 (Z.shiftl r 16)) (Z.shiftl g 8)) b in
  pal ← gets (fun v => array_set (sv_palette (v_svga v)) idx colour);
  pal ← or_ub pal;
  s_upd (fun s => s <| sv_palette := pal |>) ;;
  set_palette pal.

Definition svga_write (offset value : Z) : MV unit :=
  if offset =? 0x0 then write_stat value
  else if offset =? 0x4 then s_upd (fun s => s <| sv_vlen := value |>)
  else if offset =? 0x8 then s_upd (fun s => s <| sv_fporch := value |>)
  else if offset =? 0xc then s_upd (fun s => s <| sv_synlen := value |>)
  else if offset =? 0x10 then s_upd (fun s => s <| sv_linlen := value |>)
  else if offset =? 0x14 then write_fbuf value
  else if offset =? 0x18 then s_upd (fun s => s <| sv_dclk0 := value |>)
  else if offset =? 0x1c then s_upd (fun s => s <| sv_dclk1 := value |>)
  else if offset =? 0x20 then s_upd (fun s => s <| sv_dclk2 := value |>)
  else if offset =? 0x24 then s_upd (fun s => s <| sv_dclk3 := value |>)
  else if offset =? 0x28 then write_clut value
  else ret tt.

(** ** The keyboard *)

Definition get_palette_entry (idx : Z) (s : svga) : option Z := array_get (sv_palette s) (Z.land idx 0xff).

(** [handle_key_event], the callback being [push_byte] of the keyboard
    controller (set by the constructor of [APBCTRL]). *)
Definition handle_key_event (down : bool) (sc : SDL_Scancode) : MV unit :=
  cb ← gets (fun v => dp_key_callback (v_dp v));
  let code := ps2_set2_table sc in
  if negb cb || negb (scancode_in_range sc) || (code =? 0) then ret tt
  else
    let extended := Z.shiftr code 8 =? 0xe0 in
    let byte := Z.land code 0xff in
    when extended (v_key (push_byte 0xe0)) ;;
    when (negb down) (v_key (push_byte 0xf0)) ;;
    v_key (push_byte byte).

(** The body of the event loop of [renderLoop]: Ctrl+A starts an escape, X
    after it raises [SIGTERM]. *)
Definition poll_event (e : SDL_Event) : MV unit :=
  match e with
  | OtherEvent => ret tt
  | KeyEvent down sc ctrl =>
      d ← gets v_dp;
      if dp_escape_pending d then
        if negb down && is_key_A sc && dp_a_keydown_suppressed d then
          v_upd (fun d => d <| dp_a_keydown_suppressed := false |>)
        else if down then
          v_upd (fun d => d <| dp_escape_pending := false |> <| dp_a_keydown_suppressed := false |>) ;;
          if is_key_X sc then modify (fun v => v <| v_sigterm := S (v_sigterm v) |>)
          else handle_key_event down sc
        else handle_key_event down sc
      else if down && ctrl && is_key_A sc then
        v_upd (fun d => d <| dp_escape_pending := true |> <| dp_a_keydown_suppressed := true |>)
      else handle_key_event down sc
  end.

(** ** The render thread *)

(** [SDL_CreateTexture] and the [memset] that follows it. *)
Definition new_texture (w h : Z) : texture := mkTexture w h (mkBytes (sdl_pitch w * h / 4) ∅).

(** The buffer behind the frame buffer pointer. *)
Definition fb_buffer (fb : nat * Z) : MV bytes :=
  b ← v_mem (bank_at fb.1); or_ub (buffer_of b).

(** [dst[y * stride + x] = ...] for one pixel: through the colour table for 8
    bits per pixel, else the word of the frame buffer, which must be aligned, in
    the byte order of the host. *)
Definition draw_pixel (fb : nat * Z) (stride y x : Z) : MV unit :=
  d ← gets v_dp;
  src ← fb_buffer fb;
  i ← as_int (y * dp_width d + x);
  px ← (if dp_bpp d =? 8 then
          c ← or_ub (bytes_get src (fb.2 + i)); or_ub (array_get (dp_palette d) c)
        else
          w ← or_ub (if (fb.2 + 4 * i) mod 4 =? 0 then peek32_le src (fb.2 + 4 * i) else None);
          ret (Z.lor (byteswap32 w) 0xff000000));
  j ← as_int (y * stride + x);
  t ← gets v_tex;
  p ← or_ub (bytes_set (tex_px t) j px);
  modify (fun v => v <| v_tex := mkTexture (tex_w t) (tex_h t) p |>).

(** The copy of the frame and its presentation. *)
Definition draw_frame : MV unit :=
  fb ← gets (fun v => dp_framebuffer (v_dp v));
  match fb with
  | None => ret tt
  | Some fb =>
      t ← gets v_tex;
      d ← gets v_dp;
      let stride := sdl_pitch (tex_w t) / 4 in
      for_each (seqZ 0 (dp_height d)) (fun y => for_each (seqZ 0 (dp_width d)) (draw_pixel fb stride y)) ;;
      modify (fun v => v <| v_screen := Some (v_tex v) |>)
  end.

(** One pass of the render thread from where it stands: out of the first wait
    (creating window and texture), through the head of the outer loop (the wait
    and a changed resolution), or once through the inner loop (the events that
    are due, and a frame). *)
Definition render_step (events : list SDL_Event) : MV unit :=
  pc ← gets v_pc;
  d ← gets v_dp;
  let goto pc := modify (fun v => v <| v_pc := pc |>) in
  match pc with
  | NotStarted | Returned => block
  | FirstWait =>
      if negb (dp_enabled d) then block
      else
        v_upd (fun d => d <| dp_resolution_changed := false |>) ;;
        modify (fun v => v <| v_tex := new_texture (dp_width d) (dp_height d) |> <| v_screen := None |>) ;;
        goto OuterLoop
  | OuterLoop =>
      if negb (dp_running d) then goto Returned
      else if negb (dp_enabled d) then block
      else
        when (dp_resolution_changed d)
          (v_upd (fun d => d <| dp_resolution_changed := false |>) ;;
           modify (fun v => v <| v_tex := new_texture (dp_width d) (dp_height d) |>)) ;;
        goto InnerLoop
  | InnerLoop =>
      if dp_running d && dp_enabled d then for_each events poll_event ;; draw_frame
      else if negb (dp_running d) then goto Returned
      else modify (fun v => v <| v_screen := None |>) ;; goto OuterLoop
  end.
End video_ops.

(** [SVGA(mctrl, enable)] with its display, and the key callback. *)
Definition svga_new {W} (enable : bool) (mc : mctrl W) (ps : ps2_sys) : res unit * video W :=
  let v := mkVideo (mkSvga 0 0 0 0 0 0 40000 20000 15385 31746 (replicate 256 0) 32 false)
             (display_new 640 480 32) (mkTexture 0 0 (mkBytes 0 ∅)) NotStarted None 0 mc ps in
  (when enable
    (display_start ;; s_upd (fun s => s <| sv_display_started := true |>) ;; display_enable ;;
     v_upd (fun d => d <| dp_key_callback := true |>)))%M v.

(** ** The controller as a part of the board

    What the controller, its display and the thread own; the two objects they
    refer to belong to others. *)
Record screen := mkScreen {
  sc_svga : svga; sc_dp : display; sc_tex : texture; sc_pc : render_pc; sc_shown : option texture;
  sc_sigterm : nat }.

Definition video_of {W} (s : screen) (mc : mctrl W) (ps : ps2_sys) : video W :=
  mkVideo (sc_svga s) (sc_dp s) (sc_tex s) (sc_pc s) (sc_shown s) (sc_sigterm s) mc ps.
Definition screen_of {W} (v : video W) : screen :=
  mkScreen (v_svga v) (v_dp v) (v_tex v) (v_pc v) (v_screen v) (v_sigterm v).

(** The controller as constructed; it does not use the other two then. *)
Definition screen_new (enable : bool) : screen :=
  screen_of (svga_new enable (mkMctrl [] 0 0 (mkBankCache 0 0 None 0 0) tt) (mkPs2Sys (ps2_new 5) (irqmp_init 1))).2.
