(* ===== verification/Grpci2.v ===== *)
(** * The PCI bridge (src/src/peripherals/GRPCI2.hpp and GRPCI2.cpp)

    An APB slave with control, status and DMA registers, and a memory area
    through which the guest reads and writes the configuration space of the one
    PCI device, in slot 6.  The device is any type with the operations of
    [PciDevice] the bridge calls (src/src/peripherals/pcidevice.hpp); the audio
    controller is an instance. *)
From S2P Require Import Prelude Mctrl Apb Ac97.

(** What the bridge uses of a [PciDevice]. *)
Class PciDevice (D : Type) := {
  pci_config_read32 : Z -> M D Z;
  pci_config_write32 : Z -> Z -> M D unit;
  pci_inta_asserted : D -> bool;
  pci_set_intx_cb : D -> D;
}.

Record grpci2 (D : Type) := mkGrpci2 {
  gp_ctrl_ : Z; gp_sts_cap_ : Z; gp_dma_ctrl_ : Z; gp_dma_base_ : Z; gp_io_map_ : Z;
  gp_ahbm2pci_ : list Z; gp_device_ : option D }.
Arguments mkGrpci2 {_}.
Arguments gp_ctrl_ {_} _.
Arguments gp_sts_cap_ {_} _.
Arguments gp_dma_ctrl_ {_} _.
Arguments gp_dma_base_ {_} _.
Arguments gp_io_map_ {_} _.
Arguments gp_ahbm2pci_ {_} _.
Arguments gp_device_ {_} _.

#[export] Instance eta_grpci2 D : Eta (grpci2 D) := fun g =>
  mkGrpci2 (gp_ctrl_ g) (gp_sts_cap_ g) (gp_dma_ctrl_ g) (gp_dma_base_ g) (gp_io_map_ g)
    (gp_ahbm2pci_ g) (gp_device_ g).
#[export] Instance set_gp_ctrl D : Setter (@gp_ctrl_ D) := ltac:(derive_setter).
#[export] Instance set_gp_sts D : Setter (@gp_sts_cap_ D) := ltac:(derive_setter).
#[export] Instance set_gp_dma D : Setter (@gp_dma_ctrl_ D) := ltac:(derive_setter).
#[export] Instance set_gp_dmabase D : Setter (@gp_dma_base_ D) := ltac:(derive_setter).
#[export] Instance set_gp_iomap D : Setter (@gp_io_map_ D) := ltac:(derive_setter).
#[export] Instance set_gp_ahb D : Setter (@gp_ahbm2pci_ D) := ltac:(derive_setter).
#[export] Instance set_gp_dev D : Setter (@gp_device_ D) := ltac:(derive_setter).

Definition PCI_IO_BASE : Z := 0xfffa0000.
Definition PCI_CONF_BASE : Z := 0xfffb0000.

(** The constructor: host mode, one shared interrupt, DMA present. *)
Definition grpci2_new {D} : grpci2 D :=
  mkGrpci2 0 (Z.lor (Z.lor (Z.shiftl 1 30) (Z.shiftl 1 24)) (Z.shiftl 1 28)) (Z.shiftl 1 31) 0 0
    (replicate 16 0) None.

(** ** Register fields *)

Definition STS_MASK_R : Z := Z.lor (Z.shiftl 0x7ff 21) 0xfff.
Definition STS_MASK_WC : Z := Z.shiftl 0x1ff 12.

Definition write_sts_cap (old val : Z) : Z :=
  let wc_bits := Z.land (Z.land old STS_MASK_WC) (not32 (Z.land val STS_MASK_WC)) in
  Z.lor (Z.land old STS_MASK_R) wc_bits.

Definition DMA_MASK_RW : Z := Z.lor (Z.lor (Z.shiftl 1 31) (Z.shiftl 7 4)) 7.
Definition DMA_MASK_R : Z := Z.lor (Z.shiftl 0x7ff 20) (Z.shiftl 1 3).
Definition DMA_MASK_WC : Z := Z.shiftl 0x1fff 7.

(** Starting and stopping DMA have empty bodies. *)
Definition write_dma_ctrl (old val : Z) : Z :=
  let val := if Z.land (Z.shiftr val 31) 1 =? 0
             then Z.land val (not32 (Z.lor (Z.shiftl 1 1) (Z.shiftl 7 4))) else val in
  let wc_bits := Z.land (Z.land old DMA_MASK_WC) (not32 (Z.land val DMA_MASK_WC)) in
  let rw_bits := Z.land val DMA_MASK_RW in
  let r_bits := Z.land old DMA_MASK_R in
  Z.lor (Z.lor r_bits rw_bits) wc_bits.

(** The control register: reserved bits dropped, the two self-clearing reset
    bits cleared (the three resets have empty bodies). *)
Definition write_ctrl (value : Z) : Z :=
  let tmp := Z.land value (not32 (Z.lor (Z.shiftl 1 28) (Z.shiftl 0xf 12))) in
  let tmp := if truth (Z.land tmp (Z.shiftl 1 30)) then Z.land tmp (not32 (Z.shiftl 1 30)) else tmp in
  if truth (Z.land tmp (Z.shiftl 1 29)) then Z.land tmp (not32 (Z.shiftl 1 29)) else tmp.

(** The byte order of a big-endian processor, written out as in the source. *)
Definition cpu_order (data : Z) : Z :=
  Z.lor (Z.lor (Z.lor (u32 (Z.shiftl data 24)) (u32 (Z.shiftl (Z.land data 0x0000ff00) 8)))
    (Z.shiftr (Z.land data 0x00ff0000) 8)) (Z.shiftr data 24).

Definition signal_pci_cfg_access_complete {D} (g : grpci2 D) : grpci2 D :=
  g <| gp_sts_cap_ := Z.lor (Z.land (gp_sts_cap_ g) (not32 (Z.shiftl 1 19))) (Z.shiftl 1 20) |>.

(** ** Operations *)

#[local] Open Scope M_scope.

Section bridge.
Context {D : Type} `{PciDevice D}.
Abbreviation MG := (M (grpci2 D)).

(** [attach_device]: the interrupt callback of the device is connected. *)
Definition attach_device (d : D) (g : grpci2 D) : grpci2 D := g <| gp_device_ := Some (pci_set_intx_cb d) |>.

Definition bank_index (offset : Z) : option Z :=
  if (0x40 <=? offset) && (offset <=? 0x7c) then Some ((offset - 0x40) / 4) else None.

Definition inta (g : grpci2 D) : bool :=
  match gp_device_ g with Some d => pci_inta_asserted d | None => false end.

(** Bits 11 to 8 of the status register show the interrupt lines, low when
    asserted. *)
Definition sts_cap_value (g : grpci2 D) : Z :=
  let int_bits := if inta g then Z.land 0xf00 (not32 (Z.shiftl 1 8)) else 0xf00 in
  Z.lor (Z.land (gp_sts_cap_ g) (not32 0xf00)) int_bits.

Definition grpci2_read (offset : Z) : MG Z :=
  if offset =? 0x0 then gets gp_ctrl_
  else if offset =? 0x04 then gets sts_cap_value
  else if offset =? 0x0c then gets gp_io_map_
  else if offset =? 0x10 then gets gp_dma_ctrl_
  else if offset =? 0x14 then gets gp_dma_base_
  else match bank_index offset with
       | Some k => v ← gets (fun g => array_get (gp_ahbm2pci_ g) k); or_ub v
       | None => ret 0
       end.

Definition grpci2_write (offset value : Z) : MG unit :=
  if offset =? 0x0 then modify (fun g => g <| gp_ctrl_ := write_ctrl value |>)
  else if offset =? 0x4 then modify (fun g => g <| gp_sts_cap_ := write_sts_cap (gp_sts_cap_ g) value |>)
  else if offset =? 0xc then modify (fun g => g <| gp_io_map_ := Z.land value 0xffff0000 |>)
  else if offset =? 0x10 then modify (fun g => g <| gp_dma_ctrl_ := write_dma_ctrl (gp_dma_ctrl_ g) value |>)
  else if offset =? 0x14 then modify (fun g => g <| gp_dma_base_ := value |>)
  else match bank_index offset with
       | Some k =>
           l ← gets (fun g => array_set (gp_ahbm2pci_ g) k value); l ← or_ub l;
           modify (fun g => g <| gp_ahbm2pci_ := l |>)
       | None => ret tt
       end.

#[export] Instance ApbSlave_grpci2 : ApbSlave (grpci2 D) := {|
  slv_read := grpci2_read; slv_write := grpci2_write |}.

(** A call on [*device_], undefined when no device is attached. *)
Definition on_pci_device {A} (m : M D A) : MG A := fun g =>
  match gp_device_ g with
  | Some d => let '(r, d) := m d in (r, g <| gp_device_ := Some d |>)
  | None => (Crash UndefinedBehaviour, g)
  end.

(** The slot and the register a configuration address names. *)
Definition cfg_slot (paddr : Z) : Z :=
  Z.shiftr (Z.land (Z.shiftr (u32 (paddr - PCI_CONF_BASE)) 8) 0xff) 3.
Definition cfg_reg (paddr : Z) : Z := Z.land (u32 (paddr - PCI_CONF_BASE)) 0xfc.

Definition config_read (paddr size : Z) : MG Z :=
  if negb (cfg_slot paddr =? 6) then modify signal_pci_cfg_access_complete ;; ret 0xffffffff
  else
    data ← (if (size =? 8) || (size =? 16) then
              throw (runtime_error "Config reads for 8 and 16 bits not implemented.")
            else if size =? 32 then
              data ← on_pci_device (pci_config_read32 (cfg_reg paddr)); ret (cpu_order data)
            else ret 0xffffffff);
    modify signal_pci_cfg_access_complete ;; ret data.

(** The unimplemented sizes throw a string literal, not an exception object. *)
Definition config_write (paddr val size : Z) : MG unit :=
  if negb (cfg_slot paddr =? 6) then modify signal_pci_cfg_access_complete
  else
    (if (size =? 8) || (size =? 16) then
       throw (thrown_literal "Config reads for 8 and 16 bits not implemented.")
     else if size =? 32 then on_pci_device (pci_config_write32 (cfg_reg paddr) (cpu_order val))
     else ret tt) ;;
    modify signal_pci_cfg_access_complete.

Definition io_read (paddr size : Z) : MG Z :=
  ret (if size =? 8 then 0xff else if size =? 16 then 0xffff else 0xffffffff).
Definition io_write (paddr value size : Z) : MG unit := ret tt.

(** ** [PCIIOCfgArea]: the bank at 0xfffa0000 *)

Definition area_dispatch {A} (addr : Z) (conf io : MG A) (msg : string) : MG A :=
  if (PCI_CONF_BASE <=? addr) && (addr <? u32 (PCI_CONF_BASE + 0x10000)) then conf
  else if (PCI_IO_BASE <=? addr) && (addr <? u32 (PCI_IO_BASE + 0x10000)) then io
  else throw (runtime_error msg).

Definition check_aligned {A} (align : bool) (addr mask : Z) (msg : string) (m : MG A) : MG A :=
  if align && truth (Z.land addr mask) then throw (runtime_error msg) else m.

Definition area_read8 (addr : Z) : MG Z :=
  area_dispatch addr (v ← config_read addr 8; ret (u8 v)) (v ← io_read addr 8; ret (u8 v))
    "PCI read8 out of bounds, addr=".
Definition area_read16 (addr : Z) (align : bool) : MG Z :=
  check_aligned align addr 1 "Unaligned 16-bit read at 0x"
    (area_dispatch addr (v ← config_read addr 16; ret (u16 v)) (v ← io_read addr 16; ret (u16 v))
       "PCI read16 out of bounds, addr=").
Definition area_read32 (addr : Z) (align : bool) : MG Z :=
  check_aligned align addr 3 "Unaligned 32-bit read at 0x"
    (area_dispatch addr (config_read addr 32) (io_read addr 32) "PCI read32 out of bounds, addr=").
Definition area_write8 (addr val : Z) : MG unit :=
  area_dispatch addr (config_write addr val 8) (io_write addr val 8) "PCI write8 out of bounds, addr=".
Definition area_write16 (addr val : Z) (align : bool) : MG unit :=
  check_aligned align addr 1 "Unaligned 16-bit write at 0x"
    (area_dispatch addr (config_write addr val 16) (io_write addr val 16) "PCI write16 out of bounds, addr=").
Definition area_write32 (addr val : Z) (align : bool) : MG unit :=
  check_aligned align addr 3 "Unaligned 32-bit write at 0x"
    (area_dispatch addr (config_write addr val 32) (io_write addr val 32) "PCI write32 out of bounds, addr=").
End bridge.

(** The audio controller as a PCI device. *)
#[export] Instance PciDevice_ac97 : PciDevice ac97 := {|
  pci_config_read32 off := v ← gets (cfg_read32 off); or_ub v;
  pci_config_write32 off v := a ← gets (cfg_write32 off v); a ← or_ub a; modify (fun _ => a);
  pci_inta_asserted := ac97_inta;
  pci_set_intx_cb := set_intx_cb;
|}.
