(* ===== verification/Grpci2Proofs.v ===== *)
(** * Correctness of the PCI bridge

    Register fields bit by bit, and configuration cycles end to end: what a
    big-endian guest stores through the bridge into the configuration space of
    the audio controller is what it loads back. *)
From S2P Require Import Prelude Mctrl Words Apb Ac97 Ac97Proofs Grpci2.

(** ** Registers *)

(** A bound variable below a literal takes one of finitely many values. *)
Ltac each_bit i := 
  let H := fresh in
  assert (i = 0 \/ i = 1 \/ i = 2 \/ i = 3 \/ i = 4 \/ i = 5 \/ i = 6 \/ i = 7 \/ i = 8 \/ i = 9 \/ i = 10 \/
    i = 11 \/ i = 12 \/ i = 13 \/ i = 14 \/ i = 15 \/ i = 16 \/ i = 17 \/ i = 18 \/ i = 19 \/ i = 20 \/ i = 21 \/
    i = 22 \/ i = 23 \/ i = 24 \/ i = 25 \/ i = 26 \/ i = 27 \/ i = 28 \/ i = 29 \/ i = 30 \/ i = 31) as H by lia;
  repeat (destruct H as [->|H]); [..|rewrite H in *].

(** The three read/write/clear registers, bit by bit. *)
Definition dma_ctrl_bit (old val : Z) (i : Z) : bool :=
  if (i =? 0) || (i =? 2) || (i =? 31) then Z.testbit val i
  else if (i =? 1) || ((4 <=? i) && (i <=? 6)) then Z.testbit val i && Z.testbit val 31
  else if (7 <=? i) && (i <=? 19) then Z.testbit old i && negb (Z.testbit val i)
  else Z.testbit old i.
Definition sts_cap_bit (old val : Z) (i : Z) : bool :=
  if (12 <=? i) && (i <=? 20) then Z.testbit old i && negb (Z.testbit val i) else Z.testbit old i.
Definition ctrl_bit (val : Z) (i : Z) : bool :=
  Z.testbit val i && negb ((i =? 28) || (i =? 29) || (i =? 30) || ((12 <=? i) && (i <=? 15))).

(** Push [Z.testbit] to the leaves. *)
Ltac push_bits := repeat (rewrite ?Z.lor_spec, ?Z.land_spec; rewrite ?testbit_not32 by lia).

Lemma dma_ctrl_bits old val i : 0 <= i < 32 -> Z.testbit (write_dma_ctrl old val) i = dma_ctrl_bit old val i.
Proof.
  intros Hi. unfold write_dma_ctrl. rewrite land1_testbit, Z.shiftr_spec, Z.add_0_l by lia.
  unfold dma_ctrl_bit, DMA_MASK_R, DMA_MASK_RW, DMA_MASK_WC.
  destruct (Z.testbit val 31) eqn:E31; cbn [b2z Z.eqb Pos.eqb]; push_bits;
    each_bit i; ground; cbn [orb andb negb]; try rewrite E31; btauto.
Qed.

Lemma sts_cap_bits old val i : 0 <= i < 32 -> Z.testbit (write_sts_cap old val) i = sts_cap_bit old val i.
Proof.
  intros Hi. unfold write_sts_cap, sts_cap_bit, STS_MASK_R, STS_MASK_WC. push_bits.
  each_bit i; ground; cbn [orb andb negb]; btauto.
Qed.

Lemma clear_bit_if x k i : 0 <= k < 32 -> 0 <= i < 32 ->
  Z.testbit (if truth (Z.land x (Z.shiftl 1 k)) then Z.land x (not32 (Z.shiftl 1 k)) else x) i =
  Z.testbit x i && negb (k =? i).
Proof.
  intros Hk Hi. rewrite truth_land_pow2 by lia. destruct (Z.testbit x k) eqn:E.
  - by rewrite Z.land_spec, testbit_not_pow2 by lia.
  - destruct (Z.eqb_spec k i) as [<-|]; [by rewrite E|by rewrite andb_true_r].
Qed.

Lemma ctrl_bits val i : 0 <= i < 32 -> Z.testbit (write_ctrl val) i = ctrl_bit val i.
Proof.
  intros Hi. unfold write_ctrl, ctrl_bit. cbv zeta. rewrite !clear_bit_if by lia. push_bits.
  each_bit i; ground; cbn [orb andb negb]; btauto.
Qed.

(** The registers of the bridge, bit by bit: a write to the DMA control
    register sets the writable bits, sets the guarded ones (1 and 6 to 4) only
    when bit 31 is written, clears the status bits (19 to 7) written as one and
    keeps the rest; the status register has only its bits 20 to 12 cleared, by
    ones; the control register drops its reserved and self-clearing bits; and
    the interrupt line of the device is read, inverted, at bit 8 of the status
    register whatever was written there. *)
Theorem bridge_registers {D} `{PciDevice D} (g : grpci2 D) val i :
  0 <= i < 32 ->
  Z.testbit (gp_dma_ctrl_ (grpci2_write 0x10 val g).2) i = dma_ctrl_bit (gp_dma_ctrl_ g) val i /\
  Z.testbit (gp_sts_cap_ (grpci2_write 0x4 val g).2) i = sts_cap_bit (gp_sts_cap_ g) val i /\
  Z.testbit (gp_ctrl_ (grpci2_write 0x0 val g).2) i = ctrl_bit val i /\
  exists st, (grpci2_read 0x4 g).1 = Val st /\
    Z.testbit st i = if i =? 8 then negb (inta g) else ((9 <=? i) && (i <=? 11)) || Z.testbit (gp_sts_cap_ g) i.
Proof.
  intros Hi. split; [by apply dma_ctrl_bits|]. split; [by apply sts_cap_bits|]. split; [by apply ctrl_bits|].
  eexists. split; [reflexivity|]. unfold sts_cap_value. cbv zeta. push_bits.
  destruct (inta g); each_bit i; ground; cbn [orb andb negb]; btauto.
Qed.

Lemma bridge_registers_witness :
  Z.testbit (gp_dma_ctrl_ (grpci2_write (D:=ac97) 0x10 0x80000002 grpci2_new).2) 1 = true.
Proof. destruct (bridge_registers (D:=ac97) grpci2_new 0x80000002 1) as (E & _); [lia|]. exact E. Defined.

(** ** Configuration cycles *)

(** A byte of a word selected in place. *)
Lemma land_byte v k : 0 <= k -> Z.land v (Z.shiftl 0xff k) = byte_at v k * 2 ^ k.
Proof.
  intros Hk. unfold byte_at. rewrite <- Z.shiftl_mul_pow2 by done. apply Z.bits_inj'. intros i Hi.
  rewrite Z.land_spec, !Z.shiftl_spec, Z.land_spec by done. destruct (decide (k <= i)).
  - rewrite Z.shiftr_spec by lia. by replace (i - k + k) with i by lia.
  - rewrite (Z.testbit_neg_r 255), (Z.testbit_neg_r (Z.shiftr v k)) by lia. by rewrite andb_false_r.
Qed.

Lemma cpu_order_bytes v :
  is_u32 v -> cpu_order v = byteswap32 v.
Proof.
  intros Hv. unfold is_u32 in Hv. unfold cpu_order, byteswap32, cat4.
  change 0xff00 with (Z.shiftl 0xff 8). change 0xff0000 with (Z.shiftl 0xff 16). rewrite !land_byte by lia.
  rewrite !Z.shiftl_mul_pow2, !Z.shiftr_div_pow2, !byte_at_mod by lia. unfold u32.
  change (2 ^ 0) with 1. change (2 ^ 8) with 256. change (2 ^ 16) with 65536. change (2 ^ 24) with 16777216.
  f_equal; [f_equal; [f_equal|]|]; Z.div_mod_to_equations; lia.
Qed.

Lemma cpu_order_u32 v : is_u32 v -> is_u32 (cpu_order v).
Proof. intros Hv. rewrite cpu_order_bytes by done. unfold byteswap32. apply cat4_u32; apply byte_at_u8. Qed.

Lemma word_bytes v :
  is_u32 v -> exists b3 b2 b1 b0, is_u8 b3 /\ is_u8 b2 /\ is_u8 b1 /\ is_u8 b0 /\ v = cat4 b3 b2 b1 b0.
Proof.
  intros Hv. exists (byte_at v 24), (byte_at v 16), (byte_at v 8), (byte_at v 0).
  split_and!; try apply byte_at_u8. by rewrite cat4_byte_at.
Qed.

(** Twice the byte order of the processor is the value itself. *)
Lemma cpu_order_twice v : is_u32 v -> cpu_order (cpu_order v) = v.
Proof.
  intros Hv. rewrite cpu_order_bytes, (cpu_order_bytes v Hv) by (by apply cpu_order_u32).
  destruct (word_bytes v Hv) as (b3 & b2 & b1 & b0 & H3 & H2 & H1 & H0 & ->). by rewrite !byteswap32_cat.
Qed.

(** The address of a register of a function of a slot. *)
Definition cfg_addr (slot fn reg : Z) : Z := PCI_CONF_BASE + slot * 0x800 + fn * 0x100 + reg.

Record cfg_target (slot fn reg : Z) : Prop := {
  ct_slot : 0 <= slot < 32; ct_fn : 0 <= fn < 8; ct_reg : 0 <= reg <= 252; ct_word : reg mod 4 = 0 }.

Lemma cfg_addr_decode slot fn reg :
  cfg_target slot fn reg -> cfg_slot (cfg_addr slot fn reg) = slot /\ cfg_reg (cfg_addr slot fn reg) = reg.
Proof.
  intros [Hs Hf Hr Hw]. unfold cfg_slot, cfg_reg, cfg_addr.
  replace (PCI_CONF_BASE + slot * 0x800 + fn * 0x100 + reg - PCI_CONF_BASE) with (slot * 0x800 + fn * 0x100 + reg) by lia.
  rewrite u32_id by (unfold is_u32; lia). change 0xff with (Z.ones 8). rewrite Z.land_ones, !Z.shiftr_div_pow2 by lia.
  split; [change (2 ^ 8) with 256; change (2 ^ 3) with 8; Z.div_mod_to_equations; lia|].
  change 0xfc with (Z.ldiff (Z.ones 8) (Z.ones 2)). rewrite Z.ldiff_land, Z.land_assoc, <- Z.ldiff_land.
  rewrite Z.ldiff_ones_r, Z.land_ones, Z.shiftr_div_pow2, Z.shiftl_mul_pow2 by lia.
  change (2 ^ 8) with 256. change (2 ^ 2) with 4. Z.div_mod_to_equations. lia.
Qed.

Lemma cfg_addr_area {D} {A} slot fn reg (conf io : M (grpci2 D) A) msg msg' :
  cfg_target slot fn reg ->
  check_aligned true (cfg_addr slot fn reg) 3 msg (area_dispatch (cfg_addr slot fn reg) conf io msg') = conf.
Proof.
  intros [Hs Hf Hr Hw]. unfold check_aligned, area_dispatch.
  assert (Z.land (cfg_addr slot fn reg) 3 = 0) as ->.
  { change 3 with (Z.ones 2). rewrite Z.land_ones by lia. unfold cfg_addr, PCI_CONF_BASE.
    change (2 ^ 2) with 4. Z.div_mod_to_equations. lia. }
  cbn [truth andb negb Z.eqb]. change (u32 (PCI_CONF_BASE + 0x10000)) with 0xfffc0000.
  unfold cfg_addr, PCI_CONF_BASE. rewrite (proj2 (Z.leb_le _ _)), (proj2 (Z.ltb_lt _ _)) by lia. done.
Qed.

(** The access is reported as complete (bit 20) and without error (bit 19). *)
Definition cfg_done {D} (g : grpci2 D) : Prop :=
  Z.testbit (gp_sts_cap_ g) 20 = true /\ Z.testbit (gp_sts_cap_ g) 19 = false.

Lemma signal_done {D} (g : grpci2 D) : cfg_done (signal_pci_cfg_access_complete g).
Proof.
  unfold cfg_done, signal_pci_cfg_access_complete. cbn -[Z.testbit Z.shiftl Z.lor Z.land not32]. push_bits.
  ground. cbn [negb]. split; btauto.
Qed.

Section cycles.
Context {D : Type} `{PciDevice D}.
Implicit Types g : grpci2 D.

Lemma area_write32_device g d fn reg v d' :
  gp_device_ g = Some d -> cfg_target 6 fn reg -> pci_config_write32 reg (cpu_order v) d = (Val tt, d') ->
  area_write32 (cfg_addr 6 fn reg) v true g =
    (Val tt, signal_pci_cfg_access_complete (g <| gp_device_ := Some d' |>)).
Proof.
  intros Hg Ht Hw. destruct (cfg_addr_decode _ _ _ Ht) as [Es Er]. unfold area_write32.
  rewrite cfg_addr_area by done. unfold config_write. rewrite Es, Er. cbn [Z.eqb Pos.eqb negb orb].
  rewrite (bindM_val _ _ _ tt (g <| gp_device_ := Some d' |>)); [done|]. unfold on_pci_device. by rewrite Hg, Hw.
Qed.

Lemma area_read32_device g d fn reg v d' :
  gp_device_ g = Some d -> cfg_target 6 fn reg -> pci_config_read32 reg d = (Val v, d') ->
  area_read32 (cfg_addr 6 fn reg) true g =
    (Val (cpu_order v), signal_pci_cfg_access_complete (g <| gp_device_ := Some d' |>)).
Proof.
  intros Hg Ht Hw. destruct (cfg_addr_decode _ _ _ Ht) as [Es Er]. unfold area_read32.
  rewrite cfg_addr_area by done. unfold config_read. rewrite Es, Er. cbn [Z.eqb Pos.eqb negb orb].
  rewrite (bindM_val _ _ _ (cpu_order v) (g <| gp_device_ := Some d' |>)); [done|].
  unfold on_pci_device, bindM. by rewrite Hg, Hw.
Qed.

(** A configuration access to a slot without a device reads all ones, its
    writes are dropped, the access is reported as complete and the attached
    device is not touched. *)
Theorem empty_slot g slot fn reg v :
  cfg_target slot fn reg -> slot <> 6 ->
  let g' := signal_pci_cfg_access_complete g in
  area_read32 (cfg_addr slot fn reg) true g = (Val 0xffffffff, g') /\
  area_write32 (cfg_addr slot fn reg) v true g = (Val tt, g') /\
  cfg_done g' /\ gp_device_ g' = gp_device_ g.
Proof.
  intros Ht Hne. destruct (cfg_addr_decode _ _ _ Ht) as [Es Er]. cbv zeta.
  split; [|split; [|split; [apply signal_done|done]]]; unfold area_read32, area_write32;
    rewrite cfg_addr_area by done; unfold config_read, config_write; rewrite Es, (proj2 (Z.eqb_neq _ _) Hne); done.
Qed.
End cycles.

(** The configuration space of the audio controller behind the interface. *)
Lemma ac97_config_write reg v a a' : cfg_write32 reg v a = Some a' -> pci_config_write32 reg v a = (Val tt, a').
Proof. intros E. cbn. unfold bindM. cbn. by rewrite E. Qed.
Lemma ac97_config_read reg v a : cfg_read32 reg a = Some v -> pci_config_read32 reg a = (Val v, a).
Proof. intros E. cbn. unfold bindM. cbn. by rewrite E. Qed.


(** C30. Configuration cycles of a big-endian guest: a word stored through the
    bridge into a register of the audio controller loads back, and the access
    is reported as complete; the sizing of a base address register reads the
    256-byte mask in the byte order of the guest, and an address stored there
    loads back without its low four bits. *)
Theorem config_cycle (g : grpci2 ac97) a fn reg v :
  gp_device_ g = Some a -> ac_inv a -> cfg_target 6 fn reg -> is_u32 v ->
  exists g' g'', area_write32 (cfg_addr 6 fn reg) v true g = (Val tt, g') /\ cfg_done g' /\
    area_read32 (cfg_addr 6 fn reg) true g' =
      (Val (match bar_index reg with
            | None => v
            | Some _ => if v =? 0xffffffff then 0x00ffffff else cpu_order (Z.land (cpu_order v) 0xfffffff0)
            end), g'') /\ cfg_done g''.
Proof.
  intros Hg Ha Ht Hv. pose proof (cpu_order_u32 v Hv) as Hcv.
  assert (exists w a', cfg_write32 reg (cpu_order v) a = Some a' /\ cfg_read32 reg a' = Some w /\
    cpu_order w = match bar_index reg with None => v
      | Some _ => if v =? 0xffffffff then 0x00ffffff else cpu_order (Z.land (cpu_order v) 0xfffffff0) end)
    as (w & a' & E1 & E2 & <-).
  { destruct (bar_index reg) as [k|] eqn:Eb.
    - destruct (Z.eqb_spec v 0xffffffff) as [->|Hne].
      + destruct (bar_probe reg k a Ha Eb) as (a' & E1 & E2 & _). by exists 0xffffff00, a'.
      + destruct (bar_assign reg k (cpu_order v) a Ha Eb) as (a' & E1 & E2 & _).
        { intros E. apply (f_equal cpu_order) in E. rewrite cpu_order_twice in E by done. done. }
        by eexists _, a'.
    - destruct (cfg_word_roundtrip reg (cpu_order v) a) as (a' & E1 & E2 & _); [apply Ha|done|apply Ht|done|].
      exists (cpu_order v), a'. split; [done|]. split; [done|]. by apply cpu_order_twice. }
  eexists _, _. split; [by eapply area_write32_device, ac97_config_write|]. split; [apply signal_done|].
  split; [|apply signal_done]. by eapply area_read32_device, ac97_config_read.
Qed.

Lemma empty_slot_witness :
  (area_read32 (cfg_addr 3 0 0x10) true (grpci2_new (D:=ac97))).1 = Val 0xffffffff.
Proof.
  destruct (empty_slot (D:=ac97) grpci2_new 3 0 0x10 0) as (E & _); [by split|done|]. by rewrite E.
Defined.

Lemma config_cycle_witness :
  exists g' g'', area_write32 (cfg_addr 6 0 0x40) 0x12345678 true
      (attach_device (ac97_zero false) grpci2_new) = (Val tt, g') /\ cfg_done g' /\
    area_read32 (cfg_addr 6 0 0x40) true g' = (Val 0x12345678, g'') /\ cfg_done g''.
Proof.
  refine (config_cycle (attach_device (ac97_zero false) grpci2_new) (set_intx_cb (ac97_zero false)) 0 0x40 0x12345678
            _ _ _ _); [done|split; try done; cbn; lia|by split|unfold is_u32; lia].
Defined.
