(* ===== verification/DeviceWords.v ===== *)
(** * The type invariants of the simple devices

    The interrupt controller, the timer, the UART, the keyboard controller and
    the PCI bridge keep every register within its C++ type, whatever is written
    to them; the interfaces [ApbSlaveLaws] and [PciDeviceLaws] say what a slave
    of the AHB/APB bridge and a PCI device promise of that kind. *)
From S2P Require Import Prelude Mctrl Tlb Mmu Cpu Instr Fpu Exec Words Irqmp Gptimer Uart Ps2 Apb Ac97.
From S2P Require Import Ac97Proofs Grpci2 Grpci2Proofs.

(** ** Values that can be computed *)

Lemma words_by_check l : forallb (fun x => (0 <=? x) && (x <? 4294967296)) l = true -> Forall is_u32 l.
Proof.
  intros E. apply List.Forall_forall. intros x Hx. rewrite forallb_forall in E. specialize (E x Hx).
  unfold is_u32. lia.
Qed.
Lemma bytes_by_check l : forallb (fun x => (0 <=? x) && (x <? 256)) l = true -> Forall is_u8 l.
Proof.
  intros E. apply List.Forall_forall. intros x Hx. rewrite forallb_forall in E. specialize (E x Hx).
  unfold is_u8. lia.
Qed.
Ltac word_ok :=
  match goal with
  | |- Forall is_u32 _ => by apply words_by_check; vm_compute
  | |- Forall is_u8 _ => by apply bytes_by_check; vm_compute
  | |- is_u32 _ => by (split; vm_compute; congruence)
  | |- is_u16 _ => by (split; vm_compute; congruence)
  | |- is_u8 _ => by (split; vm_compute; congruence)
  end.

(** ** Interfaces *)

(** What an APB slave promises of the values that cross its interface. *)
Class ApbSlaveLaws (S : Type) `{ApbSlave S} := {
  slv_ok : S -> Prop;
  slv_read_ok off : keeps slv_ok (slv_read off) is_u32;
  slv_write_ok off v : is_u32 v -> keeps slv_ok (slv_write off v) (fun _ => True);
}.

(** The same of a PCI device, for word accesses. *)
Class PciDeviceLaws (D : Type) `{PciDevice D} := {
  pci_ok : D -> Prop;
  pci_read_ok off : keeps pci_ok (pci_config_read32 off) is_u32;
  pci_write_ok off v : is_u32 v -> keeps pci_ok (pci_config_write32 off v) (fun _ => True);
}.

(** ** Interrupt controller *)

(** Every processor of the interrupt controller has been made known to it. *)
Definition cpus_known (q : irqmp) : Prop := forall c, Z.of_nat c < num_cpus_ q -> cpu_ptrs_ q !! c = Some true.

(** What is known of the pointers to the processors: no access of the guest
    changes them, so the laws hold whatever it is.  Once the system is set up,
    every processor is known, and no interrupt is raised through a null
    pointer. *)
Class CpuPtrs := ptrs_ok : list bool -> Z -> Prop.
#[export] Instance all_known : CpuPtrs := fun l n => forall c, Z.of_nat c < n -> l !! c = Some true.

(** The registers are words. *)
Record irq_words `{CpuPtrs} (q : irqmp) : Prop := {
  iw_ilevel : is_u32 (ilevel_ q); iw_ipend : is_u32 (ipend_ q); iw_iforce : is_u32 (iforce_ q);
  iw_iclear : is_u32 (iclear_ q); iw_mpstat : is_u32 (mpstat_ q); iw_brdcst : is_u32 (brdcst_ q);
  iw_errstat : is_u32 (errstat_ q); iw_ampctrl : is_u32 (ampctrl_ q);
  iw_piforce : Forall is_u32 (piforce_ q); iw_pimask : Forall is_u32 (pimask_ q);
  iw_hint : Forall is_u32 (irq_hint_ q); iw_num : is_u32 (num_cpus_ q); iw_active : is_u32 (num_active_cpus_ q);
  iw_barrier : is_u8 (barrier_irl_ q);
  iw_known : ptrs_ok (cpu_ptrs_ q) (num_cpus_ q) }.

Lemma nth_u32 l n : Forall is_u32 l -> is_u32 (nth n l 0).
Proof.
  intros Hl. destruct (nth_in_or_default n l 0) as [Hi| ->]; [|done].
  apply (proj1 (List.Forall_forall _ _) Hl). done.
Qed.
#[export] Hint Resolve nth_u32 : u32.

Section irq_laws.
Context `{Kp : CpuPtrs}.

(** An update of the registers keeps them words. *)
Ltac words_step :=
  match goal with
  | H : irq_words _ |- irq_words _ => destruct H
  end; constructor; cbn -[Z.land Z.lor Z.shiftl]; eauto 6 with u32.

Lemma hint_u32 f p m : is_u32 (hint f p m).
Proof.
  assert (forall n f p, (n <= 15)%nat -> is_u32 (scan_irl n f p)) as Hs.
  { intros n g r. induction n as [|n IH]; cbn [scan_irl]; intros Hn; [done|].
    case_match; [unfold is_u32; lia|apply IH; lia]. }
  unfold hint. cbv zeta. case_match; by apply Hs.
Qed.

Lemma irq_words_hints q : irq_words q -> irq_words (update_hints_locked q).
Proof.
  intros []. constructor; try done. cbn. generalize O. induction (irq_hint_ q) as [|h l IH]; intros c; cbn [hints_from]; [done|].
  apply Forall_cons_1 in iw_hint0 as [Hh Hl]. constructor; [case_match; [apply hint_u32|done]|by apply IH].
Qed.

Lemma irq_words_force q n v : irq_words q -> is_u32 v -> irq_words (q <| piforce_ := <[n := v]> (piforce_ q) |>).
Proof. intros H Hv. words_step. by apply Forall_insert. Qed.
Lemma irq_words_mask q n v : irq_words q -> is_u32 v -> irq_words (q <| pimask_ := <[n := v]> (pimask_ q) |>).
Proof. intros H Hv. words_step. by apply Forall_insert. Qed.
Lemma irq_words_pend q v : irq_words q -> is_u32 v -> irq_words (q <| ipend_ := v |>).
Proof. intros H Hv. words_step. Qed.

Lemma irq_words_force_unmasked irl q : irq_words q -> irq_words (force_unmasked irl q).
Proof.
  intros H. words_step. unfold force_unmasked. cbn. rewrite Forall_lookup in iw_piforce0 |- *. intros k x.
  rewrite list_lookup_imap. intros Hx. apply fmap_Some in Hx as (y & Hy & ->).
  specialize (iw_piforce0 _ _ Hy). destruct (_ && _); eauto with u32.
Qed.

Lemma keeps_wake_words i : keeps irq_words (wake_cpu i) (fun _ => True).
Proof. intros q Hq. unfold wake_cpu. destruct (_ !! _) as [[]|]; cbn; split; try done. by destruct Hq. Qed.

Lemma irq_update (f : irqmp -> irqmp) :
  (forall q, irq_words q -> irq_words (f q)) -> keeps irq_words (modify f) (fun _ => True).
Proof. intros Hf. by apply keeps_modify. Qed.

Lemma keeps_trigger_words IRL : keeps irq_words (trigger_irq IRL) (fun _ => True).
Proof.
  unfold trigger_irq. eapply keeps_bind; [apply irq_update; intros q Hq; apply irq_words_hints|intros _ _].
  - repeat case_match; auto using irq_words_force_unmasked.
    + words_step. apply Forall_insert; auto with u32.
    + apply irq_words_pend; [done|]. destruct Hq. auto with u32.
  - eapply keeps_bind; [apply keeps_gets_any|intros ids _]. apply keeps_for_each. intros i.
    eapply keeps_bind; [apply keeps_gets_any|intros m _]. apply keeps_when; [|done]. intros _. apply keeps_wake_words.
Qed.

Lemma keeps_clear_words IRL c : keeps irq_words (irqmp_clear_irq IRL c) (fun _ => True).
Proof.
  apply irq_update. intros q Hq. apply irq_words_hints. destruct (truth _).
  - apply irq_words_force; [done|]. destruct Hq. auto with u32.
  - apply irq_words_pend; [done|]. destruct Hq. auto with u32.
Qed.

Lemma keeps_hint_words c : keeps irq_words (irqmp_get_irq_hint c) (fun _ => True).
Proof. eapply keeps_bind; [apply keeps_gets_any|]. intros h _. eapply keeps_any, keeps_or_ub. Qed.

Lemma keeps_irq_read o : keeps irq_words (irqmp_read o) is_u32.
Proof. apply keeps_gets. intros q Hq. destruct Hq. repeat case_match; auto with u32. Qed.

Lemma keeps_power_words v i : keeps irq_words (power_up v i) (fun _ => True).
Proof.
  unfold power_up. eapply keeps_bind; [apply keeps_gets_any|intros q _]. destruct (_ && _); [|by apply keeps_ret].
  eapply keeps_bind; [apply keeps_when; [intros _; apply irq_update; intros p Hp; words_step|done]|intros _ _].
  eapply keeps_bind; [apply irq_update; intros p Hp; words_step|intros _ _]. apply keeps_wake_words.
Qed.

Lemma keeps_irq_write o v : is_u32 v -> keeps irq_words (irqmp_write o v) (fun _ => True).
Proof.
  intros Hv. unfold irqmp_write. destruct (_ && _).
  { apply irq_update. intros q Hq. apply irq_words_hints, irq_words_mask; [|done]. case_match; [words_step|done]. }
  destruct (_ && _).
  { eapply keeps_bind; [apply irq_update; intros q Hq; apply irq_words_hints, irq_words_force; [done|]|intros _ _].
    - destruct Hq. auto with u32.
    - eapply keeps_bind; [apply keeps_gets_any|intros m _]. apply keeps_when; [intros _; apply keeps_wake_words|done]. }
  repeat case_match; try (by apply keeps_stop);
    try (apply irq_update; intros q Hq; try apply irq_words_hints; words_step).
  eapply keeps_bind; [apply keeps_gets_any|intros ids _]. apply keeps_for_each. intros i. apply keeps_power_words.
Qed.

End irq_laws.

(** ** Timer *)

Definition timer_words (t : timer_impl) : Prop :=
  is_u32 (TCNTVAL t) /\ is_u32 (TRLDVAL t) /\ is_u32 (TCTRL t) /\ is_u32 (TLATCH t).
Record gpt_words (t : gptimer) : Prop := {
  gw_scaler : is_u32 (SCALER t); gw_sreload : is_u32 (SRELOAD t); gw_config : is_u32 (CONFIG t);
  gw_catch : is_u32 (CATCHCFG t); gw_t0 : timer_words (timer0 t); gw_t1 : timer_words (timer1 t) }.

Lemma nth_timer_words n t : gpt_words t -> timer_words (nth_timer n t).
Proof. intros []. unfold nth_timer. by case_match. Qed.
Lemma put_timer_words n tm t : gpt_words t -> timer_words tm -> gpt_words (put_timer n tm t).
Proof. intros [] H. unfold put_timer. case_match; by constructor. Qed.

Lemma gpt_read_u32 o t : gpt_words t -> is_u32 (gptimer_read o t).
Proof.
  intros Ht. pose proof (nth_timer_words (timer_index o) t Ht) as (? & ? & ? & ?). destruct Ht.
  unfold gptimer_read. repeat case_match; auto with u32.
Qed.

Lemma timer_index_range o : (NUM_IMPLEMENTED_TIMERS - 1 <? timer_index o) = false -> 0 <= timer_index o < 2.
Proof.
  unfold timer_index, s32, NUM_IMPLEMENTED_TIMERS. pose proof (u32_range (o - 0x10)) as Hu. unfold is_u32 in Hu.
  assert (0 <= u32 (o - 0x10) / 0x10 < 268435456) by (Z.div_mod_to_equations; lia).
  rewrite (proj2 (Z.ltb_lt (u32 (o - 0x10) / 0x10) 2147483648)) by lia. lia.
Qed.

Lemma write_tctrl_words n v t : 0 <= n < 2 -> is_u32 v -> gpt_words t -> gpt_words (write_tctrl n v t).
Proof.
  intros Hn Hv Ht. pose proof (nth_timer_words n t Ht) as (H1 & H2 & H3 & H4).
  assert (is_u32 (Z.shiftl 1 (16 + n))) as Hb
    by (assert (n = 0 \/ n = 1) as [->| ->] by lia; split; vm_compute; congruence).
  assert (is_u32 (Z.shiftl 1 4)) as H5 by (split; vm_compute; congruence).
  unfold write_tctrl. cbv zeta. set (rv := if Z.land _ _ =? _ then _ else _).
  assert (is_u32 rv) as Hr by (unfold rv; case_match; auto with u32). clearbody rv.
  assert (gpt_words (if truth (Z.land v 1) then t <| CONFIG := Z.lor (CONFIG t) (Z.shiftl 1 (16 + n)) |> else t)) as Ht'.
  { case_match; [|done]. destruct Ht. constructor; cbn -[Z.lor Z.shiftl]; auto with u32. }
  destruct (truth (Z.land (Z.shiftr rv 2) 1)); apply put_timer_words; try done; unfold timer_words;
    split_and!; cbn -[Z.land not32 Z.shiftl]; auto with u32.
Qed.

Lemma gpt_write_words o v t : is_u32 v -> gpt_words t -> gpt_words (gptimer_write o v t).
Proof.
  intros Hv Ht. pose proof (nth_timer_words (timer_index o) t Ht) as (H1 & H2 & H3 & H4).
  unfold gptimer_write. repeat (case_match; [destruct Ht; by constructor|]).
  destruct (o <=? _); [|done]. destruct (_ <? timer_index o) eqn:En; [done|]. apply timer_index_range in En.
  repeat case_match; try done; try (by apply put_timer_words). by apply write_tctrl_words.
Qed.

(** ** UART, keyboard *)

Record uart_words (u : apbuart) : Prop := {
  uw_len : is_u8 (in_len u); uw_pos : is_u8 (in_pos u); uw_fifo : Forall is_u8 (in_fifo u); uw_scaler : is_u32 (scaler u) }.
Lemma uart_new_words e t : uart_words (uart_new e t).
Proof. by constructor; [| |repeat constructor|]. Qed.
(** What waits at the terminal are bytes. *)
Definition con_words (c : console) : Prop := is_u8 (Uart.pending c) /\ Forall is_u8 (c_stdin c).
Definition us_words (s : uart_sys) : Prop := uart_words (us_uart s) /\ con_words (us_console s).

Lemma nth_u8 l n : Forall is_u8 l -> is_u8 (nth n l 0).
Proof.
  intros Hl. destruct (nth_in_or_default n l 0) as [Hi| ->]; [|done].
  apply (proj1 (List.Forall_forall _ _) Hl). done.
Qed.

Lemma keeps_on_uart {A} (m : M apbuart A) R : keeps uart_words m R -> keeps us_words (on_uart m) R.
Proof. intros Hm. apply (keeps_zoom _ _ _ uart_words); [done|by intros s []|]. by intros s u [_ ?] Hu. Qed.

Lemma keeps_uart_read o : keeps uart_words (uart_read o) is_u32.
Proof.
  unfold uart_read. eapply keeps_bind; [apply keeps_gets_strong|intros u (s & Hs & ->)]. unfold id. destruct Hs as [H1 H2 H3].
  destruct (o =? 0).
  { destruct (0 <? _); [|by apply keeps_ret]. unfold uart_pop.
    eapply keeps_bind; [apply (keeps_modify _ _ (fun _ => True)); [|done]|intros _ _; apply keeps_ret, is_u8_u32, nth_u8; done].
    intros u _. constructor; [apply Z.mod_pos_bound; lia|done..]. }
  destruct (o =? 4).
  { eapply keeps_bind; [apply (keeps_when _ _ _ (fun _ => True)); [intros _; apply keeps_modify; [|done]; by intros u []|done]|intros _ _].
    apply keeps_ret. unfold DREADY, TS_EMPTY, TFIFO_EMPTY, OVERRUN. repeat case_match; repeat apply lor_u32; auto with u32. }
  destruct (o =? 8). { apply keeps_ret. unfold RE, TE, RI, TI, FA. ground. repeat case_match; repeat apply lor_u32; auto with u32. }
  destruct (o =? _); [by apply keeps_ret|by apply keeps_stop].
Qed.

Lemma keeps_uart_write o v : is_u32 v -> keeps us_words (uart_write o v) (fun _ => True).
Proof.
  intros Hv. unfold uart_write. destruct (o =? 0).
  { apply (keeps_bind _ _ _ (fun _ => True)); [by intros s []|intros _ _]. apply keeps_on_uart, keeps_modify; [|done]. by intros u []. }
  destruct (o =? 4); [by apply keeps_ret|]. destruct (o =? 8).
  { apply keeps_on_uart, keeps_modify; [|done]. by intros u []. }
  destruct (o =? _); [|by apply keeps_stop]. apply keeps_on_uart, keeps_modify; [|done].
  intros u []. constructor; cbn -[Z.land]; auto with u32.
Qed.

Record ps2_words (p : apbps2) : Prop := { pw_ctrl : is_u32 (ctrl_ p); pw_rxq : Forall is_u8 (rxq_ p) }.

Lemma ps2_push_words b p : is_u8 b -> ps2_words p -> ps2_words (ps2_push b p).
Proof.
  intros Hb []. unfold ps2_push. case_match; [|by constructor]. constructor; [done|]. cbn. by apply Forall_app_2, Forall_singleton.
Qed.
Lemma ps2_state_words st p : ps2_words p -> ps2_words (p <| tx_state_ := st |>).
Proof. by intros []. Qed.

Lemma tx_respond_words cmd p : ps2_words p -> ps2_words (tx_respond cmd p).
Proof.
  intros Hp. unfold tx_respond, ack.
  repeat case_match; repeat (first [apply ps2_state_words | apply ps2_push_words; [unfold is_u8; lia|]]); done.
Qed.

Lemma ps2_read_words o p : ps2_words p -> is_u32 (ps2_read o p).1 /\ ps2_words (ps2_read o p).2.
Proof.
  intros [Hc Hq]. unfold ps2_read. cbv zeta. destruct (_ =? 0).
  { destruct (rxq_ p) as [|b q] eqn:E; cbn; [split; [done|by constructor; rewrite ?E]|]. apply Forall_cons_1 in Hq as [? ?].
    split; [by apply is_u8_u32|by constructor]. }
  destruct (_ =? 4); [|destruct (_ =? 8); (split; [done|by constructor])].
  split; [|by constructor]. apply lor_u32; [destruct (rxq_ p)|]; auto with u32.
Qed.

(** ** PCI bridge *)

Record pci_words {D} `{PciDeviceLaws D} (g : grpci2 D) : Prop := {
  gpw_ctrl : is_u32 (gp_ctrl_ g); gpw_sts : is_u32 (gp_sts_cap_ g); gpw_dma : is_u32 (gp_dma_ctrl_ g);
  gpw_base : is_u32 (gp_dma_base_ g); gpw_io : is_u32 (gp_io_map_ g); gpw_ahb : Forall is_u32 (gp_ahbm2pci_ g);
  gpw_dev : forall d, gp_device_ g = Some d -> pci_ok d }.

Section pci_laws.
Context {D : Type} `{PciDeviceLaws D}.

Lemma keeps_pci_read o : keeps pci_words (grpci2_read (D:=D) o) is_u32.
Proof.
  unfold grpci2_read. repeat (case_match; [apply keeps_gets; intros g []; auto with u32|]).
  - unfold sts_cap_value. cbv zeta. apply lor_u32; [auto with u32|]. case_match; auto with u32.
  - case_match; [|by apply keeps_ret]. eapply keeps_bind; [apply keeps_gets_strong|intros v (g & [] & ->)].
    eapply keeps_weaken; [apply keeps_or_ub|]. unfold array_get. intros w Hw. case_match; [done|].
    by apply (Forall_lookup_1 _ _ _ _ gpw_ahb0 Hw).
Qed.


Lemma write_ctrl_u32 v : is_u32 v -> is_u32 (write_ctrl v).
Proof.
  intros Hv. unfold write_ctrl. cbv zeta.
  repeat case_match; repeat apply land_u32_l; done.
Qed.
Lemma write_sts_u32 o v : is_u32 o -> is_u32 (write_sts_cap o v).
Proof. intros Ho. unfold write_sts_cap. cbv zeta. apply lor_u32; repeat apply land_u32_l; done. Qed.
Lemma write_dma_u32 o v : is_u32 o -> is_u32 v -> is_u32 (write_dma_ctrl o v).
Proof.
  intros Ho Hv. unfold write_dma_ctrl. cbv zeta.
  apply lor_u32; [apply lor_u32|]; repeat apply land_u32_l; try done. case_match; by repeat apply land_u32_l.
Qed.

Lemma pci_update (f : grpci2 D -> grpci2 D) :
  (forall g, pci_words g -> pci_words (f g)) -> keeps pci_words (modify f) (fun _ => True).
Proof. intros Hf. by apply keeps_modify. Qed.

Lemma keeps_pci_write o v : is_u32 v -> keeps pci_words (grpci2_write (D:=D) o v) (fun _ => True).
Proof.
  intros Hv. unfold grpci2_write.
  repeat (case_match; [apply pci_update; intros g []; constructor; cbn -[write_ctrl write_sts_cap write_dma_ctrl Z.land];
    auto using write_ctrl_u32, write_sts_u32, write_dma_u32 with u32|]).
  case_match; [|by apply keeps_ret]. eapply keeps_bind; [apply keeps_gets_strong|intros l (g0 & [] & ->)].
  eapply keeps_bind; [apply keeps_or_ub|intros l Hl]. apply array_set_Some in Hl as [-> _].
  apply pci_update. intros g []. constructor; try done. cbn. by apply Forall_insert.
Qed.

Lemma keeps_on_pci_device {A} (m : M D A) R : keeps pci_ok m R -> keeps pci_words (on_pci_device m) R.
Proof.
  intros Hm g Hg. unfold on_pci_device. destruct (gp_device_ g) as [d|] eqn:E; [|by split].
  destruct (Hm d) as [H1 H2]; [by apply Hg|]. destruct (m d) as [r d']. split; [|done].
  destruct Hg. constructor; try done. cbn. by intros ? [= <-].
Qed.

Lemma keeps_signal : keeps pci_words (modify (signal_pci_cfg_access_complete (D:=D))) (fun _ => True).
Proof.
  apply pci_update. intros g []. constructor; try done. cbn -[Z.lor Z.land Z.shiftl not32].
  apply lor_u32; [by apply land_u32_l|]. split; vm_compute; congruence.
Qed.

Lemma keeps_config_read a n : keeps pci_words (config_read (D:=D) a n) is_u32.
Proof.
  unfold config_read. case_match.
  { eapply keeps_bind; [apply keeps_signal|intros _ _]. apply keeps_ret. auto with u32. }
  eapply (keeps_bind _ _ _ is_u32); [|intros v Hv; eapply keeps_bind; [apply keeps_signal|intros _ _; by apply keeps_ret]].
  case_match; [by apply keeps_stop|]. case_match; [|apply keeps_ret; auto with u32].
  eapply keeps_bind; [apply keeps_on_pci_device, pci_read_ok|intros v Hv]. apply keeps_ret. by apply cpu_order_u32.
Qed.

Lemma keeps_config_write a v n : is_u32 v -> keeps pci_words (config_write (D:=D) a v n) (fun _ => True).
Proof.
  intros Hv. unfold config_write. case_match; [apply keeps_signal|].
  eapply keeps_bind; [|intros _ _; apply keeps_signal].
  case_match; [by apply (keeps_stop _ _ (fun _ => True))|]. case_match; [|by apply keeps_ret].
  apply keeps_on_pci_device, pci_write_ok. by apply cpu_order_u32.
Qed.

Lemma keeps_area {A} addr (conf io : M (grpci2 D) A) msg (R : A -> Prop) :
  keeps pci_words conf R -> keeps pci_words io R -> keeps pci_words (area_dispatch addr conf io msg) R.
Proof. intros H1 H2. unfold area_dispatch. case_match; [done|]. case_match; [done|]. by apply keeps_stop. Qed.

Lemma keeps_aligned {A} al addr mask msg (m : M (grpci2 D) A) (R : A -> Prop) :
  keeps pci_words m R -> keeps pci_words (check_aligned al addr mask msg m) R.
Proof. intros Hm. unfold check_aligned. case_match; [by apply keeps_stop|done]. Qed.

Lemma keeps_area_read n addr msg :
  keeps pci_words (area_dispatch (D:=D) addr (config_read addr n) (io_read addr n) msg) is_u32.
Proof.
  apply keeps_area; [apply keeps_config_read|]. apply keeps_ret. repeat case_match; auto with u32.
Qed.
End pci_laws.

#[export] Instance ApbSlaveLaws_grpci2 {D} `{PciDeviceLaws D} : ApbSlaveLaws (grpci2 D) := {|
  slv_ok := pci_words; slv_read_ok := keeps_pci_read; slv_write_ok := keeps_pci_write |}.

(** ** The keyboard controller with the interrupt controller *)

Section ps2_laws.
Context `{Kp : CpuPtrs}.

Definition ps_words (s : ps2_sys) : Prop := ps2_words (ps_dev s) /\ irq_words (ps_irqmp s).

Lemma keeps_ps2_read o : keeps ps_words (on_ps2 (ps2_read o)) is_u32.
Proof.
  intros s [Hp Hi]. destruct (ps2_read_words o (ps_dev s) Hp) as [Hu Hw]. unfold on_ps2.
  destruct (ps2_read o (ps_dev s)) as [v p]. split; [done|]. by intros ? [= <-].
Qed.

Lemma keeps_ps2_write o v : keeps ps_words (ps2_write o v) (fun _ => True).
Proof.
  unfold ps2_write. apply (keeps_bind _ _ _ (fun _ => True)).
  - intros s [Hp Hi]. unfold on_ps2. split; [|done]. split; [|repeat case_match; done].
    repeat case_match; cbn in *; simplify_eq; try done; [by apply tx_respond_words|].
    destruct Hp. constructor; cbn -[Z.land]; auto with u32.
  - intros t _. unfold ps2_trigger. eapply keeps_bind; [apply keeps_gets_any|intros l _].
    apply keeps_when; [|done]. intros _. apply (keeps_zoom _ _ _ irq_words); [apply keeps_trigger_words|by intros s []|].
    by intros s q [] Hq.
Qed.


Lemma keeps_push_byte b : is_u8 b -> keeps ps_words (push_byte b) (fun _ => True).
Proof.
  intros Hb. unfold push_byte. apply (keeps_bind _ _ _ (fun _ => True)).
  - intros s [Hp Hi]. cbn. split; [|done]. by split; [apply ps2_push_words|].
  - intros t _. unfold ps2_trigger. eapply keeps_bind; [apply keeps_gets_any|intros l _].
    apply keeps_when; [|done]. intros _. apply (keeps_zoom _ _ _ irq_words); [apply keeps_trigger_words|by intros s []|].
    by intros s q [] Hq.
Qed.
End ps2_laws.
