(* ===== verification/Ac97Words.v ===== *)
(** * The type invariant of the audio controller

    Every register of the audio controller (class [AC97Pci] of
    src/src/peripherals/ac97.hpp and ac97.cpp), every byte of its configuration
    space, every codec register and every sample it plays stays within its C++
    type, whatever is written to its windows and whatever its playback engine
    reads from memory, its own windows included. *)
From S2P Require Import Prelude Mctrl Tlb Mmu Cpu Instr Fpu Exec Words Irqmp Gptimer Uart Ps2 Apb Ac97.
From S2P Require Import Ac97Proofs Grpci2 Grpci2Proofs DeviceWords.

(** ** Widths *)

Lemma u16_range x : is_u16 (u16 x).
Proof. apply Z.mod_pos_bound. lia. Qed.
Lemma lor_u8 x y : is_u8 x -> is_u8 y -> is_u8 (Z.lor x y).
Proof. apply (lor_range x y 8). lia. Qed.
Lemma lor_u16 x y : is_u16 x -> is_u16 y -> is_u16 (Z.lor x y).
Proof. apply (lor_range x y 16). lia. Qed.
Lemma ldiff_u8 x y : is_u8 x -> is_u8 (Z.ldiff x y).
Proof. apply (ldiff_range x y 8). lia. Qed.
Lemma ldiff_u16 x y : is_u16 x -> is_u16 (Z.ldiff x y).
Proof. apply (ldiff_range x y 16). lia. Qed.
Lemma ldiff_u32 x y : is_u32 x -> is_u32 (Z.ldiff x y).
Proof. apply (ldiff_range x y 32). lia. Qed.
Lemma land_u8 x y : is_u8 y -> is_u8 (Z.land x y).
Proof. apply (land_range x y 8). lia. Qed.
Lemma land_u16 x y : is_u16 y -> is_u16 (Z.land x y).
Proof. apply (land_range x y 16). lia. Qed.

#[export] Hint Resolve lor_u8 lor_u16 ldiff_u8 ldiff_u16 ldiff_u32 land_u8 land_u16 u16_range : u32.
#[export] Hint Extern 1 (is_u8 (Zpos _)) => (unfold is_u8; lia) : u32.
#[export] Hint Extern 1 (is_u8 Z0) => (unfold is_u8; lia) : u32.
#[export] Hint Extern 1 (is_u16 (Zpos _)) => (unfold is_u16; lia) : u32.
#[export] Hint Extern 1 (is_u16 Z0) => (unfold is_u16; lia) : u32.
#[export] Hint Extern 1 (is_u16 (if ?b then _ else _)) => destruct b : u32.

Lemma byteswap32_u32 v : is_u32 (byteswap32 v).
Proof. unfold byteswap32. auto with u32. Qed.
Lemma byteswap16_u16 v : is_u16 (byteswap16 v).
Proof. unfold byteswap16. auto with u32. Qed.
#[export] Hint Resolve byteswap32_u32 byteswap16_u16 : u32.

(** A sample. *)
Definition is_s16 (x : Z) : Prop := -32768 <= x < 32768.

(** ** Registers *)

(** Every member of [AC97Pci] that is an integer or an array of integers. *)
Record ac97_words (a : ac97) : Prop := {
  av_config : Forall is_u8 (config_ a); av_bars : Forall is_u32 (bar_values_ a);
  av_nam : is_u32 (nam_base_ a); av_nabm : is_u32 (nabm_base_ a);
  av_phys_nam : is_u32 (phys_nam_base_ a); av_phys_nabm : is_u32 (phys_nabm_base_ a);
  av_codec : Forall is_u16 (codec_regs_ a);
  av_pctrl : is_u16 (power_ctrl_ a); av_pstatus : is_u16 (power_status_ a);
  av_bdp : is_u32 (bdbar_playback_ a); av_bdc : is_u32 (bdbar_capture_ a);
  av_cnt : is_u32 (glob_cnt_ a); av_sta : is_u32 (glob_sta_ a);
  av_pic : is_u8 (pi_control_ a); av_poc : is_u8 (po_control_ a); av_mcc : is_u8 (mc_control_ a);
  av_pis : is_u16 (pi_status_ a); av_pos : is_u16 (po_status_ a); av_mcs : is_u16 (mc_status_ a);
  av_pici : is_u8 (pi_civ_ a); av_poci : is_u8 (po_civ_ a); av_mcci : is_u8 (mc_civ_ a);
  av_pil : is_u8 (pi_lvi_ a); av_pol : is_u8 (po_lvi_ a); av_mcl : is_u8 (mc_lvi_ a);
  av_picb : is_u16 (po_picb_ a); av_ptr : is_u32 (po_cur_ptr_ a); av_len : is_u32 (po_cur_len_ a);
  av_ctl : is_u16 (po_cur_ctl_ a); av_off : is_u32 (po_cur_bd_frame_offset_bytes_ a);
  av_fpt : is_u32 (frames_per_tick_dynamic_ a) }.

Lemma ac97_zero_words audio : ac97_words (ac97_zero audio).
Proof.
  constructor; try word_ok. by apply Forall_replicate.
Qed.

(** A register update keeps the widths. *)
Ltac av_step :=
  match goal with
  | H : ac97_words ?a |- ac97_words _ =>
      destruct H; constructor;
      cbn -[Z.land Z.lor Z.ldiff Z.add Z.sub Z.mul Z.div Z.shiftl insert u16 u32]; eauto 6 with u32
  end.

Lemma words_put_codec r v l : Forall is_u16 l -> is_u16 v -> Forall is_u16 (put_codec r v l).
Proof. intros Hl Hv. by apply Forall_insert. Qed.
#[local] Hint Resolve words_put_codec : u32.

Lemma words_codec_ready a : ac97_words a -> ac97_words (codec_ready a).
Proof. intros H. unfold codec_ready, GS_PR, GS_BUSY. av_step. Qed.
Lemma words_init_codec_cold a : ac97_words a -> ac97_words (init_codec_cold a).
Proof.
  intros H. unfold init_codec_cold. cbv zeta.
  assert (forall l, Forall is_u16 l -> ac97_words (codec_ready (a <| codec_regs_ := l |>) <| power_status_ := 15 |>)) as Hc.
  { intros l Hl. assert (ac97_words (a <| codec_regs_ := l |>)) as H1 by av_step. apply words_codec_ready in H1. av_step. }
  apply Hc. repeat apply words_put_codec; try (unfold is_u16; lia). by apply Forall_replicate.
Qed.
Lemma words_init_codec_warm a : ac97_words a -> ac97_words (init_codec_warm a).
Proof.
  intros H. unfold init_codec_warm. apply words_codec_ready. av_step.
Qed.
Lemma words_cold_reset a : ac97_words a -> ac97_words (cold_reset a).
Proof. intros H. apply words_init_codec_cold in H. unfold cold_reset, GS_PR. av_step. Qed.
Lemma words_warm_reset a : ac97_words a -> ac97_words (warm_reset a).
Proof. intros H. apply words_init_codec_warm in H. unfold warm_reset. apply words_codec_ready. av_step. Qed.
Lemma words_po_reset_regs a : ac97_words a -> ac97_words (po_reset_regs a).
Proof. intros H. unfold po_reset_regs. av_step. Qed.

Lemma words_write_glob_cnt v a : is_u32 v -> ac97_words a -> ac97_words (write_glob_cnt v a).
Proof.
  intros Hv H. assert (forall w b, is_u32 w -> ac97_words b -> ac97_words (b <| glob_cnt_ := w |>)) as Hc by (intros w b Hw Hb; av_step).
  unfold write_glob_cnt. generalize (Hc v a Hv H). generalize (a <| glob_cnt_ := v |>). intros a0 H0. cbv zeta.
  assert (forall b k, ac97_words b -> ac97_words (b <| glob_cnt_ := Z.ldiff (glob_cnt_ b) k |>)) as Hd.
  { intros b k Hb. apply Hc; [|done]. destruct Hb. by apply ldiff_u32. }
  destruct (_ && _); [apply Hd, words_warm_reset|]; (destruct (_ && _); [by apply Hd, words_cold_reset|done]).
Qed.

Lemma words_write_po_lvi v a : ac97_words a -> ac97_words (write_po_lvi v a).
Proof. intros H. unfold write_po_lvi. cbv zeta. case_match; av_step. Qed.

Lemma words_halted a : ac97_words a -> ac97_words (halted a).
Proof. intros H. unfold halted. av_step. Qed.

Lemma words_phys_bases nam nabm a : is_u32 nam -> is_u32 nabm -> ac97_words a -> ac97_words (set_phys_bases nam nabm a).
Proof. intros H1 H2 H. unfold set_phys_bases. av_step. Qed.
Lemma words_attached nam nabm a :
  is_u32 nam -> is_u32 nabm -> ac97_words a -> ac97_words (set_intx_cb (set_phys_bases nam nabm a)).
Proof. intros H1 H2 H. apply (words_phys_bases nam nabm) in H; [|done..]. unfold set_intx_cb. av_step. Qed.

(** A buffer descriptor. *)
Definition bd_words (bd : Z * Z * Z) : Prop := is_u32 bd.1.1 /\ is_u16 bd.1.2 /\ is_u16 bd.2.

Lemma words_load_bd bd a : bd_words bd -> ac97_words a -> ac97_words (load_bd bd a).
Proof.
  destruct bd as [[p l] c]. intros (Hp & Hl & Hc) H. unfold load_bd. cbn in Hp, Hl, Hc. av_step.
  unfold is_u16 in *. Z.div_mod_to_equations. lia.
Qed.

(** ** The codec *)

Lemma array_set_u16 l i v l' : Forall is_u16 l -> is_u16 v -> array_set l i v = Some l' -> Forall is_u16 l'.
Proof. intros Hl Hv E. apply array_set_Some in E as [-> _]. by apply Forall_insert. Qed.
Lemma array_get_u16 l i v : Forall is_u16 l -> array_get l i = Some v -> is_u16 v.
Proof. unfold array_get. intros Hl. case_match; [done|]. intros E. by apply (Forall_lookup_1 _ _ _ _ Hl E). Qed.

Lemma words_busy a : ac97_words a -> ac97_words (codec_command_begin a) /\ ac97_words (codec_command_complete a).
Proof. intros H. split; [unfold codec_command_begin, GS_BUSY|unfold codec_command_complete]; av_step. Qed.

Lemma words_read_nam o a :
  ac97_words a -> ac97_words (read_nam o a).2 /\ forall v, (read_nam o a).1 = Some v -> is_u16 v.
Proof.
  intros H. pose proof (proj1 (words_busy a H)) as Hb. pose proof (proj2 (words_busy _ Hb)) as Hc.
  unfold read_nam. destruct (0x80 <=? o); [split; [done|by intros ? [= <-]]|]. cbv zeta.
  destruct (negb _); [split; [done|by intros ? [= <-]]|]. split; [done|]. cbn [fst]. intros v E.
  destruct (o =? 0); [by injection E as <-|]. destruct (o =? 38); [injection E as <-; apply Hb|].
  eapply array_get_u16; [apply Hb|exact E].
Qed.

Lemma words_put_reg o v a a' : is_u16 v -> ac97_words a -> put_reg o v a = Some a' -> ac97_words a'.
Proof.
  intros Hv H E. unfold put_reg in E. split_option. av_step. by eapply (array_set_u16 _ _ v).
Qed.

Lemma words_write_nam o v a a' : is_u16 v -> ac97_words a -> write_nam o v a = Some a' -> ac97_words a'.
Proof.
  intros Hv H. pose proof (proj1 (words_busy a H)) as Hb. unfold write_nam. destruct (0x80 <=? o); [by intros [= <-]|]. cbv zeta.
  destruct (negb _); [intros [= <-]; by apply words_busy|]. revert Hb. generalize (codec_command_begin a). intros b Hb E.
  match type of E with mbind _ ?m = _ => destruct m as [c|] eqn:Ec; [|done] end. cbn in E. injection E as <-.
  apply words_busy. destruct (o =? 0); [injection Ec as <-; by apply words_init_codec_warm|].
  destruct (o =? 38); [injection Ec as <-; unfold handle_0x26_power; av_step|].
  destruct (o =? 40); [by injection Ec as <-|].
  destruct (o =? 42).
  { unfold handle_0x2A_ext_audio_status in Ec. split_option. av_step. eapply array_set_u16; [eassumption| |eassumption]; auto with u32. }
  destruct (existsb _ _); (eapply words_put_reg; [|exact Hb|exact Ec]); [|done]. unfold mask_volume_reg. auto with u32.
Qed.

(** ** Configuration space *)

Lemma cfg_word_u32 b0 b1 b2 b3 :
  is_u8 b0 -> is_u8 b1 -> is_u8 b2 -> is_u8 b3 ->
  is_u32 (Z.lor (Z.lor (Z.lor b0 (Z.shiftl b1 8)) (Z.shiftl b2 16)) (Z.shiftl b3 24)).
Proof.
  intros H0 H1 H2 H3. apply lor_u32; [apply lor_u32; [apply lor_u32|]|]; try (by apply is_u8_u32);
    rewrite Z.shiftl_mul_pow2 by lia; unfold is_u8, is_u32 in *; lia.
Qed.

Lemma array_get_u8 l i b : Forall is_u8 l -> array_get l i = Some b -> is_u8 b.
Proof. unfold array_get. intros Hl. case_match; [done|]. intros E. by apply (Forall_lookup_1 _ _ _ _ Hl E). Qed.
Lemma array_set_u8 l i b l' : Forall is_u8 l -> is_u8 b -> array_set l i b = Some l' -> Forall is_u8 l'.
Proof. intros Hl Hb E. apply array_set_Some in E as [-> _]. by apply Forall_insert. Qed.

Lemma ac97_read_ok off a v : ac97_words a -> cfg_read32 off a = Some v -> is_u32 v.
Proof.
  intros [Hc Hb] E. unfold cfg_read32 in E. destruct (bar_index off) as [i|].
  - destruct (probing_bar_ a !! i) as [p|]; [cbn in E|done]. destruct (bar_values_ a !! i) as [w|] eqn:Ew; [cbn in E|done].
    injection E as <-. destruct p; [auto with u32|]. by apply (Forall_lookup_1 _ _ _ _ Hb Ew).
  - split_option. apply cfg_word_u32; by eapply array_get_u8.
Qed.

Lemma ac97_write_ok off a v a' : ac97_words a -> is_u32 v -> cfg_write32 off v a = Some a' -> ac97_words a'.
Proof.
  intros H Hv E. unfold cfg_write32 in E. destruct (bar_index off) as [i|].
  - cbv zeta in E. destruct (v =? _); injection E as <-; [av_step|]. unfold set_bar_base. destruct i; av_step.
    all: apply Forall_insert; auto with u32.
  - split_option. av_step. repeat (eapply array_set_u8; [|apply byte_at_u8|eassumption]). done.
Qed.

#[export] Instance PciDeviceLaws_ac97 : PciDeviceLaws ac97.
Proof.
  refine {| pci_ok := ac97_words |}.
  - intros off a Ha. cbn. unfold bindM, gets. destruct (cfg_read32 off a) as [v|] eqn:E; cbn; split; try done.
    intros ? [= <-]. by apply (ac97_read_ok off a).
  - intros off v Hv a Ha. cbn. unfold bindM, gets. destruct (cfg_write32 off v a) as [a'|] eqn:E; cbn; split; try done.
    by apply (ac97_write_ok off a v).
Defined.

(** ** The bus master registers and the playback engine *)

(** What the rest of the system promises to the controller that is part of it. *)
Class SelfAccessLaws (W : Type) `{DeviceBusLaws W} `{SelfAccess W} := {
  self_put_ok a w : ac97_words a -> dev_ok w -> dev_ok (self_put a w);
  self_get_ok a w : ac97_words a -> dev_ok w -> ac97_words (self_get w a);
  self_intx_ok : keeps dev_ok self_intx (fun _ => True);
}.

Section audio_words.
Context {W : Type} `{SelfAccessLaws W}.
Implicit Types s : ac97_sys W.

(** The registers of the device, the memory it masters, and what it has played. *)
Definition audio_words s : Prop :=
  ac97_words (ac_dev s) /\ mc_words (ac_mc s) /\ Forall is_s16 (ac_audio s).
Abbreviation kept m := (keeps audio_words m (fun _ => True)).

Lemma keeps_upd_words f : (forall a, ac97_words a -> ac97_words (f a)) -> kept (upd (W:=W) f).
Proof. intros Hf. apply keeps_modify; [|done]. intros s (Ha & Hm). split; [by apply Hf|done]. Qed.
Ltac av := apply keeps_upd_words; intros ? ?; repeat case_match; try done; av_step.

Lemma keeps_dev {A} (f : ac97 -> A) (R : A -> Prop) :
  (forall a, ac97_words a -> R (f a)) -> keeps audio_words (dev (W:=W) f) R.
Proof. intros Hf. apply keeps_gets. intros s (Ha & _). by apply Hf. Qed.

Lemma keeps_upd_opt_words f :
  (forall a a', ac97_words a -> f a = Some a' -> ac97_words a') -> kept (upd_opt (W:=W) f).
Proof.
  intros Hf s (Ha & Hm). unfold upd_opt. mstep. destruct (f (ac_dev s)) as [a'|] eqn:E; cbn; split; try done.
  split; [|done]. by apply (Hf (ac_dev s)).
Qed.

Lemma keeps_memory {A} (m : M (mctrl W) A) R : keeps mc_words m R -> keeps audio_words (on_memory m) R.
Proof.
  intros Hm s (Ha & (Hb & Hw) & Hs). unfold on_memory.
  destruct (Hm (ac_mc s <| world := self_put (ac_dev s) (world (ac_mc s)) |>)) as [(Hb' & Hw') HR].
  { split; [done|]. by apply self_put_ok. }
  destruct (m _) as [r c]. split; [|done]. split; [by apply self_get_ok|]. by split; [split|].
Qed.

Lemma keeps_dma16 a : keeps audio_words (mem_read16 (W:=W) a) is_u16.
Proof. eapply keeps_bind; [apply keeps_memory, mc_read16_ok|]. intros; apply keeps_ret. auto with u32. Qed.
Lemma keeps_dma32 a : keeps audio_words (mem_read32 (W:=W) a) is_u32.
Proof. eapply keeps_bind; [apply keeps_memory, mc_read32_ok|]. intros; apply keeps_ret. auto with u32. Qed.

Lemma keeps_dma_bd : keeps audio_words (read_bd (W:=W)) bd_words.
Proof.
  unfold read_bd. eapply keeps_bind; [apply keeps_gets_any|intros x _].
  eapply keeps_bind; [apply keeps_dma32|intros p Hp]. eapply keeps_bind; [apply keeps_dma16|intros l Hl].
  eapply keeps_bind; [apply keeps_dma16|intros c Hc]. by apply keeps_ret.
Qed.

Lemma s16_range v : is_u16 v -> is_s16 (s16 v).
Proof. unfold is_u16, is_s16, s16. case_match; lia. Qed.

Lemma keeps_dma_samples n : forall p, keeps audio_words (read_samples (W:=W) n p) (Forall is_s16).
Proof.
  induction n as [|n IH]; intros p; [by apply keeps_ret|]. cbn [read_samples].
  eapply keeps_bind; [apply keeps_dma16|intros v Hv]. eapply keeps_bind; [apply IH|intros l Hl; apply keeps_ret].
  constructor; [by apply s16_range|done].
Qed.

Lemma keeps_intx : kept (intx (W:=W)).
Proof.
  unfold intx. eapply keeps_bind; [apply keeps_gets_any|intros r _]. apply keeps_when; [intros _|done].
  apply (keeps_bind _ _ _ (fun _ => True)); [by apply keeps_modify|intros _ _]. apply keeps_memory, on_device_ok, self_intx_ok.
Qed.

Lemma keeps_point : kept (raise_point (W:=W)).
Proof.
  unfold raise_point, GS_POINT. eapply keeps_bind; [apply keeps_gets_any|intros i _]. apply keeps_when; [intros _|done].
  apply (keeps_bind _ _ _ (fun _ => True)); [av|intros _ _; apply keeps_intx].
Qed.

Lemma keeps_load_bd bd : bd_words bd -> kept (upd (W:=W) (load_bd bd)).
Proof. intros Hb. apply keeps_upd_words. intros a Ha. by apply words_load_bd. Qed.

Lemma keeps_dma_complete : kept (bd_complete (W:=W)).
Proof.
  unfold bd_complete. apply (keeps_bind _ _ _ (fun _ => True)); [|intros _ _].
  { apply keeps_upd_words. intros a Ha. av_step. }
  eapply keeps_bind; [apply keeps_gets_any|intros a _]. destruct (_ =? _).
  - apply (keeps_bind _ _ _ (fun _ => True)); [unfold halted; av|intros _ _; apply keeps_point].
  - eapply keeps_bind; [apply keeps_point|intros _ _]. eapply keeps_bind; [apply keeps_dma_bd|intros bd Hbd].
    destruct (bd_empty bd); [unfold halted; av|by apply keeps_load_bd].
Qed.

Lemma keeps_dma_play todo : kept (play (W:=W) todo).
Proof.
  unfold play. eapply keeps_bind; [apply keeps_gets_any|intros p _].
  eapply keeps_bind; [apply keeps_dma_samples|intros l Hl].
  apply (keeps_bind _ _ _ (fun _ => True)).
  { unfold pushSamples. eapply keeps_bind; [apply keeps_gets_any|intros h _]. apply keeps_when; [intros _|done].
    apply keeps_modify; [|done]. intros s (? & ? & ?). split_and!; try done. by apply Forall_app_2. }
  intros _ _. apply (keeps_bind _ _ _ (fun _ => True)); [av|intros _ _].
  eapply keeps_bind; [apply keeps_gets_any|intros b _]. case_match; [by apply keeps_ret|apply keeps_dma_complete].
Qed.

Lemma keeps_dma_tick credit : kept (ac97_tick (W:=W) credit).
Proof.
  unfold ac97_tick. eapply keeps_bind; [apply keeps_gets_any|intros a _]. destruct (_ || _); [by apply keeps_ret|].
  apply (keeps_bind _ _ _ (fun _ => True)).
  { destruct (_ =? 0); [|by apply keeps_ret]. eapply keeps_bind; [apply keeps_dma_bd|intros bd Hbd].
    destruct (bd_empty bd); (apply (keeps_bind _ _ _ (fun _ => True)); [|intros; by apply keeps_ret]);
      [unfold halted; av|by apply keeps_load_bd]. }
  intros go _. destruct (negb go); [by apply keeps_ret|]. eapply keeps_bind; [apply keeps_gets_any|intros b _].
  destruct (use_wall_clock_ b); [|apply keeps_dma_play]. destruct (negb _); [av|].
  cbv zeta. destruct (_ =? 0); [by apply keeps_ret|apply keeps_dma_play].
Qed.

Lemma keeps_read_nabm_words o w : keeps audio_words (read_nabm (W:=W) o w) is_u32.
Proof.
  unfold read_nabm.
  repeat (case_match; try first
    [ by apply keeps_stop
    | by apply keeps_ret
    | apply keeps_dev; intros a []; repeat case_match; auto with u32; fail ]).
  - apply keeps_dev. intros a []. unfold is_u16, is_u32 in *. lia.
  - eapply (keeps_bind _ _ _ (fun r => is_u32 r.1 /\ ac97_words r.2)).
    + apply keeps_dev. intros a Ha. unfold read_glob_sta, glob_sta_readable. cbv zeta. split; cbn [fst snd];
        [destruct Ha; auto with u32|]. case_match; [av_step|done].
    + intros [v a] [Hv Ha]. apply (keeps_bind _ _ _ (fun _ => True)); [by apply keeps_upd_words|intros; by apply keeps_ret].
Qed.

Lemma keeps_write_po_cr_words v : kept (write_po_cr (W:=W) v).
Proof.
  unfold write_po_cr. cbv zeta. apply (keeps_bind _ _ _ (fun _ => True)); [av|intros _ _].
  case_match; [apply keeps_upd_words, words_po_reset_regs|]. case_match; [av|].
  eapply keeps_bind; [apply keeps_gets_any|intros r _]. destruct r; [by apply keeps_ret|].
  eapply keeps_bind; [apply keeps_gets_any|intros b _].
  apply (keeps_bind _ _ _ (fun _ => True)).
  { case_match; [by apply keeps_ret|]. eapply keeps_any, keeps_memory, find_bank_or_null_ok. }
  intros [i|] _; [|av]. eapply keeps_bind; [apply keeps_dma_bd|intros bd Hbd]. destruct (bd_empty bd); [av|].
  apply keeps_upd_words. intros a Ha. apply words_load_bd; [done|]. av_step.
Qed.

Lemma keeps_write_nabm_words o v w : is_u32 v -> kept (write_nabm (W:=W) o v w).
Proof.
  intros Hv. unfold write_nabm. cbv zeta.
  repeat (case_match; try first
    [ by apply keeps_stop
    | by apply keeps_ret
    | by apply keeps_write_po_cr_words
    | apply keeps_upd_words, words_write_po_lvi
    | apply keeps_upd_words; intros a Ha; by apply words_write_glob_cnt
    | av; fail ]).
Qed.

(** ** The windows *)

Lemma keeps_io_dispatch {A} addr (nam nabm : Z -> M (ac97_sys W) A) none R :
  (forall o, keeps audio_words (nam o) R) -> (forall o, keeps audio_words (nabm o) R) -> keeps audio_words none R ->
  keeps audio_words (io_dispatch addr nam nabm none) R.
Proof.
  intros Hn Hm Hz. unfold io_dispatch. eapply keeps_bind; [apply keeps_gets_any|intros a _]. by repeat case_match.
Qed.

Lemma keeps_m_read_nam_words o : keeps audio_words (m_read_nam (W:=W) o) is_u16.
Proof.
  unfold m_read_nam. eapply (keeps_bind _ _ _ (fun r => ac97_words r.2 /\ forall v, r.1 = Some v -> is_u16 v)).
  - apply keeps_dev. intros a Ha. by apply words_read_nam.
  - intros [r a] [Ha Hr]. apply (keeps_bind _ _ _ (fun _ => True)); [by apply keeps_upd_words|intros _ _].
    by apply keeps_or_ub_ok.
Qed.

Lemma io_read32_ok addr : keeps audio_words (io_read32 (W:=W) addr) is_u32.
Proof.
  apply keeps_io_dispatch; [|intros; apply keeps_read_nabm_words|by apply keeps_ret].
  intros o. eapply keeps_bind; [apply keeps_m_read_nam_words|intros v Hv]. apply keeps_ret. auto with u32.
Qed.
Lemma io_read16_ok addr : keeps audio_words (io_read16 (W:=W) addr) is_u16.
Proof.
  apply keeps_io_dispatch; [intros; apply keeps_m_read_nam_words| |by apply keeps_ret].
  intros o. eapply keeps_bind; [apply keeps_read_nabm_words|intros v Hv]. apply keeps_ret. auto with u32.
Qed.
Lemma io_read8_ok addr : keeps audio_words (io_read8 (W:=W) addr) is_u8.
Proof.
  unfold io_read8. eapply keeps_bind; [apply keeps_gets_any|intros b _]. case_match; [|by apply keeps_ret].
  eapply keeps_bind; [apply keeps_read_nabm_words|intros v Hv]. apply keeps_ret. apply Z.mod_pos_bound. lia.
Qed.

Lemma keeps_nam_write o v : is_u16 v -> kept (upd_opt (W:=W) (write_nam o v)).
Proof. intros Hv. apply keeps_upd_opt_words. intros a a' Ha E. by eapply words_write_nam. Qed.

Lemma io_write32_ok addr v : is_u32 v -> kept (io_write32 (W:=W) addr v).
Proof.
  intros Hv. apply keeps_io_dispatch; [intros; apply keeps_nam_write, u16_range|intros; by apply keeps_write_nabm_words|by apply keeps_ret].
Qed.
Lemma io_write16_ok addr v : is_u16 v -> kept (io_write16 (W:=W) addr v).
Proof.
  intros Hv. apply keeps_io_dispatch; [intros; by apply keeps_nam_write|intros; apply keeps_write_nabm_words; by apply is_u16_u32|by apply keeps_ret].
Qed.
Lemma io_write8_ok addr v : is_u8 v -> kept (io_write8 (W:=W) addr v).
Proof.
  intros Hv. unfold io_write8. eapply keeps_bind; [apply keeps_gets_any|intros b _]. case_match; [|by apply keeps_ret].
  apply keeps_write_nabm_words. by apply is_u8_u32.
Qed.

Lemma mmio_read32_ok addr : keeps audio_words (mmio_read32 (W:=W) addr) is_u32.
Proof. eapply keeps_bind; [apply io_read32_ok|intros v _]. apply keeps_ret. auto with u32. Qed.
Lemma mmio_read16_ok addr : keeps audio_words (mmio_read16 (W:=W) addr) is_u16.
Proof. eapply keeps_bind; [apply io_read16_ok|intros v _]. apply keeps_ret. auto with u32. Qed.
Lemma mmio_write32_ok addr v : kept (mmio_write32 (W:=W) addr v).
Proof. apply io_write32_ok. auto with u32. Qed.
Lemma mmio_write16_ok addr v : kept (mmio_write16 (W:=W) addr v).
Proof. apply io_write16_ok. auto with u32. Qed.
End audio_words.
