(* ===== verification/VideoWords.v ===== *)
(** * The type invariant of the display controller

    Every register of the display controller, its colour tables, the size of the
    display and every pixel of its texture stay within their C++ types, through
    every write of the guest and every pass of the display thread
    (src/src/peripherals/SVGA.h, Display.h, Display.cpp). *)
From S2P Require Import Prelude Mctrl Tlb Mmu Cpu Instr Fpu Exec Words Irqmp Gptimer Uart Ps2 Apb Ac97.
From S2P Require Import Ac97Proofs Video Grpci2 Grpci2Proofs DeviceWords Ac97Words.

(** ** State *)

(** The registers of [SVGA]. *)
Record svga_words (s : svga) : Prop := {
  gw_stat : is_u32 (sv_stat s); gw_vlen : is_u32 (sv_vlen s); gw_fporch : is_u32 (sv_fporch s);
  gw_synlen : is_u32 (sv_synlen s); gw_linlen : is_u32 (sv_linlen s); gw_fbuf : is_u32 (sv_fbuf s);
  gw_dclk0 : is_u32 (sv_dclk0 s); gw_dclk1 : is_u32 (sv_dclk1 s); gw_dclk2 : is_u32 (sv_dclk2 s);
  gw_dclk3 : is_u32 (sv_dclk3 s); gw_palette : Forall is_u32 (sv_palette s);
  gw_bpp : sv_bpp s = 8 \/ sv_bpp s = 32 }.

(** The size of a display is that of a mode the registers can express. *)
Definition is_extent (x : Z) : Prop := 1 <= x <= 65536.

Record display_words (d : display) : Prop := {
  dw_width : is_extent (dp_width d); dw_height : is_extent (dp_height d);
  dw_bpp : dp_bpp d = 8 \/ dp_bpp d = 32; dw_palette : Forall is_u32 (dp_palette d);
  dw_fb : forall k off, dp_framebuffer d = Some (k, off) -> is_u32 off }.

(** Every pixel is a word. *)
Definition texture_words (t : texture) : Prop := map_Forall (fun _ px => is_u32 px) (b_map (tex_px t)).

Record screen_words (s : screen) : Prop := {
  sw_svga : svga_words (sc_svga s); sw_dp : display_words (sc_dp s); sw_tex : texture_words (sc_tex s);
  sw_shown : forall t, sc_shown s = Some t -> texture_words t }.

Lemma screen_new_words enable : screen_words (screen_new enable).
Proof.
  assert (Forall is_u32 (replicate 256 0)) by (by apply Forall_replicate).
  destruct enable; (constructor; [constructor|constructor| |]); cbn; try done; try (unfold is_u32, is_extent; lia); auto.
Qed.

(** ** The operations *)

Section video_words.
Context `{Kp : CpuPtrs} {W : Type} (P : W -> Prop).
Implicit Types v : video W.

Definition video_words v : Prop :=
  screen_words (screen_of v) /\ typed_memory P (v_mc v) /\ ps_words (v_ps2 v).
Abbreviation kept m := (keeps video_words m (fun _ => True)).

Lemma keeps_v_upd f : (forall d, display_words d -> display_words (f d)) -> kept (v_upd (W:=W) f).
Proof. intros Hf. apply keeps_modify; [|done]. intros v ([] & Hm). split; [|done]. constructor; try done. by apply Hf. Qed.
Lemma keeps_s_upd f : (forall s, svga_words s -> svga_words (f s)) -> kept (s_upd (W:=W) f).
Proof. intros Hf. apply keeps_modify; [|done]. intros v ([] & Hm). split; [|done]. constructor; try done. by apply Hf. Qed.

Ltac dw := apply keeps_v_upd; intros ? []; constructor; try done.
Ltac gw := apply keeps_s_upd; intros ? []; constructor; cbn -[Z.land Z.lor Z.shiftl]; auto with u32.

Lemma keeps_v_mem {A} (m : M (mctrl W) A) R : keeps (typed_memory P) m R -> keeps video_words (v_mem m) R.
Proof.
  intros Hm. apply (keeps_zoom _ _ _ (typed_memory P)); [done|by intros v (_ & ? & _)|]. by intros v c (? & _ & ?) Hc.
Qed.
Lemma keeps_v_key {A} (m : M ps2_sys A) R : keeps ps_words m R -> keeps video_words (v_key m) R.
Proof.
  intros Hm. apply (keeps_zoom _ _ _ ps_words); [done|by intros v (_ & _ & ?)|]. by intros v c (? & ? & _) Hc.
Qed.

(** No peripheral is accessed, so any will do. *)
Definition dead_bus_laws : @DeviceBusLaws W dead_bus.
Proof. refine (@Build_DeviceBusLaws W dead_bus P _ _ _ _ _ _); intros; by apply keeps_stop. Defined.

Lemma keeps_bank_at i : keeps (typed_memory P) (bank_at i) bank_bytes.
Proof. exact (@bank_at_ok W dead_bus dead_bus_laws i). Qed.
Lemma keeps_get_ptr i : keeps (typed_memory P) (get_ptr i) (fun _ => True).
Proof. exact (@get_ptr_ok W dead_bus dead_bus_laws i). Qed.
Lemma keeps_lookup a : keeps (typed_memory P) (find_bank_or_null a) (fun _ => True).
Proof. exact (@find_bank_or_null_ok W dead_bus dead_bus_laws a). Qed.

(** *** Writes of the guest *)

Lemma keeps_enable : kept (display_enable (W:=W)).
Proof. unfold display_enable. dw. Qed.
Lemma keeps_disable b : kept (display_disable (W:=W) b).
Proof. unfold display_disable. dw. Qed.
Lemma keeps_pc pc : kept (modify (fun v => v <| v_pc := pc |>)).
Proof. apply keeps_modify; [|done]. by intros v ([] & ? & ?). Qed.

Lemma keeps_display_start : kept (display_start (W:=W)).
Proof.
  unfold display_start. apply (keeps_bind _ _ _ (fun _ => True)); [dw|intros _ _].
  eapply keeps_bind; [apply keeps_gets_any|intros pc _]. destruct pc; try (by apply keeps_stop). apply keeps_pc.
Qed.

Lemma keeps_svga_reset : kept (svga_reset (W:=W)).
Proof.
  unfold svga_reset. apply (keeps_bind _ _ _ (fun _ => True)); [gw|intros _ _].
  eapply keeps_bind; [apply keeps_gets_any|intros e _]. apply keeps_when; [intros _; apply keeps_disable|done].
Qed.

Lemma extent_field x : is_extent (Z.land x 0xffff + 1).
Proof. assert (0 <= Z.land x 0xffff < 2 ^ 16) by (apply land_range; lia). unfold is_extent. lia. Qed.

Lemma keeps_write_stat value : is_u32 value -> kept (write_stat (W:=W) value).
Proof.
  intros Hv. unfold write_stat. case_match; [apply keeps_svga_reset|]. cbv zeta.
  eapply keeps_bind; [apply keeps_gets_any|intros was _].
  set (bpp := if _ =? 1 then 8 else 32). assert (bpp = 8 \/ bpp = 32) as Hb by (unfold bpp; case_match; auto). clearbody bpp.
  apply (keeps_bind _ _ _ (fun _ => True)); [gw|intros _ _].
  apply (keeps_bind _ _ _ (fun _ => True)); [unfold set_bpp; dw|intros _ _].
  case_match; [|apply keeps_when; [intros _; apply keeps_disable|done]].
  eapply keeps_bind; [apply keeps_gets_any|intros s _].
  apply (keeps_bind _ _ _ (fun _ => True)).
  { apply keeps_when; [intros _|done]. unfold set_resolution. dw; apply extent_field. }
  intros _ _. apply (keeps_bind _ _ _ (fun _ => True)); [|intros _ _; apply keeps_enable].
  apply keeps_when; [intros _|done]. eapply keeps_bind; [apply keeps_display_start|intros _ _; gw].
Qed.

Lemma keeps_write_fbuf value : is_u32 value -> kept (write_fbuf (W:=W) value).
Proof.
  intros Hv. unfold write_fbuf. apply (keeps_bind _ _ _ (fun _ => True)); [gw|intros _ _].
  eapply keeps_bind; [apply keeps_v_mem, keeps_lookup|intros [i|] _]; [|by apply keeps_ret].
  apply (keeps_bind _ _ _ (fun fb => forall k off, fb = Some (k, off) -> is_u32 off)).
  - unfold fb_pointer. eapply keeps_bind; [apply keeps_v_mem, keeps_get_ptr|intros p _].
    eapply keeps_bind; [apply keeps_v_mem, keeps_bank_at|intros b _]. cbv zeta.
    destruct p; [apply keeps_ret; intros ? ? [= <- <-]; apply u32_range|]. case_match; [by apply keeps_ret|by apply keeps_stop].
  - intros fb Hfb. unfold set_framebuffer. dw.
Qed.

Lemma keeps_write_clut value : is_u32 value -> kept (write_clut (W:=W) value).
Proof.
  intros Hv. unfold write_clut. cbv zeta. set (colour := Z.lor _ _).
  assert (is_u32 colour) as Hc.
  { assert (forall x n, 0 <= n <= 16 -> is_u32 (Z.shiftl (Z.land x 0xff) n)) as Hs.
    { intros x n Hn. apply (field_u32 x 8 n); lia. }
    unfold colour. repeat apply lor_u32; [auto with u32|apply Hs; lia..|auto with u32]. }
  clearbody colour. eapply keeps_bind; [apply keeps_gets_strong|intros o (v & ([] & _) & ->)].
  apply (keeps_bind _ _ _ (Forall is_u32)).
  { apply keeps_or_ub_ok. intros l E. apply array_set_Some in E as [-> _]. apply Forall_insert; [apply sw_svga0|done]. }
  intros l Hl. apply (keeps_bind _ _ _ (fun _ => True)); [gw|intros _ _]. unfold set_palette. dw.
Qed.

Lemma svga_write_ok off value : is_u32 value -> kept (svga_write (W:=W) off value).
Proof.
  intros Hv. unfold svga_write. case_match; [by apply keeps_write_stat|].
  repeat (case_match; [first [gw; fail|by apply keeps_write_fbuf|by apply keeps_write_clut]|]). by apply keeps_ret.
Qed.

(** *** The display thread *)

Lemma keeps_handle_key down sc : kept (handle_key_event (W:=W) down sc).
Proof.
  unfold handle_key_event. eapply keeps_bind; [apply keeps_gets_any|intros cb _]. cbv zeta.
  case_match; [by apply keeps_ret|].
  apply (keeps_bind _ _ _ (fun _ => True)); [apply keeps_when; [intros _|done]; apply keeps_v_key, keeps_push_byte; unfold is_u8; lia|intros _ _].
  apply (keeps_bind _ _ _ (fun _ => True)); [apply keeps_when; [intros _|done]; apply keeps_v_key, keeps_push_byte; unfold is_u8; lia|intros _ _].
  apply keeps_v_key, keeps_push_byte. apply land_u8. unfold is_u8; lia.
Qed.

Lemma keeps_poll_event e : kept (poll_event (W:=W) e).
Proof.
  destruct e as [down sc ctrl|]; [|by apply keeps_ret]. cbn [poll_event]. eapply keeps_bind; [apply keeps_gets_any|intros d _].
  repeat case_match; try apply keeps_handle_key; try (dw; fail).
  all: apply (keeps_bind _ _ _ (fun _ => True)); [dw|intros _ _]; try apply keeps_handle_key.
  apply keeps_modify; [|done]. by intros v ([] & ? & ?).
Qed.

Context `{HostVideo}.

Lemma keeps_draw_pixel fb stride y x : kept (draw_pixel (W:=W) fb stride y x).
Proof.
  unfold draw_pixel. eapply keeps_bind; [apply keeps_gets_strong|intros d (v & ([] & _) & ->)].
  apply (keeps_bind _ _ _ bytes_ok).
  { unfold fb_buffer. eapply keeps_bind; [apply keeps_v_mem, keeps_bank_at|intros b Hb]. apply keeps_or_ub_ok. intros d Hd.
    destruct b; cbn in Hd; by simplify_eq. }
  intros src Hsrc. eapply keeps_bind; [eapply keeps_any; unfold as_int; case_match; [by apply (keeps_ret _ _ (fun _ => True))|by apply (keeps_stop _ _ (fun _ => True))]|intros i _].
  apply (keeps_bind _ _ _ is_u32).
  { case_match.
    - eapply keeps_bind; [apply keeps_or_ub|intros c _]. apply keeps_or_ub_ok. intros px Hpx. unfold array_get in Hpx.
      case_match; [done|]. eapply Forall_lookup_1; [apply sw_dp0|exact Hpx].
    - eapply keeps_bind; [apply keeps_or_ub|intros w _]. apply keeps_ret. auto with u32. }
  intros px Hpx. eapply keeps_bind; [eapply keeps_any; unfold as_int; case_match; [by apply (keeps_ret _ _ (fun _ => True))|by apply (keeps_stop _ _ (fun _ => True))]|intros j _].
  eapply keeps_bind; [apply keeps_gets_strong|intros t (v' & ([] & _) & ->)].
  eapply keeps_bind; [apply keeps_or_ub|intros p Hp]. apply keeps_modify; [|done]. intros v1 ([] & ?). split; [|done].
  constructor; try done. cbn. unfold texture_words in *. cbn. unfold bytes_set in Hp. case_match; simplify_eq. cbn.
  by apply map_Forall_insert_2.
Qed.

Lemma keeps_draw_frame : kept (draw_frame (W:=W)).
Proof.
  unfold draw_frame. eapply keeps_bind; [apply keeps_gets_any|intros [fb|] _]; [|by apply keeps_ret].
  eapply keeps_bind; [apply keeps_gets_any|intros t _]. eapply keeps_bind; [apply keeps_gets_any|intros d _]. cbv zeta.
  apply (keeps_bind _ _ _ (fun _ => True)).
  - apply keeps_for_each. intros y. apply keeps_for_each. intros x. apply keeps_draw_pixel.
  - intros _ _. apply keeps_modify; [|done]. intros v ([] & ?). split; [|done]. constructor; try done. by intros ? [= <-].
Qed.

Lemma keeps_new_texture w h : kept (modify (fun v => v <| v_tex := new_texture w h |>)).
Proof. apply keeps_modify; [|done]. intros v ([] & ?). split; [|done]. by constructor. Qed.

Lemma render_step_ok events : kept (render_step (W:=W) events).
Proof.
  unfold render_step. eapply keeps_bind; [apply keeps_gets_any|intros pc _].
  eapply keeps_bind; [apply keeps_gets_any|intros d _]. cbv zeta. destruct pc; try (by apply keeps_stop).
  - case_match; [by apply keeps_stop|]. apply (keeps_bind _ _ _ (fun _ => True)); [dw|intros _ _].
    apply (keeps_bind _ _ _ (fun _ => True)); [|intros _ _; apply keeps_pc].
    apply keeps_modify; [|done]. intros v ([] & ?). split; [|done]. by constructor.
  - case_match; [apply keeps_pc|]. case_match; [by apply keeps_stop|].
    apply (keeps_bind _ _ _ (fun _ => True)); [|intros _ _; apply keeps_pc]. apply keeps_when; [intros _|done].
    apply (keeps_bind _ _ _ (fun _ => True)); [dw|intros _ _]. apply keeps_new_texture.
  - case_match.
    + apply (keeps_bind _ _ _ (fun _ => True)); [|intros _ _; apply keeps_draw_frame].
      apply keeps_for_each. intros e. apply keeps_poll_event.
    + case_match; [apply keeps_pc|]. apply (keeps_bind _ _ _ (fun _ => True)); [|intros _ _; apply keeps_pc].
      apply keeps_modify; [|done]. intros v ([] & ?). split; [|done]. by constructor.
Qed.
End video_words.
