(* ===== verification/Board.v ===== *)
(** * The board: the devices behind the memory controller

    The AHB/APB bridge of [Apb] with the PCI bridge of [Grpci2], the audio
    controller of [Ac97] behind it, and the display controller of [Video]; and
    the other device banks: the PCI configuration area and the two windows of the
    audio controller (the attachments of src/src/sparcv8_leon_smp.cpp).  The
    devices discharge the interface laws that the type invariant of the
    processors is proved against, so that it holds of a processor running on this
    board; and the bus clock's loop terminates. *)
From S2P Require Import Prelude Mctrl Tlb Mmu Cpu Instr Fpu Exec Words Irqmp Gptimer Uart Ps2 Apb Ac97.
From S2P Require Import Ac97Proofs Video Grpci2 Grpci2Proofs DeviceWords Ac97Words VideoWords.

(** ** The devices together *)

Abbreviation board := (apb (grpci2 ac97) screen).

(** An operation of the display controller or its thread, on the objects the
    controller refers to: the memory controller and the keyboard controller. *)
Definition on_video {A} (op : M (video board) A) : M (mctrl board) A := fun m =>
  let a := world m in
  let '(r, v) := op (video_of (apb_svga a) m (mkPs2Sys (apb_ps2 a) (apb_irq a))) in
  (r, v_mc v <| world := world (v_mc v) <| apb_svga := screen_of v |>
                <| apb_ps2 := ps_dev (v_ps2 v) |> <| apb_irq := ps_irqmp (v_ps2 v) |> |>).

#[export] Instance DisplaySlave_screen : DisplaySlave screen board := {|
  vga_read off := gets (fun s => svga_read off (sc_svga s));
  vga_write off v := on_video (svga_write off v) |}.

(** The audio controller is the device behind the PCI bridge; its callback is
    [raise_pci_irq]. *)
Definition put_device (a : ac97) (w : board) : board := w <| apb_pci := apb_pci w <| gp_device_ := Some a |> |>.
Definition raise_pci_irq : M board unit := a_irq (trigger_irq 2).
#[export] Instance SelfAccess_board : SelfAccess board := {|
  self_put := put_device;
  self_get w a := default a (gp_device_ (apb_pci w));
  self_intx := raise_pci_irq |}.

(** An access to one of its windows; the bank refers to the device. *)
Definition window {A} (op : M (ac97_sys board) A) : M (mctrl board) A := fun m =>
  match gp_device_ (apb_pci (world m)) with
  | None => (Crash UndefinedBehaviour, m)
  | Some a =>
      let '(r, s) := op (mkAcSys a m [] 0) in
      (r, ac_mc s <| world := put_device (ac_dev s) (world (ac_mc s)) |>)
  end.

#[local] Open Scope M_scope.

(** The accessors of the device banks: 0 is the bridge, which inherits the
    16-bit accessors; 1 the PCI configuration area, which refers to the bridge
    inside the first; 2 and 3 are the windows. *)
Definition board_read8 (id : nat) (va : Z) : M (mctrl board) Z :=
  match id with
  | 0%nat => on_device (apb_read8 va) | 1%nat => on_device (a_pci (area_read8 va))
  | 2%nat | 3%nat => window (io_read8 va) | _ => ub
  end.
Definition board_read16 (id : nat) (va : Z) (al : bool) : M (mctrl board) Z :=
  match id with
  | 0%nat => on_device (default_read16 apb_read8 Big va) | 1%nat => on_device (a_pci (area_read16 va al))
  | 2%nat | 3%nat => window (mmio_read16 va) | _ => ub
  end.
Definition board_read32 (id : nat) (va : Z) (al : bool) : M (mctrl board) Z :=
  match id with
  | 0%nat => on_device (apb_read32 va) | 1%nat => on_device (a_pci (area_read32 va al))
  | 2%nat | 3%nat => window (mmio_read32 va) | _ => ub
  end.

(** [inner] is the memory as the audio controller sees it when a write to a
    window makes it read a buffer descriptor. *)
Definition board_bus (inner : DeviceBus board) : DeviceBus board := {|
  dev_read8 := board_read8; dev_read16 := board_read16; dev_read32 := board_read32;
  dev_write8 id va v :=
    match id with
    | 0%nat => on_device (apb_write8 va v) | 1%nat => on_device (a_pci (area_write8 va v))
    | 2%nat | 3%nat => window (io_write8 va v) | _ => ub
    end;
  dev_write16 id va v al :=
    match id with
    | 0%nat => on_device (default_write16 apb_write8 Big va v) | 1%nat => on_device (a_pci (area_write16 va v al))
    | 2%nat | 3%nat => window (mmio_write16 va v) | _ => ub
    end;
  dev_write32 id va v al :=
    match id with
    | 0%nat => apb_write32 va v | 1%nat => on_device (a_pci (area_write32 va v al))
    | 2%nat | 3%nat => window (mmio_write32 va v) | _ => ub
    end;
|}.

(** The controller only reads memory, and reading a window accesses no memory,
    so the controller finds its own windows where they are. *)
Definition DeviceBus_board : DeviceBus board := board_bus (board_bus dead_bus).
#[export] Existing Instance DeviceBus_board.

Lemma mc_reads_agree {W} (b1 b2 : DeviceBus W) r8 r16 r32 :
  (@dev_read8 W b1 = r8 /\ @dev_read16 W b1 = r16 /\ @dev_read32 W b1 = r32) ->
  (@dev_read8 W b2 = r8 /\ @dev_read16 W b2 = r16 /\ @dev_read32 W b2 = r32) ->
  @mc_read16 W b1 = @mc_read16 W b2 /\ @mc_read32 W b1 = @mc_read32 W b2.
Proof. destruct b1, b2. cbn. by intros (<- & <- & <-) (<- & <- & <-). Qed.

Lemma board_reads b :
  @dev_read8 board (board_bus b) = board_read8 /\ @dev_read16 board (board_bus b) = board_read16 /\
  @dev_read32 board (board_bus b) = board_read32.
Proof. done. Qed.

Lemma inner_bus_any b : board_bus (board_bus b) = DeviceBus_board.
Proof.
  destruct (mc_reads_agree _ _ _ _ _ (board_reads b) (board_reads dead_bus)) as [E16 E32].
  unfold DeviceBus_board, board_bus at 1 3, io_write8, mmio_write16, mmio_write32, io_write16, io_write32, write_nabm,
    write_po_cr, read_bd, mem_read32, mem_read16.
  by rewrite E32, E16.
Qed.

(** ** The type invariant *)

Section board_laws.
Context `{Kp : CpuPtrs}.

(** Every register of every device. *)
Record apb_words (a : board) : Prop := {
  aw_mem : bytes_ok (apb_mem a); aw_console : con_words (apb_console a); aw_uart : uart_words (apb_uart a);
  aw_uart9 : uart_words (apb_uart9 a); aw_irq : irq_words (apb_irq a); aw_timer : gpt_words (apb_timer a);
  aw_pci : pci_words (apb_pci a); aw_svga : screen_words (apb_svga a); aw_ps2 : ps2_words (apb_ps2 a) }.

Lemma keeps_a_irq {A} (m : M irqmp A) R : keeps irq_words m R -> keeps apb_words (a_irq m) R.
Proof. intros Hm. apply (keeps_zoom _ _ _ irq_words); [done|by intros a []|]. intros a q [] Hq. by constructor. Qed.
Lemma keeps_a_pci {A} (m : M (grpci2 ac97) A) R : keeps pci_words m R -> keeps apb_words (a_pci m) R.
Proof. intros Hm. apply (keeps_zoom _ _ _ pci_words); [done|by intros a []|]. intros a q [] Hq. by constructor. Qed.
Lemma keeps_a_svga {A} (m : M screen A) R : keeps screen_words m R -> keeps apb_words (a_svga m) R.
Proof. intros Hm. apply (keeps_zoom _ _ _ screen_words); [done|by intros a []|]. intros a q [] Hq. by constructor. Qed.
Lemma keeps_a_uart {A} (m : M uart_sys A) R : keeps us_words m R -> keeps apb_words (a_uart m) R.
Proof. intros Hm. apply (keeps_zoom _ _ _ us_words); [done|by intros a []|]. intros a q [] []. by constructor. Qed.
Lemma keeps_a_uart9 {A} (m : M uart_sys A) R : keeps us_words m R -> keeps apb_words (a_uart9 m) R.
Proof. intros Hm. apply (keeps_zoom _ _ _ us_words); [done|by intros a []|]. intros a q [] []. by constructor. Qed.
Lemma keeps_a_ps2 {A} (m : M ps2_sys A) R : keeps ps_words m R -> keeps apb_words (a_ps2 m) R.
Proof. intros Hm. apply (keeps_zoom _ _ _ ps_words); [done|by intros a []|]. intros a q [] [Hq Hi]. by constructor. Qed.

Lemma keeps_check_range va : keeps apb_words (check_range va) (fun _ => True).
Proof.
  unfold check_range. eapply keeps_bind; [apply keeps_gets_any|intros a _].
  case_match; [by apply keeps_ret|by apply keeps_stop].
Qed.

Lemma keeps_apb_read va : keeps apb_words (apb_read32 va) is_u32.
Proof.
  unfold apb_read32. eapply keeps_bind; [apply keeps_check_range|intros _ _]. cbv zeta.
  case_match. { eapply keeps_bind; [apply keeps_gets_strong|intros v (a & Ha & ->)].
    eapply keeps_weaken; [apply keeps_or_ub|]. intros w Hw. unfold read32_be in Hw.
    by apply (peek32_ok (apb_mem a) (aw_mem a Ha) Big (u32 (Z.land va 0xff - 0))). }
  case_match; [apply keeps_a_uart, keeps_on_uart, keeps_uart_read|].
  case_match; [apply keeps_a_irq, keeps_irq_read|].
  case_match; [apply keeps_gets; intros a []; by apply gpt_read_u32|].
  case_match; [apply keeps_a_pci, keeps_pci_read|].
  case_match; [apply keeps_a_uart9, keeps_on_uart, keeps_uart_read|].
  case_match; [apply keeps_a_svga, keeps_gets; intros s [[] ? ? ?]; unfold svga_read; repeat case_match; auto with u32|].
  case_match; [apply keeps_a_ps2, keeps_ps2_read|]. by apply keeps_ret.
Qed.


(** An operation of the devices, on the memory controller. *)
Abbreviation typed := (typed_memory apb_words).
Lemma keeps_on_device {A} (op : M board A) R : keeps apb_words op R -> keeps typed (on_device op) R.
Proof. intros Hop. apply (keeps_zoom _ _ _ apb_words); [done|by intros ? []|]. by intros m w [] ?. Qed.

(** The display controller keeps the types of all it refers to. *)
Lemma keeps_on_video {A} (op : M (video board) A) R : keeps (video_words apb_words) op R -> keeps typed (on_video op) R.
Proof.
  intros Hop m [Hb Hw]. unfold on_video.
  destruct (Hop (video_of (apb_svga (world m)) m (mkPs2Sys (apb_ps2 (world m)) (apb_irq (world m))))) as [(H1 & [H2 H3] & H4 & H5) HR].
  { split; [|split; [done|]]; [destruct Hw; by destruct (apb_svga (world m))|]. by destruct Hw. }
  destruct (op _) as [r v]. split; [|done]. split; [done|]. cbn in *. by destruct H3; constructor.
Qed.

Lemma keeps_apb_write va v : is_u32 v -> keeps typed (apb_write32 (P:=grpci2 ac97) (V:=screen) va v) (fun _ => True).
Proof.
  intros Hv. unfold apb_write32. eapply keeps_bind; [apply keeps_on_device, keeps_check_range|intros _ _]. cbv zeta.
  case_match. { apply keeps_on_device. eapply keeps_bind; [apply keeps_gets_strong|intros o (a & Ha & ->)].
    eapply keeps_bind; [apply keeps_or_ub|intros d Hd]. apply keeps_modify; [|done]. intros b [].
    constructor; try done. unfold write32_be in Hd.
    by apply (poke32_ok (apb_mem a) (aw_mem a Ha) Big (u32 (Z.land va 0xff - 0)) v d). }
  case_match; [by apply keeps_on_device, keeps_a_uart, keeps_uart_write|].
  case_match; [by apply keeps_on_device, keeps_a_irq, keeps_irq_write|].
  case_match; [apply keeps_on_device, keeps_modify; [|done]; intros a []; constructor; try done; by apply gpt_write_words|].
  case_match; [by apply keeps_on_device, keeps_a_pci, keeps_pci_write|].
  case_match; [by apply keeps_on_device, keeps_a_uart9, keeps_uart_write|].
  case_match; [by apply keeps_on_video, svga_write_ok|].
  case_match; [apply keeps_on_device, keeps_a_ps2, keeps_ps2_write|]. by apply keeps_ret.
Qed.

Lemma area_read8_ok va : keeps pci_words (area_read8 (D:=ac97) va) is_u8.
Proof.
  apply keeps_area; (eapply keeps_bind; [first [apply keeps_config_read|by apply (keeps_ret _ _ (fun _ => True))]|]);
    intros v _; apply keeps_ret, Z.mod_pos_bound; lia.
Qed.
Lemma area_read16_ok va al : keeps pci_words (area_read16 (D:=ac97) va al) is_u16.
Proof.
  apply keeps_aligned, keeps_area;
    (eapply keeps_bind; [first [apply keeps_config_read|by apply (keeps_ret _ _ (fun _ => True))]|]);
    intros v _; apply keeps_ret, u16_range.
Qed.
Lemma area_write_ok va v n msg : is_u32 v ->
  keeps pci_words (area_dispatch (D:=ac97) va (config_write va v n) (io_write va v n) msg) (fun _ => True).
Proof. intros Hv. apply keeps_area; [by apply keeps_config_write|by apply keeps_ret]. Qed.


(** The audio controller is part of the board. *)
Lemma put_device_words a w : ac97_words a -> apb_words w -> apb_words (put_device a w).
Proof.
  intros Ha []. constructor; try done. cbn. destruct aw_pci0. constructor; try done. cbn. by intros ? [= <-].
Qed.

Section one_level.
Context (inner : DeviceBus board) (L : @DeviceBusLaws board inner) (E : @dev_ok board inner L = apb_words).
#[local] Existing Instance inner.
#[local] Existing Instance L.

#[local] Instance SelfAccessLaws_board : SelfAccessLaws board.
Proof.
  split; rewrite E.
  - apply put_device_words.
  - intros a w Ha Hw. cbn. destruct (gp_device_ (apb_pci w)) as [d|] eqn:Ed; [|done].
    exact (gpw_dev _ (aw_pci w Hw) d Ed).
  - apply keeps_a_irq, keeps_trigger_words.
Qed.

Lemma keeps_window {A} (op : M (ac97_sys board) A) R : keeps audio_words op R -> keeps typed (window op) R.
Proof.
  intros Hop m [Hb Hw]. unfold window. destruct (gp_device_ (apb_pci (world m))) as [a|] eqn:Ea; [|by split].
  destruct (Hop (mkAcSys a m [] 0)) as [(Ha & Hm & _) HR].
  { split; [exact (gpw_dev _ (aw_pci _ Hw) a Ea)|]. split; [|by constructor]. split; [done|by rewrite E]. }
  destruct (op _) as [r s]. split; [|done]. destruct Hm as [Hb' Hw']. rewrite E in Hw'. split; [done|].
  by apply put_device_words.
Qed.

(** The devices keep the promises the processors' type invariant rests on, if
    the memory the audio controller sees does. *)
Lemma board_bus_laws : @DeviceBusLaws board (board_bus inner).
Proof.
  refine (@Build_DeviceBusLaws board (board_bus inner) apb_words _ _ _ _ _ _).
  - intros [|[|[|[|n]]]] va; cbn; [apply keeps_on_device; by apply keeps_stop|apply keeps_on_device, keeps_a_pci, area_read8_ok|..];
      try (apply keeps_window, io_read8_ok). by apply keeps_stop.
  - intros [|[|[|[|n]]]] va al; cbn; [|apply keeps_on_device, keeps_a_pci, area_read16_ok|apply keeps_window, mmio_read16_ok..|by apply keeps_stop].
    apply keeps_on_device. unfold default_read16. eapply (keeps_bind _ _ _ (fun _ => False)); [by apply keeps_stop|done].
  - intros [|[|[|[|n]]]] va al; cbn; [apply keeps_on_device, keeps_apb_read| |apply keeps_window, mmio_read32_ok..|by apply keeps_stop].
    apply keeps_on_device, keeps_a_pci, keeps_aligned, keeps_area_read.
  - intros [|[|[|[|n]]]] va v Hv; cbn; [apply keeps_on_device; by apply keeps_stop| |apply keeps_window; by apply io_write8_ok..|by apply keeps_stop].
    apply keeps_on_device, keeps_a_pci, area_write_ok. by apply is_u8_u32.
  - intros [|[|[|[|n]]]] va v al Hv; cbn; [| |apply keeps_window, mmio_write16_ok..|by apply keeps_stop].
    + apply keeps_on_device. unfold default_write16. eapply (keeps_bind _ _ _ (fun _ => False)); [by apply keeps_stop|done].
    + apply keeps_on_device, keeps_a_pci, keeps_aligned, area_write_ok. by apply is_u16_u32.
  - intros [|[|[|[|n]]]] va v al Hv; cbn; [by apply keeps_apb_write| |apply keeps_window, mmio_write32_ok..|by apply keeps_stop].
    by apply keeps_on_device, keeps_a_pci, keeps_aligned, area_write_ok.
Defined.
End one_level.

#[export] Instance board_laws : DeviceBusLaws board :=
  board_bus_laws _ (board_bus_laws _ (dead_bus_laws apb_words) eq_refl) eq_refl.

#[export] Instance board_int_laws : IntCtlLaws board.
Proof. constructor; intros; [apply keeps_a_irq, keeps_hint_words|apply keeps_a_irq, keeps_clear_words]. Qed.

#[export] Instance SelfAccessLaws_of_board : SelfAccessLaws board := SelfAccessLaws_board _ _ eq_refl.

Context `{HostNaN} (notify_breakpoint : Z -> Z -> M (machine board) unit).

(** The type invariant of a processor on the board: whatever program it
    runs, and whatever it writes to the interrupt controller, the timer, the
    UARTs, the keyboard, the display controller, the PCI bridge, the
    configuration space behind it and the windows of the audio controller, every
    register of the processor and of every device stays within its C++ type;
    also when the run ends with an exception. *)
Lemma board_keeps_types fuel depth n (s : machine board) :
  (forall i a, keeps machine_words (notify_breakpoint i a) (fun _ => True)) ->
  machine_words s ->
  let s' := (run notify_breakpoint fuel depth n s).2 in
  machine_words s' /\ apb_words (world (ms_mc (m_mem s'))).
Proof.
  intros Hn Hs s'. assert (machine_words s') as Hs' by exact (proj1 (run_ok notify_breakpoint Hn fuel depth n s Hs)).
  split; [done|]. by destruct Hs' as (_ & _ & (_ & _ & Hw) & _).
Qed.
End board_laws.

(** ** The bus clock *)

Section bus_clock.
Context {P V : Type}.
Abbreviation MA := (M (apb P V)).

Lemma trigger_runs irl q : cpus_known q -> exists q', trigger_irq irl q = (Val tt, q') /\ cpus_known q'.
Proof.
  intros Hp. unfold trigger_irq. cbv zeta. set (l := Z.land irl 0xf).
  assert (0 <= l) as Hl by (apply Z.land_nonneg; right; lia).
  destruct (post_irq_frame l q) as (_ & Fi & Fp & _ & _).
  assert (num_cpus_ (post_irq l q) = num_cpus_ q) as Fn by (unfold post_irq; by repeat case_match).
  unfold bindM at 1, modify. fold (post_irq l q). set (q1 := update_hints_locked (post_irq l q)).
  unfold bindM at 1, gets at 1. rewrite wake_loop; [|done|].
  - eexists. split; [reflexivity|]. intros c. cbn. rewrite Fn, Fp. apply Hp.
  - intros i Hi. change (cpu_ids q1) with (cpu_ids (post_irq l q)) in Hi. rewrite Fi in Hi.
    unfold cpu_ids in Hi. apply list_elem_of_fmap in Hi as (c & -> & Hc). apply elem_of_seq in Hc.
    rewrite Nat2Z.id. change (cpu_ptrs_ q1) with (cpu_ptrs_ (post_irq l q)). rewrite Fp. apply Hp. lia.
Qed.

Lemma a_irq_trigger irl b (a : apb P V) :
  cpus_known (apb_irq a) ->
  exists a', when b (a_irq (trigger_irq irl)) a = (Val tt, a') /\ cpus_known (apb_irq a').
Proof.
  intros Hk. destruct b; [|by exists a]. destruct (trigger_runs irl _ Hk) as (q & E & Hk'). cbn [when].
  unfold a_irq, zoom. rewrite E. by eexists.
Qed.

(** The poll of the UART always returns. *)
Lemma uart_poll (a : apb P V) :
  exists a' b a'', a_uart tick_scheduled a = (Val tt, a') /\ a_uart (on_uart check_irq) a' = (Val b, a'') /\
    apb_irq a'' = apb_irq a.
Proof.
  assert (exists s, tick_scheduled (mkUartSys (apb_uart a) (apb_console a) (apb_counter a)) = (Val tt, s)) as [s E].
  { unfold tick_scheduled. mstep. unfold input_scheduled, bindM, on_console, on_uart, zoom, gets, modify.
    destruct (Hit _) as [[] con]; cbn; [|by eexists]. case_match; by eexists. }
  assert (exists b u, check_irq (us_uart s) = (Val b, u)) as (b & u & Ec).
  { unfold check_irq. mstep. unfold id. repeat case_match; try (by eexists _, _). }
  eexists _, b, _. unfold a_uart at 1, zoom at 1. rewrite E. split; [reflexivity|]. split; [|].
  - unfold a_uart, on_uart, zoom. cbn -[check_irq]. rewrite Ec. reflexivity.
  - done.
Qed.

Lemma bus_step_run target d r (a : apb P V) :
  1 <= target -> 0 <= d < target -> 0 < r -> cpus_known (apb_irq a) ->
  exists d' r' a', bus_step target d r a = (Val (d', r'), a') /\ cpus_known (apb_irq a') /\
    0 <= d' < target /\ 0 <= r' < r /\ (d' + r') mod target = (d + r) mod target.
Proof.
  intros Ht Hd Hr Hk. unfold bus_step. cbv zeta.
  set (b := if r <? target - d then r else target - d).
  assert (1 <= b <= r /\ b <= target - d) as [Hb1 Hb2] by (unfold b; destruct (r <? _) eqn:E; lia).
  unfold bindM at 1. destruct (advance_unlocked b true (apb_timer a)) as [f t].
  set (a1 := a <| apb_timer := t |>).
  destruct (a_irq_trigger 8 f a1 Hk) as (a2 & E2 & Hk2). rewrite (bindM_val _ _ _ _ _ E2).
  destruct (target <=? d + b) eqn:El.
  - destruct (uart_poll a2) as (a3 & i & a4 & E3 & E4 & Eq). rewrite (bindM_val _ _ _ _ _ E3), (bindM_val _ _ _ _ _ E4).
    rewrite <- Eq in Hk2. destruct (a_irq_trigger 4 i a4 Hk2) as (a5 & E5 & Hk5). rewrite (bindM_val _ _ _ _ _ E5).
    exists 0, (r - b), a5. split; [done|]. split; [done|]. assert (b = target - d) as -> by lia.
    split; [lia|]. split; [lia|]. replace (d + r) with (0 + (r - (target - d)) + 1 * target) by lia.
    by rewrite Z.mod_add by lia.
  - exists (d + b), (r - b), a2. split; [done|]. split; [done|]. split; [lia|]. split; [lia|]. f_equal. lia.
Qed.

(** The host iteration of the bus clock ends: when every processor is known
    to the interrupt controller, the loop over the bus ticks that are due
    returns within one step per tick, with the UART divider where it stands
    after that many ticks, whatever the timers and the UART do. *)
Lemma bus_clock_terminates fuel target d r (a : apb P V) :
  1 <= target -> 0 <= d < target -> 0 <= r -> cpus_known (apb_irq a) -> (Z.to_nat r <= fuel)%nat ->
  exists a', bus_loop fuel target d r a = (Val (Some ((d + r) mod target)), a') /\ cpus_known (apb_irq a').
Proof.
  intros Ht. revert d r a. induction fuel as [|fuel IH]; intros d r a Hd Hr Hk Hf; cbn [bus_loop].
  - rewrite (proj2 (Z.ltb_ge 0 r)) by lia. exists a. replace r with 0 by lia. by rewrite Z.add_0_r, Z.mod_small.
  - destruct (0 <? r) eqn:E0.
    2:{ exists a. replace r with 0 by lia. by rewrite Z.add_0_r, Z.mod_small. }
    destruct (bus_step_run target d r a) as (d' & r' & a1 & E & Hk1 & H1 & H2 & H3); [lia..|done|].
    rewrite (bindM_val _ _ _ _ _ E). rewrite <- H3. apply IH; [lia..|done|lia].
Qed.
End bus_clock.

(** ** A concrete board *)

Definition demo_apb : board :=
  APBCTRL_new 0x80000000 (console_new [0x41]) demo_irqmp false false false false
    (attach_device (set_phys_bases 0x24000800 0x24000900 (ac97_zero false)) grpci2_new) (screen_new true).

(** [sethi %hi(0x80000000), %g1; mov 0x100, %g2; st %g2, [%g1 + 0x240];
    ld [%g1 + 0x240], %o0]: the interrupt mask of processor 0, set and read. *)
Definition board_start : machine board :=
  mkMachine (reset 0 demo_cpu) Decode0
    (mkMemsys mmu_new (mkMctrl [RamBank 0 Big (put_words [0x03200000; 0x84102100; 0xc4206240; 0xd0006240; 0]);
       DevBank 0 0x80000000 0xfe000 Big true; DevBank 1 0xfffa0000 0x20000 Big false] 1 7
       (mkBankCache 0 0 None 0 0) demo_apb)) [].

Definition board_run : res (option Z) * machine board :=
  @run board _ _ default_nan (fun _ _ => ret tt) 10 1 0 board_start.

Example board_run_result :
  board_run.1 = Val (Some 5) /\ read_reg_of (m_cpu board_run.2) 8 0 = Some 0x100.
Proof. vm_compute. repeat split. Qed.

Lemma demo_cpus_known : cpus_known demo_irqmp.
Proof. intros [|[|c]] Hc; [done|done|]. change (num_cpus_ demo_irqmp) with 2 in Hc. lia. Qed.

Lemma demo_apb_words : apb_words demo_apb.
Proof.
  constructor; try done.
  - split; [done|by repeat constructor].
  - apply uart_new_words.
  - apply uart_new_words.
  - constructor; try word_ok. exact demo_cpus_known.
  - constructor; try word_ok. intros d [= <-]. apply words_attached; [word_ok..|apply ac97_zero_words].
  - apply screen_new_words.
Qed.

Lemma board_start_words : machine_words board_start.
Proof.
  split; [by apply reset_words|]. split; [by constructor; vm_compute|]. split; [|by constructor].
  split; [by constructor; vm_compute|]. split; [|apply demo_apb_words].
  constructor; [|by repeat constructor]. cbn. apply map_Forall_to_list. vm_compute. repeat constructor; done.
Qed.

Lemma board_keeps_types_witness :
  cpu_words (m_cpu board_run.2) /\ irq_words (apb_irq (world (ms_mc (m_mem board_run.2)))).
Proof.
  destruct (@board_keeps_types all_known default_nan (fun _ _ => ret tt) 10 1 0 board_start)
    as [H1 H2]; [intros; by apply keeps_ret|exact board_start_words|].
  split; [exact (proj1 H1)|apply H2].
Defined.

Lemma bus_clock_terminates_witness :
  exists a', bus_loop 25 10 3 25 demo_apb = (Val (Some 8), a').
Proof.
  destruct (bus_clock_terminates 25 10 3 25 demo_apb) as (a' & E & _); [lia..|apply demo_cpus_known|cbn; lia|by exists a'].
Defined.

(** The display controller and the windows of the audio controller are where the
    processors find them: a frame buffer address written to the first, and the
    address of a descriptor list written to the second, in the byte order of a
    PCI bus. *)
Definition demo_board : mctrl board :=
  mkMctrl [RamBank 0x40000000 Big (mkBytes 0x1000 ∅); DevBank 0 0x80000000 0xfe000 Big true;
           DevBank 2 0x24000800 0x100 Little true; DevBank 3 0x24000900 0x100 Little true] 1 7
    (mkBankCache 0 0 None 0 0) demo_apb.

Example devices_wired :
  let m1 := (mc_write32 0x80000514 0x40000100 true demo_board).2 in
  let m2 := (mc_write32 0x24000910 0x00020040 true m1).2 in
  dp_framebuffer (sc_dp (apb_svga (world m1))) = Some (0%nat, 0x100) /\
  (mc_read32 0x80000514 true m1).1 = Val 0x40000100 /\
  bdbar_playback_ <$> gp_device_ (apb_pci (world m2)) = Some 0x40000200 /\
  (mc_read32 0x24000910 true m2).1 = Val 0x00020040.
Proof. by vm_compute. Qed.

(** A start of the playback whose first descriptor is the window itself: the
    controller reads its own registers, and the access throws. *)
Example own_window :
  (mc_write8 0x2400091b 1 (mc_write32 0x24000910 0x10090024 true demo_board).2).1 =
  Exn (runtime_error "[AC97 NABM] read16 not valid for register ").
Proof. by vm_compute. Qed.
