(* ===== verification/VideoProofs.v ===== *)
(** * Theorems about the display and the keyboard *)
From S2P Require Import Prelude Mctrl Mmu Exec Words Irqmp Ps2 Ac97 Ac97Proofs.
From S2P Require Import Apb Video DeviceWords Board.

#[local] Open Scope M_scope.

(** A counted loop whose body succeeds and keeps an invariant of the counter. *)
Lemma for_each_count {S} (I : Z -> S -> Prop) n body s :
  0 <= n -> I 0 s ->
  (forall k t, 0 <= k < n -> I k t -> exists t', body k t = (Val tt, t') /\ I (k + 1) t') ->
  exists s', for_each (seqZ 0 n) body s = (Val tt, s') /\ I n s'.
Proof.
  intros Hn H0 Hb.
  enough (forall m k t, 0 <= k -> k + Z.of_nat m = n -> I k t ->
            exists t', for_each (seqZ k (Z.of_nat m)) body t = (Val tt, t') /\ I n t') as Hg.
  { destruct (Hg (Z.to_nat n) 0 s) as (t & E & Ht); [lia..|done|]. rewrite Z2Nat.id in E by lia. by exists t. }
  induction m as [|m IH]; intros k t Hk Hm Ht.
  - exists t. rewrite seqZ_nil by lia. split; [done|]. by replace n with k by lia.
  - rewrite seqZ_cons by lia. destruct (Hb k t) as (t1 & E1 & H1); [lia|done|].
    destruct (IH (Z.succ k) t1) as (t2 & E2 & H2); [lia..|by replace (Z.succ k) with (k + 1) by lia|].
    exists t2. split; [|done]. cbn [for_each]. rewrite (bindM_val _ _ _ _ _ E1).
    by replace (Z.pred (Z.of_nat (Datatypes.S m))) with (Z.of_nat m) by lia.
Qed.

(** ** Drawing a frame *)

Section frame.
Context {W : Type} {bus : DeviceBus W} {host : HostVideo} {host_ok : HostVideoLaws}.
Implicit Types v : video W.

(** The pixel at column [x] of row [y] of what the window shows. *)
Definition screen_pixel v (x y : Z) : option Z :=
  match v_screen v with
  | Some t => bytes_get (tex_px t) (y * (sdl_pitch (tex_w t) / 4) + x)
  | None => None
  end.

(** The colour of the pixel at index [i] of the frame buffer at offset [off]. *)
Definition fb_colour (d : display) (src : bytes) (off i : Z) : option Z :=
  (if dp_bpp d =? 8 then c ← bytes_get src (off + i); array_get (dp_palette d) c
   else w ← peek32_be src (off + 4 * i); Some (Z.lor w 0xff000000))%stdpp.

(** The frame buffer of [v] is buffer [src] from offset [off] on, and its frame
    and texture are small enough for [int]. *)
Record frame_ready v (k : nat) (off : Z) (src : bytes) : Prop := {
  fr_fb : dp_framebuffer (v_dp v) = Some (k, off);
  fr_src : buffer_of <$> banks (v_mc v) !! k = Some (Some src);
  fr_bytes : bytes_ok src;
  fr_align : off mod 4 = 0;
  fr_off : 0 <= off;
  fr_w : 0 < dp_width (v_dp v); fr_h : 0 < dp_height (v_dp v);
  fr_fits : off + (if dp_bpp (v_dp v) =? 8 then 1 else 4) * (dp_width (v_dp v) * dp_height (v_dp v)) <= b_len src;
  fr_pal : length (dp_palette (v_dp v)) = 256%nat;
  fr_int : sdl_pitch (dp_width (v_dp v)) / 4 * dp_height (v_dp v) <= 2147483647 }.

(** A word of the buffer in the byte order of the host, swapped, is the word of
    the guest. *)
Lemma host_word src p :
  bytes_ok src -> 0 <= p -> p + 4 <= b_len src ->
  exists w, peek32_le src p = Some w /\ peek32_be src p = Some (byteswap32 w).
Proof.
  intros Hd H0 H1. unfold peek32_le, peek32_be.
  destruct (bytes_get_in src p) as [b0 E0]; [lia|]. destruct (bytes_get_in src (p + 1)) as [b1 E1]; [lia|].
  destruct (bytes_get_in src (p + 2)) as [b2 E2]; [lia|]. destruct (bytes_get_in src (p + 3)) as [b3 E3]; [lia|].
  rewrite E0, E1, E2, E3. cbn. eexists. split; [done|].
  rewrite byteswap32_cat by (by eapply bytes_get_ok). done.
Qed.

Lemma as_int_in {S} x (s : S) : 0 <= x <= 2147483647 -> as_int x s = (Val x, s).
Proof. intros. unfold as_int. by rewrite (proj2 (andb_true_iff _ _)) by lia. Qed.

Lemma colour_some v k off src i :
  frame_ready v k off src -> 0 <= i < dp_width (v_dp v) * dp_height (v_dp v) ->
  exists c, fb_colour (v_dp v) src off i = Some c.
Proof.
  intros [] Hi. unfold fb_colour. destruct (dp_bpp (v_dp v) =? 8).
  - destruct (bytes_get_in src (off + i)) as [b E]; [lia|]. rewrite E. cbn.
    apply array_get_in. rewrite fr_pal0. pose proof (bytes_get_ok _ _ _ fr_bytes0 E). unfold is_u8 in *. lia.
  - destruct (host_word src (off + 4 * i)) as (w & _ & E); [done|lia..|]. rewrite E. by eexists.
Qed.

(** The stride of the texture of a ready frame. *)
Lemma stride_ok v k off src :
  frame_ready v k off src -> dp_width (v_dp v) <= sdl_pitch (dp_width (v_dp v)) / 4.
Proof. intros []. apply Z.div_le_lower_bound; [lia|]. by apply sdl_pitch_ok. Qed.

Definition paint (t : texture) (j c : Z) : texture :=
  mkTexture (tex_w t) (tex_h t) (mkBytes (b_len (tex_px t)) (<[j := c]> (b_map (tex_px t)))).

Lemma draw_pixel_run v k off src stride x y c :
  frame_ready v k off src -> 0 <= x < dp_width (v_dp v) -> 0 <= y < dp_height (v_dp v) ->
  dp_width (v_dp v) <= stride -> stride * dp_height (v_dp v) <= 2147483647 ->
  stride * dp_height (v_dp v) <= b_len (tex_px (v_tex v)) ->
  fb_colour (v_dp v) src off (y * dp_width (v_dp v) + x) = Some c ->
  draw_pixel (k, off) stride y x v = (Val tt, v <| v_tex := paint (v_tex v) (y * stride + x) c |>).
Proof.
  intros [] Hx Hy Hs Hi Hl Hc. unfold draw_pixel. set (d := v_dp v) in *. set (i := y * dp_width d + x) in *.
  assert (0 <= i < dp_width d * dp_height d) as Hii by nia.
  assert (0 <= y * stride + x < stride * dp_height d) as Hj by nia.
  mstep. fold d. rewrite (bindM_val _ _ _ src v).
  2:{ unfold fb_buffer, v_mem, zoom, bank_at. destruct (banks (v_mc v) !! k) as [b|] eqn:Eb; [|done].
      cbn in fr_src0. injection fr_src0 as Es. unfold bindM. cbn [fst]. rewrite Eb. cbn. rewrite Es. by destruct v. }
  fold i. rewrite (bindM_val _ _ _ i v) by (apply as_int_in; nia).
  rewrite (bindM_val _ _ _ c v).
  2:{ unfold fb_colour in Hc. destruct (dp_bpp d =? 8).
      - destruct (bytes_get src (off + i)) as [b|] eqn:E; [|done]. cbn in Hc. unfold bindM. cbn [snd or_ub ret].
        rewrite E. cbn. by rewrite Hc.
      - destruct (host_word src (off + 4 * i)) as (w & E1 & E2); [done|lia..|]. rewrite E2 in Hc. injection Hc as <-.
        cbn [snd]. rewrite (proj2 (Z.eqb_eq _ 0)), E1 by (rewrite Z.mul_comm, Z.mod_add; lia). done. }
  rewrite (bindM_val _ _ _ (y * stride + x) v) by (apply as_int_in; lia).
  mstep. unfold bytes_set, in_buffer. rewrite (proj2 (andb_true_iff _ _)) by lia. done.
Qed.

(** [v'] is [v] with the pixels that satisfy [P] copied into its texture. *)
Record drawn v (src : bytes) (off : Z) (P : Z -> Z -> Prop) v' : Prop := {
  dr_same : v' = v <| v_tex := v_tex v' |>;
  dr_w : tex_w (v_tex v') = tex_w (v_tex v);
  dr_h : tex_h (v_tex v') = tex_h (v_tex v);
  dr_len : b_len (tex_px (v_tex v')) = b_len (tex_px (v_tex v));
  dr_px x y : 0 <= x < dp_width (v_dp v) -> 0 <= y < dp_height (v_dp v) -> P x y ->
    bytes_get (tex_px (v_tex v')) (y * (sdl_pitch (tex_w (v_tex v)) / 4) + x) =
    fb_colour (v_dp v) src off (y * dp_width (v_dp v) + x) }.

Lemma paint_get t j c i :
  0 <= j < b_len (tex_px t) ->
  bytes_get (tex_px (paint t j c)) i = if decide (i = j) then Some c else bytes_get (tex_px t) i.
Proof.
  intros Hj. unfold bytes_get, in_buffer, paint. cbn. case_decide as Hi.
  - subst. rewrite lookup_insert_eq. by rewrite (proj2 (andb_true_iff _ _)) by lia.
  - by rewrite lookup_insert_ne by done.
Qed.

Lemma draw_more v k off src P v' x y :
  frame_ready v k off src -> tex_w (v_tex v) = dp_width (v_dp v) ->
  sdl_pitch (tex_w (v_tex v)) / 4 * dp_height (v_dp v) <= b_len (tex_px (v_tex v)) ->
  0 <= x < dp_width (v_dp v) -> 0 <= y < dp_height (v_dp v) -> drawn v src off P v' ->
  exists v'', draw_pixel (k, off) (sdl_pitch (tex_w (v_tex v)) / 4) y x v' = (Val tt, v'') /\
    drawn v src off (fun x' y' => P x' y' \/ (x' = x /\ y' = y)) v''.
Proof.
  intros Hr Ew Hl Hx Hy []. pose proof (stride_ok _ _ _ _ Hr) as Hs. pose proof (fr_int _ _ _ _ Hr) as Hi.
  rewrite <- Ew in Hs, Hi. set (st := sdl_pitch (tex_w (v_tex v)) / 4) in *.
  assert (0 <= y * dp_width (v_dp v) + x < dp_width (v_dp v) * dp_height (v_dp v)) as Hp by nia.
  assert (0 <= y * st + x < b_len (tex_px (v_tex v'))) as Hj by nia.
  destruct (colour_some v k off src _ Hr Hp) as (c & Hc).
  assert (v_dp v' = v_dp v) as Ed by (by rewrite dr_same0).
  assert (v_mc v' = v_mc v) as Em by (by rewrite dr_same0).
  assert (frame_ready v' k off src) as Hr' by (destruct Hr; split; by rewrite ?Ed, ?Em).
  remember (paint (v_tex v') (y * st + x) c) as t' eqn:Et. exists (v' <| v_tex := t' |>). split.
  - subst t'. apply (draw_pixel_run _ _ _ src); rewrite ?Ed, ?dr_len0; (done || lia).
  - split; cbn; [by rewrite dr_same0|by subst t'..|]. intros x' y' Hx' Hy' HP. subst t'. rewrite paint_get by done.
    destruct HP as [HP|[-> ->]].
    + case_decide as E; [|by apply dr_px0].
      destruct (Z.div_mod_unique st y' y x' x) as [-> ->]; [lia..|done].
    + by rewrite decide_True.
Qed.

(** A frame: every pixel of the frame buffer is copied to its place, and shown. *)
Lemma draw_frame_run v k off src :
  frame_ready v k off src -> v_tex v = new_texture (dp_width (v_dp v)) (dp_height (v_dp v)) ->
  exists v', draw_frame v = (Val tt, v') /\ v' = v <| v_tex := v_tex v' |> <| v_screen := Some (v_tex v') |> /\
    drawn v src off (fun _ _ => True) (v <| v_tex := v_tex v' |>).
Proof.
  intros Hr Et. pose proof (fr_w _ _ _ _ Hr). pose proof (fr_h _ _ _ _ Hr).
  assert (tex_w (v_tex v) = dp_width (v_dp v)) as Ew by (by rewrite Et).
  set (st := sdl_pitch (tex_w (v_tex v)) / 4).
  assert (st * dp_height (v_dp v) <= b_len (tex_px (v_tex v))) as Hl.
  { unfold st. rewrite Et at 2. cbn. rewrite Ew. apply Z.div_le_lower_bound; [lia|].
    pose proof (Z.mul_div_le (sdl_pitch (dp_width (v_dp v))) 4). nia. }
  destruct (for_each_count (fun y => drawn v src off (fun _ y' => y' < y)) (dp_height (v_dp v))
              (fun y => for_each (seqZ 0 (dp_width (v_dp v))) (draw_pixel (k, off) st y)) v) as (v' & E & Hd).
  - lia.
  - split; [by destruct v|done..|]. lia.
  - intros y v1 Hy Hv1.
    destruct (for_each_count (fun x => drawn v src off (fun x' y' => y' < y \/ (x' < x /\ y' = y))) (dp_width (v_dp v))
                (draw_pixel (k, off) st y) v1) as (v2 & E & Hv2).
    + lia.
    + destruct Hv1. split; [done..|]. intros x' y' ? ? [?|?]; [by apply dr_px0|lia].
    + intros x v3 Hx Hv3. destruct (draw_more v k off src _ v3 x y Hr Ew Hl Hx Hy Hv3) as (v4 & E4 & []).
      exists v4. split; [done|]. split; [done..|]. intros. apply dr_px0; [done..|]. lia.
    + exists v2. split; [done|]. destruct Hv2. split; [done..|]. intros. apply dr_px0; [done..|]. lia.
  - exists (v' <| v_screen := Some (v_tex v') |>). unfold draw_frame. mstep. rewrite (fr_fb _ _ _ _ Hr).
    mstep. mstep. cbv zeta. fold st. rewrite (bindM_val _ _ _ _ _ E). split; [done|].
    destruct Hd. cbn. split; [by rewrite dr_same0|]. rewrite <- dr_same0. split; [done..|]. intros. apply dr_px0; lia.
Qed.

(** ** Setting a mode *)

Lemma write_fbuf_ram v k base e src fb :
  mc_ok (v_mc v) -> banks (v_mc v) !! k = Some (RamBank base e src) -> base <= fb < base + b_len src ->
  exists c, write_fbuf fb v =
    (Val tt, v <| v_svga := v_svga v <| sv_fbuf := fb |> |> <| v_mc := v_mc v <| tl_cache := c |> |>
               <| v_dp := v_dp v <| dp_framebuffer := Some (k, fb - base) |> |>).
Proof.
  intros Hm Hb Hf. destruct (ram_wf _ _ _ _ _ Hm Hb) as (? & ? & ?).
  assert (is_u32 fb) as Hu by (unfold is_u32; lia).
  destruct (find_bank_or_null_scan (v_mc v) fb Hm Hu) as (c & E & _).
  rewrite (scan_banks_unique _ k (RamBank base e src)) in E;
    [|by apply Hm|done|done|unfold holds; cbn; lia].
  exists c. unfold write_fbuf. mstep. rewrite (bindM_val _ _ _ (Some k) (v <| v_svga := v_svga v <| sv_fbuf := fb |> |>
    <| v_mc := v_mc v <| tl_cache := c |> |>)) by (unfold v_mem, zoom; cbn; by rewrite E).
  unfold fb_pointer, v_mem, zoom, get_ptr, bank_at, bindM. cbn. rewrite Hb. cbn. rewrite Hb. cbn.
  by rewrite u32_id by (unfold is_u32; lia).
Qed.

(** The size register for a resolution, and the pixel size a control word asks
    for. *)
Definition vlen_of (w h : Z) : Z := Z.lor (Z.shiftl (h - 1) 16) (w - 1).
Definition pixel_bytes (ctl : Z) : Z := if Z.land (Z.shiftr ctl 4) 0x3 =? 1 then 1 else 4.

Lemma vlen_fields w h :
  1 <= w <= 65536 -> 1 <= h <= 65536 ->
  vlen_of w h = (h - 1) * 65536 + (w - 1) /\ Z.land (vlen_of w h) 0xffff + 1 = w /\
  Z.land (Z.shiftr (vlen_of w h) 16) 0xffff + 1 = h.
Proof.
  intros Hw Hh. assert (vlen_of w h = (h - 1) * 65536 + (w - 1)) as E.
  { unfold vlen_of. rewrite Z.shiftl_mul_pow2 by lia. rewrite (lor_add _ _ 16); [done|lia|by apply Z.mod_mul|lia]. }
  split; [done|]. rewrite E. change 0xffff with (Z.ones 16). rewrite !Z.land_ones, Z.shiftr_div_pow2 by lia.
  change (2 ^ 16) with 65536. split; Z.div_mod_to_equations; lia.
Qed.

(** The state after the guest has programmed a mode. *)
Definition mode_programmed v (w h fb ctl : Z) (k : nat) (off : Z) c : video W :=
  let bpp := if Z.land (Z.shiftr ctl 4) 0x3 =? 1 then 8 else 32 in
  v <| v_svga := v_svga v <| sv_vlen := vlen_of w h |> <| sv_fbuf := fb |> <| sv_stat := ctl |> <| sv_bpp := bpp |> |>
    <| v_mc := v_mc v <| tl_cache := c |> |>
    <| v_dp := v_dp v <| dp_framebuffer := Some (k, off) |> <| dp_bpp := bpp |> <| dp_width := w |> <| dp_height := h |>
                      <| dp_resolution_changed := true |> <| dp_enabled := true |> |>.

Lemma program_mode v k base e src fb w h ctl :
  mc_ok (v_mc v) -> banks (v_mc v) !! k = Some (RamBank base e src) -> base <= fb < base + b_len src ->
  1 <= w <= 65536 -> 1 <= h <= 65536 -> 2 < w + h ->
  sv_display_started (v_svga v) = true -> truth (Z.land (sv_stat (v_svga v)) 0x1) = false ->
  truth (Z.land ctl 0x1) = true -> truth (Z.land ctl 0x2) = false ->
  exists c, (svga_write 0x4 (vlen_of w h) ;; svga_write 0x14 fb ;; svga_write 0x0 ctl) v =
            (Val tt, mode_programmed v w h fb ctl k (fb - base) c).
Proof.
  intros Hm Hb Hf Hw Hh Hwh Hs Hst Hc0 Hc1. destruct (vlen_fields w h Hw Hh) as (Ev & Ew & Eh).
  unfold svga_write. cbn [Z.eqb Pos.eqb]. unfold s_upd at 1. mstep.
  set (v1 := v <| v_svga := v_svga v <| sv_vlen := vlen_of w h |> |>).
  destruct (write_fbuf_ram v1 k base e src fb Hm Hb Hf) as (c & E).
  exists c. rewrite (bindM_val _ _ _ _ _ E). clear E. unfold write_stat. rewrite Hc0, Hc1.
  assert (truth (vlen_of w h) = true) as Et by (rewrite Ev; unfold truth; lia).
  unfold v1, set_bpp, set_resolution, display_enable, s_upd, v_upd, gets, modify, bindM, when, ret. cbn.
  rewrite Hst. cbn. rewrite Hs, Et. cbn. by rewrite Ew, Eh.
Qed.

(** The render thread applies the resolution and draws a first frame. *)
Lemma render_mode v k off src :
  v_pc v = OuterLoop -> dp_running (v_dp v) = true -> dp_enabled (v_dp v) = true ->
  dp_resolution_changed (v_dp v) = true -> frame_ready v k off src ->
  exists v', (render_step [] ;; render_step []) v = (Val tt, v') /\
    (exists t, v_screen v' = Some t /\ tex_w t = dp_width (v_dp v) /\ tex_h t = dp_height (v_dp v)) /\
    forall x y, 0 <= x < dp_width (v_dp v) -> 0 <= y < dp_height (v_dp v) ->
      screen_pixel v' x y = fb_colour (v_dp v) src off (y * dp_width (v_dp v) + x).
Proof.
  intros Hpc Hrun Hen Hch Hr.
  set (v1 := v <| v_dp := v_dp v <| dp_resolution_changed := false |> |>
               <| v_tex := new_texture (dp_width (v_dp v)) (dp_height (v_dp v)) |> <| v_pc := InnerLoop |>).
  rewrite (bindM_val _ _ _ tt v1).
  2:{ unfold render_step. mstep. mstep. rewrite Hpc, Hrun, Hen, Hch. done. }
  destruct (draw_frame_run v1 k off src) as (v' & E & Ev & Hd); [|done|].
  { destruct Hr. by split. }
  exists v'. split; [|split].
  - unfold render_step. mstep. mstep. change (v_pc v1) with InnerLoop. cbv beta iota.
    assert (dp_running (v_dp v1) && dp_enabled (v_dp v1) = true) as -> by (cbn; by rewrite Hrun, Hen).
    mstep. exact E.
  - exists (v_tex v'). split; [by rewrite Ev|]. destruct Hd. done.
  - intros x y Hx Hy. destruct Hd. unfold screen_pixel. rewrite Ev. cbn in *. rewrite dr_w0. by apply dr_px0.
Qed.

(** C38. What the guest draws is what the window shows: with the display off, a
    guest that sets a resolution, points the frame buffer register at RAM and
    enables the controller gets, after two passes of the render thread, a window
    of that resolution in which the pixel at column [x] of row [y] is the word
    the guest reads from its frame buffer there, made opaque, or with 8 bits
    per pixel the entry of the colour table for the byte there. *)
Theorem mode_set_shows_memory v k base src fb w h ctl :
  v_pc v = OuterLoop -> dp_running (v_dp v) = true -> sv_display_started (v_svga v) = true ->
  Z.testbit (sv_stat (v_svga v)) 0 = false -> length (dp_palette (v_dp v)) = 256%nat ->
  mc_ok (v_mc v) -> banks (v_mc v) !! k = Some (RamBank base Big src) -> bytes_ok src ->
  1 <= w <= 65536 -> 1 <= h <= 65536 -> 2 < w + h -> sdl_pitch w / 4 * h <= 2147483647 ->
  base <= fb -> (fb - base) mod 4 = 0 -> fb + pixel_bytes ctl * (w * h) <= base + b_len src ->
  Z.testbit ctl 0 = true -> Z.testbit ctl 1 = false ->
  exists v' t, (svga_write 0x4 (vlen_of w h) ;; svga_write 0x14 fb ;; svga_write 0x0 ctl ;;
                render_step [] ;; render_step []) v = (Val tt, v') /\
    v_screen v' = Some t /\ tex_w t = w /\ tex_h t = h /\
    forall x y, 0 <= x < w -> 0 <= y < h ->
      let a := fb + pixel_bytes ctl * (y * w + x) in
      if pixel_bytes ctl =? 1
      then exists c, pa_byte (banks (v_mc v)) a = Some c /\ screen_pixel v' x y = array_get (dp_palette (v_dp v)) c
      else exists p, (mc_read32 a true (v_mc v)).1 = Val p /\ screen_pixel v' x y = Some (Z.lor p 0xff000000).
Proof.
  intros Hpc Hrun Hs Hst Hpal Hm Hb Hsrc Hw Hh Hwh Hint Hlo Hal Hhi Hc0 Hc1.
  destruct (ram_wf _ _ _ _ _ Hm Hb) as (? & ? & ?).
  assert (1 <= pixel_bytes ctl <= 4 /\ 0 < w * h) as [Hp Hwh0] by (split; [unfold pixel_bytes; case_match; lia|nia]).
  destruct (program_mode v k base Big src fb w h ctl) as (c & E);
    [done|done|split; [lia|nia]|lia|lia|lia|done|by rewrite truth_land1|by rewrite truth_land1|
     by rewrite (truth_land_pow2 _ 1)|].
  set (v1 := mode_programmed v w h fb ctl k (fb - base) c) in *.
  destruct (render_mode v1 k (fb - base) src) as (v' & E' & (t & Et & Ew & Eh) & Hpx); [done..| |].
  { split; cbn; try done; [by rewrite Hb|lia..|]. unfold pixel_bytes in Hhi. case_match; cbn; lia. }
  exists v', t. split; [|split_and!; [done..|]].
  - revert E. unfold bindM at 1 2. intros E.
    unfold bindM at 1. destruct (svga_write 4 _ v) as [[] v2]; try discriminate E.
    unfold bindM at 1. destruct (svga_write 20 _ v2) as [[] v3]; try discriminate E.
    by rewrite (bindM_val _ _ _ _ _ E).
  - intros x y Hx Hy a. rewrite (Hpx x y Hx Hy). clear Hpx.
    assert (0 <= y * w + x < w * h) as Hi by nia. set (i := y * w + x) in *.
    unfold fb_colour, a, pixel_bytes in *. cbn. fold i. destruct (Z.land (Z.shiftr ctl 4) 3 =? 1); cbn.
    + destruct (bytes_get_in src (fb - base + i)) as [b Eb]; [lia|]. exists b. rewrite Eb.
      rewrite (pa_byte_at _ _ _ _ _ _ Hm Hb) by lia. split; [|done]. rewrite <- Eb. f_equal. lia.
    + destruct (host_word src (fb - base + 4 * i)) as (p & _ & Ep); [done|lia..|]. rewrite Ep.
      exists (byteswap32 p). split; [|done].
      destruct (mc_read32_ram (v_mc v) k base Big src (fb + 4 * i) true (byteswap32 p) Hm Hb) as (c' & -> & _);
        [lia..| |done]. rewrite <- Ep. f_equal. lia.
Qed.
End frame.

(** ** The keyboard *)

(** The mapped keys, and the key of a set 2 code. *)
Definition all_keys : list SDL_Scancode := [
  SDL_SCANCODE_A; SDL_SCANCODE_B; SDL_SCANCODE_C; SDL_SCANCODE_D; SDL_SCANCODE_E;
  SDL_SCANCODE_F; SDL_SCANCODE_G; SDL_SCANCODE_H; SDL_SCANCODE_I; SDL_SCANCODE_J;
  SDL_SCANCODE_K; SDL_SCANCODE_L; SDL_SCANCODE_M; SDL_SCANCODE_N; SDL_SCANCODE_O;
  SDL_SCANCODE_P; SDL_SCANCODE_Q; SDL_SCANCODE_R; SDL_SCANCODE_S; SDL_SCANCODE_T;
  SDL_SCANCODE_U; SDL_SCANCODE_V; SDL_SCANCODE_W; SDL_SCANCODE_X; SDL_SCANCODE_Y;
  SDL_SCANCODE_Z; SDL_SCANCODE_1; SDL_SCANCODE_2; SDL_SCANCODE_3; SDL_SCANCODE_4;
  SDL_SCANCODE_5; SDL_SCANCODE_6; SDL_SCANCODE_7; SDL_SCANCODE_8; SDL_SCANCODE_9;
  SDL_SCANCODE_0; SDL_SCANCODE_RETURN; SDL_SCANCODE_ESCAPE; SDL_SCANCODE_BACKSPACE;
  SDL_SCANCODE_TAB; SDL_SCANCODE_SPACE; SDL_SCANCODE_MINUS; SDL_SCANCODE_EQUALS;
  SDL_SCANCODE_LEFTBRACKET; SDL_SCANCODE_RIGHTBRACKET; SDL_SCANCODE_BACKSLASH;
  SDL_SCANCODE_SEMICOLON; SDL_SCANCODE_APOSTROPHE; SDL_SCANCODE_GRAVE; SDL_SCANCODE_COMMA;
  SDL_SCANCODE_PERIOD; SDL_SCANCODE_SLASH; SDL_SCANCODE_NONUSBACKSLASH; SDL_SCANCODE_CAPSLOCK;
  SDL_SCANCODE_F1; SDL_SCANCODE_F2; SDL_SCANCODE_F3; SDL_SCANCODE_F4; SDL_SCANCODE_F5;
  SDL_SCANCODE_F6; SDL_SCANCODE_F7; SDL_SCANCODE_F8; SDL_SCANCODE_F9; SDL_SCANCODE_F10;
  SDL_SCANCODE_F11; SDL_SCANCODE_F12; SDL_SCANCODE_SCROLLLOCK; SDL_SCANCODE_INSERT;
  SDL_SCANCODE_HOME; SDL_SCANCODE_PAGEUP; SDL_SCANCODE_DELETE; SDL_SCANCODE_END;
  SDL_SCANCODE_PAGEDOWN; SDL_SCANCODE_RIGHT; SDL_SCANCODE_LEFT; SDL_SCANCODE_DOWN;
  SDL_SCANCODE_UP; SDL_SCANCODE_LCTRL; SDL_SCANCODE_LSHIFT; SDL_SCANCODE_LALT;
  SDL_SCANCODE_LGUI; SDL_SCANCODE_RCTRL; SDL_SCANCODE_RSHIFT; SDL_SCANCODE_RALT;
  SDL_SCANCODE_RGUI; SDL_SCANCODE_A; SDL_SCANCODE_X].

Definition key_of_code (code : Z) : option SDL_Scancode :=
  snd <$> list_find (fun sc => ps2_set2_table sc = code) all_keys.

(** How a guest decodes the bytes of a set 2 keyboard: [0xe0] announces an
    extended code, [0xf0] a release; unknown codes are dropped. *)
Fixpoint decode_set2 (extended released : bool) (l : list Z) : list (bool * SDL_Scancode) :=
  match l with
  | [] => []
  | b :: l =>
      if b =? 0xe0 then decode_set2 true released l
      else if b =? 0xf0 then decode_set2 extended true l
      else match key_of_code (if extended then 0xe000 + b else b) with
           | Some sc => (negb released, sc) :: decode_set2 false false l
           | None => decode_set2 false false l
           end
  end.

(** The bytes of a key event, and the events the table knows. *)
Definition key_bytes (k : bool * SDL_Scancode) : list Z :=
  let code := ps2_set2_table k.2 in
  if code =? 0 then [] else
    (if Z.shiftr code 8 =? 0xe0 then [0xe0] else []) ++ (if k.1 then [] else [0xf0]) ++ [Z.land code 0xff].
Definition is_mapped (k : bool * SDL_Scancode) : bool := negb (ps2_set2_table k.2 =? 0).

(** The table has no code twice, and none that looks like a prefix. *)
Lemma code_decodes sc :
  ps2_set2_table sc = 0 \/
  (ps2_set2_table sc =? 0) = false /\ (Z.land (ps2_set2_table sc) 0xff =? 0xe0) = false /\
  (Z.land (ps2_set2_table sc) 0xff =? 0xf0) = false /\
  key_of_code (if Z.shiftr (ps2_set2_table sc) 8 =? 0xe0 then 0xe000 + Z.land (ps2_set2_table sc) 0xff
               else Z.land (ps2_set2_table sc) 0xff) = Some sc.
Proof. destruct sc; (by left) || (right; vm_compute; by split_and!). Qed.

Lemma decode_key k l :
  decode_set2 false false (key_bytes k ++ l) =
  (if is_mapped k then [k] else []) ++ decode_set2 false false l.
Proof.
  destruct k as [down sc]. unfold is_mapped, key_bytes. cbn [fst snd].
  destruct (code_decodes sc) as [->|(E0 & E1 & E2 & E3)]; [done|]. rewrite E0. cbn [negb].
  destruct (Z.shiftr (ps2_set2_table sc) 8 =? 0xe0), down; cbn [app decode_set2 Z.eqb Pos.eqb negb];
    rewrite E1, E2, E3; done.
Qed.

Section keyboard.
Context {W : Type} {bus : DeviceBus W}.
Implicit Types v : video W.

Definition queue v : list Z := rxq_ (ps_dev (v_ps2 v)).

(** The keyboard controller can interrupt, and the display calls it. *)
Definition keyboard_ready v : Prop := dp_key_callback (v_dp v) = true /\ cpus_known (ps_irqmp (v_ps2 v)).

Lemma push_byte_run b (s : ps2_sys) :
  cpus_known (ps_irqmp s) -> (length (rxq_ (ps_dev s)) < 32)%nat ->
  exists s', push_byte b s = (Val tt, s') /\ cpus_known (ps_irqmp s') /\
    rxq_ (ps_dev s') = rxq_ (ps_dev s) ++ [b].
Proof.
  intros Hk Hl. unfold push_byte, on_ps2. unfold bindM at 1. rewrite (ps2_push_room b _ Hl). unfold ps2_trigger.
  mstep. destruct (negb _); cbn [when]; [|by eexists].
  unfold ps2_irqmp, zoom. cbn [ps_dev ps_irqmp].
  destruct (trigger_runs (irq_line_ (ps_dev s <| rxq_ := rxq_ (ps_dev s) ++ [b] |>)) _ Hk) as (q & -> & Hk').
  by eexists.
Qed.

(** [v'] is [v] with [bs] more bytes in the queue of the keyboard. *)
Definition typed v (bs : list Z) v' : Prop :=
  v' = v <| v_ps2 := v_ps2 v' |> /\ cpus_known (ps_irqmp (v_ps2 v')) /\ queue v' = queue v ++ bs.

Lemma push_key v b bs v1 :
  typed v bs v1 -> (length (queue v ++ bs) < 32)%nat ->
  exists v2, v_key (push_byte b) v1 = (Val tt, v2) /\ typed v (bs ++ [b]) v2.
Proof.
  intros (E1 & Hk & Hq) Hl. rewrite <- Hq in Hl. destruct (push_byte_run b _ Hk Hl) as (s & E & Hk' & Hs).
  exists (v1 <| v_ps2 := s |>). unfold v_key, zoom. rewrite E. split; [done|]. split; [by rewrite E1|].
  split; [done|]. unfold queue in *. cbn. by rewrite Hs, Hq, app_assoc.
Qed.

Lemma push_key_if v (c : bool) b bs v1 :
  typed v bs v1 -> (length (queue v ++ bs ++ (if c then [b] else [])) <= 32)%nat ->
  exists v2, when c (v_key (push_byte b)) v1 = (Val tt, v2) /\ typed v (bs ++ (if c then [b] else [])) v2.
Proof.
  intros Hv Hl. destruct c; [apply push_key; [done|rewrite !length_app in *; cbn in *; lia]|].
  exists v1. by rewrite app_nil_r.
Qed.

Lemma handle_key_run v down sc :
  keyboard_ready v -> (length (queue v ++ key_bytes (down, sc)) <= 32)%nat ->
  exists v', handle_key_event down sc v = (Val tt, v') /\ typed v (key_bytes (down, sc)) v'.
Proof.
  intros [Hcb Hk] Hl. unfold handle_key_event. mstep. rewrite Hcb. cbn [negb orb].
  unfold key_bytes in *. cbn [fst snd] in *. destruct (ps2_set2_table sc =? 0) eqn:E0.
  - rewrite orb_true_r. exists v. split; [done|]. repeat split; [by destruct v|done|by rewrite app_nil_r].
  - assert (scancode_in_range sc = true) as -> by (by destruct sc). cbn [negb orb].
    destruct (push_key_if v (Z.shiftr (ps2_set2_table sc) 8 =? 0xe0) 0xe0 [] v) as (v1 & E1 & H1).
    + repeat split; [by destruct v|done|by rewrite app_nil_r].
    + rewrite !length_app in *. cbn in *. lia.
    + rewrite (bindM_val _ _ _ _ _ E1). destruct (push_key_if v (negb down) 0xf0 _ v1 H1) as (v2 & E2 & H2).
      { destruct down; rewrite !length_app in *; cbn in *; lia. }
      rewrite (bindM_val _ _ _ _ _ E2).
      destruct (push_key v (Z.land (ps2_set2_table sc) 0xff) _ v2 H2) as (v3 & E3 & H3).
      { destruct down; rewrite !length_app in *; cbn in *; lia. }
      exists v3. split; [done|]. cbn [app] in H3. rewrite <- app_assoc in H3. by destruct down.
Qed.

(** The key events among the events, and the presses of Ctrl+A. *)
Definition key_of (e : SDL_Event) : option (bool * SDL_Scancode) :=
  match e with KeyEvent down sc _ => Some (down, sc) | OtherEvent => None end.
Definition is_prefix (e : SDL_Event) : bool :=
  match e with KeyEvent down sc ctrl => down && ctrl && is_key_A sc | OtherEvent => false end.
Definition typed_bytes (evs : list SDL_Event) : list Z := concat (key_bytes <$> omap key_of evs).

Lemma poll_plain v e :
  keyboard_ready v -> dp_escape_pending (v_dp v) = false -> is_prefix e = false ->
  (length (queue v ++ typed_bytes [e]) <= 32)%nat ->
  exists v', poll_event e v = (Val tt, v') /\ typed v (typed_bytes [e]) v'.
Proof.
  intros Hr He Hp Hl. destruct e as [down sc ctrl|]; cbn [poll_event].
  - assert (typed_bytes [KeyEvent down sc ctrl] = key_bytes (down, sc)) as Eb
      by (unfold typed_bytes; cbn -[key_bytes]; by rewrite app_nil_r).
    rewrite Eb in *. mstep. rewrite He. cbn in Hp. rewrite Hp.
    by apply handle_key_run.
  - exists v. split; [done|]. repeat split; [by destruct v|apply Hr|by rewrite app_nil_r].
Qed.

Lemma poll_plain_all v evs :
  keyboard_ready v -> dp_escape_pending (v_dp v) = false -> Forall (fun e => is_prefix e = false) evs ->
  (length (queue v ++ typed_bytes evs) <= 32)%nat ->
  exists v', for_each evs poll_event v = (Val tt, v') /\ typed v (typed_bytes evs) v'.
Proof.
  intros Hr He Hp. revert v Hr He. induction Hp as [|e evs Hp _ IH]; intros v Hr He Hl.
  { exists v. split; [done|]. repeat split; [by destruct v|apply Hr|by rewrite app_nil_r]. }
  assert (typed_bytes (e :: evs) = typed_bytes [e] ++ typed_bytes evs) as Eb.
  { unfold typed_bytes. cbn. destruct (key_of e); cbn; by rewrite ?app_nil_r. }
  rewrite Eb in *. destruct (poll_plain v e Hr He Hp) as (v1 & E1 & D1 & K1 & Q1).
  { rewrite !length_app in *. lia. }
  destruct (IH v1) as (v2 & E2 & D2 & K2 & Q2).
  - split; [|done]. rewrite D1. apply Hr.
  - by rewrite D1.
  - rewrite Q1, <- app_assoc. done.
  - exists v2. cbn [for_each]. rewrite (bindM_val _ _ _ _ _ E1). split; [done|].
    split; [by rewrite D2, D1|]. split; [done|]. by rewrite Q2, Q1, app_assoc.
Qed.

(** What a guest driver does on an interrupt: while the status register says
    that there is data, read it. *)
Fixpoint guest_drain (fuel : nat) : M ps2_sys (list Z) :=
  st ← on_ps2 (ps2_read 0x4);
  if truth (Z.land st 0x1) then
    match fuel with
    | O => ret []
    | S fuel => b ← on_ps2 (ps2_read 0x0); l ← guest_drain fuel; ret (b :: l)
    end
  else ret [].

Lemma status_ready p :
  (ps2_read 0x4 p).2 = p /\ truth (Z.land (ps2_read 0x4 p).1 0x1) = negb (bool_decide (rxq_ p = [])).
Proof.
  split; [done|]. rewrite truth_land1. unfold ps2_read. change (Z.land 4 0x0c =? 0) with false.
  change (Z.land 4 0x0c =? 4) with true. cbv beta iota zeta. cbn [fst]. rewrite Z.lor_spec.
  unfold shl32, u32. change 4294967296 with (2 ^ 32).
  rewrite Z.mod_pow2_bits_low, Z.shiftl_spec_low, orb_false_r by lia. by destruct (rxq_ p).
Qed.

Lemma drain_queue fuel (s : ps2_sys) :
  (length (rxq_ (ps_dev s)) <= fuel)%nat ->
  guest_drain fuel s = (Val (rxq_ (ps_dev s)), mkPs2Sys (ps_dev s <| rxq_ := [] |>) (ps_irqmp s)).
Proof.
  revert s. induction fuel as [|fuel IH]; intros [p q] Hl; cbn in Hl; cbn [guest_drain ps_dev ps_irqmp];
    (rewrite (bindM_val _ _ _ (ps2_read 0x4 p).1 (mkPs2Sys p q)) by done); rewrite (proj2 (status_ready p));
    destruct (rxq_ p) as [|b l] eqn:El; cbn in Hl; try lia.
  1,2: by destruct p; cbn in *; subst.
  rewrite bool_decide_false by done. cbn [negb].
  rewrite (bindM_val _ _ _ b (mkPs2Sys (p <| rxq_ := l |>) q)) by (unfold on_ps2, ps2_read; cbn; by rewrite El).
  pose proof (IH (mkPs2Sys (p <| rxq_ := l |>) q)) as IH'. rewrite (bindM_val _ _ _ _ _ (IH' (le_S_n _ _ Hl))). done.
Qed.

(** C39. Keys reach the guest: whatever keys are pressed and released without
    Ctrl+A, as long as their bytes fit the queue of the keyboard controller, a
    guest that reads the data register while the status register reports data
    and decodes the bytes as a set 2 keyboard's gets exactly the presses and
    releases of the mapped keys, in order, and the emulator is not asked to
    quit. *)
Theorem typed_keys_reach_guest v evs :
  keyboard_ready v -> dp_escape_pending (v_dp v) = false -> queue v = [] ->
  Forall (fun e => is_prefix e = false) evs -> (length (typed_bytes evs) <= 32)%nat ->
  exists v' bs s, for_each evs poll_event v = (Val tt, v') /\ guest_drain 32 (v_ps2 v') = (Val bs, s) /\
    decode_set2 false false bs = filter is_mapped (omap key_of evs) /\ rxq_ (ps_dev s) = [] /\
    v_sigterm v' = v_sigterm v.
Proof.
  intros Hr He Hq Hp Hl. destruct (poll_plain_all v evs Hr He Hp) as (v' & E & D & _ & Q); [by rewrite Hq|].
  rewrite Hq in Q. cbn in Q. exists v'. do 2 eexists. split; [done|]. split; [apply drain_queue|].
  { unfold queue in Q. by rewrite Q. }
  split; [|split; [done|by rewrite D]]. unfold queue in Q. rewrite Q. unfold typed_bytes.
  generalize (omap key_of evs). intros ks. induction ks as [|k ks IH]; [done|].
  cbn [fmap list_fmap concat]. rewrite decode_key, IH, filter_cons. by destruct (is_mapped k).
Qed.


(** ** The escape sequence *)

(** The presses among the events, and how many of them ask to quit: X as the
    next press after a Ctrl+A that was not itself the next press after one. *)
Definition press_of (e : SDL_Event) : option (SDL_Scancode * bool) :=
  match e with KeyEvent true sc ctrl => Some (sc, ctrl) | _ => None end.
Fixpoint quits (pending : bool) (ps : list (SDL_Scancode * bool)) : nat :=
  match ps with
  | [] => 0
  | (sc, ctrl) :: ps =>
      if pending then (if is_key_X sc then 1 else 0) + quits false ps else quits (ctrl && is_key_A sc) ps
  end%nat.

Lemma push_byte_total b (s : ps2_sys) :
  cpus_known (ps_irqmp s) -> exists s', push_byte b s = (Val tt, s') /\ cpus_known (ps_irqmp s').
Proof.
  intros Hk. unfold push_byte, on_ps2, ps2_trigger. unfold bindM at 1. mstep.
  destruct (negb _); cbn [when]; [|by eexists]. unfold ps2_irqmp, zoom. cbn [ps_dev ps_irqmp].
  destruct (trigger_runs (irq_line_ (ps2_push b (ps_dev s))) _ Hk) as (q & -> & Hk'). by eexists.
Qed.

Lemma push_total (c : bool) b v :
  cpus_known (ps_irqmp (v_ps2 v)) ->
  exists s, when c (v_key (push_byte b)) v = (Val tt, v <| v_ps2 := s |>) /\ cpus_known (ps_irqmp s).
Proof.
  intros Hk. destruct c; [|exists (v_ps2 v); by destruct v].
  destruct (push_byte_total b _ Hk) as (s & E & Hs). exists s. cbn [when]. unfold v_key, zoom. by rewrite E.
Qed.

Lemma handle_key_total v down sc :
  cpus_known (ps_irqmp (v_ps2 v)) ->
  exists s, handle_key_event down sc v = (Val tt, v <| v_ps2 := s |>) /\ cpus_known (ps_irqmp s).
Proof.
  intros Hk. unfold handle_key_event. mstep. destruct (negb _ || _ || _); [exists (v_ps2 v); by destruct v|].
  destruct (push_total (Z.shiftr (ps2_set2_table sc) 8 =? 0xe0) 0xe0 v Hk) as (s1 & E1 & K1).
  rewrite (bindM_val _ _ _ _ _ E1). set (v1 := v <| v_ps2 := s1 |>).
  destruct (push_total (negb down) 0xf0 v1 K1) as (s2 & E2 & K2). rewrite (bindM_val _ _ _ _ _ E2).
  set (v2 := v1 <| v_ps2 := s2 |>). exact (push_total true (Z.land (ps2_set2_table sc) 0xff) v2 K2).
Qed.

(** One event: the escape state moves and quits are counted as in [quits]. *)
Lemma poll_escape v e :
  cpus_known (ps_irqmp (v_ps2 v)) ->
  exists v', poll_event e v = (Val tt, v') /\ cpus_known (ps_irqmp (v_ps2 v')) /\
    forall ps, (v_sigterm v' + quits (dp_escape_pending (v_dp v')) ps =
                v_sigterm v + quits (dp_escape_pending (v_dp v)) (option_list (press_of e) ++ ps))%nat.
Proof.
  intros Hk. destruct e as [down sc ctrl|]; cbn [poll_event]; [|by eexists].
  mstep. destruct (dp_escape_pending (v_dp v)) eqn:Ep.
  - destruct (negb down && is_key_A sc && dp_a_keydown_suppressed (v_dp v)) eqn:E1.
    { destruct down; [done|]. eexists. split; [done|]. split; [done|]. intros ps. cbn. by rewrite Ep. }
    destruct down.
    + unfold v_upd. mstep. set (v1 := v <| v_dp := _ |>). destruct (is_key_X sc) eqn:Ex.
      * eexists. split; [done|]. split; [done|]. intros ps. cbn. rewrite Ex. lia.
      * destruct (handle_key_total v1 true sc Hk) as (s & -> & Hs). eexists. split; [done|]. split; [done|].
        intros ps. cbn. by rewrite Ex.
    + destruct (handle_key_total v false sc Hk) as (s & -> & Hs). eexists. split; [done|]. split; [done|].
      intros ps. cbn. by rewrite Ep.
  - destruct (down && ctrl && is_key_A sc) eqn:E1.
    + destruct down; [|done]. eexists. split; [done|]. split; [done|]. intros ps. cbn in *. by rewrite E1.
    + destruct (handle_key_total v down sc Hk) as (s & -> & Hs). eexists. split; [done|]. split; [done|].
      intros ps. cbn. rewrite Ep. destruct down; cbn in *; by rewrite ?E1.
Qed.

(** Quitting takes Ctrl+A and then X: whatever events arrive, handling them
    succeeds, and the number of [SIGTERM]s raised is the number of presses of X
    that come as the next press after a Ctrl+A; releases and other events in
    between do not matter, Ctrl+A twice is an ordinary Ctrl+A, and no other
    event raises one. *)
Theorem escape_quits v evs :
  cpus_known (ps_irqmp (v_ps2 v)) -> dp_escape_pending (v_dp v) = false ->
  exists v', for_each evs poll_event v = (Val tt, v') /\
    v_sigterm v' = (v_sigterm v + quits false (omap press_of evs))%nat.
Proof.
  intros Hk He. rewrite <- He. clear He. revert v Hk. induction evs as [|e evs IH]; intros v Hk.
  { exists v. split; [done|]. cbn. lia. }
  destruct (poll_escape v e Hk) as (v1 & E1 & K1 & Hq). destruct (IH v1 K1) as (v2 & E2 & Es).
  exists v2. cbn [for_each]. rewrite (bindM_val _ _ _ _ _ E1). split; [done|]. rewrite Es, Hq.
  cbn. by destruct (press_of e).
Qed.
End keyboard.

(** ** Instances *)

Section demo.
#[local] Instance demo_host : HostVideo := {| sdl_pitch w := 4 * w |}.

Lemma demo_host_ok : HostVideoLaws.
Proof. split. cbn. lia. Qed.

(** A guest with two banks of RAM, its display off and its thread parked. *)
Definition demo_video : video unit :=
  mkVideo (mkSvga 0 0 0 0 0 0 40000 20000 15385 31746 (replicate 256 0) 32 true)
    (display_new 640 480 32 <| dp_running := true |> <| dp_key_callback := true |>)
    (new_texture 640 480) OuterLoop None 0 demo_mc (mkPs2Sys (ps2_new 5) demo_irqmp).

Lemma mode_set_shows_memory_witness :
  exists v' t, (svga_write 0x4 (vlen_of 4 2) ;; svga_write 0x14 0x40000100 ;; svga_write 0x0 0x31 ;;
                render_step [] ;; render_step []) demo_video = (Val tt, v') /\
    v_screen v' = Some t /\ tex_w t = 4.
Proof.
  destruct (@mode_set_shows_memory unit no_devices demo_host demo_host_ok demo_video 0 0x40000000 (mkBytes 0x1000 ∅)
              0x40000100 4 2 0x31) as (v' & t & E & Et & Ew & _);
    [done|done|done|done|done|apply mc_reachable_ok, demo_reachable|reflexivity|apply map_Forall_empty|lia|lia|lia|
     vm_compute; discriminate|lia|reflexivity|vm_compute; discriminate|reflexivity|reflexivity|].
  exists v', t. split; [exact E|]. split; [exact Et|exact Ew].
Defined.

Lemma typed_keys_reach_guest_witness :
  exists v' bs s,
    for_each [KeyEvent true SDL_SCANCODE_UP false; OtherEvent; KeyEvent false SDL_SCANCODE_UP false]
      poll_event demo_video = (Val tt, v') /\
    guest_drain 32 (v_ps2 v') = (Val bs, s) /\
    decode_set2 false false bs = [(true, SDL_SCANCODE_UP); (false, SDL_SCANCODE_UP)].
Proof.
  destruct (@typed_keys_reach_guest unit demo_video
              [KeyEvent true SDL_SCANCODE_UP false; OtherEvent; KeyEvent false SDL_SCANCODE_UP false])
    as (v' & bs & s & E & Eb & Ed & _);
    [split; [done|apply demo_cpus_known]|done|done|by repeat constructor|vm_compute; lia|].
  exists v', bs, s. split; [done|]. by split.
Defined.

Lemma escape_quits_witness :
  exists v', for_each [KeyEvent true SDL_SCANCODE_A true; KeyEvent false SDL_SCANCODE_A true;
                       KeyEvent true SDL_SCANCODE_X false] poll_event demo_video = (Val tt, v') /\
    v_sigterm v' = 1%nat.
Proof.
  apply (@escape_quits unit demo_video [KeyEvent true SDL_SCANCODE_A true; KeyEvent false SDL_SCANCODE_A true;
    KeyEvent true SDL_SCANCODE_X false]); [apply demo_cpus_known|done].
Defined.

(** A resolution set while the window is already showing frames is used for the
    copy at once, but the texture keeps its size until the display has been
    off: a larger resolution writes past the texture. *)
Example larger_resolution_overflows :
  let small := demo_video <| v_tex := new_texture 2 1 |> <| v_pc := InnerLoop |>
                 <| v_dp := display_new 2 1 32 <| dp_running := true |> <| dp_enabled := true |> |> in
  ((svga_write 0x4 (vlen_of 2 2) ;; svga_write 0x14 0x40000100 ;; svga_write 0x0 0x31 ;;
    render_step []) small).1 = Crash UndefinedBehaviour.
Proof. vm_compute. reflexivity. Qed.
End demo.
