(* ===== verification/Smp.v ===== *)
(** * The multiprocessor system (src/src/sparcv8_leon_smp.cpp, BusClock.cpp)

    The threads of the running emulator over the state they share: one thread
    per processor ([cpu_thread]), the bus clock ([BusClock::run]), the thread of
    the display ([Display::renderLoop]) and the signal handler.  A step is one iteration of a
    thread's loop; any order of steps is an execution, so the threads interleave
    at the granularity of one instruction and one host iteration of the clock.
    Races inside an iteration and the memory model of the host are not modelled. *)
From S2P Require Import Prelude Mctrl Tlb Mmu Cpu Instr Fpu Exec Irqmp Gptimer Uart Ps2 Apb Ac97 Video Grpci2.
From S2P Require Import Board.

(** ** State *)

(** Where a processor's thread stands: in [cpu_thread]'s first
    [enter_powerdown], in the loop of [run] with its [count] and
    [irq_check_countdown], asleep inside the write to the power-down register,
    or past the loop. *)
Inductive core_mode :=
| Holding
| Running (count countdown : Z)
| Asleep (count countdown : Z)
| Exited.

(** A processor with its thread: the thread's [DecodeStruct] and its
    [thread_local] bank cache. *)
Record core := mkCore {
  k_cpu : cpu; k_d : DecodeStruct; k_mmu : MMU; k_cache : BankCache; k_mode : core_mode }.

(** The processors, the memory controller with the devices behind it, the
    debugger's breakpoints, and the bus clock's thread: its bank cache and
    [uart_div].  [s_audio] is what the host has been given to play. *)
Record smp (W : Type) := mkSmp {
  s_cores : list core; s_mc : mctrl W; s_bps : list Breakpoint;
  s_bus_cache : BankCache; s_uart_div : Z; s_audio : list Z }.
Arguments mkSmp {_}.
Arguments s_cores {_} _.
Arguments s_mc {_} _.
Arguments s_bps {_} _.
Arguments s_bus_cache {_} _.
Arguments s_uart_div {_} _.
Arguments s_audio {_} _.

#[export] Instance eta_core : Eta core := fun c => mkCore (k_cpu c) (k_d c) (k_mmu c) (k_cache c) (k_mode c).
#[export] Instance set_k_cpu : Setter k_cpu := ltac:(derive_setter).
#[export] Instance set_k_mode : Setter k_mode := ltac:(derive_setter).
#[export] Instance eta_smp W : Eta (smp W) := fun s =>
  mkSmp (s_cores s) (s_mc s) (s_bps s) (s_bus_cache s) (s_uart_div s) (s_audio s).
#[export] Instance set_s_cores W : Setter (@s_cores W) := ltac:(derive_setter).
#[export] Instance set_s_mc W : Setter (@s_mc W) := ltac:(derive_setter).
#[export] Instance set_s_uart_div W : Setter (@s_uart_div W) := ltac:(derive_setter).

(** The frequency the main program gives the bus clock, the divider that polls
    the UART at 10 kHz, and the ticks of 20 ms. *)
Definition system_freq_hz : Z := 50000000.
Definition uart_div_target : Z := Z.max 1 (system_freq_hz / 10000).
Definition max_due_ticks : Z := system_freq_hz / 50.

#[local] Open Scope M_scope.

(** ** The loop of a processor *)

Section core_loop.
Context {W : Type} `{DeviceBus W} `{IntCtl W} `{HostNaN}.
Context (notify_breakpoint : Z -> Z -> M (machine W) unit).
Abbreviation MX := (M (machine W)).

(** The head of [run], before its loop, and what follows the loop. *)
Definition run_start : MX unit :=
  updc (fun c => c <| rs := mkRunSummary INSTRUCTION (instr_count (rs c)) (last_opcode (rs c)) |>
                   <| running := true |>) ;;
  updd (fun _ => Decode0).
Definition run_end (count : Z) : MX unit :=
  op ← getd d_opcode;
  updc (fun c => c <| rs := mkRunSummary (reason (rs c)) count op |>).

(** The exit tests of an iteration; [ExecCount] is 0, so the loop has no other
    way out. *)
Definition iteration_end (count countdown : Z) : MX core_mode :=
  stop ← run_exit;
  if stop : bool then run_end (u64 (count + 1)) ;; ret Exited
  else ret (Running (u64 (count + 1)) countdown).

(** The rest of the instruction that went to sleep: [enter_powerdown] returns
    when the predicate holds, [WRY] advances and [excute_one] writes back. *)
Definition wake_up : MX unit := enter_powerdown ;; advance ;; write_back.

(** One step of a processor's thread. *)
Definition core_action (depth : nat) (mode : core_mode) : MX core_mode :=
  match mode with
  | Holding => enter_powerdown ;; run_start ;; ret (Running 0 IRQ_CHECK_INTERVAL)
  | Running count countdown => cd ← run_body notify_breakpoint depth countdown; iteration_end count cd
  | Asleep count countdown => wake_up ;; iteration_end count countdown
  | Exited => ret Exited
  end.

(** A thread that blocks sleeps where it is. *)
Definition blocked_mode (mode : core_mode) : core_mode :=
  match mode with Running count countdown => Asleep count (if countdown - 1 =? 0 then IRQ_CHECK_INTERVAL else countdown - 1)
  | m => m end.
End core_loop.

(** ** The threads *)

Inductive thread := CpuThread (k : nat) | BusThread | DisplayThread | SignalHandler.

Section smp_ops.
Context `{HostNaN} `{HostVideo}.
Context (notify_breakpoint : Z -> Z -> M (machine board) unit) (depth : nat).
Abbreviation MS := (M (smp board)).

Definition core_machine (s : smp board) (c : core) : machine board :=
  mkMachine (k_cpu c) (k_d c) (mkMemsys (k_mmu c) (s_mc s <| tl_cache := k_cache c |>)) (s_bps s).

Definition core_of (t : machine board) (mode : core_mode) : core :=
  mkCore (m_cpu t) (m_d t) (ms_mmu (m_mem t)) (tl_cache (ms_mc (m_mem t))) mode.

Definition put_core (k : nat) (t : machine board) (mode : core_mode) (s : smp board) : smp board :=
  mkSmp (<[k := core_of t mode]> (s_cores s)) (ms_mc (m_mem t)) (m_bps t) (s_bus_cache s) (s_uart_div s) (s_audio s).

(** The calls of [wakeup] that the interrupt controller made in a step. *)
Definition woken (c : core) : core := c <| k_cpu := k_cpu c <| wakeup_flag := true |> |>.
Definition deliver (s : smp board) : smp board :=
  let q := apb_irq (world (s_mc s)) in
  s <| s_cores := imap (fun k c => if existsb (Z.eqb (Z.of_nat k)) (wakeups q) then woken c else c) (s_cores s) |>
    <| s_mc := s_mc s <| world := world (s_mc s) <| apb_irq := q <| wakeups := [] |> |> |> |>.

(** A step of the thread of processor [k]: an exception leaves [cpu_thread], so
    it ends the program. *)
Definition core_step (k : nat) : MS unit := fun s =>
  match s_cores s !! k with
  | None => (Crash UndefinedBehaviour, s)
  | Some c =>
      let '(r, t) := core_action notify_breakpoint depth (k_mode c) (core_machine s c) in
      match r with
      | Val mode => (Val tt, deliver (put_core k t mode s))
      | Blocked => (Val tt, deliver (put_core k t (blocked_mode (k_mode c)) s))
      | Exn _ => (Crash StdTerminate, put_core k t (k_mode c) s)
      | Crash e => (Crash e, put_core k t (k_mode c) s)
      end
  end.

(** [GRPCI2::tick] through [maybe_tick_device]: the audio controller's tick per
    elapsed millisecond, with its accesses to memory and the calls of its
    callback. *)
Definition grpci2_tick (credits : list Z) : M (mctrl board * list Z) unit := fun '(m, audio) =>
  match gp_device_ (apb_pci (world m)) with
  | None => match credits with [] => (Val tt, (m, audio)) | _ :: _ => (Crash UndefinedBehaviour, (m, audio)) end
  | Some a =>
      let '(r, s) := maybe_tick_device credits (mkAcSys a m audio 0) in
      (r, (ac_mc s <| world := put_device (ac_dev s) (world (ac_mc s)) |>, ac_audio s))
  end.

(** One host iteration of [BusClock::run]: [due] is the number of bus ticks that
    elapsed, cut to [max_due_ticks]; then the registered device is ticked. *)
Definition bus_iteration (due : Z) (credits : list Z) : MS unit := fun s =>
  let due := Z.min due max_due_ticks in
  let m := s_mc s <| tl_cache := s_bus_cache s |> in
  match bus_loop (Z.to_nat due) uart_div_target (s_uart_div s) due (world m) with
  | (Val (Some div), w) =>
      let '(r, (m, audio)) := grpci2_tick credits (m <| world := w |>, s_audio s) in
      let s := mkSmp (s_cores s) m (s_bps s) (tl_cache m) div audio in
      match r with
      | Val _ => (Val tt, deliver s)
      | Exn _ => (Crash StdTerminate, s)
      | Crash e => (Crash e, s)
      | Blocked => (Blocked, s)
      end
  | (Crash e, w) => (Crash e, s <| s_mc := m <| world := w |> |>)
  | (_, w) => (Blocked, s <| s_mc := m <| world := w |> |>)
  end.

(** A pass of the display thread from where it stands, with the [events] that are
    due; its keys go to the keyboard controller.  A thread that waits to be
    enabled makes no step. *)
Definition display_pass (events : list SDL_Event) : MS unit := fun s =>
  let '(r, m) := on_video (render_step events) (s_mc s) in
  let s := s <| s_mc := m |> in
  match r with
  | Val _ => (Val tt, deliver s)
  | Exn _ => (Crash StdTerminate, s)
  | Crash e => (Crash e, s)
  | Blocked => (Blocked, s)
  end.

(** [signal_handler]: every processor is asked to leave its loop. *)
Definition interrupt (c : core) : core := c <| k_cpu := k_cpu c <| interrupt_ := true |> |>.
Definition signal_handler (s : smp board) : smp board := s <| s_cores := map interrupt (s_cores s) |>.

(** A step of a thread. *)
Inductive smp_step : thread -> smp board -> smp board -> Prop :=
| step_core k s s' : core_step k s = (Val tt, s') -> smp_step (CpuThread k) s s'
| step_bus due credits s s' :
    0 <= due -> Forall (fun c => 0 <= c) credits -> bus_iteration due credits s = (Val tt, s') ->
    smp_step BusThread s s'
| step_display events s s' : display_pass events s = (Val tt, s') -> smp_step DisplayThread s s'
| step_signal s : smp_step SignalHandler s (signal_handler s).

(** A step of some thread, and of some thread other than processor [k]'s. *)
Definition any_step (s s' : smp board) : Prop := exists t, smp_step t s s'.
Definition other_step (k : nat) (s s' : smp board) : Prop := exists t, t <> CpuThread k /\ smp_step t s s'.
End smp_ops.
