(* ===== verification/SmpProofs.v ===== *)
(** * Theorems about the multiprocessor system *)
From S2P Require Import Prelude Mctrl Tlb Mmu Cpu Instr Fpu Exec Words Irqmp Gptimer Uart Ps2 Apb Ac97.
From S2P Require Import Ac97Proofs Video Grpci2 Grpci2Proofs DeviceWords Ac97Words VideoWords Board VideoProofs Smp.

#[local] Open Scope M_scope.

(** ** The steps of a processor are the iterations of [run] *)

Section core_steps.
Context {W : Type} `{DeviceBus W} `{IntCtl W} `{HostNaN}.
Context (notify_breakpoint : Z -> Z -> M (machine W) unit).
Abbreviation MX := (M (machine W)).

(** A processor that has the machine to itself, for [fuel] steps. *)
Fixpoint drive (fuel depth : nat) (mode : core_mode) : MX core_mode :=
  match mode, fuel with
  | Exited, _ | _, O => ret mode
  | _, S fuel => m ← core_action notify_breakpoint depth mode; drive fuel depth m
  end.

Lemma drive_loop fuel depth : forall count cd (s : machine W),
  (r ← run_loop notify_breakpoint fuel depth 0 count cd;
   match r with None => ret None | Some n => run_end n ;; ret (Some (u32 n)) end) s =
  match drive fuel depth (Running count cd) s with
  | (Val Exited, s') => (Val (Some (u32 (instr_count (rs (m_cpu s'))))), s')
  | (Val _, s') => (Val None, s')
  | (Exn e, s') => (Exn e, s')
  | (Crash c, s') => (Crash c, s')
  | (Blocked, s') => (Blocked, s')
  end.
Proof.
  induction fuel as [|fuel IH]; intros count cd s; cbn [run_loop drive Z.eqb orb]; [done|].
  cbn [core_action]. unfold iteration_end.
  assert (forall A B C (m : MX A) (f : A -> MX B) (g : B -> MX C) t, bindM (bindM m f) g t = bindM m (fun a => bindM (f a) g) t)
    as bind_assoc by (intros; unfold bindM; by destruct (m t) as [[]]).
  rewrite !bind_assoc. unfold bindM at 1 5.
  destruct (run_body _ _ _ s) as [[cd'|e|c|] s1]; [|done..].
  rewrite !bind_assoc. unfold bindM at 1 4.
  destruct (run_exit s1) as [[[]|e|c|] s2]; [| |done..]; [by destruct fuel|]. apply IH.
Qed.

(** [run] without an instruction count is the iterations of a processor's
    thread: the steps the processors interleave are those of the loop. *)
Lemma run_by_steps fuel depth (s : machine W) :
  run notify_breakpoint fuel depth 0 s =
  match (run_start ;; drive fuel depth (Running 0 IRQ_CHECK_INTERVAL)) s with
  | (Val Exited, s') => (Val (Some (u32 (instr_count (rs (m_cpu s'))))), s')
  | (Val _, s') => (Val None, s')
  | (Exn e, s') => (Exn e, s')
  | (Crash c, s') => (Crash c, s')
  | (Blocked, s') => (Blocked, s')
  end.
Proof.
  unfold run. do 2 mstep. set (s0 := mkMachine _ _ _ _). rewrite (bindM_val run_start _ s tt s0) by reflexivity.
  rewrite <- drive_loop. unfold bindM at 1 4. by destruct (run_loop _ _ _ _ _ _ s0) as [[[n|]| | |] t].
Qed.

(** A call made while a processor sleeps: the write to the power-down register
    then ends as it would have with the call made before it. *)
Definition call (s : machine W) : machine W :=
  mkMachine (m_cpu s <| wakeup_flag := true |>) (m_d s) (m_mem s) (m_bps s).
Lemma sleep_is_wait (s s1 : machine W) :
  exec_WRY s = (Blocked, s1) -> exec_WRY (call s) = (enter_powerdown ;; advance) (call s1).
Proof.
  unfold exec_WRY, enter_powerdown, exec_UNIMP, advance, bindM, getd, getc, gets, updc, updd, modify, block. cbn.
  intros E. repeat case_match; simplify_eq/=; try done; congruence.
Qed.
End core_steps.

(** ** The devices keep their types when the clock ticks *)

Section clock_words.
Lemma tick_words t : timer_words t -> timer_words (tick t).
Proof.
  intros (H1 & H2 & H3 & H4). unfold tick.
  assert (is_u32 (Z.shiftl 1 4)) by (split; vm_compute; congruence).
  repeat case_match; split_and!; cbn -[Z.lor Z.land Z.shiftl not32]; auto with u32.
Qed.

Lemma clear_interrupt_words t : timer_words t -> timer_words (timer_clear_interrupt t).
Proof. intros (H1 & H2 & H3 & H4). split_and!; cbn -[Z.land Z.shiftl not32]; auto with u32. Qed.

Lemma advance_timer_words pt clear t : timer_words t -> timer_words (advance_timer pt clear t).2.
Proof.
  intros Ht. unfold advance_timer. destruct (negb _); [done|].
  assert (timer_words (Z.iter pt tick t)) as Hi.
  { destruct pt; cbn; try done. apply Pos.iter_invariant; [apply tick_words|done]. }
  cbv zeta. repeat case_match; cbn; [by apply clear_interrupt_words|done..].
Qed.

Lemma advance_prescaler_u32 scaler sreload n :
  is_u32 sreload -> is_u32 scaler -> is_u32 (advance_prescaler scaler sreload n).2.
Proof. intros H1 H2. unfold advance_prescaler. repeat case_match; simplify_eq/=; auto with u32. Qed.

Lemma advance_words n clear t : gpt_words t -> gpt_words (advance_unlocked n clear t).2.
Proof.
  intros Ht. unfold advance_unlocked. destruct (n =? 0); [done|]. destruct (negb _); [done|].
  destruct Ht. pose proof (advance_prescaler_u32 (SCALER t) (Z.land (SRELOAD t) 0xffff) n) as Hs.
  destruct (advance_prescaler _ _ _) as [pt sc].
  pose proof (advance_timer_words pt clear (timer0 t)) as H0. destruct (advance_timer _ _ (timer0 t)) as [i0 t0].
  pose proof (advance_timer_words pt clear (timer1 t)) as H1. destruct (advance_timer _ _ (timer1 t)) as [i1 t1].
  constructor; cbn; auto with u32.
Qed.

Lemma keeps_hit : keeps us_words (on_console Hit) (fun _ => True).
Proof.
  intros s [Hu Hc]. split; [|done]. unfold on_console.
  assert (con_words (Hit (us_console s)).2) as Hh; [|by destruct (Hit _)].
  unfold Hit. destruct (has_pending _); [done|]. destruct Hc as [Hp Hi].
  destruct (c_stdin (us_console s)) as [|b l] eqn:E; [by split; [|cbn; rewrite E]|].
  apply Forall_cons_1 in Hi as [Hb Hl]. unfold con_words. repeat case_match; cbn; done.
Qed.

Lemma uart_push_words b u : is_u8 b -> uart_words u -> uart_words (uart_push b u).
Proof.
  intros Hb []. constructor; cbn -[u8]; [apply Z.mod_pos_bound; lia|apply Z.mod_pos_bound; lia| |done]. by apply Forall_insert.
Qed.

Lemma keeps_input : keeps us_words input_scheduled (fun _ => True).
Proof.
  unfold input_scheduled. eapply keeps_bind; [apply keeps_hit|intros hit _]. destruct hit; [|by apply keeps_ret]. cbn [negb].
  eapply keeps_bind; [apply keeps_gets_any|intros u _]. destruct (8 <=? _).
  { apply keeps_on_uart, keeps_modify; [|done]. by intros v []. }
  apply (keeps_bind _ _ _ is_u8).
  - intros s [Hu [Hp Hi]]. cbn. split; [done|]. by intros ? [= <-].
  - intros b Hb. apply keeps_on_uart, keeps_modify; [|done]. intros v Hv. by apply uart_push_words.
Qed.

Lemma keeps_tick_scheduled : keeps us_words tick_scheduled (fun _ => True).
Proof.
  unfold tick_scheduled. apply (keeps_bind _ _ _ (fun _ => True)); [|intros _ _; apply keeps_input].
  apply keeps_on_uart, keeps_modify; [|done]. intros u Hu. case_match; [by destruct Hu|done].
Qed.

Lemma keeps_check_irq : keeps uart_words check_irq (fun _ => True).
Proof.
  unfold check_irq. eapply keeps_bind; [apply keeps_gets_any|intros u _]. case_match; [by apply keeps_ret|].
  case_match; [|by apply keeps_ret]. eapply (keeps_bind _ _ _ (fun _ => True)); [|by intros; apply keeps_ret].
  apply keeps_modify; [|done]. by intros v [].
Qed.

End clock_words.

Section bus_words.
Abbreviation I := (apb_words (Kp:=all_known)).

Lemma keeps_bus_step target d r : keeps I (bus_step target d r) (fun _ => True).
Proof.
  unfold bus_step. cbv zeta. set (n := if r <? target - d then r else target - d).
  apply (keeps_bind _ _ _ (fun _ => True)).
  { intros a Ha. pose proof (advance_words n true (apb_timer a) (aw_timer a Ha)) as Ht.
    destruct (advance_unlocked _ _ _) as [f t]. split; [|done]. destruct Ha. by constructor. }
  intros f _. apply (keeps_bind _ _ _ (fun _ => True)).
  { apply keeps_when; [|done]. intros _. apply keeps_a_irq, keeps_trigger_words. }
  intros _ _. destruct (target <=? _); [|by apply keeps_ret].
  eapply keeps_bind; [apply keeps_a_uart, keeps_tick_scheduled|intros _ _].
  eapply keeps_bind; [apply keeps_a_uart, keeps_on_uart, keeps_check_irq|intros i _].
  apply (keeps_bind _ _ _ (fun _ => True)); [|by intros; apply keeps_ret].
  apply keeps_when; [|done]. intros _. apply keeps_a_irq, keeps_trigger_words.
Qed.

Lemma keeps_bus_loop fuel target : forall d r, keeps I (bus_loop fuel target d r) (fun _ => True).
Proof.
  induction fuel as [|fuel IH]; intros d r; cbn [bus_loop]; (destruct (0 <? r); [|by apply keeps_ret]); [by apply keeps_ret|].
  eapply keeps_bind; [apply keeps_bus_step|intros [] _]. apply IH.
Qed.
End bus_words.

(** ** The type invariant of the system *)

Section smp_types.
Context `{HostNaN} `{HostVideo}.
Context (notify_breakpoint : Z -> Z -> M (machine board) unit) (depth : nat).
Context (Hnotify : forall i a, keeps machine_words (notify_breakpoint i a) (fun _ => True)).
Implicit Types s : smp board.

Definition core_words (c : core) : Prop := cpu_words (k_cpu c) /\ d_words (k_d c) /\ mmu_words (k_mmu c).

(** Every register of every processor and device, every byte of memory, the
    clock's divider and every sample played are within their C++ types. *)
Record smp_words s : Prop := {
  sw_cores : Forall core_words (s_cores s); sw_mc : mc_words (s_mc s);
  sw_bps : Forall (fun bp => is_u32 (bp_instr bp)) (s_bps s);
  sw_div : 0 <= s_uart_div s < uart_div_target; sw_audio : Forall is_s16 (s_audio s) }.

Lemma keeps_iteration_end count cd : keeps machine_words (iteration_end (W:=board) count cd) (fun _ => True).
Proof.
  unfold iteration_end. eapply keeps_bind; [apply run_exit_ok|intros [] _]; [|by apply keeps_ret].
  eapply (keeps_bind _ _ _ (fun _ => True)); [|intros; by apply keeps_ret]. unfold run_end. words_auto.
Qed.

Lemma keeps_core_action mode : keeps machine_words (core_action notify_breakpoint depth mode) (fun _ => True).
Proof.
  destruct mode as [|count cd|count cd|]; cbn [core_action]; [| | |by apply keeps_ret].
  - eapply keeps_bind; [apply enter_powerdown_ok|intros _ _].
    eapply (keeps_bind _ _ _ (fun _ => True)); [|intros; by apply keeps_ret]. unfold run_start.
    apply (keeps_bind _ _ _ (fun _ => True)); [words_auto|intros _ _]. apply updd_ok. intros; by constructor; cbn; auto with u32.
  - eapply keeps_bind; [by apply run_body_ok|intros cd' _; apply keeps_iteration_end].
  - apply (keeps_bind _ _ _ (fun _ => True)); [|intros _ _; apply keeps_iteration_end]. unfold wake_up.
    eapply keeps_bind; [apply enter_powerdown_ok|intros _ _].
    eapply keeps_bind; [apply advance_ok|intros _ _; apply write_back_ok].
Qed.

Lemma core_machine_words s c : smp_words s -> core_words c -> machine_words (core_machine s c).
Proof. intros [_ [Hb Hw] Hp _ _] (A1 & A2 & A3). do 2 (split; [done|]). split; [|done]. by split. Qed.

Lemma put_core_words k t mode s : smp_words s -> machine_words t -> smp_words (put_core k t mode s).
Proof. intros [Hc _ _ Hd Ha] (A1 & A2 & (A3 & A4) & A5). split; try done. cbn. by apply Forall_insert. Qed.

Lemma woken_words c : core_words c -> core_words (woken c).
Proof. intros ([] & A2 & A3). by split; [|split]. Qed.

Lemma deliver_words s : smp_words s -> smp_words (deliver s).
Proof.
  intros [Hc [Hb Hw] Hp Hd Ha]. split; try done.
  - cbn. rewrite Forall_lookup in Hc |- *. intros k c. rewrite list_lookup_imap. intros E.
    apply fmap_Some in E as (c0 & E0 & ->). specialize (Hc k c0 E0). case_match; [by apply woken_words|done].
  - split; [done|]. cbn. destruct Hw. constructor; try done. cbn. by destruct aw_irq.
Qed.

Lemma core_step_words k s s' : smp_words s -> core_step notify_breakpoint depth k s = (Val tt, s') -> smp_words s'.
Proof.
  intros Hs. unfold core_step. destruct (s_cores s !! k) as [c|] eqn:Ek; [|done].
  assert (core_words c) as Hc by (eapply Forall_lookup_1; [apply Hs|done]).
  destruct (keeps_core_action (k_mode c) (core_machine s c)) as [Ht _]; [by apply core_machine_words|].
  destruct (core_action _ _ _ _) as [[mode| | |] t]; intros [= <-]; by apply deliver_words, put_core_words.
Qed.

Lemma mc_cache_words (m : mctrl board) c : mc_words m -> mc_words (m <| tl_cache := c |>).
Proof. by intros []. Qed.
Lemma mc_world_words (m : mctrl board) w : mc_words m -> apb_words w -> mc_words (m <| world := w |>).
Proof. by intros []. Qed.

Lemma grpci2_tick_words credits m audio :
  mc_words m -> Forall is_s16 audio ->
  mc_words (grpci2_tick credits (m, audio)).2.1 /\ Forall is_s16 (grpci2_tick credits (m, audio)).2.2.
Proof.
  intros Hm Hs. unfold grpci2_tick. destruct (gp_device_ _) as [a|] eqn:Ea; [|by destruct credits].
  assert (ac97_words a) as Ha by (exact (gpw_dev _ (aw_pci _ (proj2 Hm)) a Ea)).
  destruct (keeps_for_each audio_words credits ac97_tick (fun c => keeps_dma_tick c) (mkAcSys a m audio 0)) as [(A1 & A2 & A3) _]; [done|].
  fold (maybe_tick_device credits (mkAcSys a m audio 0)) in A1, A2, A3.
  destruct (maybe_tick_device _ _) as [r s]. cbn in A1, A2, A3 |- *. split; [|done].
  apply mc_world_words; [done|]. apply put_device_words; [done|apply A2].
Qed.

Lemma bus_loop_div fuel target : 1 <= target -> forall d r (a : board) d' a', 0 <= d < target -> 0 <= r ->
  bus_loop fuel target d r a = (Val (Some d'), a') -> 0 <= d' < target.
Proof.
  intros Ht. induction fuel as [|fuel IH]; intros d r a d' a' Hd Hr; cbn [bus_loop]; (destruct (0 <? r) eqn:E; [|by intros [= <- <-]]); [done|].
  intros (dr & a1 & E1 & E2)%bindM_inv_val. unfold bus_step in E1. cbv zeta in E1.
  apply bindM_inv_val in E1 as (f & a2 & _ & (? & a3 & _ & E1)%bindM_inv_val).
  destruct (target <=? _) eqn:El.
  - apply bindM_inv_val in E1 as (? & ? & _ & (? & ? & _ & (? & ? & _ & [= <- <-])%bindM_inv_val)%bindM_inv_val).
    eapply IH; [| |exact E2]; cbn; [lia|]. destruct (r <? _) eqn:?; lia.
  - injection E1 as <- <-. eapply IH; [| |exact E2]; cbn; destruct (r <? _) eqn:?; lia.
Qed.

Lemma bus_iteration_words due credits s s' :
  0 <= due -> smp_words s -> bus_iteration due credits s = (Val tt, s') -> smp_words s'.
Proof.
  intros Hd Hs. unfold bus_iteration. set (n := Z.min due max_due_ticks). assert (0 <= n) by (subst n; change max_due_ticks with 1000000; lia).
  cbv zeta. destruct (keeps_bus_loop (Z.to_nat n) uart_div_target (s_uart_div s) n (world (s_mc s))) as [Hw _]; [apply Hs|].
  cbn [world set_field_of set_tl_cache].
  destruct (bus_loop _ _ _ _ _) as [[[div|]| | |] w] eqn:E; try done. cbn [snd] in Hw.
  assert (0 <= div < uart_div_target) as Hdiv by (eapply (bus_loop_div _ _); [| | |exact E]; [done|apply Hs|done]).
  set (m := (s_mc s <| tl_cache := s_bus_cache s |>) <| world := w |>).
  assert (mc_words m) as Hm by (apply mc_world_words; [apply mc_cache_words, Hs|done]).
  destruct (grpci2_tick_words credits m (s_audio s) Hm (sw_audio s Hs)) as [Hg Hau].
  destruct (grpci2_tick _ _) as [[| | |] [m' audio]]; intros [= <-]. apply deliver_words. destruct Hs. by split.
Qed.

Lemma display_pass_words events s s' : smp_words s -> display_pass events s = (Val tt, s') -> smp_words s'.
Proof.
  intros Hs. unfold display_pass.
  destruct (keeps_on_video _ _ (render_step_ok apb_words events) (s_mc s)) as [Hw _]; [apply Hs|].
  destruct (on_video _ _) as [[| | |] m]; intros [= <-]. apply deliver_words. destruct Hs. by split.
Qed.

Lemma signal_words s : smp_words s -> smp_words (signal_handler s).
Proof.
  intros [Hc ? ? ? ?]. split; try done. cbn. apply Forall_map. eapply Forall_impl; [|exact Hc].
  intros c ([] & ? & ?). by split; [|split].
Qed.

Lemma any_step_words s s' : smp_words s -> any_step notify_breakpoint depth s s' -> smp_words s'.
Proof.
  intros Hs [t Ht]. destruct Ht.
  - by eapply core_step_words.
  - by eapply bus_iteration_words.
  - by eapply display_pass_words.
  - by apply signal_words.
Qed.

Lemma any_steps_words s s' : smp_words s -> rtc (any_step notify_breakpoint depth) s s' -> smp_words s'.
Proof. intros Hs Hr. induction Hr as [s|s s1 s' Ht _ IH]; [done|]. by apply IH, (any_step_words s). Qed.

(** C3. The type invariant of the whole system: however the threads of the
    processors, the bus clock, the display and the signal handler interleave,
    whatever programs the processors run and whatever keys are pressed, every
    register of every processor and of every device (interrupt controller, timer,
    UARTs, keyboard, PCI bridge, audio controller with its codec and bus master,
    display controller with its colour tables and texture), every byte of memory,
    every sample played, and the divider of the bus clock stay within their C++
    types, in every state the system reaches.  Of the debugger's callback it is
    assumed that it keeps the types of the processor that hit the breakpoint. *)
Theorem smp_keeps_types s s' :
  smp_words s -> rtc (any_step notify_breakpoint depth) s s' -> smp_words s'.
Proof. apply any_steps_words. Qed.

(** ** Sleeping and waking *)

(** The registers a write goes to exist. *)
Lemma write_reg_total c v r : cpu_words c -> exists c', write_reg_of c v r = Some c'.
Proof.
  intros Hc. pose proof (psr_cwp_range (psr c)). pose proof (w_cwp c Hc) as Hw. unfold NWINDOWS in Hw.
  assert (forall x, 0 <= Z.land x 7 < 8) as Hi by (intros x; apply (land_range _ _ 3); lia).
  assert (forall x y, 0 <= y < 2 ^ 6 -> 0 <= Z.lor y (Z.land x 7) < 64) as Hl.
  { intros x y Hy. apply (lor_range _ _ 6); [lia..|]. specialize (Hi x). lia. }
  pose proof (Hl r (8 * psr_cwp (psr c)) ltac:(lia)).
  assert (0 <= Z.land (u32 (8 * psr_cwp (psr c) + 8)) 63 < 2 ^ 6) as Hn by (apply land_range; lia).
  pose proof (Hl r _ Hn). pose proof (Hi r).
  unfold write_reg_of. rewrite (w_base c Hc). change (NWINDOWS * 8 - 1) with 63. unfold LOBITS3 in *. cbv zeta.
  destruct (r =? GLOBALREG8); [|repeat case_match]; rewrite !array_set_in by (rewrite ?length_insert, ?(w_nglobals c Hc),
    ?(w_nlocals c Hc), ?(w_nouts c Hc); lia); cbn; try (by eexists).
  rewrite array_set_in by (rewrite length_insert, (w_nglobals c Hc); lia). by eexists.
Qed.

Definition set_interrupt (b : bool) (c : core) : core := c <| k_cpu := k_cpu c <| interrupt_ := b |> |>.

Lemma set_interrupt_id c : set_interrupt (interrupt_ (k_cpu c)) c = c.
Proof. by destruct c as [[]]. Qed.
Lemma woken_id c : wakeup_flag (k_cpu c) = true -> woken c = c.
Proof. destruct c as [[]]. cbn. by intros ->. Qed.

Lemma deliver_lookup s k c :
  s_cores s !! k = Some c -> exists c', s_cores (deliver s) !! k = Some c' /\ (c' = c \/ c' = woken c).
Proof. intros E. cbn. rewrite list_lookup_imap, E. cbn. case_match; eauto. Qed.

Lemma deliver_core s k c : s_cores s !! k = Some c -> wakeup_flag (k_cpu c) = true -> s_cores (deliver s) !! k = Some c.
Proof. intros E Hw. cbn. rewrite list_lookup_imap, E. cbn. case_match; [by rewrite woken_id|done]. Qed.

(** A processor that has been called keeps its call, and everything else, while
    other threads run; only a signal may mark it. *)
Lemma other_step_core k s s' c :
  other_step notify_breakpoint depth k s s' -> s_cores s !! k = Some c -> wakeup_flag (k_cpu c) = true ->
  exists b, s_cores s' !! k = Some (set_interrupt b c).
Proof.
  intros (t & Ht & Hst) Ek Hw.
  assert (forall s1, s_cores s1 !! k = Some c -> exists b, s_cores (deliver s1) !! k = Some (set_interrupt b c)) as Hd.
  { intros s1 E1. exists (interrupt_ (k_cpu c)). rewrite set_interrupt_id. by apply deliver_core. }
  destruct Hst as [j s s' E|due credits s s' _ _ E|events s s' E|s].
  - unfold core_step in E. destruct (s_cores s !! j) as [cj|]; [|done].
    assert (j <> k) by congruence.
    destruct (core_action _ _ _ _) as [[mode| | |] t]; try discriminate E; injection E as <-; apply Hd; cbn; by rewrite list_lookup_insert_ne.
  - unfold bus_iteration in E. cbv zeta in E. destruct (bus_loop _ _ _ _ _) as [[[div|]| | |] w]; try done.
    destruct (grpci2_tick _ _) as [[| | |] [m audio]]; try discriminate E. injection E as <-. by apply Hd.
  - unfold display_pass in E. destruct (on_video _ _) as [[| | |] m]; try discriminate E. injection E as <-. by apply Hd.
  - exists true. cbn. by rewrite list_lookup_fmap, Ek.
Qed.

Lemma other_steps_core k s s' c :
  rtc (other_step notify_breakpoint depth k) s s' -> s_cores s !! k = Some c -> wakeup_flag (k_cpu c) = true ->
  exists b, s_cores s' !! k = Some (set_interrupt b c).
Proof.
  intros Hr. revert c. induction Hr as [s|s s1 s' Ho _ IH]; intros c Ek Hw.
  - exists (interrupt_ (k_cpu c)). by rewrite set_interrupt_id.
  - destruct (other_step_core k s s1 c Ho Ek Hw) as [b Eb]. destruct (IH _ Eb) as [b' Eb']; [done|].
    exists b'. by rewrite Eb'.
Qed.

Lemma other_steps_words k s s' :
  rtc (other_step notify_breakpoint depth k) s s' -> smp_words s -> smp_words s'.
Proof.
  induction 1 as [|s s1 s' (t & _ & Ht) _ IH]; [done|]. intros Hs. apply IH, (any_step_words s); [done|]. by exists t.
Qed.

Lemma write_reg_frame c v r c' : write_reg_of c v r = Some c' ->
  pc c' = pc c /\ npc c' = npc c /\ powerdown_flag c' = powerdown_flag c /\ interrupt_ c' = interrupt_ c /\ rs c' = rs c.
Proof. unfold write_reg_of. cbv zeta. intros E. repeat case_match; split_option; done. Qed.

Lemma enter_powerdown_called (t : machine board) : wakeup_flag (m_cpu t) = true ->
  enter_powerdown t = (Val tt, mkMachine (m_cpu t <| powerdown_flag := false |> <| wakeup_flag := false |>)
                                 (m_d t) (m_mem t) (m_bps t)).
Proof. intros Hw. unfold enter_powerdown, bindM, updc, getc, gets, modify. cbn. by rewrite Hw. Qed.

(** A processor that has been called leaves the write to the power-down register
    and goes on with the next instruction. *)
Lemma wake_up_run (t : machine board) :
  cpu_words (m_cpu t) -> d_words (m_d t) -> wakeup_flag (m_cpu t) = true ->
  exists c d, wake_up t = (Val tt, mkMachine c d (m_mem t) (m_bps t)) /\
    pc c = d_npc (m_d t) /\ npc c = u32 (d_npc (m_d t) + 4) /\ powerdown_flag c = false /\
    interrupt_ c = interrupt_ (m_cpu t) /\ rs c = rs (m_cpu t).
Proof.
  intros Hc Hd Hw. unfold wake_up. rewrite (bindM_val _ _ _ _ _ (enter_powerdown_called t Hw)). unfold advance, write_back.
  do 3 mstep. cbn [m_cpu m_d m_mem m_bps id].
  set (d := m_d t <| d_pc := d_npc (m_d t) |> <| d_npc := u32 (d_npc (m_d t) + 4) |>).
  set (c := update_cwp_bases _).
  assert (cpu_words c) as Hc'.
  { pose proof (base_of_cwp (d_psr (m_d t))). subst c d. unfold update_cwp_bases. words_fields. }
  destruct (d_wb d); [|by exists c, d]. cbn [when]. unfold write_reg, bindM, getc, gets, updc, modify. cbn [m_cpu m_d m_mem m_bps].
  destruct (write_reg_total c (d_value d) (d_rd d) Hc') as (c' & E). rewrite E. cbn.
  apply write_reg_frame in E as (P1 & P2 & P3 & P4 & P5). exists c', d. by rewrite P1, P2, P3, P4, P5.
Qed.

Definition leaves_loop (c : cpu) : bool :=
  interrupt_ c || match reason (rs c) with NORMAL | UNIMPLEMENTED => true | _ => false end.

Lemma iteration_end_run n cd (t : machine board) :
  exists c, iteration_end n cd t =
      (Val (if leaves_loop (m_cpu t) then Exited else Running (u64 (n + 1)) cd), mkMachine c (m_d t) (m_mem t) (m_bps t)) /\
    pc c = pc (m_cpu t) /\ npc c = npc (m_cpu t) /\ powerdown_flag c = powerdown_flag (m_cpu t).
Proof.
  unfold iteration_end, run_exit, leaves_loop, bindM, getc, gets, updc, modify. cbn.
  destruct (interrupt_ _); [by eexists|]. destruct (reason _); cbn; try (by eexists); exists (m_cpu t); by destruct t.
Qed.

Lemma awake_step k s c n cd :
  smp_words s -> s_cores s !! k = Some c -> k_mode c = Asleep n cd -> wakeup_flag (k_cpu c) = true ->
  exists s' c', core_step notify_breakpoint depth k s = (Val tt, s') /\ s_cores s' !! k = Some c' /\
    pc (k_cpu c') = d_npc (k_d c) /\ npc (k_cpu c') = u32 (d_npc (k_d c) + 4) /\ powerdown_flag (k_cpu c') = false /\
    k_mode c' = if leaves_loop (k_cpu c) then Exited else Running (u64 (n + 1)) cd.
Proof.
  intros Hs Ek Hm Hw. assert (core_words c) as (Hc & Hd & _) by (eapply Forall_lookup_1; [apply Hs|done]).
  unfold core_step. rewrite Ek, Hm. cbn [core_action].
  destruct (wake_up_run (core_machine s c) Hc Hd Hw) as (c1 & d1 & E1 & P1 & P2 & P3 & P4 & P5).
  rewrite (bindM_val _ _ _ _ _ E1). clear E1.
  destruct (iteration_end_run n cd (mkMachine c1 d1 (m_mem (core_machine s c)) (m_bps (core_machine s c))))
    as (c2 & E2 & Q1 & Q2 & Q3). rewrite E2. clear E2. cbn [m_cpu] in *.
  assert (leaves_loop c1 = leaves_loop (k_cpu c)) as -> by (unfold leaves_loop; by rewrite P4, P5).
  set (s1 := put_core k _ _ s).
  assert (s_cores s1 !! k = Some (core_of (mkMachine c2 d1 (m_mem (core_machine s c)) (m_bps (core_machine s c)))
    (if leaves_loop (k_cpu c) then Exited else Running (u64 (n + 1)) cd))) as E.
  { cbn. apply list_lookup_insert_eq. by eapply lookup_lt_Some. }
  exists (deliver s1). destruct (deliver_lookup s1 k _ E) as (c' & E' & [->| ->]); (eexists; split; [done|]; split; [exact E'|]);
    cbn; by rewrite Q1, Q2, Q3, P1, P2, P3.
Qed.

(** Raising an interrupt calls every processor that has it unmasked. *)
Lemma trigger_calls irl q k :
  cpus_known q -> 0 <= irl < 16 -> Z.of_nat k < num_cpus_ q -> Z.testbit (nth k (pimask_ q) 0) irl = true ->
  exists q', trigger_irq irl q = (Val tt, q') /\ Z.of_nat k ∈ wakeups q'.
Proof.
  intros Hp Hi Hk Hb. unfold trigger_irq. cbv zeta.
  assert (Z.land irl 0xf = irl) as -> by (change 0xf with (Z.ones 4); rewrite Z.land_ones, Z.mod_small; lia).
  destruct (post_irq_frame irl q) as (Fm & Fi & Fp & _).
  unfold bindM at 1, modify. fold (post_irq irl q). set (q1 := update_hints_locked (post_irq irl q)).
  assert (cpu_ids q1 = cpu_ids q) as Ei by exact Fi. assert (cpu_ptrs_ q1 = cpu_ptrs_ q) as Ep by exact Fp.
  assert (forall i, i ∈ cpu_ids q <-> exists c, i = Z.of_nat c /\ Z.of_nat c < num_cpus_ q) as Hids.
  { intros i. unfold cpu_ids. rewrite list_elem_of_fmap. setoid_rewrite elem_of_seq. split.
    - intros (c & -> & ?). exists c. split; [done|lia].
    - intros (c & -> & ?). exists c. split; [done|lia]. }
  unfold bindM at 1, gets at 1. rewrite Ei, wake_loop; [|lia|].
  - eexists. split; [reflexivity|]. cbn -[List.filter Z.testbit]. apply elem_of_app. right. apply list_elem_of_In, filter_In.
    rewrite <- list_elem_of_In, Nat2Z.id. split; [apply Hids; by exists k|]. by rewrite Fm.
  - intros i (c & -> & Hc)%Hids. rewrite Nat2Z.id, Ep. by apply Hp.
Qed.

(** The system with the devices replaced. *)
Definition with_world s (w : board) : smp board := s <| s_mc := s_mc s <| world := w |> |>.

(** C4. No wake-up is lost: when an interrupt is raised that a sleeping
    processor has unmasked, the processor keeps its call however long the other
    threads run and whatever they do, and its own next step leaves the
    power-down state and continues behind the instruction it slept in, with the
    poll countdown it had, or leaves the loop if a signal asked for it. *)
Theorem sleeper_wakes k c n cd irl s :
  let q := apb_irq (world (s_mc s)) in
  smp_words s -> s_cores s !! k = Some c -> k_mode c = Asleep n cd ->
  0 <= irl < 16 -> Z.of_nat k < num_cpus_ q -> Z.testbit (nth k (pimask_ q) 0) irl = true ->
  exists w, a_irq (trigger_irq irl) (world (s_mc s)) = (Val tt, w) /\
    forall s2, rtc (other_step notify_breakpoint depth k) (deliver (with_world s w)) s2 ->
      exists s3 c3, core_step notify_breakpoint depth k s2 = (Val tt, s3) /\ s_cores s3 !! k = Some c3 /\
        pc (k_cpu c3) = d_npc (k_d c) /\ npc (k_cpu c3) = u32 (d_npc (k_d c) + 4) /\ powerdown_flag (k_cpu c3) = false /\
        (k_mode c3 = Running (u64 (n + 1)) cd \/ k_mode c3 = Exited).
Proof.
  intros q Hs Ek Hm Hi Hk Hb. pose proof (aw_irq _ (proj2 (sw_mc s Hs))) as Hq.
  destruct (trigger_calls irl q k (iw_known _ Hq) Hi Hk Hb) as (q' & Et & Hin).
  assert (irq_words q') as Hq' by (pose proof (proj1 (keeps_trigger_words irl q Hq)) as Hx; by rewrite Et in Hx).
  eexists. split; [unfold a_irq, zoom; fold q; by rewrite Et|]. intros s2 Hr.
  set (s1 := with_world s _) in Hr.
  assert (smp_words s1) as Hs1.
  { destruct Hs as [Hc [Hbk []] ? ?]. by split; [| split | | |]. }
  assert (s_cores (deliver s1) !! k = Some (woken c)) as E1.
  { cbn. rewrite list_lookup_imap, Ek. cbn. rewrite (proj2 (existsb_exists _ _)); [done|].
    exists (Z.of_nat k). split; [by apply list_elem_of_In|lia]. }
  destruct (other_steps_core k _ s2 _ Hr E1) as [b E2]; [done|].
  assert (smp_words s2) as Hs2 by (eapply other_steps_words; [exact Hr|by apply deliver_words]).
  destruct (awake_step k s2 _ n cd Hs2 E2) as (s3 & c3 & ? & ? & ? & ? & ? & Hmode); [done..|].
  exists s3, c3. do 5 (split; [done|]). rewrite Hmode. case_match; eauto.
Qed.

(** The clock does not touch the PCI bridge. *)
Lemma bus_loop_pci fuel target p : forall d r,
  keeps (fun a : board => apb_pci a = p) (bus_loop fuel target d r) (fun _ => True).
Proof.
  assert (forall A (m : M irqmp A), keeps (fun a : board => apb_pci a = p) (a_irq m) (fun _ => True)) as Hq.
  { intros A m a Ha. unfold a_irq, zoom. by destruct (m _). }
  assert (forall A (m : M uart_sys A), keeps (fun a : board => apb_pci a = p) (a_uart m) (fun _ => True)) as Hu.
  { intros A m a Ha. unfold a_uart, zoom. by destruct (m _). }
  induction fuel as [|fuel IH]; intros d r; cbn [bus_loop]; (destruct (0 <? r); [|by apply keeps_ret]); [by apply keeps_ret|].
  apply (keeps_bind _ _ _ (fun _ => True)); [|intros [] _; apply IH]. unfold bus_step. cbv zeta.
  apply (keeps_bind _ _ _ (fun _ => True)); [intros a Ha; by destruct (advance_unlocked _ _ _)|intros f _].
  apply (keeps_bind _ _ _ (fun _ => True)); [by apply keeps_when|intros _ _].
  destruct (_ <=? _); [|by apply keeps_ret]. do 2 (eapply keeps_bind; [apply Hu|intros ? _]).
  apply (keeps_bind _ _ _ (fun _ => True)); [by apply keeps_when|intros; by apply keeps_ret].
Qed.

Lemma grpci2_tick_stopped credits (m : mctrl board) audio a :
  gp_device_ (apb_pci (world m)) = Some a -> po_running_ a = false ->
  grpci2_tick credits (m, audio) = (Val tt, (m, audio)).
Proof.
  intros Ha Hr. unfold grpci2_tick. rewrite Ha, ticks_stopped by done. cbn [ac_mc ac_dev ac_audio].
  do 3 f_equal. destruct m as [? ? ? ? []]. cbn in *. do 2 f_equal. by destruct apb_pci; cbn in *; subst.
Qed.

(** C29. The bus clock never gets stuck: in every typed state of the system, so in
    every reachable one, a host iteration of the bus clock returns, however many
    ticks are due and whatever the timers, the UART and the interrupt
    controller hold, as long as the audio channel is not playing. *)
Theorem bus_iteration_returns due credits s a :
  smp_words s -> 0 <= due -> gp_device_ (apb_pci (world (s_mc s))) = Some a -> po_running_ a = false ->
  exists s', bus_iteration due credits s = (Val tt, s') /\ smp_words s' /\
    s_uart_div s' = (s_uart_div s + Z.min due max_due_ticks) mod uart_div_target /\ s_audio s' = s_audio s.
Proof.
  intros Hs Hd Ha Hr. pose proof (iw_known _ (aw_irq _ (proj2 (sw_mc s Hs)))) as Hk.
  set (n := Z.min due max_due_ticks). assert (0 <= n) by (subst n; change max_due_ticks with 1000000; lia).
  destruct (bus_clock_terminates (Z.to_nat n) uart_div_target (s_uart_div s) n (world (s_mc s))) as (w & E & _);
    [done|apply Hs|done|done|lia|].
  assert (bus_iteration due credits s = (Val tt, deliver (mkSmp (s_cores s) (s_mc s <| tl_cache := s_bus_cache s |> <| world := w |>)
    (s_bps s) (s_bus_cache s) ((s_uart_div s + n) mod uart_div_target) (s_audio s)))) as Eb.
  { unfold bus_iteration. fold n. cbv zeta. cbn [world set_field_of set_tl_cache]. rewrite E.
    pose proof (proj1 (bus_loop_pci (Z.to_nat n) uart_div_target _ (s_uart_div s) n (world (s_mc s)) eq_refl)) as Hp.
    rewrite E in Hp. cbn [snd] in Hp. by rewrite (grpci2_tick_stopped credits _ _ a) by (cbn; by rewrite ?Hp). }
  eexists. split; [exact Eb|]. split; [|done]. by apply (bus_iteration_words due credits s).
Qed.
End smp_types.

(** ** Two processors, the second asleep *)

#[local] Existing Instance default_nan.
#[local] Existing Instance demo_host.

Definition no_debugger : Z -> Z -> M (machine board) unit := fun _ _ => ret tt.
Definition demo_core (mode : core_mode) : core :=
  mkCore (reset 0 demo_cpu) Decode0 mmu_new (mkBankCache 0 0 None 0 0) mode.
Definition demo_smp : smp board :=
  mkSmp [demo_core (Running 0 64); demo_core (Asleep 5 10)] (ms_mc (m_mem board_start)) [] (mkBankCache 0 0 None 0 0) 3 [].

Lemma demo_smp_words : smp_words demo_smp.
Proof.
  destruct board_start_words as (H1 & H2 & (H3 & H4) & _).
  assert (forall mode, core_words (demo_core mode)) as Hc by (intros; by split; [|split]).
  split; [by repeat constructor|exact H4|by constructor|done|by constructor].
Qed.

(** The first processor executes an instruction, the clock ticks, the display
    thread opens its window, enters its loops and finds a key pressed, and the
    signal handler runs. *)
Definition demo_smp1 := (core_step no_debugger 1 0 demo_smp).2.
Definition demo_smp2 := (bus_iteration 12345 [] demo_smp1).2.
Definition demo_smp3 := (display_pass [] (display_pass [] demo_smp2).2).2.
Definition demo_smp4 := (display_pass [KeyEvent true SDL_SCANCODE_A false] demo_smp3).2.

Lemma smp_keeps_types_witness :
  rtc (any_step no_debugger 1) demo_smp (signal_handler demo_smp4) /\ smp_words (signal_handler demo_smp4) /\
  rxq_ (apb_ps2 (world (s_mc demo_smp4))) = [0x1c].
Proof.
  assert (rtc (any_step no_debugger 1) demo_smp (signal_handler demo_smp4)) as Hr.
  { eapply rtc_l; [exists (CpuThread 0); apply (step_core _ _ _ _ demo_smp1); vm_compute; reflexivity|].
    eapply rtc_l; [exists BusThread; apply (step_bus _ _ 12345 [] _ demo_smp2); [lia|constructor|vm_compute; reflexivity]|].
    eapply rtc_l; [exists DisplayThread; apply (step_display _ _ [] _ (display_pass [] demo_smp2).2); vm_compute; reflexivity|].
    eapply rtc_l; [exists DisplayThread; apply (step_display _ _ [] _ demo_smp3); vm_compute; reflexivity|].
    eapply rtc_l; [exists DisplayThread; apply (step_display _ _ [KeyEvent true SDL_SCANCODE_A false] _ demo_smp4); vm_compute; reflexivity|].
    apply rtc_once. exists SignalHandler. apply step_signal. }
  split; [exact Hr|]. split; [|by vm_compute]. refine (smp_keeps_types no_debugger 1 _ demo_smp _ demo_smp_words Hr).
  intros. by apply keeps_ret.
Defined.

Lemma sleeper_wakes_witness :
  exists w s3 c3, a_irq (trigger_irq 8) (world (s_mc demo_smp)) = (Val tt, w) /\
    core_step no_debugger 1 1 (deliver (with_world demo_smp w)) = (Val tt, s3) /\
    s_cores s3 !! 1%nat = Some c3 /\ powerdown_flag (k_cpu c3) = false.
Proof.
  destruct (sleeper_wakes no_debugger 1 (fun _ _ => keeps_ret _ _ _ I) 1 (demo_core (Asleep 5 10)) 5 10 8 demo_smp)
    as (w & E & Hw); [exact demo_smp_words|reflexivity|reflexivity|lia|reflexivity|reflexivity|].
  destruct (Hw _ (rtc_refl _ _)) as (s3 & c3 & E3 & Hc & _ & _ & Hp & _). by exists w, s3, c3.
Defined.

Lemma bus_iteration_returns_witness :
  exists s', bus_iteration 12345 [7] demo_smp = (Val tt, s') /\ s_uart_div s' = 2348.
Proof.
  destruct (bus_iteration_returns 12345 [7] demo_smp
    (set_intx_cb (set_phys_bases 0x24000800 0x24000900 (ac97_zero false)))) as (s' & E & _ & Hd & _);
    [exact demo_smp_words|lia|reflexivity|reflexivity|]. exists s'. split; [exact E|]. rewrite Hd. reflexivity.
Defined.
