(* ===== verification/Elf.v ===== *)
(** * The ELF loader (src/src/readelf.cpp)

    [ReadElf] reads the file from front to back, once.  The file is the list of
    its bytes; the stream position is what is left of it, and [bytecount] is
    the variable of that name.  [exit(1)] is [ProcessExit 1].  The host is
    little-endian, so [SwapBytes] of a field read from the buffer is the
    big-endian value of its bytes.  Messages are left out. *)
From S2P Require Import Prelude Mctrl.

Definition EHDR_SIZE : Z := 52.
Definition PHDR_SIZE : Z := 32.
Definition ET_EXEC : Z := 2.
Definition EM_SPARC : Z := 2.

(** [SwapBytes] of the 2- and 4-byte field at an offset of a buffer. *)
Definition field16 (buf : list Z) (o : nat) : Z := cat2 (nth o buf 0) (nth (o + 1) buf 0).
Definition field32 (buf : list Z) (o : nat) : Z :=
  cat4 (nth o buf 0) (nth (o + 1) buf 0) (nth (o + 2) buf 0) (nth (o + 3) buf 0).

Definition e_type (h : list Z) : Z := field16 h 16.
Definition e_machine (h : list Z) : Z := field16 h 18.
Definition e_entry (h : list Z) : Z := field32 h 24.
Definition e_phnum (h : list Z) : Z := field16 h 44.

Definition p_offset (ph : list Z) : Z := field32 ph 4.
Definition p_paddr (ph : list Z) : Z := field32 ph 12.
Definition p_filesz (ph : list Z) : Z := field32 ph 16.
Definition p_memsz (ph : list Z) : Z := field32 ph 20.

Record elf_st (W : Type) := mkElf { el_mc : mctrl W; el_stream : list Z; el_bytecount : Z }.
Arguments mkElf {_}.
Arguments el_mc {_} _.
Arguments el_stream {_} _.
Arguments el_bytecount {_} _.

#[local] Open Scope M_scope.

Section elf.
Context {W : Type} `{DeviceBus W}.
Abbreviation ME := (M (elf_st W)).

(** [std::cerr << ...; exit(1);]. *)
Definition exit1 {A} : ME A := crash_with (ProcessExit 1).

Definition elf_write32 (addr word : Z) : ME unit :=
  zoom el_mc (fun m s => mkElf m (el_stream s) (el_bytecount s)) (mc_write32 addr word true).

(** [s.get()] with the test of [eof()] and the step of [bytecount]. *)
Definition get_byte : ME Z := fun s =>
  match el_stream s with
  | [] => exit1 s
  | c :: rest => (Val c, mkElf (el_mc s) rest (u32 (el_bytecount s + 1)))
  end.

Fixpoint get_bytes (n : nat) : ME (list Z) :=
  match n with
  | O => ret []
  | S n => c ← get_byte; l ← get_bytes n; ret (c :: l)
  end.

(** The program headers: the buffer has room for four. *)
Fixpoint read_phdrs (n : nat) (pcount : Z) : ME (list (list Z)) :=
  match n with
  | O => ret []
  | S n =>
      if 4 <=? pcount then ub
      else ph ← get_bytes (Z.to_nat PHDR_SIZE); l ← read_phdrs n (pcount + 1); ret (ph :: l)
  end.

(** "Gobble bytes until section start"; [fuel] bounds the bytes that are left
    in the file. *)
Fixpoint gobble (fuel : nat) (offset : Z) : ME unit :=
  b ← gets el_bytecount;
  if b <? offset then
    match fuel with
    | O => exit1
    | S fuel => get_byte ;; gobble fuel offset
    end
  else ret tt.

(** "For p_filesz bytes ...": whole words go to memory when the last byte of
    an aligned file word has been read; returns the final [i]. *)
Fixpoint load_bytes (fuel : nat) (pa limit i word : Z) : ME Z :=
  b ← gets el_bytecount;
  if b <? limit then
    match fuel with
    | O => exit1
    | S fuel =>
        c ← get_byte;
        let word := Z.lor word (u32 (Z.shiftl c ((3 - Z.land b 3) * 8))) in
        if Z.land b 3 =? 3 then elf_write32 (u32 (pa + i)) word ;; load_bytes fuel pa limit (u32 (i + 4)) 0
        else load_bytes fuel pa limit i word
    end
  else ret i.

(** [for (u32 j = 0; j < wsize; j = j + 4) try { write32 } catch (...) {}]. *)
Fixpoint zero_fill (fuel : nat) (addr wsize j : Z) : ME unit :=
  if j <? wsize then
    match fuel with
    | O => ret tt
    | S fuel =>
        (fun s => match elf_write32 (u32 (addr + j)) 0 s with (Exn _, s) => (Val tt, s) | r => r end) ;;
        zero_fill fuel addr wsize (j + 4)
    end
  else ret tt.

(** One segment; returns [i]. *)
Definition load_segment (ph : list Z) : ME Z :=
  n ← gets (fun s => S (length (el_stream s)));
  gobble n (p_offset ph) ;;
  let pa := p_paddr ph in
  let fsz := p_filesz ph in
  let msz := p_memsz ph in
  n ← gets (fun s => S (length (el_stream s)));
  i ← load_bytes n pa (u32 (p_offset ph + fsz)) 0 0;
  (if fsz <? msz then
     let wsize := (msz - fsz) / 4 in
     zero_fill (Z.to_nat wsize) (pa + i) wsize 0 ;;
     if negb ((msz - fsz) mod 4 =? 0) then throw (runtime_error "Not implemented") else ret tt
   else ret tt) ;;
  ret i.

Fixpoint load_segments (phs : list (list Z)) : ME (list Z) :=
  match phs with
  | [] => ret []
  | ph :: phs => i ← load_segment ph; l ← load_segments phs; ret (i :: l)
  end.

(** The number of words of the first segment, and the entry address. *)
Definition read_elf : ME (Z * Z) :=
  h ← get_bytes (Z.to_nat EHDR_SIZE);
  if negb (bool_decide (firstn 4 h = [0x7f; 0x45; 0x4c; 0x46])) then exit1
  else if negb (e_type h =? ET_EXEC) then exit1
  else if negb (e_machine h =? EM_SPARC) then exit1
  else
    phs ← read_phdrs (Z.to_nat (e_phnum h)) 0;
    l ← load_segments phs;
    ret (nth 0 l 0 / 4, e_entry h).

Definition ReadElf (file : list Z) (m : mctrl W) : res (Z * Z) * mctrl W :=
  let '(r, s) := read_elf (mkElf m file 0) in (r, el_mc s).
End elf.
