(* ===== verification/ElfProofs.v ===== *)
(** * Correctness of the ELF loader

    A file whose segments follow the headers in file order, word aligned, is
    loaded exactly: every segment's bytes are in memory at its physical address,
    followed by the zeros the loader writes, and nothing else changed.  Of the
    part of a segment beyond its file data the loader zeroes the first quarter;
    examples show this, and that it rejects a part that is not whole words. *)
From S2P Require Import Prelude Mctrl Words Elf.

Section load.
Context {W : Type} `{DeviceBus W} (i : nat) (base : Z).

(** [n] bytes read from the stream. *)
Lemma get_bytes_app l r m b :
  0 <= b -> b + Z.of_nat (length l) < 4294967296 ->
  get_bytes (W:=W) (length l) (mkElf m (l ++ r) b) = (Val l, mkElf m r (b + Z.of_nat (length l))).
Proof.
  revert b. induction l as [|c l IH]; intros b Hb Hl; cbn [length get_bytes app].
  - cbn. by rewrite Z.add_0_r.
  - cbn [length] in Hl. rewrite (bindM_val _ _ _ c (mkElf m (l ++ r) (b + 1))).
    2:{ cbn. by rewrite u32_id by (unfold is_u32; lia). }
    rewrite (bindM_val _ _ _ l (mkElf m r (b + 1 + Z.of_nat (length l)))) by (apply IH; lia).
    cbn. do 2 f_equal. lia.
Qed.

Lemma gobble_pad pad r m b fuel :
  0 <= b -> b + Z.of_nat (length pad) < 4294967296 -> (length pad <= fuel)%nat ->
  gobble (W:=W) fuel (b + Z.of_nat (length pad)) (mkElf m (pad ++ r) b) =
    (Val tt, mkElf m r (b + Z.of_nat (length pad))).
Proof.
  revert b fuel. induction pad as [|c pad IH]; intros b fuel Hb Hl Hf.
  - cbn [length app] in *. change (Z.of_nat 0) with 0. rewrite Z.add_0_r.
    destruct fuel; cbn [gobble]; mstep; by rewrite Z.ltb_irrefl.
  - cbn [length] in *. destruct fuel as [|fuel]; [lia|]. cbn [gobble]. mstep.
    rewrite (proj2 (Z.ltb_lt _ _)) by (cbn; lia).
    rewrite (bindM_val _ _ _ c (mkElf m (pad ++ r) (b + 1))).
    2:{ cbn. by rewrite u32_id by (unfold is_u32; lia). }
    replace (b + Z.of_nat (S (length pad))) with (b + 1 + Z.of_nat (length pad)) by lia. apply IH; lia.
Qed.

Lemma pokes_app d p l1 l2 :
  pokes d p (l1 ++ l2) = (d1 ← pokes d p l1; pokes d1 (p + Z.of_nat (length l1)) l2)%stdpp.
Proof.
  revert d p. induction l1 as [|b l1 IH]; intros d p; cbn -[Z.of_nat].
  - change (Z.of_nat 0) with 0. by rewrite Z.add_0_r.
  - destruct (bytes_set d p b) as [d1|]; [|done]. cbn -[Z.of_nat]. rewrite IH.
    replace (p + 1 + Z.of_nat (length l1)) with (p + Z.of_nat (S (length l1))) by lia. done.
Qed.

Lemma poke_word d p c0 c1 c2 c3 :
  is_u8 c0 -> is_u8 c1 -> is_u8 c2 -> is_u8 c3 ->
  poke32_be d p (cat4 c0 c1 c2 c3) = pokes d p [c0; c1; c2; c3].
Proof.
  intros H0 H1 H2 H3. pose proof (poke32_pokes d p (cat4 c0 c1 c2 c3) Big) as E. cbn beta iota in E. rewrite E.
  rewrite cat4_sum, !byte_at_mod by (done || lia). unfold is_u8 in *.
  change (2 ^ 24) with 16777216. change (2 ^ 16) with 65536. change (2 ^ 8) with 256. change (2 ^ 0) with 1.
  f_equal. repeat (apply f_equal2; [Z.div_mod_to_equations; lia|]). done.
Qed.

Lemma shift_byte c k : is_u8 c -> 0 <= k <= 24 -> u32 (Z.shiftl c k) = Z.shiftl c k.
Proof.
  intros Hc Hk. apply u32_id. unfold is_u8, is_u32 in *. rewrite Z.shiftl_mul_pow2 by lia.
  assert (0 < 2 ^ k <= 2 ^ 24) by (split; [lia|apply Z.pow_le_mono_r; lia]). change (2 ^ 24) with 16777216 in *. nia.
Qed.

Lemma load_byte fuel pa limit j word m c r b :
  0 <= b < limit -> limit < 4294967296 -> Z.land b 3 <> 3 ->
  load_bytes (W:=W) (S fuel) pa limit j word (mkElf m (c :: r) b) =
  load_bytes fuel pa limit j (Z.lor word (u32 (Z.shiftl c ((3 - Z.land b 3) * 8)))) (mkElf m r (b + 1)).
Proof.
  intros Hb Hl H3. cbn [load_bytes]. mstep. cbn [el_bytecount]. rewrite (proj2 (Z.ltb_lt _ _)) by lia.
  rewrite (bindM_val _ _ _ c (mkElf m r (b + 1))).
  2:{ cbn. by rewrite u32_id by (unfold is_u32; lia). }
  cbv zeta. by rewrite (proj2 (Z.eqb_neq _ _) H3).
Qed.

Lemma load_last_byte fuel pa limit j word m c r b :
  0 <= b < limit -> limit < 4294967296 -> Z.land b 3 = 3 ->
  load_bytes (W:=W) (S fuel) pa limit j word (mkElf m (c :: r) b) =
  (elf_write32 (u32 (pa + j)) (Z.lor word (u32 (Z.shiftl c 0))) ;; load_bytes fuel pa limit (u32 (j + 4)) 0)%M
    (mkElf m r (b + 1)).
Proof.
  intros Hb Hl H3. cbn [load_bytes]. mstep. cbn [el_bytecount]. rewrite (proj2 (Z.ltb_lt _ _)) by lia.
  rewrite (bindM_val _ _ _ c (mkElf m r (b + 1))).
  2:{ cbn. by rewrite u32_id by (unfold is_u32; lia). }
  cbv zeta. by rewrite H3.
Qed.

Lemma low2_add b k : 0 <= k < 4 -> b mod 4 = 0 -> Z.land (b + k) 3 = k.
Proof.
  intros Hk Hb. change 3 with (Z.ones 2). rewrite Z.land_ones by lia. change (2 ^ 2) with 4.
  Z.div_mod_to_equations. lia.
Qed.

Lemma load_word fuel pa limit j m c0 c1 c2 c3 r b :
  0 <= b -> b mod 4 = 0 -> b + 4 <= limit -> limit < 4294967296 ->
  is_u8 c0 -> is_u8 c1 -> is_u8 c2 -> is_u8 c3 ->
  load_bytes (W:=W) (S (S (S (S fuel)))) pa limit j 0 (mkElf m (c0 :: c1 :: c2 :: c3 :: r) b) =
  (elf_write32 (u32 (pa + j)) (cat4 c0 c1 c2 c3) ;; load_bytes fuel pa limit (u32 (j + 4)) 0)%M (mkElf m r (b + 4)).
Proof.
  intros Hb Hm Hlim Hl H0 H1 H2 H3. pose proof (low2_add b) as Hlow.
  assert (Z.land b 3 = 0) as E0 by (rewrite <- (Z.add_0_r b); apply Hlow; lia).
  rewrite load_byte by lia. rewrite load_byte by (rewrite ?Hlow; lia).
  replace (b + 1 + 1) with (b + 2) by lia. rewrite load_byte by (rewrite ?Hlow; lia).
  replace (b + 2 + 1) with (b + 3) by lia. rewrite load_last_byte by (rewrite ?Hlow; lia).
  replace (b + 3 + 1) with (b + 4) by lia. rewrite E0, !Hlow by lia.
  cbn [Z.sub Z.mul Z.opp Z.add Z.pos_sub Pos.mul Pos.sub]. ground. rewrite !shift_byte by (done || lia).
  unfold cat4. rewrite Z.lor_0_l, (Z.shiftl_0_r c3). done.
Qed.

(** The bank with other contents. *)
Definition with_ram (m : mctrl W) (d : bytes) : mctrl W := m <| banks := <[i := RamBank base Big d]> (banks m) |>.

(** The state of the memory while loading: bank [i] is the RAM, with contents
    [d]; everything but the lookup cache is as in [m0]. *)
Definition ram_state (m0 m : mctrl W) (d : bytes) : Prop :=
  mc_ok m /\ (i < length (banks m0))%nat /\ banks m = <[i := RamBank base Big d]> (banks m0) /\ world m = world m0.

Lemma ram_state_bank m0 m d : ram_state m0 m d -> banks m !! i = Some (RamBank base Big d).
Proof. intros (_ & Hi & -> & _). by apply list_lookup_insert_eq. Qed.

Lemma elf_write32_ram m0 m d a v r b :
  ram_state m0 m d -> is_u32 v -> base <= a -> a + 4 <= base + b_len d ->
  exists d' m', elf_write32 a v (mkElf m r b) = (Val tt, mkElf m' r b) /\ ram_state m0 m' d' /\
    poke32_be d (a - base) v = Some d' /\ b_len d' = b_len d.
Proof.
  intros Hs Hv Hlo Hhi. pose proof (ram_state_bank _ _ _ Hs) as Hb. destruct Hs as (Hm & Hi & Eb & Ew).
  destruct (mc_write32_ram m i base Big d a v true Hm Hv Hb Hlo Hhi) as (c & d' & E & Hok & Ep & El).
  eexists d', _. split; [unfold elf_write32, zoom; cbn [el_mc]; rewrite E; reflexivity|].
  split; [|done]. split; [done|]. split; [done|]. cbn. split; [|done]. by rewrite Eb, list_insert_insert_eq.
Qed.

Lemma ram_state_range m0 m d : ram_state m0 m d -> 0 <= base /\ base + b_len d <= 4294967296.
Proof.
  intros Hs. pose proof (ram_state_bank _ _ _ Hs) as Hb. destruct Hs as (([Hf _] & _) & _).
  rewrite Forall_lookup in Hf. destruct (Hf _ _ Hb) as (? & ? & ?). cbn in *. lia.
Qed.

(** [n] words of file data, copied to memory. *)
Lemma load_data n : forall data fuel pa limit j m0 m d r b,
  length data = (4 * n)%nat -> Forall is_u8 data -> 0 <= b -> b mod 4 = 0 ->
  b + Z.of_nat (length data) = limit -> limit < 4294967296 -> (length data <= fuel)%nat ->
  0 <= j -> j + Z.of_nat (length data) < 4294967296 -> 0 <= pa -> base <= pa + j -> pa + j + Z.of_nat (length data) <= base + b_len d -> ram_state m0 m d ->
  exists d' m', load_bytes fuel pa limit j 0 (mkElf m (data ++ r) b) =
      (Val (j + Z.of_nat (length data)), mkElf m' r limit) /\
    ram_state m0 m' d' /\ pokes d (pa + j - base) data = Some d' /\ b_len d' = b_len d.
Proof.
  induction n as [|n IH]; intros data fuel pa limit j m0 m d r b Hn Hu Hb Hm Hlim Hl Hf Hj Hj4 Hpa Hlo Hhi Hs.
  - destruct data; [|done]. exists d, m. cbn -[Z.of_nat] in *. change (Z.of_nat 0) with 0 in *. rewrite Z.add_0_r in *.
    subst b. split; [|done]. destruct fuel; cbn [load_bytes]; mstep; by rewrite Z.ltb_irrefl.
  - destruct data as [|c0 [|c1 [|c2 [|c3 data]]]]; cbn [length] in Hn; try lia.
    cbn [length] in Hlim, Hf, Hhi, Hj4. destruct fuel as [|[|[|[|fuel]]]]; try lia.
    apply Forall_cons_1 in Hu as [U0 Hu]. apply Forall_cons_1 in Hu as [U1 Hu].
    apply Forall_cons_1 in Hu as [U2 Hu]. apply Forall_cons_1 in Hu as [U3 Hu].
    cbn [app]. rewrite load_word by (done || lia). pose proof (ram_state_range _ _ _ Hs) as [Hb0 Hb1].
    rewrite !u32_id by (unfold is_u32; lia).
    destruct (elf_write32_ram m0 m d (pa + j) (cat4 c0 c1 c2 c3) (data ++ r) (b + 4) Hs)
      as (d1 & m1 & E1 & Hs1 & Ep & El); [by apply cat4_u32|lia..|].
    rewrite (bindM_val _ _ _ _ _ E1). rewrite poke_word in Ep by done.
    destruct (IH data fuel pa limit (j + 4) m0 m1 d1 r (b + 4)) as (d2 & m2 & E2 & Hs2 & Ep2 & El2);
      [lia|done|lia|Z.div_mod_to_equations; lia|lia..|done|].
    exists d2, m2. rewrite E2. split; [do 2 f_equal; cbn [length]; lia|]. split; [done|].
    change (c0 :: c1 :: c2 :: c3 :: data) with ([c0; c1; c2; c3] ++ data). rewrite pokes_app, Ep.
    cbn [length mbind option_bind]. change (Z.of_nat 4) with 4. replace (pa + j - base + 4) with (pa + (j + 4) - base) by lia.
    split; [done|congruence].
Qed.

(** [k] turns of the loop that clears the rest of a segment. *)
Lemma zero_fill_ram addr wsize r b k : forall fuel j m0 m d,
  (k <= fuel)%nat -> 0 <= j -> wsize <= j + 4 * Z.of_nat k -> (k <> 0%nat -> j + 4 * Z.of_nat k < wsize + 4) ->
  base <= addr + j -> addr + j + 4 * Z.of_nat k <= base + b_len d -> ram_state m0 m d ->
  exists d' m', zero_fill fuel addr wsize j (mkElf m r b) = (Val tt, mkElf m' r b) /\
    ram_state m0 m' d' /\ pokes d (addr + j - base) (replicate (4 * k) 0) = Some d' /\ b_len d' = b_len d.
Proof.
  induction k as [|k IH]; intros fuel j m0 m d Hf Hj Hw Hw' Hlo Hhi Hs.
  - exists d, m. split; [|done]. destruct fuel; cbn [zero_fill]; by rewrite (proj2 (Z.ltb_ge _ _)) by lia.
  - destruct fuel as [|fuel]; [lia|]. specialize (Hw' ltac:(done)). cbn [zero_fill]. rewrite (proj2 (Z.ltb_lt _ _)) by lia.
    pose proof (ram_state_range _ _ _ Hs) as [Hb0 Hb1]. rewrite u32_id by (unfold is_u32; lia).
    destruct (elf_write32_ram m0 m d (addr + j) 0 r b Hs) as (d1 & m1 & E1 & Hs1 & Ep & El); [by unfold is_u32|lia..|].
    rewrite (bindM_val _ _ _ tt (mkElf m1 r b)) by (by rewrite E1).
    destruct (IH fuel (j + 4) m0 m1 d1) as (d2 & m2 & E2 & Hs2 & Ep2 & El2); [lia..|done|].
    exists d2, m2. rewrite E2. split; [done|]. split; [done|]. split; [|congruence].
    change 0 with (cat4 0 0 0 0) in Ep at 1. rewrite poke_word in Ep by done.
    replace (4 * S k)%nat with (4 + 4 * k)%nat by lia. rewrite replicate_add, pokes_app. cbn [replicate]. rewrite Ep.
    cbn [length mbind option_bind]. change (Z.of_nat 4) with 4. by replace (addr + j - base + 4) with (addr + (j + 4) - base) by lia.
Qed.

(** ** The file *)

(** A segment of the file: its program header, the bytes before its data that
    are skipped, and its data. *)
Record segment := mkSeg { sg_ph : list Z; sg_pad : list Z; sg_data : list Z }.

(** The zeros the loader writes behind the data of a segment: it counts the
    words of the remaining part, takes the count for one of bytes, and clears
    words as long as their first byte is within it. *)
Definition seg_zeros (s : segment) : nat :=
  4 * Z.to_nat (((p_memsz (sg_ph s) - Z.of_nat (length (sg_data s))) / 4 + 3) / 4).

(** What the loader stores of a segment. *)
Definition seg_image (s : segment) : list Z := sg_data s ++ replicate (seg_zeros s) 0.

(** The segments laid out one after the other from file offset [b] on, each
    word aligned, with its target, as long as it is in memory, in the RAM; a
    part beyond the file data is whole words. *)
Fixpoint laid_out (len b : Z) (segs : list segment) : Prop :=
  match segs with
  | [] => True
  | s :: segs =>
      let ph := sg_ph s in
      let off := b + Z.of_nat (length (sg_pad s)) in
      let size := Z.of_nat (length (sg_data s)) in
      length ph = 32%nat /\ p_offset ph = off /\ off mod 4 = 0 /\
      p_filesz ph = size /\ size mod 4 = 0 /\ (size < p_memsz ph -> p_memsz ph mod 4 = 0) /\ Forall is_u8 (sg_data s) /\
      base <= p_paddr ph /\ p_paddr ph + Z.max size (p_memsz ph) <= base + len /\ off + size < 4294967296 /\
      laid_out len (off + size) segs
  end.

(** The bytes after the program headers. *)
Definition file_body (segs : list segment) : list Z := concat (map (fun s => sg_pad s ++ sg_data s) segs).

(** The memory with the segments stored one after the other. *)
Fixpoint store_segments (d : bytes) (segs : list segment) : option bytes :=
  match segs with
  | [] => Some d
  | s :: segs => (d ← pokes d (p_paddr (sg_ph s) - base) (seg_image s); store_segments d segs)%stdpp
  end.

(** The part of a segment beyond its file data. *)
Lemma load_rest_ok sg m0 m d r b :
  let size := Z.of_nat (length (sg_data sg)) in
  let rest := p_memsz (sg_ph sg) - size in
  (size < p_memsz (sg_ph sg) -> rest mod 4 = 0) -> base <= p_paddr (sg_ph sg) + size ->
  p_paddr (sg_ph sg) + Z.max size (p_memsz (sg_ph sg)) <= base + b_len d -> ram_state m0 m d ->
  exists d' m',
    (if size <? p_memsz (sg_ph sg) then
       zero_fill (Z.to_nat (rest / 4)) (p_paddr (sg_ph sg) + size) (rest / 4) 0 ;;
       if negb (rest mod 4 =? 0) then throw (runtime_error "Not implemented") else ret tt
     else ret tt)%M (mkElf m r b) = (Val tt, mkElf m' r b) /\
    ram_state m0 m' d' /\ pokes d (p_paddr (sg_ph sg) + size - base) (replicate (seg_zeros sg) 0) = Some d' /\
    b_len d' = b_len d.
Proof.
  intros size rest Hm Hlo Hhi Hs. unfold seg_zeros. fold size. fold rest. destruct (Z.ltb_spec size (p_memsz (sg_ph sg))) as [Hlt|Hge].
  - rewrite (Hm Hlt). cbn [negb Z.eqb].
    destruct (zero_fill_ram (p_paddr (sg_ph sg) + size) (rest / 4) r b (Z.to_nat ((rest / 4 + 3) / 4)) (Z.to_nat (rest / 4)) 0 m0 m d)
      as (d' & m' & E & Hs' & Ep & El); [subst rest; Z.div_mod_to_equations; lia..|done|].
    rewrite (bindM_val _ _ _ _ _ E). rewrite Z.add_0_r in Ep. by exists d', m'.
  - replace (Z.to_nat ((rest / 4 + 3) / 4)) with O by (subst rest; Z.div_mod_to_equations; lia).
    by exists d, m.
Qed.

Lemma load_segment_ok sg segs m0 m d r b :
  ram_state m0 m d -> 0 <= b -> laid_out (b_len d) b (sg :: segs) ->
  exists d' m', load_segment (sg_ph sg) (mkElf m (sg_pad sg ++ sg_data sg ++ r) b) =
      (Val (Z.of_nat (length (sg_data sg))),
       mkElf m' r (b + Z.of_nat (length (sg_pad sg)) + Z.of_nat (length (sg_data sg)))) /\
    ram_state m0 m' d' /\ pokes d (p_paddr (sg_ph sg) - base) (seg_image sg) = Some d' /\ b_len d' = b_len d.
Proof.
  intros Hs Hb (_ & Eo & Hm & Ef & Hsz & Ems & Hu & Hlo & Hhi & Hlim & _).
  pose proof (ram_state_range _ _ _ Hs). unfold load_segment. mstep. rewrite Eo.
  rewrite (bindM_val _ _ _ tt (mkElf m (sg_data sg ++ r) (b + Z.of_nat (length (sg_pad sg)))))
    by (apply gobble_pad; cbn [el_stream]; rewrite ?length_app; lia).
  cbv zeta. mstep. rewrite Ef, u32_id by (unfold is_u32; lia).
  destruct (load_data (length (sg_data sg) / 4) (sg_data sg) (S (length (sg_data sg ++ r))) (p_paddr (sg_ph sg))
    (b + Z.of_nat (length (sg_pad sg)) + Z.of_nat (length (sg_data sg))) 0 m0 m d r
    (b + Z.of_nat (length (sg_pad sg)))) as (d1 & m1 & E & Hs1 & Ep & El);
    [|done|lia|done|lia|lia|rewrite length_app; lia|lia..|done|].
  { pose proof (Nat.div_mod_eq (length (sg_data sg)) 4) as Hd.
    assert (length (sg_data sg) mod 4 = 0)%nat as Hz
      by (apply Nat2Z.inj; rewrite Nat2Z.inj_mod; done). lia. }
  cbn [el_stream]. rewrite (bindM_val _ _ _ _ _ E), Z.add_0_l. rewrite Z.add_0_r in Ep.
  destruct (load_rest_ok sg m0 m1 d1 r (b + Z.of_nat (length (sg_pad sg)) + Z.of_nat (length (sg_data sg))))
    as (d2 & m2 & E2 & Hs2 & Ep2 & El2); [|lia|by rewrite El|done|].
  { intros Hlt. specialize (Ems Hlt). Z.div_mod_to_equations. lia. }
  exists d2, m2. rewrite (bindM_val _ _ _ _ _ E2). split; [done|]. split; [done|]. split; [|congruence].
  unfold seg_image. rewrite pokes_app, Ep. cbn [mbind option_bind].
  by replace (p_paddr (sg_ph sg) - base + Z.of_nat (length (sg_data sg))) with (p_paddr (sg_ph sg) + Z.of_nat (length (sg_data sg)) - base) by lia.
Qed.

Lemma load_segments_ok segs : forall m0 m d r b,
  ram_state m0 m d -> 0 <= b -> laid_out (b_len d) b segs ->
  exists d' m' b', load_segments (map sg_ph segs) (mkElf m (file_body segs ++ r) b) =
      (Val (map (fun s => Z.of_nat (length (sg_data s))) segs), mkElf m' r b') /\
    ram_state m0 m' d' /\ store_segments d segs = Some d'.
Proof.
  induction segs as [|s segs IH]; intros m0 m d r b Hs Hb Hl; [by exists d, m, b|].
  cbn [map load_segments store_segments]. unfold file_body. cbn [map concat]. fold (file_body segs).
  rewrite <- !app_assoc.
  destruct (load_segment_ok s segs m0 m d (file_body segs ++ r) b Hs Hb Hl) as (d1 & m1 & E1 & Hs1 & Ep & El).
  rewrite (bindM_val _ _ _ _ _ E1). destruct Hl as (_ & _ & _ & _ & _ & _ & _ & _ & _ & _ & Hl). rewrite <- El in Hl.
  refine (_ (IH m0 m1 d1 r _ Hs1 _ Hl)); [|lia].
  intros (d2 & m2 & b2 & E2 & Hs2 & Ep2). rewrite (bindM_val _ _ _ _ _ E2).
  exists d2, m2, b2. rewrite Ep. done.
Qed.

Lemma read_phdrs_ok phs r m b pc :
  Forall (fun ph => length ph = 32%nat) phs -> 0 <= b -> b + 32 * Z.of_nat (length phs) < 4294967296 ->
  0 <= pc -> pc + Z.of_nat (length phs) <= 4 ->
  read_phdrs (W:=W) (length phs) pc (mkElf m (concat phs ++ r) b) =
    (Val phs, mkElf m r (b + 32 * Z.of_nat (length phs))).
Proof.
  revert b pc. induction phs as [|ph phs IH]; intros b pc Hp Hb Hl Hpc Hn; cbn [length read_phdrs concat app].
  - cbn -[Z.mul]. change (Z.of_nat 0) with 0. by rewrite Z.mul_0_r, Z.add_0_r.
  - cbn [length] in Hl, Hn. apply Forall_cons_1 in Hp as [Hph Hp]. rewrite (proj2 (Z.leb_gt _ _)) by lia.
    change (Z.to_nat PHDR_SIZE) with 32%nat. rewrite <- app_assoc. rewrite <- Hph at 1.
    rewrite (bindM_val _ _ _ _ _ (get_bytes_app ph (concat phs ++ r) m b Hb ltac:(lia))), Hph.
    change (Z.of_nat 32) with 32. rewrite (bindM_val _ _ _ _ _ (IH (b + 32) (pc + 1) Hp ltac:(lia) ltac:(lia) ltac:(lia) ltac:(lia))).
    cbn -[Z.mul Z.of_nat]. do 2 f_equal. lia.
Qed.

(** A well-formed file: its header and the segments behind it. *)
Record elf_file (len : Z) (h : list Z) (segs : list segment) : Prop := {
  ef_head : length h = 52%nat; ef_ident : firstn 4 h = [0x7f; 0x45; 0x4c; 0x46];
  ef_type : e_type h = ET_EXEC; ef_machine : e_machine h = EM_SPARC;
  ef_phnum : e_phnum h = Z.of_nat (length segs); ef_max : (length segs <= 4)%nat;
  ef_laid : laid_out len (52 + 32 * Z.of_nat (length segs)) segs }.
Definition elf_bytes (h : list Z) (segs : list segment) (trailing : list Z) : list Z :=
  h ++ concat (map sg_ph segs) ++ file_body segs ++ trailing.

Lemma elf_file_loads m d h segs trailing :
  mc_ok m -> banks m !! i = Some (RamBank base Big d) -> elf_file (b_len d) h segs ->
  exists d' m', ReadElf (elf_bytes h segs trailing) m =
      (Val (Z.of_nat (length (default [] (sg_data <$> head segs))) / 4, e_entry h), m') /\
    store_segments d segs = Some d' /\ banks m' = <[i := RamBank base Big d']> (banks m) /\
    world m' = world m /\ mc_ok m'.
Proof.
  intros Hm Hb [Hlen Hid Hty Hma Hn Hmax Hl]. unfold elf_bytes.
  assert (ram_state m m d) as Hs.
  { split; [done|]. split; [by eapply lookup_lt_Some|]. by rewrite list_insert_id. }
  assert (Forall (fun ph => length ph = 32%nat) (map sg_ph segs)) as Hph.
  { revert Hl. clear. generalize (52 + 32 * Z.of_nat (length segs)). induction segs as [|s segs IH]; intros b Hl; [done|].
    destruct Hl as (? & _ & _ & _ & _ & _ & _ & _ & _ & _ & ?). constructor; eauto. }
  destruct (load_segments_ok segs m m d trailing (52 + 32 * Z.of_nat (length segs)) Hs ltac:(lia) Hl)
    as (d' & m' & b' & E & (Hok & _ & Hbk & Hw) & Hst).
  exists d', m'. split; [|done]. unfold ReadElf, read_elf. change (Z.to_nat EHDR_SIZE) with 52%nat. rewrite <- Hlen at 1.
  rewrite (bindM_val _ _ _ _ _ (get_bytes_app h _ m 0 ltac:(lia) ltac:(lia))), Hlen, Z.add_0_l.
  rewrite bool_decide_eq_true_2, Hty, Hma by done. cbn [negb Z.eqb Pos.eqb ET_EXEC EM_SPARC].
  rewrite Hn, Nat2Z.id. change (Z.of_nat 52) with 52.
  pose proof (read_phdrs_ok (map sg_ph segs) (file_body segs ++ trailing) m 52 0 Hph ltac:(lia)) as Er.
  rewrite length_map in Er. rewrite (bindM_val _ _ _ _ _ (Er ltac:(lia) ltac:(lia) ltac:(lia))), (bindM_val _ _ _ _ _ E).
  by destruct segs.
Qed.

(** C34. The loader loads: an executable SPARC file of up to four word-aligned
    segments that lie in file order behind the headers, each of whole words in
    the file and in memory and with its target, file data and all the memory
    it asks for, in one big-endian RAM bank, is accepted; the memory afterwards
    is the memory before with the data of each segment stored at its physical
    address, followed, where a segment is larger in memory than in the file, by
    the zeros of [seg_zeros], which are the first quarter of the rest (the
    remaining three quarters keep what was in memory, see
    [zero_fill_incomplete]), nothing else changed; and the result is the size
    of the first segment's data in words and the entry address. *)
Theorem elf_loaded m d h segs trailing :
  mc_ok m -> banks m !! i = Some (RamBank base Big d) -> elf_file (b_len d) h segs ->
  exists d' m', ReadElf (elf_bytes h segs trailing) m =
      (Val (Z.of_nat (length (default [] (sg_data <$> head segs))) / 4, e_entry h), m') /\
    store_segments d segs = Some d' /\ banks m' = <[i := RamBank base Big d']> (banks m) /\
    world m' = world m /\ mc_ok m'.
Proof. apply elf_file_loads. Qed.
End load.

(** ** Concrete files *)

(** A header for [n] segments with entry address 0x40000000, and a program
    header. *)
Definition demo_ehdr (n : Z) : list Z :=
  [0x7f; 0x45; 0x4c; 0x46; 1; 2; 1; 0; 0; 0; 0; 0; 0; 0; 0; 0] ++ [0; 2; 0; 2; 0; 0; 0; 1] ++
  [0x40; 0; 0; 0] ++ [0; 0; 0; 52] ++ replicate 8 0 ++ [0; 52; 0; 32] ++ [0; n] ++ replicate 6 0.
Definition demo_phdr (offset paddr filesz memsz : Z) : list Z :=
  let be v := [byte_at v 24; byte_at v 16; byte_at v 8; byte_at v 0] in
  be 1 ++ be offset ++ be paddr ++ be paddr ++ be filesz ++ be memsz ++ be 7 ++ be 4.

Definition demo_seg : segment := mkSeg (demo_phdr 88 0x40000010 8 8) [9; 9; 9; 9] [1; 2; 3; 4; 5; 6; 7; 8].

(** A segment of 40 bytes, eight of them in the file. *)
Definition demo_bss : segment := mkSeg (demo_phdr 88 0x40000010 8 40) [9; 9; 9; 9] [1; 2; 3; 4; 5; 6; 7; 8].

#[local] Existing Instance no_devices.

Definition ram_of (b : Z) : mctrl unit :=
  mkMctrl [RamBank 0x40000000 Big (mkBytes 0x40 (list_to_map (map (fun k => (Z.of_nat k, b)) (seq 0 64))))]
    1 7 (mkBankCache 0 0 None 0 0) tt.

Lemma ram_of_ok b : mc_ok (ram_of b).
Proof.
  split; [split; [by repeat constructor|]|split; [done|]]; [|vm_compute; split; congruence].
  intros j k bj bk x Hj Hk. apply list_lookup_singleton_Some in Hj as [-> _].
  by apply list_lookup_singleton_Some in Hk as [-> _].
Qed.

Lemma elf_loaded_witness :
  exists d' m', ReadElf (demo_ehdr 1 ++ demo_phdr 88 0x40000010 8 40 ++ [9; 9; 9; 9; 1; 2; 3; 4; 5; 6; 7; 8]) (ram_of 0xee) =
      (Val (2, 0x40000000), m') /\ banks m' = [RamBank 0x40000000 Big d'] /\
    bytes_get d' 0x12 = Some 3 /\ bytes_get d' 0x1f = Some 0 /\ bytes_get d' 0x20 = Some 0xee.
Proof.
  destruct (elf_loaded 0 0x40000000 (ram_of 0xee) (mkBytes 0x40 (list_to_map (map (fun k => (Z.of_nat k, 0xee)) (seq 0 64))))
    (demo_ehdr 1) [demo_bss] []) as (d' & m' & E & Hst & Hb & _); [apply ram_of_ok|done| |].
  - constructor; [done|done|by vm_compute|by vm_compute|by vm_compute|cbn; lia|].
    vm_compute. split_and!; try done; try congruence. repeat constructor; congruence.
  - exists d', m'. split; [exact E|]. split; [exact Hb|]. vm_compute in Hst. injection Hst as <-. vm_compute. by repeat split.
Defined.

(** Only the first quarter of the rest of a segment is zeroed: of 32 bytes
    after the file's 8, the first 8 are cleared and the others keep what was
    in memory. *)
Example zero_fill_incomplete :
  let m' := (ReadElf (demo_ehdr 1 ++ demo_phdr 84 0x40000000 8 40 ++ [1; 2; 3; 4; 5; 6; 7; 8]) (ram_of 0xee)).2 in
  map (pa_byte (banks m')) [0x40000008; 0x4000000f; 0x40000010; 0x40000027] =
  [Some 0; Some 0; Some 0xee; Some 0xee].
Proof. vm_compute. reflexivity. Qed.

(** A rest that is not whole words is cleared as far, and then rejected. *)
Example odd_rest_rejected :
  (ReadElf (demo_ehdr 1 ++ demo_phdr 84 0x40000000 8 14 ++ [1; 2; 3; 4; 5; 6; 7; 8]) (ram_of 0xee)).1 =
  Exn (runtime_error "Not implemented").
Proof. vm_compute. reflexivity. Qed.

(** The last bytes of a segment that does not end on a word are not loaded. *)
Example trailing_bytes_lost :
  let r := ReadElf (demo_ehdr 1 ++ demo_phdr 84 0x40000000 6 6 ++ [1; 2; 3; 4; 5; 6]) (ram_of 0xee) in
  r.1 = Val (1, 0x40000000) /\ pa_byte (banks r.2) 0x40000003 = Some 4 /\ pa_byte (banks r.2) 0x40000004 = Some 0xee.
Proof. vm_compute. repeat split. Qed.

(** A file with five program headers overruns the buffer for them. *)
Example too_many_headers :
  (ReadElf (demo_ehdr 5 ++ concat (replicate 5 (demo_phdr 300 0x40000000 0 0))) (ram_of 0)).1 = Crash UndefinedBehaviour.
Proof. vm_compute. reflexivity. Qed.
