(* ===== verification/AmbaIds.v ===== *)
(** * Vendor and device numbers (src/src/peripherals/gaisler/ambapp_ids.h)

    The numbers the table of names of the plug-and-play dump refers to, with the
    names of the header. *)
From S2P Require Import Prelude.

Definition VENDOR_GAISLER : Z := 0x01.
Definition VENDOR_ESA : Z := 0x04.
Definition GAISLER_LEON2DSU : Z := 0x002.
Definition GAISLER_LEON3 : Z := 0x003.
Definition GAISLER_LEON3DSU : Z := 0x004.
Definition GAISLER_ETHAHB : Z := 0x005.
Definition GAISLER_APBMST : Z := 0x006.
Definition GAISLER_AHBUART : Z := 0x007.
Definition GAISLER_SRCTRL : Z := 0x008.
Definition GAISLER_SDCTRL : Z := 0x009.
Definition GAISLER_SSRCTRL : Z := 0x00a.
Definition GAISLER_I2C2AHB : Z := 0x00b.
Definition GAISLER_APBUART : Z := 0x00c.
Definition GAISLER_IRQMP : Z := 0x00d.
Definition GAISLER_AHBRAM : Z := 0x00e.
Definition GAISLER_AHBDPRAM : Z := 0x00f.
Definition GAISLER_GRIOMMU2 : Z := 0x010.
Definition GAISLER_GPTIMER : Z := 0x011.
Definition GAISLER_PCITRG : Z := 0x012.
Definition GAISLER_PCISBRG : Z := 0x013.
Definition GAISLER_PCIFBRG : Z := 0x014.
Definition GAISLER_PCITRACE : Z := 0x015.
Definition GAISLER_DMACTRL : Z := 0x016.
Definition GAISLER_AHBTRACE : Z := 0x017.
Definition GAISLER_DSUCTRL : Z := 0x018.
Definition GAISLER_CANAHB : Z := 0x019.
Definition GAISLER_GPIO : Z := 0x01a.
Definition GAISLER_AHBROM : Z := 0x01b.
Definition GAISLER_AHBJTAG : Z := 0x01c.
Definition GAISLER_ETHMAC : Z := 0x01d.
Definition GAISLER_SWNODE : Z := 0x01e.
Definition GAISLER_SPW : Z := 0x01f.
Definition GAISLER_AHB2AHB : Z := 0x020.
Definition GAISLER_USBDC : Z := 0x021.
Definition GAISLER_USB_DCL : Z := 0x022.
Definition GAISLER_DDRMP : Z := 0x023.
Definition GAISLER_ATACTRL : Z := 0x024.
Definition GAISLER_DDRSP : Z := 0x025.
Definition GAISLER_EHCI : Z := 0x026.
Definition GAISLER_UHCI : Z := 0x027.
Definition GAISLER_I2CMST : Z := 0x028.
Definition GAISLER_SPW2 : Z := 0x029.
Definition GAISLER_AHBDMA : Z := 0x02a.
Definition GAISLER_NUHOSP3 : Z := 0x02b.
Definition GAISLER_CLKGATE : Z := 0x02c.
Definition GAISLER_SPICTRL : Z := 0x02d.
Definition GAISLER_DDR2SP : Z := 0x02e.
Definition GAISLER_SLINK : Z := 0x02f.
Definition GAISLER_GRTM : Z := 0x030.
Definition GAISLER_GRTC : Z := 0x031.
Definition GAISLER_GRPW : Z := 0x032.
Definition GAISLER_GRCTM : Z := 0x033.
Definition GAISLER_GRHCAN : Z := 0x034.
Definition GAISLER_GRFIFO : Z := 0x035.
Definition GAISLER_GRADCDAC : Z := 0x036.
Definition GAISLER_GRPULSE : Z := 0x037.
Definition GAISLER_GRTIMER : Z := 0x038.
Definition GAISLER_AHB2PP : Z := 0x039.
Definition GAISLER_GRVERSION : Z := 0x03a.
Definition GAISLER_APB2PW : Z := 0x03b.
Definition GAISLER_PW2APB : Z := 0x03c.
Definition GAISLER_GRCAN : Z := 0x03d.
Definition GAISLER_I2CSLV : Z := 0x03e.
Definition GAISLER_U16550 : Z := 0x03f.
Definition GAISLER_AHBMST_EM : Z := 0x040.
Definition GAISLER_AHBSLV_EM : Z := 0x041.
Definition GAISLER_GRTESTMOD : Z := 0x042.
Definition GAISLER_ASCS : Z := 0x043.
Definition GAISLER_IPMVBCTRL : Z := 0x044.
Definition GAISLER_SPIMCTRL : Z := 0x045.
Definition GAISLER_L4STAT : Z := 0x047.
Definition GAISLER_LEON4 : Z := 0x048.
Definition GAISLER_LEON4DSU : Z := 0x049.
Definition GAISLER_PWM : Z := 0x04a.
Definition GAISLER_L2CACHE : Z := 0x04b.
Definition GAISLER_SDCTRL64 : Z := 0x04c.
Definition GAISLER_GR1553B : Z := 0x04d.
Definition GAISLER_1553TST : Z := 0x04e.
Definition GAISLER_GRIOMMU : Z := 0x04f.
Definition GAISLER_FTAHBRAM : Z := 0x050.
Definition GAISLER_FTSRCTRL : Z := 0x051.
Definition GAISLER_AHBSTAT : Z := 0x052.
Definition GAISLER_LEON3FT : Z := 0x053.
Definition GAISLER_FTMCTRL : Z := 0x054.
Definition GAISLER_FTSDCTRL : Z := 0x055.
Definition GAISLER_FTSRCTRL8 : Z := 0x056.
Definition GAISLER_MEMSCRUB : Z := 0x057.
Definition GAISLER_FTSDCTRL64 : Z := 0x058.
Definition GAISLER_NANDFCTRL : Z := 0x059.
Definition GAISLER_N2DLLCTRL : Z := 0x05a.
Definition GAISLER_N2PLLCTRL : Z := 0x05b.
Definition GAISLER_SPI2AHB : Z := 0x05c.
Definition GAISLER_DDRSDMUX : Z := 0x05d.
Definition GAISLER_AHBFROM : Z := 0x05e.
Definition GAISLER_PCIEXP : Z := 0x05f.
Definition GAISLER_APBPS2 : Z := 0x060.
Definition GAISLER_VGACTRL : Z := 0x061.
Definition GAISLER_LOGAN : Z := 0x062.
Definition GAISLER_SVGACTRL : Z := 0x063.
Definition GAISLER_T1AHB : Z := 0x064.
Definition GAISLER_MP7WRAP : Z := 0x065.
Definition GAISLER_GRSYSMON : Z := 0x066.
Definition GAISLER_GRACECTRL : Z := 0x067.
Definition GAISLER_ATAHBSLV : Z := 0x068.
Definition GAISLER_ATAHBMST : Z := 0x069.
Definition GAISLER_ATAPBSLV : Z := 0x06a.
Definition GAISLER_MIGDDR2 : Z := 0x06b.
Definition GAISLER_LCDCTRL : Z := 0x06c.
Definition GAISLER_SWITCHOVER : Z := 0x06d.
Definition GAISLER_FIFOUART : Z := 0x06e.
Definition GAISLER_MUXCTRL : Z := 0x06f.
Definition GAISLER_B1553BC : Z := 0x070.
Definition GAISLER_B1553RT : Z := 0x071.
Definition GAISLER_B1553BRM : Z := 0x072.
Definition GAISLER_AES : Z := 0x073.
Definition GAISLER_ECC : Z := 0x074.
Definition GAISLER_PCIF : Z := 0x075.
Definition GAISLER_CLKMOD : Z := 0x076.
Definition GAISLER_HAPSTRAK : Z := 0x077.
Definition GAISLER_TEST_1X2 : Z := 0x078.
Definition GAISLER_WILD2AHB : Z := 0x079.
Definition GAISLER_BIO1 : Z := 0x07a.
Definition GAISLER_AESDMA : Z := 0x07b.
Definition GAISLER_GRPCI2 : Z := 0x07c.
Definition GAISLER_GRPCI2_DMA : Z := 0x07d.
Definition GAISLER_GRPCI2_TB : Z := 0x07e.
Definition GAISLER_MMA : Z := 0x07f.
Definition GAISLER_SATCAN : Z := 0x080.
Definition GAISLER_CANMUX : Z := 0x081.
Definition GAISLER_GRTMRX : Z := 0x082.
Definition GAISLER_GRTCTX : Z := 0x083.
Definition GAISLER_GRTMDESC : Z := 0x084.
Definition GAISLER_GRTMVC : Z := 0x085.
Definition GAISLER_GEFFE : Z := 0x086.
Definition GAISLER_GPREG : Z := 0x087.
Definition GAISLER_GRTMPAHB : Z := 0x088.
Definition GAISLER_SPWCUC : Z := 0x089.
Definition GAISLER_SPW2_DMA : Z := 0x08a.
Definition GAISLER_SPWROUTER : Z := 0x08b.
Definition GAISLER_EDCLMST : Z := 0x08c.
Definition GAISLER_GRPWTX : Z := 0x08d.
Definition GAISLER_GRPWRX : Z := 0x08e.
Definition GAISLER_GPREGBANK : Z := 0x08f.
Definition GAISLER_MIG_7SERIES : Z := 0x090.
Definition GAISLER_GRSPW2_SIST : Z := 0x091.
Definition GAISLER_SGMII : Z := 0x092.
Definition GAISLER_RGMII : Z := 0x093.
Definition GAISLER_IRQGEN : Z := 0x094.
Definition GAISLER_GRDMAC : Z := 0x095.
Definition GAISLER_AHB2AVLA : Z := 0x096.
Definition GAISLER_SPWTDP : Z := 0x097.
Definition GAISLER_L3STAT : Z := 0x098.
Definition GAISLER_GR740THS : Z := 0x099.
Definition GAISLER_GRRM : Z := 0x09a.
Definition GAISLER_CMAP : Z := 0x09b.
Definition GAISLER_CPGEN : Z := 0x09c.
Definition GAISLER_AMBAPROT : Z := 0x09d.
Definition GAISLER_IGLOO2_BRIDGE : Z := 0x09e.
Definition GAISLER_AHB2AXI : Z := 0x09f.
Definition GAISLER_AXI2AHB : Z := 0x0a0.
Definition GAISLER_FDIR_RSTCTRL : Z := 0x0a1.
Definition GAISLER_APB3MST : Z := 0x0a2.
Definition GAISLER_LRAM : Z := 0x0a3.
Definition GAISLER_BOOTSEQ : Z := 0x0a4.
Definition GAISLER_TCCOP : Z := 0x0a5.
Definition GAISLER_SPIMASTER : Z := 0x0a6.
Definition GAISLER_SPISLAVE : Z := 0x0a7.
Definition GAISLER_GRSRIO : Z := 0x0a8.
Definition GAISLER_AHBLM2AHB : Z := 0x0a9.
Definition GAISLER_AHBS2NOC : Z := 0x0aa.
Definition GAISLER_TCAU : Z := 0x0ab.
Definition GAISLER_GRTMDYNVCID : Z := 0x0ac.
Definition GAISLER_RNOCIRQPROP : Z := 0x0ad.
Definition GAISLER_FTADDR : Z := 0x0ae.
Definition GAISLER_ATG : Z := 0x0b0.
Definition GAISLER_DFITRACE : Z := 0x0b1.
Definition GAISLER_SELFTEST : Z := 0x0b2.
Definition GAISLER_DFIERRINJ : Z := 0x0b3.
Definition GAISLER_DFICHECK : Z := 0x0b4.
Definition GAISLER_GRCANFD : Z := 0x0b5.
Definition GAISLER_NIM : Z := 0x0b6.
Definition GAISLER_GRSHYLOC : Z := 0x0b7.
Definition GAISLER_GRTACHOM : Z := 0x0b8.
Definition GAISLER_L5STAT : Z := 0x0b9.
Definition GAISLER_LEON5 : Z := 0x0ba.
Definition GAISLER_LEON5DSU : Z := 0x0bb.
Definition GAISLER_SPFI : Z := 0x0bc.
Definition GAISLER_RV64GC : Z := 0x0bd.
Definition GAISLER_RVDM : Z := 0x0be.
Definition GAISLER_FTMCTRL2 : Z := 0x0bf.
Definition GAISLER_GRDMAC2 : Z := 0x0c0.
Definition GAISLER_GRSCRUB : Z := 0x0c1.
Definition GAISLER_GRPLIC : Z := 0x0c2.
Definition GAISLER_CLINT : Z := 0x0c3.
Definition GAISLER_SOCBRIDGE : Z := 0x0c4.
Definition GAISLER_NANDFCTRL2 : Z := 0x0c5.
Definition GAISLER_DARE65THS : Z := 0x0c6.
Definition GAISLER_WIZL : Z := 0x0c7.
Definition GAISLER_HSSL : Z := 0x0c8.
Definition GAISLER_GRWATCHDOG : Z := 0x0c9.
Definition GAISLER_ETRACE : Z := 0x0ca.
Definition GAISLER_LEON5ADSU : Z := 0x0cb.
Definition GAISLER_LEON5DMAB : Z := 0x0cc.
Definition GAISLER_ACLINT : Z := 0x0cd.
Definition GAISLER_IMSIC : Z := 0x0ce.
Definition GAISLER_GRAPLIC : Z := 0x0cf.
Definition GAISLER_L2CL : Z := 0x0d0.
Definition GAISLER_L2CACHE_IO : Z := 0x0d1.
Definition GAISLER_AHB2AHB_STR : Z := 0x0d2.
Definition GAISLER_GRIOMMURV : Z := 0x0d3.
Definition ESA_LEON2 : Z := 0x002.
Definition ESA_LEON2APB : Z := 0x003.
Definition ESA_IRQ : Z := 0x005.
Definition ESA_TIMER : Z := 0x006.
Definition ESA_UART : Z := 0x007.
Definition ESA_CFG : Z := 0x008.
Definition ESA_IO : Z := 0x009.
Definition ESA_MCTRL : Z := 0x00f.
Definition ESA_PCIARB : Z := 0x010.
Definition ESA_HURRICANE : Z := 0x011.
Definition ESA_SPW_RMAP : Z := 0x012.
Definition ESA_AHBUART : Z := 0x013.
Definition ESA_SPWA : Z := 0x014.
Definition ESA_BOSCHCAN : Z := 0x015.
Definition ESA_IRQ2 : Z := 0x016.
Definition ESA_AHBSTAT : Z := 0x017.
Definition ESA_WPROT : Z := 0x018.
Definition ESA_WPROT2 : Z := 0x019.
Definition ESA_PDEC3AMBA : Z := 0x020.
Definition ESA_PTME3AMBA : Z := 0x021.
Definition AMB_VERSION : Z := 0x0.
