(* ===== verification/Amba.v ===== *)
(** * The plug-and-play tables and the memory map
      (src/src/peripherals/Amba.cpp, the board set-up of
      src/src/sparcv8_leon_smp.cpp)

    The guest finds its devices in two read-only tables.  The set-up attaches
    the banks and writes the tables; the theorem decodes them again and compares
    them with what the bridge and the devices do. *)
From S2P Require Import Prelude Mctrl Exec Irqmp Gptimer Uart Ps2 Apb AmbaIds.

Definition AMBA_TYPE_APBIO : Z := 0x1.
Definition AMBA_TYPE_MEM : Z := 0x2.
Definition AMBA_TYPE_AHBIO : Z := 0x3.
Definition AMB_VERSION_1 : Z := 0x1.

(** [(vendor << 24) | (device << 12) | (version << 5) | irq]. *)
Definition pnp_id (vendor device version irq : Z) : Z :=
  Z.lor (Z.lor (Z.lor (Z.shiftl vendor 24) (Z.shiftl device 12)) (Z.shiftl version 5)) (Z.land irq 0xf).
(** [(addr << 20) | (flags << 16) | (mask << 4) | type]. *)
Definition ahb_bar (addr flags mask type : Z) : Z :=
  Z.lor (Z.lor (Z.lor (Z.shiftl addr 20) (Z.shiftl flags 16)) (Z.shiftl mask 4)) type.
Definition apb_bar (addr : Z) : Z := Z.lor (Z.lor (Z.shiftl addr 20) (Z.shiftl 0xfff 4)) AMBA_TYPE_APBIO.

#[local] Open Scope M_scope.

Section setup.
Context {W : Type} `{DeviceBus W}.
Abbreviation MC := (M (mctrl W)).

Definition write_table (l : list (Z * Z)) : MC unit := for_each l (fun e => mc_write32 e.1 e.2 true).

Definition amba_ahb_pnp_setup : MC unit :=
  write_table
    [(0xfffff000, pnp_id VENDOR_GAISLER GAISLER_LEON3 AMB_VERSION 0);
     (0xfffff800, pnp_id VENDOR_GAISLER GAISLER_APBMST AMB_VERSION 0);
     (0xfffff810, ahb_bar 0x800 0x0 0xfff 2);
     (0xfffff820, pnp_id VENDOR_ESA ESA_MCTRL AMB_VERSION 0);
     (0xfffff830, ahb_bar 0x000 0x3 0xe00 2);
     (0xfffff834, ahb_bar 0x200 0x0 0xe00 2);
     (0xfffff838, ahb_bar 0x400 0x3 0xc00 2);
     (0xfffff840, pnp_id VENDOR_GAISLER GAISLER_GRPCI2 AMB_VERSION 0);
     (0xfffff850, ahb_bar 0x240 0x0 0xff0 AMBA_TYPE_MEM);
     (0xfffff854, ahb_bar 0xa00 0x0 0xe00 AMBA_TYPE_AHBIO)].

Definition amba_apb_pnp_setup (enable_vga : bool) : MC unit :=
  write_table
    [(0x800ff000, pnp_id VENDOR_ESA ESA_MCTRL AMB_VERSION 0); (0x800ff004, apb_bar 0x000);
     (0x800ff008, pnp_id VENDOR_GAISLER GAISLER_APBUART AMB_VERSION_1 0x4); (0x800ff00c, apb_bar 0x001);
     (0x800ff010, pnp_id VENDOR_GAISLER GAISLER_IRQMP AMB_VERSION 0); (0x800ff014, apb_bar 0x002);
     (0x800ff018, pnp_id VENDOR_GAISLER GAISLER_GPTIMER AMB_VERSION 0x8); (0x800ff01c, apb_bar 0x003);
     (0x800ff020, pnp_id VENDOR_GAISLER GAISLER_APBUART AMB_VERSION_1 0x3); (0x800ff024, apb_bar 0x009);
     (0x800ff028, pnp_id VENDOR_GAISLER GAISLER_GRPCI2 AMB_VERSION 0x2); (0x800ff02c, apb_bar 0x004)] ;;
  when enable_vga
    (write_table
       [(0x800ff030, pnp_id VENDOR_GAISLER GAISLER_SVGACTRL AMB_VERSION 0x9); (0x800ff034, apb_bar 0x005);
        (0x800ff038, pnp_id VENDOR_GAISLER GAISLER_APBPS2 AMB_VERSION 0x5); (0x800ff03c, apb_bar 0x006)]).

Definition ram_bank (base size : Z) : bank := RamBank base Big (mkBytes size ∅).
Definition rom_bank (base size : Z) : bank := RomBank base true Big (mkBytes size ∅).

(** The banks in the order the main program attaches them.  The device banks
    are the bridge, the two windows of the audio controller, and the PCI
    configuration area. *)
Definition attach_all (enable_vga : bool) : MC unit :=
  attach_bank (ram_bank 0x40000000 (128 * 1024 * 1024)) ;;
  when enable_vga (attach_bank (ram_bank 0x20000000 (5 * 1024 * 1024)) ;; ret tt) ;;
  attach_bank (rom_bank 0xffff0000 (64 * 1024)) ;;
  attach_bank (rom_bank 0x800ff000 (4 * 1024)) ;;
  amba_ahb_pnp_setup ;;
  amba_apb_pnp_setup enable_vga ;;
  attach_bank (DevBank 0 0x80000000 (1 * 1024 * 1024 - 0x2000) Big true) ;;
  attach_bank (ram_bank 0x24000000 0x800) ;;
  attach_bank (DevBank 2 0x24000800 0x100 Little true) ;;
  attach_bank (DevBank 3 0x24000900 0x100 Little true) ;;
  attach_bank (DevBank 1 0xfffa0000 (128 * 1024) Big false) ;;
  ret tt.

(** [APBCTRL::add_slave]: the slave is added to the bridge's list and announced
    in the table; nothing calls it, and nothing reads the list. *)
Definition add_slave {S} (vendor_id device_id : S -> Z) (slave : S) (apb_pnp_base device_addr irq : Z) :
    M (list S * mctrl W) unit :=
  modify (fun p => (p.1 ++ [slave], p.2)) ;;
  let device_addr_base := Z.land (Z.shiftr device_addr 8) 0xff in
  zoom snd (fun m p => (p.1, m))
    (write_table
       [(apb_pnp_base, u32 (pnp_id (vendor_id slave) (device_id slave) AMB_VERSION irq));
        (u32 (apb_pnp_base + 4), apb_bar device_addr_base)]).
End setup.

(** ** What the guest finds *)

(** A controller as constructed. *)
Definition fresh_mctrl {W} (w : W) : mctrl W := mkMctrl [] 1 1 (mkBankCache 0 0 None 0 0) w.

(** An entry of the APB table: vendor, device, interrupt and slot. *)
Definition apb_entry {W} `{DeviceBus W} (m : mctrl W) (k : Z) : option (Z * Z * Z * Z) :=
  match (mc_read32 (0x800ff000 + 8 * k) true m).1, (mc_read32 (0x800ff004 + 8 * k) true m).1 with
  | Val id, Val bar => Some (Z.shiftr id 24, Z.land (Z.shiftr id 12) 0xfff, Z.land id 0xf, Z.shiftr bar 20)
  | _, _ => None
  end.

Definition apb_table (enable_vga : bool) : list (Z * Z * Z * Z) :=
  [(VENDOR_ESA, ESA_MCTRL, 0, 0); (VENDOR_GAISLER, GAISLER_APBUART, 4, 1); (VENDOR_GAISLER, GAISLER_IRQMP, 0, 2);
   (VENDOR_GAISLER, GAISLER_GPTIMER, 8, 3); (VENDOR_GAISLER, GAISLER_APBUART, 3, 9);
   (VENDOR_GAISLER, GAISLER_GRPCI2, 2, 4)] ++
  if enable_vga then [(VENDOR_GAISLER, GAISLER_SVGACTRL, 9, 5); (VENDOR_GAISLER, GAISLER_APBPS2, 5, 6)] else [].

Section table.
Context {W : Type} `{DeviceBus W}.

Lemma table_written vga (w : W) :
  let r := attach_all vga (fresh_mctrl w) in
  r.1 = Val tt /\ map (apb_entry r.2) (map Z.of_nat (seq 0 (length (apb_table vga)))) = map Some (apb_table vga).
Proof. destruct vga; vm_compute; done. Qed.
End table.

(** The read handler of the slave an entry names. *)
Section bridge_table.
Context {P V : Type} `{ApbSlave P} `{DisplaySlave V (apb P V)}.
Abbreviation MA := (M (apb P V)).

Definition named_slave (e : Z * Z * Z * Z) (reg : Z) : MA Z :=
  let '(_, device, irq, _) := e in
  if device =? ESA_MCTRL then v ← gets (fun a => read32_be 0 (apb_mem a) reg); or_ub v
  else if device =? GAISLER_APBUART then
    if irq =? 4 then a_uart (on_uart (uart_read reg)) else a_uart9 (on_uart (uart_read reg))
  else if device =? GAISLER_IRQMP then a_irq (irqmp_read reg)
  else if device =? GAISLER_GPTIMER then gets (fun a => gptimer_read reg (apb_timer a))
  else if device =? GAISLER_GRPCI2 then a_pci (slv_read reg)
  else if device =? GAISLER_SVGACTRL then a_svga (vga_read reg)
  else a_ps2 (on_ps2 (ps2_read reg)).

Lemma apb_address slot reg :
  0 <= slot < 16 -> 0 <= reg < 256 ->
  Z.shiftr (Z.land (0x80000000 + slot * 0x100 + reg) 0xfff00) 8 = slot /\
  Z.land (0x80000000 + slot * 0x100 + reg) 0x0ff = reg.
Proof.
  intros Hs Hr. change 0xff with (Z.ones 8). rewrite Z.land_ones by lia.
  change 0xfff00 with (Z.ldiff (Z.ones 20) (Z.ones 8)). rewrite Z.ldiff_land, Z.land_assoc, <- Z.ldiff_land.
  rewrite Z.ldiff_ones_r, Z.land_ones, !Z.shiftr_div_pow2, Z.shiftl_mul_pow2 by lia.
  change (2 ^ 20) with 1048576. change (2 ^ 8) with 256. Z.div_mod_to_equations. lia.
Qed.

Lemma named_slave_read e reg (a : apb P V) vga :
  e ∈ apb_table vga -> 0 <= reg < 256 -> apb_base a = 0x80000000 -> apb_size a = 1 * 1024 * 1024 - 0x2000 ->
  apb_read32 (0x80000000 + e.2 * 0x100 + reg) a = named_slave e reg a.
Proof.
  intros He Hr Hb Hs.
  assert (0 <= e.2 < 16) as Hslot.
  { destruct vga; repeat (apply elem_of_cons in He as [->|He]; [cbn; lia|]); by apply not_elem_of_nil in He. }
  destruct (apb_address e.2 reg Hslot Hr) as [E1 E2]. unfold apb_read32.
  rewrite (bindM_val _ _ _ tt a).
  - cbv zeta. rewrite E1, E2.
    destruct vga; repeat (apply elem_of_cons in He as [->|He]; [done|]); by apply not_elem_of_nil in He.
  - unfold check_range. mstep. unfold id. rewrite Hb, Hs, (proj2 (Z.leb_le _ _)), (proj2 (Z.ltb_lt _ _)) by lia. done.
Qed.

(** The ticks the bus clock advances the timer by before it looks at the UART. *)
Definition bus_batch (target div remaining : Z) : Z := Z.min remaining (target - div).

Lemma bus_batch_eq target div remaining :
  (if remaining <? target - div then remaining else target - div) = bus_batch target div remaining.
Proof. unfold bus_batch. destruct (Z.ltb_spec remaining (target - div)); lia. Qed.

(** The interrupt the table announces for the timer is the one the bus clock
    raises when the timer fires, and the one it announces for the UART of slot
    1 the one it raises when the poll of the UART finds its condition. *)
Lemma announced_is_raised vga irq slot target div remaining (a : apb P V) :
  let batch := bus_batch target div remaining in
  let fired := advance_unlocked batch true (apb_timer a) in
  let a1 := a <| apb_timer := fired.2 |> in
  ((VENDOR_GAISLER, GAISLER_GPTIMER, irq, slot) ∈ apb_table vga -> fired.1 = true -> div + batch < target ->
   apb_irq (bus_step target div remaining a).2 = (trigger_irq irq (apb_irq a)).2) /\
  ((VENDOR_GAISLER, GAISLER_APBUART, irq, slot) ∈ apb_table vga -> slot = 1 -> fired.1 = false -> target <= div + batch ->
   forall a2, (a_uart tick_scheduled ;; a_uart (on_uart check_irq))%M a1 = (Val true, a2) ->
   apb_irq (bus_step target div remaining a).2 = (trigger_irq irq (apb_irq a2)).2).
Proof.
  cbv zeta. unfold bus_step. cbv zeta. rewrite bus_batch_eq. set (batch := bus_batch target div remaining).
  destruct (advance_unlocked batch true (apb_timer a)) as [f tm] eqn:E. cbn [fst snd].
  assert (((let '(f, t) := advance_unlocked batch true (apb_timer a) in (Val f, a <| apb_timer := t |>)) :
    res bool * apb P V) = (Val f, a <| apb_timer := tm |>)) as E' by (by rewrite E).
  split; intros He.
  - intros -> Hlt. assert (irq = 8) as ->.
    { destruct vga; repeat (apply elem_of_cons in He as [He|He]; [by simplify_eq|]); by apply not_elem_of_nil in He. }
    unfold bindM at 1. rewrite E'. cbn [when]. rewrite (proj2 (Z.leb_gt _ _)) by lia. unfold bindM, a_irq, zoom.
    cbn [apb_irq set_field_of set_apb_timer]. destruct (trigger_irq 8 (apb_irq a)) as [[] q]; done.
  - intros -> -> Hle a2 E2. assert (irq = 4) as ->.
    { destruct vga; repeat (apply elem_of_cons in He as [He|He]; [by simplify_eq|]); by apply not_elem_of_nil in He. }
    unfold bindM at 1. rewrite E'. cbn [when]. rewrite (bindM_val (ret tt) _ _ tt (a <| apb_timer := tm |>)) by done.
    rewrite (proj2 (Z.leb_le _ _)) by lia. apply bindM_inv_val in E2 as ([] & a3 & E3 & E4).
    rewrite (bindM_val _ _ _ _ _ E3), (bindM_val _ _ _ _ _ E4). cbn [when]. unfold bindM, a_irq, zoom.
    destruct (trigger_irq 4 (apb_irq a2)) as [[] q]; done.
Qed.
End bridge_table.

(** C37. The set-up of the board succeeds (no two banks overlap), and the guest
    can find its devices: reading the APB table back gives, in order, each
    slave with its interrupt and slot; a word read at the slot of an entry
    reaches exactly the device the entry names; and the interrupts announced
    for the timer and for the first UART are the ones the bus clock raises for
    them. (Two comments of Amba.cpp place the second UART and the PCI bridge at
    other entries of the table than the code writes; the code is what is
    modelled.) *)
Theorem devices_found {W P V} `{DeviceBus W} `{ApbSlave P} `{DisplaySlave V (apb P V)} vga (w : W) (a : apb P V) :
  apb_base a = 0x80000000 -> apb_size a = 1 * 1024 * 1024 - 0x2000 ->
  exists m, attach_all vga (fresh_mctrl w) = (Val tt, m) /\
    (forall k e, apb_table vga !! k = Some e ->
      apb_entry m (Z.of_nat k) = Some e /\
      forall reg, 0 <= reg < 256 -> apb_read32 (0x80000000 + e.2 * 0x100 + reg) a = named_slave e reg a) /\
    forall k irq target div remaining,
      let batch := bus_batch target div remaining in
      let fired := advance_unlocked batch true (apb_timer a) in
      (apb_entry m k = Some (VENDOR_GAISLER, GAISLER_GPTIMER, irq, 3) -> 0 <= k < Z.of_nat (length (apb_table vga)) ->
       fired.1 = true -> div + batch < target ->
       apb_irq (bus_step target div remaining a).2 = (trigger_irq irq (apb_irq a)).2) /\
      (apb_entry m k = Some (VENDOR_GAISLER, GAISLER_APBUART, irq, 1) -> 0 <= k < Z.of_nat (length (apb_table vga)) ->
       fired.1 = false -> target <= div + batch ->
       forall a2, (a_uart tick_scheduled ;; a_uart (on_uart check_irq))%M (a <| apb_timer := fired.2 |>) = (Val true, a2) ->
       apb_irq (bus_step target div remaining a).2 = (trigger_irq irq (apb_irq a2)).2).
Proof.
  intros Hb Hs. destruct (table_written vga w) as [E1 E2].
  destruct (attach_all vga (fresh_mctrl w)) as [r m]. cbn [fst snd] in E1, E2. subst r. exists m. split; [done|].
  assert (forall k e, apb_table vga !! k = Some e -> apb_entry m (Z.of_nat k) = Some e) as Hread.
  { intros k e Hk. assert (k < length (apb_table vga))%nat as Hlt by (by eapply lookup_lt_Some).
    apply (f_equal (fun l => l !! k)) in E2. rewrite !list_lookup_fmap, lookup_seq_lt, Hk in E2 by done. by injection E2. }
  assert (forall k e, apb_entry m k = Some e -> 0 <= k < Z.of_nat (length (apb_table vga)) -> e ∈ apb_table vga) as Hin.
  { intros k e He Hk. destruct (lookup_lt_is_Some_2 (apb_table vga) (Z.to_nat k)) as [e' Hk']; [lia|].
    pose proof (Hread _ _ Hk') as Hr. rewrite Z2Nat.id, He in Hr by lia. injection Hr as ->. by eapply list_elem_of_lookup_2. }
  split.
  - intros k e Hk. split; [by apply Hread|].
    intros reg Hr. apply (named_slave_read e reg a vga); [by eapply list_elem_of_lookup_2|done..].
  - intros k irq target div remaining. split; intros He Hk.
    + by apply (announced_is_raised vga irq 3), Hin with (k := k).
    + by apply (announced_is_raised vga irq 1); [apply Hin with (k := k)|].
Qed.

Lemma devices_found_witness :
  exists m, attach_all (H:=no_devices) true (fresh_mctrl tt) = (Val tt, m) /\
    apb_entry (H:=no_devices) m 3 = Some (VENDOR_GAISLER, GAISLER_GPTIMER, 8, 3).
Proof.
  destruct (devices_found (H:=no_devices) (H0:={| slv_read _ := ret 0; slv_write _ _ := ret tt |})
    (H1:={| vga_read _ := ret 0; vga_write _ _ := ret tt |}) true tt
    (APBCTRL_new 0x80000000 (console_new []) (irqmp_init 1) false false false false tt tt)) as (m & E & Hk & _); [done..|].
  exists m. split; [done|]. by apply (Hk 3%nat).
Defined.

#[local] Existing Instance no_devices.
(** A slave that is added is found in the table by the guest. *)
Example add_slave_listed :
  let m := (attach_bank (rom_bank 0x800ff000 0x1000) (fresh_mctrl tt)).2 in
  let r := add_slave fst snd (VENDOR_GAISLER, GAISLER_APBPS2) 0x800ff008 0x80000600 5 ([], m) in
  r.1 = Val tt /\ r.2.1 = [(VENDOR_GAISLER, GAISLER_APBPS2)] /\
  apb_entry r.2.2 1 = Some (VENDOR_GAISLER, GAISLER_APBPS2, 5, 6).
Proof. by vm_compute. Qed.
