(* ===== verification/AmbaDump.v ===== *)
(** * The plug-and-play dump (src/src/peripherals/amba_pnp_dump.hpp, with the
      macros of gaisler/ambapp.h)

    The dump reads the tables of a bus through a read function and prints a
    description of every slot in use.  A [printf] is modelled by the values it
    prints. *)
From S2P Require Import Prelude Mctrl Exec Irqmp Gptimer Uart Ps2 Apb AmbaIds Amba.

#[local] Open Scope Z_scope.

(** ** The macros that take an entry apart *)

Definition AMBA_DEFAULT_IOAREA : Z := 0xfff00000.
Definition ambapp_pnp_vendor (id : Z) : Z := Z.land (Z.shiftr id 24) 0xff.
Definition ambapp_pnp_device (id : Z) : Z := Z.land (Z.shiftr id 12) 0xfff.
Definition ambapp_pnp_ver (id : Z) : Z := Z.land (Z.shiftr id 5) 0x1f.
Definition ambapp_pnp_irq (id : Z) : Z := Z.land id 0x1f.
Definition ambapp_pnp_mbar_start (mbar : Z) : Z := Z.land (Z.land mbar 0xfff00000) (shl32 (Z.land mbar 0xfff0) 16).
Definition ambapp_pnp_mbar_mask (mbar : Z) : Z := Z.land (Z.shiftr mbar 4) 0xfff.
Definition ambapp_pnp_mbar_type (mbar : Z) : Z := Z.land mbar 0xf.
Definition ambapp_pnp_ahbio_adr (addr base_ioarea : Z) : Z := Z.lor base_ioarea (Z.shiftr addr 12).
Definition ambapp_pnp_apb_start (iobar base : Z) : Z :=
  Z.lor base (Z.land (Z.shiftr (Z.land iobar 0xfff00000) 12) (Z.shiftl (Z.land iobar 0xfff0) 4)).
Definition ambapp_pnp_apb_mask (iobar : Z) : Z :=
  u32 (Z.land (not32 (Z.shiftl (ambapp_pnp_mbar_mask iobar) 8)) 0x000fffff + 1).

(** ** Names *)

Record AmbaIdName := mkAmbaIdName { an_vendor : Z; an_device : Z; an_name : string }.

(** The rows of the table for the first vendor, in two parts. *)
Definition gaisler_names_1 : list AmbaIdName :=
  [mkAmbaIdName VENDOR_GAISLER GAISLER_LEON2DSU "LEON2DSU - LEON2 Debug Support Unit";
   mkAmbaIdName VENDOR_GAISLER GAISLER_LEON3 "LEON3 - LEON3 SPARC V8 Processor";
   mkAmbaIdName VENDOR_GAISLER GAISLER_LEON3DSU "LEON3DSU - LEON3 Debug Support Unit";
   mkAmbaIdName VENDOR_GAISLER GAISLER_ETHAHB "ETHAHB - OC ethernet AHB interface";
   mkAmbaIdName VENDOR_GAISLER GAISLER_APBMST "APBMST - AHB/APB Bridge";
   mkAmbaIdName VENDOR_GAISLER GAISLER_AHBUART "AHBUART - AHB Debug UART";
   mkAmbaIdName VENDOR_GAISLER GAISLER_SRCTRL "SRCTRL - Simple SRAM Controller";
   mkAmbaIdName VENDOR_GAISLER GAISLER_SDCTRL "SDCTRL - PC133 SDRAM Controller";
   mkAmbaIdName VENDOR_GAISLER GAISLER_SSRCTRL "SSRCTRL - Synchronous SRAM Controller";
   mkAmbaIdName VENDOR_GAISLER GAISLER_I2C2AHB "I2C2AHB - I2C to AHB Bridge";
   mkAmbaIdName VENDOR_GAISLER GAISLER_APBUART "APBUART - Generic UART";
   mkAmbaIdName VENDOR_GAISLER GAISLER_IRQMP "IRQMP - Multi-processor Interrupt Ctrl.";
   mkAmbaIdName VENDOR_GAISLER GAISLER_AHBRAM "AHBRAM - Single-port AHB SRAM module";
   mkAmbaIdName VENDOR_GAISLER GAISLER_AHBDPRAM "AHBDPRAM - Dual-port AHB SRAM module";
   mkAmbaIdName VENDOR_GAISLER GAISLER_GRIOMMU2 "GRIOMMU2 - IOMMU secondary master i/f";
   mkAmbaIdName VENDOR_GAISLER GAISLER_GPTIMER "GPTIMER - Modular Timer Unit";
   mkAmbaIdName VENDOR_GAISLER GAISLER_PCITRG "PCITRG - Simple 32-bit PCI Target";
   mkAmbaIdName VENDOR_GAISLER GAISLER_PCISBRG "PCISBRG - Simple 32-bit PCI Bridge";
   mkAmbaIdName VENDOR_GAISLER GAISLER_PCIFBRG "PCIFBRG - Fast 32-bit PCI Bridge";
   mkAmbaIdName VENDOR_GAISLER GAISLER_PCITRACE "PCITRACE - 32-bit PCI Trace Buffer";
   mkAmbaIdName VENDOR_GAISLER GAISLER_DMACTRL "DMACTRL - PCI/AHB DMA controller";
   mkAmbaIdName VENDOR_GAISLER GAISLER_AHBTRACE "AHBTRACE - AMBA Trace Buffer";
   mkAmbaIdName VENDOR_GAISLER GAISLER_DSUCTRL "DSUCTRL - DSU/ETH controller";
   mkAmbaIdName VENDOR_GAISLER GAISLER_CANAHB "CANAHB - OC CAN AHB interface";
   mkAmbaIdName VENDOR_GAISLER GAISLER_GPIO "GPIO - General Purpose I/O port";
   mkAmbaIdName VENDOR_GAISLER GAISLER_AHBROM "AHBROM - Generic AHB ROM";
   mkAmbaIdName VENDOR_GAISLER GAISLER_AHBJTAG "AHBJTAG - JTAG Debug Link";
   mkAmbaIdName VENDOR_GAISLER GAISLER_ETHMAC "ETHMAC - GR Ethernet MAC";
   mkAmbaIdName VENDOR_GAISLER GAISLER_SWNODE "SWNODE - SpaceWire Node Interface";
   mkAmbaIdName VENDOR_GAISLER GAISLER_SPW "SPW - SpaceWire Serial Link";
   mkAmbaIdName VENDOR_GAISLER GAISLER_AHB2AHB "AHB2AHB - AHB-to-AHB Bridge";
   mkAmbaIdName VENDOR_GAISLER GAISLER_USBDC "USBDC - GR USB 2.0 Device Controller";
   mkAmbaIdName VENDOR_GAISLER GAISLER_USB_DCL "USB_DCL - USB Debug Communication Link";
   mkAmbaIdName VENDOR_GAISLER GAISLER_DDRMP "DDRMP - Multi-port DDR controller";
   mkAmbaIdName VENDOR_GAISLER GAISLER_ATACTRL "ATACTRL - ATA controller";
   mkAmbaIdName VENDOR_GAISLER GAISLER_DDRSP "DDRSP - Single-port DDR266 controller";
   mkAmbaIdName VENDOR_GAISLER GAISLER_EHCI "EHCI - USB Enhanced Host Controller";
   mkAmbaIdName VENDOR_GAISLER GAISLER_UHCI "UHCI - USB Universal Host Controller";
   mkAmbaIdName VENDOR_GAISLER GAISLER_I2CMST "I2CMST - AMBA Wrapper for OC I2C-master";
   mkAmbaIdName VENDOR_GAISLER GAISLER_SPW2 "SPW2 - GRSPW2 SpaceWire Serial Link";
   mkAmbaIdName VENDOR_GAISLER GAISLER_AHBDMA "AHBDMA - Simple AHB DMA controller";
   mkAmbaIdName VENDOR_GAISLER GAISLER_NUHOSP3 "NUHOSP3 - Nuhorizons Spartan3 IO I/F";
   mkAmbaIdName VENDOR_GAISLER GAISLER_CLKGATE "CLKGATE - Clock gating unit";
   mkAmbaIdName VENDOR_GAISLER GAISLER_SPICTRL "SPICTRL - SPI Controller";
   mkAmbaIdName VENDOR_GAISLER GAISLER_DDR2SP "DDR2SP - Single-port DDR2 controller";
   mkAmbaIdName VENDOR_GAISLER GAISLER_SLINK "SLINK - SLINK Master";
   mkAmbaIdName VENDOR_GAISLER GAISLER_GRTM "GRTM - CCSDS Telemetry Encoder";
   mkAmbaIdName VENDOR_GAISLER GAISLER_GRTC "GRTC - CCSDS Telecommand Decoder";
   mkAmbaIdName VENDOR_GAISLER GAISLER_GRPW "GRPW - PacketWire to AMBA AHB I/F";
   mkAmbaIdName VENDOR_GAISLER GAISLER_GRCTM "GRCTM - CCSDS Time Manager";
   mkAmbaIdName VENDOR_GAISLER GAISLER_GRHCAN "GRHCAN - ESA HurriCANe CAN with DMA";
   mkAmbaIdName VENDOR_GAISLER GAISLER_GRFIFO "GRFIFO - FIFO Controller";
   mkAmbaIdName VENDOR_GAISLER GAISLER_GRADCDAC "GRADCDAC - ADC / DAC Interface";
   mkAmbaIdName VENDOR_GAISLER GAISLER_GRPULSE "GRPULSE - General Purpose I/O with Pulses";
   mkAmbaIdName VENDOR_GAISLER GAISLER_GRTIMER "GRTIMER - Timer Unit with Latches";
   mkAmbaIdName VENDOR_GAISLER GAISLER_AHB2PP "AHB2PP - AMBA AHB to Packet Parallel I/F";
   mkAmbaIdName VENDOR_GAISLER GAISLER_GRVERSION "GRVERSION - Version and Revision Register";
   mkAmbaIdName VENDOR_GAISLER GAISLER_APB2PW "APB2PW - PacketWire Transmit Interface";
   mkAmbaIdName VENDOR_GAISLER GAISLER_PW2APB "PW2APB - PacketWire Receive Interface";
   mkAmbaIdName VENDOR_GAISLER GAISLER_GRCAN "GRCAN - CAN Controller with DMA";
   mkAmbaIdName VENDOR_GAISLER GAISLER_I2CSLV "I2CSLV - I2C Slave";
   mkAmbaIdName VENDOR_GAISLER GAISLER_U16550 "U16550 - Simple 16550 UART";
   mkAmbaIdName VENDOR_GAISLER GAISLER_AHBMST_EM "AHBMST_EM - AMBA Master Emulator";
   mkAmbaIdName VENDOR_GAISLER GAISLER_AHBSLV_EM "AHBSLV_EM - AMBA Slave Emulator";
   mkAmbaIdName VENDOR_GAISLER GAISLER_GRTESTMOD "GRTESTMOD - Test report module";
   mkAmbaIdName VENDOR_GAISLER GAISLER_ASCS "ASCS - ASCS Master";
   mkAmbaIdName VENDOR_GAISLER GAISLER_IPMVBCTRL "IPMVBCTRL - IPM-bus/MVBC memory controller";
   mkAmbaIdName VENDOR_GAISLER GAISLER_SPIMCTRL "SPIMCTRL - SPI Memory Controller";
   mkAmbaIdName VENDOR_GAISLER GAISLER_L4STAT "L4STAT - LEON4 Statistics Unit";
   mkAmbaIdName VENDOR_GAISLER GAISLER_LEON4 "LEON4 - LEON4 SPARC V8 Processor";
   mkAmbaIdName VENDOR_GAISLER GAISLER_LEON4DSU "LEON4DSU - LEON4 Debug Support Unit";
   mkAmbaIdName VENDOR_GAISLER GAISLER_PWM "PWM - PWM generator";
   mkAmbaIdName VENDOR_GAISLER GAISLER_L2CACHE "L2CACHE - L2-Cache Controller";
   mkAmbaIdName VENDOR_GAISLER GAISLER_SDCTRL64 "SDCTRL64 - 64-bit PC133 SDRAM Controller";
   mkAmbaIdName VENDOR_GAISLER GAISLER_GR1553B "GR1553B - MIL-STD-1553B Interface";
   mkAmbaIdName VENDOR_GAISLER GAISLER_1553TST "1553TST - MIL-STD-1553B Test Device";
   mkAmbaIdName VENDOR_GAISLER GAISLER_GRIOMMU "GRIOMMU - IO Memory Management Unit";
   mkAmbaIdName VENDOR_GAISLER GAISLER_FTAHBRAM "FTAHBRAM - Generic FT AHB SRAM module";
   mkAmbaIdName VENDOR_GAISLER GAISLER_FTSRCTRL "FTSRCTRL - Simple FT SRAM Controller";
   mkAmbaIdName VENDOR_GAISLER GAISLER_AHBSTAT "AHBSTAT - AHB Status Register";
   mkAmbaIdName VENDOR_GAISLER GAISLER_LEON3FT "LEON3FT - LEON3FT SPARC V8 Processor";
   mkAmbaIdName VENDOR_GAISLER GAISLER_FTMCTRL "FTMCTRL - Memory controller with EDAC";
   mkAmbaIdName VENDOR_GAISLER GAISLER_FTSDCTRL "FTSDCTRL - FT PC133 SDRAM Controller";
   mkAmbaIdName VENDOR_GAISLER GAISLER_FTSRCTRL8 "FTSRCTRL8 - FT 8-bit SRAM/16-bit IO Ctrl";
   mkAmbaIdName VENDOR_GAISLER GAISLER_MEMSCRUB "MEMSCRUB - AHB Memory Scrubber";
   mkAmbaIdName VENDOR_GAISLER GAISLER_FTSDCTRL64 "FTSDCTRL64 - 64-bit FT SDRAM Controller";
   mkAmbaIdName VENDOR_GAISLER GAISLER_NANDFCTRL "NANDFCTRL - NAND Flash Controller";
   mkAmbaIdName VENDOR_GAISLER GAISLER_N2DLLCTRL "N2DLLCTRL - N2X DLL Dynamic Config. i/f";
   mkAmbaIdName VENDOR_GAISLER GAISLER_N2PLLCTRL "N2PLLCTRL - N2X PLL Dynamic Config. i/f";
   mkAmbaIdName VENDOR_GAISLER GAISLER_SPI2AHB "SPI2AHB - SPI to AHB Bridge";
   mkAmbaIdName VENDOR_GAISLER GAISLER_DDRSDMUX "DDRSDMUX - Muxed FT DDR/SDRAM controller";
   mkAmbaIdName VENDOR_GAISLER GAISLER_AHBFROM "AHBFROM - Flash ROM Memory";
   mkAmbaIdName VENDOR_GAISLER GAISLER_PCIEXP "PCIEXP - Xilinx PCI EXPRESS Wrapper";
   mkAmbaIdName VENDOR_GAISLER GAISLER_APBPS2 "APBPS2 - PS2 interface";
   mkAmbaIdName VENDOR_GAISLER GAISLER_VGACTRL "VGACTRL - VGA controller";
   mkAmbaIdName VENDOR_GAISLER GAISLER_LOGAN "LOGAN - On chip Logic Analyzer";
   mkAmbaIdName VENDOR_GAISLER GAISLER_SVGACTRL "SVGACTRL - SVGA frame buffer";
   mkAmbaIdName VENDOR_GAISLER GAISLER_T1AHB "T1AHB - Niagara T1 PCX/AHB bridge";
   mkAmbaIdName VENDOR_GAISLER GAISLER_MP7WRAP "MP7WRAP - CoreMP7 wrapper";
   mkAmbaIdName VENDOR_GAISLER GAISLER_GRSYSMON "GRSYSMON - AMBA wrapper for System Monitor"].

(** The second part. *)
Definition gaisler_names_2 : list AmbaIdName :=
  [mkAmbaIdName VENDOR_GAISLER GAISLER_GRACECTRL "GRACECTRL - System ACE I/F Controller";
   mkAmbaIdName VENDOR_GAISLER GAISLER_ATAHBSLV "ATAHBSLV - AMBA Test Framework AHB Slave";
   mkAmbaIdName VENDOR_GAISLER GAISLER_ATAHBMST "ATAHBMST - AMBA Test Framework AHB Master";
   mkAmbaIdName VENDOR_GAISLER GAISLER_ATAPBSLV "ATAPBSLV - AMBA Test Framework APB Slave";
   mkAmbaIdName VENDOR_GAISLER GAISLER_MIGDDR2 "MIGDDR2 - Xilinx MIG DDR2 Controller";
   mkAmbaIdName VENDOR_GAISLER GAISLER_LCDCTRL "LCDCTRL - LCD Controller";
   mkAmbaIdName VENDOR_GAISLER GAISLER_SWITCHOVER "SWITCHOVER - Switchover Logic";
   mkAmbaIdName VENDOR_GAISLER GAISLER_FIFOUART "FIFOUART - UART with large FIFO";
   mkAmbaIdName VENDOR_GAISLER GAISLER_MUXCTRL "MUXCTRL - Analogue multiplexer control";
   mkAmbaIdName VENDOR_GAISLER GAISLER_B1553BC "B1553BC - AMBA Wrapper for Core1553BBC";
   mkAmbaIdName VENDOR_GAISLER GAISLER_B1553RT "B1553RT - AMBA Wrapper for Core1553BRT";
   mkAmbaIdName VENDOR_GAISLER GAISLER_B1553BRM "B1553BRM - AMBA Wrapper for Core1553BRM";
   mkAmbaIdName VENDOR_GAISLER GAISLER_AES "AES - Advanced Encryption Standard";
   mkAmbaIdName VENDOR_GAISLER GAISLER_ECC "ECC - Elliptic Curve Cryptography";
   mkAmbaIdName VENDOR_GAISLER GAISLER_PCIF "PCIF - AMBA Wrapper for CorePCIF";
   mkAmbaIdName VENDOR_GAISLER GAISLER_CLKMOD "CLKMOD - CPU Clock Switching Ctrl module";
   mkAmbaIdName VENDOR_GAISLER GAISLER_HAPSTRAK "HAPSTRAK - HAPS HapsTrak I/O Port";
   mkAmbaIdName VENDOR_GAISLER GAISLER_TEST_1X2 "TEST_1X2 - HAPS TEST_1x2 interface";
   mkAmbaIdName VENDOR_GAISLER GAISLER_WILD2AHB "WILD2AHB - WildCard CardBus interface";
   mkAmbaIdName VENDOR_GAISLER GAISLER_BIO1 "BIO1 - Basic I/O board BIO1";
   mkAmbaIdName VENDOR_GAISLER GAISLER_AESDMA "AESDMA - AES 256 DMA";
   mkAmbaIdName VENDOR_GAISLER GAISLER_GRPCI2 "GRPCI2 - GRPCI2 PCI/AHB bridge";
   mkAmbaIdName VENDOR_GAISLER GAISLER_GRPCI2_DMA "GRPCI2_DMA - GRPCI2 DMA interface";
   mkAmbaIdName VENDOR_GAISLER GAISLER_GRPCI2_TB "GRPCI2_TB - GRPCI2 Trace buffer";
   mkAmbaIdName VENDOR_GAISLER GAISLER_MMA "MMA - Memory Mapped AMBA";
   mkAmbaIdName VENDOR_GAISLER GAISLER_SATCAN "SATCAN - SatCAN controller";
   mkAmbaIdName VENDOR_GAISLER GAISLER_CANMUX "CANMUX - CAN Bus multiplexer";
   mkAmbaIdName VENDOR_GAISLER GAISLER_GRTMRX "GRTMRX - CCSDS Telemetry Receiver";
   mkAmbaIdName VENDOR_GAISLER GAISLER_GRTCTX "GRTCTX - CCSDS Telecommand Transmitter";
   mkAmbaIdName VENDOR_GAISLER GAISLER_GRTMDESC "GRTMDESC - CCSDS Telemetry Descriptor";
   mkAmbaIdName VENDOR_GAISLER GAISLER_GRTMVC "GRTMVC - CCSDS Telemetry VC Generator";
   mkAmbaIdName VENDOR_GAISLER GAISLER_GEFFE "GEFFE - Geffe Generator";
   mkAmbaIdName VENDOR_GAISLER GAISLER_GPREG "GPREG - General Purpose Register";
   mkAmbaIdName VENDOR_GAISLER GAISLER_GRTMPAHB "GRTMPAHB - CCSDS Telemetry VC AHB Input";
   mkAmbaIdName VENDOR_GAISLER GAISLER_SPWCUC "SPWCUC - CCSDS CUC / SpaceWire I/F";
   mkAmbaIdName VENDOR_GAISLER GAISLER_SPW2_DMA "SPW2_DMA - GRSPW Router DMA interface";
   mkAmbaIdName VENDOR_GAISLER GAISLER_SPWROUTER "SPWROUTER - GRSPW Router";
   mkAmbaIdName VENDOR_GAISLER GAISLER_EDCLMST "EDCLMST - EDCL master interface";
   mkAmbaIdName VENDOR_GAISLER GAISLER_GRPWTX "GRPWTX - PacketWire Transmitter with DMA";
   mkAmbaIdName VENDOR_GAISLER GAISLER_GRPWRX "GRPWRX - PacketWire Receiver with DMA";
   mkAmbaIdName VENDOR_GAISLER GAISLER_GPREGBANK "GPREGBANK - General Purpose Register Bank";
   mkAmbaIdName VENDOR_GAISLER GAISLER_MIG_7SERIES "MIG_7SERIES - Xilinx MIG Controller";
   mkAmbaIdName VENDOR_GAISLER GAISLER_GRSPW2_SIST "GRSPW2_SIST - GRSPW Router SIST";
   mkAmbaIdName VENDOR_GAISLER GAISLER_SGMII "SGMII - XILINX SGMII Interface";
   mkAmbaIdName VENDOR_GAISLER GAISLER_RGMII "RGMII - Gaisler RGMII Interface";
   mkAmbaIdName VENDOR_GAISLER GAISLER_IRQGEN "IRQGEN - Interrupt generator";
   mkAmbaIdName VENDOR_GAISLER GAISLER_GRDMAC "GRDMAC - GRDMAC DMA Controller";
   mkAmbaIdName VENDOR_GAISLER GAISLER_AHB2AVLA "AHB2AVLA - Avalon-MM memory controller";
   mkAmbaIdName VENDOR_GAISLER GAISLER_SPWTDP "SPWTDP - CCSDS TDP / SpaceWire I/F";
   mkAmbaIdName VENDOR_GAISLER GAISLER_L3STAT "L3STAT - LEON3 Statistics Unit";
   mkAmbaIdName VENDOR_GAISLER GAISLER_GR740THS "GR740THS - Temperature sensor";
   mkAmbaIdName VENDOR_GAISLER GAISLER_GRRM "GRRM - Reconfiguration Module";
   mkAmbaIdName VENDOR_GAISLER GAISLER_CMAP "CMAP - CCSDS Memory Access Protocol";
   mkAmbaIdName VENDOR_GAISLER GAISLER_CPGEN "CPGEN - Discrete Command Pulse Gen";
   mkAmbaIdName VENDOR_GAISLER GAISLER_AMBAPROT "AMBAPROT - AMBA Protection Unit";
   mkAmbaIdName VENDOR_GAISLER GAISLER_IGLOO2_BRIDGE "IGLOO2_BRIDGE - Microsemi SF2/IGLOO2 MSS/HPMS";
   mkAmbaIdName VENDOR_GAISLER GAISLER_AHB2AXI "AHB2AXI - AMBA AHB/AXI Bridge";
   mkAmbaIdName VENDOR_GAISLER GAISLER_AXI2AHB "AXI2AHB - AMBA AXI/AHB Bridge";
   mkAmbaIdName VENDOR_GAISLER GAISLER_FDIR_RSTCTRL "FDIR_RSTCTRL - FDIR Reset Controller";
   mkAmbaIdName VENDOR_GAISLER GAISLER_APB3MST "APB3MST - AHB/APB3 Bridge";
   mkAmbaIdName VENDOR_GAISLER GAISLER_LRAM "LRAM - Dual-port AHB(/CPU) On-Chip RAM";
   mkAmbaIdName VENDOR_GAISLER GAISLER_BOOTSEQ "BOOTSEQ - Custom AHB sequencer";
   mkAmbaIdName VENDOR_GAISLER GAISLER_TCCOP "TCCOP - CCSDS Telecommand Decoder (COP)";
   mkAmbaIdName VENDOR_GAISLER GAISLER_SPIMASTER "SPIMASTER - Simple SPI Master";
   mkAmbaIdName VENDOR_GAISLER GAISLER_SPISLAVE "SPISLAVE - Dual-port SPI Slave";
   mkAmbaIdName VENDOR_GAISLER GAISLER_GRSRIO "GRSRIO - Serial RapidIO Logical Layer";
   mkAmbaIdName VENDOR_GAISLER GAISLER_AHBLM2AHB "AHBLM2AHB - AHB-Lite master to AHB master";
   mkAmbaIdName VENDOR_GAISLER GAISLER_AHBS2NOC "AHBS2NOC - AHB slave to NoC";
   mkAmbaIdName VENDOR_GAISLER GAISLER_TCAU "TCAU - Authentication Unit";
   mkAmbaIdName VENDOR_GAISLER GAISLER_GRTMDYNVCID "GRTMDYNVCID - CCSDS Telemetry Dynamic VCID";
   mkAmbaIdName VENDOR_GAISLER GAISLER_RNOCIRQPROP "RNOCIRQPROP - RNoC Interrupt propagator";
   mkAmbaIdName VENDOR_GAISLER GAISLER_FTADDR "FTADDR - DDR2/DDR3 controller with EDAC";
   mkAmbaIdName VENDOR_GAISLER GAISLER_ATG "ATG - AMBA2 Test Pattern Generator";
   mkAmbaIdName VENDOR_GAISLER GAISLER_DFITRACE "DFITRACE - DFI2.1 Trace Buffer";
   mkAmbaIdName VENDOR_GAISLER GAISLER_SELFTEST "SELFTEST - TV selftest module";
   mkAmbaIdName VENDOR_GAISLER GAISLER_DFIERRINJ "DFIERRINJ - DFI error injection module";
   mkAmbaIdName VENDOR_GAISLER GAISLER_DFICHECK "DFICHECK - DFI timing check module";
   mkAmbaIdName VENDOR_GAISLER GAISLER_GRCANFD "GRCANFD - CAN-FD Controller with DMA";
   mkAmbaIdName VENDOR_GAISLER GAISLER_NIM "NIM - Synchronous serial interface";
   mkAmbaIdName VENDOR_GAISLER GAISLER_GRSHYLOC "GRSHYLOC - SHYLOC Compressor with DMA";
   mkAmbaIdName VENDOR_GAISLER GAISLER_GRTACHOM "GRTACHOM - Simple Digital Tachometer";
   mkAmbaIdName VENDOR_GAISLER GAISLER_L5STAT "L5STAT - LEON5 Statistics Unit";
   mkAmbaIdName VENDOR_GAISLER GAISLER_LEON5 "LEON5 - LEON5 SPARC V8 Processor";
   mkAmbaIdName VENDOR_GAISLER GAISLER_LEON5DSU "LEON5DSU - LEON5 Debug Support Unit";
   mkAmbaIdName VENDOR_GAISLER GAISLER_SPFI "SPFI - GRSPFI SpaceFibre Serial Link";
   mkAmbaIdName VENDOR_GAISLER GAISLER_RV64GC "RV64GC - NOEL-V RISC-V Processor";
   mkAmbaIdName VENDOR_GAISLER GAISLER_RVDM "RVDM - RISC-V Debug Module";
   mkAmbaIdName VENDOR_GAISLER GAISLER_FTMCTRL2 "FTMCTRL2 - Memory controller with EDAC";
   mkAmbaIdName VENDOR_GAISLER GAISLER_GRDMAC2 "GRDMAC2 - GRDMAC2 DMA Controller";
   mkAmbaIdName VENDOR_GAISLER GAISLER_GRSCRUB "GRSCRUB - GRSCRUB FPGA Scrubber";
   mkAmbaIdName VENDOR_GAISLER GAISLER_GRPLIC "GRPLIC - RISC-V PLIC";
   mkAmbaIdName VENDOR_GAISLER GAISLER_CLINT "CLINT - RISC-V CLINT";
   mkAmbaIdName VENDOR_GAISLER GAISLER_SOCBRIDGE "SOCBRIDGE - SoC to SoC bridge";
   mkAmbaIdName VENDOR_GAISLER GAISLER_NANDFCTRL2 "NANDFCTRL2 - NAND Flash Controller 2";
   mkAmbaIdName VENDOR_GAISLER GAISLER_DARE65THS "DARE65THS - DARE65T Temperature sensor";
   mkAmbaIdName VENDOR_GAISLER GAISLER_WIZL "WIZL - GRWIZL WizardLink Serial Link";
   mkAmbaIdName VENDOR_GAISLER GAISLER_HSSL "HSSL - GRHSSL SpaceFibre + WizardLink";
   mkAmbaIdName VENDOR_GAISLER GAISLER_GRWATCHDOG "GRWATCHDOG - Watchdog unit with sep clock";
   mkAmbaIdName VENDOR_GAISLER GAISLER_ETRACE "ETRACE - RISC-V E-trace encoder";
   mkAmbaIdName VENDOR_GAISLER GAISLER_LEON5ADSU "LEON5ADSU - LEON5 Advanced Debug Unit";
   mkAmbaIdName VENDOR_GAISLER GAISLER_LEON5DMAB "LEON5DMAB - LEON5 IOMMU and DMA bridge";
   mkAmbaIdName VENDOR_GAISLER GAISLER_ACLINT "ACLINT - RISC-V ACLINT";
   mkAmbaIdName VENDOR_GAISLER GAISLER_IMSIC "IMSIC - RISC-V IMSIC";
   mkAmbaIdName VENDOR_GAISLER GAISLER_GRAPLIC "GRAPLIC - RISC-V APLIC";
   mkAmbaIdName VENDOR_GAISLER GAISLER_L2CL "L2CL - L2-Cache Controller - Lite";
   mkAmbaIdName VENDOR_GAISLER GAISLER_L2CACHE_IO "L2CACHE_IO - L2-Cache Controller I/O Port";
   mkAmbaIdName VENDOR_GAISLER GAISLER_AHB2AHB_STR "AHB2AHB_STR - AHB/AHB Stripe Bridge";
   mkAmbaIdName VENDOR_GAISLER GAISLER_GRIOMMURV "GRIOMMURV - RISCV IO Memory Management Unit"].

(** The rows for the second vendor. *)
Definition esa_names : list AmbaIdName :=
  [mkAmbaIdName VENDOR_ESA ESA_LEON2 "LEON2 , LEON2 SPARC V8 Processor";
   mkAmbaIdName VENDOR_ESA ESA_LEON2APB "LEON2APB , LEON2 Peripheral Bus";
   mkAmbaIdName VENDOR_ESA ESA_IRQ "IRQ , LEON2 Interrupt Controller";
   mkAmbaIdName VENDOR_ESA ESA_TIMER "TIMER , LEON2 Timer";
   mkAmbaIdName VENDOR_ESA ESA_UART "UART , LEON2 UART";
   mkAmbaIdName VENDOR_ESA ESA_CFG "CFG , LEON2 Configuration Register";
   mkAmbaIdName VENDOR_ESA ESA_IO "IO , LEON2 Input/Output";
   mkAmbaIdName VENDOR_ESA ESA_MCTRL "MCTRL , LEON2 Memory Controller";
   mkAmbaIdName VENDOR_ESA ESA_PCIARB "PCIARB , PCI Arbiter";
   mkAmbaIdName VENDOR_ESA ESA_HURRICANE "HURRICANE , HurriCANe/HurryAMBA CAN Ctrl";
   mkAmbaIdName VENDOR_ESA ESA_SPW_RMAP "SPW_RMAP , UoD/Saab SpaceWire/RMAP link";
   mkAmbaIdName VENDOR_ESA ESA_AHBUART "AHBUART , LEON2 AHB Debug UART";
   mkAmbaIdName VENDOR_ESA ESA_SPWA "SPWA , ESA/ASTRIUM SpaceWire link";
   mkAmbaIdName VENDOR_ESA ESA_BOSCHCAN "BOSCHCAN , SSC/BOSCH CAN Ctrl";
   mkAmbaIdName VENDOR_ESA ESA_IRQ2 "IRQ2 , LEON2 Secondary Irq Controller";
   mkAmbaIdName VENDOR_ESA ESA_AHBSTAT "AHBSTAT , LEON2 AHB Status Register";
   mkAmbaIdName VENDOR_ESA ESA_WPROT "WPROT , LEON2 Write Protection";
   mkAmbaIdName VENDOR_ESA ESA_WPROT2 "WPROT2 , LEON2 Extended Write Protection";
   mkAmbaIdName VENDOR_ESA ESA_PDEC3AMBA "PDEC3AMBA , ESA CCSDS PDEC3AMBA TC Decoder";
   mkAmbaIdName VENDOR_ESA ESA_PTME3AMBA "PTME3AMBA , ESA CCSDS PTME3AMBA TM Encoder"].

Definition get_amba_names : list AmbaIdName := gaisler_names_1 ++ gaisler_names_2 ++ esa_names.

Fixpoint lookup_name (vec : list AmbaIdName) (vendor8 device12 : Z) : option string :=
  match vec with
  | [] => None
  | it :: vec =>
      if (an_vendor it =? vendor8) && (an_device it =? device12) then Some (an_name it)
      else lookup_name vec vendor8 device12
  end.

(** ** Slots *)

Record AmbaAHBPnpSlot := mkAhbSlot {
  h_w0 : Z; h_w1 : Z; h_w2 : Z; h_w3 : Z; h_bar0 : Z; h_bar1 : Z; h_bar2 : Z; h_bar3 : Z; h_addr : Z }.
Definition ahb_empty (s : AmbaAHBPnpSlot) : bool :=
  Z.lor (Z.lor (Z.lor (Z.lor (Z.lor (Z.lor (Z.lor (h_w0 s) (h_w1 s)) (h_w2 s)) (h_w3 s)) (h_bar0 s)) (h_bar1 s))
    (h_bar2 s)) (h_bar3 s) =? 0.
Record AmbaAPBPnpSlot := mkApbSlot { p_w0 : Z; p_w1 : Z; p_addr : Z; p_base : Z }.
Definition apb_empty (s : AmbaAPBPnpSlot) : bool := Z.lor (p_w0 s) (p_w1 s) =? 0.

(** The values of one [printf]: a title, the words of a slot, what its first
    word says, and its address registers. *)
Inductive section := AhbMasters | AhbSlaves | ApbSlaves.
Inductive dump_line :=
| Title (s : section) (base : Z)
| AhbSlotLine (s : section) (slot w0 w1 w2 w3 addr : Z)
| ApbSlotLine (slot w0 w1 addr : Z)
| IdLine (vendor device ver irq : Z) (name : option string)
| AhbBarLine (i start mask type : Z) (kind : string)
| AhbBarEmpty (i : Z)
| ApbBarLine (addr mask type : Z).

Definition id_line (names : list AmbaIdName) (w0 : Z) : dump_line :=
  let vendor := ambapp_pnp_vendor w0 in
  let device := ambapp_pnp_device w0 in
  IdLine vendor device (ambapp_pnp_ver w0) (ambapp_pnp_irq w0) (lookup_name names vendor device).

Definition print_slot_line_apb (slot : Z) (s : AmbaAPBPnpSlot) (names : list AmbaIdName) : list dump_line :=
  if apb_empty s then []
  else
    [ApbSlotLine slot (p_w0 s) (p_w1 s) (p_addr s); id_line names (p_w0 s);
     ApbBarLine (ambapp_pnp_apb_start (p_w1 s) (p_base s)) (ambapp_pnp_apb_mask (p_w1 s)) (ambapp_pnp_mbar_type (p_w1 s))].

Definition print_bar (i bar : Z) : dump_line :=
  let type := ambapp_pnp_mbar_type bar in
  let start_addr := if type =? AMBA_TYPE_MEM then ambapp_pnp_mbar_start bar
                    else ambapp_pnp_ahbio_adr bar AMBA_DEFAULT_IOAREA in
  if 0 <? bar then
    AhbBarLine i start_addr (ambapp_pnp_mbar_mask bar) type (if type =? AMBA_TYPE_MEM then "AHB Memory" else "AHBIO")
  else AhbBarEmpty i.

Definition print_slot_line_ahb (sect : section) (slot : Z) (s : AmbaAHBPnpSlot) (names : list AmbaIdName) : list dump_line :=
  if ahb_empty s then []
  else
    [AhbSlotLine sect slot (h_w0 s) (h_w1 s) (h_w2 s) (h_w3 s) (h_addr s); id_line names (h_w0 s);
     print_bar 0 (h_bar0 s); print_bar 1 (h_bar1 s); print_bar 2 (h_bar2 s); print_bar 3 (h_bar3 s)].

(** [AmbaPnpAddrs]. *)
Definition ahb_master_base : Z := 0xfffff000.
Definition ahb_slave_base : Z := 0xfffff800.
Definition apb_pnp_base : Z := 0x800ff000.
Definition apb_bus_base : Z := 0x80000000.

#[local] Open Scope M_scope.

Section dump.
Context {S : Type} (r32 : Z -> M S Z).

Definition read_slot_apb (base slot_idx : Z) : M S AmbaAPBPnpSlot :=
  let addr := u32 (base + slot_idx * 8) in
  w0 ← r32 addr; w1 ← r32 (u32 (addr + 4)); ret (mkApbSlot w0 w1 addr 0).

Definition read_slot_ahb (base slot_idx : Z) : M S AmbaAHBPnpSlot :=
  let addr := u32 (base + slot_idx * 32) in
  w0 ← r32 addr; w1 ← r32 (u32 (addr + 4)); w2 ← r32 (u32 (addr + 8)); w3 ← r32 (u32 (addr + 12));
  b0 ← r32 (u32 (addr + 16)); b1 ← r32 (u32 (addr + 20)); b2 ← r32 (u32 (addr + 24)); b3 ← r32 (u32 (addr + 28));
  ret (mkAhbSlot w0 w1 w2 w3 b0 b1 b2 b3 addr).

(** [for (int i = 0; i < slots; ++i)], collecting what is printed. *)
Fixpoint each_slot (l : list nat) (body : Z -> M S (list dump_line)) : M S (list dump_line) :=
  match l with
  | [] => ret []
  | i :: l => a ← body (Z.of_nat i); b ← each_slot l body; ret (a ++ b)
  end.

Definition dump_ahb (sect : section) (base : Z) : M S (list dump_line) :=
  each_slot (seq 0 16) (fun i =>
    s ← read_slot_ahb base i;
    ret (if negb (ahb_empty s) then print_slot_line_ahb sect i s get_amba_names else [])).
Definition dump_apb : M S (list dump_line) :=
  each_slot (seq 0 16) (fun i =>
    s ← read_slot_apb apb_pnp_base i;
    let s := mkApbSlot (p_w0 s) (p_w1 s) (p_addr s) apb_bus_base in
    ret (if negb (apb_empty s) then print_slot_line_apb i s get_amba_names else [])).

Definition print_amba_pnp : M S (list dump_line) :=
  masters ← dump_ahb AhbMasters ahb_master_base;
  slaves ← dump_ahb AhbSlaves ahb_slave_base;
  apb ← dump_apb;
  ret ([Title AhbMasters ahb_master_base] ++ masters ++ [Title AhbSlaves ahb_slave_base] ++ slaves ++
       [Title ApbSlaves apb_pnp_base] ++ apb).
End dump.

(** ** Taking an entry apart gives back its parts *)

Lemma id_fields v d ver irq :
  0 <= v < 256 -> 0 <= d < 4096 -> 0 <= ver < 32 ->
  pnp_id v d ver irq = v * 2 ^ 24 + d * 2 ^ 12 + ver * 2 ^ 5 + irq mod 16.
Proof.
  intros Hv Hd Hr. unfold pnp_id. change 0xf with (Z.ones 4). rewrite Z.land_ones by lia.
  pose proof (Z.mod_pos_bound irq (2 ^ 4) ltac:(lia)).
  rewrite !Z.shiftl_mul_pow2 by lia.
  rewrite (lor_add (v * 2 ^ 24) (d * 2 ^ 12) 24) by (rewrite ?Z.mod_mul; lia).
  rewrite (lor_add _ (ver * 2 ^ 5) 12); [|lia| |lia].
  2:{ change (2 ^ 24) with (2 ^ 12 * 2 ^ 12). rewrite Z.mul_assoc, <- Z.mul_add_distr_r. apply Z.mod_mul. lia. }
  rewrite (lor_add _ (irq mod 2 ^ 4) 5); [done|lia| |lia].
  replace (v * 2 ^ 24 + d * 2 ^ 12 + ver * 2 ^ 5) with ((v * 2 ^ 19 + d * 2 ^ 7 + ver) * 2 ^ 5) by lia. apply Z.mod_mul. lia.
Qed.

(** The dump decodes what the set-up encodes. *)
Lemma id_line_encode names v d ver irq :
  0 <= v < 256 -> 0 <= d < 4096 -> 0 <= ver < 32 ->
  id_line names (pnp_id v d ver irq) = IdLine v d ver (irq mod 16) (lookup_name names v d).
Proof.
  intros Hv Hd Hr. pose proof (Z.mod_pos_bound irq 16 ltac:(lia)). unfold id_line, ambapp_pnp_vendor, ambapp_pnp_device, ambapp_pnp_ver, ambapp_pnp_irq.
  rewrite (id_fields v d ver irq) by done.
  change 0xff with (Z.ones 8). change 0xfff with (Z.ones 12). change 0x1f with (Z.ones 5).
  rewrite !Z.land_ones, !Z.shiftr_div_pow2 by lia. change (2 ^ 24) with 16777216. change (2 ^ 12) with 4096.
  change (2 ^ 5) with 32. change (2 ^ 8) with 256.
  assert ((v * 16777216 + d * 4096 + ver * 32 + irq mod 16) / 16777216 mod 256 = v) as -> by (Z.div_mod_to_equations; lia).
  assert ((v * 16777216 + d * 4096 + ver * 32 + irq mod 16) / 4096 mod 4096 = d) as -> by (Z.div_mod_to_equations; lia).
  assert ((v * 16777216 + d * 4096 + ver * 32 + irq mod 16) / 32 mod 32 = ver) as -> by (Z.div_mod_to_equations; lia).
  f_equal. Z.div_mod_to_equations. lia.
Qed.

(** The address of an APB slave. *)
Lemma apb_start_encode slot : 0 <= slot < 4096 -> ambapp_pnp_apb_start (apb_bar slot) 0x80000000 = 0x80000000 + slot * 0x100.
Proof.
  intros Hs. unfold ambapp_pnp_apb_start, apb_bar, AMBA_TYPE_APBIO.
  assert (Z.lor (Z.lor (Z.shiftl slot 20) (Z.shiftl 0xfff 4)) 1 = slot * 2 ^ 20 + 0xfff1) as ->.
  { rewrite <- Z.lor_assoc. ground. rewrite Z.shiftl_mul_pow2 by lia. apply (lor_add _ _ 20); [lia|apply Z.mod_mul; lia|lia]. }
  assert (Z.land (slot * 2 ^ 20 + 0xfff1) 0xfff00000 = slot * 2 ^ 20) as ->.
  { change 0xfff00000 with (Z.shiftl (Z.ones 12) 20). apply Z.bits_inj'. intros i Hi.
    rewrite Z.land_spec, Z.shiftl_spec by done. rewrite <- (lor_add (slot * 2 ^ 20) 0xfff1 20) by (rewrite ?Z.mod_mul; lia).
    rewrite Z.lor_spec, <- Z.shiftl_mul_pow2, Z.shiftl_spec by lia.
    destruct (decide (i < 20)).
    - rewrite !(Z.testbit_neg_r _ (i - 20)) by lia. by rewrite andb_false_r.
    - rewrite (testbit_high 0xfff1 20 i) by lia. rewrite orb_false_r. destruct (decide (i < 32)).
      + rewrite (Z.ones_spec_low 12) by lia. apply andb_true_r.
      + rewrite (testbit_high slot 12) by lia. done. }
  assert (Z.land (slot * 2 ^ 20 + 0xfff1) 0xfff0 = 0xfff0) as ->.
  { rewrite <- (lor_add (slot * 2 ^ 20) 0xfff1 20) by (rewrite ?Z.mod_mul; lia). rewrite Z.land_lor_distr_l. ground.
    assert (Z.land (slot * 2 ^ 20) 0xfff0 = 0) as ->; [|done]. apply Z.bits_inj'. intros i Hi. rewrite Z.land_spec, Z.bits_0.
    destruct (decide (i < 20)); [by rewrite Z.mul_pow2_bits_low by lia|]. by rewrite (testbit_high 0xfff0 20 i), andb_false_r by lia. }
  rewrite Z.shiftr_div_pow2 by lia. replace (slot * 2 ^ 20 / 2 ^ 12) with (slot * 2 ^ 8).
  2:{ change (2 ^ 20) with (2 ^ 8 * 2 ^ 12). rewrite Z.mul_assoc, Z.div_mul by lia. done. }
  change (Z.shiftl 0xfff0 4) with (Z.shiftl (Z.ones 12) 8). rewrite <- Z.shiftl_mul_pow2 by lia.
  rewrite <- Z.shiftl_land, Z.land_ones, Z.mod_small by lia. rewrite Z.shiftl_mul_pow2 by lia.
  rewrite (lor_add 0x80000000 (slot * 2 ^ 8) 24) by (try done; lia). done.
Qed.

(** Two rows of the table of names never describe the same device. *)
Definition same_id (a b : AmbaIdName) : bool := (an_vendor a =? an_vendor b) && (an_device a =? an_device b).
Fixpoint ids_distinct (l : list AmbaIdName) : bool :=
  match l with [] => true | a :: l => negb (existsb (same_id a) l) && ids_distinct l end.

Lemma lookup_name_row l r : ids_distinct l = true -> r ∈ l -> lookup_name l (an_vendor r) (an_device r) = Some (an_name r).
Proof.
  induction l as [|a l IH]; intros Hd Hr; [by apply not_elem_of_nil in Hr|]. cbn in Hd |- *.
  apply andb_true_iff in Hd as [Ha Hd]. apply elem_of_cons in Hr as [->|Hr]; [by rewrite !Z.eqb_refl|].
  destruct ((an_vendor a =? an_vendor r) && (an_device a =? an_device r)) eqn:E; [|by apply IH].
  exfalso. apply negb_true_iff in Ha. assert (existsb (same_id a) l = true) as Hx; [|congruence].
  apply existsb_exists. exists r. split; [by apply list_elem_of_In|exact E].
Qed.

Lemma names_distinct : ids_distinct get_amba_names = true.
Proof. vm_compute. reflexivity. Qed.

(** ** What the dump shows of the board *)

(** A device as it is listed: name, interrupt, and where it can be reached. *)
Fixpoint listed (l : list dump_line) : list (option string * Z * list Z) :=
  match l with
  | IdLine _ _ _ irq name :: l =>
      (name, irq, (fix starts (l : list dump_line) :=
        match l with
        | AhbBarLine _ a _ _ _ :: l | ApbBarLine a _ _ :: l => a :: starts l
        | AhbBarEmpty _ :: l => starts l
        | _ => []
        end) l) :: listed l
  | _ :: l => listed l
  | [] => []
  end.

(** The address of the bridge's I/O area, [0xfffa0000], is shown with bits of the
    mask field in it. *)
Definition board_listing (vga : bool) : list (option string * Z * list Z) :=
  [(Some "LEON3 - LEON3 SPARC V8 Processor"%string, 0, []);
   (Some "APBMST - AHB/APB Bridge"%string, 0, [0x80000000]);
   (Some "MCTRL , LEON2 Memory Controller"%string, 0, [0; 0x20000000; 0x40000000]);
   (Some "GRPCI2 - GRPCI2 PCI/AHB bridge"%string, 0, [0x24000000; 0xfffa000e]);
   (Some "MCTRL , LEON2 Memory Controller"%string, 0, [0x80000000]);
   (Some "APBUART - Generic UART"%string, 4, [0x80000100]);
   (Some "IRQMP - Multi-processor Interrupt Ctrl."%string, 0, [0x80000200]);
   (Some "GPTIMER - Modular Timer Unit"%string, 8, [0x80000300]);
   (Some "APBUART - Generic UART"%string, 3, [0x80000900]);
   (Some "GRPCI2 - GRPCI2 PCI/AHB bridge"%string, 2, [0x80000400])] ++
  if vga then
    [(Some "SVGACTRL - SVGA frame buffer"%string, 9, [0x80000500]); (Some "APBPS2 - PS2 interface"%string, 5, [0x80000600])]
  else [].

(** The plug-and-play dump shows the board: on the tables the set-up wrote
    it succeeds, changes no memory and no device, and lists exactly the
    processor, the bridges and the APB slaves in order, each with its name, its
    interrupt and its start addresses, the I/O area of the PCI bridge with four
    bits of its mask in the address. *)
Theorem amba_dump_board {W} `{DeviceBus W} vga (w : W) :
  exists m lines m', attach_all vga (fresh_mctrl w) = (Val tt, m) /\
    print_amba_pnp (fun a => mc_read32 a true) m = (Val lines, m') /\
    listed lines = board_listing vga /\ banks m' = banks m /\ world m' = w.
Proof.
  destruct vga; eexists _, _, _; (split; [vm_compute; reflexivity|]);
    (split; [vm_compute; reflexivity|]); (split; [vm_compute; reflexivity|]); by split.
Qed.

(** The codes of the tables can be read back: taking an identification word
    apart gives the vendor, device, version and interrupt it was put together
    from, with the device's name from the table of names if it has one, and the
    address of an APB slave is that of its slot; the table names every one of
    its devices unambiguously. *)
Theorem pnp_codes_roundtrip v d ver irq slot :
  0 <= v < 256 -> 0 <= d < 4096 -> 0 <= ver < 32 -> 0 <= irq < 16 -> 0 <= slot < 4096 ->
  id_line get_amba_names (pnp_id v d ver irq) = IdLine v d ver irq (lookup_name get_amba_names v d) /\
  ambapp_pnp_apb_start (apb_bar slot) 0x80000000 = 0x80000000 + slot * 0x100 /\
  forall r, r ∈ get_amba_names -> lookup_name get_amba_names (an_vendor r) (an_device r) = Some (an_name r).
Proof.
  intros Hv Hd Hr Hi Hs. rewrite id_line_encode, Z.mod_small by lia. split; [done|].
  split; [by apply apb_start_encode|]. intros r. apply lookup_name_row, names_distinct.
Qed.

Lemma pnp_codes_roundtrip_witness :
  id_line get_amba_names (pnp_id VENDOR_GAISLER GAISLER_IRQMP 0 7) =
  IdLine 1 0x00d 0 7 (Some "IRQMP - Multi-processor Interrupt Ctrl."%string).
Proof. apply (pnp_codes_roundtrip 1 0x00d 0 7 2); lia. Defined.
