(* ===== verification/Debug.v ===== *)
(** * Debug listings (src/src/debug.cpp, [debug_list_banks] of MCTRL.h,
      [TLB::debug_dump] of MMU.cpp, [dump_regs] of CPU.cpp)

    What the emulator prints of its own state.  A line of output is modelled by
    the values in it; the functions that look at memory go through the same
    accessors as the processor and can change the state they look at. *)
From S2P Require Import Prelude Mctrl Tlb Mmu Cpu Exec Irqmp Gptimer Uart Ps2 Apb AmbaIds Amba AmbaDump.
From stdpp Require Import pretty.

#[local] Open Scope string_scope.
#[local] Open Scope Z_scope.

(** ** The memory map *)

(** [try { m } catch (...) { h }]. *)
Definition catch_all {S A} (m : M S A) (h : M S A) : M S A := fun s =>
  match m s with (Exn _, s') => h s' | r => r end.

#[local] Open Scope M_scope.

(** A line of the overview.  The name of the type is the constructor's. *)
Record bank_line := mkBankLine {
  bl_idx : nat; bl_start : Z; bl_end : Z; bl_size : string; bl_access : string; bl_endian : Endian }.

Definition size_str (size : Z) : string :=
  if 1024 * 1024 <=? size then pretty (size / (1024 * 1024)) +:+ " MB"
  else if 1024 <=? size then pretty (size / 1024) +:+ " KB"
  else pretty size +:+ " B".

Section listing.
Context {W : Type} `{DeviceBus W}.
Abbreviation MC := (M (mctrl W)).

(** The first word of the bank is written back to see whether that throws. *)
Definition writable (i : nat) (start : Z) : MC bool :=
  catch_all (v ← bank_read32 i start true; bank_write32 i start v true ;; ret true) (ret false).

Definition list_bank (i : nat) : MC bank_line :=
  b ← bank_at i;
  let start := get_base b in
  let end_ := u64 (get_end_exclusive b - 1) in
  let size := u64 (end_ - start + 1) in
  w ← writable i start;
  ret (mkBankLine i start end_ (size_str size) (if w : bool then "R/W" else "RO") (get_endian b)).

Fixpoint list_banks_from (n i : nat) : MC (list bank_line) :=
  match n with
  | O => ret []
  | S n => l ← list_bank i; r ← list_banks_from n (S i); ret (l :: r)
  end.

Definition debug_list_banks : MC (list bank_line) :=
  n ← gets (fun m => length (banks m)); list_banks_from n 0.
End listing.

(** ** The TLB *)

Definition page_size_str (mask : Z) : string :=
  if mask =? 0xfffff000 then "4 KB"
  else if mask =? 0xfffc0000 then "256 KB"
  else if mask =? 0xff000000 then "16 MB"
  else "?".

(** Index, context, address, mask, size of the page, and the entry. *)
Definition tlb_debug_dump (t : TLB) : list (nat * Z * Z * Z * string * Z) :=
  omap (fun '(i, e) => if is_valid (e_pte e)
                       then Some (i, e_context e, e_vaddr_tag e, e_mask e, page_size_str (e_mask e), e_pte e)
                       else None)
    (imap pair (entries t)).

(** ** Registers *)

(** [read_reg] of four registers into [a], [b], [c], [d]. *)
Definition read_four (c : cpu) (r1 r2 r3 r4 : Z) : option (Z * Z * Z * Z) :=
  (x1 ← read_reg_of c r1 0; x2 ← read_reg_of c r2 0; x3 ← read_reg_of c r3 0; x4 ← read_reg_of c r4 0;
   Some (x1, x2, x3, x4))%stdpp.

(** The line of the program counters: PC, nPC, PSR, window, N, Z, V, C, PIL, IRL. *)
Definition dump_head (c : cpu) : list Z :=
  [pc c; npc c; psr c; Z.land (psr c) LOBITS4; bit (psr c) 23; bit (psr c) 22; bit (psr c) 21; bit (psr c) 20;
   Z.land (Z.shiftr (psr c) 8) LOBITS4; irl c].

(** The rows that follow it: four registers each, globals first. *)
Definition dump_rows (c : cpu) : option (list (Z * Z * Z * Z)) :=
  mapM (fun r => read_four c r (r + 1) (r + 2) (r + 3)) [0x00; 0x04; 0x08; 0x0c; 0x10; 0x14; 0x18; 0x1c].

(** [transpose]: an in, a local, an out and a global register in a row. *)
Definition dump_transposed (c : cpu) : option (list (Z * Z * Z * Z)) :=
  mapM (fun k => (a ← read_reg_of c (0x18 + k) 0; b ← read_reg_of c (0x10 + k) 0;
                  o ← read_reg_of c (0x08 + k) 0; g ← globals c !! Z.to_nat k; Some (a, b, o, g))%stdpp)
    [0; 1; 2; 3; 4; 5; 6; 7].

Definition dump_regs (transpose : bool) (c : cpu) : option (list Z * list (Z * Z * Z * Z)) :=
  if transpose then (l ← dump_transposed c; Some ([], l))%stdpp
  else (l ← dump_rows c; Some (dump_head c, l))%stdpp.

(** The registers, then PSR, WIM, TBR and Y. *)
Definition debug_registerdump (c : cpu) : option (list (Z * Z * Z * Z) * (Z * Z * Z * Z)) :=
  ('(_, l) ← dump_regs true c; Some (l, (psr c, wim c, tbr c, y_reg c)))%stdpp.

(** ** Translations *)

Definition get_perms (c acc : Z) : string :=
  (if Z.land c 0x1 =? 1 then "c" else "-") +:+
  (if acc =? 0 then "r--r--"
   else if acc =? 1 then "rw-rw-"
   else if acc =? 2 then "r-xr-x"
   else if acc =? 3 then "rwxrwx"
   else if acc =? 4 then "--x--x"
   else if acc =? 5 then "rw-r--"
   else if acc =? 6 then "r-x---"
   else if acc =? 7 then "rwx---"
   else "error-").

Record TR := mkTR {
  start_va : Z; end_va : Z; start_pa : Z; end_pa : Z; perms : string; pages : Z }.

(** The row of an entry that maps [start_va]; [span] is the size minus one. *)
Definition tr_of (start_va pte span n : Z) : TR :=
  let ppn := Z.shiftr pte 8 in
  let c := Z.land (Z.shiftr pte 7) 0x1 in
  let acc := Z.land (Z.shiftr pte 2) 0x7 in
  mkTR start_va (u32 (start_va + span)) (shl32 ppn 12) (u32 (shl32 ppn 12 + span)) (get_perms c acc) n.

(** The pass over the rows: a row that continues the one before takes it over,
    and the one before is emptied.  [tr] is the row at the index of the loop. *)
Definition continues (tr next : TR) : bool :=
  (u32 (end_va tr + 1) =? start_va next) && (u32 (end_pa tr + 1) =? start_pa next) && String.eqb (perms tr) (perms next).

Fixpoint collapse_from (tr : TR) (rest : list TR) : list TR :=
  match rest with
  | [] => [tr]
  | next :: rest =>
      if continues tr next then
        mkTR 0 0 (start_pa tr) (end_pa tr) (perms tr) 0 ::
        collapse_from (mkTR (start_va tr) (end_va next) (start_pa tr) (end_pa next) (perms next)
                         (u32 (pages next + pages tr))) rest
      else tr :: collapse_from next rest
  end.

(** With no rows at all [trs.size()-1] wraps and [trs[0]] is outside the vector. *)
Definition collapse (trs : list TR) : option (list TR) :=
  match trs with [] => None | tr :: rest => Some (collapse_from tr rest) end.

Definition printed (trs : list TR) : list TR := List.filter (fun tr => 0 <? pages tr) trs.

(** What [debug_mmu_tables] prints. *)
Inductive tables_out := MmuOff | BadRoot (ptd : Z) | Tables (ctx : Z) (lines : list TR).

(** The text beside a dumped word. *)
Definition dump_char (x : Z) : Ascii.ascii :=
  if (33 <=? x) && (x <=? 126) then Ascii.ascii_of_N (Z.to_N x) else Ascii.ascii_of_N 46.
Definition dump_text (v : Z) : string :=
  String (dump_char (Z.land v 0xff)) (String (dump_char (Z.shiftr (Z.land v 0xff00) 8))
    (String (dump_char (Z.shiftr (Z.land v 0xff0000) 16)) (String (dump_char (Z.shiftr (Z.land v 0xff000000) 24)) " "))).

Definition dump_count (n : Z) : Z := let n := if n <? 0 then 1 else n in if 16 <? n then 16 else n.

Section tables.
Context {W : Type} `{DeviceBus W}.
Abbreviation MS := (M (memsys W)).

(** [for (k = 0; k < 4 n; k += 4) ... trs.push_back(...)], with [k / 4] as index. *)
Fixpoint push_rows (n : nat) (k : Z) (body : Z -> MS (list TR)) : MS (list TR) :=
  match n with
  | O => ret []
  | S n => r ← body k; l ← push_rows n (k + 1) body; ret (app r l)
  end.

Definition level3_row (i j ptp_l2 k : Z) : MS (list TR) :=
  ptd_l3 ← MemAccessBypassRead4 (u32 (shl32 ptp_l2 6 + 4 * k));
  ret (if Z.land ptd_l3 0x3 =? 2
       then [tr_of (u32 (u32 (shl32 i 24 + shl32 j 18) + shl32 k 12)) ptd_l3 0xfff 1] else []).

Definition level2_rows (i ptp_l1 j : Z) : MS (list TR) :=
  ptd_l2 ← MemAccessBypassRead4 (u32 (shl32 ptp_l1 6 + 4 * j));
  let et_l2 := Z.land ptd_l2 0x3 in
  if et_l2 =? 2 then ret [tr_of (u32 (shl32 i 24 + shl32 j 18)) ptd_l2 0xfffff 256]
  else if et_l2 =? 1 then push_rows 64 0 (level3_row i j (Z.shiftr ptd_l2 2))
  else ret [].

Definition level1_rows (ptp i : Z) : MS (list TR) :=
  ptd ← MemAccessBypassRead4 (u32 (ptp + 4 * i));
  let et := Z.land ptd 0x3 in
  if et =? 2 then ret [tr_of (shl32 i 24) ptd 0xffffff 4096]
  else if et =? 1 then push_rows 64 0 (level2_rows i (Z.shiftr ptd 2))
  else ret [].

Definition debug_mmu_tables : MS tables_out :=
  on ← mmu_get get_enabled;
  if negb on then ret MmuOff
  else
    ctx ← mmu_get ctx_n;
    l1_tbl_ptr ← mmu_get ctx_entry;
    ptd ← MemAccessBypassRead4 l1_tbl_ptr;
    let ptp := shl32 (Z.land ptd 0xfffffffc) 4 in
    if negb (Z.land ptd 0x3 =? 0x1) then ret (BadRoot ptd)
    else
      trs ← push_rows 256 0 (level1_rows ptp);
      trs ← or_ub (collapse trs);
      ret (Tables ctx (printed trs)).

Definition debug_mmu_tlbs : MS (option (list (nat * Z * Z * Z * string * Z) * list (nat * Z * Z * Z * string * Z))) :=
  mmu_get (fun m => if get_enabled m then Some (tlb_debug_dump (itlb m), tlb_debug_dump (dtlb m)) else None).

(** ** Memory *)

(** One line of a dump: [j] from 0 to 3, or until [n] words have been read. *)
Fixpoint dump_row (fetch : Z -> MS Z) (addr n i : Z) (js : list Z) (count : Z) : MS (list Z * Z) :=
  match js with
  | [] => ret ([], count)
  | j :: js =>
      v ← fetch (u32 (addr + 4 * (i * 4 + j)));
      let count := count + 1 in
      if n <=? count then ret ([v], count)
      else '(vs, count) ← dump_row fetch addr n i js count; ret (v :: vs, count)
  end.

(** The address, the words and the text of each line. *)
Fixpoint dump_lines (fetch : Z -> MS Z) (addr n : Z) (is_ : list Z) (count : Z) : MS (list (Z * list Z * string)) :=
  match is_ with
  | [] => ret []
  | i :: is_ =>
      '(vs, count) ← dump_row fetch addr n i [0; 1; 2; 3] count;
      let line := (u32 (addr + 4 * i * 4), vs, String.concat "" (map dump_text vs)) in
      if n <=? count then ret [line]
      else ls ← dump_lines fetch addr n is_ count; ret (line :: ls)
  end.

Definition debug_dumpmem (pa n : Z) : MS (list (Z * list Z * string)) :=
  dump_lines MemAccessBypassRead4 pa (dump_count n) [0; 1; 2; 3] 0.

(** A load through the MMU in supervisor mode; a word that faults is 0. *)
Definition load_for_dump (va : Z) : MS Z :=
  '(_, v) ← MemAccess intent_load Sz4 va 0 true true; ret v.
Definition debug_dumpmemv (va n : Z) : MS (list (Z * list Z * string)) :=
  dump_lines load_for_dump va (dump_count n) [0; 1; 2; 3] 0.

(** [None]: no MMU attached. *)
Definition debug_print_amba_pnp (attached : bool) : MS (option (list dump_line)) :=
  if negb attached then ret None
  else l ← on_mc (print_amba_pnp (fun a => mc_read32 a true)); ret (Some l).
Definition debug_print_memory_banks (attached : bool) : MS (option (list bank_line)) :=
  if negb attached then ret None else l ← on_mc debug_list_banks; ret (Some l).
End tables.

Definition rs_reason_str (r : TerminateReason) : string :=
  match r with
  | NORMAL => "NORMAL"
  | INSTRUCTION => "INSTRUCTION"
  | BREAK => "BREAK"
  | STEP => "STEP"
  | TRAP_CONDITIONAL => "TRAP_CONDITIONAL"
  | UNIMPLEMENTED => "UNIMPLEMENTED"
  | RECV_SIGINT => "RECV_SIGINT"
  | TIMER_INTERRUPT => "TIMER_INTERRUPT"
  | POWER_DOWN => "POWER_DOWN"
  end.
