(* ===== verification/DebugProofs.v ===== *)
(** * What the listing of the page tables shows

    The rows [debug_mmu_tables] prints are the translations of the MMU: over the
    tables in memory, its nested loops visit exactly the walks of the addresses,
    and collapsing neighbouring rows changes nothing of what they say. *)
From S2P Require Import Prelude Mctrl Tlb Mmu Cpu Debug.

#[local] Open Scope M_scope.

(** ** Reading the tables *)

(** The word the bypass read returns, and the addresses where it only reads:
    in a RAM bank, or in no bank. *)
Definition word_at (bs : list bank) (pa : Z) : Z :=
  match scan_banks bs 0 pa with
  | Some (_, RamBank base e d) =>
      default 0 (match e with Big => peek32_be d (pa - base) | Little => peek32_le d (pa - base) end)
  | _ => 0
  end.
Definition plain (bs : list bank) (pa : Z) : Prop :=
  is_u32 pa /\
  match scan_banks bs 0 pa with
  | Some (_, RamBank base e d) => pa + 4 <= base + b_len d
  | Some _ => False
  | None => True
  end.

Section plain_reads.
Context {W : Type} `{DeviceBus W}.

(** The memory system during the listing: only the bank cache changes. *)
Record over (s0 s : memsys W) : Prop := {
  ov_mmu : ms_mmu s = ms_mmu s0; ov_banks : banks (ms_mc s) = banks (ms_mc s0);
  ov_world : world (ms_mc s) = world (ms_mc s0); ov_ok : mc_ok (ms_mc s) }.

Lemma over_refl s : mc_ok (ms_mc s) -> over s s.
Proof. by constructor. Qed.

Lemma bypass_read s0 s pa :
  over s0 s -> plain (banks (ms_mc s0)) pa ->
  exists s', MemAccessBypassRead4 pa s = (Val (word_at (banks (ms_mc s0)) pa), s') /\ over s0 s'.
Proof.
  intros [Em Eb Ew Hok] [Hpa Hp]. destruct s as [mm m]. cbn in *.
  destruct (find_bank_or_null_scan m pa Hok Hpa) as (c & Ef & Hok').
  set (m1 := m <| tl_cache := c |>) in *.
  assert (forall v, try_read32 pa false m = (Val v, m1) ->
    MemAccessBypassRead4 pa (mkMemsys mm m) =
      (Val (match v with (BusOk, Some out) => out | _ => 0 end), mkMemsys mm m1)) as Hr.
  { intros v E. unfold MemAccessBypassRead4, noexcept, on_mc, zoom, bindM. cbn. by rewrite E. }
  exists (mkMemsys mm m1). split; [|by constructor]. unfold try_read32 in Hr. unfold noexcept in Hr.
  rewrite (bindM_val _ _ _ _ _ Ef) in Hr. rewrite <- Eb in *. unfold word_at.
  destruct (scan_banks (banks m) 0 pa) as [[i b]|] eqn:Es; cbn [fmap option_fmap option_map fst] in Hr; [|by apply (Hr (NoDevice, None))].
  destruct b as [|base e d|]; [done| |done].
  destruct (scan_banks_Some _ _ _ _ _ Es) as (k & -> & Hk & Hc).
  assert (bank_wf (RamBank base e d)) as Hwf by (destruct Hok as [[Hf _] _]; rewrite Forall_lookup in Hf; eauto).
  apply (contains_iff _ _ Hwf Hpa) in Hc. destruct Hwf as (? & ? & ?). unfold holds in Hc. cbn in *.
  assert (u32 (pa - base) = pa - base) as Eo by (apply u32_id; unfold is_u32 in *; lia).
  destruct (peek32_in d (pa - base) e) as [v Ev]; [lia..|]. rewrite Ev. cbn.
  apply (Hr (BusOk, Some v)). unfold bank_read32, bank_at, bindM. cbn. rewrite Hk. cbn.
  unfold read32_fn. destruct e; unfold read32_be, read32_le; rewrite Eo, Ev; done.
Qed.
End plain_reads.

(** ** Walks *)

Definition next_entry (e ind : Z) : Z := u32 (shl32 (Z.shiftr (Z.land e 0xfffffffc) 2) 6 + ind * 4).
Definition inds (va : Z) : list Z :=
  [Z.land (Z.shiftr va 24) 0xff; Z.land (Z.shiftr va 18) 0x3f; Z.land (Z.shiftr va 12) 0x3f].

(** The addresses a walk reads, and the entry and the level it ends with. *)
Fixpoint walk (rd : Z -> Z) (a : Z) (is_ : list Z) (level : Z) : list Z * (Z * Z) :=
  match is_ with
  | i :: is_ =>
      if Z.land (rd a) 3 =? 1 then
        let r := walk rd (next_entry (rd a) i) is_ (level + 1) in (a :: r.1, r.2)
      else ([a], (rd a, level))
  | [] => ([a], (rd a, level))
  end.

(** The address with these three indices. *)
Definition va_of (i j k : Z) : Z := u32 (u32 (shl32 i 24 + shl32 j 18) + shl32 k 12).

Lemma va_of_sum i j k :
  0 <= i < 256 -> 0 <= j < 64 -> 0 <= k < 64 ->
  va_of i j k = i * 16777216 + j * 262144 + k * 4096 /\ is_u32 (va_of i j k).
Proof.
  intros Hi Hj Hk. unfold va_of, shl32. rewrite !Z.shiftl_mul_pow2 by lia.
  change (2 ^ 24) with 16777216. change (2 ^ 18) with 262144. change (2 ^ 12) with 4096.
  rewrite !(u32_id (_ * _)), (u32_id (_ * _ + _ * _)), u32_id by (unfold is_u32; lia). unfold is_u32. lia.
Qed.

Lemma field_mod x s n : 0 <= s -> 0 <= n -> Z.land (Z.shiftr x s) (Z.ones n) = x / 2 ^ s mod 2 ^ n.
Proof. intros. by rewrite Z.land_ones, Z.shiftr_div_pow2 by done. Qed.

Lemma inds_va i j k r :
  0 <= i < 256 -> 0 <= j < 64 -> 0 <= k < 64 -> 0 <= r < 4096 -> inds (va_of i j k + r) = [i; j; k].
Proof.
  intros Hi Hj Hk Hr. destruct (va_of_sum i j k Hi Hj Hk) as [-> _]. unfold inds.
  change 0xff with (Z.ones 8). change 0x3f with (Z.ones 6). rewrite !field_mod by lia.
  change (2 ^ 24) with 16777216. change (2 ^ 18) with 262144. change (2 ^ 12) with 4096.
  change (2 ^ 8) with 256. change (2 ^ 6) with 64. f_equal; [|f_equal; [|f_equal]]; Z.div_mod_to_equations; lia.
Qed.

(** Every address has three indices and an offset in its page. *)
Lemma va_split va : is_u32 va ->
  exists i j k r, 0 <= i < 256 /\ 0 <= j < 64 /\ 0 <= k < 64 /\ 0 <= r < 4096 /\ va = va_of i j k + r.
Proof.
  intros Hva. exists (va / 16777216), (va / 262144 mod 64), (va / 4096 mod 64), (va mod 4096). unfold is_u32 in Hva.
  assert (0 <= va / 16777216 < 256) by (Z.div_mod_to_equations; lia).
  assert (0 <= va / 262144 mod 64 < 64) by (apply Z.mod_pos_bound; lia).
  assert (0 <= va / 4096 mod 64 < 64) by (apply Z.mod_pos_bound; lia).
  assert (0 <= va mod 4096 < 4096) by (apply Z.mod_pos_bound; lia).
  destruct (va_of_sum (va / 16777216) (va / 262144 mod 64) (va / 4096 mod 64)) as [-> _]; [done..|].
  split_and!; try lia. Z.div_mod_to_equations. lia.
Qed.

Section walks.
Context {W : Type} `{DeviceBus W} (s0 : memsys W).
Abbreviation rd := (word_at (banks (ms_mc s0))).
Abbreviation root := (ctx_entry (ms_mmu s0)).

(** The walk of an address, as the indices say. *)
Definition walk_of (is_ : list Z) : list Z * (Z * Z) := walk rd root is_ 0.

(** Computations that return a value whatever the bank cache holds. *)
Definition yields {A} (m : M (memsys W) A) (a : A) : Prop :=
  forall s, over s0 s -> exists s', m s = (Val a, s') /\ over s0 s'.

Lemma yields_ret {A} (a : A) : yields (ret a) a.
Proof. intros s Hs. by exists s. Qed.
Lemma yields_bind {A B} (m : M (memsys W) A) (k : A -> M (memsys W) B) a b :
  yields m a -> yields (k a) b -> yields (bindM m k) b.
Proof. intros Hm Hk s Hs. destruct (Hm s Hs) as (s1 & E & H1). rewrite (bindM_val _ _ _ _ _ E). by apply Hk. Qed.
Lemma yields_read pa : plain (banks (ms_mc s0)) pa -> yields (MemAccessBypassRead4 pa) (rd pa).
Proof. intros Hp s Hs. by apply bypass_read. Qed.
Lemma yields_mmu {A} (f : MMU -> A) : yields (mmu_get f) (f (ms_mmu s0)).
Proof. intros s Hs. exists s. split; [|done]. unfold mmu_get, gets. by rewrite (ov_mmu _ _ Hs). Qed.

Lemma get_PTE_walk va :
  Forall (plain (banks (ms_mc s0))) (walk_of (inds va)).1 -> yields (get_PTE va) (walk_of (inds va)).2.
Proof.
  unfold get_PTE, get_PTE_from, walk_of, inds. cbn [walk]. unfold next_entry.
  intros Hp. eapply yields_bind; [apply yields_mmu|]. cbv zeta.
  repeat match goal with
  | Hp : Forall _ (if ?b then _ else _).1 |- _ => destruct b eqn:?; cbn [fst snd] in Hp |- *
  | Hp : Forall _ (_ :: _) |- _ => apply Forall_cons_1 in Hp as [? Hp]
  | |- yields (bindM (MemAccessBypassRead4 _) _) _ => eapply yields_bind; [by apply yields_read|]; cbv beta
  | E : (Z.land ?x 3 =? 1) = _ |- context [Z.land ?x 3 =? 1] => rewrite E
  | |- yields (ret _) _ => apply yields_ret
  end.
Qed.
End walks.

(** ** The rows before they are collapsed *)

Lemma shl32_drop x e : (forall n, 2 <= n < 28 -> Z.testbit x (n - 2) = Z.testbit e n) ->
  shl32 x 6 = shl32 (Z.shiftr (Z.land e 0xfffffffc) 2) 6.
Proof.
  intros Hx. unfold shl32, u32. change 4294967296 with (2 ^ 32). apply Z.bits_inj'. intros n Hn.
  destruct (decide (n < 32)); [|by rewrite !Z.mod_pow2_bits_high by lia]. rewrite !Z.mod_pow2_bits_low, !Z.shiftl_spec by lia.
  destruct (decide (n < 6)); [by rewrite !Z.testbit_neg_r by lia|].
  rewrite Z.shiftr_spec, Z.land_spec by lia. replace (n - 6) with (n - 4 - 2) by lia. rewrite Hx by lia.
  replace (n - 4 - 2 + 2) with (n - 4) by lia. change 0xfffffffc with (Z.shiftl (Z.ones 30) 2).
  rewrite Z.shiftl_spec, Z.ones_spec_low, andb_true_r by lia. done.
Qed.

(** The three ways the two walks of the tables compute the address of an entry. *)
Lemma entry_of_ptp e i : u32 (shl32 (Z.land e 0xfffffffc) 4 + 4 * i) = next_entry e i.
Proof.
  unfold next_entry. rewrite (Z.mul_comm 4 i). do 2 f_equal. unfold shl32. f_equal.
  rewrite <- Z.shiftl_shiftl with (n := 2) (m := 4) by lia. f_equal. apply Z.bits_inj'. intros n Hn.
  rewrite Z.shiftl_spec, Z.land_spec by lia. destruct (decide (n < 2)).
  - rewrite (Z.testbit_neg_r _ (n - 2)) by lia. change 0xfffffffc with (Z.shiftl (Z.ones 30) 2).
    rewrite Z.shiftl_spec, (Z.testbit_neg_r _ (n - 2)) by lia. apply andb_false_r.
  - rewrite Z.shiftr_spec, Z.land_spec by lia. by replace (n - 2 + 2) with n by lia.
Qed.
Lemma entry_of_ptd e i : u32 (shl32 (Z.shiftr e 2) 6 + 4 * i) = next_entry e i.
Proof.
  unfold next_entry. rewrite (Z.mul_comm 4 i), (shl32_drop _ e); [done|]. intros n Hn. rewrite Z.shiftr_spec by lia. f_equal. lia.
Qed.

Section rows.
Context {W : Type} `{DeviceBus W} (s0 : memsys W).
Abbreviation rd := (word_at (banks (ms_mc s0))).
Abbreviation root := (ctx_entry (ms_mmu s0)).
Abbreviation yields := (yields s0).

(** What each level of the loops appends. *)
Definition rows3 (i j e2 k : Z) : list TR :=
  let e := rd (next_entry e2 k) in
  if Z.land e 3 =? 2 then [tr_of (va_of i j k) e 0xfff 1] else [].
Definition rows2 (i e1 j : Z) : list TR :=
  let e := rd (next_entry e1 j) in
  if Z.land e 3 =? 2 then [tr_of (va_of i j 0) e 0xfffff 256]
  else if Z.land e 3 =? 1 then seqZ 0 64 ≫= rows3 i j e else [].
Definition rows1 (e0 i : Z) : list TR :=
  let e := rd (next_entry e0 i) in
  if Z.land e 3 =? 2 then [tr_of (va_of i 0 0) e 0xffffff 4096]
  else if Z.land e 3 =? 1 then seqZ 0 64 ≫= rows2 i e else [].
Definition all_rows : list TR := seqZ 0 256 ≫= rows1 (rd root).

Lemma yields_push n (f : Z -> list TR) body : forall k,
  (forall x, k <= x < k + Z.of_nat n -> yields (body x) (f x)) ->
  yields (push_rows n k body) (seqZ k (Z.of_nat n) ≫= f).
Proof.
  induction n as [|n IH]; intros k Hb; [apply yields_ret|].
  rewrite seqZ_cons by lia. cbn [push_rows mbind list_bind]. eapply yields_bind; [apply Hb; lia|].
  eapply yields_bind; [apply IH; intros; apply Hb; lia|]. replace (Z.pred (Z.of_nat (S n))) with (Z.of_nat n) by lia.
  unfold Z.succ. apply yields_ret.
Qed.

Context (Hplain : forall va, is_u32 va -> Forall (plain (banks (ms_mc s0))) (walk_of s0 (inds va)).1).

Lemma plain_walk i j k : 0 <= i < 256 -> 0 <= j < 64 -> 0 <= k < 64 ->
  Forall (plain (banks (ms_mc s0))) (walk_of s0 [i; j; k]).1.
Proof.
  intros Hi Hj Hk. destruct (va_of_sum i j k Hi Hj Hk) as [_ Hva]. specialize (Hplain _ Hva).
  replace (va_of i j k) with (va_of i j k + 0) in Hplain by lia. by rewrite inds_va in Hplain.
Qed.

Context (Hroot : Z.land (rd root) 3 = 1).

Lemma plain_entry1 i : 0 <= i < 256 -> plain (banks (ms_mc s0)) (next_entry (rd root) i).
Proof.
  intros Hi. pose proof (plain_walk i 0 0 Hi ltac:(lia) ltac:(lia)) as Hw. unfold walk_of in Hw. cbn [walk] in Hw.
  rewrite Hroot in Hw. change (1 =? 1) with true in Hw. cbn [fst] in Hw. apply Forall_cons_1 in Hw as [_ Hw].
  by case_match; apply Forall_cons_1 in Hw as [? _].
Qed.

Lemma plain_entry2 i j e1 : 0 <= i < 256 -> 0 <= j < 64 -> e1 = rd (next_entry (rd root) i) -> Z.land e1 3 = 1 ->
  plain (banks (ms_mc s0)) (next_entry e1 j).
Proof.
  intros Hi Hj -> He. pose proof (plain_walk i j 0 Hi Hj ltac:(lia)) as Hw. unfold walk_of in Hw. cbn [walk] in Hw.
  rewrite Hroot, He in Hw. change (1 =? 1) with true in Hw. cbn [fst] in Hw. do 2 apply Forall_cons_1 in Hw as [_ Hw].
  by case_match; apply Forall_cons_1 in Hw as [? _].
Qed.

Lemma plain_entry3 i j k e1 e2 : 0 <= i < 256 -> 0 <= j < 64 -> 0 <= k < 64 ->
  e1 = rd (next_entry (rd root) i) -> Z.land e1 3 = 1 -> e2 = rd (next_entry e1 j) -> Z.land e2 3 = 1 ->
  plain (banks (ms_mc s0)) (next_entry e2 k).
Proof.
  intros Hi Hj Hk -> He -> He2. pose proof (plain_walk i j k Hi Hj Hk) as Hw. unfold walk_of in Hw. cbn [walk] in Hw.
  rewrite Hroot, He, He2 in Hw. change (1 =? 1) with true in Hw. cbn [fst] in Hw. do 3 apply Forall_cons_1 in Hw as [_ Hw].
  by apply Forall_cons_1 in Hw as [? _].
Qed.

Lemma va_of_2 i j : va_of i j 0 = u32 (shl32 i 24 + shl32 j 18).
Proof. unfold va_of. change (shl32 0 12) with 0. rewrite Z.add_0_r. apply u32_id, u32_range. Qed.
Lemma va_of_1 i : va_of i 0 0 = shl32 i 24.
Proof. rewrite va_of_2. change (shl32 0 18) with 0. rewrite Z.add_0_r. apply u32_id, u32_range. Qed.

Lemma yields_rows : yields (push_rows 256 0 (level1_rows (shl32 (Z.land (rd root) 0xfffffffc) 4))) all_rows.
Proof.
  apply (yields_push 256 (rows1 (rd root))). intros i Hi. unfold level1_rows, rows1. rewrite entry_of_ptp, va_of_1.
  eapply yields_bind; [apply yields_read, plain_entry1; lia|]. cbv zeta. set (e1 := rd (next_entry (rd root) i)).
  destruct (Z.land e1 3 =? 2); [apply yields_ret|]. destruct (Z.land e1 3 =? 1) eqn:E1; [|apply yields_ret].
  apply Z.eqb_eq in E1. apply (yields_push 64 (rows2 i e1)). intros j Hj. unfold level2_rows, rows2. rewrite entry_of_ptd, va_of_2.
  eapply yields_bind; [apply yields_read; apply (plain_entry2 i); first [lia|done]|]. cbv zeta. set (e2 := rd (next_entry e1 j)).
  destruct (Z.land e2 3 =? 2); [apply yields_ret|]. destruct (Z.land e2 3 =? 1) eqn:E2; [|apply yields_ret].
  apply Z.eqb_eq in E2. apply (yields_push 64 (rows3 i j e2)). intros k Hk. unfold level3_row, rows3. rewrite entry_of_ptd.
  eapply yields_bind; [apply yields_read; apply (plain_entry3 i j k e1); first [lia|done]|]. apply yields_ret.
Qed.
End rows.

(** ** What the rows say *)

(** A row says that [va] is mapped to [pa] with the permissions [p]. *)
Definition covers (tr : TR) (va pa : Z) (p : string) : Prop :=
  exists x, 0 <= x < pages tr * 4096 /\ va = u32 (start_va tr + x) /\ pa = u32 (start_pa tr + x) /\ p = perms tr.
Definition say (trs : list TR) (va pa : Z) (p : string) : Prop := exists tr, tr ∈ trs /\ covers tr va pa p.

Definition pte_perms (pte : Z) : string := get_perms (Z.land (Z.shiftr pte 7) 0x1) (acc_of pte).
Definition block_size (level : Z) : Z := if level =? 1 then 16777216 else 4096.

Lemma covers_tr_of base pte span n va pa p :
  covers (tr_of base pte span n) va pa p <->
  exists x, 0 <= x < n * 4096 /\ va = u32 (base + x) /\ pa = u32 (shl32 (Z.shiftr pte 8) 12 + x) /\ p = pte_perms pte.
Proof. done. Qed.

Lemma inds_block i x : 0 <= i < 256 -> 0 <= x < 16777216 ->
  va_of i 0 0 + x = i * 16777216 + x /\ exists j k, 0 <= j < 64 /\ 0 <= k < 64 /\ inds (va_of i 0 0 + x) = [i; j; k].
Proof.
  intros Hi Hx. destruct (va_of_sum i 0 0 Hi ltac:(lia) ltac:(lia)) as [E _]. split; [lia|].
  destruct (va_split (va_of i 0 0 + x)) as (i' & j & k & r & Hi' & Hj & Hk & Hr & E'); [unfold is_u32; lia|].
  destruct (va_of_sum i' j k Hi' Hj Hk) as [E2 _]. assert (i' = i) as -> by lia. exists j, k. rewrite E', inds_va by done. done.
Qed.

Section said.
Context {W : Type} `{DeviceBus W} (s0 : memsys W).
Abbreviation rd := (word_at (banks (ms_mc s0))).
Abbreviation root := (ctx_entry (ms_mmu s0)).
Context (Hroot : Z.land (rd root) 3 = 1).

(** The walk, given what it finds at each level. *)
Lemma walk_1 i j k : Z.land (rd (next_entry (rd root) i)) 3 <> 1 ->
  (walk_of s0 [i; j; k]).2 = (rd (next_entry (rd root) i), 1).
Proof. intros Hn. unfold walk_of. cbn [walk]. rewrite Hroot. change (1 =? 1) with true. by rewrite (proj2 (Z.eqb_neq _ 1) Hn). Qed.
Lemma walk_2 i j k e1 : e1 = rd (next_entry (rd root) i) -> Z.land e1 3 = 1 -> Z.land (rd (next_entry e1 j)) 3 <> 1 ->
  (walk_of s0 [i; j; k]).2 = (rd (next_entry e1 j), 2).
Proof.
  intros -> H1 Hn. unfold walk_of. cbn [walk]. rewrite Hroot, H1. change (1 =? 1) with true. by rewrite (proj2 (Z.eqb_neq _ 1) Hn).
Qed.
Lemma walk_3 i j k e1 e2 : e1 = rd (next_entry (rd root) i) -> Z.land e1 3 = 1 -> e2 = rd (next_entry e1 j) -> Z.land e2 3 = 1 ->
  (walk_of s0 [i; j; k]).2 = (rd (next_entry e2 k), 3).
Proof. intros -> H1 -> H2. unfold walk_of. cbn [walk]. by rewrite Hroot, H1, H2. Qed.

(** No entry of a second level table is a page. *)
Context (Hno2 : forall va pte, is_u32 va -> (walk_of s0 (inds va)).2 = (pte, 2) -> Z.land pte 3 <> 2).

Lemma no_leaf_2 i j e1 : 0 <= i < 256 -> 0 <= j < 64 -> e1 = rd (next_entry (rd root) i) -> Z.land e1 3 = 1 ->
  Z.land (rd (next_entry e1 j)) 3 <> 2.
Proof.
  intros Hi Hj E1 H1 H2. destruct (va_of_sum i j 0 Hi Hj ltac:(lia)) as [_ Hva].
  eapply (Hno2 _ _ Hva); [|exact H2]. replace (va_of i j 0) with (va_of i j 0 + 0) by lia. rewrite inds_va by lia.
  eapply walk_2; [done..|]. lia.
Qed.

(** Where the walk of an address ends, the row that says so. *)
Definition walked (va pa : Z) (p : string) : Prop :=
  exists pte level, (walk_of s0 (inds va)).2 = (pte, level) /\ Z.land pte 3 = 2 /\
    pa = u32 (shl32 (Z.shiftr pte 8) 12 + va mod block_size level) /\ p = pte_perms pte.

Lemma rows_sound va pa p : is_u32 va -> say (all_rows s0) va pa p -> walked va pa p.
Proof.
  intros Hva (tr & Htr & Hc). unfold all_rows in Htr. apply list_elem_of_bind in Htr as (i & Htr & Hi%elem_of_seqZ).
  unfold rows1 in Htr. set (e1 := rd (next_entry (rd root) i)) in *.
  destruct (Z.land e1 3 =? 2) eqn:E1; [|destruct (Z.land e1 3 =? 1) eqn:E1'; [|by apply elem_of_nil in Htr]].
  - apply list_elem_of_singleton in Htr as ->. apply covers_tr_of in Hc as (x & Hx & -> & -> & ->).
    destruct (inds_block i x) as (Ex & j & k & Hj & Hk & Ei); [lia..|].
    rewrite u32_id in Hva |- * by (unfold is_u32; lia). exists e1, 1. rewrite Ei, walk_1 by (fold e1; lia). split_and!; [done|lia| |done].
    do 2 f_equal. unfold block_size. cbn. rewrite Ex. Z.div_mod_to_equations. lia.
  - apply list_elem_of_bind in Htr as (j & Htr & Hj%elem_of_seqZ). unfold rows2 in Htr. set (e2 := rd (next_entry e1 j)) in *.
    rewrite (proj2 (Z.eqb_neq (Z.land e2 3) 2)) in Htr by (apply (no_leaf_2 i j e1); first [lia|done]).
    destruct (Z.land e2 3 =? 1) eqn:E2; [|by apply elem_of_nil in Htr].
    apply list_elem_of_bind in Htr as (k & Htr & Hk%elem_of_seqZ). unfold rows3 in Htr.
    destruct (Z.land (rd (next_entry e2 k)) 3 =? 2) eqn:E3; [|by apply elem_of_nil in Htr].
    apply list_elem_of_singleton in Htr as ->. apply covers_tr_of in Hc as (x & Hx & -> & -> & ->).
    destruct (va_of_sum i j k) as [Es _]; [lia..|]. rewrite u32_id in Hva |- * by (unfold is_u32; lia).
    exists (rd (next_entry e2 k)), 3. rewrite inds_va, (walk_3 i j k e1 e2) by first [lia|done]. split_and!; [done|lia| |done].
    do 2 f_equal. unfold block_size. cbn. rewrite Es. Z.div_mod_to_equations. lia.
Qed.

Lemma rows_complete va pa p : is_u32 va -> walked va pa p -> say (all_rows s0) va pa p.
Proof.
  intros Hva (pte & level & Hw & Hl & -> & ->).
  destruct (va_split va Hva) as (i & j & k & r & Hi & Hj & Hk & Hr & ->). rewrite inds_va in Hw by done.
  destruct (va_of_sum i j k Hi Hj Hk) as [Es _], (va_of_sum i 0 0 Hi ltac:(lia) ltac:(lia)) as [Es1 _]. set (e1 := rd (next_entry (rd root) i)).
  assert (forall tr, tr ∈ rows1 s0 (rd root) i -> tr ∈ all_rows s0) as Hin.
  { intros tr Htr. apply list_elem_of_bind. exists i. split; [done|]. apply elem_of_seqZ. lia. }
  destruct (decide (Z.land e1 3 = 1)) as [E1|E1].
  - assert (Z.land (rd (next_entry e1 j)) 3 <> 2) as N2 by (apply (no_leaf_2 i j e1); done).
    destruct (decide (Z.land (rd (next_entry e1 j)) 3 = 1)) as [E2|E2].
    + rewrite (walk_3 i j k e1 _ eq_refl E1 eq_refl E2) in Hw. injection Hw as <- <-.
      eexists. split; [apply Hin|].
      { unfold rows1. fold e1. rewrite E1. cbn. apply list_elem_of_bind. exists j. split; [|apply elem_of_seqZ; lia].
        unfold rows2. rewrite E2. cbn. apply list_elem_of_bind. exists k. split; [|apply elem_of_seqZ; lia].
        unfold rows3. rewrite Hl. cbn. apply list_elem_of_singleton. reflexivity. }
      apply covers_tr_of. exists r. split; [lia|]. split; [by rewrite u32_id|]. split; [|done].
      do 2 f_equal. unfold block_size. cbn. rewrite Es. Z.div_mod_to_equations. lia.
    + rewrite (walk_2 i j k e1 eq_refl E1 E2) in Hw. by injection Hw as <- <-.
  - rewrite (walk_1 i j k E1) in Hw. injection Hw as <- <-. fold e1 in Hl.
    eexists. split; [apply Hin|].
    { unfold rows1. fold e1. rewrite Hl. cbn. apply list_elem_of_singleton. reflexivity. }
    apply covers_tr_of. exists (j * 262144 + k * 4096 + r). split; [lia|]. split.
    { rewrite Es, Es1. unfold is_u32 in Hva. rewrite u32_id by (unfold is_u32; lia). lia. }
    split; [|done]. fold e1. do 2 f_equal. unfold block_size. cbn. rewrite Es. Z.div_mod_to_equations. lia.
Qed.
End said.

(** ** Collapsing the rows *)

Definition tr_wf (tr : TR) : Prop :=
  0 < pages tr /\ end_va tr = u32 (start_va tr + pages tr * 4096 - 1) /\ end_pa tr = u32 (start_pa tr + pages tr * 4096 - 1).
Definition total_pages (trs : list TR) : Z := foldr (fun tr n => pages tr + n) 0 trs.

Lemma total_pages_nonneg trs : Forall tr_wf trs -> 0 <= total_pages trs.
Proof. unfold total_pages. induction 1 as [|tr trs [Hp _] _ IH]; cbn; lia. Qed.

Lemma u32_add_l x y : u32 (u32 x + y) = u32 (x + y).
Proof. unfold u32. apply Zplus_mod_idemp_l. Qed.

(** A row that continues another says what both say together. *)
Lemma merged_covers tr next va pa p :
  tr_wf tr -> tr_wf next -> continues tr next = true -> pages tr + pages next < 4294967296 ->
  let m := mkTR (start_va tr) (end_va next) (start_pa tr) (end_pa next) (perms next) (u32 (pages next + pages tr)) in
  tr_wf m /\ (covers m va pa p <-> covers tr va pa p \/ covers next va pa p).
Proof.
  intros (P1 & A1 & B1) (P2 & A2 & B2) Hc Hb m. unfold continues in Hc.
  apply andb_true_iff in Hc as [[Hv%Z.eqb_eq Hp%Z.eqb_eq]%andb_true_iff Hs%String.eqb_eq].
  rewrite A1, u32_add_l in Hv. rewrite B1, u32_add_l in Hp.
  assert (pages m = pages tr + pages next) as Em by (unfold m; cbn; rewrite u32_id by (unfold is_u32; lia); lia).
  assert (forall x, u32 (start_va next + x) = u32 (start_va tr + (pages tr * 4096 + x))) as Sv
    by (intros x; rewrite <- Hv, u32_add_l; f_equal; lia).
  assert (forall x, u32 (start_pa next + x) = u32 (start_pa tr + (pages tr * 4096 + x))) as Sp
    by (intros x; rewrite <- Hp, u32_add_l; f_equal; lia).
  split.
  - split; [lia|]. rewrite Em. cbn [start_va end_va start_pa end_pa m]. rewrite A2, B2. unfold Z.sub. rewrite <- !Z.add_assoc.
    rewrite Sv, Sp. split; f_equal; lia.
  - unfold covers at 1. rewrite Em. cbn [start_va start_pa perms m]. split.
    + intros (x & Hx & -> & -> & ->). destruct (decide (x < pages tr * 4096)).
      * left. exists x. split; [lia|]. by rewrite Hs.
      * right. exists (x - pages tr * 4096). split; [lia|]. rewrite Sv, Sp. by replace (pages tr * 4096 + (x - pages tr * 4096)) with x by lia.
    + intros [(x & Hx & -> & -> & ->)|(x & Hx & -> & -> & ->)].
      * exists x. split; [lia|]. by rewrite Hs.
      * exists (pages tr * 4096 + x). split; [lia|]. by rewrite Sv, Sp.
Qed.

Lemma say_cons tr trs va pa p : say (tr :: trs) va pa p <-> covers tr va pa p \/ say trs va pa p.
Proof. unfold say. setoid_rewrite elem_of_cons. naive_solver. Qed.

Lemma printed_cons tr trs : printed (tr :: trs) = if 0 <? pages tr then tr :: printed trs else printed trs.
Proof. done. Qed.

(** Collapsing changes nothing of what the rows say. *)
Lemma collapse_says va pa p rest : forall tr,
  Forall tr_wf (tr :: rest) -> total_pages (tr :: rest) < 4294967296 ->
  say (printed (collapse_from tr rest)) va pa p <-> say (tr :: rest) va pa p.
Proof.
  induction rest as [|next rest IH]; intros tr Hwf Ht.
  - cbn [collapse_from]. rewrite printed_cons. apply Forall_cons_1 in Hwf as [[Hp _] _]. by rewrite (proj2 (Z.ltb_lt _ _) Hp).
  - apply Forall_cons_1 in Hwf as [Ht1 Hwf]. pose proof Hwf as Hwf'. apply Forall_cons_1 in Hwf' as [Hn Hr].
    pose proof (total_pages_nonneg rest Hr) as H0. cbn [total_pages foldr] in Ht. fold (total_pages rest) in Ht. cbn [collapse_from]. destruct (continues tr next) eqn:Ec.
    + destruct (merged_covers tr next va pa p Ht1 Hn Ec ltac:(lia)) as [Hm Hc]. rewrite printed_cons. cbn [pages]. change (0 <? 0) with false.
      cbn iota. rewrite IH; [|by constructor|].
      * rewrite !say_cons, Hc. tauto.
      * cbn [total_pages foldr pages]. fold (total_pages rest). destruct Ht1, Hn. rewrite u32_id by (unfold is_u32; lia). lia.
    + rewrite printed_cons. destruct Ht1 as [Hp _]. rewrite (proj2 (Z.ltb_lt _ _) Hp), !say_cons, (IH next); [by rewrite say_cons|done|].
      cbn [total_pages foldr]. fold (total_pages rest). lia.
Qed.

(** The rows of the tables are well formed, and there are not too many pages. *)
Lemma total_pages_app l1 l2 : total_pages (l1 ++ l2) = total_pages l1 + total_pages l2.
Proof. induction l1; cbn; [done|]. unfold total_pages in *. cbn. lia. Qed.

Lemma rows_bounded (f : Z -> list TR) bound n : forall k,
  (forall x, Forall tr_wf (f x) /\ total_pages (f x) <= bound) ->
  Forall tr_wf (seqZ k (Z.of_nat n) ≫= f) /\ total_pages (seqZ k (Z.of_nat n) ≫= f) <= Z.of_nat n * bound.
Proof.
  intros k Hf. revert k. induction n as [|n IH]; intros k; [by split; [constructor|]|].
  rewrite seqZ_cons by lia. replace (Z.pred (Z.of_nat (S n))) with (Z.of_nat n) by lia. cbn [mbind list_bind].
  destruct (Hf k) as [H1 H2], (IH (Z.succ k)) as [H3 H4]. split; [by apply Forall_app_2|]. rewrite total_pages_app.
  cbn [mbind list_bind] in H4. lia.
Qed.

Lemma tr_of_wf base pte span n : 0 < n -> span = n * 4096 - 1 -> tr_wf (tr_of base pte span n).
Proof. intros Hn ->. unfold tr_of, tr_wf. cbn [pages start_va end_va start_pa end_pa]. rewrite !Z.add_sub_assoc. done. Qed.

Lemma all_rows_bounded {W} `{DeviceBus W} (s0 : memsys W) :
  Forall tr_wf (all_rows s0) /\ total_pages (all_rows s0) <= 4194304.
Proof.
  assert (forall base pte span n bound, 0 < n <= bound -> span = n * 4096 - 1 ->
    Forall tr_wf [tr_of base pte span n] /\ total_pages [tr_of base pte span n] <= bound) as Hone.
  { intros. split; [constructor; [apply tr_of_wf; [lia|done]|constructor]|]. cbn. lia. }
  apply (rows_bounded _ 16384 256). intros i. unfold rows1. cbv zeta. case_match; [apply Hone; lia|]. case_match; [|by split; [constructor|]].
  apply (rows_bounded _ 256 64). intros j. unfold rows2. cbv zeta. case_match; [apply Hone; lia|]. case_match; [|by split; [constructor|]].
  match goal with |- context [rows3 s0 i j ?e] => destruct (rows_bounded (rows3 s0 i j e) 1 64 0) as [Hw Hn] end;
    [|split; [exact Hw|]; etransitivity; [exact Hn|lia]].
  intros k. unfold rows3. cbv zeta. case_match; [apply Hone; lia|by split; [constructor|]].
Qed.

(** ** The listing and the MMU *)

(** Whether the letters of a row allow an access: the first three are the
    supervisor's, the others the user's. *)
Definition letter (p : string) (rw : intent) (sup : bool) : bool :=
  let n := ((if sup then 1 else 4) + match rw with intent_load => 0 | intent_store => 1 | intent_execute => 2 end)%nat in
  match String.get n p with
  | Some c => negb (Ascii.eqb c (Ascii.ascii_of_N 45))
  | None => false
  end.

Lemma letters_allow pte rw sup : letter (pte_perms pte) rw sup = acc_allows (acc_of pte) rw sup.
Proof.
  unfold pte_perms, get_perms. pose proof (acc_cases pte) as Ha.
  destruct (_ =? 1); repeat (apply elem_of_cons in Ha as [->|Ha]); try (by apply elem_of_nil in Ha); by destruct rw, sup.
Qed.

Lemma ppn_masked pte : shl32 (Z.shiftr (Z.land pte 0xffffff00) 8) 12 = shl32 (Z.shiftr pte 8) 12.
Proof.
  unfold shl32, u32. change 4294967296 with (2 ^ 32). apply Z.bits_inj'. intros n Hn.
  destruct (decide (n < 32)); [|by rewrite !Z.mod_pow2_bits_high by lia]. rewrite !Z.mod_pow2_bits_low, !Z.shiftl_spec by lia.
  destruct (decide (n < 12)); [by rewrite !Z.testbit_neg_r by lia|]. rewrite !Z.shiftr_spec, Z.land_spec by lia.
  change 0xffffff00 with (Z.shiftl (Z.ones 24) 8). rewrite Z.shiftl_spec, Z.ones_spec_low by lia. apply andb_true_r.
Qed.

(** The address of a page is the one the translation assembles. *)
Lemma assemble_block va pte level :
  level = 3 \/ level = 1 /\ Z.shiftr pte 8 mod 4096 = 0 ->
  u32 (shl32 (Z.shiftr pte 8) 12 + va mod block_size level) = assemble_pa va pte level.
Proof.
  intros Hl. unfold assemble_pa. rewrite ppn_masked. set (b := Z.shiftr pte 8) in *.
  assert (forall n, 12 <= n <= 24 -> b mod 2 ^ (n - 12) = 0 ->
    u32 (shl32 b 12 + va mod 2 ^ n) = Z.lor (Z.land va (Z.ones n)) (shl32 b 12)) as Hgen.
  { intros n Hn Hb. rewrite Z.land_ones by lia. rewrite Z.lor_comm.
    assert (0 <= va mod 2 ^ n < 2 ^ n) as Hm by (apply Z.mod_pos_bound; lia).
    assert (shl32 b 12 mod 2 ^ n = 0) as Hs.
    { unfold shl32, u32. rewrite Z.shiftl_mul_pow2 by lia. change 4294967296 with (2 ^ 32).
      replace (2 ^ 32) with (2 ^ n * 2 ^ (32 - n)) by (rewrite <- Z.pow_add_r by lia; f_equal; lia).
      rewrite Z.rem_mul_r by (try apply Z.pow_nonzero; try apply Z.pow_pos_nonneg; lia).
      rewrite (Z.mul_comm (2 ^ n)), Z.mod_add by (apply Z.pow_nonzero; lia).
      rewrite Z.mod_mod by (apply Z.pow_nonzero; lia).
      apply Z.mod_divide; [apply Z.pow_nonzero; lia|]. apply Z.mod_divide in Hb as [q Hq]; [|apply Z.pow_nonzero; lia].
      exists q. rewrite Hq, <- Z.mul_assoc, <- Z.pow_add_r by lia. do 2 f_equal. lia. }
    rewrite (lor_add _ _ n) by (first [lia|done]). apply u32_id.
    pose proof (shl32_u32 b 12) as Hr. unfold is_u32 in *. apply Z.mod_divide in Hs as [q Hq]; [|apply Z.pow_nonzero; lia].
    change 4294967296 with (2 ^ 32) in *. assert (2 ^ 32 = 2 ^ (32 - n) * 2 ^ n) as E32 by (rewrite <- Z.pow_add_r by lia; f_equal; lia).
    assert (q < 2 ^ (32 - n)) by (apply (Z.mul_lt_mono_pos_r (2 ^ n)); lia). nia. }
  destruct Hl as [->|[-> Hb]]; unfold block_size.
  - change (u32 (shl32 b 12 + va mod 2 ^ 12) = Z.lor (Z.land va (Z.ones 12)) (shl32 b 12)).
    apply Hgen; [lia|]. change (2 ^ (12 - 12)) with 1. apply Z.mod_1_r.
  - change (u32 (shl32 b 12 + va mod 2 ^ 24) = Z.lor (Z.land va (Z.ones 24)) (shl32 b 12)).
    by apply Hgen; [lia|].
Qed.

Section listing.
Context {W : Type} `{DeviceBus W}.

(** A memory system whose tables can be listed: the MMU is on, the walks stay
    in RAM, there is a first level table, and no page is of the second level or,
    in the first, off its alignment. *)
Record listable (s : memsys W) : Prop := {
  li_on : get_enabled (ms_mmu s) = true; li_ok : mc_ok (ms_mc s);
  li_root : Z.land (word_at (banks (ms_mc s)) (ctx_entry (ms_mmu s))) 3 = 1;
  li_plain va : is_u32 va -> Forall (plain (banks (ms_mc s))) (walk_of s (inds va)).1;
  li_no2 va pte : is_u32 va -> (walk_of s (inds va)).2 = (pte, 2) -> Z.land pte 3 <> 2;
  li_aligned va pte : is_u32 va -> (walk_of s (inds va)).2 = (pte, 1) -> Z.land pte 3 = 2 -> Z.shiftr pte 8 mod 4096 = 0 }.

Lemma walk_level s va pte level :
  listable s -> is_u32 va -> (walk_of s (inds va)).2 = (pte, level) -> Z.land pte 3 = 2 ->
  level = 3 \/ level = 1 /\ Z.shiftr pte 8 mod 4096 = 0.
Proof.
  intros Hs Hva Hw Hp. pose proof (li_no2 s Hs va pte Hva) as N2. pose proof (li_aligned s Hs va pte Hva) as A1. revert Hw N2 A1.
  unfold walk_of, inds. cbn [walk]. rewrite (li_root s Hs). change (1 =? 1) with true. cbn [snd]. change (0 + 1) with 1.
  repeat (case_match; cbn [snd]; [|intros [= <- <-]; naive_solver]). change (1 + 1 + 1) with 3. intros [= <- <-]. auto.
Qed.

(** What the MMU makes of an address, in the terms of the rows. *)
Definition translated s (va pa : Z) (p : string) : Prop :=
  exists pte level, (get_PTE va s).1 = Val (pte, level) /\ Z.land pte 3 = 2 /\ pa = assemble_pa va pte level /\
    p = pte_perms pte /\ forall rw sup, letter p rw sup = acc_allows (acc_of pte) rw sup.

Lemma walked_translated s va pa p : listable s -> is_u32 va -> walked s va pa p <-> translated s va pa p.
Proof.
  intros Hs Hva. destruct (get_PTE_walk s va (li_plain s Hs va Hva) s (over_refl s (li_ok s Hs))) as (s' & E & _).
  unfold walked, translated. rewrite E. cbn [fst]. split; intros (pte & level & A & B & C & D); exists pte, level.
  - split; [by rewrite A|]. split; [done|]. rewrite C. split; [apply assemble_block; by apply (walk_level s va)|].
    subst p. split; [done|]. apply letters_allow.
  - injection A as A. split; [done|]. split; [done|]. split; [|apply D]. rewrite C. symmetry. apply assemble_block.
    by apply (walk_level s va).
Qed.

Lemma rows_say s va pa p : listable s -> is_u32 va -> say (all_rows s) va pa p <-> translated s va pa p.
Proof.
  intros Hs Hva. rewrite <- walked_translated by done.
  split; [by apply rows_sound; [apply li_root|apply li_no2|]|by apply rows_complete; [apply li_root|apply li_no2|]].
Qed.

Lemma tables_listed s tr rest : listable s -> all_rows s = tr :: rest ->
  yields s debug_mmu_tables (Tables (ctx_n (ms_mmu s)) (printed (collapse_from tr rest))).
Proof.
  intros [Hon Hok Hr Hpl _ _] El. unfold debug_mmu_tables.
  eapply yields_bind; [apply yields_mmu|]. rewrite Hon. cbn [negb]. do 2 (eapply yields_bind; [apply yields_mmu|]).
  eapply yields_bind; [apply yields_read|].
  { pose proof (Hpl 0 ltac:(done)) as Hw. unfold walk_of, inds in Hw. cbn [walk] in Hw. rewrite Hr in Hw. by apply Forall_cons_1 in Hw as [? _]. }
  cbv zeta. rewrite Hr. change (negb (1 =? 1)) with false. cbn iota.
  eapply yields_bind; [by apply yields_rows|]. rewrite El. cbn [collapse]. eapply yields_bind; [apply yields_ret|]. apply yields_ret.
Qed.

(** C13. The listing of the page tables tells the truth, for a processor whose
    MMU is on and whose tables map at least one page, lie where their walks
    read memory, have no page of the second level and only size-aligned pages
    of the first level: [debug_mmu_tables] returns, changes nothing but the
    bank cache, and its rows say of an address exactly what the MMU does with
    it: they show a translation precisely when the table walk ends in a page,
    with the physical address the translation assembles, and with letters that
    allow exactly the accesses the permission check allows.  Outside these
    conditions the listing fails: with no page mapped it leaves its vector
    ([no_pages_crash]), and a page of the second level is shown with the wrong
    size ([level2_overstated]). *)
Theorem tables_tell_truth s va0 pte0 level0 :
  listable s -> is_u32 va0 -> (get_PTE va0 s).1 = Val (pte0, level0) -> Z.land pte0 3 = 2 ->
  exists lines s', debug_mmu_tables s = (Val (Tables (ctx_n (ms_mmu s)) lines), s') /\ over s s' /\
    forall va pa p, is_u32 va ->
      (say lines va pa p <->
       exists pte level, (get_PTE va s).1 = Val (pte, level) /\ Z.land pte 3 = 2 /\
         pa = assemble_pa va pte level /\ p = pte_perms pte /\
         forall rw sup, letter p rw sup = acc_allows (acc_of pte) rw sup).
Proof.
  intros Hs Hva0 Hw0 Hp0. destruct (all_rows_bounded s) as [Hwf Htot].
  destruct (all_rows s) as [|tr rest] eqn:El.
  - assert (say (all_rows s) va0 (assemble_pa va0 pte0 level0) (pte_perms pte0)) as (tr & Htr & _).
    { apply rows_say; [done..|]. exists pte0, level0. split_and!; try done. apply letters_allow. }
    rewrite El in Htr. by apply elem_of_nil in Htr.
  - destruct (tables_listed s tr rest Hs El s (over_refl s (li_ok s Hs))) as (s' & E & Ho).
    eexists _, s'. split; [exact E|]. split; [done|]. intros va pa p Hva.
    rewrite collapse_says by (done || lia). rewrite <- El. by apply rows_say.
Qed.
End listing.

(** With no page in the tables at all the pass over the rows leaves the vector. *)
Lemma no_pages_crash {W} `{DeviceBus W} (s : memsys W) :
  listable s -> all_rows s = [] -> exists s', debug_mmu_tables s = (Crash UndefinedBehaviour, s').
Proof.
  intros [Hon Hok Hr Hpl _ _] El. unfold debug_mmu_tables.
  rewrite (bindM_val (mmu_get get_enabled) _ s true s) by (unfold mmu_get, gets; by rewrite Hon). cbn [negb].
  rewrite (bindM_val (mmu_get ctx_n) _ s _ s eq_refl), (bindM_val (mmu_get ctx_entry) _ s _ s eq_refl).
  pose proof (Hpl 0 ltac:(done)) as Hw. unfold walk_of, inds in Hw. cbn [walk] in Hw. rewrite Hr in Hw. apply Forall_cons_1 in Hw as [Hroot _].
  destruct (yields_read s _ Hroot s (over_refl s Hok)) as (s1 & E1 & Ho1). rewrite (bindM_val _ _ _ _ _ E1). cbv zeta. rewrite Hr.
  change (negb (1 =? 1)) with false. cbn iota.
  destruct (yields_rows s Hpl Hr s1 Ho1) as (s2 & E2 & _). rewrite (bindM_val _ _ _ _ _ E2), El. by exists s2.
Qed.

(** ** Examples *)

#[local] Existing Instance no_devices.

(** Every walk of the example ends in the first level. *)
Lemma demo_walk va : is_u32 va -> exists i, 0 <= i < 256 /\
  walk_of demo_vm (inds va) =
    ([0x40000014; 0x40000400 + 4 * i], (if i =? 64 then 0x4000000e else 0, 1)).
Proof.
  intros Hva. destruct (va_split va Hva) as (i & j & k & r & Hi & Hj & Hk & Hr & ->). rewrite inds_va by done. exists i. split; [done|].
  assert (word_at (banks (ms_mc demo_vm)) (ctx_entry (ms_mmu demo_vm)) = 0x04000041) as E0 by (vm_compute; reflexivity).
  assert (next_entry 0x04000041 i = 0x40000400 + 4 * i) as E1.
  { unfold next_entry. change (shl32 _ 6) with 0x40000400. rewrite u32_id by (unfold is_u32; lia). lia. }
  assert (word_at (banks (ms_mc demo_vm)) (0x40000400 + 4 * i) = if i =? 64 then 0x4000000e else 0) as E2.
  { assert (forallb (fun i => word_at (banks (ms_mc demo_vm)) (0x40000400 + 4 * i) =? if i =? 64 then 0x4000000e else 0) (seqZ 0 256) = true)
      as Hall by (vm_compute; reflexivity).
    rewrite forallb_forall in Hall. apply Z.eqb_eq, Hall, list_elem_of_In, elem_of_seqZ. lia. }
  unfold walk_of. cbn [walk]. rewrite E0. change (Z.land 0x04000041 3 =? 1) with true. rewrite E1, E2.
  by destruct (i =? 64).
Qed.

Lemma demo_listable : listable demo_vm.
Proof.
  constructor.
  - done.
  - apply vm_mc_ok.
  - by vm_compute.
  - intros va Hva. destruct (demo_walk va Hva) as (i & Hi & ->). cbn [fst].
    assert (forall a, 0x40000000 <= a -> a + 4 <= 0x40001000 -> plain (banks (ms_mc demo_vm)) a) as Hp.
    { intros a H1 H2. split; [unfold is_u32; lia|].
      rewrite (scan_banks_unique _ 0 vm_ram a); [|apply vm_mc_ok|unfold is_u32; lia|done|].
      - unfold vm_ram. change (b_len vm_data) with 0x1000. lia.
      - unfold holds, vm_ram. cbn [get_base bank_size]. change (b_len vm_data) with 0x1000. lia. }
    do 2 (apply Forall_cons_2; [apply Hp; lia|]). by apply Forall_nil_2.
  - intros va pte Hva Hw. destruct (demo_walk va Hva) as (i & Hi & E). by rewrite E in Hw.
  - intros va pte Hva Hw Hp. destruct (demo_walk va Hva) as (i & Hi & E). rewrite E in Hw. cbn in Hw. injection Hw as <-.
    by destruct (i =? 64).
Qed.

Lemma tables_tell_truth_witness :
  exists lines s', debug_mmu_tables demo_vm = (Val (Tables 5 lines), s') /\ say lines 0x40000abc 0xabc "-rwxrwx".
Proof.
  destruct (tables_tell_truth demo_vm 0x40000abc 0x4000000e 1) as (lines & s' & E & _ & Hl);
    [apply demo_listable|done|by vm_compute|done|].
  change (ctx_n (ms_mmu demo_vm)) with 5 in E. exists lines, s'. split; [exact E|]. clear E.
  apply (proj2 (Hl 0x40000abc 0xabc _ ltac:(done))).
  exists 0x4000000e, 1. split; [by vm_compute|]. split; [done|].
  split; [by vm_compute|]. split; [by vm_compute|]. by intros [] [].
Defined.

(** A page of the second level: the table shows the first 256 KB and the 768 KB
    after it as mapped; the walk finds nothing there. *)
Definition level2_data : bytes :=
  default (mkBytes 0x1000 ∅)
    (d ← poke32_be (mkBytes 0x1000 ∅) 0x14 0x04000041;
     d ← poke32_be d 0x500 0x04000081; poke32_be d 0x800 0x4000000e)%stdpp.
Definition level2_vm : memsys unit :=
  mkMemsys vm_mmu ((attach_bank vm_rom (attach_bank (RamBank 0x40000000 Big level2_data) demo_empty).2).2).

Lemma level2_overstated :
  (debug_mmu_tables level2_vm).1 =
    Val (Tables 5 [mkTR 0x40000000 0x400fffff 0x0 0xfffff "-rwxrwx" 256]) /\
  (get_PTE 0x40040000 level2_vm).1 = Val (0, 2).
Proof. vm_compute. done. Qed.
