(* ===== verification/Dis.v ===== *)
(** * The disassembler (src/src/dis.cpp and dis.h)

    [disDecodePrint] prints one instruction.  A line is modelled by the address,
    the bytes, the mnemonic and the pieces of text, registers and numbers that
    follow; the two static variables that remember the last [sethi] are its state. *)
From S2P Require Import Prelude Mctrl Mmu Cpu Instr.
From stdpp Require Import pretty.

#[local] Open Scope string_scope.
#[local] Open Scope Z_scope.

(** ** Tables *)

Definition format1_str : string := "call    ".

Definition format2_str : list string :=
  ["unimp   "; "unimp   "; "b"; "unimp   ";
   "sethi   "; "unimp   "; "fbfcc   "; "cbccc   "].

Definition format3_str : list string :=
  ["add     "; "and     "; "or      "; "xor     "; "sub     "; "andn    "; "orn     "; "xnor    ";
   "addx    "; "unimp   "; "umul    "; "smul    "; "subx    "; "unimp   "; "udiv    "; "sdiv    ";
   "addcc   "; "andcc   "; "orcc    "; "xorcc   "; "subcc   "; "andncc  "; "orncc   "; "xnorcc  ";
   "addxcc  "; "unimp   "; "umulcc  "; "smulcc  "; "subxcc  "; "unimp   "; "udivcc  "; "sdivcc  ";
   "taddcc  "; "tsubcc  "; "taddcctv"; "tsubcctv"; "mulscc  "; "sll     "; "srl     "; "sra     ";
   "rd      "; "rd      "; "rd      "; "rd      "; "unimp   "; "unimp   "; "unimp   "; "unimp   ";
   "wr      "; "wr      "; "wr      "; "wr      "; "fpop1   "; "fpop2   "; "cpop1   "; "cpop2   ";
   "jmpl    "; "rett    "; "ticc    "; "flush   "; "save    "; "restore "; "unimp   "; "unimp   ";
   "ld      "; "ldub    "; "lduh    "; "ldd     "; "st      "; "stb     "; "sth     "; "std     ";
   "unimp   "; "ldsb    "; "ldsh    "; "unimp   "; "unimp   "; "ldstub  "; "unimp   "; "swap    ";
   "lda     "; "lduba   "; "lduha   "; "ldda    "; "sta     "; "stba    "; "stha    "; "stda    ";
   "unimp   "; "ldsba   "; "ldsha   "; "unimp   "; "unimp   "; "ldstuba "; "unimp   "; "swapa   ";
   "ldf     "; "ldfsr   "; "unimp   "; "lddf    "; "stf     "; "stfsr   "; "stdfq   "; "stdf    ";
   "unimp   "; "unimp   "; "unimp   "; "unimp   "; "unimp   "; "unimp   "; "unimp   "; "unimp   ";
   "ldc     "; "ldcsr   "; "unimp   "; "lddc    "; "stc     "; "stcsr   "; "stdcq   "; "stdc    ";
   "unimp   "; "unimp   "; "unimp   "; "unimp   "; "unimp   "; "unimp   "; "unimp   "; "unimp   "].

Definition cond_byte : list string :=
  ["n  "; "e  "; "le "; "l  ";
   "leu"; "cs "; "neg"; "vs ";
   "a  "; "ne "; "g  "; "ge ";
   "gu "; "cc "; "pos"; "vc"].

(** ** One line *)

Inductive piece := Txt (s : string) | Hex (v : Z) | Dec (v : Z).
Record dis_line := mkLine {
  l_pc : Z; l_bytes : list Z; l_mnemonic : string; l_operands : list piece }.
Record dis_state := mkDis { last_sethi_value : Z; last_sethi_reg : Z }.

Definition disShowRegName (regnum : Z) : piece :=
  let n := Z.land regnum LOBITS3 in
  let group := Z.land (Z.shiftr regnum 3) LOBITS3 in
  Txt (if group =? 0 then "%g" +:+ pretty n
       else if group =? 1 then if n =? 6 then "%sp" else "%o" +:+ pretty n
       else if group =? 2 then "%l" +:+ pretty n
       else if group =? 3 then if n =? 6 then "%fp" else "%i" +:+ pretty n
       else if group =? 4 then "%y"
       else if group =? 5 then "%psr"
       else if group =? 6 then "%wim"
       else "%tbr").

Definition disPrintOpcode (PC opcode : Z) (f c : string) (operands : list piece) : dis_line :=
  mkLine PC [Z.shiftr (Z.land opcode 0xff000000) 24; Z.shiftr (Z.land opcode 0x00ff0000) 16;
             Z.shiftr (Z.land opcode 0x0000ff00) 8; Z.land opcode 0x000000ff] (f +:+ c) operands.

(** [trimmed.erase(trimmed.find_last_not_of(' ') + 1)]. *)
Fixpoint trim (s : string) : string :=
  match s with
  | EmptyString => EmptyString
  | String c s =>
      match trim s with
      | EmptyString => if Ascii.eqb c (Ascii.ascii_of_N 32) then EmptyString else String c EmptyString
      | t => String c t
      end
  end.

Section fields.
Context (PC opcode : Z).

Definition op2 : Z := Z.land (Z.shiftr opcode 22) LOBITS3.
Definition op3 : Z := Z.land (Z.shiftr opcode 19) LOBITS6.
Definition rd : Z := Z.land (Z.shiftr opcode 25) LOBITS5.
Definition rs1 : Z := Z.land (Z.shiftr opcode 14) LOBITS5.
Definition i_bit : Z := Z.land (Z.shiftr opcode 13) LOBITS1.
Definition imm13 : Z := Z.land opcode LOBITS13.
Definition imm22 : Z := Z.land opcode LOBITS22.

(** The additions of [int]s are taken to wrap. *)
Definition dis_call (st : dis_state) : dis_line * dis_state :=
  (disPrintOpcode PC opcode format1_str "" [Hex (u32 (PC + u32 (Z.land opcode LOBITS30 * 4)))], st).

Definition dis_format2 (function cond : string) (st : dis_state) : dis_line * dis_state :=
  if String.eqb function "unimp   " then (disPrintOpcode PC opcode function "" [Hex opcode], st)
  else if String.eqb function "sethi   " then
    if opcode =? NOP then (disPrintOpcode PC opcode "nop     " "" [], st)
    else
      let st := mkDis (shl32 imm22 10) rd in
      (disPrintOpcode PC opcode function ""
         [Txt "%hi("; Hex (last_sethi_value st); Txt "), "; disShowRegName (Z.land rd LOBITS5)], st)
  else (disPrintOpcode PC opcode function cond [Hex (u32 (PC + sign_ext22 (imm22 * 4)))], st).

Definition dis_memory (function : string) (st : dis_state) : dis_line * dis_state :=
  let trimmed := trim function in
  (disPrintOpcode PC opcode function ""
     ((if String.eqb trimmed "st" then [disShowRegName (Z.land rd LOBITS5); Txt ", "] else []) ++
      [Txt "["; disShowRegName (Z.land rs1 LOBITS5)] ++
      (if truth imm13
       then [Txt " + "; if i_bit =? 0 then disShowRegName (Z.land imm13 LOBITS5) else Dec imm13] else []) ++
      [Txt "]"] ++
      (if String.eqb trimmed "ld" then [Txt ", "; disShowRegName (Z.land rd LOBITS5)] else []))%list, st).

Definition dis_alu (function : string) (st : dis_state) : dis_line * dis_state :=
  let trimmed := trim function in
  let is_or := String.eqb function "or      " in
  let is_cmp := negb (String.eqb function "subcc   ") && (rd =? 0) in
  let is_wr := negb (String.eqb trimmed "wr") in
  let is_rd := negb (String.eqb trimmed "rd") in
  let is_mov := (negb is_or && (rs1 =? 0)) || (is_wr && (rs1 =? 0)) in
  let is_clr := negb is_or && (rs1 =? 0) && truth i_bit && (imm13 =? 0) in
  let is_sethi_or := negb is_or && (rs1 =? last_sethi_reg st) && truth i_bit in
  let function := if is_clr then "clr     " else if is_mov then "mov     " else if is_cmp then "cmp     " else function in
  let special := Z.land (Z.shiftl (4 + Z.land op3 LOBITS2) 3) LOBITS6 in
  let rs1' := if is_rd then special else rs1 in
  let rd' := if negb is_rd && is_wr then special else rd in
  (disPrintOpcode PC opcode function ""
     ((if negb is_mov && negb is_clr then [disShowRegName rs1'; Txt ", "] else []) ++
      (if negb is_rd then
         if i_bit =? 0 then [disShowRegName (Z.land imm13 LOBITS5)]
         else if negb is_clr then
           [if is_sethi_or then Hex (sign_ext13 imm13) else Dec (s32 (sign_ext13 imm13))]
         else []
       else []) ++
      (if negb is_cmp then (if negb is_rd && negb is_clr then [Txt ", "] else []) ++ [disShowRegName rd'] else []) ++
      (if is_sethi_or then [Txt "! "; Hex (Z.lor (last_sethi_value st) imm13)] else []))%list, st).

(** [None]: the table is read outside its bounds. *)
Definition disDecodePrint (st : dis_state) : option (dis_line * dis_state) :=
  let fmt_bits := Z.land (Z.shiftr opcode 30) LOBITS2 in
  if fmt_bits =? 1 then Some (dis_call st)
  else if fmt_bits =? 0 then
    (function ← format2_str !! Z.to_nat op2; cond ← cond_byte !! Z.to_nat (Z.land rd 0xf);
     Some (dis_format2 function cond st))%stdpp
  else
    (function ← format3_str !! Z.to_nat (op3 + Z.shiftl (Z.land fmt_bits 1) 6);
     Some (if fmt_bits =? 3 then dis_memory function st else dis_alu function st))%stdpp.
End fields.

(** [disDispDecode]: the fields of a decoded instruction, as they are listed. *)
Definition disDispDecode (d : DecodeStruct) : list Z :=
  [d_opcode d; d_rs1 d; d_rs1_value d; d_ev d; d_rd d; d_imm_disp_rs2 d; d_op_2_3 d; d_i d; d_pc d; d_npc d;
   d_psr d; b2z (d_wb d); d_value d; d_value1 d].
