(* ===== verification/DisProofs.v ===== *)
(** * The disassembler and the processor

    The disassembler and the processor decode with tables of their own; the
    theorems compare them. *)
From S2P Require Import Prelude Mctrl Tlb Mmu Cpu Instr Exec Dis.

#[local] Open Scope string_scope.
#[local] Open Scope Z_scope.
#[local] Open Scope M_scope.

(** ** Targets *)

Lemma sign_ext22_small x : 0 <= x < 2097152 -> sign_ext22 x = x.
Proof.
  intros Hx. unfold sign_ext22. replace (Z.land x 0x200000) with 0; [by rewrite Z.lor_0_r|].
  symmetry. change 0x200000 with (2 ^ 21). rewrite Z.land_comm. apply Z.bits_inj'. intros n Hn.
  rewrite Z.land_spec, Z.pow2_bits_eqb, Z.bits_0 by lia. destruct (decide (n = 21)) as [->|].
  - rewrite (testbit_high x 21 21) by lia. apply andb_false_r.
  - by rewrite (proj2 (Z.eqb_neq 21 n)) by lia.
Qed.

(** With bit 21 set, the bits above it are replaced by ones. *)
Lemma sign_ext22_high x : is_u32 x -> Z.testbit x 21 = true -> sign_ext22 x = x mod 4194304 + 0xffc00000.
Proof.
  intros Hx Ht. unfold sign_ext22. change 0x200000 with (Z.shiftl 1 21). rewrite truth_land_pow2, Ht by lia.
  rewrite Z.add_comm, <- (lor_add 0xffc00000 (x mod 4194304) 22); [|lia|done|apply Z.mod_pos_bound; lia].
  apply Z.bits_inj'. intros n Hn. rewrite !Z.lor_spec. change 4194304 with (2 ^ 22).
  destruct (decide (n < 22)); [rewrite Z.mod_pow2_bits_low by lia; apply orb_comm|].
  rewrite Z.mod_pow2_bits_high by lia. change 0xffc00000 with (Z.shiftl (Z.ones 10) 22). rewrite Z.shiftl_spec by lia.
  destruct (decide (n < 32)).
  - rewrite Z.ones_spec_low by lia. by rewrite orb_true_r.
  - rewrite Z.ones_spec_high, (testbit_high x 32 n) by (unfold is_u32 in Hx; lia). done.
Qed.

(** A 22-bit displacement, taken as signed, from [2^19] words backwards to
    one word less than [2^19] forwards. *)
Definition near (disp : Z) : Prop := 0 <= disp < 524288 \/ 4194304 - 524288 <= disp < 4194304.

Lemma near_extended disp : near disp -> u32 (sign_ext22 (disp * 4)) = u32 (4 * sign_ext22 disp).
Proof.
  intros [Hd|Hd].
  - rewrite !sign_ext22_small by lia. by rewrite Z.mul_comm.
  - rewrite !sign_ext22_high; [|unfold is_u32; lia| |unfold is_u32; lia|].
    + unfold u32. rewrite (Z.mod_small disp) by lia.
      replace ((disp * 4) mod 4194304) with (disp * 4 - 12582912) by (Z.div_mod_to_equations; lia).
      rewrite !Z.mod_eq by lia. Z.div_mod_to_equations. lia.
    + rewrite Z.testbit_true by lia. change (2 ^ 21) with 2097152. Z.div_mod_to_equations. lia.
    + rewrite Z.testbit_true by lia. change (2 ^ 21) with 2097152. Z.div_mod_to_equations. lia.
Qed.

Lemma u32_add_r x y : u32 (x + u32 y) = u32 (x + y).
Proof. unfold u32. apply Zplus_mod_idemp_r. Qed.

(** ** Mnemonics *)

(** The assembler's name of the instruction with this [op3] that a memory
    function of the processor executes. One function serves the four stores to
    an alternate space, whose width is in the low bits of [op3]. *)
Definition mnemonic (f : instr) (op3 : Z) : string :=
  match f with
  | LD => "ld" | LDUB => "ldub" | LDUH => "lduh" | LDD => "ldd" | LDSB => "ldsb" | LDSH => "ldsh"
  | ST => "st" | STB => "stb" | STH => "sth" | STD => "std"
  | LDSTUB => "ldstub" | SWAP => "swap" | SWAPA => "swapa" | LDA_impl => "lda"
  | STA_impl => match Z.land op3 3 with 0 => "sta" | 1 => "stba" | 2 => "stha" | _ => "stda" end
  | LDF_impl => "ldf" | LDFSR_impl => "ldfsr" | LDDF_impl => "lddf"
  | STF_impl => "stf" | STFSR_impl => "stfsr" | STDFQ_impl => "stdfq" | STDF_impl => "stdf"
  | _ => ""
  end.

(** The memory half of the two tables: [casa], entry 124 of the processor's,
    has no name. *)
Definition memory_named (n : nat) : bool :=
  match format3 !! n, format3_str !! n with
  | Some f, Some s =>
      bool_decide (f = CASA) || bool_decide (f = UNIMP) || String.eqb (trim s) (mnemonic f (Z.of_nat n - 64))
  | _, _ => false
  end.

Lemma tables_named : forallb memory_named (seq 64 64) = true.
Proof. by vm_compute. Qed.

Lemma names_lookup (op3 : Z) f :
  0 <= op3 < 64 -> format3 !! Z.to_nat (op3 + 64) = Some f -> f <> UNIMP -> f <> CASA ->
  exists s, format3_str !! Z.to_nat (op3 + 64) = Some s /\ trim s = mnemonic f op3.
Proof.
  intros Ho Hn Hu Hc. pose proof (proj1 (forallb_forall _ _) tables_named (Z.to_nat (op3 + 64))) as Hall.
  unfold memory_named in Hall. rewrite Hn in Hall. destruct (format3_str !! _) as [s|]; cycle 1.
  { exfalso. discriminate Hall. apply list_elem_of_In, elem_of_seq. lia. }
  rewrite !bool_decide_false in Hall by done. exists s. split; [done|].
  replace (Z.of_nat (Z.to_nat (op3 + 64)) - 64) with op3 in Hall by lia.
  apply String.eqb_eq, Hall, list_elem_of_In, elem_of_seq. lia.
Qed.

(** ** Agreement *)

Lemma lookup_in {A} (l : list A) i n : 0 <= i < n -> Z.of_nat (length l) = n -> exists x, l !! Z.to_nat i = Some x.
Proof. intros Hi Hl. apply lookup_lt_is_Some. lia. Qed.

Lemma field_range x n : 0 <= n -> 0 <= Z.land x (Z.ones n) < 2 ^ n.
Proof. intros Hn. rewrite Z.land_ones by done. apply Z.mod_pos_bound. lia. Qed.

Lemma append_empty s : s +:+ "" = s.
Proof. induction s as [|c s IH]; [done|]. by apply (f_equal (String c)). Qed.

Section agree.
Context {W : Type} `{DeviceBus W}.

(** The decoder on the two formats without register operands. *)
Lemma decode_call (s : machine W) :
  let opcode := d_opcode (m_d s) in
  Z.land (Z.shiftr opcode 30) LOBITS2 = 1 ->
  exists s', decode s = (Val tt, s') /\ d_pc (m_d s') = pc (m_cpu s) /\ d_imm_disp_rs2 (m_d s') = Z.land opcode LOBITS30.
Proof. intros opcode Hf. unfold decode. do 3 mstep. fold opcode. rewrite Hf. by eexists. Qed.

Lemma decode_format2 (s : machine W) :
  let opcode := d_opcode (m_d s) in
  Z.land (Z.shiftr opcode 30) LOBITS2 = 0 ->
  exists s', decode s = (Val tt, s') /\ d_pc (m_d s') = pc (m_cpu s) /\ d_imm_disp_rs2 (m_d s') = imm22 opcode /\ d_rd (m_d s') = rd opcode.
Proof.
  intros opcode Hf. unfold decode. do 3 mstep. fold opcode. rewrite Hf. change (0 =? 1) with false. change (0 =? 0) with true. cbn iota.
  pose proof (field_range (Z.shiftr opcode 22) 3 ltac:(lia)) as Hr. change (Z.ones 3) with LOBITS3 in Hr.
  destruct (lookup_in format2 (Z.land (Z.shiftr opcode 22) LOBITS3) 8) as [f Ef]; [lia|done|].
  rewrite Ef. cbn [or_ub]. by eexists.
Qed.

(** The instruction table for [PC]'s format 3 instructions. *)
Definition format3_index (opcode : Z) : nat := Z.to_nat (op3 opcode + Z.shiftl (Z.land (Z.land (Z.shiftr opcode 30) LOBITS2) 1) 6).

(** Every index the disassembler forms is in its table. *)
Lemma tables_cover opcode :
  let fmt := Z.land (Z.shiftr opcode 30) LOBITS2 in
  (exists f, format2_str !! Z.to_nat (op2 opcode) = Some f) /\
  (exists c, cond_byte !! Z.to_nat (Z.land (rd opcode) 0xf) = Some c) /\
  (exists f, format3_str !! Z.to_nat (op3 opcode + Z.shiftl (Z.land fmt 1) 6) = Some f).
Proof.
  cbn zeta. pose proof (field_range (Z.shiftr opcode 22) 3 ltac:(lia)) as H2. change (Z.ones 3) with LOBITS3 in H2.
  pose proof (field_range (Z.shiftr opcode 19) 6 ltac:(lia)) as H3. change (Z.ones 6) with LOBITS6 in H3.
  pose proof (field_range (rd opcode) 4 ltac:(lia)) as Hr. change (Z.ones 4) with 0xf in Hr.
  pose proof (field_range (Z.land (Z.shiftr opcode 30) LOBITS2) 1 ltac:(lia)) as H1. change (Z.ones 1) with 1 in H1.
  split; [by apply (lookup_in _ _ 8)|]. split; [by apply (lookup_in _ _ 16)|].
  apply (lookup_in _ _ 128); [|done]. fold (op3 opcode) in H3. rewrite Z.shiftl_mul_pow2 by lia. lia.
Qed.

Lemma disassembles PC opcode st : exists line st', disDecodePrint PC opcode st = Some (line, st').
Proof.
  unfold disDecodePrint. destruct (tables_cover opcode) as ([f Ef] & [c Ec] & [g Eg]).
  destruct (_ =? 1); [by eexists _, _|]. destruct (_ =? 0).
  - rewrite Ef, Ec. cbn. destruct (dis_format2 _ _ _ _ _). by eexists _, _.
  - rewrite Eg. cbn. destruct (_ =? 3); [destruct (dis_memory _ _ _ _)|destruct (dis_alu _ _ _ _)]; by eexists _, _.
Qed.

(** C18. The disassembler agrees with the processor: every word can be
    disassembled; the address printed with a call, and with an integer branch
    of at most 2^19 words backwards or less than 2^19 words forwards, is the
    one the processor goes to when it executes the instruction there and the
    condition holds; and a memory instruction the processor implements, other
    than [casa], is printed with exactly its own name. Further branches are
    printed with a wrong target, see [far_branch_wrong]. *)
Theorem dis_agrees (s : machine W) st :
  let opcode := d_opcode (m_d s) in
  let fmt := Z.land (Z.shiftr opcode 30) LOBITS2 in
  exists line st', disDecodePrint (pc (m_cpu s)) opcode st = Some (line, st') /\
    (fmt = 1 -> exists s', decode s = (Val tt, s') /\ l_operands line = [Hex (d_npc (m_d (exec_CALL s').2))]) /\
    (fmt = 0 -> op2 opcode = 2 -> near (imm22 opcode) ->
     exists s', decode s = (Val tt, s') /\
       (truth (test_cc (m_d s')) = true ->
        let d := m_d (exec_BICC s').2 in
        let always := truth (Z.land (Z.shiftr (rd opcode) 4) LOBITS1) && (Z.land (rd opcode) LOBITS3 =? 0) in
        l_operands line = [Hex (if always then d_pc d else d_npc d)])) /\
    (forall f, fmt = 3 -> format3 !! format3_index opcode = Some f -> f <> UNIMP -> f <> CASA ->
       trim (l_mnemonic line) = mnemonic f (op3 opcode)).
Proof.
  intros opcode fmt. destruct (disassembles (pc (m_cpu s)) opcode st) as (line & st' & El). exists line, st'. split; [done|].
  unfold disDecodePrint in El. fold fmt in El. split_and!.
  - intros Hf. rewrite Hf in El. injection El as <- _. destruct (decode_call s Hf) as (s' & E & Hp & Hi). exists s'. split; [done|].
    cbn. rewrite Hp, Hi. by rewrite (Z.mul_comm 4).
  - intros Hf H2 Hn. rewrite Hf, H2 in El. cbn in El.
    destruct (cond_byte !! Z.to_nat (Z.land (rd opcode) 15)) as [c|]; [|done]. injection El as <- _.
    destruct (decode_format2 s Hf) as (s' & E & Hp & Hi & Hr). exists s'. split; [done|]. intros Ht. cbn [l_operands disPrintOpcode].
    unfold exec_BICC. rewrite (bindM_val (getd id) _ _ (m_d s') s') by done. rewrite Ht, Hr. cbn [negb andb orb]. unfold take_branch, updd.
    cbn [modify snd m_d]. rewrite Hp, Hi. fold opcode.
    assert (u32 (pc (m_cpu s) + sign_ext22 (imm22 opcode * 4)) = u32 (pc (m_cpu s) + u32 (4 * sign_ext22 (imm22 opcode)))) as ->.
    { rewrite <- near_extended by done. by rewrite u32_add_r. }
    by destruct (truth _ && _).
  - intros f Hf Ht Hu Hc. rewrite Hf in El. cbn [Z.eqb] in El. unfold format3_index in Ht. fold fmt in Ht. rewrite Hf in Ht.
    change (Z.shiftl (Z.land 3 1) 6) with 64 in *.
    destruct (names_lookup (op3 opcode) f) as (nm & En & Hm); [by apply (field_range _ 6)|done..|].
    rewrite En in El. injection El as <- _. cbn [l_mnemonic disPrintOpcode dis_memory]. by rewrite append_empty.
Qed.
End agree.

(** ** Examples *)

(** A machine about to execute [opcode] at [PC]. *)
Definition at_instr (PC opcode : Z) : machine unit :=
  mkMachine (demo_cpu <| pc := PC |> <| npc := PC + 4 |>) (Decode0 <| d_opcode := opcode |>)
    (mkMemsys mmu_new demo_empty) [].

Definition operands (PC opcode : Z) : option (string * list piece) :=
  (fun r => (l_mnemonic r.1, l_operands r.1)) <$> disDecodePrint PC opcode (mkDis 0 0).

#[local] Existing Instance no_devices.

(** [call .+12] at [0x40000000]. *)
Lemma dis_agrees_witness :
  exists s', decode (at_instr 0x40000000 0x40000003) = (Val tt, s') /\
    operands 0x40000000 0x40000003 = Some ("call    ", [Hex (d_npc (m_d (exec_CALL s').2))]).
Proof.
  destruct (dis_agrees (at_instr 0x40000000 0x40000003) (mkDis 0 0)) as (line & st' & El & Hc & _).
  destruct (Hc eq_refl) as (s' & E & Ho). exists s'. split; [exact E|]. rewrite <- Ho.
  assert (l_mnemonic line = "call    ") as Hm by (vm_compute in El; by injection El as <- _).
  assert (disDecodePrint 0x40000000 0x40000003 (mkDis 0 0) = Some (line, st')) as El' by exact El.
  unfold operands. rewrite El'. cbn. by rewrite Hm.
Defined.

(** A branch of 2^19 words forward is shown with a target 2 MB behind it. *)
Lemma far_branch_wrong :
  operands 0x40000000 0x10880000 = Some ("ba  ", [Hex 0x3fe00000]) /\
  d_npc (m_d (exec_BICC (decode (at_instr 0x40000000 0x10880000)).2).2) = 0x40200000.
Proof. by vm_compute. Qed.

(** The tests of the special cases are inverted: [add %g2, %g3, %g4] is shown
    without its operands, and [cmp %o0, 5] with a destination; a negative offset
    is shown as a positive number, and [ldub] without its destination. *)
Lemma alu_operands_lost :
  operands 0 0x88008003 = Some ("add     ", [Txt "%y"; Txt ", "; Txt "%g4"]) /\
  operands 0 0x80a22005 = Some ("subcc   ", [Txt "%y"; Txt ", "; Txt "%g0"]) /\
  operands 0 0xd0023ffc = Some ("ld      ", [Txt "["; Txt "%o0"; Txt " + "; Dec 8188; Txt "]"; Txt ", "; Txt "%o0"]) /\
  operands 0 0xd00a2004 = Some ("ldub    ", [Txt "["; Txt "%o0"; Txt " + "; Dec 4; Txt "]"]).
Proof. by vm_compute. Qed.
