(* ===== verification/Cmdline.v ===== *)
(** * Patching the kernel command line
      ([try_patch_cmdline_in_bank], [patch_cmdline] of src/src/sparcv8_leon_smp.cpp)

    The boot image holds the kernel's arguments as a C string in a buffer that
    is padded with zeroes.  The main program searches a bank for it and replaces
    it, or appends to it, in place. *)
From S2P Require Import Prelude Mctrl Mmu Words.

(** [const char needle[] = "console="], without its terminator. *)
Definition needle : list Z := [99; 111; 110; 115; 111; 108; 101; 61].

(** [n] bytes of the bank from [i] on; [None] where one lies outside. *)
Fixpoint bytes_at (d : bytes) (i : Z) (n : nat) : option (list Z) :=
  match n with
  | O => Some []
  | S n => (b ← bytes_get d i; l ← bytes_at d (i + 1) n; Some (b :: l))%stdpp
  end.

(** [memcmp(mem + i, needle, sizeof(needle) - 1) != 0]. *)
Definition needle_at (d : bytes) (i : Z) : option bool :=
  (l ← bytes_at d i (length needle); Some (bool_decide (l = needle)))%stdpp.

(** [while (i < limit && (mem[i] == 0) == zero) ++i;] *)
Fixpoint skip_while (fuel : nat) (zero : bool) (d : bytes) (limit i : Z) : option Z :=
  if i <? limit then
    match fuel with
    | O => None
    | S fuel => (b ← bytes_get d i;
                 if Bool.eqb (b =? 0) zero then skip_while fuel zero d limit (i + 1) else Some i)%stdpp
    end
  else Some i.

(** The loop over [i], from [i] on: the place, string length and capacity of the
    first string that starts with the needle and is long enough. *)
Fixpoint find_cmdline (fuel : nat) (d : bytes) (sz min_len i : Z) : option (option (Z * Z * Z)) :=
  if i + 8 <? sz then
    match fuel with
    | O => None
    | S fuel =>
        (hit ← needle_at d i;
         if negb hit then find_cmdline fuel d sz min_len (i + 1)
         else
           e ← skip_while (Z.to_nat (sz - i)) false d sz i;
           let str_len := e - i in
           if str_len <? min_len then find_cmdline fuel d sz min_len (i + 1)
           else
             cap_end ← skip_while (Z.to_nat (sz - i)) true d (Z.min sz (u32 (i + 512))) e;
             Some (Some (i, str_len, cap_end - i)))%stdpp
    end
  else Some None.

(** The replacement: the old bytes with a space and the new ones, or the new
    ones alone, cut to leave room for a terminator; [memset], then [memcpy]. *)
Definition write_cmdline (d : bytes) (i str_len capacity : Z) (new_cmd : list Z) (append : bool) : option bytes :=
  (existing ← bytes_at d i (Z.to_nat str_len);
   let write_cmd := if append then existing ++ [32] ++ new_cmd else new_cmd in
   let write_len := Z.min (Z.of_nat (length write_cmd)) (u64 (u32 (capacity - 1))) in
   d ← pokes d i (replicate (Z.to_nat capacity) 0);
   pokes d i (take (Z.to_nat write_len) write_cmd))%stdpp.

Definition patch_buffer (d : bytes) (sz : Z) (new_cmd : list Z) (append : bool) (min_len : Z) :
    option (option bytes) :=
  (o ← find_cmdline (Z.to_nat sz) d sz min_len 0;
   match o with
   | Some (i, str_len, capacity) => d ← write_cmdline d i str_len capacity new_cmd append; Some (Some d)
   | None => Some None
   end)%stdpp.

#[local] Open Scope M_scope.

Section cmdline_ops.
Context {W : Type} `{DeviceBus W}.
Abbreviation MC := (M (mctrl W)).

Definition try_patch_cmdline_in_bank (bank_base : Z) (new_cmd : list Z) (append : bool) (min_len : Z) : MC bool :=
  o ← find_bank_or_null bank_base;
  match o with
  | None => ret false
  | Some i =>
      p ← get_ptr i;
      match p with
      | None => ret false
      | Some k =>
          b ← bank_at k;
          d ← or_ub (buffer_of b);
          r ← or_ub (patch_buffer d (get_size b) new_cmd append min_len);
          match r with
          | None => ret false
          | Some d => put_data k b (Some d) ;; ret true
          end
      end
  end.

(** The boot PROM first, then main memory with a minimum length. *)
Definition patch_cmdline (new_cmd : list Z) (append : bool) : MC unit :=
  done ← try_patch_cmdline_in_bank 0xffff0000 new_cmd append 0;
  if done : bool then ret tt
  else try_patch_cmdline_in_bank 0x40000000 new_cmd append 40 ;; ret tt.
End cmdline_ops.

(** ** What the patch does to a buffer *)

Lemma bytes_at_in d n : forall i, 0 <= i -> i + Z.of_nat n <= b_len d ->
  exists l, bytes_at d i n = Some l /\ length l = n /\ forall k, (k < n)%nat -> bytes_get d (i + Z.of_nat k) = l !! k.
Proof.
  induction n as [|n IH]; intros i H0 H1; [exists []; repeat split; lia|].
  destruct (bytes_get_in d i) as [b Eb]; [lia|]. destruct (IH (i + 1)) as (l & El & Hl & Hk); [lia..|].
  exists (b :: l). cbn. rewrite Eb. cbn. rewrite El. split; [done|]. split; [by rewrite Hl|].
  intros [|k] Hlt; [by rewrite Z.add_0_r|]. cbn. rewrite <- Hk by lia. f_equal. lia.
Qed.

Lemma bytes_at_lookup d n : forall i l k b,
  bytes_at d i n = Some l -> l !! k = Some b -> bytes_get d (i + Z.of_nat k) = Some b.
Proof.
  induction n as [|n IH]; intros i l k b El Hk; cbn in El; [by simplify_eq|].
  destruct (bytes_get d i) as [b0|] eqn:E0; [|done]. cbn in El.
  destruct (bytes_at d (i + 1) n) as [l0|] eqn:E1; [|done]. injection El as <-.
  destruct k as [|k]; cbn in Hk; [simplify_eq; by rewrite Z.add_0_r|].
  rewrite <- (IH _ _ _ _ E1 Hk). f_equal. lia.
Qed.

(** The bytes of [d] from [i] up to [j] are all zero, or all not. *)
Definition all_zero (zero : bool) (d : bytes) (i j : Z) : Prop :=
  forall k, i <= k < j -> exists b, bytes_get d k = Some b /\ (b =? 0) = zero.

Lemma skip_while_spec zero d limit fuel : forall i,
  0 <= i -> limit <= b_len d -> limit - i <= Z.of_nat fuel ->
  exists j, skip_while fuel zero d limit i = Some j /\ i <= j <= Z.max i limit /\ all_zero zero d i j /\
    (j < limit -> exists b, bytes_get d j = Some b /\ (b =? 0) = negb zero).
Proof.
  induction fuel as [|fuel IH]; intros i Hi Hl Hf; cbn [skip_while]; destruct (i <? limit) eqn:E;
    try lia; try (exists i; split; [done|]; split; [lia|]; split; [intros k Hk; lia|lia]).
  destruct (bytes_get_in d i) as [b Eb]; [lia|]. rewrite Eb. cbn. destruct (Bool.eqb (b =? 0) zero) eqn:Ez.
  - apply Bool.eqb_prop in Ez. destruct (IH (i + 1)) as (j & -> & H1 & H3 & H4); [lia..|].
    exists j. split; [done|]. split; [lia|]. split; [|done].
    intros k Hk. destruct (decide (k = i)) as [->|]; [by exists b|]. apply H3. lia.
  - exists i. split; [done|]. split; [lia|]. split; [intros k Hk; lia|]. intros _. exists b. split; [done|].
    apply Bool.eqb_false_iff in Ez. by destruct (b =? 0), zero.
Qed.

Lemma needle_at_spec d i :
  0 <= i -> i + 8 <= b_len d -> exists h, needle_at d i = Some h /\ (h = true <-> bytes_at d i 8 = Some needle).
Proof.
  intros H0 H1. unfold needle_at. change (length needle) with 8%nat.
  destruct (bytes_at_in d 8 i) as (l & -> & _); [lia..|]. eexists. split; [done|].
  rewrite bool_decide_eq_true. split; [by intros ->|by intros [= ->]].
Qed.

(** A string of length [n] at [i] that the search looks for: it starts with the
    needle and is followed by a zero byte or the end of the bank. *)
Record cmdline_at (d : bytes) (i n : Z) : Prop := {
  ca_pos : 0 <= i; ca_in : i + 8 < b_len d; ca_needle : bytes_at d i 8 = Some needle;
  ca_str : all_zero false d i (i + n); ca_len : 8 <= n; ca_fits : i + n <= b_len d;
  ca_end : i + n < b_len d -> bytes_get d (i + n) = Some 0 }.

(** The search has found a string and the zero bytes behind it: [cap] bytes in
    all, and no earlier string is long enough. *)
Record found (d : bytes) (min_len from i n cap : Z) : Prop := {
  fd_at : cmdline_at d i n; fd_min : min_len <= n; fd_cap : n <= cap; fd_fits : i + cap <= b_len d;
  fd_zero : all_zero true d (i + n) (i + cap);
  fd_first : forall j m, from <= j < i -> cmdline_at d j m -> m < min_len }.

Lemma cmdline_at_unique d i n m : cmdline_at d i n -> cmdline_at d i m -> n = m.
Proof.
  enough (forall n m, cmdline_at d i n -> cmdline_at d i m -> n <= m) as Hle by (intros; apply Z.le_antisymm; eauto).
  clear n m. intros n m [] []. destruct (Z.le_gt_cases n m); [done|].
  destruct (ca_str0 (i + m)) as (b & Eb & Hb); [lia|]. rewrite ca_end1 in Eb by lia. by simplify_eq.
Qed.

(** The length of the string at a place where the needle is. *)
Lemma needle_string d i :
  0 <= i -> i + 8 < b_len d -> bytes_at d i 8 = Some needle ->
  exists e, skip_while (Z.to_nat (b_len d - i)) false d (b_len d) i = Some e /\ cmdline_at d i (e - i).
Proof.
  intros H0 H1 Hn. destruct (skip_while_spec false d (b_len d) (Z.to_nat (b_len d - i)) i) as (e & E & He & Hz & Hend);
    [lia..|]. exists e. split; [done|]. replace e with (i + (e - i)) in Hz, Hend by lia.
  split; try done; [|lia|].
  - destruct (Z.le_gt_cases 8 (e - i)); [done|]. destruct Hend as (b & Eb & Hb); [lia|].
    destruct (lookup_lt_is_Some_2 needle (Z.to_nat (e - i))) as [c Ec]; [cbn; lia|].
    pose proof (bytes_at_lookup _ _ _ _ _ _ Hn Ec) as Eg. rewrite Z2Nat.id, Eb in Eg by lia. simplify_eq.
    assert (Forall (fun x => (x =? 0) = false) needle) as Hf by (by repeat constructor).
    rewrite (Forall_lookup_1 _ _ _ _ Hf Ec) in Hb. done.
  - intros Hlt. destruct Hend as (b & Eb & Hb); [done|]. rewrite Eb. f_equal. by apply Z.eqb_eq.
Qed.

Lemma find_cmdline_spec d min_len fuel : forall i,
  0 <= i -> b_len d < 4294967296 - 512 -> b_len d - i <= Z.of_nat fuel ->
  exists r, find_cmdline fuel d (b_len d) min_len i = Some r /\
    match r with
    | Some (p, n, cap) => i <= p /\ found d min_len i p n cap
    | None => forall j n, i <= j -> cmdline_at d j n -> n < min_len
    end.
Proof.
  induction fuel as [|fuel IH]; intros i Hi Hlen Hf; cbn [find_cmdline]; destruct (i + 8 <? b_len d) eqn:Ei;
    try lia; try (exists None; split; [done|]; intros j n Hj []; lia).
  destruct (IH (i + 1)) as (r & Er & Hr); [lia..|]. clear IH Hf.
  assert ((forall n, cmdline_at d i n -> n < min_len) ->
    match r with
    | Some (p, n, cap) => i <= p /\ found d min_len i p n cap
    | None => forall j n, i <= j -> cmdline_at d j n -> n < min_len
    end) as Hskip.
  { intros Hno. destruct r as [[[p n] cap]|].
    - destruct Hr as [Hp []]. split; [lia|]. split; try done. intros j m Hj.
      destruct (decide (j = i)) as [->|]; [apply Hno|apply fd_first0; lia].
    - intros j m Hj. destruct (decide (j = i)) as [->|]; [apply Hno|apply Hr; lia]. }
  destruct (needle_at_spec d i) as (h & -> & Hh); [lia..|]. cbn. destruct h; cbn.
  - destruct (needle_string d i) as (e & -> & Ha); [lia..|by apply Hh|]. cbn.
    destruct (e - i <? min_len) eqn:Em.
    + exists r. split; [done|]. apply Hskip. intros m Hm. rewrite (cmdline_at_unique _ _ _ _ Hm Ha). lia.
    + pose proof (ca_fits _ _ _ Ha). pose proof (ca_len _ _ _ Ha).
      destruct (skip_while_spec true d (Z.min (b_len d) (u32 (i + 512))) (Z.to_nat (b_len d - i)) e)
        as (c & -> & H1 & H3 & _); [lia..|]. cbn. eexists. split; [done|]. split; [done|].
      replace e with (i + (e - i)) in H3 at 1 by lia.
      replace c with (i + (c - i)) in H3 by lia. by split; [..|lia|lia|lia| |lia].
  - exists r. split; [done|]. apply Hskip. intros n []. discriminate (proj2 Hh ca_needle0).
Qed.

(** The command line the main program writes, given the old one. *)
Definition new_cmdline (append : bool) (old new_cmd : list Z) : list Z :=
  if append then old ++ [32] ++ new_cmd else new_cmd.

(** [d'] is [d] with the string of [n] bytes at [i] replaced in its buffer of
    [cap] bytes: as much of the new command line as leaves room for a
    terminator, then zeroes, and nothing else changed. *)
Definition patched (d : bytes) (i n cap : Z) (append : bool) (new_cmd : list Z) (d' : bytes) : Prop :=
  exists old, bytes_at d i (Z.to_nat n) = Some old /\ stored cap d i d' /\
    let text := take (Z.to_nat (cap - 1)) (new_cmdline append old new_cmd) in
    Z.of_nat (length text) < cap /\
    (forall k, 0 <= k < cap -> bytes_get d' (i + k) = Some (default 0 (text !! Z.to_nat k))).

Lemma write_cmdline_spec d i n cap append new_cmd :
  0 <= i -> 0 <= n <= cap -> 1 <= cap -> i + cap <= b_len d -> cap < 4294967296 ->
  exists d', write_cmdline d i n cap new_cmd append = Some d' /\ patched d i n cap append new_cmd d'.
Proof.
  intros Hi Hn Hc Hl Hu. unfold write_cmdline.
  destruct (bytes_at_in d (Z.to_nat n) i) as (old & Eo & _); [lia..|]. rewrite Eo. cbn [mbind option_bind].
  fold (new_cmdline append old new_cmd). set (cmd := new_cmdline append old new_cmd).
  assert (u64 (u32 (cap - 1)) = cap - 1) as ->.
  { rewrite u32_id by (unfold is_u32; lia). unfold u64. by rewrite Z.mod_small by lia. }
  assert (take (Z.to_nat (Z.min (Z.of_nat (length cmd)) (cap - 1))) cmd = take (Z.to_nat (cap - 1)) cmd) as ->.
  { destruct (Z.le_gt_cases (Z.of_nat (length cmd)) (cap - 1)); [|by rewrite Z.min_r by lia].
    by rewrite !take_ge by lia. }
  set (text := take (Z.to_nat (cap - 1)) cmd).
  assert (Z.of_nat (length text) < cap) as Ht by (unfold text; rewrite length_take; lia).
  destruct (pokes_spec (replicate (Z.to_nat cap) 0) d i) as (d1 & -> & [L1 F1] & P1); [done|rewrite length_replicate; lia|].
  rewrite length_replicate in F1. cbn [mbind option_bind].
  destruct (pokes_spec text d1 i) as (d2 & -> & [L2 F2] & P2); [done|lia|].
  exists d2. split; [done|]. exists old. split; [done|]. split; [split; [congruence|]|].
  - intros j Hj. rewrite F2, F1 by lia. done.
  - cbv zeta. fold cmd text. split; [done|]. intros k Hk. replace k with (Z.of_nat (Z.to_nat k)) at 1 by lia.
    destruct (text !! Z.to_nat k) as [b|] eqn:Eb; [by apply P2|]. apply lookup_ge_None in Eb.
    rewrite F2 by lia. apply P1. apply lookup_replicate. split; [done|]. lia.
Qed.

(** The whole search and patch of a buffer: it never leaves the buffer; either
    a string is found and patched in place, or there is none. *)
Lemma patch_buffer_spec d new_cmd append min_len :
  0 <= b_len d < 4294967296 - 512 ->
  exists r, patch_buffer d (b_len d) new_cmd append min_len = Some r /\
    match r with
    | Some d' => exists i n cap, found d min_len 0 i n cap /\ patched d i n cap append new_cmd d'
    | None => forall i n, cmdline_at d i n -> n < min_len
    end.
Proof.
  intros Hl. unfold patch_buffer. destruct (find_cmdline_spec d min_len (Z.to_nat (b_len d)) 0) as (r & -> & Hr); [lia..|].
  cbn. destruct r as [[[i n] cap]|].
  - destruct Hr as [Hi Hf]. pose proof (ca_len _ _ _ (fd_at _ _ _ _ _ _ Hf)). pose proof (fd_cap _ _ _ _ _ _ Hf).
    pose proof (fd_fits _ _ _ _ _ _ Hf).
    destruct (write_cmdline_spec d i n cap append new_cmd) as (d' & -> & Hd); [lia..|]. cbn.
    eexists. split; [done|]. by exists i, n, cap.
  - eexists. split; [done|]. intros i n Ha. apply (Hr i n); [apply Ha|done].
Qed.

(** ** In the memory controller *)

Section bank.
Context {W : Type} `{DeviceBus W}.
Implicit Types m : mctrl W.

Lemma try_patch_spec m k b d addr new_cmd append min_len :
  mc_ok m -> is_u32 addr -> banks m !! k = Some b -> holds b addr -> buffer_of b = Some d ->
  b_len d < 4294967296 - 512 ->
  exists r m', try_patch_cmdline_in_bank addr new_cmd append min_len m = (Val r, m') /\ world m' = world m /\
    if r then
      exists i n cap d', found d min_len 0 i n cap /\ patched d i n cap append new_cmd d' /\
        banks m' = <[k := set_data b d']> (banks m)
    else (forall i n, cmdline_at d i n -> n < min_len) /\ banks m' = banks m /\ mc_ok m'.
Proof.
  intros Hm Ha Hk Hb Hd Hl. destruct (find_bank_or_null_scan m addr Hm Ha) as (c & E & Hok).
  rewrite (scan_banks_unique _ k b) in E by (done || apply Hm).
  unfold try_patch_cmdline_in_bank. rewrite (bindM_val _ _ _ _ _ E).
  assert (get_ptr k (m <| tl_cache := c |>) = (Val (Some k), m <| tl_cache := c |>)) as E2.
  { unfold get_ptr, bank_at, bindM. cbn. rewrite Hk. by destruct b. }
  cbn [fmap option_fmap option_map fst]. rewrite (bindM_val _ _ _ _ _ E2). clear E E2.
  rewrite (bindM_val _ _ _ b (m <| tl_cache := c |>)) by (unfold bank_at; cbn; by rewrite Hk).
  rewrite Hd. mstep.
  assert (bank_wf b) as (_ & Hb1 & _) by (destruct Hm as ([Hf _] & _); rewrite Forall_lookup in Hf; eauto).
  assert (get_size b = b_len d) as ->.
  { unfold get_size. destruct b; cbn in Hd |- *; simplify_eq; cbn in Hb1; by apply u32_id; unfold is_u32; lia. }
  assert (0 <= b_len d) by (destruct b; cbn in Hd, Hb1; simplify_eq; lia).
  destruct (patch_buffer_spec d new_cmd append min_len) as (r & -> & Hr); [lia|]. mstep.
  destruct r as [d'|].
  - destruct Hr as (i & n & cap & Hf & Hp). eexists true, _. split; [done|]. split; [done|]. by exists i, n, cap, d'.
  - eexists false, _. by split.
Qed.

(** C35. The command line is patched within its buffer: for a bank of memory,
    whatever it holds, the search returns without an access outside the bank.
    If it finds no string that starts with the needle and is long enough it
    changes nothing; else the first one, of [n] characters in a buffer of [cap]
    bytes whose rest is zero, is replaced by as much of the new command line as
    leaves room for a terminator, padded with zeroes, and no byte outside those
    [cap] changes. *)
Theorem cmdline_patched m k b d addr new_cmd append min_len :
  mc_ok m -> is_u32 addr -> banks m !! k = Some b -> holds b addr -> buffer_of b = Some d ->
  b_len d < 4294967296 - 512 ->
  exists r m', try_patch_cmdline_in_bank addr new_cmd append min_len m = (Val r, m') /\ world m' = world m /\
    if r then
      exists i n cap d', found d min_len 0 i n cap /\ patched d i n cap append new_cmd d' /\
        banks m' = <[k := set_data b d']> (banks m)
    else (forall i n, cmdline_at d i n -> n < min_len) /\ banks m' = banks m.
Proof.
  intros Hm Ha Hk Hb Hd Hl. destruct (try_patch_spec m k b d addr new_cmd append min_len Hm Ha Hk Hb Hd Hl) as (r & m' & E & Hw & Hr).
  exists r, m'. split; [done|]. split; [done|]. destruct r; [done|]. by destruct Hr as (? & ? & _).
Qed.
End bank.

(** ** A boot PROM *)

(** [console=ttyS0], sixteen bytes into a bank of 64. *)
Definition prom_text : list Z := needle ++ [116; 116; 121; 83; 48].
Definition prom_data : bytes := default (mkBytes 64 ∅) (pokes (mkBytes 64 ∅) 16 prom_text).
Definition prom_bank : bank := RomBank 0xffff0000 true Big prom_data.
Definition prom_mc : mctrl unit := (attach_bank prom_bank demo_empty).2.

Lemma prom_mc_ok : mc_ok prom_mc.
Proof.
  apply mc_reachable_ok, mcr_attach; [by apply mcr_new| |done]. unfold bank_wf. by vm_compute.
Qed.

(** Replacing it by [root=/dev/ram0]. *)
Lemma cmdline_patched_witness :
  exists m', @try_patch_cmdline_in_bank unit 0xffff0000 [114; 111; 111; 116; 61; 47; 100; 101; 118] false 0 prom_mc =
             (Val true, m') /\
    exists i n cap d', found prom_data 0 0 i n cap /\
      patched prom_data i n cap false [114; 111; 111; 116; 61; 47; 100; 101; 118] d' /\
      banks m' = [RomBank 0xffff0000 true Big d'].
Proof.
  destruct (@cmdline_patched unit prom_mc 0 prom_bank prom_data 0xffff0000
              [114; 111; 111; 116; 61; 47; 100; 101; 118] false 0) as (r & m' & E & _ & Hr);
    [apply prom_mc_ok|unfold is_u32; lia|reflexivity|by vm_compute|reflexivity|by vm_compute|].
  assert (r = true) as -> by (vm_compute in E; congruence).
  exists m'. split; [exact E|]. exact Hr.
Defined.
