(* ===== verification/Boot.v ===== *)
(** * Starting the emulator ([main] of src/src/sparcv8_leon_smp.cpp)

    From the options to the state in which the threads start: the board, the
    image and the command line in memory, and the processors in their holding
    pattern, the first one called.  Of the audio library the model takes whether
    its calls succeed.  Option parsing itself, the display's window and the
    debugger's socket are not modelled. *)
From S2P Require Import Prelude Mctrl Tlb Mmu Cpu Instr Fpu Exec Irqmp Gptimer Uart Ps2 Apb AudioOut Ac97 Video Grpci2.
From S2P Require Import Board Smp Elf Amba AmbaDump Debug Cmdline.

(** What the command line options say: [-n], [-V], the bytes of the file of
    [-i], the text of [-c] or [-C], whether it is [-C], and [-g]. *)
Record options := mkOptions {
  num_cpus_requested : Z; enable_vga : bool; image : list Z; cmdline_override : list Z;
  cmdline_append : bool; debug_server : bool }.

(** [if (num_cpus_requested < 1 || num_cpus_requested > 32) ... = 1]. *)
Definition cpu_count (n : Z) : Z := if (n <? 1) || (32 <? n) then 1 else n.

(** The constructor of [CPU], over whatever [raw] storage holds. *)
Definition CPU_new (raw : cpu) (cpu_id : Z) : cpu :=
  mkCpu (pc raw) (npc raw) (psr raw) (irl raw) (trap_type raw) (tbr raw) (wim raw) (y_reg raw)
    cpu_id (fsr raw) 0 (globals raw) (locals raw) (outs raw) (freg raw)
    false false false false (rs raw) false false.
Definition cpu_mmu : MMU := set_dccr 0x18220008 (set_iccr 0x10220008 (set_ccr 0x00020000 mmu_new)).

Definition BankCache0 : BankCache := mkBankCache 0 0 None 0 0.

(** Whether [Pa_Initialize], [Pa_OpenDefaultStream] and [Pa_StartStream] return
    [paNoError]. *)
Record portaudio := mkPortaudio { pa_initialize : bool; pa_open : bool; pa_start : bool }.

#[local] Open Scope M_scope.

Section boot.
Abbreviation MC := (M (mctrl board)).

(** [AC97Pci(device_number, mctrl, start_host_audio)]. *)
Definition AC97Pci_new (start_host_audio : bool) (pa : portaudio) : MC ac97 :=
  when start_host_audio
    (_ ← (fun m => (HostAudioOut_new 48000 1024 (pa_initialize pa) (pa_open pa) (pa_start pa), m)); ret tt) ;;
  or_ub (init_pci_config (ac97_zero start_host_audio)).

(** The audio controller behind the PCI bridge; nothing catches what its
    constructor throws. *)
Definition attach_audio (pa : portaudio) : MC unit :=
  a ← AC97Pci_new true pa;
  modify (fun m => m <| world := world m <| apb_pci :=
    attach_device (set_phys_bases 0x24000800 0x24000900 a) (apb_pci (world m)) |> |>).

(** The body of the loop that creates the processors. *)
Definition create_cpu (raw : cpu) (entry_va end_of_ram : Z) (debug : bool) (i : Z) : MC core := fun m =>
  let '(r, t) :=
    (cpu_reset entry_va ;;
     updc (fun c => c <| power_down_enabled := true |>) ;;
     on_mem (on_mc (on_device (a_irq (set_cpu_ptr i)))) ;;
     write_reg (u32 (u32 end_of_ram - 0x180)) OUTREG6 ;;
     write_reg (u32 end_of_ram) INREG6 ;;
     updc (fun c => if debug then c <| gdb_stub := true |> else c))
      (mkMachine (CPU_new raw i) Decode0 (mkMemsys cpu_mmu m) []) in
  (match r with
   | Val _ => Val (mkCore (m_cpu t) Decode0 (ms_mmu (m_mem t)) BankCache0 Holding)
   | Exn e => Exn e
   | Crash c => Crash c
   | Blocked => Blocked
   end, ms_mc (m_mem t)).

Fixpoint create_cpus (raw : Z -> cpu) (entry_va end_of_ram : Z) (debug : bool) (n : nat) (i : Z) : MC (list core) :=
  match n with
  | O => ret []
  | S n => c ← create_cpu (raw i) entry_va end_of_ram debug i;
           l ← create_cpus raw entry_va end_of_ram debug n (i + 1); ret (c :: l)
  end.

(** The banks, the devices behind them and the timer; the end of main memory. *)
Definition setup_board (vga : bool) (pa : portaudio) : MC Z :=
  attach_all vga ;;
  attach_audio pa ;;
  debug_list_banks ;;
  i ← find_bank 0x40000000;
  b ← bank_at i;
  modify (fun m => m <| world := world m <| apb_timer := set_LEON_smp_state (apb_timer (world m)) |> |>) ;;
  ret (get_end_exclusive b).

(** Everything on the memory controller, up to the start of the threads. *)
Definition setup (o : options) (raw : Z -> cpu) (pa : portaudio) : MC (list core) :=
  end_of_ram ← setup_board (enable_vga o) pa;
  '(_, entry_va) ← ReadElf (image o);
  when (negb (bool_decide (cmdline_override o = []))) (patch_cmdline (cmdline_override o) (cmdline_append o)) ;;
  create_cpus raw entry_va end_of_ram (debug_server o) (Z.to_nat (cpu_count (num_cpus_requested o))) 0.

(** [cpus[0]->wakeup()]. *)
Definition wake_first (l : list core) : list core :=
  match l with [] => [] | c :: l => woken c :: l end.

(** The state in which the threads run.  [con], [e1] to [t9] and [raw] are what
    the terminal holds and what uninitialised storage does. *)
Definition boot (o : options) (con : console) (e1 t1 e9 t9 : bool) (pa : portaudio) (raw : Z -> cpu) : res (smp board) :=
  match irqmp_new (cpu_count (num_cpus_requested o)) with
  | (Val _, q) =>
      let a := APBCTRL_new 0x80000000 con q e1 t1 e9 t9 grpci2_new (screen_new (enable_vga o)) in
      match setup o raw pa (fresh_mctrl a) with
      | (Val cores, m) => Val (mkSmp (wake_first cores) m [] BankCache0 0 [])
      | (Exn e, _) => Exn e
      | (Crash c, _) => Crash c
      | (Blocked, _) => Blocked
      end
  | (Exn e, _) => Exn e
  | (Crash c, _) => Crash c
  | (Blocked, _) => Blocked
  end.
End boot.
