(* ===== verification/BootProofs.v ===== *)
(** * Theorems about the start of the emulator *)
From S2P Require Import Prelude Mctrl Tlb Mmu Cpu Instr Fpu Exec Words Irqmp Gptimer Uart Ps2 Apb AudioOut Ac97.
From S2P Require Import Ac97Proofs Video Grpci2 Grpci2Proofs DeviceWords Ac97Words VideoWords Board Smp SmpProofs Elf ElfProofs Amba Debug Cmdline Boot.

#[local] Open Scope M_scope.

(** ** Memory contents stay bytes *)

Lemma pokes_ok bs : forall d p d', bytes_ok d -> Forall is_u8 bs -> pokes d p bs = Some d' -> bytes_ok d'.
Proof.
  induction bs as [|b bs IH]; intros d p d' Hd Hb E; cbn in E; [by simplify_eq|].
  apply Forall_cons_1 in Hb as [Hb Hbs]. destruct (bytes_set d p b) as [d1|] eqn:E1; [|done].
  eapply IH; [|done|exact E]. by eapply bytes_set_ok.
Qed.

Lemma bytes_at_ok n : forall d i l, bytes_ok d -> bytes_at d i n = Some l -> Forall is_u8 l.
Proof.
  induction n as [|n IH]; intros d i l Hd E; cbn in E; [by simplify_eq|]. split_option.
  constructor; [by eapply bytes_get_ok|by eapply IH].
Qed.

Lemma patch_buffer_ok d sz new_cmd append min_len d' :
  bytes_ok d -> Forall is_u8 new_cmd -> patch_buffer d sz new_cmd append min_len = Some (Some d') -> bytes_ok d'.
Proof.
  intros Hd Hn E. unfold patch_buffer in E. destruct (find_cmdline _ _ _ _ _) as [[[[i n] cap]|]|]; cbn in E; try done.
  destruct (write_cmdline d i n cap new_cmd append) as [d1|] eqn:Ew; cbn in E; simplify_eq. unfold write_cmdline in Ew.
  destruct (bytes_at d i (Z.to_nat n)) as [old|] eqn:Eo; cbn in Ew; [|done].
  destruct (pokes d i (replicate _ 0)) as [d2|] eqn:E2; cbn in Ew; [|done].
  eapply pokes_ok; [|apply Forall_take|exact Ew].
  - eapply pokes_ok; [done| |exact E2]. by apply Forall_replicate.
  - destruct append; [|done]. apply Forall_app_2; [by eapply bytes_at_ok|]. by constructor.
Qed.

Lemma keeps_catch_all {S A} (I : S -> Prop) (m h : M S A) R : keeps I m R -> keeps I h R -> keeps I (catch_all m h) R.
Proof.
  intros Hm Hh s Hs. unfold catch_all. specialize (Hm s Hs). destruct (m s) as [[a|e|c|] s']; [done| |done..].
  by apply Hh, Hm.
Qed.

(** ** The listing of the banks *)

(** A walk over the banks that keeps an invariant of the accesses keeps it. *)
Lemma keeps_listing {W} `{DeviceBus W} (I : mctrl W -> Prop) :
  (forall i, keeps I (bank_at i) (fun _ => True)) ->
  (forall i a, keeps I (v ← bank_read32 i a true; bank_write32 i a v true) (fun _ => True)) ->
  keeps I debug_list_banks (fun _ => True).
Proof.
  intros Hb Hw. unfold debug_list_banks. eapply keeps_bind; [apply keeps_gets_any|intros n _].
  generalize O as i. induction n as [|n IH]; intros i; cbn [list_banks_from]; [by apply keeps_ret|].
  apply (keeps_bind _ _ _ (fun _ => True)).
  - unfold list_bank. eapply keeps_bind; [apply Hb|intros b _]. cbv zeta.
    apply (keeps_bind _ _ _ (fun _ => True)); [|intros; by apply keeps_ret].
    unfold writable. apply keeps_catch_all; [|by apply keeps_ret]. intros m Hm. specialize (Hw i (get_base b) m Hm).
    unfold bindM in Hw |- *. destruct (bank_read32 _ _ _ m) as [[v| | |] m1]; [|by destruct Hw..].
    destruct (bank_write32 _ _ _ _ m1) as [[[]| | |] m2]; by destruct Hw.
  - intros l _. eapply keeps_bind; [apply IH|intros; by apply keeps_ret].
Qed.

Section setup_words.
Context {W : Type} `{DeviceBusLaws W}.

Lemma keeps_attach b : bank_bytes b -> keeps mc_words (attach_bank (W:=W) b) (fun _ => True).
Proof.
  intros Hb m [Hm Hw]. unfold attach_bank. case_match; cbn; split; try done. split; [|done]. cbn.
  apply Forall_app_2; [done|by constructor].
Qed.

Lemma keeps_list_banks : keeps mc_words (debug_list_banks (W:=W)) (fun _ => True).
Proof.
  apply keeps_listing; [intros; eapply keeps_any, bank_at_ok|].
  intros. eapply keeps_bind; [apply bank_read32_ok|intros v Hv]. by apply bank_write32_ok.
Qed.

Lemma keeps_try_patch base new_cmd append min_len :
  Forall is_u8 new_cmd -> keeps mc_words (try_patch_cmdline_in_bank (W:=W) base new_cmd append min_len) (fun _ => True).
Proof.
  intros Hn. unfold try_patch_cmdline_in_bank. eapply keeps_bind; [apply find_bank_or_null_ok|intros [i|] _]; [|by apply keeps_ret].
  eapply keeps_bind; [apply get_ptr_ok|intros [k|] _]; [|by apply keeps_ret].
  eapply keeps_bind; [apply bank_at_ok|intros b Hb].
  eapply keeps_bind; [apply keeps_or_ub|intros d Ed].
  eapply keeps_bind; [apply keeps_or_ub|intros [d'|] Ep]; [|by apply keeps_ret].
  eapply (keeps_bind _ _ _ (fun _ => True)); [|intros; by apply keeps_ret]. apply put_data_ok; [done|].
  intros d2 [= <-]. eapply patch_buffer_ok; [|done|exact Ep]. by eapply bank_buffer.
Qed.

Lemma keeps_patch new_cmd append :
  Forall is_u8 new_cmd -> keeps mc_words (patch_cmdline (W:=W) new_cmd append) (fun _ => True).
Proof.
  intros Hn. unfold patch_cmdline. eapply keeps_bind; [by apply keeps_try_patch|intros [] _]; [by apply keeps_ret|].
  eapply keeps_bind; [by apply keeps_try_patch|intros; by apply keeps_ret].
Qed.

(** ** The loader *)

Definition elf_words (s : elf_st W) : Prop := mc_words (el_mc s) /\ Forall is_u8 (el_stream s).

Lemma keeps_get_byte : keeps elf_words get_byte is_u8.
Proof.
  intros s [Hm Hl]. unfold get_byte. destruct (el_stream s) as [|c l] eqn:E; [by split; [split; [|cbn; rewrite E]|]|].
  apply Forall_cons_1 in Hl as [Hc Hl]. split; [by split|]. by intros ? [= <-].
Qed.

Lemma keeps_get_bytes n : keeps elf_words (get_bytes n) (Forall is_u8).
Proof.
  induction n as [|n IH]; [by apply keeps_ret|]. cbn. eapply keeps_bind; [apply keeps_get_byte|intros c Hc].
  eapply keeps_bind; [apply IH|intros l Hl]. apply keeps_ret. by constructor.
Qed.

Lemma keeps_elf_write a v : is_u32 v -> keeps elf_words (elf_write32 a v) (fun _ => True).
Proof.
  intros Hv. apply (keeps_zoom _ _ _ mc_words); [by apply mc_write32_ok|by intros s []|]. by intros s m [] Hm.
Qed.

Lemma keeps_phdrs n : forall k, keeps elf_words (read_phdrs n k) (Forall (Forall is_u8)).
Proof.
  induction n as [|n IH]; intros k; [by apply keeps_ret|]. cbn [read_phdrs]. case_match; [by apply keeps_stop|].
  eapply keeps_bind; [apply keeps_get_bytes|intros p Hp]. eapply keeps_bind; [apply IH|intros l Hl].
  apply keeps_ret. by constructor.
Qed.

Lemma keeps_gobble fuel : forall o, keeps elf_words (gobble fuel o) (fun _ => True).
Proof.
  induction fuel as [|fuel IH]; intros o; cbn [gobble]; (eapply keeps_bind; [apply keeps_gets_any|intros b _]);
    (case_match; [|by apply keeps_ret]); [by apply keeps_stop|].
  eapply keeps_bind; [apply keeps_get_byte|intros; apply IH].
Qed.

Lemma keeps_load_bytes fuel pa limit : forall i word, is_u32 word ->
  keeps elf_words (load_bytes fuel pa limit i word) (fun _ => True).
Proof.
  induction fuel as [|fuel IH]; intros i word Hw; cbn [load_bytes]; (eapply keeps_bind; [apply keeps_gets_any|intros b _]);
    (case_match; [|by apply keeps_ret]); [by apply keeps_stop|].
  eapply keeps_bind; [apply keeps_get_byte|intros c Hc]. cbv zeta.
  assert (is_u32 (Z.lor word (u32 (Z.shiftl c ((3 - Z.land b 3) * 8))))) by auto with u32.
  case_match; [|by apply IH]. eapply keeps_bind; [by apply keeps_elf_write|intros; by apply IH].
Qed.

Lemma keeps_zero_fill fuel a n : forall j, keeps elf_words (zero_fill fuel a n j) (fun _ => True).
Proof.
  induction fuel as [|fuel IH]; intros j; cbn [zero_fill]; (case_match; [|by apply keeps_ret]); [by apply keeps_ret|].
  apply (keeps_bind _ _ _ (fun _ => True)); [|intros; apply IH].
  intros s Hs. destruct (keeps_elf_write (u32 (a + j)) 0 ltac:(done) s Hs) as [A1 _]. by destruct (elf_write32 _ _ s) as [[]].
Qed.

Lemma keeps_load_segment ph : keeps elf_words (load_segment ph) (fun _ => True).
Proof.
  unfold load_segment. eapply keeps_bind; [apply keeps_gets_any|intros n _]. eapply keeps_bind; [apply keeps_gobble|intros _ _].
  cbv zeta. eapply keeps_bind; [apply keeps_gets_any|intros n2 _]. eapply keeps_bind; [by apply keeps_load_bytes|intros i _].
  apply (keeps_bind _ _ _ (fun _ => True)); [|intros; by apply keeps_ret]. case_match; [|by apply keeps_ret].
  eapply keeps_bind; [apply keeps_zero_fill|intros _ _]. case_match; [by apply keeps_stop|by apply keeps_ret].
Qed.

Lemma keeps_load_segments phs : keeps elf_words (load_segments phs) (fun _ => True).
Proof.
  induction phs as [|ph phs IH]; [by apply keeps_ret|]. cbn. eapply keeps_bind; [apply keeps_load_segment|intros i _].
  eapply keeps_bind; [apply IH|intros; by apply keeps_ret].
Qed.

Lemma field32_u32 l o : Forall is_u8 l -> is_u32 (field32 l o).
Proof. intros Hl. unfold field32. apply cat4_u32; apply nth_u8; exact Hl. Qed.

Lemma ReadElf_ok file : Forall is_u8 file -> keeps (mc_words (W:=W)) (ReadElf file) (fun r => is_u32 r.2).
Proof.
  intros Hf m Hm. unfold ReadElf.
  assert (keeps elf_words (read_elf (W:=W)) (fun r => is_u32 r.2)) as Hr.
  { unfold read_elf. eapply keeps_bind; [apply keeps_get_bytes|intros h Hh].
    repeat (case_match; [by apply keeps_stop|]). eapply keeps_bind; [apply keeps_phdrs|intros phs _].
    eapply keeps_bind; [apply keeps_load_segments|intros l _]. apply keeps_ret. cbn [snd]. unfold e_entry. apply field32_u32. exact Hh. }
  destruct (Hr (mkElf m file 0)) as [[A1 A2] A3]; [done|]. by destruct (read_elf _) as [r s].
Qed.
End setup_words.

(** ** The processors *)

(** A processor as the threads find it: reset at the entry point, allowed to
    power down, the stack below the end of memory. *)
Definition booted_cpu (raw : cpu) (entry : Z) (debug : bool) (i : Z) : cpu :=
  let c := reset entry (CPU_new raw i) <| power_down_enabled := true |>
    <| outs := <[14%nat := 0x48000000]> (<[6%nat := 0x47fffe80]> (replicate 64 0)) |> in
  if debug then c <| gdb_stub := true |> else c.
Definition booted_core (raw : cpu) (entry : Z) (debug : bool) (i : Z) : core :=
  mkCore (booted_cpu raw entry debug i) Decode0 (mmu_reset cpu_mmu) BankCache0 Holding.

Section create.
Implicit Types m : mctrl board.

(** The interrupt controller with a processor made known to it. *)
Definition with_ptr (i : Z) (q : irqmp) : irqmp := q <| cpu_ptrs_ := <[Z.to_nat i := true]> (cpu_ptrs_ q) |>.
Definition known_to (i : Z) m : mctrl board :=
  m <| world := world m <| apb_irq := with_ptr i (apb_irq (world m)) |> |>.

Lemma create_cpu_run raw entry debug i m :
  0 <= i < Z.of_nat (length (cpu_ptrs_ (apb_irq (world m)))) ->
  create_cpu raw entry 0x48000000 debug i m = (Val (booted_core raw entry debug i), known_to i m).
Proof.
  intros Hi. unfold create_cpu, cpu_reset.
  set (t0 := mkMachine (CPU_new raw i) Decode0 (mkMemsys cpu_mmu m) []).
  set (t1 := mkMachine (reset entry (CPU_new raw i)) Decode0 (mkMemsys (mmu_reset cpu_mmu) m) []).
  rewrite (bindM_val _ _ t0 tt t1) by reflexivity. mstep.
  set (t2 := mkMachine (reset entry (CPU_new raw i) <| power_down_enabled := true |>) Decode0
    (mkMemsys (mmu_reset cpu_mmu) (known_to i m)) []).
  rewrite (bindM_val (on_mem _) _ _ tt t2).
  2:{ unfold on_mem, on_mc, on_device, a_irq, set_cpu_ptr, zoom. cbn -[Z.of_nat Z.leb]. by rewrite (proj2 (Z.leb_gt _ _)) by lia. }
  do 2 mstep. unfold updc, modify. cbn [m_cpu m_mem ms_mc ms_mmu t2]. unfold booted_core, booted_cpu.
  by destruct debug.
Qed.

Fixpoint known_from (i : Z) (n : nat) m : mctrl board :=
  match n with O => m | S n => known_from (i + 1) n (known_to i m) end.

Lemma known_from_banks n : forall i m, banks (known_from i n m) = banks m.
Proof. induction n as [|n IH]; intros i m; [done|]. cbn [known_from]. by rewrite IH. Qed.

Lemma create_cpus_run raw entry debug n : forall i m,
  0 <= i -> i + Z.of_nat n <= Z.of_nat (length (cpu_ptrs_ (apb_irq (world m)))) ->
  create_cpus raw entry 0x48000000 debug n i m =
    (Val (imap (fun k _ => booted_core (raw (i + Z.of_nat k)) entry debug (i + Z.of_nat k)) (replicate n tt)), known_from i n m).
Proof.
  induction n as [|n IH]; intros i m H0' Hn; cbn [create_cpus]; [done|].
  rewrite (bindM_val _ _ _ _ _ (create_cpu_run (raw i) entry debug i m ltac:(lia))).
  rewrite (bindM_val _ _ _ _ _ (IH (i + 1) (known_to i m) ltac:(lia) ltac:(cbn; rewrite length_insert; lia))).
  cbn [replicate imap known_from]. rewrite Z.add_0_r. unfold ret. do 3 f_equal. apply imap_ext. intros k x _. cbn.
  by replace (i + 1 + Z.of_nat k) with (i + Z.of_nat (S k)) by lia.
Qed.
End create.

(** ** The board *)

Section board_setup.
Implicit Types m : mctrl board.

(** What is known of the interrupt controller's pointers while the processors
    are created: there are [n], and the first [i] are set. *)
Definition known_upto (n i : nat) : CpuPtrs := fun l k =>
  k = Z.of_nat n /\ length l = n /\ forall c, (c < i)%nat -> l !! c = Some true.

(** The type invariant of the memory system with that much known. *)
Abbreviation typed K := (@mc_words board DeviceBus_board (@board_laws K)).

Lemma known_to_typed n i m : (i < n)%nat -> typed (known_upto n i) m -> typed (known_upto n (S i)) (known_to (Z.of_nat i) m).
Proof.
  intros Hi [Hb Hw]. split; [done|]. cbn in Hw |- *. destruct Hw as [? ? ? ? [] ? ? ? ?]. constructor; try done.
  constructor; try done. destruct iw_known as (Hn & Hl & Hk). split; [done|]. cbn. rewrite length_insert.
  split; [done|]. intros c Hc. rewrite Nat2Z.id. destruct (decide (c = i)) as [->|].
  - apply list_lookup_insert_eq. lia.
  - rewrite list_lookup_insert_ne by done. apply Hk. lia.
Qed.

Lemma known_from_typed n k : forall i m, (i + k = n)%nat -> typed (known_upto n i) m ->
  typed all_known (known_from (Z.of_nat i) k m).
Proof.
  induction k as [|k IH]; intros i m Hn Hm; cbn [known_from].
  - destruct Hm as [Hb Hw]. split; [done|]. cbn in Hw |- *. destruct Hw as [? ? ? ? [] ? ? ? ?]. constructor; try done.
    constructor; try done. destruct iw_known as (Hc & Hl & Hk). intros c Hlt. apply Hk. lia.
  - replace (Z.of_nat i + 1) with (Z.of_nat (S i)) by lia. apply IH; [lia|]. apply known_to_typed; [lia|done].
Qed.

Context (K : CpuPtrs).

Lemma keeps_table l : Forall is_u32 (map snd l) -> keeps (typed K) (write_table l) (fun _ => True).
Proof.
  intros Hl. unfold write_table. induction l as [|e l IH]; [by apply keeps_ret|]. apply Forall_cons_1 in Hl as [He Hl].
  cbn [for_each]. eapply keeps_bind; [by apply mc_write32_ok|intros _ _; by apply IH].
Qed.

Lemma keeps_attach_all vga : keeps (typed K) (attach_all vga) (fun _ => True).
Proof.
  unfold attach_all, amba_ahb_pnp_setup, amba_apb_pnp_setup.
  assert (forall l, forallb (fun x => (0 <=? x) && (x <? 4294967296)) (map snd l) = true ->
    keeps (typed K) (write_table l) (fun _ => True)) as Ht by (intros l Hl; by apply keeps_table, words_by_check).
  assert (forall b, bank_bytes b -> keeps (typed K) (attach_bank b) (fun _ => True)) as Ha by (intros; by apply keeps_attach).
  repeat first
    [ by apply Ha
    | apply Ht; vm_compute; reflexivity
    | apply keeps_when; [intros _|done]
    | apply (keeps_bind _ _ _ (fun _ => True)); [|intros ? _]
    | by apply keeps_ret ].
Qed.

Lemma audio_config : exists a, init_pci_config (ac97_zero true) = Some a /\ ac97_words a.
Proof.
  eexists. split; [vm_compute; reflexivity|]. constructor; try word_ok.
  by repeat (constructor; [split; vm_compute; congruence|]).
Qed.

Lemma keeps_attach_audio pa : keeps (typed K) (attach_audio pa) (fun _ => True).
Proof.
  unfold attach_audio, AC97Pci_new. destruct audio_config as (a & -> & Ha).
  apply (keeps_bind _ _ _ (fun x => x = a)).
  - apply (keeps_bind _ _ _ (fun _ => True)); [|intros; by apply keeps_ret]. apply keeps_when; [intros _|done].
    apply (keeps_bind _ _ _ (fun _ => True)); [by intros m Hm|intros; by apply keeps_ret].
  - intros ? ->. apply keeps_modify; [|done]. intros m [Hb Hw]. split; [done|]. cbn in Hw |- *. destruct Hw. constructor; try done. cbn.
    destruct aw_pci. constructor; try done. cbn. intros ? [= <-]. by apply words_attached; [word_ok..|].
Qed.

Lemma set_LEON_words t : gpt_words t -> gpt_words (set_LEON_smp_state t).
Proof.
  intros [? ? ? ? (? & ? & ? & ?) (? & ? & ? & ?)].
  constructor; try done; split_and!; try done; split; vm_compute; congruence.
Qed.

Lemma keeps_setup_board vga pa : keeps (typed K) (setup_board vga pa) (fun _ => True).
Proof.
  unfold setup_board. eapply keeps_bind; [apply keeps_attach_all|intros _ _].
  eapply keeps_bind; [apply keeps_attach_audio|intros _ _].
  eapply keeps_bind; [apply keeps_list_banks|intros _ _].
  apply (keeps_bind _ _ _ (fun _ => True)).
  { unfold find_bank. eapply keeps_bind; [apply find_bank_or_null_ok|intros [i|] _]; [by apply keeps_ret|by apply keeps_stop]. }
  intros i _. eapply keeps_bind; [apply bank_at_ok|intros b _].
  eapply (keeps_bind _ _ _ (fun _ => True)); [|intros; by apply keeps_ret].
  apply keeps_modify; [|done]. intros m [Hb Hw]. split; [done|]. cbn in Hw |- *. destruct Hw. constructor; try done.
  by apply set_LEON_words.
Qed.

End board_setup.

(** ** The whole start *)

(** The first processor of the list is called, the others wait. *)
Record started (entry : Z) (debug : bool) (k : nat) (c : core) : Prop := {
  st_mode : k_mode c = Holding; st_pc : pc (k_cpu c) = entry; st_npc : npc (k_cpu c) = u32 (entry + 4);
  st_psr : psr (k_cpu c) = reset_psr; st_id : cpu_id_ (k_cpu c) = Z.of_nat k;
  st_called : wakeup_flag (k_cpu c) = (k =? 0)%nat;
  st_sp : read_reg_of (k_cpu c) OUTREG6 0 = Some 0x47fffe80; st_fp : read_reg_of (k_cpu c) INREG6 0 = Some 0x48000000;
  st_pd : power_down_enabled (k_cpu c) = true; st_gdb : gdb_stub (k_cpu c) = debug; st_mmu : get_enabled (k_mmu c) = false }.

Lemma booted_started raw entry debug k b :
  (k = 0%nat <-> b = true) -> started entry debug k ((if b : bool then woken else id) (booted_core raw entry debug (Z.of_nat k))).
Proof.
  intros Hk. assert ((k =? 0)%nat = b) as Eb by (destruct b, k; naive_solver).
  destruct b, debug; constructor; try done; cbn; by rewrite Eb.
Qed.

Lemma booted_words raw entry debug k : is_u32 entry -> core_words (booted_core raw entry debug k).
Proof.
  intros He. split; [|split; by constructor].
  pose proof (reset_words entry (CPU_new raw k) He) as Hr. unfold booted_core, booted_cpu. cbn [k_cpu].
  assert (Forall is_u32 (<[14%nat := 0x48000000]> (<[6%nat := 0x47fffe80]> (replicate 64 0)))) as Ho by (by apply words_by_check).
  destruct Hr, debug; constructor; done.
Qed.

Lemma wake_first_lookup l k : wake_first l !! k = (if (k =? 0)%nat then woken else id) <$> (l !! k).
Proof. by destruct l, k as [|k]; cbn; rewrite ?list_fmap_id; try destruct (_ !! _). Qed.

Section booted.
Abbreviation typed K := (@mc_words board DeviceBus_board (@board_laws K)).

(** The banks fit beside each other, and main memory ends at [0x48000000]. *)
Lemma setup_board_end vga pa con q e1 t1 e9 t9 e m' :
  setup_board vga pa (fresh_mctrl (APBCTRL_new 0x80000000 con q e1 t1 e9 t9 grpci2_new (screen_new vga))) = (Val e, m') ->
  e = 0x48000000.
Proof.
  intros E. apply (f_equal fst) in E. cbn [fst] in E. revert E. destruct vga, pa as [[] [] []]; vm_compute; congruence.
Qed.

(** The devices as constructed, for [n] processors. *)
Definition new_devices (n : Z) con e1 t1 e9 t9 (vga : bool) : board :=
  APBCTRL_new 0x80000000 con (irqmp_new n).2 e1 t1 e9 t9 grpci2_new (screen_new vga).

Lemma cpu_count_range n : 1 <= cpu_count n.
Proof. unfold cpu_count. destruct (_ || _) eqn:E; lia. Qed.

Lemma new_devices_typed n con e1 t1 e9 t9 vga :
  1 <= n <= 8 -> con_words con ->
  typed (known_upto (Z.to_nat n) 0) (fresh_mctrl (new_devices n con e1 t1 e9 t9 vga)).
Proof.
  intros Hn Hc. split; [by constructor|]. cbn.
  assert (n = 1 \/ n = 2 \/ n = 3 \/ n = 4 \/ n = 5 \/ n = 6 \/ n = 7 \/ n = 8) as Hcases by lia.
  constructor; try done; try apply uart_new_words.
  - repeat destruct Hcases as [->|Hcases]; try subst n; (constructor; try word_ok); (split; [done|]; split; [done|]; intros c Hlt; lia).
  - change (pci_words (D:=ac97) grpci2_new). by constructor; try word_ok.
  - apply screen_new_words.
Qed.

(** The processors in the order they were created. *)
Definition booted_cores (o : options) (raw : Z -> cpu) (entry : Z) : list core :=
  imap (fun k _ => booted_core (raw (0 + Z.of_nat k)) entry (debug_server o) (0 + Z.of_nat k))
    (replicate (Z.to_nat (cpu_count (num_cpus_requested o))) tt).

Lemma booted_count o raw entry m4 :
  Z.of_nat (length (s_cores (mkSmp (W:=board) (wake_first (booted_cores o raw entry)) m4 [] BankCache0 0 []))) = cpu_count (num_cpus_requested o).
Proof.
  pose proof (cpu_count_range (num_cpus_requested o)). cbn. unfold booted_cores.
  destruct (imap _ _) eqn:Ei; apply (f_equal length) in Ei; rewrite length_imap, length_replicate in Ei; cbn in Ei |- *; lia.
Qed.

Lemma irqmp_new_returns n : 1 <= n <= 8 -> irqmp_new n = (Val tt, (irqmp_new n).2).
Proof.
  intros Hn. unfold irqmp_new, irqmp_reset. cbn [irqmp_init num_cpus_]. unfold u8.
  by rewrite Z.mod_small, (proj2 (Z.ltb_ge 8 n)) by lia.
Qed.

Lemma boot_steps o con e1 t1 e9 t9 pa raw m1 words entry m2 m3 :
  let n := cpu_count (num_cpus_requested o) in
  n <= 8 -> Forall is_u8 (image o) -> Forall is_u8 (cmdline_override o) -> con_words con ->
  setup_board (enable_vga o) pa (fresh_mctrl (new_devices n con e1 t1 e9 t9 (enable_vga o))) = (Val 0x48000000, m1) ->
  ReadElf (image o) m1 = (Val (words, entry), m2) ->
  when (negb (bool_decide (cmdline_override o = []))) (patch_cmdline (cmdline_override o) (cmdline_append o)) m2 = (Val tt, m3) ->
  boot o con e1 t1 e9 t9 pa raw =
    Val (mkSmp (wake_first (booted_cores o raw entry)) (known_from 0 (Z.to_nat n) m3) [] BankCache0 0 []) /\
  is_u32 entry /\ typed all_known (known_from 0 (Z.to_nat n) m3).
Proof.
  intros n Hn Hi Hc Hcon E1 E2 E3. pose proof (cpu_count_range (num_cpus_requested o)) as H1'. fold n in H1'.
  pose proof (new_devices_typed n con e1 t1 e9 t9 (enable_vga o) ltac:(lia) Hcon) as Ht0.
  set (K := known_upto (Z.to_nat n) 0).
  assert (typed K m1) as T1 by (pose proof (proj1 (keeps_setup_board K (enable_vga o) pa _ Ht0)) as T; by rewrite E1 in T).
  destruct (ReadElf_ok (image o) Hi m1 T1) as [T2 He]. rewrite E2 in T2, He. specialize (He _ eq_refl). cbn in T2, He.
  assert (typed K m3) as T3.
  { assert (keeps (typed K) (when (negb (bool_decide (cmdline_override o = []))) (patch_cmdline (cmdline_override o) (cmdline_append o)))
      (fun _ => True)) as Hk by (apply keeps_when; [intros _; by apply keeps_patch|done]).
    pose proof (proj1 (Hk m2 T2)) as T. by rewrite E3 in T. }
  assert (length (cpu_ptrs_ (apb_irq (world m3))) = Z.to_nat n) as Hlen by (destruct T3 as [_ [? ? ? ? [] ? ? ? ?]]; apply iw_known).
  split; [|split; [done|by apply (known_from_typed (Z.to_nat n) (Z.to_nat n) 0)]].
  unfold boot. fold n. rewrite (irqmp_new_returns n) by lia. fold (new_devices n con e1 t1 e9 t9 (enable_vga o)). unfold setup.
  rewrite (bindM_val _ _ _ _ _ E1), (bindM_val _ _ _ _ _ E2), (bindM_val _ _ _ _ _ E3). fold n. by rewrite create_cpus_run by lia.
Qed.

Lemma boot_inv o con e1 t1 e9 t9 pa raw s :
  let n := cpu_count (num_cpus_requested o) in
  n <= 8 -> Forall is_u8 (image o) -> Forall is_u8 (cmdline_override o) -> con_words con ->
  boot o con e1 t1 e9 t9 pa raw = Val s ->
  exists m words entry m' m4,
    setup_board (enable_vga o) pa (fresh_mctrl (new_devices n con e1 t1 e9 t9 (enable_vga o))) = (Val 0x48000000, m) /\
    ReadElf (image o) m = (Val (words, entry), m') /\ is_u32 entry /\ typed all_known m4 /\
    s = mkSmp (wake_first (booted_cores o raw entry)) m4 [] BankCache0 0 [].
Proof.
  intros n Hn Hi Hc Hcon E. pose proof (cpu_count_range (num_cpus_requested o)) as H1'. fold n in H1'.
  pose proof E as E0. unfold boot in E. fold n in E. rewrite (irqmp_new_returns n) in E by lia.
  fold (new_devices n con e1 t1 e9 t9 (enable_vga o)) in E.
  destruct (setup o raw pa _) as [[cores| | |] m4] eqn:Es; try done. unfold setup in Es.
  apply bindM_inv_val in Es as (eor & m1 & E1 & ([words entry] & m2 & E2 & ([] & m3 & E3 & _)%bindM_inv_val)%bindM_inv_val).
  apply setup_board_end in E1 as Ee. subst eor.
  destruct (boot_steps o con e1 t1 e9 t9 pa raw m1 words entry m2 m3 Hn Hi Hc Hcon E1 E2 E3) as (E' & He & Hm).
  rewrite E' in E0. injection E0 as <-. exists m1, words, entry, m2. by eexists.
Qed.

Lemma booted_core_lookup o raw entry k c : wake_first (booted_cores o raw entry) !! k = Some c ->
  c = (if (k =? 0)%nat then woken else id) (booted_core (raw (Z.of_nat k)) entry (debug_server o) (Z.of_nat k)).
Proof.
  unfold booted_cores. rewrite wake_first_lookup, list_lookup_imap. intros Ek. destruct (replicate _ tt !! k); [|done].
  cbn in Ek. by simplify_eq.
Qed.

Lemma booted_words_all o raw entry m4 :
  is_u32 entry -> typed all_known m4 -> smp_words (mkSmp (wake_first (booted_cores o raw entry)) m4 [] BankCache0 0 []).
Proof.
  intros He Hm. split; cbn; [|done|by constructor|done|by constructor].
  apply Forall_lookup. intros k c Ek. rewrite (booted_core_lookup o raw entry k c Ek).
  pose proof (booted_words (raw (Z.of_nat k)) entry (debug_server o) (Z.of_nat k) He). case_match; [by apply woken_words|done].
Qed.

(** If the main program gets to its threads, then
    the system is well typed and has the requested number of processors (or
    one), each of them in its holding pattern, reset at the entry point of the
    image that was read, in supervisor mode with the MMU off, its stack at the
    end of main memory, known by its own number; the first of them, and only
    the first, has been called. *)
Lemma boot_state o con e1 t1 e9 t9 pa raw s :
  let n := cpu_count (num_cpus_requested o) in
  n <= 8 -> Forall is_u8 (image o) -> Forall is_u8 (cmdline_override o) -> con_words con ->
  boot o con e1 t1 e9 t9 pa raw = Val s ->
  smp_words s /\ Z.of_nat (length (s_cores s)) = n /\
  exists m words entry m',
    setup_board (enable_vga o) pa (fresh_mctrl (new_devices n con e1 t1 e9 t9 (enable_vga o))) = (Val 0x48000000, m) /\
    ReadElf (image o) m = (Val (words, entry), m') /\
    forall k c, s_cores s !! k = Some c -> started entry (debug_server o) k c.
Proof.
  intros n Hn Hi Hc Hcon E.
  destruct (boot_inv _ _ _ _ _ _ _ _ _ Hn Hi Hc Hcon E) as (m & words & entry & m' & m4 & E1 & E2 & He & Hm & ->).
  split; [by apply booted_words_all|]. split.
  - apply booted_count.
  - exists m, words, entry, m'. split; [done|]. split; [done|]. intros k c Ek. rewrite (booted_core_lookup o raw entry k c Ek).
    apply booted_started. by rewrite Nat.eqb_eq.
Qed.

(** More than eight processors pass the check of the options but not the
    constructor of the interrupt controller. *)
Lemma boot_too_many o con e1 t1 e9 t9 pa raw :
  8 < num_cpus_requested o <= 32 ->
  boot o con e1 t1 e9 t9 pa raw = Exn (runtime_error "ncpu > 8 not implemented").
Proof.
  intros Hn. unfold boot, cpu_count.
  rewrite (proj2 (Z.ltb_ge _ 1)), (proj2 (Z.ltb_ge 32 _)) by lia. cbn [orb]. unfold irqmp_new, irqmp_reset.
  cbn [irqmp_init num_cpus_]. unfold u8. by rewrite Z.mod_small, (proj2 (Z.ltb_lt 8 _)) by lia.
Qed.
End booted.
