(* ===== verification/BootRuns.v ===== *)
(** * The start of the emulator succeeds

    For a well-formed image the main program of src/src/sparcv8_leon_smp.cpp
    reaches the point where its threads start, if the audio library does; if the
    audio library fails, the exception ends the program. *)
From S2P Require Import Prelude Mctrl Tlb Mmu Cpu Instr Fpu Exec Words Irqmp Gptimer Uart Ps2 Apb AudioOut Ac97.
From S2P Require Import Ac97Proofs Video Grpci2 Grpci2Proofs DeviceWords Ac97Words VideoWords Board Smp SmpProofs Elf ElfProofs Amba Debug Cmdline Boot BootProofs.

#[local] Open Scope M_scope.

(** ** Banks that do not overlap *)

Definition bank_wfb (b : bank) : bool :=
  (0 <=? get_base b) && (0 <? bank_size b) && (get_base b + bank_size b <=? 4294967296).

Fixpoint apartb (bs : list bank) : bool :=
  match bs with [] => true | b :: bs => bank_wfb b && forallb (fun x => negb (clashes b x)) bs && apartb bs end.

Lemma bank_wf_check b : bank_wfb b = true -> bank_wf b.
Proof. unfold bank_wfb, bank_wf. lia. Qed.

Lemma apart_wf bs : apartb bs = true -> Forall bank_wf bs.
Proof.
  induction bs as [|b bs IH]; cbn; [done|]. rewrite !andb_true_iff. intros [[Hb _] Hs]. constructor; [by apply bank_wf_check|by apply IH].
Qed.

Lemma banks_ok_check bs : apartb bs = true -> banks_ok bs.
Proof.
  intros Hs. split; [by apply apart_wf|].
  enough (forall i j bi bj a, (i < j)%nat -> bs !! i = Some bi -> bs !! j = Some bj -> holds bi a -> holds bj a -> False) as Hlt.
  { intros i j bi bj a Hi Hj Ha Hb. destruct (lt_eq_lt_dec i j) as [[?|?]|?]; [exfalso|done|exfalso]; eauto. }
  induction bs as [|b bs IH]; intros i j bi bj a Hij Hi Hj Ha Hb; [done|]. pose proof (apart_wf _ Hs) as Hw.
  cbn in Hs. rewrite !andb_true_iff in Hs. destruct Hs as [[_ Hc] Hs]. destruct j as [|j]; [lia|]. cbn in Hj.
  destruct i as [|i]; cbn in Hi; [|eapply (IH Hs i j); eauto; lia]. simplify_eq.
  rewrite forallb_forall in Hc. specialize (Hc bj ltac:(apply list_elem_of_In; by eapply list_elem_of_lookup_2)).
  apply Forall_cons_1 in Hw as [Hwb Hw]. rewrite Forall_lookup in Hw.
  assert (clashes bi bj = true) as E by (apply clashes_iff; eauto). by rewrite E in Hc.
Qed.

(** Main memory after the listing has written its first word back. *)
Definition main_ram : bytes := default (mkBytes 0x8000000 ∅) (poke32_be (mkBytes 0x8000000 ∅) 0 0).

(** ** The board *)

(** The calls of the audio library succeed. *)
Definition audio_up (pa : portaudio) : bool := pa_initialize pa && pa_open pa && pa_start pa.

(** A buffer without the letter [o], so without the text the main program looks
    for. *)
Definition no_needle (d : bytes) : bool := forallb (fun p => negb (p.2 =? 111)) (map_to_list (b_map d)).

Lemma no_needle_cmdline d i n : no_needle d = true -> ~ cmdline_at d i n.
Proof.
  intros Hd [Hi _ Hn _ _ _ _]. pose proof (bytes_at_lookup _ _ _ _ 1 111 Hn eq_refl) as Hg.
  unfold bytes_get in Hg. case_match; [|done]. destruct (b_map d !! (i + Z.of_nat 1)) as [v|] eqn:Ev; [|done].
  cbn in Hg. injection Hg as ->. unfold no_needle in Hd. rewrite forallb_forall in Hd.
  specialize (Hd (i + Z.of_nat 1, 111)). cbn in Hd. discriminate Hd. by apply list_elem_of_In, elem_of_map_to_list.
Qed.

(** The memory the image is loaded into, and the PROM. *)
Record set_up (m : mctrl board) : Prop := {
  su_ok : mc_ok m;
  su_ram : banks m !! O = Some (RamBank 0x40000000 Big main_ram);
  su_rom : exists k w d, banks m !! S k = Some (RomBank 0xffff0000 w Big d) /\ b_len d = 65536 /\ no_needle d = true }.

Section listing.
Context (vga : bool) (con : console) (q : irqmp) (e1 t1 e9 t9 : bool).

(** The devices as constructed. *)
Abbreviation devices := (APBCTRL_new 0x80000000 con q e1 t1 e9 t9 (grpci2_new (D:=ac97)) (screen_new vga)).

(** The banks are attached, the devices initialised, the first word of every
    bank is read and written back, those of the devices included. *)
Lemma setup_board_runs pa : audio_up pa = true ->
  exists m, setup_board vga pa (fresh_mctrl devices) = (Val 0x48000000, m) /\ set_up m.
Proof.
  destruct pa as [[] [] []]; try done. intros _.
  assert ((setup_board vga (mkPortaudio true true true) (fresh_mctrl devices)).1 = Val 0x48000000) as E
    by (destruct vga; vm_compute; reflexivity).
  destruct (setup_board vga _ _) as [r m] eqn:Em. cbn in E. subst r. exists m. split; [done|].
  assert (m = (setup_board vga (mkPortaudio true true true) (fresh_mctrl devices)).2) as -> by (by rewrite Em). clear Em.
  set (m := (setup_board _ _ _).2). assert (apartb (banks m) = true) as Ha by (unfold m; destruct vga; vm_compute; reflexivity).
  assert (banks m !! O = Some (RamBank 0x40000000 Big main_ram) /\ c_b (tl_cache m) = Some O /\ c_gen (tl_cache m) = generation_ m /\
    c_start (tl_cache m) = 0x40000000 /\ c_size (tl_cache m) = 0x8000000 /\
    (0 <=? generation_ m) && (generation_ m <? 18446744073709551616) = true) as (Hb & Hc & Hg & Hs & Hz & Hr)
    by (unfold m; destruct vga; vm_compute; split_and!; reflexivity).
  split; [|done|].
  - split; [by apply banks_ok_check|]. split; [|lia]. intros _. rewrite Hg. split; [lia|]. intros _ i Ei.
    rewrite Hc in Ei. injection Ei as <-. eexists. split; [exact Hb|]. by rewrite Hs, Hz.
  - exists (if vga then 1%nat else 0%nat). unfold m. clear.
    destruct vga; (eexists _, _; split; [vm_compute; reflexivity|split; vm_compute; reflexivity]).
Qed.

(** An exception of the audio library leaves [main]. *)
Lemma setup_board_fails pa : audio_up pa = false ->
  exists msg m, setup_board vga pa (fresh_mctrl devices) = (Exn (runtime_error msg), m).
Proof.
  intros Hp. assert (exists msg, (setup_board vga pa (fresh_mctrl devices)).1 = Exn (runtime_error msg)) as [msg E].
  { destruct pa as [[] [] []]; try done; destruct vga; (eexists; vm_compute; reflexivity). }
  exists msg. destruct (setup_board _ _ _) as [r m]. cbn in E. subst r. by exists m.
Qed.
End listing.

(** ** The command line *)

(** [d'] is main memory after the command line was patched in: the text is in no
    PROM, so it is looked for in main memory. *)
Definition commanded (d : bytes) (new_cmd : list Z) (append : bool) (d' : bytes) : Prop :=
  if bool_decide (new_cmd = []) then d' = d
  else (exists i n cap, found d 40 0 i n cap /\ patched d i n cap append new_cmd d') \/
       ((forall i n, cmdline_at d i n -> n < 40) /\ d' = d).

Lemma patch_returns {W} `{DeviceBus W} (m : mctrl W) d k w d2 new_cmd append :
  mc_ok m -> banks m !! O = Some (RamBank 0x40000000 Big d) ->
  banks m !! S k = Some (RomBank 0xffff0000 w Big d2) -> b_len d2 = 65536 -> no_needle d2 = true ->
  exists m' d', patch_cmdline new_cmd append m = (Val tt, m') /\ banks m' !! O = Some (RamBank 0x40000000 Big d') /\
    ((exists i n cap, found d 40 0 i n cap /\ patched d i n cap append new_cmd d') \/
     ((forall i n, cmdline_at d i n -> n < 40) /\ d' = d)).
Proof.
  intros Hm H1 H2 Hl Hno. pose proof Hm as ([Hf _] & _). rewrite Forall_lookup in Hf.
  pose proof (Hf _ _ H1) as (_ & Hp & Hs). cbn in Hp, Hs. unfold patch_cmdline.
  destruct (try_patch_spec m (S k) (RomBank 0xffff0000 w Big d2) d2 0xffff0000 new_cmd append 0 Hm)
    as (r & m1 & E1 & _ & Hr); [done|done|unfold holds; cbn; lia|done|lia|].
  rewrite (bindM_val _ _ _ _ _ E1). destruct r.
  { destruct Hr as (i & n & cap & d' & Hfd & _). by destruct (no_needle_cmdline d2 i n Hno (fd_at _ _ _ _ _ _ Hfd)). }
  destruct Hr as (_ & Hb & Hok).
  destruct (try_patch_spec m1 O (RamBank 0x40000000 Big d) d 0x40000000 new_cmd append 40 Hok)
    as (r & m2 & E2 & _ & Hr); [done|by rewrite Hb|unfold holds; cbn; lia|done|lia|]. rewrite (bindM_val _ _ _ _ _ E2).
  destruct r.
  - destruct Hr as (i & n & cap & d' & Hfd & Hpa & Hb2). exists m2, d'. split; [done|]. split; [|left; eauto].
    rewrite Hb2, Hb. apply list_lookup_insert_eq. by eapply lookup_lt_Some.
  - destruct Hr as (Hn & Hb2 & _). exists m2, d. split; [done|]. split; [by rewrite Hb2, Hb|by right].
Qed.

(** ** The whole start *)

Lemma image_loads o h segs trailing (m : mctrl board) :
  set_up m -> image o = elf_bytes h segs trailing -> elf_file 0x40000000 0x8000000 h segs ->
  exists words d d' m2 m3, ReadElf (image o) m = (Val (words, e_entry h), m2) /\
    when (negb (bool_decide (cmdline_override o = []))) (patch_cmdline (cmdline_override o) (cmdline_append o)) m2 = (Val tt, m3) /\
    store_segments 0x40000000 main_ram segs = Some d /\ commanded d (cmdline_override o) (cmdline_append o) d' /\
    banks m3 !! O = Some (RamBank 0x40000000 Big d').
Proof.
  intros [Hok Hram (k & w & d2 & Hrom & Hl & Hno)] -> Hf.
  destruct (elf_file_loads O 0x40000000 m main_ram h segs trailing Hok Hram Hf) as (d & m2 & E & Hst & Hb & _ & Hm).
  assert (banks m2 !! O = Some (RamBank 0x40000000 Big d)) as H2'.
  { rewrite Hb. apply list_lookup_insert_eq. by eapply lookup_lt_Some. }
  unfold commanded. case_bool_decide as Hc; cbn [negb when].
  - eexists _, d, d, m2, m2. by split_and!; [exact E|..].
  - destruct (patch_returns m2 d k w d2 (cmdline_override o) (cmdline_append o) Hm H2') as (m3 & d' & E3 & Hb3 & Hd');
      [by rewrite Hb, list_lookup_insert_ne|done|done|].
    eexists _, d, d', m2, m3. by split_and!; [exact E|exact E3|..].
Qed.

(** The emulator starts: for at most eight processors, an image that is a
    well-formed executable for main memory, and any command line, [main] gets to
    its threads, whatever the terminal and uninitialised storage hold.  The
    system is then well typed and has the requested number of processors (or
    one), each of them in its holding pattern, reset at the entry point of the
    image, in supervisor mode with the MMU off, its stack at the end of main
    memory, known by its own number; the first of them, and only the first, has
    been called; and main memory holds the segments of the image and nothing
    else, with the command line patched in. *)
Lemma boot_starts o con e1 t1 e9 t9 pa raw h segs trailing :
  let n := cpu_count (num_cpus_requested o) in
  n <= 8 -> audio_up pa = true -> image o = elf_bytes h segs trailing -> elf_file 0x40000000 0x8000000 h segs ->
  Forall is_u8 (image o) -> Forall is_u8 (cmdline_override o) -> con_words con ->
  exists s d d', boot o con e1 t1 e9 t9 pa raw = Val s /\
    smp_words s /\ Z.of_nat (length (s_cores s)) = n /\
    (forall k c, s_cores s !! k = Some c -> started (e_entry h) (debug_server o) k c) /\
    store_segments 0x40000000 main_ram segs = Some d /\ commanded d (cmdline_override o) (cmdline_append o) d' /\
    banks (s_mc s) !! O = Some (RamBank 0x40000000 Big d').
Proof.
  intros n Hn Hpa Him Hf Hi Hc Hcon.
  destruct (setup_board_runs (enable_vga o) con (irqmp_new n).2 e1 t1 e9 t9 pa Hpa) as (m1 & E1 & Hsu).
  destruct (image_loads o h segs trailing _ Hsu Him Hf) as (words & d & d' & m2 & m3 & E2 & E3 & Hst & Hcd & Hl).
  destruct (boot_steps o con e1 t1 e9 t9 pa raw _ _ _ _ _ Hn Hi Hc Hcon E1 E2 E3) as (E & He & Hm).
  eexists _, d, d'. split; [exact E|]. split; [by apply booted_words_all|]. split; [apply booted_count|]. split; [|split; [done|split; [done|]]].
  - intros k c Ek. rewrite (booted_core_lookup o raw _ k c Ek). apply booted_started. by rewrite Nat.eqb_eq.
  - cbn [s_mc]. by rewrite known_from_banks.
Qed.

(** It does not if the audio library fails. *)
Lemma boot_without_audio o con e1 t1 e9 t9 pa raw :
  cpu_count (num_cpus_requested o) <= 8 -> audio_up pa = false ->
  exists msg, boot o con e1 t1 e9 t9 pa raw = Exn (runtime_error msg).
Proof.
  intros Hn Hpa. pose proof (cpu_count_range (num_cpus_requested o)). unfold boot. rewrite irqmp_new_returns by lia.
  destruct (setup_board_fails (enable_vga o) con (irqmp_new (cpu_count (num_cpus_requested o))).2 e1 t1 e9 t9 pa Hpa) as (msg & m & E).
  exists msg. unfold setup. unfold bindM at 1. by rewrite E.
Qed.
