(* ===== verification/Runelf.v ===== *)
(** * The stand-alone program (src/src/sparcv8_runelf.cpp)

    It loads an executable into one megabyte of memory at address 0, creates one
    processor and runs it, or disassembles the first segment.  Option parsing and
    the debugger's socket are not modelled. *)
From S2P Require Import Prelude Mctrl Tlb Mmu Cpu Instr Fpu Exec Irqmp Gptimer Uart Ps2 Apb Ac97 Grpci2.
From S2P Require Import Board Smp Elf Amba AmbaDump Debug Dis Cmdline Boot.

(** The bytes of the file of [-f], the number of [-n], [-d] and [-g]. *)
Record run_options := mkRunOptions {
  r_file : list Z; r_count : Z; r_disassemble : bool; r_debug : bool }.

(** What the program leaves behind: its exit status, the lines of the
    disassembler, the registers if they were dumped, and the count it prints. *)
Record outcome := mkOutcome {
  o_status : Z; o_lines : list dis_line; o_registers : option (list (Z * Z * Z * Z) * (Z * Z * Z * Z)); o_count : Z }.

(** [if (NumRunInst < FOREVER) NumRunInst = FOREVER], and its conversion to [u32]. *)
Definition num_run_inst (n : Z) : Z := u32 (if n <? 0 then 0 else n).

(** The values of the enumeration. *)
Definition reason_code (r : TerminateReason) : Z :=
  match r with
  | NORMAL => -1 | INSTRUCTION => 0 | BREAK => 1 | STEP => 2 | TRAP_CONDITIONAL => 3 | UNIMPLEMENTED => 4
  | RECV_SIGINT => 5 | TIMER_INTERRUPT => 6 | POWER_DOWN => 7
  end.
Definition exit_status (r : TerminateReason) : Z := match r with NORMAL => 0 | r => reason_code r end.

(** No bank of this program is a device. *)
#[export] Instance irqmp_alone : DeviceBus irqmp := {|
  dev_read8 _ _ := ub; dev_read16 _ _ _ := ub; dev_read32 _ _ _ := ub;
  dev_write8 _ _ _ := ub; dev_write16 _ _ _ _ := ub; dev_write32 _ _ _ _ := ub |}.

#[local] Open Scope M_scope.

Section runelf.
Context `{HostNaN} (notify_breakpoint : Z -> Z -> M (machine irqmp) unit).
Abbreviation MX := (M (machine irqmp)).

(** The memory, the file in it; the number of words and the entry address. *)
Definition load_program (file : list Z) : M (mctrl irqmp) (Z * Z * Z) :=
  attach_bank (ram_bank 0x00000000 (1 * 1024 * 1024)) ;;
  debug_list_banks ;;
  '(word_count, entry_va) ← ReadElf file;
  i ← find_bank 0x00000000;
  b ← bank_at i;
  ret (word_count, entry_va, u32 (get_end_exclusive b)).

(** The body of the loop that creates the processor, and [set_gdb_stub]. *)
Definition start_cpu (entry_va end_of_ram : Z) (debug : bool) : MX unit :=
  cpu_reset entry_va ;;
  write_reg (u32 (end_of_ram - 0x180)) OUTREG6 ;;
  write_reg end_of_ram INREG6 ;;
  updc (fun c => if debug then c <| gdb_stub := true |> else c).

(** [while (count > 0)]: fetch, print, advance. *)
Fixpoint disassemble (count : nat) (PC : Z) (st : dis_state) : MX (list dis_line * dis_state) :=
  match count with
  | O => ret ([], st)
  | S count =>
      instr_fetch PC ;;
      op ← getd d_opcode;
      '(line, st) ← or_ub (disDecodePrint PC op st);
      '(lines, st) ← disassemble count (u32 (PC + 4)) st;
      ret (line :: lines, st)
  end.

(** After the run: the dump of an unimplemented instruction, and the status. *)
Definition report (r : RunSummary) (lines : list dis_line) (st : dis_state) : MX outcome :=
  c ← getc id;
  match reason r with
  | UNIMPLEMENTED =>
      regs ← or_ub (debug_registerdump c);
      '(line, _) ← or_ub (disDecodePrint (pc c) (last_opcode r) st);
      ret (mkOutcome (exit_status (reason r)) (app lines [line]) (Some regs) (instr_count r))
  | _ => ret (mkOutcome (exit_status (reason r)) lines None (instr_count r))
  end.

(** [None]: more than [fuel] instructions.  [raw] is what [rs] holds before it
    is assigned. *)
Definition run_program (o : run_options) (fuel depth : nat) (raw : RunSummary) (word_count entry_va : Z) : MX (option outcome) :=
  if negb (r_disassemble o) then
    r ← run notify_breakpoint fuel depth (num_run_inst (r_count o));
    match r with
    | None => ret None
    | Some _ => summary ← getc rs; out ← report summary [] (mkDis 0 0); ret (Some out)
    end
  else
    '(lines, st) ← disassemble (Z.to_nat word_count) entry_va (mkDis 0 0);
    out ← report (mkRunSummary (reason raw) word_count (last_opcode raw)) lines st; ret (Some out).

(** The machine the program runs: an exception leaves [main]. *)
Definition start_machine (o : run_options) (raw : cpu) (m : mctrl irqmp) (entry_va end_of_ram : Z) : res unit * machine irqmp :=
  start_cpu entry_va end_of_ram (r_debug o && negb (r_disassemble o))
    (mkMachine (CPU_new raw 0) Decode0 (mkMemsys cpu_mmu m) []).

Definition runelf (o : run_options) (fuel depth : nat) (raw : cpu) (raw_rs : RunSummary) : res (option outcome) :=
  match irqmp_new 1 with
  | (Val _, q) =>
      match load_program (r_file o) (fresh_mctrl q) with
      | (Val (word_count, entry_va, end_of_ram), m) =>
          match start_machine o raw m entry_va end_of_ram with
          | (Val _, s) =>
              match run_program o fuel depth raw_rs word_count entry_va s with
              | (Val out, _) => Val out
              | (Exn _, _) => Crash StdTerminate
              | (Crash c, _) => Crash c
              | (Blocked, _) => Blocked
              end
          | (Exn _, _) => Crash StdTerminate
          | (Crash c, _) => Crash c
          | (Blocked, _) => Blocked
          end
      | (Exn _, _) => Crash StdTerminate
      | (Crash c, _) => Crash c
      | (Blocked, _) => Blocked
      end
  | (Exn _, _) => Crash StdTerminate
  | (Crash c, _) => Crash c
  | (Blocked, _) => Blocked
  end.
End runelf.
