(* ===== verification/RunelfProofs.v ===== *)
(** * The stand-alone program runs the file it was given *)
From S2P Require Import Prelude Mctrl Tlb Mmu Cpu Instr Fpu Exec Words Irqmp Gptimer Uart Ps2 Apb Ac97 Gdb GdbProofs.
From S2P Require Import Grpci2 DeviceWords Ac97Words Board Smp SmpProofs Elf ElfProofs Amba Debug Dis DisProofs Cmdline Boot BootProofs Runelf.

#[local] Open Scope M_scope.

(** ** The interrupt controller alone *)

Definition any_ptrs : CpuPtrs := fun _ _ => True.
Lemma irqmp_alone_laws : @DeviceBusLaws irqmp irqmp_alone.
Proof. refine {| dev_ok := @irq_words any_ptrs |}; intros; by apply keeps_stop. Defined.
Lemma irqmp_int_laws : @IntCtlLaws irqmp irqmp_alone irqmp_alone_laws IntCtl_irqmp.
Proof. constructor; intros; [apply keeps_hint_words|apply keeps_clear_words]. Qed.
#[local] Existing Instance irqmp_alone_laws.
#[local] Existing Instance irqmp_int_laws.

(** ** Memory *)

(** The megabyte after the listing has written its first word back. *)
Definition blank_ram : bytes := default (mkBytes 1048576 ∅) (poke32_be (mkBytes 1048576 ∅) 0 0).
Definition ram_only (d : bytes) (q : irqmp) : mctrl irqmp := mkMctrl [RamBank 0 Big d] 2 1 (mkBankCache 0 0 None 0 0) q.

Lemma blank_ram_ok : bytes_ok blank_ram.
Proof.
  unfold blank_ram. destruct (poke32_be _ 0 0) as [d|] eqn:E; [|by apply map_Forall_empty]. cbn.
  apply (poke32_ok (mkBytes 1048576 ∅) ltac:(by apply map_Forall_empty) Big 0 0 d E).
Qed.

Lemma listed_ram q : (attach_bank (ram_bank 0 (1 * 1024 * 1024)) ;; debug_list_banks ;; ret tt) (fresh_mctrl q) =
  (Val tt, ram_only blank_ram q).
Proof. vm_compute. reflexivity. Qed.

Lemma ram_only_ok d q : 0 < b_len d <= 4294967296 -> mc_ok (ram_only d q).
Proof.
  intros Hd. split; [split|split].
  - constructor; [|done]. unfold bank_wf. cbn. lia.
  - intros i j bi bj x Hi Hj. apply list_lookup_singleton_Some in Hi as [-> _]. by apply list_lookup_singleton_Some in Hj as [-> _].
  - done.
  - cbn. lia.
Qed.

Lemma stored_ram base segs : forall d d' len b, laid_out base len b segs -> bytes_ok d ->
  store_segments base d segs = Some d' -> b_len d' = b_len d /\ bytes_ok d'.
Proof.
  induction segs as [|s segs IH]; intros d d' len b Hl Hd E; cbn in E; [by simplify_eq|].
  destruct Hl as (_ & _ & _ & _ & _ & _ & H8 & _ & _ & _ & Hl).
  destruct (pokes d _ (seg_image s)) as [d1|] eqn:E1; [|done]. cbn in E. apply pokes_len in E1 as El.
  assert (Forall is_u8 (seg_image s)) as H8' by (apply Forall_app; split; [done|by apply Forall_replicate]).
  apply (pokes_ok _ _ _ _ Hd H8') in E1. destruct (IH d1 d' _ _ Hl E1 E) as [H1 H2]. by rewrite H1, El.
Qed.

(** ** Loading and starting *)

(** The processor as the program starts it. *)
Definition started_cpu (raw : cpu) (entry : Z) (debug : bool) : cpu :=
  let c := reset entry (CPU_new raw 0)
    <| outs := <[14%nat := 0x100000]> (<[6%nat := 0xffe80]> (replicate 64 0)) |> in
  if debug then c <| gdb_stub := true |> else c.

Lemma load_program_run q h segs trailing :
  elf_file 0 1048576 h segs ->
  exists d m, load_program (elf_bytes h segs trailing) (fresh_mctrl q) =
      (Val (Z.of_nat (length (default [] (sg_data <$> head segs))) / 4, e_entry h, 0x100000), m) /\
    store_segments 0 blank_ram segs = Some d /\ banks m = [RamBank 0 Big d] /\ world m = q.
Proof.
  intros Hf. pose proof (listed_ram q) as El. apply bindM_inv_val in El as (i & m0 & E0 & (ls & m1 & E1 & E2)%bindM_inv_val).
  injection E2 as ->. unfold load_program. rewrite (bindM_val _ _ _ _ _ E0), (bindM_val _ _ _ _ _ E1).
  assert (mc_ok (ram_only blank_ram q)) as Hok by (apply ram_only_ok; change (b_len blank_ram) with 1048576; lia).
  destruct (elf_file_loads 0 0 (ram_only blank_ram q) blank_ram h segs trailing Hok eq_refl Hf) as (d & m & E & Hst & Hb & Hw & Hm).
  rewrite (bindM_val _ _ _ _ _ E). cbn in Hb. exists d.
  destruct (stored_ram 0 segs blank_ram d _ _ (ef_laid _ _ _ _ Hf)) as [Hlen _]; [apply blank_ram_ok|done|].
  change (b_len blank_ram) with 1048576 in Hlen.
  destruct (find_bank_or_null_scan m 0 Hm ltac:(done)) as (c2 & Efind & Hok2).
  rewrite (scan_banks_unique (banks m) 0 (RamBank 0 Big d) 0) in Efind; [|apply Hm|done|by rewrite Hb|unfold holds; cbn; lia].
  exists (m <| tl_cache := c2 |>). split; [|done]. cbv beta iota.
  rewrite (bindM_val (find_bank 0) _ m O (m <| tl_cache := c2 |>)) by (unfold find_bank; by rewrite (bindM_val _ _ _ _ _ Efind)).
  rewrite (bindM_val (bank_at 0) _ _ (RamBank 0 Big d) (m <| tl_cache := c2 |>)) by (unfold bank_at; cbn; by rewrite Hb).
  unfold get_end_exclusive. cbn [get_base bank_size]. by rewrite Hlen.
Qed.

Lemma start_cpu_run raw entry debug m :
  start_cpu entry 0x100000 debug (mkMachine (CPU_new raw 0) Decode0 (mkMemsys cpu_mmu m) []) =
    (Val tt, mkMachine (started_cpu raw entry debug) Decode0 (mkMemsys (mmu_reset cpu_mmu) m) []).
Proof.
  unfold start_cpu, cpu_reset. set (t0 := mkMachine _ _ _ _).
  rewrite (bindM_val _ _ t0 tt (mkMachine (reset entry (CPU_new raw 0)) Decode0 (mkMemsys (mmu_reset cpu_mmu) m) [])) by reflexivity.
  do 2 mstep. unfold updc, modify, started_cpu. by destruct debug.
Qed.

Lemma started_words raw entry debug m :
  is_u32 entry -> mc_words m -> machine_words (mkMachine (started_cpu raw entry debug) Decode0 (mkMemsys (mmu_reset cpu_mmu) m) []).
Proof.
  intros He Hm. split; [|split; [by constructor|split; [split; [by constructor|done]|done]]].
  pose proof (reset_words entry (CPU_new raw 0) He) as Hr. unfold started_cpu. cbn [m_cpu].
  assert (Forall is_u32 (<[14%nat := 0x100000]> (<[6%nat := 0xffe80]> (replicate 64 0)))) as Ho by (by apply words_by_check).
  destruct Hr, debug; constructor; done.
Qed.

(** ** The report *)

Lemma dump_defined c : cpu_words c -> exists r, debug_registerdump c = Some r.
Proof.
  intros Hc. unfold debug_registerdump, dump_regs, dump_transposed.
  assert (forall k, 0 <= k < 8 -> exists x, (a ← read_reg_of c (0x18 + k) 0; b ← read_reg_of c (0x10 + k) 0;
                  o ← read_reg_of c (0x08 + k) 0; g ← globals c !! Z.to_nat k; Some (a, b, o, g))%stdpp = Some x) as Hk.
  { intros k Hk. destruct (read_reg_in_range c (0x18 + k) Hc) as [a ->]; [lia|]. destruct (read_reg_in_range c (0x10 + k) Hc) as [b ->]; [lia|].
    destruct (read_reg_in_range c (0x08 + k) Hc) as [o ->]; [lia|].
    destruct (lookup_lt_is_Some_2 (globals c) (Z.to_nat k)) as [g ->]; [rewrite (w_nglobals c Hc); lia|]. by eexists. }
  match goal with |- context [mapM ?f ?l] => destruct (mapM f l) as [rows|] eqn:E end; [by eexists|]. exfalso.
  apply mapM_None in E. apply Exists_exists in E as (k & Hin & En). destruct (Hk k) as [x Ex]; [|congruence].
  cbn in Hin. lia.
Qed.

Lemma report_returns r lines st (s : machine irqmp) : cpu_words (m_cpu s) ->
  exists out, report r lines st s = (Val out, s) /\ o_status out = exit_status (reason r) /\ o_count out = instr_count r.
Proof.
  intros Hc. unfold report. mstep. destruct (dump_defined _ Hc) as [regs Er].
  destruct (disassembles (pc (m_cpu s)) (last_opcode r) st) as (line & st' & Ed).
  change (id (m_cpu s)) with (m_cpu s). rewrite Er, Ed. destruct (reason r) eqn:E; eexists; (split; [reflexivity|]); done.
Qed.

(** ** The whole program *)

Lemma run_summary {W} `{DeviceBus W} `{IntCtl W} `{HostNaN} notify depth n (s : machine W) :
  0 < n < 4294967296 ->
  match run notify (Z.to_nat n) depth n s with
  | (Val r, s') => exists k, r = Some k /\ 1 <= k <= n /\ instr_count (rs (m_cpu s')) = k
  | _ => True
  end.
Proof.
  intros Hn. unfold run. do 2 mstep. set (s1 := mkMachine _ _ _ _).
  pose proof (run_loop_bounded notify (Z.to_nat n) depth n 0 IRQ_CHECK_INTERVAL s1 ltac:(lia) ltac:(lia) ltac:(lia)) as Hb.
  unfold bindM at 1. destruct (run_loop _ _ _ _ _ _ s1) as [[[k|]| | |] s2]; cbn in *; try done.
  exists k. rewrite u32_id by (unfold is_u32; lia). split_and!; [done|lia|lia|done].
Qed.

(** C36. The stand-alone program runs the file it is given: for a well-formed
    executable that fits in its megabyte, and a count of [n] instructions, the
    processor starts at the entry address, in supervisor mode with the MMU off,
    the stack below the end of memory, and the memory holds the segments and
    zeroes; the program ends within [n] instructions, with the reason of the run
    as its exit status and their number in its summary, or with the failure the
    processor ended with. *)
Theorem runelf_runs `{HostNaN} notify depth o raw raw_rs h segs trailing :
  (forall i a, keeps machine_words (notify i a) (fun _ => True)) ->
  r_file o = elf_bytes h segs trailing -> elf_file 0 1048576 h segs -> Forall is_u8 h ->
  r_disassemble o = false -> 0 < r_count o < 2147483648 ->
  exists d s, store_segments 0 blank_ram segs = Some d /\ banks (ms_mc (m_mem s)) = [RamBank 0 Big d] /\
    m_cpu s = started_cpu raw (e_entry h) (r_debug o) /\ get_enabled (ms_mmu (m_mem s)) = false /\
    let result := runelf notify o (Z.to_nat (r_count o)) depth raw raw_rs in
    match run notify (Z.to_nat (r_count o)) depth (r_count o) s with
    | (Val _, s') => exists out, result = Val (Some out) /\ 1 <= o_count out <= r_count o /\
        o_count out = instr_count (rs (m_cpu s')) /\ o_status out = exit_status (reason (rs (m_cpu s')))
    | (Exn _, _) => result = Crash StdTerminate
    | (Crash c, _) => result = Crash c
    | (Blocked, _) => result = Blocked
    end.
Proof.
  intros Hnot Hfile Hf Hh Hdis Hn. set (q := (irqmp_new 1).2).
  assert (irqmp_new 1 = (Val tt, q)) as Eq by reflexivity.
  destruct (load_program_run q h segs trailing Hf) as (d & m & El & Hst & Hb & Hw).
  set (s := mkMachine (started_cpu raw (e_entry h) (r_debug o)) Decode0 (mkMemsys (mmu_reset cpu_mmu) m) []).
  assert (machine_words s) as Hs.
  { apply started_words; [unfold e_entry; by apply field32_u32|].
    destruct (stored_ram 0 segs blank_ram d _ _ (ef_laid _ _ _ _ Hf) blank_ram_ok Hst) as [_ Hd]. split.
    - rewrite Hb. apply Forall_cons_2; [exact Hd|by apply Forall_nil_2].
    - rewrite Hw. cbn. by constructor; [word_ok..|]. }
  exists d, s. do 4 (split; [done|]). cbv zeta. unfold runelf. rewrite Eq, Hfile, El. unfold start_machine. rewrite Hdis, andb_true_r, start_cpu_run.
  fold s. unfold run_program. rewrite Hdis. cbn [negb].
  assert (num_run_inst (r_count o) = r_count o) as ->.
  { unfold num_run_inst. rewrite (proj2 (Z.ltb_ge _ 0)) by lia. apply u32_id. unfold is_u32. lia. }
  pose proof (run_summary notify depth (r_count o) s ltac:(lia)) as Hr.
  pose proof (proj1 (run_ok notify Hnot (Z.to_nat (r_count o)) depth (r_count o) s Hs)) as Hs'.
  destruct (run notify _ _ _ s) as [[r|e|c|] s'] eqn:Er; cbn [snd] in Hs'; [|by unfold bindM; rewrite Er..].
  destruct Hr as (k & -> & Hk & Hc). rewrite (bindM_val _ _ _ _ _ Er). mstep.
  destruct (report_returns (rs (m_cpu s')) [] (mkDis 0 0) s' (proj1 Hs')) as (out & Eo & H1 & H2).
  rewrite (bindM_val _ _ _ _ _ Eo). cbn. exists out. rewrite H1, H2. split_and!; [done|lia|lia|done|done].
Qed.

(** ** An example *)

(** The program of the interpreter's example as a file with entry 0x100. *)
Definition demo_code : list Z :=
  concat (map (fun w => [byte_at w 24; byte_at w 16; byte_at w 8; byte_at w 0]) demo_program).
Definition demo_head : list Z :=
  [0x7f; 0x45; 0x4c; 0x46; 1; 2; 1; 0; 0; 0; 0; 0; 0; 0; 0; 0] ++ [0; 2; 0; 2; 0; 0; 0; 1] ++
  [0; 0; 1; 0] ++ [0; 0; 0; 52] ++ replicate 8 0 ++ [0; 52; 0; 32] ++ [0; 1] ++ replicate 6 0.
Definition demo_segs : list segment := [mkSeg (demo_phdr 84 0x100 28 28) [] demo_code].
Definition demo_run_options (n : Z) : run_options := mkRunOptions (elf_bytes demo_head demo_segs []) n false false.
Abbreviation demo_runelf n :=
  (@runelf default_nan (fun _ _ => ret tt) (demo_run_options n) (Z.to_nat n) 1 demo_cpu (mkRunSummary NORMAL 0 0)).

Lemma runelf_runs_witness :
  exists out, demo_runelf 100 = Val (Some out) /\ o_count out = 7 /\ 1 <= o_count out <= 100.
Proof.
  destruct (@runelf_runs default_nan (fun _ _ => ret tt) 1 (demo_run_options 100) demo_cpu (mkRunSummary NORMAL 0 0) demo_head demo_segs [])
    as (d & s & Hd & Hb & Hc & Hm & Hr).
  - intros i a. by apply keeps_ret.
  - done.
  - constructor; [done|done|by vm_compute|by vm_compute|by vm_compute|cbn; lia|].
    vm_compute. split_and!; try done; try congruence. repeat constructor; congruence.
  - repeat constructor; done.
  - done.
  - cbn. lia.
  - cbv zeta in Hr. assert (exists out, demo_runelf 100 = Val (Some out) /\ o_count out = 7) as (out & E & Ho) by (eexists; split; vm_compute; reflexivity).
    exists out. split; [exact E|]. split; [exact Ho|]. lia.
Defined.
