(* ===== verification/Options.v ===== *)
(** * The command lines of the two programs
      ([main] of src/src/sparcv8_leon_smp.cpp and src/src/sparcv8_runelf.cpp)

    A command line is a list of arguments, an argument a list of character
    codes.  [getopt] and [strtol] are the C library's; modelled is what the
    programs use of them: short options with and without an argument, clustered
    options, arguments that are not options, and numbers with the base told by
    their prefix. *)
From S2P Require Import Prelude Mctrl Tlb Mmu Cpu Instr Fpu Exec Irqmp Gptimer Uart Ps2 Apb Ac97 Grpci2 DebugStop Gdb.
From S2P Require Import Board Smp Elf Amba AmbaDump Debug Dis Cmdline Boot Runelf.

#[local] Open Scope Z_scope.

Abbreviation arg := (list Z).

(** ** [getopt] *)

(** The options of a program: their letters, and whether one takes an
    argument. *)
Definition optspec := list (Z * bool).

Definition takes_arg (spec : optspec) (c : Z) : option bool :=
  snd <$> head (List.filter (fun o => o.1 =? c) spec).

(** What [getopt] returns: a letter and [optarg], or ['?']. *)
Inductive opt := Opt (c : Z) (optarg : arg) | BadOpt.

(** The letters of one argument after its dash; an option that takes an
    argument takes the rest of the letters, or the next argument.  The flag says
    whether it took that. *)
Fixpoint cluster (spec : optspec) (letters : arg) (next : option arg) : list opt * bool :=
  match letters with
  | [] => ([], false)
  | c :: letters =>
      match takes_arg spec c with
      | None => let '(l, b) := cluster spec letters next in (BadOpt :: l, b)
      | Some false => let '(l, b) := cluster spec letters next in (Opt c [] :: l, b)
      | Some true =>
          match letters, next with
          | _ :: _, _ => ([Opt c letters], false)
          | [], Some a => ([Opt c a], true)
          | [], None => ([BadOpt], false)
          end
      end
  end.

(** All options of the arguments, in order.  Arguments that are not options are
    passed over; [--] ends the options. *)
Fixpoint getopt (spec : optspec) (argv : list arg) : list opt :=
  match argv with
  | [] => []
  | a :: argv =>
      match a with
      | 45 :: c :: letters =>
          if bool_decide (c :: letters = [45]) then []
          else
            match argv with
            | [] => (cluster spec (c :: letters) None).1
            | b :: argv' =>
                let '(l, took) := cluster spec (c :: letters) (Some b) in
                l ++ (if took : bool then getopt spec argv' else getopt spec argv)
            end
      | _ => getopt spec argv
      end
  end.

(** ** [strtol(s, NULL, 0)] *)

Definition strtol0 (s : arg) : Z :=
  let '(neg, l) := scan_sign (skip_spaces s) in
  let '(base, l) :=
    match l with
    | 48 :: x :: c :: l' =>
        if ((x =? 120) || (x =? 88)) && bool_decide (is_Some (digit_val 16 c)) then (16, c :: l') else (8, l)
    | 48 :: _ => (8, l)
    | _ => (10, l)
    end in
  let v := (scan_digits base 0 0 l).1.1 in
  if neg then Z.max (-9223372036854775808) (- v) else Z.min 9223372036854775807 v.

(** ** The emulator *)

Definition smp_spec : optspec :=
  [(105, true); (110, true); (103, true); (97, false); (99, true); (67, true); (86, false); (102, false)].

(** The variables the loop assigns; [o_fname] is [None] for the default. *)
Record smp_args := mkSmpArgs {
  o_fname : option arg; o_num_cpus : Z; o_debug_port : Z; o_debug_server : bool; o_dump_amba_pnp : bool;
  o_cmdline : arg; o_append : bool; o_vga : bool; o_fullscreen : bool }.

Definition smp_args0 : smp_args := mkSmpArgs None 0 0 false false [] false true false.

(** The body of the [switch]; [None]: the usage text is printed and the program
    exits. *)
Definition smp_option (v : opt) (o : smp_args) : option smp_args :=
  let '(mkSmpArgs f n p g a c ap vga fs) := o in
  match v with
  | Opt 105 x => Some (mkSmpArgs (Some x) n p g a c ap vga fs)
  | Opt 110 x => Some (mkSmpArgs f (s32 (u32 (strtol0 x))) p g a c ap vga fs)
  | Opt 103 x => Some (mkSmpArgs f n (s32 (u32 (strtol0 x))) true a c ap vga fs)
  | Opt 97 _ => Some (mkSmpArgs f n p g true c ap vga fs)
  | Opt 99 x => Some (mkSmpArgs f n p g a x false vga fs)
  | Opt 67 x => Some (mkSmpArgs f n p g a x true vga fs)
  | Opt 86 _ => Some (mkSmpArgs f n p g a c ap false fs)
  | Opt 102 _ => Some (mkSmpArgs f n p g a c ap vga true)
  | _ => None
  end.

Fixpoint each_option {O} (f : opt -> O -> option O) (l : list opt) (o : O) : option O :=
  match l with [] => Some o | v :: l => o ← f v o; each_option f l o end.

Definition smp_options (argv : list arg) : option smp_args := each_option smp_option (getopt smp_spec argv) smp_args0.

(** The options [boot] is given: [files] are the contents of the host's files,
    [None] the default image. *)
Definition boot_options (files : option arg -> list Z) (o : smp_args) : options :=
  mkOptions (o_num_cpus o) (o_vga o) (files (o_fname o)) (o_cmdline o) (o_append o) (o_debug_server o).

(** ** The stand-alone program *)

Definition run_spec : optspec :=
  [(102, true); (100, false); (110, true); (98, true); (103, true); (111, true); (99, false)].

Record run_args := mkRunArgs {
  ra_fname : option arg; ra_print_count : bool; ra_disassemble : bool; ra_count : Z;
  ra_debug_port : Z; ra_debug_server : bool; ra_output : option arg }.

Definition run_args0 : run_args := mkRunArgs None false false 0 0 false None.

(** [opens] says whether a file can be opened for writing; if not, the program
    exits, as it does after the usage text.  [NumRunInst] is an [int]. *)
Definition run_option (opens : arg -> bool) (v : opt) (o : run_args) : option run_args :=
  let '(mkRunArgs f c d n p g out) := o in
  match v with
  | Opt 111 x => if opens x then Some (mkRunArgs f c d n p g (Some x)) else None
  | Opt 102 x => Some (mkRunArgs (Some x) c d n p g out)
  | Opt 99 _ => Some (mkRunArgs f true d n p g out)
  | Opt 100 _ => Some (mkRunArgs f c true n p g out)
  | Opt 110 x => let k := s32 (u32 (strtol0 x)) in Some (mkRunArgs f c d (if k <? 0 then 0 else k) p g out)
  | Opt 103 x => Some (mkRunArgs f c d n (s32 (u32 (strtol0 x))) true out)
  | _ => None
  end.

Definition run_options_of (opens : arg -> bool) (argv : list arg) : option run_args :=
  each_option (run_option opens) (getopt run_spec argv) run_args0.

Definition runelf_options (files : option arg -> list Z) (o : run_args) : run_options :=
  mkRunOptions (files (ra_fname o)) (ra_count o) (ra_disassemble o) (ra_debug_server o).

(** ** Reading back a command line *)

Lemma getopt_arg spec c a argv : c <> 45 -> takes_arg spec c = Some true -> getopt spec ([45; c] :: a :: argv) = Opt c a :: getopt spec argv.
Proof. intros Hc Ht. cbn. rewrite bool_decide_eq_false_2 by congruence. by rewrite Ht. Qed.

Lemma getopt_flag spec c argv : c <> 45 -> takes_arg spec c = Some false -> getopt spec ([45; c] :: argv) = Opt c [] :: getopt spec argv.
Proof.
  intros Hc Ht. cbn. rewrite bool_decide_eq_false_2 by congruence. rewrite Ht. by destruct argv.
Qed.

Definition is_digit (c : Z) : Prop := 48 <= c <= 57.

Lemma digit_val_dec c : is_digit c -> digit_val 10 c = Some (c - 48).
Proof.
  unfold is_digit, digit_val. intros Hc. rewrite (proj2 (andb_true_iff _ _)) by (rewrite !Z.leb_le; lia).
  by rewrite (proj2 (Z.ltb_lt _ _)) by lia.
Qed.

Lemma scan_digits_snoc l c : forall acc k, Forall is_digit l -> is_digit c ->
  (scan_digits 10 acc k (l ++ [c])).1.1 = (scan_digits 10 acc k l).1.1 * 10 + (c - 48).
Proof.
  induction l as [|x l IH]; intros acc k Hl Hc; cbn; [by rewrite digit_val_dec|].
  apply Forall_cons_1 in Hl as [Hx Hl]. rewrite digit_val_dec by done. by apply IH.
Qed.

(** The digits of a positive number start with one that is not 0. *)
Lemma decimal_digits fuel : forall n, 0 < n < 10 ^ Z.of_nat fuel ->
  Forall is_digit (decimal fuel n) /\ (scan_digits 10 0 0 (decimal fuel n)).1.1 = n /\
  exists c l, decimal fuel n = c :: l /\ 49 <= c <= 57.
Proof.
  induction fuel as [|fuel IH]; intros n Hn; [cbn in Hn; lia|]. cbn [decimal].
  assert (forall x, 0 <= x < 10 -> is_digit (48 + x)) as Hd by (unfold is_digit; lia).
  destruct (n <? 10) eqn:E.
  - apply Z.ltb_lt in E. split; [|split].
    + repeat constructor; apply Hd; lia.
    + cbn. rewrite digit_val_dec by (apply Hd; lia). cbn. lia.
    + exists (48 + n), []. split; [done|lia].
  - apply Z.ltb_ge in E. rewrite Nat2Z.inj_succ, Z.pow_succ_r in Hn by lia.
    assert (0 <= n mod 10 < 10) by (apply Z.mod_pos_bound; lia).
    destruct (IH (n / 10)) as (H1 & H2 & c & l & H3 & H4); [Z.div_mod_to_equations; lia|]. split; [|split].
    + apply Forall_app. split; [done|]. repeat constructor; apply Hd; lia.
    + rewrite scan_digits_snoc, H2 by (done || apply Hd; lia). Z.div_mod_to_equations. lia.
    + exists c, (l ++ [48 + n mod 10]). by rewrite H3.
Qed.

(** A decimal numeral whose first digit is not 0 is read in base ten. *)
Lemma strtol0_digits c l : 49 <= c <= 57 -> strtol0 (c :: l) = Z.min 9223372036854775807 (scan_digits 10 0 0 (c :: l)).1.1.
Proof.
  intros Hc. assert (c = 49 \/ c = 50 \/ c = 51 \/ c = 52 \/ c = 53 \/ c = 54 \/ c = 55 \/ c = 56 \/ c = 57) as Hd by lia.
  repeat destruct Hd as [->|Hd]; try subst c; done.
Qed.
Lemma strtol0_neg c l : 49 <= c <= 57 ->
  strtol0 (45 :: c :: l) = Z.max (-9223372036854775808) (- (scan_digits 10 0 0 (c :: l)).1.1).
Proof.
  intros Hc. assert (c = 49 \/ c = 50 \/ c = 51 \/ c = 52 \/ c = 53 \/ c = 54 \/ c = 55 \/ c = 56 \/ c = 57) as Hd by lia.
  repeat destruct Hd as [->|Hd]; try subst c; done.
Qed.

Lemma number_read n : -2147483648 <= n < 2147483648 -> s32 (u32 (strtol0 (to_string n))) = n.
Proof.
  intros Hn. assert (strtol0 (to_string n) = n) as ->.
  { unfold to_string. destruct (n <? 0) eqn:E; [apply Z.ltb_lt in E|apply Z.ltb_ge in E].
    - destruct (decimal_digits 10 (- n)) as (_ & H2 & c & l & H3 & H4); [lia|]. rewrite H3 in *. rewrite strtol0_neg, H2 by done. lia.
    - destruct (decide (n = 0)) as [->|]; [done|].
      destruct (decimal_digits 10 n) as (_ & H2 & c & l & H3 & H4); [lia|]. rewrite H3 in *. rewrite strtol0_digits, H2 by done. lia. }
  unfold s32, u32. destruct (_ <? _) eqn:E; [apply Z.ltb_lt in E|apply Z.ltb_ge in E]; Z.div_mod_to_equations; lia.
Qed.

(** Arguments that ask for options, whatever follows them. *)
Definition asks (spec : optspec) (l : list arg) (v : list opt) : Prop :=
  forall argv, getopt spec (l ++ argv) = v ++ getopt spec argv.

Definition with_opt {A} (b : bool) (l : list A) : list A := if b then l else [].
Definition opt_with {A B} (f : A -> list B) (o : option A) : list B := from_option f [] o.

Section asking.
Context (spec : optspec).

Lemma asks_nil : asks spec [] [].
Proof. done. Qed.
Lemma asks_app l1 v1 l2 v2 : asks spec l1 v1 -> asks spec l2 v2 -> asks spec (l1 ++ l2) (v1 ++ v2).
Proof. intros H1 H2 argv. by rewrite <- !app_assoc, H1, H2. Qed.
Lemma asks_arg c a : c <> 45 -> takes_arg spec c = Some true -> asks spec [[45; c]; a] [Opt c a].
Proof. intros Hc Ht argv. by apply getopt_arg. Qed.
Lemma asks_flag c : c <> 45 -> takes_arg spec c = Some false -> asks spec [[45; c]] [Opt c []].
Proof. intros Hc Ht argv. by apply getopt_flag. Qed.
Lemma asks_with b l v : asks spec l v -> asks spec (with_opt b l) (with_opt b v).
Proof. by destruct b. Qed.
Lemma asks_opt {A} (f : A -> list arg) g (o : option A) : (forall x, asks spec (f x) (g x)) -> asks spec (opt_with f o) (opt_with g o).
Proof. by destruct o; intros; [apply H|]. Qed.
End asking.

(** The arguments for a configuration, and the options they are. *)
Definition smp_argv (o : smp_args) : list arg :=
  opt_with (fun f => [[45; 105]; f]) (o_fname o) ++ [[45; 110]; to_string (o_num_cpus o)] ++
  with_opt (o_debug_server o) [[45; 103]; to_string (o_debug_port o)] ++ with_opt (o_dump_amba_pnp o) [[45; 97]] ++
  [[45; if o_append o then 67 else 99]; o_cmdline o] ++
  with_opt (negb (o_vga o)) [[45; 86]] ++ with_opt (o_fullscreen o) [[45; 102]].
Definition smp_opts (o : smp_args) : list opt :=
  opt_with (fun f => [Opt 105 f]) (o_fname o) ++ [Opt 110 (to_string (o_num_cpus o))] ++
  with_opt (o_debug_server o) [Opt 103 (to_string (o_debug_port o))] ++ with_opt (o_dump_amba_pnp o) [Opt 97 []] ++
  [Opt (if o_append o then 67 else 99) (o_cmdline o)] ++
  with_opt (negb (o_vga o)) [Opt 86 []] ++ with_opt (o_fullscreen o) [Opt 102 []].

Definition run_argv (o : run_args) : list arg :=
  opt_with (fun f => [[45; 102]; f]) (ra_fname o) ++ with_opt (ra_print_count o) [[45; 99]] ++
  with_opt (ra_disassemble o) [[45; 100]] ++ [[45; 110]; to_string (ra_count o)] ++
  with_opt (ra_debug_server o) [[45; 103]; to_string (ra_debug_port o)] ++
  opt_with (fun f => [[45; 111]; f]) (ra_output o).
Definition run_opts (o : run_args) : list opt :=
  opt_with (fun f => [Opt 102 f]) (ra_fname o) ++ with_opt (ra_print_count o) [Opt 99 []] ++
  with_opt (ra_disassemble o) [Opt 100 []] ++ [Opt 110 (to_string (ra_count o))] ++
  with_opt (ra_debug_server o) [Opt 103 (to_string (ra_debug_port o))] ++
  opt_with (fun f => [Opt 111 f]) (ra_output o).

Lemma smp_argv_asks o : getopt smp_spec (smp_argv o) = smp_opts o.
Proof.
  rewrite <- (app_nil_r (smp_argv o)), <- (app_nil_r (smp_opts o)). revert o. 
  enough (forall o, asks smp_spec (smp_argv o) (smp_opts o)) as H by (intros o; apply H).
  intros o. unfold smp_argv, smp_opts. repeat apply asks_app; try (apply asks_opt; intros f); try apply asks_with;
    first [apply asks_arg|apply asks_flag]; by destruct (o_append o).
Qed.
Lemma run_argv_asks o : getopt run_spec (run_argv o) = run_opts o.
Proof.
  rewrite <- (app_nil_r (run_argv o)), <- (app_nil_r (run_opts o)). revert o.
  enough (forall o, asks run_spec (run_argv o) (run_opts o)) as H by (intros o; apply H).
  intros o. unfold run_argv, run_opts. repeat apply asks_app; try (apply asks_opt; intros f); try apply asks_with;
    by first [apply asks_arg|apply asks_flag].
Qed.

(** A port is only kept together with the flag. *)
Definition port_ok (server : bool) (port : Z) : Prop :=
  if server then -2147483648 <= port < 2147483648 else port = 0.

Ltac set_options := cbn [app opt_with from_option with_opt negb each_option smp_option run_option mbind option_bind].

Lemma smp_opts_set o :
  -2147483648 <= o_num_cpus o < 2147483648 -> port_ok (o_debug_server o) (o_debug_port o) ->
  each_option smp_option (smp_opts o) smp_args0 = Some o.
Proof.
  destruct o as [f n p g a c ap vga fs]. unfold smp_opts, smp_args0.
  cbn [o_fname o_num_cpus o_debug_port o_debug_server o_dump_amba_pnp o_cmdline o_append o_vga o_fullscreen].
  intros Hn Hp.
  destruct f; set_options; destruct g; set_options; destruct a; set_options; destruct ap; set_options; destruct vga; set_options;
    destruct fs; set_options; cbn in Hp; rewrite ?number_read by done; by subst.
Qed.

Lemma run_opts_set opens o :
  0 <= ra_count o < 2147483648 -> port_ok (ra_debug_server o) (ra_debug_port o) ->
  (forall f, ra_output o = Some f -> opens f = true) -> each_option (run_option opens) (run_opts o) run_args0 = Some o.
Proof.
  destruct o as [f c d n p g out]. unfold run_opts, run_args0.
  cbn [ra_fname ra_print_count ra_disassemble ra_count ra_debug_port ra_debug_server ra_output].
  intros Hn Hp Ho. assert (forall f, out = Some f -> opens f = true) as Ho' by done.
  destruct f; set_options; destruct c; set_options; destruct d; set_options; destruct g; set_options; destruct out; set_options;
    rewrite ?(number_read n), ?(number_read p), ?(proj2 (Z.ltb_ge n 0)) by (done || lia); rewrite ?Ho' by done; cbn in Hp; by subst.
Qed.

Lemma bad_option {O} (f : opt -> O -> option O) l : (forall o, f BadOpt o = None) -> BadOpt ∈ l -> forall o, each_option f l o = None.
Proof.
  intros Hf. induction l as [|v l IH]; intros Hin o; [by apply elem_of_nil in Hin|].
  apply elem_of_cons in Hin as [<-|Hin]; cbn; [by rewrite Hf|]. destruct (f v o); cbn; [by apply IH|done].
Qed.

(** The command lines of both programs can be written and read back: for
    every setting of its options there are arguments from which [main] takes
    exactly that setting, whatever characters the file names and the kernel
    command line contain and whatever number is asked for; and an unknown option
    or one that lacks its argument ends the program. *)
Theorem options_roundtrip :
  (forall o, -2147483648 <= o_num_cpus o < 2147483648 -> port_ok (o_debug_server o) (o_debug_port o) ->
     smp_options (smp_argv o) = Some o) /\
  (forall opens o, 0 <= ra_count o < 2147483648 -> port_ok (ra_debug_server o) (ra_debug_port o) ->
     (forall f, ra_output o = Some f -> opens f = true) -> run_options_of opens (run_argv o) = Some o) /\
  (forall argv, BadOpt ∈ getopt smp_spec argv -> smp_options argv = None) /\
  (forall opens argv, BadOpt ∈ getopt run_spec argv -> run_options_of opens argv = None).
Proof.
  unfold smp_options, run_options_of. split_and!.
  - intros o. rewrite smp_argv_asks. apply smp_opts_set.
  - intros opens o. rewrite run_argv_asks. apply run_opts_set.
  - intros argv H. apply bad_option; [by intros []|done].
  - intros opens argv H. apply bad_option; [by intros []|done].
Qed.

(** [-Vfn2 image -- -a], and an option without its argument. *)
Example clustered : smp_options [str "-Vfn2"; str "image"; str "--"; str "-a"] =
  Some (mkSmpArgs None 2 0 false false [] false false true).
Proof. vm_compute. reflexivity. Qed.
Example missing_argument : smp_options [str "-a"; str "-g"] = None.
Proof. vm_compute. reflexivity. Qed.
Example hexadecimal : smp_options [str "-n"; str "0x4"; str "-g"; str "01234"] =
  Some (mkSmpArgs None 4 668 true false [] false true false).
Proof. vm_compute. reflexivity. Qed.
