(* ===== verification/Shutdown.v ===== *)
(** * How the emulator ends
      ([signal_handler], [cpu_thread] and the end of [main] of
      src/src/sparcv8_leon_smp.cpp, the exit test of [CPU::run])

    The signal handler sets a flag of every processor, which its loop tests
    after each instruction; [main] waits for all of them.  No instruction clears
    the flag, so a processor that runs leaves its loop.  The handler does not
    call the processors, so one that sleeps is not woken. *)
From S2P Require Import Prelude Mctrl Tlb Mmu Cpu Instr Fpu Exec Words Irqmp Gptimer Uart Ps2 Apb Ac97 Ac97Proofs Video Grpci2 Grpci2Proofs DeviceWords.
From S2P Require Import Board VideoProofs Smp SmpProofs.

(** ** No instruction clears the flag *)

Section flag.
Context {W : Type} `{DeviceBus W} `{IntCtl W} `{HostNaN}.

Definition asked (s : machine W) : Prop := interrupt_ (m_cpu s) = true.
Abbreviation kept op := (keeps asked op (fun _ => True)).

Lemma getc_asked {A} (f : cpu -> A) : kept (getc f).
Proof. apply keeps_gets_any. Qed.
Lemma getd_asked {A} (f : DecodeStruct -> A) : kept (getd f).
Proof. apply keeps_gets_any. Qed.
Lemma get_mmu_asked {A} (f : MMU -> A) : kept (get_mmu f).
Proof. apply keeps_gets_any. Qed.
Lemma on_mem_asked {A} (op : M (memsys W) A) : kept (on_mem op).
Proof. by apply (keeps_zoom _ _ _ (fun _ => True)). Qed.
Lemma upd_mmu_asked f : kept (upd_mmu f).
Proof. by apply keeps_modify. Qed.
Lemma updd_asked f : kept (updd f).
Proof. by apply keeps_modify. Qed.
Lemma updc_asked f : (forall c, interrupt_ (f c) = interrupt_ c) -> kept (updc f).
Proof. intros Hf. apply keeps_modify; [|done]. intros s Hs. unfold asked in *. cbn. by rewrite Hf. Qed.
Lemma write_reg_asked x r : kept (write_reg x r).
Proof.
  intros s Hs. unfold write_reg, getc, gets, bindM. cbn.
  destruct (write_reg_of (m_cpu s) x r) as [c|] eqn:E; (split; [|done]); [|done].
  apply write_reg_frame in E as (_ & _ & _ & E & _). unfold asked. cbn. by rewrite E.
Qed.
#[local] Hint Resolve getc_asked getd_asked get_mmu_asked on_mem_asked upd_mmu_asked updd_asked write_reg_asked : keeps.
#[local] Hint Extern 1 (keeps _ (updc _) _) => (apply updc_asked; intros ?; reflexivity) : keeps.

Lemma read_reg_asked r old : kept (read_reg r old).
Proof. unfold read_reg. keeps_auto. Qed.
Lemma trap_asked n : kept (trap n).
Proof. unfold trap. keeps_auto. Qed.
Lemma advance_asked : kept advance.
Proof. unfold advance. keeps_auto. Qed.
Lemma write_back_asked : kept write_back.
Proof. unfold write_back. keeps_auto. Qed.
Lemma read_freg_asked i : kept (read_freg i).
Proof. unfold read_freg. keeps_auto. Qed.
Lemma write_freg_asked i x : kept (write_freg i x).
Proof. unfold write_freg. keeps_auto. Qed.
#[local] Hint Resolve read_reg_asked trap_asked advance_asked write_back_asked read_freg_asked write_freg_asked : keeps.

Context (notify : Z -> Z -> M (machine W) unit) (notify_asked : forall i a, kept (notify i a)).
#[local] Hint Resolve notify_asked : keeps.

#[local] Hint Unfold exec_UNIMP exec_CALL take_branch exec_BICC exec_SETHI exec_SLL exec_SRL exec_SRA exec_RDY privileged
  exec_RDPSR exec_RDWIM exec_RDTBR exec_WRY exec_WRPSR exec_WRWIM exec_WRTBR exec_JMPL exec_RETT exec_SAVE exec_RESTORE
  exec_FLUSH exec_MULSCC finish_access aligned exec_LD exec_LDUB exec_LDUH exec_LDD exec_LDSB exec_LDSH exec_ST exec_STB
  exec_STH exec_STD swap_word exec_SWAP exec_SWAPA exec_LDSTUB exec_CASA exec_MUL exec_DIV exec_ADD exec_AND exec_LDA
  exec_STA upd_fsr invalid_fp_register fp_enabled exec_LDF exec_LDDF exec_LDFSR exec_STF exec_STDF exec_STFSR exec_STDFQ
  exec_FBFCC read_double exec_FOP1 fcompare exec_FOP2 exec_TICC load8 load16 load32 load64 store8 store16 store32 store64
  enter_powerdown put_swap_reg write_result super_mode : instrs.

(** Every reading and every result is as good as any other. *)
Ltac asked_step :=
  lazymatch goal with
  | |- keeps _ (let _ := _ in _) _ => cbv zeta
  | |- keeps _ (bindM _ _) _ => apply (keeps_bind _ _ _ (fun _ => True)); [|intros ? _]
  | |- _ => keeps_step
  end.
Ltac asked_auto := repeat (progress (autounfold with instrs) || (asked_step; try done)).

Lemma dispatch_asked again f : kept again -> kept (dispatch notify again f).
Proof.
  intros Ha. destruct f; cbn [dispatch]; asked_auto.
Qed.

Lemma excute_one_asked depth : kept (excute_one notify depth).
Proof.
  induction depth as [|n IH]; cbn [excute_one]; unfold decode; asked_auto; apply dispatch_asked; by first [apply keeps_stop|apply IH].
Qed.

Lemma run_body_asked depth cd : kept (run_body notify depth cd).
Proof.
  unfold run_body, poll_irq, take_interrupt, take_trap, instr_fetch, set_irl, on_intc. asked_auto. apply excute_one_asked.
Qed.
End flag.

(** ** A signal *)

Section signal.
Context `{HostNaN} `{HostVideo}.
Context (notify_breakpoint : Z -> Z -> M (machine board) unit) (depth : nat).
Context (notify_asked : forall i a, keeps asked (notify_breakpoint i a) (fun _ => True)).

(** The processor has been asked to leave its loop, and is where it was. *)
Definition asked_at (k : nat) (mode : core_mode) (s : smp board) : Prop :=
  exists c, s_cores s !! k = Some c /\ k_mode c = mode /\ interrupt_ (k_cpu c) = true.

Lemma deliver_asked k mode s : asked_at k mode s -> asked_at k mode (deliver s).
Proof.
  intros (c & E & Hm & Hi). destruct (deliver_lookup s k c E) as (c' & E' & [-> | ->]); [by exists c|]. by exists (woken c).
Qed.

Lemma other_asked k mode s s' : asked_at k mode s -> other_step notify_breakpoint depth k s s' -> asked_at k mode s'.
Proof.
  intros Hk (t & Ht & Hst). destruct Hst as [j s s' E|due credits s s' _ _ E|events s s' E|s].
  - unfold core_step in E. destruct (s_cores s !! j) as [cj|]; [|done]. assert (j <> k) by congruence.
    destruct Hk as (c & Ek & Hc).
    destruct (core_action _ _ _ _) as [[m| | |] t]; try discriminate E; injection E as <-; apply deliver_asked; exists c;
      (split; [cbn; by rewrite list_lookup_insert_ne|done]).
  - unfold bus_iteration in E. cbv zeta in E. destruct (bus_loop _ _ _ _ _) as [[[div|]| | |] w]; try done.
    destruct (grpci2_tick _ _) as [[| | |] [m audio]]; try discriminate E. injection E as <-. by apply deliver_asked.
  - unfold display_pass in E. destruct (on_video _ _) as [[| | |] m]; try discriminate E. injection E as <-. by apply deliver_asked.
  - destruct Hk as (c & Ek & Hc). exists (interrupt c). split; [cbn; by rewrite list_lookup_fmap, Ek|]. by destruct Hc.
Qed.

Lemma signal_asks k c s : s_cores s !! k = Some c -> asked_at k (k_mode c) (signal_handler s).
Proof. intros E. exists (interrupt c). split; [|done]. cbn. by rewrite list_lookup_fmap, E. Qed.

(** What a step of the processor left: [None] if it ended the program. *)
Definition stepped (k : nat) (s : smp board) : option (smp board) :=
  match core_step notify_breakpoint depth k s with (Val _, s') => Some s' | _ => None end.

Definition exited (k : nat) (s : smp board) : Prop := exists c, s_cores s !! k = Some c /\ k_mode c = Exited.
Definition called (k : nat) (s : smp board) : bool :=
  match s_cores s !! k with Some c => wakeup_flag (k_cpu c) | None => false end.

(** The processor as a step of its own leaves it. *)
Lemma put_lookup k (t : machine board) mode s c : s_cores s !! k = Some c -> s_cores (put_core k t mode s) !! k = Some (core_of t mode).
Proof. intros E. cbn. apply list_lookup_insert_eq. by eapply lookup_lt_Some. Qed.

Lemma after_step k (t : machine board) mode s c : s_cores s !! k = Some c ->
  exists c', s_cores (deliver (put_core k t mode s)) !! k = Some c' /\ k_mode c' = mode /\ pc (k_cpu c') = pc (m_cpu t) /\
    npc (k_cpu c') = npc (m_cpu t) /\ running (k_cpu c') = running (m_cpu t) /\ interrupt_ (k_cpu c') = interrupt_ (m_cpu t).
Proof.
  intros E. destruct (deliver_lookup (put_core k t mode s) k _ (put_lookup k t mode s c E)) as (c' & E' & [-> | ->]); by eexists.
Qed.

(** A processor in its holding pattern that has been called enters its loop. *)
Lemma called_runs k (s : smp board) c :
  s_cores s !! k = Some c -> k_mode c = Holding -> wakeup_flag (k_cpu c) = true ->
  exists s' c', core_step notify_breakpoint depth k s = (Val tt, s') /\ s_cores s' !! k = Some c' /\
    k_mode c' = Running 0 IRQ_CHECK_INTERVAL /\ pc (k_cpu c') = pc (k_cpu c) /\ npc (k_cpu c') = npc (k_cpu c) /\
    running (k_cpu c') = true /\ interrupt_ (k_cpu c') = interrupt_ (k_cpu c).
Proof.
  intros Ek Hm Hw. unfold core_step. rewrite Ek, Hm. cbn [core_action].
  rewrite (bindM_val _ _ _ _ _ (enter_powerdown_called (core_machine s c) Hw)). mstep.
  match goal with |- context [ret _ ?x] => set (t := x) end.
  destruct (after_step k t (Running 0 IRQ_CHECK_INTERVAL) s c Ek) as (c' & E & Hm' & P1 & P2 & P3 & P4).
  exists (deliver (put_core k t (Running 0 IRQ_CHECK_INTERVAL) s)), c'. by rewrite P1, P2, P3, P4.
Qed.

(** One that waits for a call and has not been called stays where it is. *)
Lemma uncalled_waits k (s : smp board) c :
  s_cores s !! k = Some c -> k_mode c = Holding \/ (exists n cd, k_mode c = Asleep n cd) -> wakeup_flag (k_cpu c) = false ->
  exists s' c', core_step notify_breakpoint depth k s = (Val tt, s') /\ s_cores s' !! k = Some c' /\
    k_mode c' = k_mode c /\ pc (k_cpu c') = pc (k_cpu c) /\ interrupt_ (k_cpu c') = interrupt_ (k_cpu c).
Proof.
  intros Ek Hm Hw. unfold core_step. rewrite Ek.
  assert (exists t, core_action notify_breakpoint depth (k_mode c) (core_machine s c) = (Blocked, t) /\
    pc (m_cpu t) = pc (k_cpu c) /\ interrupt_ (m_cpu t) = interrupt_ (k_cpu c)) as (t & -> & P1 & P4).
  { destruct Hm as [-> | (n & cd & ->)]; cbn [core_action]; unfold wake_up, enter_powerdown, bindM, updc, getc, gets, modify; cbn;
      rewrite Hw; by eexists. }
  destruct (after_step k t (blocked_mode (k_mode c)) s c Ek) as (c' & E & Hm' & Q1 & _ & _ & Q4).
  exists (deliver (put_core k t (blocked_mode (k_mode c)) s)), c'. split; [done|]. split; [done|].
  rewrite Hm', Q1, Q4, P1, P4. split; [|done]. by destruct Hm as [-> | (n & cd & ->)].
Qed.

(** One that runs leaves its loop after the instruction, or goes to sleep. *)
Lemma running_leaves k n cd s s' :
  asked_at k (Running n cd) s -> stepped k s = Some s' -> exited k s' \/ exists n' cd', asked_at k (Asleep n' cd') s'.
Proof.
  intros (c & Ek & Hm & Hi). unfold stepped, core_step. rewrite Ek, Hm. cbn [core_action].
  pose proof (run_body_asked notify_breakpoint notify_asked depth cd (core_machine s c) Hi) as Hk.
  unfold bindM at 1. destruct (run_body notify_breakpoint depth cd (core_machine s c)) as [[cd'|e|e|] t]; destruct Hk as [Ht _]; cbn in *; try done.
  - destruct (iteration_end_run n cd' t) as (c2 & -> & _). unfold leaves_loop. rewrite Ht. cbn. intros [= <-]. left.
    destruct (after_step k (mkMachine c2 (m_d t) (m_mem t) (m_bps t)) Exited s c Ek) as (c' & E & Hm' & _). by exists c'.
  - intros [= <-]. right.
    destruct (after_step k t (blocked_mode (Running n cd)) s c Ek) as (c' & E & Hm' & _ & _ & _ & Q).
    eexists _, _. exists c'. split; [exact E|]. split; [exact Hm'|by rewrite Q].
Qed.

Context (notify_ok : forall i a, keeps machine_words (notify_breakpoint i a) (fun _ => True)).

(** What a processor that has been asked does next. *)
Definition winds_down (k : nat) (mode : core_mode) (s : smp board) : Prop :=
  match mode with
  | Running _ _ => forall s', stepped k s = Some s' -> exited k s' \/ exists n cd, asked_at k (Asleep n cd) s'
  | Asleep _ _ => called k s = true -> exists s', stepped k s = Some s' /\ exited k s'
  | Holding => called k s = true -> exists s', stepped k s = Some s' /\ asked_at k (Running 0 IRQ_CHECK_INTERVAL) s'
  | Exited => True
  end.

(** C28. A signal stops the processors that are awake, and only those: after the
    signal handler has run, and whatever the other threads do meanwhile, a
    processor in its loop leaves it after its next instruction, whatever
    instruction that is, unless the instruction puts it to sleep or ends the
    program; one that sleeps leaves the loop as soon as it is called, and one in
    its holding pattern enters the loop then, still asked to leave it; but one
    that is not called stays where it is, for the handler does not wake it. *)
Theorem signal_stops k c s s' :
  smp_words s -> s_cores s !! k = Some c -> rtc (other_step notify_breakpoint depth k) (signal_handler s) s' ->
  asked_at k (k_mode c) s' /\ winds_down k (k_mode c) s' /\
  (called k s' = false -> k_mode c = Holding \/ (exists n cd, k_mode c = Asleep n cd) ->
   exists s'', stepped k s' = Some s'' /\ asked_at k (k_mode c) s'').
Proof.
  intros Hs Ek Hr. assert (asked_at k (k_mode c) s') as Ha.
  { pose proof (signal_asks k c s Ek) as Hk. clear Hs Ek. induction Hr as [|x y z Hxy _ IH]; [done|]. by eapply IH, other_asked. }
  assert (smp_words s') as Hs' by (eapply other_steps_words; [exact notify_ok|exact Hr|by apply signal_words]).
  split; [done|]. destruct (Ha) as (c' & Ek' & Hm & Hi). rewrite <- Hm in *. split.
  - unfold winds_down, called. rewrite Ek'. destruct (k_mode c') as [|n cd|n cd|] eqn:Em; [|intros s'' E; by eapply running_leaves|..|done].
    + intros Hw. destruct (called_runs k s' c' Ek' Em Hw) as (s'' & c'' & E & E'' & M'' & _ & _ & _ & I'').
      exists s''. unfold stepped. rewrite E. split; [done|]. exists c''. by rewrite I''.
    + intros Hw. destruct (awake_step notify_breakpoint depth k s' c' n cd Hs' Ek' Em Hw) as (s'' & c'' & E & E'' & _ & _ & _ & M'').
      exists s''. unfold stepped. rewrite E. split; [done|]. exists c''. split; [done|]. rewrite M''. unfold leaves_loop. by rewrite Hi.
  - unfold called. rewrite Ek'. intros Hw Hwait. destruct (uncalled_waits k s' c' Ek' Hwait Hw) as (s'' & c'' & E & E'' & M'' & _ & I'').
    exists s''. unfold stepped. rewrite E. split; [done|]. exists c''. by rewrite I'', M''.
Qed.
End signal.

(** ** One processor leaves, the other sleeps on *)

#[local] Existing Instance default_nan.
#[local] Existing Instance demo_host.

Lemma signal_stops_witness :
  exists s1 s2, stepped no_debugger 1 0 (signal_handler demo_smp) = Some s1 /\ exited 0 s1 /\
    stepped no_debugger 1 1 (signal_handler demo_smp) = Some s2 /\ asked_at 1 (Asleep 5 10) s2.
Proof.
  destruct (signal_stops no_debugger 1 (fun _ _ => keeps_ret _ _ _ I) (fun _ _ => keeps_ret _ _ _ I) 0 (demo_core (Running 0 64)) demo_smp
    (signal_handler demo_smp) demo_smp_words eq_refl (rtc_refl _ _)) as (_ & H0 & _).
  destruct (signal_stops no_debugger 1 (fun _ _ => keeps_ret _ _ _ I) (fun _ _ => keeps_ret _ _ _ I) 1 (demo_core (Asleep 5 10)) demo_smp
    (signal_handler demo_smp) demo_smp_words eq_refl (rtc_refl _ _)) as (_ & _ & H1).
  assert ((fun s => k_mode <$> s_cores s !! 0%nat) <$> stepped no_debugger 1 0 (signal_handler demo_smp) = Some (Some Exited)) as E
    by (vm_compute; reflexivity).
  destruct (stepped no_debugger 1 0 (signal_handler demo_smp)) as [s1|] eqn:E1; [|done].
  destruct H1 as (s2 & E2 & A2); [reflexivity|right; by exists 5, 10|].
  exists s1, s2. split; [exact eq_refl|]. split; [|exact (conj E2 A2)]. destruct (H0 s1 E1) as [?|(n & cd & c & Ec & Em & _)]; [done|].
  cbn in E. rewrite Ec in E. cbn in E. by rewrite Em in E.
Defined.
