(* ===== verification/Emulator.v ===== *)
(** * From the command line to the running system

    The whole of [main] of src/src/sparcv8_leon_smp.cpp: the options, the start,
    and the system of threads it leaves running. *)
From S2P Require Import Prelude Mctrl Tlb Mmu Cpu Instr Fpu Exec Words Irqmp Gptimer Uart Ps2 Apb AudioOut Ac97 Video DebugStop Gdb.
From S2P Require Import Ac97Proofs Grpci2 Grpci2Proofs DeviceWords Board VideoProofs Smp SmpProofs Elf ElfProofs Amba Debug Cmdline Boot BootProofs BootRuns Options Shutdown.

Section emulator.
Context `{HostNaN} `{HostVideo}.
Context (notify_breakpoint : Z -> Z -> M (machine board) unit) (depth : nat).
Context (notify_ok : forall i a, keeps machine_words (notify_breakpoint i a) (fun _ => True)).

(** [None]: the program exits after its usage text. *)
Definition emulator (argv : list arg) (files : option arg -> list Z) (con : console) (e1 t1 e9 t9 : bool)
    (pa : portaudio) (raw : Z -> cpu) : option (res (smp board)) :=
  o ← smp_options argv; Some (boot (boot_options files o) con e1 t1 e9 t9 pa raw).

(** C5. The emulator runs: if the options can be read, ask for at most eight
    processors and name a well-formed image, and the calls that open the host's
    audio output succeed, then [main] reaches the point where its threads run,
    whatever the terminal and uninitialised storage hold.  There the requested
    number of processors (or one) exist, reset at the entry point of the image,
    in supervisor mode with the MMU off and the stack at the end of main memory,
    and main memory holds the segments of the image, in which the command line
    that was asked for, if any, replaces or follows the one found there; the
    first processor's next step takes it into its loop at the entry point, the
    others' next steps leave them waiting; and every state the threads reach from
    there is well typed.  If one of the audio calls fails, the exception ends the
    program before its threads start. *)
Theorem emulator_runs argv o files con e1 t1 e9 t9 pa raw h segs trailing :
  let n := cpu_count (o_num_cpus o) in
  smp_options argv = Some o -> n <= 8 -> files (o_fname o) = elf_bytes h segs trailing ->
  elf_file 0x40000000 0x8000000 h segs -> Forall is_u8 (files (o_fname o)) -> Forall is_u8 (o_cmdline o) ->
  con_words con ->
  if audio_up pa then
    exists s d d', emulator argv files con e1 t1 e9 t9 pa raw = Some (Val s) /\
      Z.of_nat (length (s_cores s)) = n /\
      (forall k c, s_cores s !! k = Some c -> started (e_entry h) (o_debug_server o) k c /\
         exists s' c', core_step notify_breakpoint depth k s = (Val tt, s') /\ s_cores s' !! k = Some c' /\
           pc (k_cpu c') = e_entry h /\ k_mode c' = if (k =? 0)%nat then Running 0 IRQ_CHECK_INTERVAL else Holding) /\
      store_segments 0x40000000 main_ram segs = Some d /\ commanded d (o_cmdline o) (o_append o) d' /\
      banks (s_mc s) !! O = Some (RamBank 0x40000000 Big d') /\
      forall s', rtc (any_step notify_breakpoint depth) s s' -> smp_words s'
  else exists msg, emulator argv files con e1 t1 e9 t9 pa raw = Some (Exn (runtime_error msg)).
Proof.
  intros n Ho Hn Hf Hel H8 Hc8 Hcon. unfold emulator. rewrite Ho. cbn [mbind option_bind]. destruct (audio_up pa) eqn:Hpa.
  2:{ destruct (boot_without_audio (boot_options files o) con e1 t1 e9 t9 pa raw Hn Hpa) as [msg E]. exists msg. by rewrite E. }
  destruct (boot_starts (boot_options files o) con e1 t1 e9 t9 pa raw h segs trailing Hn Hpa Hf Hel H8 Hc8 Hcon)
    as (s & d & d' & E & Hs & Hl & Hst & Hseg & Hcd & Hram).
  exists s, d, d'. rewrite E.
  split; [done|]. split; [done|]. split; [|split; [done|split; [done|split; [exact Hram|by intros s'; apply any_steps_words]]]].
  intros k c Ek. pose proof (Hst k c Ek) as Hk. split; [exact Hk|]. destruct Hk as [Hm Hpc _ _ _ Hw _ _ _ _ _].
  destruct (k =? 0)%nat.
  - destruct (called_runs notify_breakpoint depth k s c Ek Hm Hw) as (s' & c' & E' & Ec & M' & P' & _). exists s', c'. by rewrite P'.
  - destruct (uncalled_waits notify_breakpoint depth k s c Ek (or_introl Hm) Hw) as (s' & c' & E' & Ec & M' & P' & _).
    exists s', c'. by rewrite P', M'.
Qed.
End emulator.

(** ** A system with two processors *)

Lemma demo_image_ok : elf_file 0x40000000 0x8000000 (demo_ehdr 1) [demo_seg].
Proof.
  constructor; [done|done|by vm_compute|by vm_compute|by vm_compute|cbn; lia|].
  vm_compute. split_and!; try done; try congruence. repeat constructor; congruence.
Qed.

(** [-n 2 -i image], with the image the only file. *)
Definition demo_argv : list arg := [str "-n"; str "2"; str "-i"; str "image"].
Definition demo_files (f : option arg) : list Z :=
  if bool_decide (f = Some (str "image")) then elf_bytes (demo_ehdr 1) [demo_seg] [] else [].

Lemma emulator_runs_witness :
  exists s d d', emulator demo_argv demo_files (console_new [0x41]) false false false false (mkPortaudio true true true)
      (fun _ => demo_cpu) = Some (Val s) /\ Z.of_nat (length (s_cores s)) = 2 /\
    store_segments 0x40000000 main_ram [demo_seg] = Some d /\ d' = d /\
    banks (s_mc s) !! O = Some (RamBank 0x40000000 Big d') /\ bytes_get d 0x12 = Some 3.
Proof.
  destruct (@emulator_runs default_nan demo_host (fun _ _ => ret tt) 1 (fun _ _ => keeps_ret _ _ _ I)
    demo_argv (mkSmpArgs (Some (str "image")) 2 0 false false [] false true false) demo_files
    (console_new [0x41]) false false false false (mkPortaudio true true true) (fun _ => demo_cpu) (demo_ehdr 1) [demo_seg] [])
    as (s & d & d' & E & Hl & _ & Hst & Hcd & Hb & _);
    [reflexivity|by vm_compute|reflexivity|apply demo_image_ok|by repeat constructor|by constructor|by repeat constructor|].
  exists s, d, d'. split; [exact E|]. split; [exact Hl|]. split; [exact Hst|]. split; [exact Hcd|]. split; [exact Hb|].
  vm_compute in Hst. injection Hst as <-. vm_compute. reflexivity.
Defined.
