(* ===== verification/LockProfile.v ===== *)
(** * The lock profiler (src/src/mutexprofiler.hpp)

    A [ProfiledLock] takes a mutex and adds the time it waited for it, and when
    it is destroyed the time it held it, to counters that all threads share.
    The counters are atomics and no lock protects them, so the model is a
    transition relation: a step is one access to an atomic, one reading of the
    clock, or the taking or release of a mutex.  Relaxed accesses to one atomic
    are ordered as its modifications, and nothing is claimed that relates
    different atomics while a call is in progress. *)
From S2P Require Import Prelude.

#[local] Open Scope Z_scope.

(** Which of the two times of a lock. *)
Inductive what := Wait | Hold.
#[export] Instance what_eq_dec : EqDecision what.
Proof. solve_decision. Defined.

Record MutexProfile := mkProfile {
  acquisitions : Z; wait_ns : Z; hold_ns : Z; max_wait_ns : Z; max_hold_ns : Z }.
Definition MutexProfile_new : MutexProfile := mkProfile 0 0 0 0 0.

Definition sum_ns (w : what) (p : MutexProfile) : Z := match w with Wait => wait_ns p | Hold => hold_ns p end.
Definition max_ns (w : what) (p : MutexProfile) : Z := match w with Wait => max_wait_ns p | Hold => max_hold_ns p end.

(** [fetch_add] of the sums and of the number, and the store of a
    compare-exchange that succeeds. *)
Definition add_ns (w : what) (ns : Z) (p : MutexProfile) : MutexProfile :=
  match w with
  | Wait => mkProfile (acquisitions p) (u64 (wait_ns p + ns)) (hold_ns p) (max_wait_ns p) (max_hold_ns p)
  | Hold => mkProfile (acquisitions p) (wait_ns p) (u64 (hold_ns p + ns)) (max_wait_ns p) (max_hold_ns p)
  end.
Definition count_lock (p : MutexProfile) : MutexProfile :=
  mkProfile (u64 (acquisitions p + 1)) (wait_ns p) (hold_ns p) (max_wait_ns p) (max_hold_ns p).
Definition set_max (w : what) (ns : Z) (p : MutexProfile) : MutexProfile :=
  match w with
  | Wait => mkProfile (acquisitions p) (wait_ns p) (hold_ns p) ns (max_hold_ns p)
  | Hold => mkProfile (acquisitions p) (wait_ns p) (hold_ns p) (max_wait_ns p) ns
  end.

(** Where a thread is: without a lock; in the constructor, after [now_ns], after
    the mutex has been taken, before [fetch_add] of the number; in [add_wait] or
    [add_hold], before [fetch_add], before the load, and in the loop with
    [cur]; with a lock; and in the destructor after its body. *)
Inductive lock_pc :=
| Outside
| Acquiring (m t_acquire_start : Z)
| Acquired (m t_acquire_start : Z)
| Counting (m t_acquired wait : Z)
| Adding (w : what) (m t_acquired ns : Z)
| Loading (w : what) (m t_acquired ns : Z)
| Comparing (w : what) (m t_acquired ns cur : Z)
| Inside (m t_acquired : Z)
| Leaving (m : Z).

(** [now] is the host's steady clock.  The histories [waited] and [held] are the
    times that were measured. *)
Record lock_sys := mkLockSys {
  prof : MutexProfile; locked : gset Z; threads : gmap Z lock_pc; now : Z; waited : list Z; held : list Z }.

Definition at_pc (i : Z) (pc : lock_pc) (s : lock_sys) : lock_sys :=
  mkLockSys (prof s) (locked s) (<[i := pc]> (threads s)) (now s) (waited s) (held s).
Definition with_prof (p : MutexProfile) (s : lock_sys) : lock_sys :=
  mkLockSys p (locked s) (threads s) (now s) (waited s) (held s).

(** What follows [add_wait] in the constructor and [add_hold] in the
    destructor. *)
Definition added (w : what) (m t_acquired : Z) : lock_pc :=
  match w with Wait => Inside m t_acquired | Hold => Leaving m end.

(** The steps of thread [i]; [m] is the mutex of the lock it makes when it is
    outside, and [weak] says that a compare-exchange fails although it could
    succeed.  [None]: the thread waits for a mutex, or there is no such thread. *)
Definition lock_step (i m : Z) (weak : bool) (s : lock_sys) : option lock_sys :=
  pc ← threads s !! i;
  match pc with
  | Outside => Some (at_pc i (Acquiring m (u64 (now s))) s)
  | Acquiring m t0 =>
      if bool_decide (m ∈ locked s) then None
      else Some (mkLockSys (prof s) ({[m]} ∪ locked s) (<[i := Acquired m t0]> (threads s)) (now s) (waited s) (held s))
  | Acquired m t0 =>
      let t1 := u64 (now s) in
      let wait := u64 (t1 - t0) in
      Some (mkLockSys (prof s) (locked s) (<[i := Counting m t1 wait]> (threads s)) (now s) (wait :: waited s) (held s))
  | Counting m t1 wait => Some (at_pc i (Adding Wait m t1 wait) (with_prof (count_lock (prof s)) s))
  | Adding w m t1 ns => Some (at_pc i (Loading w m t1 ns) (with_prof (add_ns w ns (prof s)) s))
  | Loading w m t1 ns => Some (at_pc i (Comparing w m t1 ns (max_ns w (prof s))) s)
  | Comparing w m t1 ns cur =>
      if cur <? ns then
        if (max_ns w (prof s) =? cur) && negb weak
        then Some (at_pc i (added w m t1) (with_prof (set_max w ns (prof s)) s))
        else Some (at_pc i (Comparing w m t1 ns (max_ns w (prof s))) s)
      else Some (at_pc i (added w m t1) s)
  | Inside m t1 =>
      let hold := u64 (u64 (now s) - t1) in
      Some (mkLockSys (prof s) (locked s) (<[i := Adding Hold m t1 hold]> (threads s)) (now s) (waited s) (hold :: held s))
  | Leaving m =>
      Some (mkLockSys (prof s) (locked s ∖ {[m]}) (<[i := Outside]> (threads s)) (now s) (waited s) (held s))
  end.

(** Any thread, or the clock. *)
Inductive any_lock_step : lock_sys -> lock_sys -> Prop :=
| lock_thread i m weak s s' : lock_step i m weak s = Some s' -> any_lock_step s s'
| lock_clock t s :
    now s <= t -> any_lock_step s (mkLockSys (prof s) (locked s) (threads s) t (waited s) (held s)).

Definition lock_init (ids : gset Z) (t : Z) : lock_sys :=
  mkLockSys MutexProfile_new ∅ (gset_to_gmap Outside ids) t [] [].

(** ** What the threads still owe the counters *)

Definition owed (f : lock_pc -> Z) (m : gmap Z lock_pc) : Z := map_fold (fun _ pc n => f pc + n) 0 m.

Lemma owed_fresh f m i pc : m !! i = None -> owed f (<[i := pc]> m) = f pc + owed f m.
Proof. intros Hi. unfold owed. rewrite map_fold_insert_L; [done|lia|done]. Qed.

Lemma owed_insert f m i pc pc' : m !! i = Some pc -> owed f (<[i := pc']> m) = owed f m - f pc + f pc'.
Proof.
  intros Hi. rewrite <- insert_delete_eq, owed_fresh by apply lookup_delete_eq.
  rewrite <- (insert_delete_id m i pc Hi) at 2. rewrite owed_fresh by apply lookup_delete_eq. lia.
Qed.

Lemma owed_zero f m : map_Forall (fun _ pc => f pc = 0) m -> owed f m = 0.
Proof.
  induction m as [|i pc m Hi IH] using map_ind; [by unfold owed; rewrite map_fold_empty|].
  rewrite map_Forall_insert by done. intros [Hz Hm]. by rewrite owed_fresh, Hz, IH.
Qed.

Definition owes_count (pc : lock_pc) : Z := match pc with Counting _ _ _ => 1 | _ => 0 end.
Definition owes_sum (w : what) (pc : lock_pc) : Z :=
  match pc, w with
  | Counting _ _ ns, Wait | Adding Wait _ _ ns, Wait | Adding Hold _ _ ns, Hold => ns
  | _, _ => 0
  end.
(** A time that has been measured and is not yet in the maximum. *)
Definition pends (w : what) (ns : Z) (pc : lock_pc) : Prop :=
  match pc with
  | Counting _ _ ns' => w = Wait /\ ns' = ns
  | Adding w' _ _ ns' | Loading w' _ _ ns' | Comparing w' _ _ ns' _ => w' = w /\ ns' = ns
  | _ => False
  end.
Definition measured (w : what) (s : lock_sys) : list Z := match w with Wait => waited s | Hold => held s end.
Definition in_mutex (pc : lock_pc) : option Z :=
  match pc with
  | Outside | Acquiring _ _ => None
  | Acquired m _ | Counting m _ _ | Adding _ m _ _ | Loading _ m _ _ | Comparing _ m _ _ _ | Inside m _ | Leaving m => Some m
  end.

(** What a thread knows: it is about to add a time that was measured, and the
    maximum has not fallen below what it read. *)
Definition knows (s : lock_sys) (pc : lock_pc) : Prop :=
  (forall w ns, pends w ns pc -> ns ∈ measured w s) /\
  (forall w m t ns cur, pc = Comparing w m t ns cur -> cur <= max_ns w (prof s)).

Record lock_ok (s : lock_sys) : Prop := {
  lo_count : acquisitions (prof s) = u64 (Z.of_nat (length (waited s)) - owed owes_count (threads s));
  lo_sum w : sum_ns w (prof s) = u64 (foldr Z.add 0 (measured w s) - owed (owes_sum w) (threads s));
  lo_reached w ns : ns ∈ measured w s -> ns <= max_ns w (prof s) \/ exists i pc, threads s !! i = Some pc /\ pends w ns pc;
  lo_max w : 0 <= max_ns w (prof s) /\ (max_ns w (prof s) = 0 \/ max_ns w (prof s) ∈ measured w s);
  lo_knows i pc : threads s !! i = Some pc -> knows s pc;
  lo_held i pc m : threads s !! i = Some pc -> in_mutex pc = Some m -> m ∈ locked s;
  lo_apart i j p q m : threads s !! i = Some p -> threads s !! j = Some q ->
    in_mutex p = Some m -> in_mutex q = Some m -> i = j }.

Lemma lock_init_ok ids t : lock_ok (lock_init ids t).
Proof.
  assert (forall i pc, gset_to_gmap Outside ids !! i = Some pc -> pc = Outside) as Ho
    by (intros i pc; rewrite lookup_gset_to_gmap_Some; by intros [_ <-]).
  split; cbn.
  - rewrite owed_zero; [done|]. by intros i pc ->%Ho.
  - intros w. rewrite owed_zero; [by destruct w|]. intros i pc ->%Ho. by destruct w.
  - intros w ns. destruct w; cbn; by rewrite elem_of_nil.
  - intros w. split; [by destruct w|left; by destruct w].
  - intros i pc ->%Ho. by split.
  - by intros i pc m ->%Ho.
  - by intros i j p q m ->%Ho.
Qed.

(** A step of a thread from [pc] to [pc'] keeps the invariant if it settles
    what it adds. *)
Record move (pc pc' : lock_pc) (s s' : lock_sys) : Prop := {
  mv_count : acquisitions (prof s') =
    u64 (acquisitions (prof s) + (Z.of_nat (length (waited s')) - Z.of_nat (length (waited s))) + owes_count pc - owes_count pc');
  mv_sum w : sum_ns w (prof s') =
    u64 (sum_ns w (prof s) + (foldr Z.add 0 (measured w s') - foldr Z.add 0 (measured w s)) + owes_sum w pc - owes_sum w pc');
  mv_grows w : max_ns w (prof s) <= max_ns w (prof s');
  mv_measured w : measured w s' = measured w s \/ exists ns, measured w s' = ns :: measured w s /\ pends w ns pc';
  mv_pends w ns : pends w ns pc -> pends w ns pc' \/ ns <= max_ns w (prof s');
  mv_max w : max_ns w (prof s') = max_ns w (prof s) \/ pends w (max_ns w (prof s')) pc;
  mv_knows : knows s' pc';
  mv_mutex m : in_mutex pc' = Some m -> m ∈ locked s' /\ (in_mutex pc = Some m \/ m ∉ locked s);
  mv_locked m : m ∈ locked s -> in_mutex pc <> Some m -> m ∈ locked s' }.

Lemma move_ok i pc pc' s s' : lock_ok s -> threads s !! i = Some pc -> threads s' = <[i := pc']> (threads s) ->
  move pc pc' s s' -> lock_ok s'.
Proof.
  intros [L1 L2 L3 L4 L5 L6 L7] Hi V1 [V2 V3 V4 V5 V6 V7 V8 V9 V10].
  assert (forall w ns, ns ∈ measured w s -> ns ∈ measured w s') as Hin.
  { intros w ns Hns. destruct (V5 w) as [->|(x & -> & _)]; [done|]. apply elem_of_cons. by right. }
  assert (forall j q, threads s' !! j = Some q -> j = i /\ q = pc' \/ j <> i /\ threads s !! j = Some q) as Hj.
  { intros j q Hq. rewrite V1 in Hq. apply lookup_insert_Some in Hq as [[-> ->]|[? ?]]; auto. }
  assert (threads s' !! i = Some pc') as Hi' by (rewrite V1; apply lookup_insert_eq).
  split.
  - rewrite V1, (owed_insert _ _ _ _ _ Hi), V2, L1. unfold u64. Z.div_mod_to_equations. lia.
  - intros w. rewrite V1, (owed_insert _ _ _ _ _ Hi), V3, L2. unfold u64. Z.div_mod_to_equations. lia.
  - intros w ns Hns. pose proof (V4 w). destruct (V5 w) as [E|(x & E & Hx)]; rewrite E in Hns;
      [|apply elem_of_cons in Hns as [->|Hns]; [right; by eauto|]];
      (destruct (L3 w ns Hns) as [|(j & q & Hq & Hp)]; [left; lia|];
       destruct (decide (j = i)) as [->|Hne]; [simplify_eq; destruct (V6 w ns Hp); eauto|];
       right; exists j, q; by rewrite V1, lookup_insert_ne by done).
  - intros w. destruct (L4 w) as [H0 H1]. pose proof (V4 w). split; [lia|].
    destruct (V7 w) as [->|Hp]; [destruct H1 as [->|]; [by left|right; by apply Hin]|].
    right. by apply Hin, (L5 i pc Hi).
  - intros j q [[-> ->]|[_ Hq]]%Hj; [done|]. destruct (L5 j q Hq) as [K1 K2]. split; [by eauto|].
    intros w m t ns cur E. pose proof (V4 w). specialize (K2 _ _ _ _ _ E). lia.
  - intros j q m [[-> ->]|[Hne Hq]]%Hj Hm; [by apply V9|]. apply V10; [by eapply L6|].
    intros E. by apply Hne, (L7 j i q pc m).
  - intros j k p q m [[-> ->]|[Hnj Hp]]%Hj [[-> ->]|[Hnk Hq]]%Hj Mp Mq; [done|..|by eapply L7].
    + destruct (V9 m Mp) as [_ [E|E]]; [by eapply L7|]. by destruct E; eapply L6.
    + destruct (V9 m Mq) as [_ [E|E]]; [by eapply L7|]. by destruct E; eapply L6.
Qed.

Lemma count_small s : lock_ok s -> u64 (acquisitions (prof s)) = acquisitions (prof s).
Proof. intros H. rewrite (lo_count _ H). apply Z.mod_mod. lia. Qed.
Lemma sum_small s w : lock_ok s -> u64 (sum_ns w (prof s)) = sum_ns w (prof s).
Proof. intros H. rewrite (lo_sum _ H). apply Z.mod_mod. lia. Qed.

Ltac settle :=
  intros; repeat match goal with w : what |- _ => destruct w end; cbn in *;
  match goal with
  | |- acquisitions _ = u64 _ => first [f_equal; lia|rewrite <- count_small at 1 by done; f_equal; lia]
  | |- wait_ns _ = u64 _ => first [f_equal; lia|rewrite <- (sum_small _ Wait) at 1 by done; cbn; f_equal; lia]
  | |- hold_ns _ = u64 _ => first [f_equal; lia|rewrite <- (sum_small _ Hold) at 1 by done; cbn; f_equal; lia]
  | |- u64 _ = u64 _ => f_equal; lia
  | |- ?x :: ?l = ?l \/ _ => right; by exists x
  | |- _ ∈ locked _ /\ _ => split; [by eapply lo_held|by left]
  | K : forall w ns, _ -> ns ∈ measured w _ |- knows _ _ =>
      split; cbn; [intros ???; destruct_and?; subst; cbn; first [done|by apply (K Wait)|by apply (K Hold)|apply elem_of_cons; by left]
                  |intros * E; first [discriminate E|injection E as <- <- <- <- <-; cbn; lia]]
  | |- _ ∈ {[_]} ∪ _ /\ _ => split; [|right]; set_solver
  | |- _ ∈ _ ∖ {[_]} => set_solver
  | |- _ ∈ _ ∪ _ => set_solver
  | |- _ \/ _ <= _ => destruct_and?; subst; first [done|by left|right; lia]
  | |- _ => try done; auto; try lia
  end.

Lemma lock_step_ok i m weak s s' : lock_ok s -> lock_step i m weak s = Some s' -> lock_ok s'.
Proof.
  intros Hs E. unfold lock_step in E. destruct (threads s !! i) as [pc|] eqn:Hi; [|done]. cbn in E.
  destruct (lo_knows _ Hs i pc Hi) as [K1 K2].
  destruct pc as [|m' t0|m' t0|m' t1 wait|w m' t1 ns|w m' t1 ns|w m' t1 ns cur|m' t1|m'].
  2: case_bool_decide.
  8: specialize (K2 _ _ _ _ _ eq_refl); destruct (cur <? ns) eqn:Hlt; [destruct (max_ns w (prof s) =? cur) eqn:Hmax; cbn [andb] in E; [destruct weak; cbn [negb] in E|]|].
  all: simplify_eq.
  all: eapply (move_ok i _ _ s); [done|done|reflexivity|]; split; settle.
Qed.

Lemma any_lock_step_ok s s' : lock_ok s -> any_lock_step s s' -> lock_ok s'.
Proof.
  intros Hs Ht. destruct Ht as [i m weak s s' E|t s _]; [by eapply lock_step_ok|].
  destruct Hs. by split.
Qed.

(** ** The loop ends *)

(** A thread with no measurement under way. *)
Definition settled (pc : lock_pc) : bool :=
  match pc with Counting _ _ _ | Adding _ _ _ _ | Loading _ _ _ _ | Comparing _ _ _ _ _ => false | _ => true end.

Abbreviation own_steps i := (rtc (fun s s' => exists m, lock_step i m false s = Some s')).

Lemma own_step i m s s' (P : lock_sys -> Prop) :
  lock_step i m false s = Some s' -> (exists s'', own_steps i s' s'' /\ P s'') -> exists s'', own_steps i s s'' /\ P s''.
Proof. intros E (s'' & H & HP). exists s''. split; [|done]. eapply rtc_l; [by exists m|exact H]. Qed.

Definition at_rest (i : Z) (s : lock_sys) : Prop := exists pc, threads s !! i = Some pc /\ settled pc = true.

Lemma here i s : at_rest i s -> exists s', own_steps i s s' /\ at_rest i s'.
Proof. intros H. exists s. split; [apply rtc_refl|exact H]. Qed.

Lemma added_settled w m t1 : settled (added w m t1) = true.
Proof. by destruct w. Qed.

Lemma comparing_ends i w m t1 ns cur s :
  threads s !! i = Some (Comparing w m t1 ns cur) -> exists s', own_steps i s s' /\ at_rest i s'.
Proof.
  assert (forall s cur, threads s !! i = Some (Comparing w m t1 ns cur) -> ns <= cur \/ max_ns w (prof s) = cur ->
    exists s', own_steps i s s' /\ at_rest i s') as Hlast.
  { intros s0 c Hi Hc.
    assert (exists p, lock_step i 0 false s0 = Some (at_pc i (added w m t1) (with_prof p s0))) as [p E].
    { unfold lock_step. rewrite Hi. cbn. destruct (c <? ns) eqn:E; [|by exists (prof s0); destruct s0].
      rewrite (proj2 (Z.eqb_eq _ _)) by lia. by eexists. }
    eapply own_step; [exact E|]. apply here. eexists. split; [apply lookup_insert_eq|apply added_settled]. }
  intros Hi. destruct (decide (ns <= cur \/ max_ns w (prof s) = cur)) as [H|H]; [by eapply Hlast|].
  eapply (own_step i 0).
  { unfold lock_step. rewrite Hi. cbn. rewrite (proj2 (Z.ltb_lt _ _)), (proj2 (Z.eqb_neq _ _)) by lia. reflexivity. }
  eapply Hlast; [apply lookup_insert_eq|by right].
Qed.

Lemma measurement_ends i pc s : threads s !! i = Some pc -> exists s', own_steps i s s' /\ at_rest i s'.
Proof.
  intros Hi.
  assert (forall w m t1 ns s, threads s !! i = Some (Loading w m t1 ns) -> exists s', own_steps i s s' /\ at_rest i s') as HL.
  { intros w m t1 ns s0 H. eapply (own_step i 0); [unfold lock_step; by rewrite H|]. eapply comparing_ends, lookup_insert_eq. }
  assert (forall w m t1 ns s, threads s !! i = Some (Adding w m t1 ns) -> exists s', own_steps i s s' /\ at_rest i s') as HA.
  { intros w m t1 ns s0 H. eapply (own_step i 0); [unfold lock_step; by rewrite H|]. eapply HL, lookup_insert_eq. }
  destruct pc; try (by apply here; eexists); [|by eapply HA|by eapply HL|by eapply comparing_ends].
  eapply (own_step i 0); [unfold lock_step; by rewrite Hi|]. eapply HA, lookup_insert_eq.
Qed.

Lemma measured_owed w s : lock_ok s -> map_Forall (fun _ pc => settled pc = true) (threads s) ->
  sum_ns w (prof s) = u64 (foldr Z.add 0 (measured w s)) /\ max_ns w (prof s) = foldr Z.max 0 (measured w s).
Proof.
  intros Hs Hq. split.
  - rewrite (lo_sum s Hs), owed_zero; [by rewrite Z.sub_0_r|]. intros i pc Hi. specialize (Hq i pc Hi). by destruct pc, w.
  - assert (forall ns, ns ∈ measured w s -> ns <= max_ns w (prof s)) as Hall.
    { intros ns Hns. destruct (lo_reached s Hs w ns Hns) as [|(i & pc & Hi & Hp)]; [done|]. specialize (Hq i pc Hi). by destruct pc. }
    destruct (lo_max s Hs w) as [H0 Hin]. revert Hall H0 Hin. generalize (measured w s), (max_ns w (prof s)). intros l x Hall H0 Hin.
    assert (forall l, (forall ns, ns ∈ l -> ns <= x) -> foldr Z.max 0 l <= x) as Hle.
    { induction l0 as [|y l0 IH]; cbn; intros Hy; [lia|]. apply Z.max_lub; [apply Hy; by left|apply IH; intros; apply Hy; by right]. }
    assert (forall l y, y ∈ l \/ y = 0 -> y <= foldr Z.max 0 l) as Hge.
    { induction l0 as [|z l0 IH]; cbn; intros y [Hy|Hy]; [by apply elem_of_nil in Hy|lia| |].
      - apply elem_of_cons in Hy as [->|Hy]; [lia|]. specialize (IH y (or_introl Hy)). lia.
      - specialize (IH y (or_intror Hy)). lia. }
    specialize (Hle l Hall). specialize (Hge l x ltac:(tauto)). lia.
Qed.

(** The lock profile is exact: however the threads that share a profile
    interleave, at every access to its atomics and whatever spurious failures
    the compare-exchanges have, no two threads are inside the same mutex, and
    whenever no thread is in the middle of a measurement the profile holds the
    number of acquisitions, the sums of the measured times modulo [2^64] and
    their maxima; and a thread that is in the middle of one ends it by a few
    steps of its own. *)
Theorem lock_profile_exact ids t s :
  rtc any_lock_step (lock_init ids t) s ->
  (forall i j p q m, threads s !! i = Some p -> threads s !! j = Some q ->
     in_mutex p = Some m -> in_mutex q = Some m -> i = j) /\
  (map_Forall (fun _ pc => settled pc = true) (threads s) ->
   acquisitions (prof s) = u64 (Z.of_nat (length (waited s))) /\
   forall w, sum_ns w (prof s) = u64 (foldr Z.add 0 (measured w s)) /\ max_ns w (prof s) = foldr Z.max 0 (measured w s)) /\
  (forall i pc, threads s !! i = Some pc -> exists s', own_steps i s s' /\ at_rest i s').
Proof.
  intros Hr. assert (lock_ok s) as Hs.
  { pose proof (lock_init_ok ids t) as H0. induction Hr; [done|]. eauto using any_lock_step_ok. }
  split; [apply (lo_apart s Hs)|]. split; [|intros i pc; apply measurement_ends].
  intros Hq. split; [|intros w; by apply measured_owed].
  rewrite (lo_count s Hs), owed_zero; [by rewrite Z.sub_0_r|]. intros i pc Hi. specialize (Hq i pc Hi). by destruct pc.
Qed.

(** Two threads on one mutex: the second waits while the first holds it. *)
Definition demo_run : list (Z * Z) := (* thread, clock *)
  [(1, 100); (1, 100); (2, 105); (1, 107); (1, 107); (1, 107); (1, 107); (1, 107); (1, 130); (1, 130); (1, 130); (1, 130); (1, 130);
   (2, 130); (2, 135); (2, 135); (2, 135); (2, 135); (2, 135)].
Definition tick_to (t : Z) (s : lock_sys) : lock_sys := mkLockSys (prof s) (locked s) (threads s) t (waited s) (held s).
Fixpoint replay (l : list (Z * Z)) (s : lock_sys) : option lock_sys :=
  match l with
  | [] => Some s
  | (i, t) :: l => if now s <=? t then s' ← lock_step i 7 false (tick_to t s); replay l s' else None
  end.
Lemma replay_steps l : forall s s', replay l s = Some s' -> rtc any_lock_step s s'.
Proof.
  induction l as [|[i t] l IH]; cbn [replay]; intros s s' E; [by simplify_eq; apply rtc_refl|].
  destruct (now s <=? t) eqn:Ht; [|done]. apply Z.leb_le in Ht. destruct (lock_step i 7 false (tick_to t s)) as [s1|] eqn:E1; [|done].
  eapply rtc_l; [by apply (lock_clock t)|]. eapply rtc_l; [by eapply (lock_thread i 7 false)|by apply IH].
Qed.

Lemma lock_profile_exact_witness : exists s,
  rtc any_lock_step (lock_init {[1; 2]} 100) s /\ acquisitions (prof s) = 2 /\
  sum_ns Wait (prof s) = 37 /\ max_ns Wait (prof s) = 30 /\ sum_ns Hold (prof s) = 23.
Proof.
  assert ((fun s => (waited s, held s, bool_decide (map_Forall (fun _ pc => settled pc = true) (threads s)))) <$>
    replay demo_run (lock_init {[1; 2]} 100) = Some ([30; 7], [23], true)) as Hv by (vm_compute; reflexivity).
  destruct (replay demo_run (lock_init {[1; 2]} 100)) as [s|] eqn:E; [|done]. injection Hv as Ew Eh Eq.
  exists s. pose proof (replay_steps _ _ _ E) as Hr. split; [exact Hr|].
  destruct (lock_profile_exact _ _ _ Hr) as (_ & H & _). destruct (H (bool_decide_eq_true_1 _ Eq)) as [-> Hw].
  destruct (Hw Wait) as [-> ->], (Hw Hold) as [-> _]. cbn [measured]. rewrite Ew, Eh. split; [reflexivity|]. split; [reflexivity|]. by split.
Defined.
