(* ===== verification/BusThread.v ===== *)
(** * The life of the bus clock's thread
      (src/src/peripherals/BusClock.cpp, BusClock.hpp)

    [start] and [stop] make and join the thread that runs [run]; other threads
    may wait for its next tick.  [running_] and [tick_count_] are atomics that
    change without the mutex of [wait_for_tick], so the model is a transition
    relation with a step for each access.  What an iteration of [run] does to
    the devices is in [Smp]; here it is the ticks it counts and announces. *)
From S2P Require Import Prelude.

#[local] Open Scope Z_scope.

Section bus_clock.
(** Frequencies, and registered devices. *)
Context {F D : Type}.

(** [run]: before it reads the frequency; at its loop; in an iteration; between
    counting a tick and [notify_all]; past the loop. *)
Inductive run_pc := RunStart | RunHead (freq : F) | RunBody (freq : F) | RunNotify (freq : F) | RunEnd.

(** [wait_for_tick], with the tick number it was given: about to test its
    predicate; about to block on [cv_]; blocked; past the wait; and returned
    with the number it leaves. *)
Inductive tick_pc := TickTest (l : Z) | TickBlock (l : Z) | TickAsleep (l : Z) | TickExit (l : Z) | TickDone (l : Z).

(** The thread that calls [start] and [stop]: in [stop] before [join], and
    before [notify_all]. *)
Inductive owner_pc := OwnerIdle | OwnerJoin | OwnerNotify.

Record bus_clock := mkBusClock {
  clock_freq_hz_ : F; devices_ : list D; running_ : bool; thread_ : option run_pc; tick_count_ : Z;
  bc_owner : owner_pc; bc_waiters : gmap Z tick_pc }.

Definition BusClock_new (freq : F) : bus_clock := mkBusClock freq [] false None 0 OwnerIdle ∅.

Definition set_frequency (freq : F) (s : bus_clock) : bus_clock :=
  mkBusClock freq (devices_ s) (running_ s) (thread_ s) (tick_count_ s) (bc_owner s) (bc_waiters s).
Definition get_frequency (s : bus_clock) : F := clock_freq_hz_ s.
Definition add_device (d : D) (s : bus_clock) : bus_clock :=
  mkBusClock (clock_freq_hz_ s) (devices_ s ++ [d]) (running_ s) (thread_ s) (tick_count_ s) (bc_owner s) (bc_waiters s).
Definition clear_devices (s : bus_clock) : bus_clock :=
  mkBusClock (clock_freq_hz_ s) [] (running_ s) (thread_ s) (tick_count_ s) (bc_owner s) (bc_waiters s).
Definition current_tick (s : bus_clock) : Z := tick_count_ s.

Definition start (s : bus_clock) : bus_clock :=
  if running_ s then s
  else mkBusClock (clock_freq_hz_ s) (devices_ s) true (Some RunStart) (tick_count_ s) (bc_owner s) (bc_waiters s).

(** [cv_.notify_all()]. *)
Definition woken_waiter (w : tick_pc) : tick_pc := match w with TickAsleep l => TickTest l | _ => w end.
Definition notify_all (s : bus_clock) : bus_clock :=
  mkBusClock (clock_freq_hz_ s) (devices_ s) (running_ s) (thread_ s) (tick_count_ s) (bc_owner s) (woken_waiter <$> bc_waiters s).

Definition owner_at (pc : owner_pc) (r : bool) (t : option run_pc) (s : bus_clock) : bus_clock :=
  mkBusClock (clock_freq_hz_ s) (devices_ s) r t (tick_count_ s) pc (bc_waiters s).

(** [stop]: its test and the store, the join, the notification. *)
Definition stop_step (s : bus_clock) : option bus_clock :=
  match bc_owner s with
  | OwnerIdle => Some (if running_ s then owner_at OwnerJoin false (thread_ s) s else s)
  | OwnerJoin =>
      match thread_ s with
      | Some RunEnd | None => Some (owner_at OwnerNotify (running_ s) None s)
      | Some _ => None
      end
  | OwnerNotify => Some (owner_at OwnerIdle (running_ s) (thread_ s) (notify_all s))
  end.

Definition run_at (pc : run_pc) (ticks : Z) (s : bus_clock) : bus_clock :=
  mkBusClock (clock_freq_hz_ s) (devices_ s) (running_ s) (Some pc) ticks (bc_owner s) (bc_waiters s).

(** A step of [run]; [fires]: the timer asks for an interrupt, so that the
    iteration counts a tick. *)
Definition run_step (fires : bool) (s : bus_clock) : option bus_clock :=
  match thread_ s with
  | None | Some RunEnd => None
  | Some RunStart => Some (run_at (RunHead (clock_freq_hz_ s)) (tick_count_ s) s)
  | Some (RunHead f) => Some (run_at (if running_ s then RunBody f else RunEnd) (tick_count_ s) s)
  | Some (RunBody f) =>
      Some (if fires then run_at (RunNotify f) (u64 (tick_count_ s + 1)) s else run_at (RunHead f) (tick_count_ s) s)
  | Some (RunNotify f) => Some (notify_all (run_at (RunBody f) (tick_count_ s) s))
  end.

Definition waiter_at (i : Z) (pc : tick_pc) (s : bus_clock) : bus_clock :=
  mkBusClock (clock_freq_hz_ s) (devices_ s) (running_ s) (thread_ s) (tick_count_ s) (bc_owner s) (<[i := pc]> (bc_waiters s)).

(** A step of [wait_for_tick]; [None]: it is blocked, or has returned. *)
Definition waiter_step (i : Z) (s : bus_clock) : option bus_clock :=
  pc ← bc_waiters s !! i;
  match pc with
  | TickTest l => Some (waiter_at i (if (l <? tick_count_ s) || negb (running_ s) then TickExit l else TickBlock l) s)
  | TickBlock l => Some (waiter_at i (TickAsleep l) s)
  | TickExit l => Some (waiter_at i (TickDone (if running_ s then tick_count_ s else l)) s)
  | TickAsleep _ | TickDone _ => None
  end.

(** Any thread; [spurious] allows a blocked thread to wake by itself.  Fewer
    than [2^64] ticks are counted. *)
Inductive bus_thread_step (spurious : bool) : bus_clock -> bus_clock -> Prop :=
| bt_freq f s : bus_thread_step spurious s (set_frequency f s)
| bt_add d s : bus_thread_step spurious s (add_device d s)
| bt_clear s : bus_thread_step spurious s (clear_devices s)
| bt_start s : bc_owner s = OwnerIdle -> bus_thread_step spurious s (start s)
| bt_stop s s' : stop_step s = Some s' -> bus_thread_step spurious s s'
| bt_run fires s s' : tick_count_ s < 18446744073709551615 -> run_step fires s = Some s' -> bus_thread_step spurious s s'
| bt_wait i l s : bc_waiters s !! i = None -> bus_thread_step spurious s (waiter_at i (TickTest l) s)
| bt_waiter i s s' : waiter_step i s = Some s' -> bus_thread_step spurious s s'
| bt_spurious i l s :
    spurious = true -> bc_waiters s !! i = Some (TickAsleep l) -> bus_thread_step spurious s (waiter_at i (TickTest l) s).

(** ** Starting and stopping *)

Definition runs_on (t : option run_pc) : Prop := exists pc, t = Some pc /\ pc <> RunEnd.
Definition bus_ok (s : bus_clock) : Prop :=
  match bc_owner s with
  | OwnerIdle => if running_ s then runs_on (thread_ s) else thread_ s = None
  | OwnerJoin => running_ s = false /\ is_Some (thread_ s)
  | OwnerNotify => running_ s = false /\ thread_ s = None
  end.

Lemma run_keeps_ok fires s s' : bus_ok s -> run_step fires s = Some s' -> bus_ok s'.
Proof.
  destruct s as [f ds r t n o ws]. unfold bus_ok, run_step. cbn. intros Hs E.
  assert (o <> OwnerNotify) by (intros ->; by destruct Hs as [_ ->]).
  assert (o = OwnerIdle -> r = true) by (intros ->; by destruct r; [|subst t]).
  destruct o; [rewrite (H0 eq_refl) in *|destruct Hs as [-> _]|done];
    destruct t as [[]|]; simplify_eq; cbn; destruct fires; cbn; first [by eexists|split; [done|by eexists]].
Qed.

Lemma bus_thread_step_ok spurious s s' : bus_ok s -> bus_thread_step spurious s s' -> bus_ok s'.
Proof.
  intros Hs Ht.
  destruct Ht as [g s|d s|s|s Ho|s s' E|fires s s' _ E|i l s _|i s s' E|i l s _ _]; try done; try (by eapply run_keeps_ok);
    destruct s as [f ds r t n o ws]; unfold bus_ok in *; cbn in *.
  - subst o. destruct r; cbn; [done|by eexists].
  - unfold stop_step in E. cbn in E. destruct o.
    + destruct r; simplify_eq; cbn; [|done]. destruct Hs as (pc & -> & _). split; [done|by eexists].
    + destruct Hs as [-> _], t as [[]|]; simplify_eq; by cbn.
    + destruct Hs as [-> ->]. by simplify_eq.
  - unfold waiter_step in E. cbn in E. destruct (ws !! i) as [[]|]; cbn in E; by simplify_eq.
Qed.

Definition bus_reachable (spurious : bool) (s : bus_clock) : Prop :=
  exists freq, rtc (bus_thread_step spurious) (BusClock_new freq) s.

Lemma bus_reachable_ok spurious s : bus_reachable spurious s -> bus_ok s.
Proof.
  intros [f Hr]. assert (bus_ok (BusClock_new f)) as H0 by done. induction Hr; [done|]. eauto using bus_thread_step_ok.
Qed.

(** Steps of the bus clock's thread on its own, counting no tick. *)
Abbreviation quiet_runs := (rtc (fun s s' => run_step false s = Some s')).

Lemma run_ends s : running_ s = false -> is_Some (thread_ s) ->
  exists s', quiet_runs s s' /\ thread_ s' = Some RunEnd /\ bc_owner s' = bc_owner s.
Proof.
  destruct s as [f ds r t n o ws]. cbn. intros -> [pc ->].
  assert (forall f g ws, exists s', quiet_runs (mkBusClock f ds false (Some (RunHead g)) n o ws) s' /\
    thread_ s' = Some RunEnd /\ bc_owner s' = o) as Hh by (intros; eexists; by split; [by apply rtc_once|]).
  assert (forall f g ws, exists s', quiet_runs (mkBusClock f ds false (Some (RunBody g)) n o ws) s' /\
    thread_ s' = Some RunEnd /\ bc_owner s' = o) as Hb.
  { intros f0 g ws0. destruct (Hh f0 g ws0) as (s' & H & R). exists s'. split; [|exact R]. by eapply rtc_l. }
  destruct pc as [|g|g|g|]; [|apply Hh|apply Hb| |eexists; by split; [apply rtc_refl|]].
  - destruct (Hh f f ws) as (s' & H & R). exists s'. split; [|exact R]. by eapply rtc_l.
  - destruct (Hb f g (woken_waiter <$> ws)) as (s' & H & R). exists s'. split; [|exact R]. by eapply rtc_l.
Qed.

(** ** Waiting for a tick *)

Abbreviation waiter_runs i := (rtc (fun s s' => waiter_step i s = Some s')).

(** A waiter that is not blocked, for a tick that has come, returns with the
    number of ticks. *)
Lemma waiter_returns i l s :
  bc_waiters s !! i = Some (TickTest l) -> l < tick_count_ s -> running_ s = true ->
  exists s', waiter_runs i s s' /\ bc_waiters s' !! i = Some (TickDone (tick_count_ s)).
Proof.
  destruct s as [f ds r t n o ws]. cbn. intros Hi Hl ->. eexists. split.
  - eapply rtc_l; [unfold waiter_step; cbn; rewrite Hi; cbn; by rewrite (proj2 (Z.ltb_lt _ _))|].
    eapply rtc_l; [unfold waiter_step; cbn; by rewrite lookup_insert_eq|apply rtc_refl].
  - cbn. apply lookup_insert_eq.
Qed.
(** The bus clock can be stopped, and its ticks are heard: in every
    reachable state a clock that runs has its one thread, and starting it again
    does nothing; a call of [stop] waits for a thread that ends by its own
    steps, and then leaves no thread, and no waiter that was blocked, behind; a
    clock that does not run has no thread unless it is just being stopped; and a
    thread that is blocked in [wait_for_tick] when the next tick is counted
    returns from it with that tick's number. *)
Theorem bus_clock_stops spurious s :
  bus_reachable spurious s ->
  (running_ s = true -> runs_on (thread_ s) /\ start s = s) /\
  (bc_owner s = OwnerJoin ->
   exists s1 s2 s3, quiet_runs s s1 /\ stop_step s1 = Some s2 /\ stop_step s2 = Some s3 /\
     bc_owner s3 = OwnerIdle /\ running_ s3 = false /\ thread_ s3 = None /\
     forall i l, bc_waiters s3 !! i <> Some (TickAsleep l)) /\
  (running_ s = false -> bc_owner s <> OwnerJoin -> thread_ s = None) /\
  (forall f i l, thread_ s = Some (RunBody f) -> running_ s = true -> bc_waiters s !! i = Some (TickAsleep l) ->
   l <= tick_count_ s -> 0 <= tick_count_ s < 18446744073709551615 ->
   exists s1 s2 s3, run_step true s = Some s1 /\ run_step true s1 = Some s2 /\ waiter_runs i s2 s3 /\
     bc_waiters s3 !! i = Some (TickDone (tick_count_ s + 1))).
Proof.
  intros Hr%bus_reachable_ok. split; [|split; [|split]].
  - intros E. split; [|unfold start; by rewrite E]. unfold bus_ok in Hr. rewrite E in Hr. by destruct (bc_owner s); [|destruct Hr..].
  - intros E. unfold bus_ok in Hr. rewrite E in Hr. destruct Hr as [Hf Ht]. destruct (run_ends s Hf Ht) as (s1 & Q & T1 & O1).
    assert (running_ s1 = false) as F1.
    { clear -Q Hf. induction Q as [|s s0 s1 H Q IH]; [done|]. apply IH. unfold run_step in H.
      destruct (thread_ s) as [[]|]; by simplify_eq. }
    rewrite E in O1. exists s1. eexists _, _. split; [done|].
    split; [unfold stop_step; by rewrite O1, T1|]. split; [done|]. split_and!; try done.
    intros i l. cbn. rewrite lookup_fmap. by destruct (bc_waiters s1 !! i) as [[]|].
  - intros E Ho. unfold bus_ok in Hr. rewrite E in Hr. by destruct (bc_owner s); [|destruct Ho|destruct Hr].
  - intros f i l Ht Hrun Hi Hl Hn. do 2 eexists.
    destruct (waiter_returns i l (notify_all (run_at (RunBody f) (u64 (tick_count_ s + 1)) (run_at (RunNotify f) (u64 (tick_count_ s + 1)) s))))
      as (s3 & W & E); [cbn; by rewrite lookup_fmap, Hi| |done|].
    + cbn. unfold u64. rewrite Z.mod_small by lia. lia.
    + exists s3. split; [unfold run_step; by rewrite Ht|]. split; [done|]. split; [exact W|]. rewrite E. cbn.
      unfold u64. by rewrite Z.mod_small by lia.
Qed.
End bus_clock.
Arguments run_pc : clear implicits.
Arguments bus_clock : clear implicits.

(** ** A notification that is lost *)

Definition demo_started : bus_clock Z unit := waiter_at 0 (TickTest 0) (start (BusClock_new 50000000)).

(** The waiter tests its predicate, the clock is stopped and notifies, the
    waiter blocks: from then on neither it nor the thread can move, and another
    call of [stop] notifies nobody. *)
Lemma notification_lost : exists s : bus_clock Z unit,
  bus_reachable false s /\ bc_waiters s !! 0 = Some (TickAsleep 0) /\ running_ s = false /\
  waiter_step 0 s = None /\ (forall fires, run_step fires s = None) /\ stop_step s = Some s.
Proof.
  eexists. split.
  { exists 50000000. eapply rtc_l; [by apply bt_start|]. eapply rtc_l; [by apply (bt_wait _ 0 0)|].
    eapply rtc_l; [by apply (bt_waiter _ 0)|]. eapply rtc_l; [by apply bt_stop|].
    do 2 (eapply rtc_l; [by apply (bt_run _ false)|]). do 2 (eapply rtc_l; [by apply bt_stop|]).
    eapply rtc_l; [by apply (bt_waiter _ 0)|]. apply rtc_refl. }
  by split_and!.
Qed.

Lemma bus_clock_stops_witness : exists s1 s2 s3 : bus_clock Z unit,
  let s := run_at (RunBody 50000000) 0 (waiter_at 0 (TickAsleep 0) demo_started) in
  run_step true s = Some s1 /\ run_step true s1 = Some s2 /\ bc_waiters s3 !! 0 = Some (TickDone 1).
Proof.
  assert (bus_reachable false (run_at (RunBody 50000000) 0 (waiter_at 0 (TickAsleep 0) demo_started))) as Hr.
  { exists 50000000. eapply rtc_l; [by apply bt_start|]. eapply rtc_l; [by apply (bt_wait _ 0 0)|].
    do 2 (eapply rtc_l; [by apply (bt_waiter _ 0)|]). do 2 (eapply rtc_l; [by apply (bt_run _ false)|]). apply rtc_refl. }
  destruct (bus_clock_stops false _ Hr) as (_ & _ & _ & H).
  destruct (H 50000000 0 0 eq_refl eq_refl eq_refl ltac:(done) ltac:(done)) as (s1 & s2 & s3 & E1 & E2 & _ & E3).
  by exists s1, s2, s3.
Defined.
