(* ===== verification/LoopTimer.v ===== *)
(** * The loop timer (src/src/LoopTimer.h)

    Statistics of the durations of instructions that the run loop keeps when it
    is compiled with performance monitoring: extremes with the instructions that
    set them, and a running mean and variance in [double]s.  Clock readings are
    arguments; a printed line is a value. *)
From Stdlib Require Import SpecFloat.
From S2P Require Import Prelude Mctrl Tlb Mmu Cpu Instr Fpu Exec Dis DisProofs.

#[local] Open Scope string_scope.
#[local] Open Scope Z_scope.

(** Readings of the clock are in nanoseconds. *)
Record loop_timer := mkLoopTimer {
  startTime : Z; maxTimeInstructions : list (Z * Z); minTimeInstructions : list (Z * Z);
  minDuration : Z; maxDuration : Z; lt_count : Z; lt_mean : spec_float; lt_M2 : spec_float }.

Definition LLONG_MAX : Z := 9223372036854775807.
Definition LLONG_MIN : Z := -9223372036854775808.

Definition LoopTimer_new (t : Z) : loop_timer :=
  mkLoopTimer t [] [] LLONG_MAX LLONG_MIN 0 (S754_zero false) (S754_zero false).

Definition loop_start (t : Z) (l : loop_timer) : loop_timer :=
  mkLoopTimer t (maxTimeInstructions l) (minTimeInstructions l) (minDuration l) (maxDuration l) (lt_count l) (lt_mean l) (lt_M2 l).

(** Welford's update of the mean and of the sum of squared deviations. *)
Definition mean_step (duration count : Z) (mean M2 : spec_float) : spec_float * spec_float :=
  let x := f_of_int binary64 duration in
  let delta := f_sub binary64 x mean in
  let mean := f_add binary64 mean (f_div binary64 delta (f_of_int binary64 count)) in
  (mean, f_add binary64 M2 (f_mul binary64 delta (f_sub binary64 x mean))).

(** [None]: [count] overflows. *)
Definition updateStats (duration instr : Z) (l : loop_timer) : option loop_timer :=
  let is_min := duration <? minDuration l in
  let is_max := maxDuration l <? duration in
  if lt_count l =? 2147483647 then None
  else
    let count := lt_count l + 1 in
    let '(mean, M2) := mean_step duration count (lt_mean l) (lt_M2 l) in
    Some (mkLoopTimer (startTime l)
            (if is_max then maxTimeInstructions l ++ [(instr, duration)] else maxTimeInstructions l)%list
            (if is_min then minTimeInstructions l ++ [(instr, duration)] else minTimeInstructions l)%list
            (if is_min then duration else minDuration l) (if is_max then duration else maxDuration l) count mean M2).

Definition loop_stop (t instr : Z) (l : loop_timer) : option loop_timer := updateStats (t - startTime l) instr l.

(** [None]: a table is read outside its bounds. *)
Definition disGetInstr (opcode : Z) : option string :=
  let fmt_bits := Z.land (Z.shiftr opcode 30) LOBITS2 in
  if fmt_bits =? 1 then Some format1_str
  else if fmt_bits =? 0 then
    (instr ← format2_str !! Z.to_nat (op2 opcode);
     if (op2 opcode =? 4) && (opcode =? NOP) then Some "nop     "
     else if op2 opcode =? 2 then c ← cond_byte !! Z.to_nat (Z.land (rd opcode) 0xf); Some (instr +:+ c)
     else Some instr)%stdpp
  else format3_str !! Z.to_nat (op3 opcode + Z.shiftl (Z.land fmt_bits 1) 6).

Definition f_positive (x : spec_float) : bool := SFltb (S754_zero false) x.

Inductive timer_line :=
| Iterations (n : Z) | MinLine (ns : Z) | MaxLine (ns : Z) | MeanLine (ns : spec_float) | RateLine (mhz : spec_float)
| StddevLine (ns : spec_float) | MaxList (n : nat) | MinList (n : nat) | InstrLine (instr : string) (ns : Z).

Definition instr_lines (l : list (Z * Z)) : option (list timer_line) :=
  mapM (fun m => n ← disGetInstr m.1; Some (InstrLine n m.2))%stdpp l.

Definition printStats (l : loop_timer) : option (list timer_line) :=
  let stddev := if 1 <? lt_count l then f_sqrt binary64 (f_div binary64 (lt_M2 l) (f_of_int binary64 (lt_count l)))
                else S754_zero false in
  let hz := if f_positive (lt_mean l) then f_div binary64 (f_of_int binary64 1000000000) (lt_mean l) else S754_zero false in
  (maxs ← instr_lines (maxTimeInstructions l); mins ← instr_lines (minTimeInstructions l);
   Some ([Iterations (lt_count l); MinLine (minDuration l); MaxLine (maxDuration l); MeanLine (lt_mean l);
          RateLine (f_div binary64 hz (f_of_int binary64 1000000)); StddevLine stddev;
          MaxList (length (maxTimeInstructions l))] ++ maxs ++
         [MinList (length (minTimeInstructions l))] ++ mins)%list)%stdpp.

(** ** Extremes *)

(** The durations [(instr, duration)] measured one after the other. *)
Fixpoint measure (ds : list (Z * Z)) (l : loop_timer) : option loop_timer :=
  match ds with
  | [] => Some l
  | (instr, duration) :: ds => l ← updateStats duration instr l; measure ds l
  end%stdpp.

(** The reference: the measurements that beat all before them. *)
Fixpoint record_setters (beats : Z -> Z -> bool) (seen : list Z) (ds : list (Z * Z)) : list (Z * Z) :=
  match ds with
  | [] => []
  | (instr, d) :: ds =>
      ((if forallb (beats d) seen then [(instr, d)] else []) ++ record_setters beats (seen ++ [d]) ds)%list
  end.

Lemma beats_max d seen : LLONG_MIN < d -> (foldr Z.max LLONG_MIN seen <? d) = forallb (fun e => e <? d) seen.
Proof. intros Hd. induction seen as [|e seen IH]; cbn; [by apply Z.ltb_lt|]. rewrite <- IH. lia. Qed.
Lemma beats_min d seen : d < LLONG_MAX -> (d <? foldr Z.min LLONG_MAX seen) = forallb (fun e => d <? e) seen.
Proof. intros Hd. induction seen as [|e seen IH]; cbn; [by apply Z.ltb_lt|]. rewrite <- IH. lia. Qed.

Lemma max_snoc seen d : foldr Z.max LLONG_MIN (seen ++ [d])%list = Z.max (foldr Z.max LLONG_MIN seen) (Z.max d LLONG_MIN).
Proof. induction seen as [|e seen IH]; cbn; [lia|]. rewrite IH. lia. Qed.
Lemma min_snoc seen d : foldr Z.min LLONG_MAX (seen ++ [d])%list = Z.min (foldr Z.min LLONG_MAX seen) (Z.min d LLONG_MAX).
Proof. induction seen as [|e seen IH]; cbn; [lia|]. rewrite IH. lia. Qed.

Definition measurable (m : Z * Z) : Prop := LLONG_MIN < m.2 < LLONG_MAX.

Lemma extend_if {A} (b : bool) (l r : list A) x :
  ((if b then l ++ [x] else l) ++ r = l ++ (if b then [x] else []) ++ r)%list.
Proof. destruct b; [by rewrite <- app_assoc|done]. Qed.

Lemma measured_from ds : forall seen l,
  Forall measurable ds -> lt_count l + Z.of_nat (length ds) <= 2147483647 ->
  minDuration l = foldr Z.min LLONG_MAX seen -> maxDuration l = foldr Z.max LLONG_MIN seen ->
  exists l', measure ds l = Some l' /\ lt_count l' = lt_count l + Z.of_nat (length ds) /\
    minDuration l' = foldr Z.min LLONG_MAX (seen ++ ds.*2)%list /\ maxDuration l' = foldr Z.max LLONG_MIN (seen ++ ds.*2)%list /\
    maxTimeInstructions l' = (maxTimeInstructions l ++ record_setters (fun d e => e <? d) seen ds)%list /\
    minTimeInstructions l' = (minTimeInstructions l ++ record_setters (fun d e => d <? e) seen ds)%list.
Proof.
  induction ds as [|[i d] ds IH]; intros seen l Hm Hn Hlo Hhi.
  { exists l. cbn. rewrite !app_nil_r. split_and!; try done. lia. }
  apply Forall_cons_1 in Hm as [[Hd1 Hd2] Hm]. cbn [length snd] in *. cbn [measure]. unfold updateStats.
  rewrite (proj2 (Z.eqb_neq _ _)) by lia. destruct (mean_step _ _ _ _) as [mean M2]. cbn [mbind option_bind].
  match goal with |- context [measure ds ?t] => destruct (IH (seen ++ [d])%list t) as (l' & E & H1 & H2 & H3 & H4 & H5) end; cbn.
  - done.
  - lia.
  - rewrite min_snoc, Hlo. destruct (Z.ltb_spec d (foldr Z.min LLONG_MAX seen)); lia.
  - rewrite max_snoc, Hhi. destruct (Z.ltb_spec (foldr Z.max LLONG_MIN seen) d); lia.
  - exists l'. rewrite <- app_assoc in H2, H3. cbn in *. rewrite Hlo, beats_min in H5 by done. rewrite Hhi, beats_max in H4 by done.
    split_and!; try done; [lia|rewrite H4|rewrite H5]; apply extend_if.
Qed.

(** ** Names *)

Lemma instr_named opcode : exists n, disGetInstr opcode = Some n.
Proof.
  unfold disGetInstr. destruct (tables_cover opcode) as ([f Ef] & [c Ec] & [g Eg]).
  destruct (_ =? 1); [by eexists|]. destruct (_ =? 0); [|by eexists]. rewrite Ef, Ec. cbn. repeat case_match; by eexists.
Qed.

Lemma lines_printed l : exists ls, instr_lines l = Some ls /\ length ls = length l.
Proof.
  induction l as [|[i d] l (ls & E & Hl)]; [by eexists|]. destruct (instr_named i) as [n En].
  exists (InstrLine n d :: ls). split; [|by cbn; rewrite Hl]. unfold instr_lines in *. cbn. by rewrite En, E.
Qed.

(** The instructions the timer names as the disassembler does: all but the
    integer instructions, whose special forms the disassembler shows, and the
    branches on floating-point and coprocessor conditions, whose condition the
    timer leaves out. *)
Definition plain_name (opcode : Z) : bool :=
  let fmt := Z.land (Z.shiftr opcode 30) LOBITS2 in
  (fmt =? 1) || (fmt =? 3) || ((fmt =? 0) && (op2 opcode <? 6)).

Lemma name_shown PC opcode st line st' n :
  plain_name opcode = true -> disDecodePrint PC opcode st = Some (line, st') -> disGetInstr opcode = Some n ->
  l_mnemonic line = n.
Proof.
  unfold plain_name, disDecodePrint, disGetInstr. set (fmt := Z.land (Z.shiftr opcode 30) LOBITS2). intros Hp.
  destruct (fmt =? 1) eqn:E1; [by intros [= <- <-] [= <-]|]. destruct (fmt =? 0) eqn:E0.
  - rewrite (proj2 (Z.eqb_neq fmt 3)) in Hp by lia. apply Z.ltb_lt in Hp.
    pose proof (field_range (Z.shiftr opcode 22) 3 ltac:(lia)) as H2. change (Z.ones 3) with LOBITS3 in H2. fold (op2 opcode) in H2.
    destruct (tables_cover opcode) as (_ & [c Ec] & _). rewrite Ec.
    assert (op2 opcode = 0 \/ op2 opcode = 1 \/ op2 opcode = 2 \/ op2 opcode = 3 \/ op2 opcode = 4 \/ op2 opcode = 5) as Ho by lia.
    repeat destruct Ho as [->|Ho]; try rewrite Ho; cbn; unfold dis_format2, disPrintOpcode; cbn;
      [..|]; try (by intros [= <- <-] [= <-]); try (destruct (opcode =? NOP); by intros [= <- <-] [= <-]).
  - destruct (fmt =? 3) eqn:E3; [|done]. destruct (format3_str !! _) as [f|]; [|done]. cbn.
    intros [= <- <-] [= <-]. unfold dis_memory, disPrintOpcode. cbn. apply append_empty.
Qed.

(** The timer's statistics: for up to [2^31 - 1] measurements of durations
    other than the two extreme values, taken in any order, every update
    succeeds; the number of iterations and the two extremes are those of the
    measurements; the two lists name, in order, exactly the instructions whose
    duration beat all before it; and the report can be printed, with one line
    for each of them. *)
Theorem timer_statistics t ds :
  Forall measurable ds -> Z.of_nat (length ds) <= 2147483647 ->
  exists l ls, measure ds (LoopTimer_new t) = Some l /\ lt_count l = Z.of_nat (length ds) /\
    minDuration l = foldr Z.min LLONG_MAX ds.*2 /\ maxDuration l = foldr Z.max LLONG_MIN ds.*2 /\
    maxTimeInstructions l = record_setters (fun d e => e <? d) [] ds /\
    minTimeInstructions l = record_setters (fun d e => d <? e) [] ds /\
    printStats l = Some ls /\
    length ls = (8 + length (maxTimeInstructions l) + length (minTimeInstructions l))%nat.
Proof.
  intros Hm Hn. destruct (measured_from ds [] (LoopTimer_new t)) as (l & E & H1 & H2 & H3 & H4 & H5); [done|cbn; lia|done|done|].
  destruct (lines_printed (maxTimeInstructions l)) as (ls1 & E1 & L1), (lines_printed (minTimeInstructions l)) as (ls2 & E2 & L2).
  exists l. eexists. split; [done|]. split; [done|]. split; [done|]. split; [done|]. split; [done|]. split; [done|].
  split; [unfold printStats; rewrite E1, E2; reflexivity|]. cbn. rewrite length_app. cbn. lia.
Qed.

(** A [nop], a call and a load; the mean is that of the three. *)
Definition demo_measured : list (Z * Z) := [(NOP, 100); (0x40000000, 300); (0xc0000000, 200)].

Lemma timer_statistics_witness : exists l ls, measure demo_measured (LoopTimer_new 0) = Some l /\ printStats l = Some ls /\
  minDuration l = 100 /\ maxTimeInstructions l = [(NOP, 100); (0x40000000, 300)] /\
  lt_mean l = f_of_int binary64 200 /\ InstrLine "call    " 300 ∈ ls.
Proof.
  destruct (timer_statistics 0 demo_measured) as (l & ls & E & _ & Hlo & _ & Hmax & _ & Hp & _);
    [by repeat constructor|by vm_compute|].
  exists l, ls. split; [done|]. split; [done|]. split; [by rewrite Hlo|]. split; [by rewrite Hmax|].
  vm_compute in E. injection E as <-. vm_compute in Hp. injection Hp as <-. split; [by vm_compute|].
  do 8 (apply elem_of_cons; right). apply elem_of_cons. by left.
Defined.
