(* ===== verification/ProfilerReport.v ===== *)
(** * The report of the memory access profiler (src/src/memaccessprofiler.hpp)

    What [dump] prints about the counters of [Profiler].  A printed line is a
    value: its texts, its counters, and the percentages, averages and sizes in
    MiB as the [double]s that are formatted; the number of decimals and the
    padding are not modelled. *)
From Stdlib Require Import SpecFloat.
From stdpp Require Import sorting.
From S2P Require Import Prelude Mctrl Tlb Mmu Cpu Instr Fpu Profiler.

#[local] Open Scope string_scope.
#[local] Open Scope Z_scope.

(** ** Numbers *)

Definition dbl (x : Z) : spec_float := f_of_int binary64 x.

Definition pct (part whole : Z) : spec_float :=
  if truth whole then f_div binary64 (f_mul binary64 (dbl 100) (dbl part)) (dbl whole) else S754_zero false.
Definition mib (bytes : Z) : spec_float :=
  f_div binary64 (dbl bytes) (f_mul binary64 (dbl 1024) (dbl 1024)).
Definition avg (bytes ops : Z) : spec_float :=
  if truth ops then f_div binary64 (dbl bytes) (dbl ops) else S754_zero false.

(** ** Lines *)

Inductive report_line :=
| Text (s : string)
| CountPct (label : string) (part : Z) (percent : spec_float)
| BytesPct (label : string) (bytes : Z) (in_mib percent : spec_float)
| AvgBytes (label : string) (x : spec_float)
| SizeOps (label : string) (by_size : list (Z * spec_float))
| SizeBytes (label : string) (by_size : list (spec_float * spec_float))
| TopHead (n : nat) (what : string) (page_size : option Z)
| PageHead
| PageLine (page addr ops bytes reads writes : Z)
| RangeHead
| RangeLine (first last ops bytes reads writes : Z).

Definition print_count_pct (label : string) (part whole : Z) : report_line := CountPct label part (pct part whole).
Definition print_bytes_pct (label : string) (part whole : Z) : report_line := BytesPct label part (mib part) (pct part whole).

(** The entries for accesses of 1, 2, 4 and 8 bytes. *)
Definition size_at (by_size : list Z) (k : nat) : Z := default 0 (by_size !! k).
Definition print_size_ops (label : string) (by_size : list Z) (total : Z) : report_line :=
  SizeOps label (map (fun k => (size_at by_size k, pct (size_at by_size k) total)) [1; 2; 4; 8]%nat).
Definition print_size_bytes (label : string) (by_size : list Z) (total : Z) : report_line :=
  SizeBytes label
    (map (fun k => let b := u64 (size_at by_size k * Z.of_nat k) in (mib b, pct b total)) [1; 2; 4; 8]%nat).

(** The address is shown for pages of 4 KiB, whatever the size of a page. *)
Definition print_pages (tp : list (Z * PageStat)) : list report_line :=
  PageHead :: map (fun e => PageLine e.1 (shl32 e.1 12) (total_ops e.2) (total_bytes e.2) (ps_reads e.2) (ps_writes e.2)) tp.
Definition print_ranges (tr : list RangeStat) : list report_line :=
  RangeHead :: map (fun r => RangeLine (start_addr r) (end_addr_inclusive r) (total_ops (agg r)) (total_bytes (agg r))
                               (ps_reads (agg r)) (ps_writes (agg r))) tr.

Definition dump (top_n : nat) (p : profiler) : list report_line :=
  let t := totals_ p in
  let ops := u64 (t_reads t + t_writes t) in
  let bytes := u64 (t_read_bytes t + t_write_bytes t) in
  ([Text "MemAccessProfiler"; Text "Totals:";
    print_count_pct "Ops" ops ops; print_count_pct "Reads" (t_reads t) ops; print_count_pct "Writes" (t_writes t) ops;
    Text "Bytes:";
    print_bytes_pct "Total" bytes bytes; print_bytes_pct "Read" (t_read_bytes t) bytes;
    print_bytes_pct "Write" (t_write_bytes t) bytes;
    Text "Avg bytes/op:"; AvgBytes "Reads" (avg (t_read_bytes t) (t_reads t));
    AvgBytes "Writes" (avg (t_write_bytes t) (t_writes t)); AvgBytes "Total" (avg bytes ops);
    Text "Breakdown by access size (ops):";
    print_size_ops "Reads " (r_by_size t) (t_reads t); print_size_ops "Writes" (w_by_size t) (t_writes t);
    Text "Breakdown by access size (bytes):";
    print_size_bytes "Reads " (r_by_size t) (t_read_bytes t); print_size_bytes "Writes" (w_by_size t) (t_write_bytes t);
    TopHead top_n "pages by ops" (Some (page_size_ p))] ++
   print_pages (top_pages_by_ops top_n p) ++
   TopHead top_n "ranges by ops" None :: print_ranges (top_ranges_by_ops top_n p) ++
   TopHead top_n "pages by bytes" None :: print_pages (top_pages_by_bytes top_n p) ++
   TopHead top_n "ranges by bytes" None :: print_ranges (top_ranges_by_bytes top_n p))%list.

(** ** The accesses of each size *)

Definition of_size (op : Op) (k : nat) (l : list access) : Z :=
  Z.of_nat (length (List.filter (fun e => is_op op e && (e.2 =? Z.of_nat k)) l)).
Definition by_size (op : Op) (t : Totals) : list Z := match op with OpRead => r_by_size t | OpWrite => w_by_size t end.

Lemma of_size_snoc op k l e : of_size op k (l ++ [e]) = of_size op k l + if is_op op e && (e.2 =? Z.of_nat k) then 1 else 0.
Proof. unfold of_size. rewrite filter_snoc, length_app, Nat2Z.inj_add. by destruct (_ && _). Qed.

Lemma bump_at arr sz k c :
  k ∈ [1; 2; 4; 8]%nat -> arr !! k = Some (u64 c) ->
  bump_size arr sz !! k = Some (u64 (c + if sz =? Z.of_nat k then 1 else 0)).
Proof.
  intros Hk Ha. unfold bump_size. destruct (sz =? Z.of_nat k) eqn:E.
  - apply Z.eqb_eq in E as ->. rewrite !elem_of_cons in Hk.
    assert (existsb (Z.eqb (Z.of_nat k)) [1; 2; 4; 8] = true) as -> by (destruct Hk as [->|[->|[->|[->|Hk%elem_of_nil]]]]; done).
    rewrite Nat2Z.id, list_lookup_alter, decide_True, Ha by done. cbn. by rewrite u64_add_l.
  - apply Z.eqb_neq in E. rewrite list_lookup_alter, decide_False, Ha, Z.add_0_r; [done|].
    intros <-. destruct (existsb (Z.eqb sz) [1; 2; 4; 8]) eqn:He.
    + apply existsb_exists in He as (x & Hx & ->%Z.eqb_eq). apply E. rewrite Z2Nat.id; [done|]. cbn in Hx. lia.
    + rewrite !elem_of_cons, elem_of_nil in Hk. lia.
Qed.

Lemma sizes_recorded shift l op k :
  k ∈ [1; 2; 4; 8]%nat -> by_size op (totals_ (record_all l (MemAccessProfiler_new shift))) !! k = Some (u64 (of_size op k l)).
Proof.
  intros Hk. induction l as [|[[o a] sz] l IH] using rev_ind.
  - rewrite !elem_of_cons in Hk. destruct op; destruct Hk as [->|[->|[->|[->|Hk%elem_of_nil]]]]; done.
  - unfold record_all in *. rewrite fold_left_app. cbn [fold_left]. rewrite of_size_snoc. set (p := fold_left _ l _) in *.
    destruct op, o; cbn [is_op fst snd andb]; cbn in *; try (by apply bump_at); by rewrite Z.add_0_r.
Qed.

(** ** The busiest pages *)

Lemma ops_both l : ops OpRead l + ops OpWrite l = Z.of_nat (length l).
Proof.
  induction l as [|e l IH] using rev_ind; [done|]. rewrite !ops_snoc, length_app, Nat2Z.inj_add. destruct e as [[[] a] sz]; cbn; lia.
Qed.

(** The first elements of the sorted list beat the others. *)
Lemma top_beats {A} n by_bytes (stat : A -> PageStat) l x y :
  let ranked := merge_sort (busier by_bytes stat) l in
  x ∈ take n ranked -> y ∈ l -> y ∉ take n ranked -> key by_bytes (stat y) <= key by_bytes (stat x).
Proof.
  cbn zeta. set (ranked := merge_sort _ l). intros Hx Hy Hn.
  apply (StronglySorted_app_1_elem_of (busier by_bytes stat) (take n ranked) (drop n ranked)); [|done|].
  - rewrite take_drop. apply StronglySorted_merge_sort.
    + intros a b c Hab Hbc. unfold busier in *. lia.
    + intros a b. unfold busier. destruct (Z.le_ge_cases (key by_bytes (stat a)) (key by_bytes (stat b))); [right|left]; lia.
  - assert (y ∈ ranked) as Hr by (unfold ranked; by rewrite merge_sort_Permutation).
    rewrite <- (take_drop n ranked), elem_of_app in Hr. by destruct Hr.
Qed.

(** A line for a page tells what was recorded for the page. *)
Definition page_told (l : list access) (page addr o b r w : Z) : Prop :=
  let es := accesses_in 12 page l in
  es <> [] /\ o = u64 (Z.of_nat (length es)) /\ b = u64 (bytes_moved OpRead es + bytes_moved OpWrite es) /\
  r = u64 (ops OpRead es) /\ w = u64 (ops OpWrite es) /\
  forall x, is_u32 x -> Z.shiftr x 12 = page <-> addr <= x <= addr + 0xfff.

Lemma listed_told l page st :
  Forall (fun e => is_u32 e.1.2) l -> (page, st) ∈ map_to_list (pages_ (record_all l (MemAccessProfiler_new 12))) ->
  page_told l page (shl32 page 12) (total_ops st) (total_bytes st) (ps_reads st) (ps_writes st).
Proof.
  intros Hl Hin. apply elem_of_map_to_list in Hin. destruct (recorded 12 l) as (_ & _ & Hp). rewrite Hp in Hin. unfold page_told.
  destruct (accesses_in 12 page l) as [|e es] eqn:E; [done|]. injection Hin as <-. split; [done|]. unfold total_ops, total_bytes. cbn [counted ps_reads ps_writes ps_read_bytes ps_write_bytes].
  rewrite !u64_add_l, <- ops_both, (Z.add_comm _ (u64 _)), u64_add_l, Z.add_comm, (Z.add_comm (bytes_moved OpRead _) (u64 _)), u64_add_l, (Z.add_comm (bytes_moved OpWrite _)).
  split; [done|]. split; [done|]. split; [done|]. split; [done|].
  assert (e ∈ accesses_in 12 page l) as He by (rewrite E; by left). unfold accesses_in in He.
  apply list_elem_of_In, filter_In in He as [He <-%Z.eqb_eq]. rewrite Forall_forall in Hl. specialize (Hl e He).
  pose proof (shift_range e Hl) as Hr. intros x Hx. unfold shl32, is_u32 in *. rewrite Z.shiftl_mul_pow2, (Z.shiftr_div_pow2 x) by lia.
  set (q := Z.shiftr e.1.2 12) in *. change (2 ^ 12) with 4096. rewrite u32_id by (unfold is_u32; lia). Z.div_mod_to_equations. lia.
Qed.

(** The report of the memory access profiler tells the truth: after any
    sequence of accesses each line for a page shows a page that was accessed,
    how often and for how many bytes, with reads and writes apart, and the
    address at which the page begins; the pages that are not listed are no
    busier than those that are; and the breakdown by size shows how many reads
    and writes there were of each of the four sizes. *)
Theorem report_true n l :
  Forall (fun e => is_u32 e.1.2) l ->
  let p := record_all l (MemAccessProfiler_new 12) in
  (forall page addr o b r w, PageLine page addr o b r w ∈ dump n p -> page_told l page addr o b r w) /\
  (forall shown other, shown ∈ top_pages_by_ops n p -> pages_ p !! other.1 = Some other.2 -> other ∉ top_pages_by_ops n p ->
     total_ops other.2 <= total_ops shown.2) /\
  (forall op entries, SizeOps (match op with OpRead => "Reads " | OpWrite => "Writes" end) entries ∈ dump n p ->
     entries.*1 = map (fun k => u64 (of_size op k l)) [1; 2; 4; 8]%nat).
Proof.
  intros Hl p.
  assert (forall by_bytes page addr o b r w, PageLine page addr o b r w ∈ print_pages (top_pages n by_bytes p) ->
    page_told l page addr o b r w) as Hpages.
  { intros by_bytes page addr o b r w [H|H]%elem_of_cons; [done|]. apply list_elem_of_fmap in H as ([k st] & E & Hin).
    injection E as -> -> -> -> -> ->. apply listed_told; [done|].
    unfold top_pages in Hin. apply subseteq_take in Hin. by rewrite merge_sort_Permutation in Hin. }
  assert (forall t page addr o b r w, PageLine page addr o b r w ∉ print_ranges t) as Hranges.
  { intros t page addr o b r w [H|H]%elem_of_cons; [done|]. by apply list_elem_of_fmap in H as (? & [=] & _). }
  assert (forall t op entries, SizeOps op entries ∉ print_ranges t) as Hsr.
  { intros t op entries [H|H]%elem_of_cons; [done|]. by apply list_elem_of_fmap in H as (? & [=] & _). }
  assert (forall t op entries, SizeOps op entries ∉ print_pages t) as Hsp.
  { intros t op entries [H|H]%elem_of_cons; [done|]. by apply list_elem_of_fmap in H as (? & [=] & _). }
  split; [|split].
  - intros page addr o b r w Hin. unfold dump in Hin. rewrite !elem_of_app, !elem_of_cons, !elem_of_app, !elem_of_cons, !elem_of_app, !elem_of_cons, elem_of_nil in Hin.
    repeat match type of Hin with _ \/ _ => destruct Hin as [Hin|Hin] end; first [done|by eapply Hpages|by destruct (Hranges _ _ _ _ _ _ _ Hin)].
  - intros shown other Hs Ho Hn. apply (top_beats n false snd (map_to_list (pages_ p)) shown other); [done| |done].
    destruct other as [k st]. by apply elem_of_map_to_list.
  - intros op entries Hin.
    assert (entries = map (fun k => (size_at (by_size op (totals_ p)) k, pct (size_at (by_size op (totals_ p)) k)
      (match op with OpRead => t_reads (totals_ p) | OpWrite => t_writes (totals_ p) end))) [1; 2; 4; 8]%nat) as ->.
    { unfold dump in Hin. rewrite !elem_of_app, !elem_of_cons, !elem_of_app, !elem_of_cons, !elem_of_app, !elem_of_cons, elem_of_nil in Hin.
      destruct op; repeat match type of Hin with _ \/ _ => destruct Hin as [Hin|Hin] end; first [done|by injection Hin|by destruct (Hsr _ _ _ Hin)|by destruct (Hsp _ _ _ Hin)]. }
    unfold size_at. cbn. by rewrite !(sizes_recorded 12 l op) by (apply (bool_decide_eq_true_1 _); reflexivity).
Qed.

Definition demo_accesses : list access := [(OpRead, 0x1ffe, 4); (OpWrite, 0x2000, 4); (OpRead, 0x40000000, 1); (OpRead, 0x1000, 4)].

Lemma report_true_witness :
  PageLine 1 0x1000 2 8 2 0 ∈ dump 1 (record_all demo_accesses (MemAccessProfiler_new 12)) /\
  page_told demo_accesses 1 0x1000 2 8 2 0.
Proof.
  assert (PageLine 1 0x1000 2 8 2 0 ∈ dump 1 (record_all demo_accesses (MemAccessProfiler_new 12))) as H
    by (vm_compute; do 21 (apply elem_of_cons; right); apply elem_of_cons; by left).
  split; [done|]. by apply (report_true 1 demo_accesses ltac:(by repeat constructor)).
Defined.

(** With pages of another size the address shown is not that of the page. *)
Example other_page_size :
  PageLine 1 0x1000 1 4 1 0 ∈ print_pages (top_pages_by_ops 1 (record_all [(OpRead, 0x10000, 4)] (MemAccessProfiler_new 16))).
Proof. vm_compute. apply elem_of_cons. right. apply elem_of_cons. by left. Qed.
